(* ===== verification/_CoqProject ===== *)
-Q . S2P
Prelude.v
PyNum.v
PyVal.v
Registers.v
RegisterFacts.v
RegisterValidation.v
ShippedMaps.v
Loader.v
ShippedFiles.v
Client.v
Poller.v
PollerFacts.v
Database.v
DatabaseFacts.v
Retention.v
Hourly.v
Events.v
StateMachine.v
StateMachineFacts.v
AlarmFacts.v
LoadFacts.v
Ats.v
AtsFacts.v
Control.v
ControlFacts.v
Mock.v
MockFacts.v
AtsControl.v
RateLimit.v
Slack.v
SlackPost.v
Notify.v
PollLoop.v
Http.v
Acceptance.v
Auth.v
Config.v
SettingsApi.v
SettingsFacts.v
Status.v
LiveSocket.v
Api.v
Interlock.v
Routes.v
Commissioning.v
System.v
Boot.v
CreateApp.v
Diagnostics.v
PanelReport.v
Cli.v
Schedule.v
Bench.v
Witnesses.v
PlantWitnesses.v
AppWitnesses.v
BootWitnesses.v
AuthWitnesses.v
RetentionWitnesses.v
ScriptWitnesses.v
