(* ===== verification/Prelude.v ===== *)
(** * GenWatch back end: a verification library

    GenWatch (src/backend/genwatch) is a FastAPI service on a Raspberry Pi that watches
    and commands a Generac H-100 generator controller over Modbus and, where installed, a
    companion device (ATS-Pi) at the transfer switch.  The library models its Python code as
    executable definitions and proves what makes it correct.

    ** The program and how its parts meet

    A [Poller] per device reads the registers that a YAML register map describes, through a
    Modbus client that retries, and hands each decoded reading to a callback.  For the
    generator the callback runs the state machine (engine state, alarms, load source), stores
    telemetry, publishes messages on the event bus and forwards them to Slack; for the
    companion it updates the ATS snapshot, whose authority the state machine and the ATS
    commands consult.  Operators act through HTTP routes: a confirm token is drawn and then
    spent by a command that passes its gates before one Modbus write is made.  Browsers follow
    the bus over a WebSocket.  Retention rolls up and prunes the database.  The settings come
    from config.yaml and the environment and can be edited over HTTP; start-up puts it all
    together.

    ** Files

    Foundations: Prelude (this file: time, the state-and-exception monad [SE], ordered
    dictionaries, deques, strings), PyNum (Python's int and float, with binary64 rounding and
    its number formats), PyVal (trees of YAML and JSON and the built-in conversions).

    Register map (modbus/registers.py): Registers (data, decoding, the bit rules, batching),
    RegisterFacts, RegisterValidation (the validator), Loader (load_register_map),
    ShippedMaps and ShippedFiles (the two maps of src/backend/genwatch/registers, as loaded
    and as files).

    Modbus (modbus/client.py, modbus/poller.py): Client (results, reads with retries, writes;
    the interface [ModbusClient] with its laws, implemented by the TCP and serial clients),
    Mock and MockFacts (MockModbusClient as a third instance), Poller and PollerFacts.

    Storage (db.py, services/retention.py): Database, DatabaseFacts, Retention (the service over
    time, among the other writers), Hourly (its hourly rollups).

    Supervision (services/state.py, services/ats.py): Events (outbox, heap of the shared
    comms records, EventBus), StateMachine ([update] as the composition of its stages),
    StateMachineFacts, AlarmFacts, LoadFacts; Ats, AtsFacts.

    Commands (services/control.py, services/ats_control.py): Control (state [Sys], tokens,
    [execute]), ControlFacts, AtsControl, and Interlock, the abstract machine of grants and
    actuations that all writing code refines.

    Services: RateLimit (services/ratelimit.py), Slack (services/slack.py and the forwarders),
    SlackPost (its HTTP request and what the worker makes of the outcome), Notify
    (services/notify.py and the ticker of main.py), PollLoop (the loops of the poller as the
    ticker sees them, their start and stop).

    HTTP: Http (requests, cross-site filter, roles, login, secret gates: main.py, api/deps.py,
    api/auth.py), Auth (services/auth.py: passwords and session tokens), Config (config.py),
    SettingsApi and SettingsFacts (api/settings.py; state [App]), Status (api/status.py,
    api/telemetry.py, the queries of api/events.py), LiveSocket (api/ws.py), Api (api/control.py,
    api/ats.py, the acknowledgement of api/events.py), Routes (every state-changing request on
    one state [Server]).

    The whole: System (both poll callbacks on one state [Live]), Schedule (polls that overlap),
    Boot (lifespan of main.py), CreateApp (create_app of main.py), Diagnostics, PanelReport and
    Cli (__main__.py); Acceptance (the commissioning script
    deploy/scripts/acceptance_test.py over any service) and Commissioning (over the routes).

    Instances: Bench (a scripted link and a plant built by the modelled code), Witnesses,
    PlantWitnesses, AppWitnesses, BootWitnesses, AuthWitnesses, RetentionWitnesses,
    ScriptWitnesses (each theorem with hypotheses
    applied at a concrete input).

    Definitions carry the names of the source; a class's methods are functions on its record;
    where two stages of one function are separate definitions, the composite keeps the name.

    ** What the theorems show

    - Commands.  [execute] and the ATS commands write only when every gate holds, exactly the
      words of the control, once, with the token spent; tokens are single-use, bound and
      short-lived over any history; refusals change nothing and leave an audit row; releases
      are never blocked by faults (ControlFacts, AtsControl, Api).  Abstractly, the services
      and the HTTP API refine the interlock machine, from any start of the program on
      (Interlock, Routes, Boot).
    - Alarms and state.  Debounce over any history of polls, exact rows of alarms_active, the
      engine state and its log, authority of the ATS position and the rows of its faults
      (AlarmFacts, LoadFacts, AtsFacts).
    - What clients are told.  Replaying the bus yields what the back end serves, in any schedule
      in which nothing overtakes a waiting poll, and how it fails otherwise (System, Schedule);
      the stream of one connection and the life of a dead session (LiveSocket); the push against
      the status route, field by field, with the two fields in which they differ (Status).
    - Registers.  Decoding is total, bounded and inverts the encoding; batches cover and do not
      repeat; the validator is equivalent to well-formedness, up to the overlaps that an empty name
      hides; the loader inverts the dump and
      loads only valid maps (RegisterFacts, RegisterValidation, Loader).
    - Polling.  Attempts, health window, eviction, the heartbeat by what was decoded; the watchdog pings exactly while
      polls complete, which the loops see to (Client, PollerFacts, Notify, PollLoop).
    - Configuration.  Layering, validation, merge of edits, secrecy, hot reload everywhere or
      nowhere (Config, SettingsFacts); start-up guarantees and the settings that have no effect
      (Boot).
    - Requests without authority.  Spelled out apart from the gates of the program: a request is
      refused and changes nothing unless it is safe, of a trusted origin or carries the custom
      header, and presents a valid session of a role its route takes (Http, Routes).
    - Bounds and termination.  Login guesses whatever the clients try, the Slack queue, telemetry queries, pruning, scans
      (RateLimit, Http, Slack, DatabaseFacts, Status, Diagnostics).
    - The mock controller shows what it is and obeys the commands (MockFacts).
    - History.  Every minute is rolled up from its samples, all of them unless a rollup window
      begins inside it (Retention); every hour ends up rolled up from its last minutes only, as
      the windows pass through it (Hourly).
    - Slack.  What a post comes to is taken as posted or refused exactly when Slack said so; an
      outage costs a message four posts and no more (SlackPost).
    - Command line.  Complete scans and dumps, the report of panel, its sheet that text of the map
      cannot mark up, the printed password hash (Diagnostics, PanelReport, Cli); which files the
      user interface serves (CreateApp).
    - Commissioning.  The acceptance script drives nothing it was not asked to, and cannot pass
      (Commissioning, Acceptance).

    ** Conventions and bounds

    Clock readings are integers of nanoseconds; the several readings of one call without a
    suspension are one.  Code between two awaits is one step; asyncio locks make the operations
    that hold them one step.  The worker of Slack takes a message in one step and has the result of
    its send in another.  The swaps of a register reload are one step, although two awaited locks
    lie between them.  A WebSocket send that raises is the end of the connection: the message taken
    goes with the queue of the handler.  The rate limiter's floats are exact rationals.
    Register values are Python numbers: scaled ones are the rounded
    binary64 product, comparisons are exact.  Sets are iterated in an order that is a parameter
    ([SetOrder]) wherever the source iterates over a Python set.  Objects shared by reference and
    mutated (CommsHealth) live in a heap and are reached by location.  Fuel appears in the number
    formats (digits), in the chunked prune (one more than the rows), in the scan loop (one per
    address) and in its summary (one per register); each is proved to be enough where a theorem
    depends on it.

    ** Parameters

    pymodbus ([Link], [Dialer]), bcrypt and the JWT library (arguments of Http and Routes; [Bcrypt]
    and [Jwt] with their laws in Auth), the YAML reader and writer, pydantic and pydantic-settings ([Pydantic], [SettingsMerge] with
    their laws), opening the SQLite file, opening a URL and decoding its answer (SlackPost), the
    datagram socket of systemd, [math.sin] and the length of sleeps (Mock), random tokens.

    ** Not modelled

    The TypeScript front end; SQLite itself (connections, WAL checkpoints, disk errors, file
    size), the Modbus sockets, logging and uvicorn
    (input and output); the argument parsers of the sub-commands, the hints doctor prints, the
    progress of scan and the fixed frame of the HTML sheet (text only); the details printed
    beside a row of the acceptance script; failures of the file system while config.yaml is
    replaced; sections of config.yaml that share a YAML alias (trees have no sharing); the CORS headers, which Starlette sends. *)

From Stdlib Require Export ZArith QArith Lia.
From stdpp Require Export base tactics option list gmap strings pretty sorting.

#[global] Set Default Goal Selector "!".

(** ** Notations *)

Declare Scope gw_scope.
Delimit Scope gw_scope with gw.

(** String concatenation and the f-string pieces of the source. *)
Notation "a +:+ b" := (String.append a b)
  (at level 60, right associativity, only parsing) : gw_scope.

(** ** Time

    Clock readings ([time.time()], [time.monotonic()], [time.perf_counter()])
    are integers of nanoseconds, the resolution of the clocks under them. *)

Definition sec (n : Z) : Z := (n * 1000000000)%Z.
Definition msec (n : Z) : Z := (n * 1000000)%Z.

(** ** The state-and-exception monad

    [SE S E A] threads a state [S] through a computation that returns an [A] or
    raises an [E].  A raised exception keeps the state reached so far, as an
    exception in Python does not undo the mutations made before it. *)

Definition SE (S E A : Type) : Type := S -> (E + A) * S.

Section SE_ops.
Context {S E : Type}.

Definition se_ret {A} (a : A) : SE S E A := fun s => (inr a, s).
Definition se_bind {A B} (m : SE S E A) (k : A -> SE S E B) : SE S E B :=
  fun s => match m s with
           | (inl e, s') => (inl e, s')
           | (inr a, s') => k a s'
           end.
Definition raise {A} (e : E) : SE S E A := fun s => (inl e, s).
Definition gets {A} (f : S -> A) : SE S E A := fun s => (inr (f s), s).
Definition modify (f : S -> S) : SE S E unit := fun s => (inr tt, f s).
End SE_ops.

Notation "x <-- m ;; k" := (se_bind m (fun x => k))
  (at level 100, m at next level, right associativity) : gw_scope.
Notation "m ;;; k" := (se_bind m (fun _ => k))
  (at level 100, right associativity) : gw_scope.

Section SE_laws.
Context {S E : Type}.

Lemma se_bind_ret_l {A B} (a : A) (k : A -> SE S E B) s :
  se_bind (se_ret a) k s = k a s.
Proof. reflexivity. Qed.

Lemma se_bind_raise {A B} (e : E) (k : A -> SE S E B) s :
  se_bind (raise e) k s = (inl e, s).
Proof. reflexivity. Qed.

Lemma se_bind_modify {B} f (k : unit -> SE S E B) s :
  se_bind (modify f) k s = k tt (f s).
Proof. reflexivity. Qed.

Lemma se_bind_gets {A B} (f : S -> A) (k : A -> SE S E B) s :
  se_bind (gets f) k s = k (f s) s.
Proof. reflexivity. Qed.

Lemma se_bind_assoc {A B C} (m : SE S E A) (k : A -> SE S E B) (h : B -> SE S E C) s :
  se_bind (se_bind m k) h s = se_bind m (fun a => se_bind (k a) h) s.
Proof. unfold se_bind. by destruct (m s) as [[?|?] ?]. Qed.

(** A successful sequence splits at its first step. *)
Lemma se_bind_inr {A B} (m : SE S E A) (k : A -> SE S E B) s b s'' :
  se_bind m k s = (inr b, s'') ->
  exists a s', m s = (inr a, s') /\ k a s' = (inr b, s'').
Proof. unfold se_bind. destruct (m s) as [[?|a] s']; naive_solver. Qed.

(** A first step whose outcome is known. *)
Lemma se_bind_pass {A B} (m : SE S E A) (k : A -> SE S E B) s a s1 r s' :
  m s = (inr a, s1) -> se_bind m k s = (r, s') -> k a s1 = (r, s').
Proof. intros Hm. unfold se_bind. by rewrite Hm. Qed.

Lemma se_bind_stop {A B} (m : SE S E A) (k : A -> SE S E B) s e s1 r s' :
  m s = (inl e, s1) -> se_bind m k s = (r, s') -> r = inl e /\ s' = s1.
Proof. intros Hm. unfold se_bind. rewrite Hm. by intros [= <- <-]. Qed.
End SE_laws.

(** ** Tactics *)

(** Case analysis on the scrutinee of a [match] or [if] of the goal or of [H]. *)
Ltac dmatch :=
  match goal with
  | |- context [match ?x with _ => _ end] => destruct x eqn:?
  end.

Ltac dmatch_in H :=
  match type of H with
  | context [match ?x with _ => _ end] => destruct x eqn:?
  end.

(** Boolean tests of the executable definitions to propositions. *)
Ltac breflect :=
  repeat match goal with
  | H : (_ && _)%bool = true |- _ => apply andb_prop in H as [? ?]
  | H : (_ && _)%bool = false |- _ => apply andb_false_iff in H
  | H : (_ || _)%bool = true |- _ => apply orb_prop in H
  | H : (_ || _)%bool = false |- _ => apply orb_false_elim in H as [? ?]
  | H : negb _ = true |- _ => apply negb_true_iff in H
  | H : negb _ = false |- _ => apply negb_false_iff in H
  | H : bool_decide _ = true |- _ => apply bool_decide_eq_true in H
  | H : bool_decide _ = false |- _ => apply bool_decide_eq_false in H
  | H : (_ <? _)%Z = true |- _ => apply Z.ltb_lt in H
  | H : (_ <? _)%Z = false |- _ => apply Z.ltb_ge in H
  | H : (_ <=? _)%Z = true |- _ => apply Z.leb_le in H
  | H : (_ <=? _)%Z = false |- _ => apply Z.leb_gt in H
  | H : (_ =? _)%Z = true |- _ => apply Z.eqb_eq in H
  | H : (_ =? _)%Z = false |- _ => apply Z.eqb_neq in H
  | H : (_ =? _)%string = true |- _ => apply String.eqb_eq in H
  | H : (_ =? _)%string = false |- _ => apply String.eqb_neq in H
  end.

Create HintDb gw.

(** ** Lists *)

Lemma Forall_snoc {A} (P : A -> Prop) l x :
  Forall P l -> P x -> Forall P (l ++ [x]).
Proof. intros. apply Forall_app; auto. Qed.
#[export] Hint Resolve Forall_snoc : gw.

Lemma app_cons_snoc {A} (l : list A) x k : l ++ x :: k = (l ++ [x]) ++ k.
Proof. by rewrite <- app_assoc. Qed.

Lemma last_default {A} (l : list A) x d d' : List.last (x :: l) d = List.last (x :: l) d'.
Proof. revert x. induction l as [|y l IH]; intros x; [done|]. apply IH. Qed.

Lemma last_cons_default {A} (u t : A) l : List.last (u :: l) t = List.last l u.
Proof.
  destruct l as [|v l]; [done|]. change (List.last (u :: v :: l) t) with (List.last (v :: l) t).
  apply last_default.
Qed.

(** What every step of a fold preserves, the fold preserves. *)
Lemma foldl_preserves {A B C} (f : A -> C) (g : A -> B -> A) l a :
  (forall a b, f (g a b) = f a) -> f (foldl g a l) = f a.
Proof. intros Hg. revert a. induction l as [|b l IH]; intros a; [done|]. cbn. by rewrite IH, Hg. Qed.

Lemma foldl_invariant {A B} (P : A -> Prop) (g : A -> B -> A) l a :
  (forall a b, b ∈ l -> P a -> P (g a b)) -> P a -> P (foldl g a l).
Proof.
  revert a. induction l as [|b l IH]; intros a Hg Ha; [done|]. cbn.
  apply IH; [intros; apply Hg; [by right|done]|]. apply Hg; [by left|done].
Qed.

(** A key that is unique in a list determines the entry. *)
Lemma NoDup_map_inj {A B} (f : A -> B) l a b :
  NoDup (map f l) -> a ∈ l -> b ∈ l -> f a = f b -> a = b.
Proof.
  induction l as [|x l IH]; [by intros _ Ha%elem_of_nil|]. cbn.
  intros [Hx Hnd]%NoDup_cons [->|Ha]%elem_of_cons [->|Hb]%elem_of_cons E; [done| | |by apply IH].
  - destruct Hx. rewrite E. by apply list_elem_of_fmap_2.
  - destruct Hx. rewrite <- E. by apply list_elem_of_fmap_2.
Qed.

(** [collections.deque(maxlen=n).append(x)]: the oldest entries fall off. *)
Definition deque_push {A} (n : nat) (x : A) (l : list A) : list A :=
  let l' := l ++ [x] in drop (length l' - n) l'.

Lemma deque_push_length {A} n (x : A) l :
  length (deque_push n x l) = Nat.min n (S (length l)).
Proof. unfold deque_push. rewrite length_drop, length_app. simpl. lia. Qed.

Lemma deque_push_bound {A} n (x : A) l : (length (deque_push n x l) <= n)%nat.
Proof. rewrite deque_push_length. lia. Qed.
#[export] Hint Resolve deque_push_bound : gw.

(** Pushing on the last [n] of a history gives the last [n] of the longer history. *)
Lemma deque_push_history {A} n (x : A) l :
  deque_push n x (drop (length l - n) l) = drop (length (l ++ [x]) - n) (l ++ [x]).
Proof.
  unfold deque_push. rewrite !length_app, length_drop, !drop_app, skipn_skipn, length_drop. cbn [length].
  destruct (le_lt_dec n (length l)); (f_equal; [f_equal; lia|f_equal; lia]).
Qed.

Lemma deque_push_last {A} n (x : A) l :
  (0 < n)%nat -> last (deque_push n x l) = Some x.
Proof.
  intros Hn. unfold deque_push. rewrite length_app. simpl.
  rewrite drop_app_le by lia. apply last_snoc.
Qed.

(** ** Insertion-ordered dictionaries

    A Python [dict] iterates in insertion order; assignment to a present key
    keeps its place.  [odict] is used where the source iterates over a dict,
    stdpp's [gmap] where it only looks keys up. *)

Definition odict (K V : Type) : Type := list (K * V).

Section odict.
Context {K V : Type} `{EqDecision K}.
Implicit Types (d : odict K V) (k : K) (v : V).

Fixpoint od_get k d : option V :=
  match d with
  | [] => None
  | (k', v) :: d' => if decide (k = k') then Some v else od_get k d'
  end.

Fixpoint od_set k v d : odict K V :=
  match d with
  | [] => [(k, v)]
  | (k', v') :: d' => if decide (k = k') then (k', v) :: d' else (k', v') :: od_set k v d'
  end.

Fixpoint od_del k d : odict K V :=
  match d with
  | [] => []
  | (k', v') :: d' => if decide (k = k') then od_del k d' else (k', v') :: od_del k d'
  end.

Definition od_mem k d : bool := match od_get k d with Some _ => true | None => false end.
Definition od_keys d : list K := map fst d.
Definition od_values d : list V := map snd d.

Lemma od_get_set_eq k v d : od_get k (od_set k v d) = Some v.
Proof. induction d as [|[k' v'] d IH]; simpl; repeat (case_decide; simpl); congruence. Qed.

Lemma od_get_set_ne k k' v d : k <> k' -> od_get k (od_set k' v d) = od_get k d.
Proof.
  intros. induction d as [|[k2 v2] d IH]; simpl; repeat (case_decide; simpl); congruence.
Qed.

Lemma od_get_set k k' v d :
  od_get k (od_set k' v d) = if decide (k = k') then Some v else od_get k d.
Proof. case_decide; subst; auto using od_get_set_eq, od_get_set_ne. Qed.

Lemma od_get_del_eq k d : od_get k (od_del k d) = None.
Proof. induction d as [|[k' v'] d IH]; simpl; repeat (case_decide; simpl); congruence. Qed.

Lemma od_get_del_ne k k' d : k <> k' -> od_get k (od_del k' d) = od_get k d.
Proof.
  intros. induction d as [|[k2 v2] d IH]; simpl; repeat (case_decide; simpl); congruence.
Qed.

Lemma od_get_del k k' d :
  od_get k (od_del k' d) = if decide (k = k') then None else od_get k d.
Proof. case_decide; subst; auto using od_get_del_eq, od_get_del_ne. Qed.

Lemma od_get_None k d : od_get k d = None <-> k ∉ od_keys d.
Proof.
  induction d as [|[k' v'] d IH]; simpl.
  - split; [intros _; apply not_elem_of_nil|done].
  - rewrite not_elem_of_cons. case_decide; subst; [|rewrite IH]; split; (done || naive_solver).
Qed.

Lemma od_get_elem k v d : od_get k d = Some v -> (k, v) ∈ d.
Proof.
  induction d as [|[k' v'] d IH]; simpl; [done|].
  case_decide; intros; simplify_eq; set_solver.
Qed.

Lemma od_get_app k d d' : od_get k (d ++ d') = match od_get k d with Some v => Some v | None => od_get k d' end.
Proof. induction d as [|[k' v] d IH]; [done|]. cbn. by case_decide. Qed.

Lemma od_elem_get k v d : NoDup (od_keys d) -> (k, v) ∈ d -> od_get k d = Some v.
Proof.
  induction d as [|[k' v'] d IH]; simpl; [set_solver|].
  intros [Hk Hd]%NoDup_cons. intros [[= -> ->]|Hin]%elem_of_cons.
  - by rewrite decide_True.
  - rewrite decide_False; [auto|]. intros ->. apply Hk.
    apply list_elem_of_fmap. by exists (k', v).
Qed.

Lemma od_keys_set_in k v d : k ∈ od_keys d -> od_keys (od_set k v d) = od_keys d.
Proof.
  induction d as [|[k' v'] d IH]; cbn; intros Hin; [by apply elem_of_nil in Hin|].
  case_decide as Hk; cbn; [done|]. f_equal. apply IH.
  by apply elem_of_cons in Hin as [?|?].
Qed.

Lemma od_keys_set_notin k v d : k ∉ od_keys d -> od_keys (od_set k v d) = od_keys d ++ [k].
Proof.
  induction d as [|[k' v'] d IH]; cbn; intros Hin; [done|].
  apply not_elem_of_cons in Hin as [Hne Hin].
  rewrite decide_False by done. cbn. f_equal. by apply IH.
Qed.

Lemma od_keys_set_NoDup k v d : NoDup (od_keys d) -> NoDup (od_keys (od_set k v d)).
Proof.
  intros Hd. destruct (decide (k ∈ od_keys d)) as [Hk|Hk].
  - by rewrite od_keys_set_in.
  - rewrite od_keys_set_notin by done. apply NoDup_app.
    split_and!; [done|set_solver|apply NoDup_singleton].
Qed.

Lemma od_keys_del_sub k d : od_keys (od_del k d) `sublist_of` od_keys d.
Proof.
  induction d as [|[k' v'] d IH]; simpl; [done|].
  case_decide; simpl; [by apply sublist_cons|by apply sublist_skip].
Qed.

Lemma od_keys_del_NoDup k d : NoDup (od_keys d) -> NoDup (od_keys (od_del k d)).
Proof. intros Hd. eapply sublist_NoDup; [exact Hd|apply od_keys_del_sub]. Qed.

Lemma od_mem_get k d : od_mem k d = true <-> is_Some (od_get k d).
Proof. unfold od_mem. destruct (od_get k d); naive_solver. Qed.

(** Reading the fields of a literal dictionary. *)
Lemma od_get_hd k v d : od_get k ((k, v) :: d) = Some v.
Proof. cbn. by rewrite decide_True. Qed.
Lemma od_get_tl k k' v d : k <> k' -> od_get k ((k', v) :: d) = od_get k d.
Proof. intros Hk. cbn. by rewrite decide_False. Qed.
End odict.

#[export] Hint Resolve od_get_set_eq od_get_del_eq od_keys_set_NoDup od_keys_del_NoDup : gw.
#[export] Hint Rewrite @od_get_set_eq @od_get_del_eq : gw.

(** ** Iteration over a Python [set]

    The iteration order of a set of strings depends on the process's hash seed.
    The definitions that iterate over one take the order as an interface, so a
    theorem about them holds for every order. *)

Class SetOrder := {
  set_iter : gset string -> list string;
  set_iter_perm (X : gset string) : set_iter X ≡ₚ elements X
}.

(** One order, for evaluation: that of [elements]. *)
Definition elements_order : SetOrder :=
  {| set_iter := elements; set_iter_perm := fun X => reflexivity _ |}.

Section set_order.
Context `{SetOrder}.

Lemma elem_of_set_iter x X : x ∈ set_iter X <-> x ∈ X.
Proof. rewrite set_iter_perm. apply elem_of_elements. Qed.

Lemma NoDup_set_iter X : NoDup (set_iter X).
Proof. rewrite set_iter_perm. apply NoDup_elements. Qed.
End set_order.

#[export] Hint Resolve NoDup_set_iter : gw.

(** ** Strings *)

Definition ascii_upper (c : Ascii.ascii) : Ascii.ascii :=
  let n := Ascii.nat_of_ascii c in
  if andb (97 <=? n)%nat (n <=? 122)%nat then Ascii.ascii_of_nat (n - 32) else c.
Definition ascii_lower (c : Ascii.ascii) : Ascii.ascii :=
  let n := Ascii.nat_of_ascii c in
  if andb (65 <=? n)%nat (n <=? 90)%nat then Ascii.ascii_of_nat (n + 32) else c.

Fixpoint str_map (f : Ascii.ascii -> Ascii.ascii) (s : string) : string :=
  match s with
  | EmptyString => EmptyString
  | String c s' => String (f c) (str_map f s')
  end.

(** [str.upper] and [str.lower] on the ASCII names of the register map. *)
Definition str_upper : string -> string := str_map ascii_upper.
Definition str_lower : string -> string := str_map ascii_lower.

(** [sep.join(l)] *)
Definition str_join (sep : string) (l : list string) : string := String.concat sep l.

(** [sub in s], the test of SQL's LIKE '%sub%' as well. *)
Fixpoint str_contains (sub s : string) : bool :=
  orb (String.prefix sub s)
      (match s with EmptyString => false | String _ s' => str_contains sub s' end).

Definition str_startswith (pre s : string) : bool := String.prefix pre s.

(** [sorted(l)] for strings. *)
Definition str_le (a b : string) : Prop := String.leb a b = true.
#[export] Instance str_le_dec : RelDecision str_le.
Proof. intros a b. unfold str_le. apply _. Defined.
Definition str_sorted (l : list string) : list string := merge_sort str_le l.

Lemma elem_of_str_sorted x l : x ∈ str_sorted l <-> x ∈ l.
Proof. unfold str_sorted. by rewrite (merge_sort_Permutation str_le l). Qed.

Definition hex_digit (n : Z) : Ascii.ascii :=
  Ascii.ascii_of_nat (Z.to_nat (if (n <? 10)%Z then 48 + n else 55 + n)).
Fixpoint hex_digits (fuel : nat) (n : Z) (acc : string) : string :=
  match fuel with
  | O => acc
  | S f => let acc' := String (hex_digit (n mod 16)) acc in
           if (n / 16 =? 0)%Z then acc' else hex_digits f (n / 16) acc'
  end.

(** [f"{n:X}"] and [f"{n:04X}"]: the sign counts towards the width. *)
Definition fmt_X (n : Z) : string :=
  if (n <? 0)%Z then String.append "-" (hex_digits 64 (- n) "") else hex_digits 64 n "".
Definition fmt_04X (n : Z) : string :=
  let h := hex_digits 64 (Z.abs n) "" in
  let sgn := if (n <? 0)%Z then "-"%string else ""%string in
  let pad := (4 - String.length sgn - String.length h)%nat in
  String.append sgn (String.append (String.concat "" (repeat "0"%string pad)) h).

(** [hex(n)], and the text of a list of such strings in an f-string. *)
Definition py_hex (n : Z) : string :=
  let h := String.append "0x" (str_lower (hex_digits 64 (Z.abs n) "")) in
  if (n <? 0)%Z then String.append "-" h else h.
Definition py_list_str (l : list string) : string :=
  String.append "["
    (String.append (str_join ", " (map (fun s => String.append "'" (String.append s "'")) l)) "]").

(** [str(n)] of an integer. *)
Definition str_Z (n : Z) : string := pretty n.
