(* ===== verification/PyNum.v ===== *)
(** * Python numbers

    A register value is a Python [int] or [float].  Integers are [Z]; floats are
    IEEE 754 binary64, computed with the Standard Library's [SpecFloat] at
    precision 53 and exponent 1024, so the product [float(v) * reg.scale] is the
    rounded one.  Comparisons between an [int] and a [float] are exact in
    Python, as here: both are compared as rationals.  The file also has the
    number formats of the source's f-strings. *)

From S2P Require Import Prelude.
From Stdlib Require Import SpecFloat Qround.

Local Open Scope Z_scope.

(** ** Values *)

Definition pyfloat : Type := spec_float.

Inductive pynum : Type :=
| PInt (z : Z)
| PFloat (f : pyfloat).

#[export] Instance pyfloat_eq_dec : EqDecision pyfloat.
Proof. solve_decision. Defined.
#[export] Instance pynum_eq_dec : EqDecision pynum.
Proof. solve_decision. Defined.

(** [float(z)] of an integer, and float multiplication and division. *)
Definition f_of_Z (z : Z) : pyfloat := binary_normalize 53 1024 z 0 false.
Definition f_mul : pyfloat -> pyfloat -> pyfloat := SFmul 53 1024.
Definition f_div : pyfloat -> pyfloat -> pyfloat := SFdiv 53 1024.

(** The float literal [n/d] (such as [0.1 = 1/10]): the correctly rounded quotient. *)
Definition flt (n : Z) (d : positive) : pyfloat := f_div (f_of_Z n) (f_of_Z (Zpos d)).

(** [float(x)] *)
Definition py_float (x : pynum) : pyfloat :=
  match x with PInt z => f_of_Z z | PFloat f => f end.

(** ** Exact comparison *)

Inductive ext : Type := ENaN | ENegInf | EFin (q : Q) | EPosInf.

(** The rational a finite float stands for. *)
Definition f_Q (s : bool) (m : positive) (e : Z) : Q :=
  let z := if s then Zneg m else Zpos m in
  if 0 <=? e then inject_Z (z * 2 ^ e) else z # (Z.to_pos (2 ^ (- e))).

Definition f_ext (f : pyfloat) : ext :=
  match f with
  | S754_zero _ => EFin 0
  | S754_infinity true => ENegInf
  | S754_infinity false => EPosInf
  | S754_nan => ENaN
  | S754_finite s m e => EFin (f_Q s m e)
  end.

Definition py_ext (x : pynum) : ext :=
  match x with PInt z => EFin (inject_Z z) | PFloat f => f_ext f end.

Definition ext_compare (a b : ext) : option comparison :=
  match a, b with
  | ENaN, _ | _, ENaN => None
  | EFin p, EFin q => Some (Qcompare p q)
  | ENegInf, ENegInf | EPosInf, EPosInf => Some Eq
  | ENegInf, _ | _, EPosInf => Some Lt
  | EPosInf, _ | _, ENegInf => Some Gt
  end.

(** [a < b], [a <= b], [a > b], [a >= b]; each is false when a NaN is involved. *)
Definition py_ltb (a b : pynum) : bool :=
  match ext_compare (py_ext a) (py_ext b) with Some Lt => true | _ => false end.
Definition py_leb (a b : pynum) : bool :=
  match ext_compare (py_ext a) (py_ext b) with Some (Lt | Eq) => true | _ => false end.
Definition py_gtb (a b : pynum) : bool := py_ltb b a.
Definition py_geb (a b : pynum) : bool := py_leb b a.

(** [int(x)]: truncation towards zero.  Python raises on an infinity or a NaN,
    which a decoded register is only if the scale of the map is one or overflows;
    [0] stands for those inputs here. *)
Definition py_int (x : pynum) : Z :=
  match x with
  | PInt z => z
  | PFloat (S754_finite s m e) =>
      let a := if 0 <=? e then Zpos m * 2 ^ e else Zpos m / 2 ^ (- e) in
      if s then - a else a
  | PFloat _ => 0
  end.

(** Truth value of a number. *)
Definition py_truth (x : pynum) : bool :=
  match x with
  | PInt z => negb (z =? 0)
  | PFloat (S754_zero _) => false
  | PFloat _ => true
  end.

Definition py_finite (x : pynum) : bool :=
  match x with PFloat (S754_infinity _ | S754_nan) => false | _ => true end.

(** ** Order lemmas *)

Lemma ext_compare_antisym a b : ext_compare b a = CompOpp <$> ext_compare a b.
Proof. destruct a, b; simpl; try done. by rewrite Qcompare_antisym. Qed.

Lemma ext_lt_trans a b c :
  ext_compare a b = Some Lt -> ext_compare b c = Some Lt -> ext_compare a c = Some Lt.
Proof.
  destruct a, b, c; simpl; try done.
  intros [= H1] [= H2]. f_equal.
  apply Qlt_alt in H1, H2. apply Qlt_alt. by eapply Qlt_trans.
Qed.

Lemma ext_le_lt_trans a b c :
  (ext_compare a b = Some Lt \/ ext_compare a b = Some Eq) ->
  ext_compare b c = Some Lt -> ext_compare a c = Some Lt.
Proof.
  intros [H|H]; [by apply ext_lt_trans|]. revert H.
  destruct a, b, c; simpl; try done.
  intros [= H1] [= H2]. f_equal.
  apply Qeq_alt in H1. apply Qlt_alt in H2. apply Qlt_alt. by rewrite H1.
Qed.

Lemma py_leb_not_ltb a b : py_leb a b = true -> py_ltb b a = false.
Proof.
  unfold py_leb, py_ltb. rewrite (ext_compare_antisym (py_ext a)).
  by destruct (ext_compare _ _) as [[]|].
Qed.

Lemma py_ltb_leb a b : py_ltb a b = true -> py_leb a b = true.
Proof. unfold py_leb, py_ltb. by destruct (ext_compare _ _) as [[]|]. Qed.

Lemma py_leb_ltb_trans a b c :
  py_leb a b = true -> py_ltb b c = true -> py_ltb a c = true.
Proof.
  unfold py_leb, py_ltb. intros H1 H2.
  destruct (ext_compare (py_ext b) (py_ext c)) as [[]|] eqn:E2; try done.
  erewrite ext_le_lt_trans; [done| |exact E2].
  destruct (ext_compare (py_ext a) (py_ext b)) as [[]|]; naive_solver.
Qed.

Lemma py_ltb_irrefl a : py_ltb a a = false.
Proof.
  unfold py_ltb. destruct (py_ext a) as [| |q|]; simpl; try done.
  destruct (q ?= q)%Q eqn:E; try done. apply Qlt_alt in E. by apply Qlt_irrefl in E.
Qed.

(** A reading at or above the ON threshold is not below a smaller OFF threshold:
    the hysteresis gap of two thresholds. *)
Lemma py_hysteresis_gap x on off :
  py_ltb off on = true -> py_geb x on = true -> py_ltb x off = false.
Proof.
  unfold py_geb. intros Ho Hx.
  destruct (py_ltb x off) eqn:E; [|done].
  assert (py_ltb x on = true) as Hlt.
  { eapply py_leb_ltb_trans; [by apply py_ltb_leb|exact Ho]. }
  apply py_leb_not_ltb in Hx. congruence.
Qed.

Lemma py_int_PInt z : py_int (PInt z) = z.
Proof. reflexivity. Qed.
#[export] Hint Rewrite py_int_PInt : gw.

(** ** Rounding and formatting *)

(** Nearest integer to [n/d], ties to even. *)
Definition round_half_even (n : Z) (d : positive) : Z :=
  let q := n / Zpos d in
  let r := n mod Zpos d in
  match (2 * r ?= Zpos d) with
  | Lt => q
  | Gt => q + 1
  | Eq => if Z.even q then q else q + 1
  end.

Lemma round_half_even_bounds n d :
  n / Zpos d <= round_half_even n d <= n / Zpos d + 1.
Proof. unfold round_half_even. repeat case_match; lia. Qed.

Lemma round_half_even_error n d :
  2 * Z.abs (round_half_even n d * Zpos d - n) <= Zpos d.
Proof.
  unfold round_half_even.
  pose proof (Z.div_mod n (Zpos d) ltac:(lia)) as E.
  pose proof (Z.mod_pos_bound n (Zpos d) ltac:(lia)) as B.
  set (q := n / Zpos d) in *. set (r := n mod Zpos d) in *.
  destruct (Z.compare_spec (2 * r) (Zpos d)); [destruct (Z.even q)| |]; nia.
Qed.

(** [round(n/d, 1)] in tenths. *)
Definition round1_tenths (n : Z) (d : positive) : Z := round_half_even (10 * n) d.

(** [d] decimals of the non-negative integer [n], which counts units of 10^-d. *)
Definition decimals (d : nat) (n : Z) : string :=
  let p := 10 ^ Z.of_nat d in
  let ip := str_Z (n / p) in
  match d with
  | O => ip
  | _ => let fr := str_Z (n mod p) in
         String.append ip (String.append "."
           (String.append (String.concat "" (repeat "0"%string (d - String.length fr))) fr))
  end.

(** [f"{x:.df}"] of a float. *)
Definition fmt_fixed (d : nat) (f : pyfloat) : string :=
  match f with
  | S754_zero s => String.append (if s then "-" else "") (decimals d 0)
  | S754_infinity s => if s then "-inf" else "inf"
  | S754_nan => "nan"
  | S754_finite s m e =>
      let q := f_Q false m e in
      String.append (if s then "-" else "")
        (decimals d (round_half_even (Qnum q * 10 ^ Z.of_nat d) (Qden q)))
  end.

(** A count of tenths, printed with [:.1f], as [success_pct] is. *)
Definition fmt_tenths (t : Z) : string :=
  if t <? 0 then String.append "-" (decimals 1 (- t)) else decimals 1 t.

(** *** [str(x)] of a float: the shortest digits that round back to it *)

(** Correctly rounded [n * 10^k]. *)
Definition f_of_decimal (s : bool) (n : positive) (k : Z) : pyfloat :=
  if 0 <=? k then binary_round 53 1024 s (n * Z.to_pos (10 ^ k)) 0
  else let '(mz, ez, lz) := SFdiv_core_binary 53 1024 (Zpos n) 0 (10 ^ (- k)) 0 in
       binary_round_aux 53 1024 s mz ez lz.

(** Decimal exponent: the [k] with [10^(k-1) <= n/d < 10^k]. *)
Fixpoint dec_exp (fuel : nat) (n : Z) (d : Z) (k : Z) : Z :=
  match fuel with
  | O => k
  | S f => if d <=? n then dec_exp f n (10 * d) (k + 1)
           else if 10 * n <? d then dec_exp f (10 * n) d (k - 1)
           else k
  end.

(** The shortest [p]-digit decimal, [p] up to 17, that reads back as [f]. *)
Fixpoint shortest (fuel : nat) (p : Z) (s : bool) (q : Q) (k : Z) (f : pyfloat) : Z * Z :=
  let sc := p - k in
  let n := if 0 <=? sc then round_half_even (Qnum q * 10 ^ sc) (Qden q)
           else round_half_even (Qnum q) (Qden q * Z.to_pos (10 ^ (- sc))) in
  match fuel with
  | O => (n, - sc)
  | S fu => if decide (f_of_decimal s (Z.to_pos n) (- sc) = f) then (n, - sc)
            else shortest fu (p + 1) s q k f
  end.

Fixpoint strip_zeros (fuel : nat) (n k : Z) : Z * Z :=
  match fuel with
  | O => (n, k)
  | S f => if n mod 10 =? 0 then strip_zeros f (n / 10) (k + 1) else (n, k)
  end.

(** [repr] layout: positional for exponents in [-4, 16), scientific otherwise. *)
Definition repr_layout (n k : Z) : string :=
  let ds := str_Z n in
  let len := Z.of_nat (String.length ds) in
  let pt := len + k in
  if (pt <? -3) || (16 <? pt) then
    let e := pt - 1 in
    let es := str_Z (Z.abs e) in
    String.append (String.substring 0 1 ds)
      (String.append (if len =? 1 then "" else String.append "." (String.substring 1 (Z.to_nat len) ds))
        (String.append (if e <? 0 then "e-" else "e+")
          (if String.length es =? 1 then String.append "0" es else es)%nat))
  else if 0 <=? k then String.append (str_Z (n * 10 ^ k)) ".0"
  else decimals (Z.to_nat (- k)) n.

Definition repr_float (f : pyfloat) : string :=
  match f with
  | S754_zero s => if s then "-0.0" else "0.0"
  | S754_infinity s => if s then "-inf" else "inf"
  | S754_nan => "nan"
  | S754_finite s m e =>
      let q := f_Q false m e in
      let k := dec_exp 400 (Qnum q) (Zpos (Qden q)) 0 in
      let '(n, k') := shortest 16 1 s q k f in
      let '(n', k'') := strip_zeros 20 n k' in
      String.append (if s then "-" else "") (repr_layout n' k'')
  end.

(** [str(x)] *)
Definition py_str (x : pynum) : string :=
  match x with PInt z => str_Z z | PFloat f => repr_float f end.

(** ** Spot checks against CPython *)

Example repr_tenth : repr_float (flt 1 10) = "0.1"%string.
Proof. vm_compute. reflexivity. Qed.
Example repr_battery : repr_float (f_mul (f_of_Z 1380) (flt 1 100)) = "13.8"%string.
Proof. vm_compute. reflexivity. Qed.
Example repr_not_exact : repr_float (f_mul (f_of_Z 3) (flt 1 10)) = "0.30000000000000004"%string.
Proof. vm_compute. reflexivity. Qed.
Example repr_whole : repr_float (f_of_Z 235) = "235.0"%string.
Proof. vm_compute. reflexivity. Qed.
Example fmt_half : fmt_fixed 1 (flt 1 4) = "0.2"%string.
Proof. vm_compute. reflexivity. Qed.
Example cmp_exact : py_ltb (PFloat (flt 1 10)) (PInt 1) = true.
Proof. vm_compute. reflexivity. Qed.
