(* ===== verification/PyVal.v ===== *)
(** * Python values and their conversions

    The trees that [yaml.safe_load] and a JSON body yield, with the built-in
    conversions the source applies to them ([int], [float], [str], [bool], [.get],
    indexing, iteration) and the exceptions they raise.  Strings are byte strings:
    conversions know the ASCII digits and white space, and [repr] leaves bytes above
    127 as they are. *)

From S2P Require Import Prelude PyNum.
From Stdlib Require Import SpecFloat.

Local Open Scope Z_scope.
Local Open Scope gw_scope.

(** ** Values *)

Inductive pyval : Type :=
| PvNone
| PvBool (b : bool)
| PvNum (n : pynum)
| PvStr (s : string)
| PvList (l : list pyval)
| PvDict (d : list (string * pyval)).

Inductive pyexc : Type :=
| TypeError
| ValueError (msg : string)
| KeyError (key : string)
| AttributeError
| OverflowError
| OSError
| ValidationError  (* pydantic's, a subclass of ValueError; its text is the library's *)
| Uncoerced.      (* not raised by Python: a value kept as it is where the records of the model hold a string or a number *)

(** ** Fallible computations *)

Definition res (A : Type) : Type := pyexc + A.
Definition r_ret {A} (a : A) : res A := inr a.
Definition r_bind {A B} (m : res A) (k : A -> res B) : res B :=
  match m with inl e => inl e | inr a => k a end.
Notation "x <-? m ;; k" := (r_bind m (fun x => k))
  (at level 100, m at next level, right associativity) : gw_scope.

(** A list comprehension whose element expression may raise. *)
Fixpoint r_map {A B} (f : A -> res B) (l : list A) : res (list B) :=
  match l with
  | [] => r_ret []
  | a :: l' => b <-? f a ;; bs <-? r_map f l' ;; r_ret (b :: bs)
  end.

Lemma r_bind_inr {A B} (m : res A) (k : A -> res B) b :
  r_bind m k = inr b <-> exists a, m = inr a /\ k a = inr b.
Proof. destruct m; cbn; naive_solver. Qed.

Lemma r_map_inr {A B} (f : A -> res B) l l' : r_map f l = inr l' <-> Forall2 (fun a b => f a = inr b) l l'.
Proof.
  revert l'. induction l as [|a l IH]; intros l'; cbn.
  - split; [intros [= <-]; constructor|by inversion 1].
  - rewrite r_bind_inr. split.
    + intros (b & Hb & Hl). apply r_bind_inr in Hl as (bs & Hbs & [= <-]). constructor; [done|by apply IH].
    + inversion 1 as [|? b ? bs Hb Hbs]; subst. exists b. split; [done|]. apply r_bind_inr. exists bs.
      split; [by apply IH|done].
Qed.

Lemma r_map_Forall {A B} (f : A -> res B) (P : B -> Prop) l l' :
  (forall a b, f a = inr b -> P b) -> r_map f l = inr l' -> Forall P l'.
Proof. intros Hf Hl%r_map_inr. induction Hl; constructor; eauto. Qed.

(** ** Characters *)

Definition code_of (c : Ascii.ascii) : Z := Z.of_nat (Ascii.nat_of_ascii c).
Definition is_space (c : Ascii.ascii) : bool :=
  let n := code_of c in ((9 <=? n) && (n <=? 13)) || ((28 <=? n) && (n <=? 32)).
Definition digit_val (c : Ascii.ascii) : option Z :=
  let n := code_of c in
  if (48 <=? n) && (n <=? 57) then Some (n - 48)
  else if (97 <=? n) && (n <=? 122) then Some (n - 87)
  else if (65 <=? n) && (n <=? 90) then Some (n - 55)
  else None.

Fixpoint lstrip (s : string) : string :=
  match s with String c s' => if is_space c then lstrip s' else s | EmptyString => EmptyString end.
Fixpoint rstrip (s : string) : string :=
  match s with
  | EmptyString => EmptyString
  | String c s' => match rstrip s' with
                   | EmptyString => if is_space c then EmptyString else String c EmptyString
                   | t => String c t
                   end
  end.
Definition str_strip (s : string) : string := rstrip (lstrip s).

(** ** [int] of a string *)

(** Digits of a base with single underscores between them; [after] is whether the
    last character was a digit. *)
Fixpoint parse_digits (base : Z) (s : string) (acc : Z) (after : bool) : option Z :=
  match s with
  | EmptyString => if after then Some acc else None
  | String c s' =>
      if code_of c =? 95 then (if after then parse_digits base s' acc false else None)
      else match digit_val c with
           | Some d => if d <? base then parse_digits base s' (acc * base + d) true else None
           | None => None
           end
  end.

Definition split_sign (s : string) : bool * string :=
  match s with
  | String c s' => if code_of c =? 45 then (true, s') else if code_of c =? 43 then (false, s') else (false, s)
  | EmptyString => (false, s)
  end.

Definition int_of_str (base : Z) (s : string) : option Z :=
  let '(neg, body) := split_sign (str_strip s) in
  let body := if (base =? 16) && str_startswith "0x" (str_lower body)
              then let rest := String.substring 2 (String.length body) body in
                   if str_startswith "_" rest then String.substring 1 (String.length rest) rest else rest
              else body in
  (fun n => if neg then - n else n) <$> parse_digits base body 0 false.

(** ** [float] of a string *)

(** Split at the first character that [p] accepts. *)
Fixpoint split_at (p : Ascii.ascii -> bool) (s : string) : string * option string :=
  match s with
  | EmptyString => (EmptyString, None)
  | String c s' => if p c then (EmptyString, Some s')
                   else let '(a, b) := split_at p s' in (String c a, b)
  end.

(** Digits, or nothing, with their count. *)
Fixpoint count_digits (s : string) : Z :=
  match s with
  | EmptyString => 0
  | String c s' => (if code_of c =? 95 then 0 else 1) + count_digits s'
  end.
Definition digits_or_none (s : string) : option (Z * Z) :=
  if (s =? "")%string then Some (0, 0) else (fun n => (n, count_digits s)) <$> parse_digits 10 s 0 false.

Definition float_of_str (s : string) : option pyfloat :=
  let '(neg, body) := split_sign (str_strip s) in
  let body := str_lower body in
  if existsb (String.eqb body) ["inf"; "infinity"]%string then Some (S754_infinity neg)
  else if (body =? "nan")%string then Some S754_nan
  else
    let '(mant, ex) := split_at (fun c => code_of c =? 101) body in
    let '(ip, fp) := split_at (fun c => code_of c =? 46) mant in
    match digits_or_none ip, digits_or_none (default ""%string fp),
          match ex with
          | None => Some 0
          | Some e => let '(eneg, ebody) := split_sign e in
                      (fun n => if eneg then - n else n) <$> parse_digits 10 ebody 0 false
          end with
    | Some (i, ni), Some (f, nf), Some e =>
        if ni + nf =? 0 then None
        else let n := i * 10 ^ nf + f in
             Some (match n with Zpos p => f_of_decimal neg p (e - nf) | _ => S754_zero neg end)
    | _, _, _ => None
    end.

(** ** [str] and [repr] *)

Definition hex2 (n : Z) : string :=
  String (hex_digit (n / 16)) (String (hex_digit (n mod 16)) EmptyString).
Definition chr (n : nat) : string := String (Ascii.ascii_of_nat n) EmptyString.
Definition backslash : string := chr 92.
Definition dquote : Ascii.ascii := Ascii.ascii_of_nat 34.

Definition repr_char (quote : Ascii.ascii) (c : Ascii.ascii) : string :=
  let n := code_of c in
  if (n =? 92) || (n =? code_of quote) then String.append backslash (String c EmptyString)
  else if n =? 10 then String.append backslash "n"
  else if n =? 13 then String.append backslash "r"
  else if n =? 9 then String.append backslash "t"
  else if (n <? 32) || (n =? 127) then String.append backslash (String.append "x" (str_lower (hex2 n)))
  else String c EmptyString.
Fixpoint repr_body (quote : Ascii.ascii) (s : string) : string :=
  match s with EmptyString => EmptyString | String c s' => String.append (repr_char quote c) (repr_body quote s') end.
(** Single quotes, unless the string holds one and no double quote. *)
Definition repr_str (s : string) : string :=
  let q := if str_contains "'" s && negb (str_contains (String dquote EmptyString) s) then dquote
           else Ascii.ascii_of_nat 39 in
  String q (String.append (repr_body q s) (String q EmptyString)).

Fixpoint py_repr (v : pyval) : string :=
  match v with
  | PvNone => "None"
  | PvBool b => if b then "True" else "False"
  | PvNum n => py_str n
  | PvStr s => repr_str s
  | PvList l => "[" +:+ str_join ", " (map py_repr l) +:+ "]"
  | PvDict d => "{" +:+ str_join ", " (map (fun kv => match kv with (k, x) => repr_str k +:+ ": " +:+ py_repr x end) d) +:+ "}"
  end.
(** [str(v)] *)
Definition pv_str (v : pyval) : string := match v with PvStr s => s | _ => py_repr v end.

(** ** The other conversions *)

(** [bool(v)] *)
Definition pv_truth (v : pyval) : bool :=
  match v with
  | PvNone => false
  | PvBool b => b
  | PvNum n => py_truth n
  | PvStr s => negb (s =? "")%string
  | PvList l => negb (bool_decide (length l = 0%nat))
  | PvDict d => negb (bool_decide (length d = 0%nat))
  end.

(** [int(v)] *)
Definition pv_int (v : pyval) : res Z :=
  match v with
  | PvBool b => inr (if b then 1 else 0)
  | PvNum (PInt z) => inr z
  | PvNum (PFloat S754_nan) => inl (ValueError "cannot convert float NaN to integer")
  | PvNum (PFloat (S754_infinity _)) => inl OverflowError
  | PvNum n => inr (py_int n)
  | PvStr s => match int_of_str 10 s with
               | Some z => inr z
               | None => inl (ValueError ("invalid literal for int() with base 10: " +:+ repr_str s))
               end
  | PvNone | PvList _ | PvDict _ => inl TypeError
  end.

(** [float(v)]; an [int] too large for a double raises. *)
Definition pv_float (v : pyval) : res pyfloat :=
  match v with
  | PvBool b => inr (f_of_Z (if b then 1 else 0))
  | PvNum (PInt z) => match f_of_Z z with S754_infinity _ => inl OverflowError | f => inr f end
  | PvNum (PFloat f) => inr f
  | PvStr s => match float_of_str s with
               | Some f => inr f
               | None => inl (ValueError ("could not convert string to float: " +:+ repr_str s))
               end
  | PvNone | PvList _ | PvDict _ => inl TypeError
  end.

(** [v.get(k, dflt)] *)
Definition pv_get (k : string) (dflt : pyval) (v : pyval) : res pyval :=
  match v with PvDict d => inr (default dflt (od_get k d)) | _ => inl AttributeError end.
(** [v\[k\]] for a string [k] *)
Definition pv_item (k : string) (v : pyval) : res pyval :=
  match v with
  | PvDict d => match od_get k d with Some x => inr x | None => inl (KeyError k) end
  | _ => inl TypeError
  end.
(** [v or alt] *)
Definition pv_or (v alt : pyval) : pyval := if pv_truth v then v else alt.

Definition str_chars (s : string) : list pyval := map (fun c => PvStr (String c EmptyString)) (String.list_ascii_of_string s).
(** [for x in v] *)
Definition pv_iter (v : pyval) : res (list pyval) :=
  match v with
  | PvList l => inr l
  | PvDict d => inr (map (fun kv => PvStr (fst kv)) d)
  | PvStr s => inr (str_chars s)
  | _ => inl TypeError
  end.

(** Trees of a number. *)
Definition num (z : Z) : pyval := PvNum (PInt z).
Definition fl (f : pyfloat) : pyval := PvNum (PFloat f).

(** A string field kept as it is. *)
Definition as_str (v : pyval) : res string := match v with PvStr s => inr s | _ => inl Uncoerced end.

(** ** Spot checks against CPython *)

Example int_hex : int_of_str 16 " 0x1f_0 " = Some 496. Proof. vm_compute. reflexivity. Qed.
Example int_neg : int_of_str 10 "-1_000" = Some (-1000). Proof. vm_compute. reflexivity. Qed.
Example int_bad : int_of_str 10 "1__0" = None. Proof. vm_compute. reflexivity. Qed.
Example float_dec : float_of_str "1.5e-1" = Some (flt 15 100). Proof. vm_compute. reflexivity. Qed.
Example float_dot : float_of_str ".5" = Some (flt 1 2). Proof. vm_compute. reflexivity. Qed.
Example float_bad : float_of_str "." = None. Proof. vm_compute. reflexivity. Qed.
Example repr_quote : repr_str "it's" = String dquote (String.append "it's" (String dquote EmptyString)).
Proof. vm_compute. reflexivity. Qed.
Example repr_tree : py_repr (PvDict [("a", PvList [PvNum (PInt 1); PvNone]); ("b", PvBool true)]%string) =
  "{'a': [1, None], 'b': True}"%string.
Proof. vm_compute. reflexivity. Qed.
