(* ===== verification/Registers.v ===== *)
(** * The register map (modbus/registers.py)

    Data of the register map, the bit rules that derive engine state, alarms and
    panel mode, the word decoder and the batcher of contiguous reads. *)

From S2P Require Import Prelude PyNum.
From Stdlib Require Import SpecFloat.

Local Open Scope Z_scope.
Local Open Scope gw_scope.

(** ** Data *)

(** [RegType]; any other string in the YAML decodes as a plain 16-bit word. *)
Inductive RegType : Type :=
| u16 | s16 | u32 | u32_lo | s32 | bitfld | enum
| other_type (s : string).

#[export] Instance RegType_eq_dec : EqDecision RegType.
Proof. solve_decision. Defined.

Definition range_t : Type := pyfloat * pyfloat.

Record RegisterDef : Type := {
  r_name : string;
  r_addr : Z;
  r_fc : Z;
  r_type : RegType;
  r_tier : string;
  r_group : string;
  r_unit : string;
  r_scale : pyfloat;
  r_warn_range : option range_t;
  r_alarm_range : option range_t
}.

#[export] Instance RegisterDef_eq_dec : EqDecision RegisterDef.
Proof. solve_decision. Defined.

(** How many 16-bit registers the definition consumes. *)
Definition type_words (t : RegType) : Z :=
  match t with u32 | u32_lo | s32 => 2 | _ => 1 end.
Definition r_words (r : RegisterDef) : Z := type_words (r_type r).

Record ControlDef : Type := {
  c_name : string;
  c_addr : Z;
  c_fc : Z;
  c_value : Z;
  c_values : list Z;
  c_desc : string
}.

(** The word sequence to put on the wire: [values] takes precedence over [value]. *)
Definition write_values (c : ControlDef) : list Z :=
  match c_values c with [] => [c_value c] | vs => vs end.

Record AlarmBit : Type := {
  ab_register : string;
  ab_mask : Z;
  ab_code : string;
  ab_desc : string;
  ab_severity : string;
  ab_suppress_in_states : list string;
  ab_min_poll_count : Z
}.

Record StateBitRule : Type := {
  sb_state : string;
  sb_register : string;
  sb_mask : Z
}.

Record PanelModeRule : Type := {
  pm_mode : string;
  pm_register : string;
  pm_mask : Z
}.

Record SiteConfig : Type := {
  site_id : string;
  site_name : string;
  site_rating_kw : Z;
  site_engine : string;
  site_tank_gal : Z;
  site_fuel_type : string;
  site_exercise_enabled : bool;
  site_exercise_day : string;
  site_exercise_time : string;
  site_exercise_duration_min : Z;
  site_exercise_quiet : bool
}.

Record RegisterMap : Type := {
  rm_path : string;
  rm_site : SiteConfig;
  rm_slave : Z;
  rm_read_fc : Z;
  rm_prime_poll_ms : Z;
  rm_base_poll_ms : Z;
  rm_timeout_s : pyfloat;
  rm_retries : Z;
  rm_backoff_s : list pyfloat;
  rm_engine_state_bits : list StateBitRule;
  rm_alarm_bits : list AlarmBit;
  rm_panel_mode_bits : list PanelModeRule;
  rm_registers : list RegisterDef;
  rm_controls : odict string ControlDef;
  rm_numeric_alarms_enabled : bool
}.

(** Decoded register values, [Reading.values]. *)
Abbreviation values_t := (gmap string pynum).

(** ** Accessors *)

Definition by_name (rm : RegisterMap) (n : string) : option RegisterDef :=
  List.find (fun r => (r_name r =? n)%string) (rm_registers rm).

Definition tier (rm : RegisterMap) (t : string) : list RegisterDef :=
  List.filter (fun r => (r_tier r =? t)%string) (rm_registers rm).

(** ** Bit-rule derivation *)

(** All bits of the mask are set in the value. *)
Definition mask_all (raw : pynum) (mask : Z) : bool := Z.land (py_int raw) mask =? mask.
(** Some bit of the mask is set in the value. *)
Definition mask_any (raw : pynum) (mask : Z) : bool := negb (Z.land (py_int raw) mask =? 0).

Fixpoint first_state (rules : list StateBitRule) (values : values_t) : string :=
  match rules with
  | [] => "unknown"
  | rule :: rest =>
      match values !! sb_register rule with
      | None => first_state rest values
      | Some raw => if mask_all raw (sb_mask rule) then sb_state rule
                    else first_state rest values
      end
  end.

Definition derive_engine_state (rm : RegisterMap) (values : values_t) : string :=
  first_state (rm_engine_state_bits rm) values.

(** The alarm bit is set in the values. *)
Definition alarm_bit_set (values : values_t) (ab : AlarmBit) : bool :=
  match values !! ab_register ab with
  | None => false
  | Some raw => mask_any raw (ab_mask ab)
  end.

Definition derive_active_alarms (rm : RegisterMap) (values : values_t) : list AlarmBit :=
  List.filter (alarm_bit_set values) (rm_alarm_bits rm).

Fixpoint first_mode (rules : list PanelModeRule) (values : values_t) : string :=
  match rules with
  | [] => "unknown"
  | rule :: rest =>
      match values !! pm_register rule with
      | None => first_mode rest values
      | Some raw => if mask_all raw (pm_mask rule) then pm_mode rule
                    else first_mode rest values
      end
  end.

Definition derive_panel_mode (rm : RegisterMap) (values : values_t) : string :=
  first_mode (rm_panel_mode_bits rm) values.

(** ** Decoding *)

Definition word16 (w : Z) : Z := Z.land w 0xFFFF.
Definition words_hi_lo (hi lo : Z) : Z := Z.lor (Z.shiftl (word16 hi) 16) (word16 lo).

(** The integer carried by the words, before scaling. *)
Definition decode_raw (t : RegType) (words : list Z) : option Z :=
  match words with
  | [] => None
  | w0 :: rest =>
      match t with
      | u16 => Some (word16 w0)
      | s16 => let v := word16 w0 in
               Some (if Z.land v 0x8000 =? 0 then v else v - 0x10000)
      | u32 => match rest with
               | [] => None
               | w1 :: _ => Some (words_hi_lo w0 w1)
               end
      | u32_lo => match rest with
                  | [] => None
                  | w1 :: _ => Some (word16 w1)
                  end
      | s32 => match rest with
               | [] => None
               | w1 :: _ => let u := words_hi_lo w0 w1 in
                            Some (if u <? 0x80000000 then u else u - 0x100000000)
               end
      | bitfld => Some (word16 w0)
      | enum => Some (word16 w0)
      | other_type _ => Some (word16 w0)
      end
  end.

Definition f_one : pyfloat := f_of_Z 1.

(** [reg.scale != 1.0] *)
Definition scale_is_one (f : pyfloat) : bool :=
  match ext_compare (f_ext f) (EFin 1) with Some Eq => true | _ => false end.

Definition decode_value (reg : RegisterDef) (words : list Z) : option pynum :=
  match decode_raw (r_type reg) words with
  | None => None
  | Some v =>
      if negb (scale_is_one (r_scale reg)) &&
         negb (bool_decide (r_type reg = bitfld)) && negb (bool_decide (r_type reg = enum))
      then Some (PFloat (f_mul (f_of_Z v) (r_scale reg)))
      else Some (PInt v)
  end.

(** ** Batching *)

(** [sorted(regs, key=lambda r: r.addr)]: a stable sort. *)
Fixpoint insert_by_addr (r : RegisterDef) (l : list RegisterDef) : list RegisterDef :=
  match l with
  | [] => [r]
  | r' :: l' => if r_addr r <=? r_addr r' then r :: l else r' :: insert_by_addr r l'
  end.
Definition sort_by_addr (l : list RegisterDef) : list RegisterDef :=
  foldr insert_by_addr [] l.

Definition GAP_TOLERANCE : Z := 4.

(** The open batch [\[start, end)] and the closed ones. *)
Record batch_state : Type := {
  bs_batches : list (Z * Z);
  bs_start : Z;
  bs_end : Z
}.

Definition batch_step (max_words : Z) (st : batch_state) (r : RegisterDef) : batch_state :=
  let new_end := Z.max (bs_end st) (r_addr r + r_words r) in
  if (r_addr r - bs_end st <=? GAP_TOLERANCE) && (new_end - bs_start st <=? max_words)
  then {| bs_batches := bs_batches st; bs_start := bs_start st; bs_end := new_end |}
  else {| bs_batches := bs_batches st ++ [(bs_start st, bs_end st - bs_start st)];
          bs_start := r_addr r; bs_end := r_addr r + r_words r |}.

Definition batch_close (st : batch_state) : list (Z * Z) :=
  bs_batches st ++ [(bs_start st, bs_end st - bs_start st)].

Definition batch_reads (regs : list RegisterDef) (max_words : Z) : list (Z * Z) :=
  match sort_by_addr regs with
  | [] => []
  | r0 :: rest =>
      batch_close (foldl (batch_step max_words)
        {| bs_batches := []; bs_start := r_addr r0; bs_end := r_addr r0 + r_words r0 |} rest)
  end.

Definition default_max_words : Z := 64.

(** ** Rule lemmas *)

Lemma first_state_cases rules values :
  (first_state rules values = "unknown" /\
   Forall (fun rule => forall raw, values !! sb_register rule = Some raw ->
             mask_all raw (sb_mask rule) = false) rules) \/
  (exists pre rule post raw, rules = pre ++ rule :: post /\
     values !! sb_register rule = Some raw /\ mask_all raw (sb_mask rule) = true /\
     first_state rules values = sb_state rule /\
     Forall (fun rule => forall raw, values !! sb_register rule = Some raw ->
               mask_all raw (sb_mask rule) = false) pre).
Proof.
  induction rules as [|rule rest IH]; simpl.
  { left. split; [done|constructor]. }
  destruct (values !! sb_register rule) as [raw|] eqn:Hv.
  - destruct (mask_all raw (sb_mask rule)) eqn:Hm.
    + right. exists [], rule, rest, raw. split_and!; auto.
    + destruct IH as [[Hu Hall]|(pre & ru & post & rw & -> & H1 & H2 & H3 & H4)].
      * left. split; [done|]. constructor; [naive_solver|done].
      * right. exists (rule :: pre), ru, post, rw. split_and!; try done.
        constructor; [|done]. intros ? ?. congruence.
  - destruct IH as [[Hu Hall]|(pre & ru & post & rw & -> & H1 & H2 & H3 & H4)].
    + left. split; [done|]. constructor; [|done]. intros ? ?. congruence.
    + right. exists (rule :: pre), ru, post, rw. split_and!; try done.
      constructor; [|done]. intros ? ?. congruence.
Qed.

Lemma elem_of_active_alarms rm values ab :
  ab ∈ derive_active_alarms rm values <->
  ab ∈ rm_alarm_bits rm /\ alarm_bit_set values ab = true.
Proof.
  unfold derive_active_alarms. rewrite !list_elem_of_In. apply filter_In.
Qed.

Lemma elem_of_tier rm t r :
  r ∈ tier rm t <-> r ∈ rm_registers rm /\ r_tier r = t.
Proof.
  unfold tier. rewrite !list_elem_of_In, filter_In, String.eqb_eq. done.
Qed.

Lemma type_words_pos t : 1 <= type_words t <= 2.
Proof. destruct t; simpl; lia. Qed.

Lemma r_words_pos r : 1 <= r_words r <= 2.
Proof. apply type_words_pos. Qed.
#[export] Hint Resolve r_words_pos : gw.

(** ** Decoder lemmas *)

Lemma word16_mod w : word16 w = w mod 65536.
Proof. unfold word16. change 0xFFFF with (Z.ones 16). by rewrite Z.land_ones. Qed.

Lemma word16_range w : 0 <= word16 w < 65536.
Proof. rewrite word16_mod. apply Z.mod_pos_bound. lia. Qed.

Lemma word16_small w : 0 <= w < 65536 -> word16 w = w.
Proof. intros. rewrite word16_mod. by apply Z.mod_small. Qed.

Lemma word16_high w n : 16 <= n -> Z.testbit (word16 w) n = false.
Proof.
  intros. unfold word16. change 0xFFFF with (Z.ones 16).
  by rewrite Z.land_spec, Z.ones_spec_high, andb_false_r by lia.
Qed.

(** A 16-bit pair is [hi * 65536 + lo]: the two halves do not overlap. *)
Lemma words_hi_lo_sum hi lo : words_hi_lo hi lo = word16 hi * 65536 + word16 lo.
Proof.
  unfold words_hi_lo. rewrite Z.shiftl_mul_pow2 by lia. change 65536 with (2 ^ 16).
  assert (Z.land (word16 hi * 2 ^ 16) (word16 lo) = 0) as Hland.
  { apply Z.bits_inj'. intros n Hn. rewrite Z.land_spec, Z.bits_0, Z.mul_pow2_bits by lia.
    destruct (Z.lt_ge_cases n 16).
    - by rewrite Z.testbit_neg_r by lia.
    - by rewrite (word16_high lo), andb_false_r by lia. }
  by rewrite <- Z.lxor_lor, <- Z.add_nocarry_lxor.
Qed.

Lemma sign_bit_16 v : 0 <= v < 65536 -> (Z.land v 0x8000 =? 0) = (v <? 32768).
Proof.
  intros Hv. destruct (Z.ltb_spec v 32768) as [Hlt|Hge].
  - apply Z.eqb_eq, Z.bits_inj'. intros n Hn. rewrite Z.land_spec, Z.bits_0.
    change 0x8000 with (2 ^ 15). rewrite Z.pow2_bits_eqb by lia.
    destruct (Z.eqb_spec 15 n) as [<-|]; [|by rewrite andb_false_r].
    rewrite andb_true_r. destruct (Z.eq_dec v 0) as [->|]; [done|].
    apply Z.bits_above_log2; [lia|]. apply Z.log2_lt_pow2; [lia|].
    change (2 ^ 15) with 32768. lia.
  - apply Z.eqb_neq. intros E.
    assert (Z.testbit v 15 = true) as Hb.
    { rewrite Z.testbit_true by lia. change (2 ^ 15) with 32768.
      assert (v / 32768 = 1) as -> by (symmetry; apply (Z.div_unique v 32768 1 (v - 32768)); lia).
      done. }
    assert (Z.testbit (Z.land v 0x8000) 15 = true) as Hb2.
    { rewrite Z.land_spec, Hb. done. }
    rewrite E, Z.bits_0 in Hb2. done.
Qed.
