(* ===== verification/RegisterFacts.v ===== *)
(** * Register map: decoding and batching theorems

    The decoder is total and range-bounded on every register type and inverts
    the controller's word encoding; the batcher covers every register with
    bounded reads that never read a word twice. *)

From S2P Require Import Prelude PyNum Registers.
From Stdlib Require Import SpecFloat.

Local Open Scope Z_scope.

(** ** Decoding *)

(** The integers a register type can carry. *)
Definition type_range (t : RegType) : Z * Z :=
  match t with
  | s16 => (-32768, 32767)
  | u32 => (0, 4294967295)
  | s32 => (-2147483648, 2147483647)
  | _ => (0, 65535)
  end.

(** The controller's side of the wire: the words that carry [v]. *)
Definition encode_raw (t : RegType) (v : Z) : list Z :=
  match t with
  | u32 | s32 => let u := v mod 4294967296 in [u / 65536; u mod 65536]
  | u32_lo => [0; v]
  | _ => [v mod 65536]
  end.

Lemma words_hi_lo_range hi lo : 0 <= words_hi_lo hi lo < 4294967296.
Proof.
  rewrite words_hi_lo_sum. pose proof (word16_range hi). pose proof (word16_range lo). lia.
Qed.

Lemma decode_raw_is_Some t words :
  is_Some (decode_raw t words) <-> type_words t <= Z.of_nat (length words).
Proof.
  destruct words as [|w0 [|w1 ws]]; destruct t; cbn [decode_raw type_words length];
    split; intros H; try (by destruct H); try lia; by eexists.
Qed.

Lemma decode_raw_bounds t words v :
  decode_raw t words = Some v -> fst (type_range t) <= v <= snd (type_range t).
Proof.
  destruct words as [|w0 [|w1 ws]]; destruct t; cbn [decode_raw type_range fst snd];
    intros [= <-];
    repeat match goal with
    | |- context [word16 ?w] =>
        lazymatch goal with
        | _ : 0 <= word16 w < 65536 |- _ => fail
        | _ => pose proof (word16_range w)
        end
    | |- context [words_hi_lo ?a ?b] =>
        lazymatch goal with
        | _ : 0 <= words_hi_lo a b < 4294967296 |- _ => fail
        | _ => pose proof (words_hi_lo_range a b)
        end
    end;
    rewrite ?sign_bit_16 by assumption;
    repeat match goal with |- context [if ?a <? ?b then _ else _] =>
      destruct (Z.ltb_spec a b) end; lia.
Qed.

(** Decoding succeeds exactly when enough words are present, and the value always
    lies in its type's range. *)
Theorem decode_raw_total_bounded t words :
  (is_Some (decode_raw t words) <-> type_words t <= Z.of_nat (length words)) /\
  forall v, decode_raw t words = Some v ->
    fst (type_range t) <= v <= snd (type_range t).
Proof. split; [apply decode_raw_is_Some|apply decode_raw_bounds]. Qed.

Lemma word16_mod_idemp v : word16 (v mod 65536) = v mod 65536.
Proof. apply word16_small, Z.mod_pos_bound. lia. Qed.

Lemma words_hi_lo_split u :
  0 <= u < 4294967296 -> words_hi_lo (u / 65536) (u mod 65536) = u.
Proof.
  intros Hu. rewrite words_hi_lo_sum, word16_mod_idemp, word16_small.
  - pose proof (Z.div_mod u 65536). lia.
  - split; [apply Z.div_pos; lia|apply Z.div_lt_upper_bound; lia].
Qed.

(** Encoding a value of a register type's range as words and decoding them returns
    the value. *)
Theorem decode_raw_roundtrip t v :
  fst (type_range t) <= v <= snd (type_range t) -> decode_raw t (encode_raw t v) = Some v.
Proof.
  intros Hv. destruct t; cbn [type_range fst snd] in Hv; cbn [encode_raw decode_raw];
    rewrite ?word16_mod_idemp; f_equal;
    try (apply Z.mod_small; lia); try (apply word16_small; lia).
  - rewrite sign_bit_16 by (apply Z.mod_pos_bound; lia).
    destruct (Z.ltb_spec (v mod 65536) 32768); Z.div_mod_to_equations; lia.
  - rewrite words_hi_lo_split by (apply Z.mod_pos_bound; lia). apply Z.mod_small. lia.
  - rewrite words_hi_lo_split by (apply Z.mod_pos_bound; lia).
    destruct (Z.ltb_spec (v mod 4294967296) 2147483648); Z.div_mod_to_equations; lia.
Qed.

(** ** Batching *)

(** The 16-bit words a register occupies, and those a batch reads. *)
Definition words_of (r : RegisterDef) : list Z := seqZ (r_addr r) (r_words r).
Definition batch_words (b : Z * Z) : list Z := seqZ (fst b) (snd b).

Definition no_overlap (regs : list RegisterDef) : Prop := NoDup (regs ≫= words_of).

Definition in_batch (r : RegisterDef) (b : Z * Z) : Prop :=
  fst b <= r_addr r /\ r_addr r + r_words r <= fst b + snd b.

Lemma elem_of_words_of w r : w ∈ words_of r <-> r_addr r <= w < r_addr r + r_words r.
Proof. unfold words_of. by rewrite elem_of_seqZ. Qed.

Lemma insert_by_addr_perm r l : insert_by_addr r l ≡ₚ r :: l.
Proof.
  induction l as [|r' l IH]; simpl; [done|]. case_match; [done|].
  rewrite IH. constructor.
Qed.

Lemma sort_by_addr_perm l : sort_by_addr l ≡ₚ l.
Proof. induction l as [|r l IH]; simpl; [done|]. by rewrite insert_by_addr_perm, IH. Qed.

Definition addr_le (r1 r2 : RegisterDef) : Prop := r_addr r1 <= r_addr r2.

Lemma insert_by_addr_sorted r l :
  StronglySorted addr_le l -> StronglySorted addr_le (insert_by_addr r l).
Proof.
  induction 1 as [|r' l Hs IH Hall]; simpl; [repeat constructor|].
  destruct (Z.leb_spec (r_addr r) (r_addr r')).
  - repeat constructor; [done|done|done|].
    eapply Forall_impl; [exact Hall|]. unfold addr_le. intros; simpl in *. lia.
  - constructor; [done|]. rewrite insert_by_addr_perm. constructor; [|done].
    unfold addr_le. lia.
Qed.

Lemma sort_by_addr_sorted l : StronglySorted addr_le (sort_by_addr l).
Proof. induction l; simpl; [constructor|by apply insert_by_addr_sorted]. Qed.

Section batch.
Context (max_words : Z) (Hmax : 2 <= max_words).

(** What holds of the state after the registers [done]. *)
Record batch_inv (done : list RegisterDef) (st : batch_state) : Prop := {
  bi_cover : forall r, r ∈ done -> exists b, b ∈ batch_close st /\ in_batch r b;
  bi_start : exists r, r ∈ done /\ bs_start st = r_addr r;
  bi_end : exists r, r ∈ done /\ bs_end st = r_addr r + r_words r;
  bi_size : Forall (fun b => 1 <= snd b <= max_words) (batch_close st);
  bi_disjoint : no_overlap done ->
    NoDup (bs_batches st ≫= batch_words) /\
    Forall (fun b => fst b + snd b <= bs_start st) (bs_batches st)
}.

Lemma batch_inv_first r :
  batch_inv [r] {| bs_batches := []; bs_start := r_addr r; bs_end := r_addr r + r_words r |}.
Proof.
  pose proof (r_words_pos r). split; cbn.
  - intros ? ->%list_elem_of_singleton. eexists. split; [by left|].
    unfold in_batch. simpl. lia.
  - exists r. split; [by left|done].
  - exists r. split; [by left|done].
  - repeat constructor; simpl; lia.
  - intros _. split; constructor.
Qed.

(** In sorted, non-overlapping order the next register starts at or after the end. *)
Lemma next_after_end done st r :
  batch_inv done st -> no_overlap (done ++ [r]) -> Forall (fun r' => addr_le r' r) done ->
  bs_end st <= r_addr r.
Proof.
  intros [_ _ (r1 & Hin & ->) _ _] Hno Hle.
  destruct (Z.le_gt_cases (r_addr r1 + r_words r1) (r_addr r)) as [|Hgt]; [done|].
  exfalso. unfold no_overlap in Hno. rewrite bind_app in Hno.
  apply NoDup_app in Hno as (_ & Hdis & _).
  apply (Hdis (r_addr r)).
  - apply list_elem_of_bind. exists r1. split; [|done]. apply elem_of_words_of.
    rewrite Forall_forall in Hle. specialize (Hle r1 Hin). unfold addr_le in Hle. lia.
  - cbn. rewrite app_nil_r. apply elem_of_words_of. pose proof (r_words_pos r). lia.
Qed.

Lemma no_overlap_prefix done l : no_overlap (done ++ l) -> no_overlap done.
Proof. unfold no_overlap. rewrite bind_app. by intros (? & _ & _)%NoDup_app. Qed.

Lemma batch_inv_extend done st r :
  batch_inv done st -> Forall (fun r' => addr_le r' r) done ->
  Z.max (bs_end st) (r_addr r + r_words r) - bs_start st <= max_words ->
  batch_inv (done ++ [r])
    {| bs_batches := bs_batches st; bs_start := bs_start st;
       bs_end := Z.max (bs_end st) (r_addr r + r_words r) |}.
Proof.
  intros [Hc (r0 & Hr0 & Hst) (r1 & Hr1 & Hen) Hsz Hd] Hle Hmx.
  pose proof (r_words_pos r).
  assert (bs_start st <= r_addr r) as Hsr.
  { rewrite Forall_forall in Hle. rewrite Hst. by apply Hle. }
  split; unfold batch_close in *; cbn.
  - intros r' [Hin| ->%list_elem_of_singleton]%elem_of_app.
    + destruct (Hc r' Hin) as (b & [Hb| ->%list_elem_of_singleton]%elem_of_app & Hib).
      * exists b. split; [set_solver|done].
      * eexists. split; [apply elem_of_app; right; by left|].
        unfold in_batch in *; simpl in *; lia.
    + eexists. split; [apply elem_of_app; right; by left|].
      unfold in_batch; simpl; lia.
  - exists r0. split; [set_solver|done].
  - destruct (Z.max_spec (bs_end st) (r_addr r + r_words r)) as [[_ ->]|[_ ->]].
    + exists r. split; [set_solver|done].
    + exists r1. split; [set_solver|done].
  - apply Forall_app in Hsz as [Hsz Hlast]. apply Forall_app. split; [done|].
    repeat constructor; cbn; lia.
  - intros Hno. apply Hd. by eapply no_overlap_prefix.
Qed.

Lemma batch_inv_close done st r :
  batch_inv done st -> Forall (fun r' => addr_le r' r) done ->
  batch_inv (done ++ [r])
    {| bs_batches := batch_close st; bs_start := r_addr r; bs_end := r_addr r + r_words r |}.
Proof.
  intros Hinv Hle. pose proof Hinv as [Hc _ (r1 & Hr1 & Hen) Hsz Hd].
  pose proof (r_words_pos r).
  split; unfold batch_close in *; cbn.
  - intros r' [Hin| ->%list_elem_of_singleton]%elem_of_app.
    + destruct (Hc r' Hin) as (b & Hb & Hib). exists b. split; [set_solver|done].
    + eexists. split; [apply elem_of_app; right; by left|].
      unfold in_batch; simpl; lia.
  - exists r. split; [set_solver|done].
  - exists r. split; [set_solver|done].
  - apply Forall_app. split; [done|]. repeat constructor; cbn; lia.
  - intros Hno. pose proof (next_after_end _ _ _ Hinv Hno Hle) as Hend.
    destruct (Hd (no_overlap_prefix _ _ Hno)) as [Hnd Hall]. split.
    + rewrite bind_app. apply NoDup_app. split_and!; [done| |].
      * intros w (b & Hw & Hb)%list_elem_of_bind. cbn. rewrite app_nil_r.
        unfold batch_words in *. cbn. rewrite elem_of_seqZ in Hw |- *.
        rewrite Forall_forall in Hall. specialize (Hall b Hb). lia.
      * cbn. rewrite app_nil_r. apply NoDup_seqZ.
    + apply Forall_app in Hsz as [_ Hlast]. apply Forall_cons in Hlast as [Hlast _].
      apply Forall_app. split; [|repeat constructor; cbn in *; lia].
      eapply Forall_impl; [exact Hall|]. cbn in *. intros; lia.
Qed.

Lemma batch_inv_step done st r :
  batch_inv done st -> Forall (fun r' => addr_le r' r) done ->
  batch_inv (done ++ [r]) (batch_step max_words st r).
Proof.
  intros Hinv Hle. unfold batch_step. case_match; breflect.
  - by apply batch_inv_extend.
  - by apply batch_inv_close.
Qed.

Lemma batch_inv_fold rest done st :
  batch_inv done st -> StronglySorted addr_le (done ++ rest) ->
  batch_inv (done ++ rest) (foldl (batch_step max_words) st rest).
Proof.
  revert done st. induction rest as [|r rest IH]; intros done st Hinv Hs; simpl.
  { by rewrite app_nil_r. }
  rewrite (assoc_L app done [r] rest : done ++ r :: rest = (done ++ [r]) ++ rest) in Hs |- *.
  apply IH; [|done]. apply batch_inv_step; [done|].
  apply Forall_forall. intros r' Hr'. rewrite <- (assoc_L app) in Hs.
  eapply StronglySorted_app_1_elem_of; [exact Hs|done|by left].
Qed.

Lemma batch_close_NoDup done st :
  batch_inv done st -> no_overlap done -> NoDup (batch_close st ≫= batch_words).
Proof.
  intros [_ _ _ _ Hd] Hno. destruct (Hd Hno) as [Hnd Hall].
  unfold batch_close. rewrite bind_app. apply NoDup_app. split_and!; [done| |].
  - intros w (b & Hw & Hb)%list_elem_of_bind. cbn. rewrite app_nil_r.
    unfold batch_words in *. cbn. rewrite elem_of_seqZ in Hw |- *.
    rewrite Forall_forall in Hall. specialize (Hall b Hb). lia.
  - cbn. rewrite app_nil_r. apply NoDup_seqZ.
Qed.

Lemma batch_reads_cover regs :
  (forall r, r ∈ regs -> exists b, b ∈ batch_reads regs max_words /\ in_batch r b) /\
  Forall (fun b => 1 <= snd b <= max_words) (batch_reads regs max_words) /\
  (no_overlap regs -> NoDup (batch_reads regs max_words ≫= batch_words)).
Proof.
  unfold batch_reads.
  pose proof (sort_by_addr_perm regs) as Hp. pose proof (sort_by_addr_sorted regs) as Hs.
  destruct (sort_by_addr regs) as [|r0 rest].
  { apply Permutation_nil_l in Hp. subst. split_and!; [set_solver|constructor|constructor]. }
  pose proof (batch_inv_fold rest [r0] _ (batch_inv_first r0) Hs) as Hinv.
  split_and!.
  - intros r Hr. apply (bi_cover _ _ Hinv). cbn. by rewrite Hp.
  - apply (bi_size _ _ Hinv).
  - intros Hno. eapply batch_close_NoDup; [exact Hinv|].
    unfold no_overlap in *. cbn [app]. by rewrite Hp.
Qed.

(** C22. The batched reads cover every register, no batch exceeds the word limit, and
    registers that do not overlap are never read twice. *)
Theorem batch_reads_spec regs :
  (forall r, r ∈ regs -> exists b, b ∈ batch_reads regs max_words /\ in_batch r b) /\
  Forall (fun b => 1 <= snd b <= max_words) (batch_reads regs max_words) /\
  (no_overlap regs -> NoDup (batch_reads regs max_words ≫= batch_words)).
Proof. apply batch_reads_cover. Qed.
End batch.
