(* ===== verification/RegisterValidation.v ===== *)
(** * Validation of a register map (modbus/registers.py, [validate_register_map])

    The report of errors and warnings, and the theorem that an empty error list
    is exactly structural well-formedness of the map, up to the overlaps that a
    register without a name hides. *)

From S2P Require Import Prelude PyNum Registers RegisterFacts.

Local Open Scope Z_scope.
Local Open Scope gw_scope.

Record MapValidation : Type := {
  mv_errors : list string;
  mv_warnings : list string
}.

Definition mv_ok (v : MapValidation) : bool :=
  match mv_errors v with [] => true | _ => false end.

Definition report_if (b : bool) (msg : string) : list string := if b then [msg] else [].

(** ** Registers *)

(** The word-overlap loop of one register over the [occupied_words] dict. *)
Fixpoint check_words (name : string) (ws : list Z) (occupied : gmap Z string)
    : list string * gmap Z string :=
  match ws with
  | [] => ([], occupied)
  | w :: rest =>
      let err := match occupied !! w with
                 | Some prior =>
                     report_if (negb (prior =? "")%string && negb (prior =? name)%string)
                       ("register word overlap at 0x" +:+ fmt_04X w +:+ ": '" +:+ prior
                        +:+ "' vs '" +:+ name +:+ "'")
                 | None => []
                 end in
      let '(errs, occ) := check_words name rest (<[w := name]> occupied) in
      (err ++ errs, occ)
  end.

Definition check_register_fields (by_name : gset string) (r : RegisterDef) : list string :=
  report_if (bool_decide (r_name r ∈ by_name)) ("duplicate register name: " +:+ r_name r) ++
  report_if (negb ((r_fc r =? 3) || (r_fc r =? 4)))
    ("register '" +:+ r_name r +:+ "' has unsupported read fc " +:+ str_Z (r_fc r)
     +:+ " (expected 3/4)") ++
  report_if (negb ((r_tier r =? "prime")%string || (r_tier r =? "base")%string))
    ("register '" +:+ r_name r +:+ "' has invalid tier '" +:+ r_tier r +:+ "'") ++
  report_if ((r_addr r <? 0) || (0xFFFF <? r_addr r))
    ("register '" +:+ r_name r +:+ "' addr out of 16-bit range: " +:+ str_Z (r_addr r)).

Fixpoint check_registers (by_name : gset string) (occupied : gmap Z string)
    (regs : list RegisterDef) : list string * (gset string * gmap Z string) :=
  match regs with
  | [] => ([], (by_name, occupied))
  | r :: rest =>
      let errs := check_register_fields by_name r in
      let '(werrs, occ) := check_words (r_name r) (seqZ (r_addr r) (r_words r)) occupied in
      let '(more, st) := check_registers ({[ r_name r ]} ∪ by_name) occ rest in
      (errs ++ werrs ++ more, st)
  end.

(** ** Bit rules *)

Definition bad_mask (m : Z) : bool := (m <=? 0) || (0xFFFF <? m).

Definition check_state_rule (by_name : gset string) (rule : StateBitRule) : list string :=
  report_if (negb (bool_decide (sb_register rule ∈ by_name)))
    ("engine_state_bits rule references unknown register: " +:+ sb_register rule).

Definition check_alarm_bit (by_name : gset string) (ab : AlarmBit) : list string :=
  report_if (negb (bool_decide (ab_register ab ∈ by_name)))
    ("alarm_bits rule references unknown register: " +:+ ab_register ab) ++
  report_if (bad_mask (ab_mask ab))
    ("alarm_bits rule '" +:+ ab_code ab +:+ "' has invalid mask 0x" +:+ fmt_X (ab_mask ab)).

Definition check_panel_rule (by_name : gset string) (pm : PanelModeRule) : list string :=
  report_if (negb (bool_decide (pm_register pm ∈ by_name)))
    ("panel_mode_bits rule references unknown register: " +:+ pm_register pm) ++
  report_if (bad_mask (pm_mask pm))
    ("panel_mode_bits rule '" +:+ pm_mode pm +:+ "' has invalid mask 0x" +:+ fmt_X (pm_mask pm)).

Definition panel_rule_warning (pm : PanelModeRule) : list string :=
  report_if (negb (existsb (fun m => (m =? pm_mode pm)%string) ["auto"; "manual"; "off"]%string))
    ("panel_mode_bits rule has non-standard mode '" +:+ pm_mode pm
     +:+ "' (UI expects auto/manual/off; will display as 'unknown')").

(** ** Controls *)

Definition check_control (control_names by_name : gset string) (c : ControlDef) : list string :=
  report_if (bool_decide (c_name c ∈ control_names) || bool_decide (c_name c ∈ by_name))
    ("duplicate control name: " +:+ c_name c) ++
  report_if (negb ((c_fc c =? 6) || (c_fc c =? 16)))
    ("control '" +:+ c_name c +:+ "' has unsupported write fc " +:+ str_Z (c_fc c)
     +:+ " (expected 6/16)") ++
  report_if ((c_addr c <? 0) || (0xFFFF <? c_addr c))
    ("control '" +:+ c_name c +:+ "' addr out of 16-bit range: " +:+ str_Z (c_addr c)) ++
  report_if ((c_fc c =? 6) && negb (length (write_values c) =? 1)%nat)
    ("control '" +:+ c_name c +:+ "' fc:6 requires exactly one value (got "
     +:+ str_Z (Z.of_nat (length (write_values c))) +:+ ")").

Definition control_warning (occupied : gmap Z string) (c : ControlDef) : list string :=
  match occupied !! c_addr c with
  | Some owner =>
      ["control '" +:+ c_name c +:+ "' shares address 0x" +:+ fmt_04X (c_addr c)
       +:+ " with read register '" +:+ owner
       +:+ "' (intentional for H-100 dual-purpose registers; verify if this control was added recently)"]
  | None => []
  end.

Fixpoint check_controls (control_names by_name : gset string) (cs : list ControlDef)
    : list string :=
  match cs with
  | [] => []
  | c :: rest => check_control control_names by_name c ++
                 check_controls ({[ c_name c ]} ∪ control_names) by_name rest
  end.

(** ** The whole report *)

Definition validate_register_map (rm : RegisterMap) : MapValidation :=
  let '(reg_errs, (by_name, occupied)) := check_registers ∅ ∅ (rm_registers rm) in
  let controls := od_values (rm_controls rm) in
  {| mv_errors :=
       report_if (negb ((1 <=? rm_slave rm) && (rm_slave rm <=? 247)))
         ("modbus.slave must be 1..247 (got " +:+ str_Z (rm_slave rm) +:+ ")") ++
       report_if (negb ((rm_read_fc rm =? 3) || (rm_read_fc rm =? 4)))
         ("modbus.read_fc must be 3 or 4 (got " +:+ str_Z (rm_read_fc rm) +:+ ")") ++
       reg_errs ++
       concat (map (check_state_rule by_name) (rm_engine_state_bits rm)) ++
       concat (map (check_alarm_bit by_name) (rm_alarm_bits rm)) ++
       concat (map (check_panel_rule by_name) (rm_panel_mode_bits rm)) ++
       check_controls ∅ by_name controls ++
       report_if (match rm_registers rm with [] => true | _ => false end)
         "register map has no read registers";
     mv_warnings :=
       concat (map panel_rule_warning (rm_panel_mode_bits rm)) ++
       concat (map (control_warning occupied) controls) ++
       report_if (match controls with [] => true | _ => false end)
         "register map has no control registers" |}.

(** ** Well-formedness *)

Definition mask_ok (m : Z) : Prop := 0 < m <= 65535.

Definition register_ok (r : RegisterDef) : Prop :=
  (r_fc r = 3 \/ r_fc r = 4) /\ (r_tier r = "prime"%string \/ r_tier r = "base"%string) /\
  0 <= r_addr r <= 65535.

Definition control_ok (c : ControlDef) : Prop :=
  (c_fc c = 6 \/ c_fc c = 16) /\ 0 <= c_addr c <= 65535 /\
  (c_fc c = 6 -> length (write_values c) = 1%nat).

Record map_ok_by (overlap_free : list RegisterDef -> Prop) (rm : RegisterMap) : Prop := {
  ok_slave : 1 <= rm_slave rm <= 247;
  ok_read_fc : rm_read_fc rm = 3 \/ rm_read_fc rm = 4;
  ok_nonempty : rm_registers rm <> [];
  ok_names : NoDup (map r_name (rm_registers rm));
  ok_registers : Forall register_ok (rm_registers rm);
  ok_no_overlap : overlap_free (rm_registers rm);
  ok_state_rules : Forall (fun rule => sb_register rule ∈ map r_name (rm_registers rm))
                     (rm_engine_state_bits rm);
  ok_alarm_bits : Forall (fun ab => ab_register ab ∈ map r_name (rm_registers rm) /\
                                    mask_ok (ab_mask ab)) (rm_alarm_bits rm);
  ok_panel_rules : Forall (fun pm => pm_register pm ∈ map r_name (rm_registers rm) /\
                                     mask_ok (pm_mask pm)) (rm_panel_mode_bits rm);
  ok_controls : Forall control_ok (od_values (rm_controls rm));
  ok_control_names : NoDup (map c_name (od_values (rm_controls rm)) ++
                            map r_name (rm_registers rm))
}.

(** No word is read into two registers. *)
Definition map_ok : RegisterMap -> Prop := map_ok_by no_overlap.

(** No word of a register with a name is read into a later register. *)
Definition disjoint_words (a b : RegisterDef) : Prop := forall w, w ∈ words_of a -> w ∉ words_of b.
Definition named_disjoint : list RegisterDef -> Prop :=
  ForallOrdPairs (fun a b => r_name a = ""%string \/ disjoint_words a b).

(** ** Correctness of the report *)

Lemma report_if_nil b msg : report_if b msg = [] <-> b = false.
Proof. by destruct b. Qed.

Lemma app_nil_iff {A} (l k : list A) : l ++ k = [] <-> l = [] /\ k = [].
Proof. split; [apply app_eq_nil|by intros [-> ->]]. Qed.

Lemma concat_map_nil {A} (f : A -> list string) l :
  concat (map f l) = [] <-> Forall (fun x => f x = []) l.
Proof.
  induction l as [|x l IH]; simpl; [split; auto|].
  rewrite app_nil_iff, IH, Forall_cons. done.
Qed.

Lemma bad_mask_false m : bad_mask m = false <-> mask_ok m.
Proof. unfold bad_mask, mask_ok. rewrite orb_false_iff, Z.leb_gt, Z.ltb_ge. lia. Qed.

Lemma fc_test_false a b c :
  negb ((c =? a) || (c =? b)) = false <-> c = a \/ c = b.
Proof. rewrite negb_false_iff, orb_true_iff, !Z.eqb_eq. done. Qed.

Lemma addr_test_false a : ((a <? 0) || (0xFFFF <? a)) = false <-> 0 <= a <= 65535.
Proof. rewrite orb_false_iff, !Z.ltb_ge. lia. Qed.

#[local] Hint Rewrite @app_nil_iff report_if_nil fc_test_false addr_test_false bad_mask_false
  bool_decide_eq_false negb_false_iff bool_decide_eq_true : report.

Lemma check_register_fields_nil by_name r :
  check_register_fields by_name r = [] <-> r_name r ∉ by_name /\ register_ok r.
Proof.
  unfold check_register_fields, register_ok. autorewrite with report.
  rewrite !orb_true_iff, ?Z.eqb_eq, !String.eqb_eq. tauto.
Qed.

(** The word is free, or held by an empty or the same name. *)
Definition word_free (name : string) (occ : gmap Z string) (w : Z) : Prop :=
  forall p, occ !! w = Some p -> p = ""%string \/ p = name.

Lemma check_words_lookup name ws occ w :
  snd (check_words name ws occ) !! w = if bool_decide (w ∈ ws) then Some name else occ !! w.
Proof.
  revert occ. induction ws as [|w' ws IH]; intros occ; cbn [check_words].
  { by rewrite bool_decide_eq_false_2 by apply not_elem_of_nil. }
  specialize (IH (<[w':=name]> occ)).
  destruct (check_words name ws (<[w':=name]> occ)) as [errs occ']. simpl in *. rewrite IH.
  destruct (decide (w ∈ ws)) as [Hin|Hin].
  { by rewrite !bool_decide_eq_true_2 by set_solver. }
  rewrite bool_decide_eq_false_2 by done. rewrite lookup_insert.
  destruct (decide (w' = w)) as [->|Hne].
  - by rewrite bool_decide_eq_true_2 by set_solver.
  - by rewrite bool_decide_eq_false_2 by set_solver.
Qed.

Lemma check_words_nil name ws occ :
  fst (check_words name ws occ) = [] <-> Forall (word_free name occ) ws.
Proof.
  revert occ. induction ws as [|w ws IH]; intros occ; cbn [check_words]; [split; auto|].
  specialize (IH (<[w:=name]> occ)).
  destruct (check_words name ws (<[w:=name]> occ)) as [errs occ']. simpl in *.
  rewrite app_nil_iff, IH, Forall_cons.
  assert (match occ !! w with
          | Some prior => report_if (negb (prior =? "")%string && negb (prior =? name)%string)
              ("register word overlap at 0x" +:+ fmt_04X w +:+ ": '" +:+ prior
                        +:+ "' vs '" +:+ name +:+ "'")
          | None => [] end = [] <-> word_free name occ w) as ->.
  { unfold word_free. destruct (occ !! w) as [p|]; [|naive_solver].
    rewrite report_if_nil, andb_false_iff, !negb_false_iff, !String.eqb_eq. naive_solver. }
  split; intros [Hw Hf]; split; try done; eapply Forall_impl; try exact Hf;
    intros w' Hw' p; destruct (decide (w = w')) as [<-|Hne]; rewrite ?lookup_insert_eq; auto.
  - intros. apply Hw'. by rewrite lookup_insert_ne.
  - intros [= <-]. auto.
  - rewrite lookup_insert_ne by done. apply Hw'.
Qed.

(** The two accumulators after the registers [done]: a word belongs to the last of them
    that holds it. *)
Definition reg_acc (done : list RegisterDef) (by_name : gset string) (occ : gmap Z string) : Prop :=
  by_name = list_to_set (map r_name done) /\
  (forall w, is_Some (occ !! w) <-> w ∈ done ≫= words_of) /\
  (forall w p, occ !! w = Some p -> exists before a after, done = before ++ a :: after /\
     r_name a = p /\ w ∈ words_of a /\ Forall (fun b => w ∉ words_of b) after).

Lemma reg_acc_snoc done by_name occ r :
  reg_acc done by_name occ ->
  reg_acc (done ++ [r]) ({[ r_name r ]} ∪ by_name)
    (snd (check_words (r_name r) (seqZ (r_addr r) (r_words r)) occ)).
Proof.
  intros (-> & Hdom & Howner). unfold reg_acc. split_and!.
  - rewrite map_app, list_to_set_app_L. simpl. set_solver.
  - intros w. rewrite check_words_lookup, bind_app. simpl. rewrite app_nil_r, elem_of_app.
    fold (words_of r). rewrite <- Hdom. case_bool_decide; naive_solver.
  - intros w p. rewrite check_words_lookup. case_bool_decide as Hin.
    + intros [= <-]. by exists done, r, [].
    + intros (before & a & after & -> & Hp & Hw & Haf)%Howner. exists before, a, (after ++ [r]).
      split_and!; [by rewrite <- app_assoc|done..|]. apply Forall_app. split; [done|]. by apply Forall_singleton.
Qed.

Lemma ForallOrdPairs_snoc {A} (R : A -> A -> Prop) l x :
  ForallOrdPairs R (l ++ [x]) <-> ForallOrdPairs R l /\ Forall (fun a => R a x) l.
Proof.
  induction l as [|a l IH]; cbn; [split; repeat constructor|]. rewrite Forall_cons. split.
  - intros Hp. inversion Hp as [|? ? Ha Hl]; subst. apply Forall_app in Ha as [Ha Hx].
    apply IH in Hl as [Hl Hr]. split; [by constructor|]. split; [|done]. by rewrite Forall_singleton in Hx.
  - intros [Hp [Hx Hr]]. inversion Hp as [|? ? Ha Hl]; subst. constructor; [|by apply IH].
    apply Forall_app. split; [done|]. by apply Forall_singleton.
Qed.

Lemma ForallOrdPairs_before {A} (R : A -> A -> Prop) before a after b :
  ForallOrdPairs R (before ++ a :: after) -> b ∈ before -> R b a.
Proof.
  intros Hp Hb. rewrite app_cons_snoc in Hp. revert Hp.
  induction after as [|x after IH] using rev_ind.
  - rewrite app_nil_r. rewrite ForallOrdPairs_snoc, Forall_forall. intros [_ Hall]. by apply Hall.
  - rewrite app_assoc, ForallOrdPairs_snoc. intros [Hp _]. by apply IH.
Qed.

(** With a fresh name the word loop is silent exactly when no earlier register with a
    name shares a word. *)
Lemma words_free_iff done by_name occ r :
  reg_acc done by_name occ -> named_disjoint done -> r_name r ∉ by_name ->
  Forall (word_free (r_name r) occ) (words_of r) <->
  Forall (fun a => r_name a = ""%string \/ disjoint_words a r) done.
Proof.
  intros (-> & Hdom & Howner) Hdis Hfresh. rewrite elem_of_list_to_set in Hfresh. rewrite !Forall_forall. split.
  - intros Hfree a Ha. destruct (decide (r_name a = ""%string)) as [|Hne]; [by left|]. right. intros w Hwa Hwr.
    destruct (proj2 (Hdom w)) as [p Hp]; [apply list_elem_of_bind; by exists a|].
    pose proof (Howner w p Hp) as (before & b & after & Hsplit & Hb & Hwb & Haf).
    destruct (Hfree w Hwr p Hp) as [->| ->].
    + rewrite Hsplit, elem_of_app, elem_of_cons in Ha. destruct Ha as [Ha|[->|Ha]]; [|done|].
      * subst done. destruct (ForallOrdPairs_before _ _ _ _ _ Hdis Ha) as [|Hd]; [done|]. by apply (Hd w).
      * rewrite Forall_forall in Haf. by apply (Haf a).
    + apply Hfresh. rewrite <- Hb, Hsplit. apply list_elem_of_fmap_2, elem_of_app. right. by left.
  - intros Hall w Hwr p (before & a & after & Hsplit & <- & Hwa & _)%Howner.
    destruct (Hall a) as [?|Hd]; [|by left|by destruct (Hd w)]. rewrite Hsplit. apply elem_of_app. right. by left.
Qed.

Definition nonempty_name (r : RegisterDef) : Prop := r_name r <> ""%string.

(** Where every register has a name, no word is read twice. *)
Lemma named_no_overlap regs : Forall nonempty_name regs -> named_disjoint regs <-> no_overlap regs.
Proof.
  unfold no_overlap. induction regs as [|r regs IH]; cbn; [by split; constructor|].
  intros [Hr Hne]%Forall_cons. rewrite NoDup_app, <- IH by done. split.
  - intros Hp. inversion Hp as [|? ? Ha Hl]; subst. split_and!; [apply NoDup_seqZ| |done].
    intros w Hw (b & Hwb & Hb)%list_elem_of_bind. rewrite Forall_forall in Ha. by destruct (Ha b Hb) as [|Hd]; [|apply (Hd w)].
  - intros (_ & Hdis & Hp). constructor; [|done]. apply Forall_forall. intros b Hb. right. intros w Hw Hwb.
    apply (Hdis w Hw), list_elem_of_bind. by exists b.
Qed.

Lemma NoDup_names_snoc done by_name occ r :
  reg_acc done by_name occ -> NoDup (map r_name done) ->
  NoDup (map r_name (done ++ [r])) <-> r_name r ∉ by_name.
Proof.
  intros (-> & _ & _) Hnd. rewrite map_app, NoDup_app, elem_of_list_to_set. simpl. split.
  - intros (_ & Hdis & _) Hin. apply (Hdis _ Hin). by left.
  - intros Hfresh. split_and!; [done| |apply NoDup_singleton].
    intros n Hn ->%list_elem_of_singleton. done.
Qed.

Definition regs_ok (regs : list RegisterDef) : Prop :=
  NoDup (map r_name regs) /\ named_disjoint regs /\ Forall register_ok regs.

Lemma regs_ok_snoc done by_name occ r :
  reg_acc done by_name occ -> regs_ok done ->
  regs_ok (done ++ [r]) <->
  check_register_fields by_name r = [] /\
  fst (check_words (r_name r) (seqZ (r_addr r) (r_words r)) occ) = [].
Proof.
  intros Hacc (Hnd & Hno & Hok). unfold regs_ok, named_disjoint.
  rewrite (NoDup_names_snoc _ _ _ _ Hacc Hnd), ForallOrdPairs_snoc.
  rewrite check_register_fields_nil, check_words_nil, Forall_app, Forall_singleton.
  fold (words_of r) (named_disjoint done).
  destruct (decide (r_name r ∈ by_name)) as [Hin|Hfresh]; [naive_solver|].
  rewrite (words_free_iff _ _ _ _ Hacc Hno Hfresh). tauto.
Qed.

Lemma regs_ok_prefix done l : regs_ok (done ++ l) -> regs_ok done.
Proof.
  unfold regs_ok. intros (Hnd & Hno & Hok). split_and!.
  - rewrite map_app in Hnd. apply NoDup_app in Hnd. tauto.
  - clear -Hno. induction l as [|x l IH] using rev_ind; [by rewrite app_nil_r in Hno|].
    rewrite app_assoc in Hno. apply ForallOrdPairs_snoc in Hno as [Hno _]. by apply IH.
  - apply Forall_app in Hok. tauto.
Qed.

Lemma check_registers_acc regs done by_name occ :
  reg_acc done by_name occ ->
  reg_acc (done ++ regs) (fst (snd (check_registers by_name occ regs)))
    (snd (snd (check_registers by_name occ regs))).
Proof.
  revert done by_name occ. induction regs as [|r regs IH]; intros done by_name occ Hacc.
  { by rewrite app_nil_r. }
  apply (reg_acc_snoc _ _ _ r) in Hacc. rewrite app_cons_snoc. cbn [check_registers].
  destruct (check_words _ _ occ) as [werrs occ']. cbn [fst snd] in *.
  specialize (IH _ _ _ Hacc).
  by destruct (check_registers _ occ' regs).
Qed.

Lemma check_registers_nil regs done by_name occ :
  reg_acc done by_name occ -> regs_ok done ->
  fst (check_registers by_name occ regs) = [] <-> regs_ok (done ++ regs).
Proof.
  revert done by_name occ. induction regs as [|r regs IH]; intros done by_name occ Hacc Hok.
  { by rewrite app_nil_r. }
  pose proof (reg_acc_snoc _ _ _ r Hacc) as Hacc'. rewrite app_cons_snoc.
  pose proof (regs_ok_snoc _ _ _ r Hacc Hok) as Hstep. cbn [check_registers].
  destruct (check_words _ _ occ) as [werrs occ']. cbn [fst snd] in *.
  specialize (IH _ _ _ Hacc').
  destruct (check_registers _ occ' regs) as [more st]. cbn [fst snd] in *.
  rewrite !app_nil_iff. split.
  - intros (Hf & Hw & Hm). apply IH; [|done]. by apply Hstep.
  - intros Hall. pose proof (regs_ok_prefix _ _ Hall) as Hr.
    pose proof (proj1 Hstep Hr) as [-> ->]. split_and!; try done. by apply IH.
Qed.

(** *** Rules and controls *)

Lemma check_state_rule_nil bn rule :
  check_state_rule bn rule = [] <-> sb_register rule ∈ bn.
Proof. unfold check_state_rule. by autorewrite with report. Qed.

Lemma check_alarm_bit_nil bn ab :
  check_alarm_bit bn ab = [] <-> ab_register ab ∈ bn /\ mask_ok (ab_mask ab).
Proof. unfold check_alarm_bit. by autorewrite with report. Qed.

Lemma check_panel_rule_nil bn pm :
  check_panel_rule bn pm = [] <-> pm_register pm ∈ bn /\ mask_ok (pm_mask pm).
Proof. unfold check_panel_rule. by autorewrite with report. Qed.

Lemma check_control_nil cn bn c :
  check_control cn bn c = [] <-> c_name c ∉ cn /\ c_name c ∉ bn /\ control_ok c.
Proof.
  unfold check_control, control_ok. autorewrite with report.
  rewrite orb_false_iff, !bool_decide_eq_false, orb_true_iff, !Z.eqb_eq, andb_false_iff,
    Z.eqb_neq, negb_false_iff, Nat.eqb_eq.
  destruct (decide (c_fc c = 6)); naive_solver.
Qed.

Lemma check_controls_nil cs cn bn :
  check_controls cn bn cs = [] <->
  NoDup (map c_name cs) /\ Forall (fun c => c_name c ∉ cn /\ c_name c ∉ bn /\ control_ok c) cs.
Proof.
  revert cn. induction cs as [|c cs IH]; intros cn; simpl.
  { split; [intros _; split; constructor|done]. }
  rewrite app_nil_iff, IH, check_control_nil, NoDup_cons, Forall_cons.
  rewrite !Forall_forall, list_elem_of_fmap. set_solver.
Qed.

Lemma validate_ok_by rm : mv_ok (validate_register_map rm) = true <-> map_ok_by named_disjoint rm.
Proof.
  unfold validate_register_map, mv_ok.
  assert (reg_acc [] ∅ ∅) as Hacc.
  { unfold reg_acc. split_and!; [done|intros; simpl; rewrite lookup_empty|intros ??].
    - split; [by intros [? ?]|intros H; by apply elem_of_nil in H].
    - by rewrite lookup_empty. }
  assert (regs_ok []) as Hnil by (split_and!; constructor).
  pose proof (check_registers_nil (rm_registers rm) [] ∅ ∅ Hacc Hnil) as Hregs.
  pose proof (check_registers_acc (rm_registers rm) [] ∅ ∅ Hacc) as (Hbn & _ & _).
  destruct (check_registers ∅ ∅ (rm_registers rm)) as [errs [bn occ]].
  cbn [fst snd mv_errors app] in *.
  match goal with |- context [match ?e with [] => _ | _ => _ end] =>
    transitivity (e = []); [destruct e; split; (done || discriminate)|] end.
  rewrite !app_nil_iff, !report_if_nil, Hregs, !concat_map_nil, check_controls_nil.
  rewrite fc_test_false, negb_false_iff, andb_true_iff, !Z.leb_le.
  setoid_rewrite check_state_rule_nil. setoid_rewrite check_alarm_bit_nil.
  setoid_rewrite check_panel_rule_nil. subst bn.
  setoid_rewrite elem_of_list_to_set.
  unfold regs_ok. split.
  - intros (Hs & Hf & (Hnd & Hno & Hok) & Hsr & Hab & Hpm & (Hcn & Hc) & He).
    constructor; try done.
    + by destruct (rm_registers rm).
    + eapply Forall_impl; [exact Hc|]. naive_solver.
    + apply NoDup_app. split_and!; [done| |done].
      intros n (c & -> & Hin)%list_elem_of_fmap.
      rewrite Forall_forall in Hc. by apply Hc.
  - intros [Hs Hf Hnil' Hnd Hok Hno Hsr Hab Hpm Hc (Hcn & Hdis & _)%NoDup_app].
    split_and!; try done; try lia.
    + apply Forall_forall. intros c Hin. rewrite Forall_forall in Hc. split_and!.
      * apply not_elem_of_empty.
      * apply Hdis. apply list_elem_of_fmap. by exists c.
      * by apply Hc.
    + by destruct (rm_registers rm).
Qed.

Lemma map_ok_by_iff (P Q : list RegisterDef -> Prop) rm :
  (P (rm_registers rm) <-> Q (rm_registers rm)) -> map_ok_by P rm <-> map_ok_by Q rm.
Proof. intros Hpq. split; intros []; constructor; try done; by apply Hpq. Qed.

Lemma validate_ok_iff rm :
  Forall nonempty_name (rm_registers rm) ->
  mv_ok (validate_register_map rm) = true <-> map_ok rm.
Proof. intros Hne. rewrite validate_ok_by. by apply map_ok_by_iff, named_no_overlap. Qed.

(** The empty name hides an overlap: of two registers on one word the second is refused
    when the first has a name, and accepted when it has none. *)
Definition two_registers (site : SiteConfig) (ty : RegType) (first second : string) : RegisterMap :=
  let at_0x80 name := {| r_name := name; r_addr := 0x80; r_fc := 3; r_type := ty; r_tier := "prime"; r_group := "State";
                         r_unit := ""; r_scale := f_one; r_warn_range := None; r_alarm_range := None |} in
  {| rm_path := "registers/h100.yaml"; rm_site := site; rm_slave := 100; rm_read_fc := 3; rm_prime_poll_ms := 1500;
     rm_base_poll_ms := 15000; rm_timeout_s := f_one; rm_retries := 2; rm_backoff_s := []; rm_engine_state_bits := [];
     rm_alarm_bits := []; rm_panel_mode_bits := []; rm_registers := [at_0x80 first; at_0x80 second]; rm_controls := [];
     rm_numeric_alarms_enabled := false |}.

Lemma unnamed_overlap_accepted site :
  mv_ok (validate_register_map (two_registers site u16 "" "kw")) = true /\
  mv_ok (validate_register_map (two_registers site u16 "kw" "")) = false /\
  (forall a b, ~ no_overlap (rm_registers (two_registers site u16 a b))).
Proof.
  split_and!; [vm_compute; reflexivity..|]. intros a b Hno. apply NoDup_cons in Hno as [Hin _]. apply Hin. by left.
Qed.

(** C23. For every map the validator reports no error exactly when the register map is
    well-formed: unique names, addresses, function codes, masks, rules and controls in
    range, and no word of a register with a name read into a later register. Where every
    register has a name this is that no word is read into two registers; the empty name
    hides an overlap. *)
Theorem validate_register_map_iff rm :
  (mv_ok (validate_register_map rm) = true <-> map_ok_by named_disjoint rm) /\
  (Forall nonempty_name (rm_registers rm) -> mv_ok (validate_register_map rm) = true <-> map_ok rm).
Proof. split; [apply validate_ok_by|apply validate_ok_iff]. Qed.
