(* ===== verification/ShippedMaps.v ===== *)
(** * The shipped register maps (registers/h100.yaml and registers/ats_pi.yaml)

    The two YAML files as the loader parses them, and the theorem that both pass
    the validator without an error. *)

From S2P Require Import Prelude PyNum Registers RegisterFacts RegisterValidation.

Local Open Scope Z_scope.

(** Every shipped register uses function code 3; the loader's defaults fill the rest. *)
Definition reg (name : string) (addr : Z) (ty : RegType) (tr grp unt : string)
    (sc : pyfloat) (warn alarm : option range_t) : RegisterDef :=
  {| r_name := name; r_addr := addr; r_fc := 3; r_type := ty; r_tier := tr; r_group := grp;
     r_unit := unt; r_scale := sc; r_warn_range := warn; r_alarm_range := alarm |}.

Definition alarm_bit (rg : string) (mask : Z) (code desc sev : string)
    (sup : list string) (n : Z) : AlarmBit :=
  {| ab_register := rg; ab_mask := mask; ab_code := code; ab_desc := desc; ab_severity := sev;
     ab_suppress_in_states := sup; ab_min_poll_count := n |}.

Definition ctl (name : string) (addr fc : Z) (vals : list Z) (desc : string)
    : string * ControlDef :=
  (name, {| c_name := name; c_addr := addr; c_fc := fc; c_value := 1; c_values := vals;
            c_desc := desc |}).

(** ** Generac H-100 *)

Definition h100_registers : list RegisterDef := [
  reg "input_status_1" 128 bitfld "prime" "State" "bits" f_one None None;
  reg "output_status_1" 130 bitfld "prime" "State" "bits" f_one None None;
  reg "output_status_2" 131 bitfld "prime" "Alarms" "bits" f_one None None;
  reg "output_status_3" 132 bitfld "prime" "Alarms" "bits" f_one None None;
  reg "output_status_4" 133 bitfld "prime" "Alarms" "bits" f_one None None;
  reg "output_status_5" 134 bitfld "prime" "Alarms" "bits" f_one None None;
  reg "output_status_6" 135 bitfld "prime" "Alarms" "bits" f_one None None;
  reg "output_status_7" 136 bitfld "prime" "State" "bits" f_one None None;
  reg "output_status_8" 137 bitfld "prime" "Alarms" "bits" f_one None None;
  reg "oil_temp" 138 u32_lo "base" "Engine" "F" f_one None None;
  reg "coolant_temp" 140 u32_lo "base" "Engine" "F" f_one (Some ((f_of_Z 170), (f_of_Z 210))) (Some ((f_of_Z 120), (f_of_Z 235)));
  reg "oil_pressure" 142 u32_lo "base" "Engine" "psi" f_one (Some ((f_of_Z 35), (f_of_Z 80))) None;
  reg "coolant_level" 144 u32_lo "base" "Engine" "pct" f_one None None;
  reg "fuel_level_pct" 146 u32_lo "base" "Engine" "pct" f_one None None;
  reg "throttle_position" 150 u32_lo "base" "Engine" "pct" f_one None None;
  reg "o2_sensor" 152 u32_lo "base" "Engine" "pct" f_one None None;
  reg "batt_charge_current" 154 u32_lo "base" "Engine" "A" f_one None None;
  reg "battery_volts" 156 u32_lo "base" "Engine" "V" (flt 1 100) (Some ((flt 126 10), (flt 146 10))) None;
  reg "gen_current_a" 158 u32_lo "base" "Electrical" "A" f_one None None;
  reg "gen_current_b" 160 u32_lo "base" "Electrical" "A" f_one None None;
  reg "gen_current_c" 162 u32_lo "base" "Electrical" "A" f_one None None;
  reg "avg_current" 164 u32_lo "base" "Electrical" "A" f_one None None;
  reg "gen_voltage_ab" 166 u32_lo "base" "Electrical" "V" f_one None None;
  reg "gen_voltage_bc" 168 u32_lo "base" "Electrical" "V" f_one None None;
  reg "gen_voltage_ca" 170 u32_lo "base" "Electrical" "V" f_one None None;
  reg "avg_voltage" 172 u32_lo "base" "Electrical" "V" f_one None None;
  reg "total_kw" 174 u32_lo "base" "Electrical" "kW" f_one None None;
  reg "power_factor" 176 u32_lo "base" "Electrical" "pf" (flt 1 100) None None;
  reg "frequency" 178 u32_lo "base" "Electrical" "Hz" (flt 1 10) None None;
  reg "rpm" 180 u32_lo "base" "Engine" "rpm" f_one (Some ((f_of_Z 1750), (f_of_Z 1850))) None;
  reg "active_alarm_count" 303 u16 "prime" "State" "count" f_one None None;
  reg "run_hours" 304 u32 "base" "Maintenance" "h" (flt 1 10) None None;
  reg "engine_status_code" 306 u16 "prime" "State" "enum" f_one None None;
  reg "key_switch_state" 416 bitfld "prime" "State" "bits" f_one None None;
  reg "quiettest_status" 555 u16 "prime" "State" "enum" f_one None None
]%string.

Definition h100_engine_state_bits : list StateBitRule := [
  {| sb_state := "alarm"; sb_register := "output_status_1"; sb_mask := 32768 |};
  {| sb_state := "cranking"; sb_register := "output_status_7"; sb_mask := 4096 |};
  {| sb_state := "cooling"; sb_register := "output_status_7"; sb_mask := 8192 |};
  {| sb_state := "exercising"; sb_register := "output_status_7"; sb_mask := 32 |};
  {| sb_state := "running"; sb_register := "output_status_1"; sb_mask := 8192 |};
  {| sb_state := "stopped"; sb_register := "output_status_1"; sb_mask := 256 |}
]%string.

Definition h100_panel_mode_bits : list PanelModeRule := [
  {| pm_mode := "auto"; pm_register := "input_status_1"; pm_mask := 32768 |};
  {| pm_mode := "manual"; pm_register := "input_status_1"; pm_mask := 16384 |};
  {| pm_mode := "off"; pm_register := "input_status_1"; pm_mask := 8192 |}
]%string.

Definition h100_alarm_bits : list AlarmBit := [
  alarm_bit "output_status_1" 32768 "COMMON_ALARM" "Common Alarm" "alarm" [] 1;
  alarm_bit "output_status_1" 16384 "COMMON_WARNING" "Common Warning" "warn" [] 1;
  alarm_bit "output_status_1" 512 "STOPPED_IN_ALARM" "Stopped in Alarm" "alarm" [] 1;
  alarm_bit "output_status_1" 16 "OVERCRANK" "Overcrank" "alarm" [] 1;
  alarm_bit "output_status_1" 8 "OIL_INHIBIT" "Oil Inhibit Alarm" "alarm" [] 1;
  alarm_bit "output_status_1" 2 "OIL_TEMP_HIGH_ALARM" "Oil Temp High Alarm" "alarm" [] 1;
  alarm_bit "output_status_1" 1 "OIL_TEMP_LOW_ALARM" "Oil Temp Low Alarm" "alarm" [] 1;
  alarm_bit "output_status_2" 32768 "OIL_TEMP_HIGH_WARN" "Oil Temp High Warning" "warn" [] 1;
  alarm_bit "output_status_2" 16384 "OIL_TEMP_LOW_WARN" "Oil Temp Low Warning" "warn" [] 1;
  alarm_bit "output_status_2" 8192 "OIL_TEMP_FAULT" "Oil Temp Sensor Fault" "warn" [] 1;
  alarm_bit "output_status_2" 4096 "COOLANT_TEMP_HIGH_ALARM" "Coolant Temp High Alarm" "alarm" [] 1;
  alarm_bit "output_status_2" 2048 "COOLANT_TEMP_LOW_ALARM" "Coolant Temp Low Alarm" "alarm" [] 1;
  alarm_bit "output_status_2" 1024 "COOLANT_TEMP_HIGH_WARN" "Coolant Temp High Warning" "warn" [] 1;
  alarm_bit "output_status_2" 512 "COOLANT_TEMP_LOW_WARN" "Coolant Temp Low Warning" "warn" [] 1;
  alarm_bit "output_status_2" 256 "COOLANT_TEMP_FAULT" "Coolant Temp Sensor Fault" "warn" [] 1;
  alarm_bit "output_status_2" 128 "OIL_PRESSURE_HIGH_ALARM" "Oil Pressure High Alarm" "alarm" [] 1;
  alarm_bit "output_status_2" 64 "OIL_PRESSURE_LOW_ALARM" "Oil Pressure Low Alarm" "alarm" [] 1;
  alarm_bit "output_status_2" 32 "OIL_PRESSURE_HIGH_WARN" "Oil Pressure High Warning" "warn" [] 1;
  alarm_bit "output_status_2" 16 "OIL_PRESSURE_LOW_WARN" "Oil Pressure Low Warning" "warn" [] 1;
  alarm_bit "output_status_2" 8 "OIL_PRESSURE_FAULT" "Oil Pressure Sensor Fault" "warn" [] 1;
  alarm_bit "output_status_2" 4 "COOLANT_LEVEL_HIGH_ALARM" "Coolant Level High Alarm" "alarm" [] 1;
  alarm_bit "output_status_2" 2 "COOLANT_LEVEL_LOW_ALARM" "Coolant Level Low Alarm" "alarm" [] 1;
  alarm_bit "output_status_2" 1 "COOLANT_LEVEL_HIGH_WARN" "Coolant Level High Warning" "warn" [] 1;
  alarm_bit "output_status_3" 32768 "COOLANT_LEVEL_LOW_WARN" "Coolant Level Low Warning" "warn" [] 1;
  alarm_bit "output_status_3" 16384 "COOLANT_LEVEL_FAULT" "Coolant Level Sensor Fault" "warn" [] 1;
  alarm_bit "output_status_3" 8192 "FUEL_LEVEL_HIGH_ALARM" "Fuel Level High Alarm" "alarm" [] 20;
  alarm_bit "output_status_3" 4096 "FUEL_LEVEL_LOW_ALARM" "Fuel Level Low Alarm" "alarm" [] 1;
  alarm_bit "output_status_3" 2048 "FUEL_LEVEL_HIGH_WARN" "Fuel Level High Warning" "warn" [] 20;
  alarm_bit "output_status_3" 1024 "FUEL_LEVEL_LOW_WARN" "Fuel Level Low Warning" "warn" [] 1;
  alarm_bit "output_status_3" 512 "FUEL_LEVEL_FAULT" "Fuel Level Sensor Fault" "warn" [] 1;
  alarm_bit "output_status_3" 8 "THROTTLE_HIGH_ALARM" "Throttle Position High Alarm" "alarm" [] 1;
  alarm_bit "output_status_3" 4 "THROTTLE_LOW_ALARM" "Throttle Position Low Alarm" "alarm" [] 1;
  alarm_bit "output_status_4" 32768 "THROTTLE_FAULT" "Throttle Position Fault" "warn" [] 1;
  alarm_bit "output_status_4" 16 "BATT_VOLT_HIGH_ALARM" "Battery Voltage High Alarm" "alarm" [] 1;
  alarm_bit "output_status_4" 8 "BATT_VOLT_LOW_ALARM" "Battery Voltage Low Alarm" "alarm" [] 1;
  alarm_bit "output_status_4" 4 "BATT_VOLT_HIGH_WARN" "Battery Voltage High Warning" "warn" [] 1;
  alarm_bit "output_status_4" 2 "BATT_VOLT_LOW_WARN" "Battery Voltage Low Warning" "warn" [] 1;
  alarm_bit "output_status_4" 1 "BATT_VOLT_FAULT" "Battery Voltage Sensor Fault" "warn" [] 1;
  alarm_bit "output_status_5" 4096 "AVG_VOLT_HIGH_ALARM" "Average Voltage High Alarm" "alarm" [] 1;
  alarm_bit "output_status_5" 2048 "AVG_VOLT_LOW_ALARM" "Average Voltage Low Alarm" "alarm" [] 1;
  alarm_bit "output_status_5" 16 "FREQ_HIGH_ALARM" "Generator Frequency High Alarm" "alarm" [] 1;
  alarm_bit "output_status_5" 8 "FREQ_LOW_ALARM" "Generator Frequency Low Alarm" "alarm" [] 1;
  alarm_bit "output_status_6" 32768 "RPM_HIGH_ALARM" "Engine RPM High Alarm" "alarm" [] 1;
  alarm_bit "output_status_6" 16384 "RPM_LOW_ALARM" "Engine RPM Low Alarm" "alarm" [] 1;
  alarm_bit "output_status_6" 2048 "RPM_FAULT" "Engine RPM Sensor Fault" "warn" [] 1;
  alarm_bit "output_status_6" 64 "BATT_CHARGER_FAIL" "Battery Charger Fail (DI-1)" "warn" [] 1;
  alarm_bit "output_status_7" 2048 "NEEDS_SERVICE" "Needs Service" "warn" [] 1;
  alarm_bit "output_status_7" 1024 "SHUTDOWN" "Shutdown" "alarm" [] 1;
  alarm_bit "output_status_7" 512 "VOLT_PHASE_ROTATION" "Check Voltage Phase Rotation" "warn" ["cooling"; "cranking"; "stopped"] 3;
  alarm_bit "output_status_7" 256 "CURR_PHASE_ROTATION" "Check Current Phase Rotation" "warn" ["cooling"; "cranking"; "stopped"] 3;
  alarm_bit "output_status_8" 512 "RPM_MISSING" "RPM Signal Missing" "alarm" [] 1
]%string.

Definition h100_controls : odict string ControlDef := [
  ctl "remote_start" 412 16 [128; 0; 0] "Remote start (no transfer)";
  ctl "remote_stop" 412 16 [0; 0; 0] "Remote stop / cool-down";
  ctl "transfer" 412 16 [128; 0; 128] "Remote start + transfer to generator";
  ctl "exercise" 555 16 [1] "Begin quiet test (unloaded exercise)";
  ctl "ack_alarm" 302 16 [1] "Acknowledge/clear alarm"
]%string.

(** ** ATS-Pi companion *)

Definition ats_pi_registers : list RegisterDef := [
  reg "position" 0 u16 "prime" "ATS" "enum" f_one None None;
  reg "normal_available" 1 u16 "prime" "ATS" "bool" f_one None None;
  reg "emergency_available" 2 u16 "prime" "ATS" "bool" f_one None None;
  reg "engine_start_calling" 3 u16 "prime" "ATS" "bool" f_one None None;
  reg "ats_mode" 4 u16 "prime" "ATS" "enum" f_one None None;
  reg "fault_summary" 5 bitfld "prime" "ATS" "bits" f_one None None;
  reg "last_transfer_to_gen_ts" 16 u32 "base" "ATS" "epoch_s" f_one None None;
  reg "last_retransfer_to_util_ts" 18 u32 "base" "ATS" "epoch_s" f_one None None;
  reg "ats_pi_uptime_s" 20 u32 "base" "ATS" "s" f_one None None;
  reg "ats_pi_wallclock" 22 u32 "base" "ATS" "epoch_s" f_one None None;
  reg "transfer_count_lifetime" 32 u32 "base" "ATS" "count" f_one None None;
  reg "transfer_count_24h" 34 u32 "base" "ATS" "count" f_one None None;
  reg "icd_version_major" 48 u16 "base" "ATS" "version" f_one None None;
  reg "icd_version_minor" 49 u16 "base" "ATS" "version" f_one None None;
  reg "ats_pi_fw_major" 50 u16 "base" "ATS" "version" f_one None None;
  reg "ats_pi_fw_minor" 51 u16 "base" "ATS" "version" f_one None None;
  reg "ats_pi_fw_patch" 52 u16 "base" "ATS" "version" f_one None None;
  reg "ats_pi_unit_id" 53 u16 "base" "ATS" "id" f_one None None;
  reg "cmd_test_active" 64 u16 "prime" "ATS" "bool" f_one None None;
  reg "cmd_inhibit_active" 65 u16 "prime" "ATS" "bool" f_one None None;
  reg "cmd_force_transfer_active" 66 u16 "prime" "ATS" "bool" f_one None None;
  reg "cmd_bypass_delay_active" 67 u16 "prime" "ATS" "bool" f_one None None
]%string.

Definition ats_pi_engine_state_bits : list StateBitRule := [

]%string.

Definition ats_pi_panel_mode_bits : list PanelModeRule := [

]%string.

Definition ats_pi_alarm_bits : list AlarmBit := [
  alarm_bit "fault_summary" 1 "ATS_PI_INPUT_FAULT" "ATS-Pi input fault — contact stuck" "warn" [] 1;
  alarm_bit "fault_summary" 2 "ATS_PI_OUTPUT_FAULT" "ATS-Pi output fault — relay readback" "warn" [] 1;
  alarm_bit "fault_summary" 4 "ATS_PI_MODE_UNKNOWN" "ATS-Pi cannot determine mode" "warn" [] 1;
  alarm_bit "fault_summary" 8 "ATS_PI_CALIBRATION" "Impossible ATS position — both position-sense contacts asserted; check aux contacts or Group 5 status map" "warn" [] 1
]%string.

Definition ats_pi_controls : odict string ControlDef := [
  ctl "ats_test" 256 6 [1] "Momentary test transfer";
  ctl "ats_inhibit_assert" 257 6 [1] "Assert inhibit (maintained)";
  ctl "ats_inhibit_release" 257 6 [0] "Release inhibit";
  ctl "ats_force_assert" 258 6 [1] "Force transfer to gen (maintained)";
  ctl "ats_force_release" 258 6 [0] "Release force-transfer";
  ctl "ats_bypass_delay" 259 6 [1] "Bypass transfer time delay (momentary)"
]%string.

(** ** The maps *)

Definition h100_site : SiteConfig :=
  {| site_id := "SITE-23"; site_name := "Generac H-100"; site_rating_kw := 350;
     site_engine := "Cummins QSB7-G5"; site_tank_gal := 680; site_fuel_type := "diesel";
     site_exercise_enabled := true; site_exercise_day := "sun"; site_exercise_time := "03:00";
     site_exercise_duration_min := 30; site_exercise_quiet := true |}%string.

Definition h100_map : RegisterMap :=
  {| rm_path := "registers/h100.yaml"; rm_site := h100_site; rm_slave := 100; rm_read_fc := 3;
     rm_prime_poll_ms := 1500; rm_base_poll_ms := 15000; rm_timeout_s := flt 15 10;
     rm_retries := 2; rm_backoff_s := [flt 25 100; flt 5 10; f_of_Z 1];
     rm_engine_state_bits := h100_engine_state_bits; rm_alarm_bits := h100_alarm_bits;
     rm_panel_mode_bits := h100_panel_mode_bits; rm_registers := h100_registers;
     rm_controls := h100_controls; rm_numeric_alarms_enabled := false |}.

Definition ats_pi_site : SiteConfig :=
  {| site_id := "ATSPI-23"; site_name := "ASCO Series 300 (via ATS-Pi)"; site_rating_kw := 0;
     site_engine := "n/a (companion device)"; site_tank_gal := 0; site_fuel_type := "unknown";
     site_exercise_enabled := false; site_exercise_day := "sun"; site_exercise_time := "00:00";
     site_exercise_duration_min := 0; site_exercise_quiet := false |}%string.

Definition ats_pi_map : RegisterMap :=
  {| rm_path := "registers/ats_pi.yaml"; rm_site := ats_pi_site; rm_slave := 1; rm_read_fc := 3;
     rm_prime_poll_ms := 1500; rm_base_poll_ms := 15000; rm_timeout_s := f_of_Z 1;
     rm_retries := 2; rm_backoff_s := [flt 25 100; flt 5 10; f_of_Z 1];
     rm_engine_state_bits := ats_pi_engine_state_bits; rm_alarm_bits := ats_pi_alarm_bits;
     rm_panel_mode_bits := ats_pi_panel_mode_bits; rm_registers := ats_pi_registers;
     rm_controls := ats_pi_controls; rm_numeric_alarms_enabled := false |}.

(** Both register maps shipped with the program pass the validator. *)
Lemma shipped_maps_valid :
  mv_ok (validate_register_map h100_map) = true /\
  mv_ok (validate_register_map ats_pi_map) = true.
Proof. split; vm_compute; reflexivity. Qed.

(** The reads of each poll tier of the H-100. *)
Example h100_prime_batches :
  batch_reads (tier h100_map "prime") default_max_words =
    [(0x80, 10); (0x12F, 4); (0x1A0, 1); (0x22B, 1)].
Proof. vm_compute. reflexivity. Qed.
