(* ===== verification/Loader.v ===== *)
(** * Loading a register map (modbus/registers.py, [load_register_map])

    From the tree of the YAML file to a validated map, with the coercions and the
    exceptions of the source.  Theorems: what is loaded has passed the validator,
    every map in canonical form is the load of its own dump, and the shipped files
    load to the maps of ShippedMaps.v. *)

From S2P Require Import Prelude PyNum PyVal Registers RegisterFacts RegisterValidation ShippedMaps.

Local Open Scope Z_scope.
Local Open Scope gw_scope.
Local Open Scope string_scope.

(** ** Coercions *)

Definition coerce_addr (v : pyval) : res Z :=
  match v with
  | PvBool b => inr (if b then 1 else 0)%Z
  | PvNum (PInt z) => inr z
  | _ =>
      let s := pv_str v in
      let '(base, name) := if str_startswith "0x" (str_lower s) then (16%Z, "16") else (10%Z, "10") in
      match int_of_str base s with
      | Some z => inr z
      | None => inl (ValueError ("invalid literal for int() with base " +:+ name +:+ ": " +:+ repr_str s))
      end
  end.

(** The two entries of a range. *)
Definition coerce_range (v : pyval) : res (option range_t) :=
  if negb (pv_truth v) then r_ret None
  else match v with
       | PvList [lo; hi] => a <-? pv_float lo ;; b <-? pv_float hi ;; r_ret (Some (a, b))
       | _ => inl (ValueError ("range must be [lo, hi], got " +:+ py_repr v))
       end.

Definition reg_type_of (s : string) : RegType :=
  if s =? "u16" then u16 else if s =? "s16" then s16 else if s =? "u32" then u32
  else if s =? "u32_lo" then u32_lo else if s =? "s32" then s32 else if s =? "bitfld" then bitfld
  else if s =? "enum" then enum else other_type s.

(** A number kept as it is, read as a float. *)
Definition kept_float (v : pyval) : res pyfloat :=
  match v with PvNum n => inr (py_float n) | _ => inl Uncoerced end.

Definition get_str (k dflt : string) (v : pyval) : res string :=
  x <-? pv_get k (PvStr dflt) v ;; r_ret (pv_str x).
Definition get_as_str (k dflt : string) (v : pyval) : res string :=
  x <-? pv_get k (PvStr dflt) v ;; as_str x.
Definition get_int (k : string) (dflt : Z) (v : pyval) : res Z := x <-? pv_get k (num dflt) v ;; pv_int x.
Definition get_bool (k : string) (dflt : bool) (v : pyval) : res bool :=
  x <-? pv_get k (PvBool dflt) v ;; r_ret (pv_truth x).
Definition get_float (k : string) (dflt : pyfloat) (v : pyval) : res pyfloat :=
  x <-? pv_get k (PvNum (PFloat dflt)) v ;; pv_float x.
Definition item_str (k : string) (v : pyval) : res string := x <-? pv_item k v ;; r_ret (pv_str x).
(** [v.get(k) or alt] *)
Definition get_or (k : string) (alt v : pyval) : res pyval := x <-? pv_get k PvNone v ;; r_ret (pv_or x alt).
(** [for r in data.get(k) or \[\]] *)
Definition get_list (k : string) (v : pyval) : res (list pyval) := x <-? get_or k (PvList []) v ;; pv_iter x.

(** ** Sections of the file *)

Definition load_site (data : pyval) : res SiteConfig :=
  site_d <-? get_or "site" (PvDict []) data ;;
  ex <-? get_or "exercise" (PvDict []) site_d ;;
  fuel <-? get_str "fuel_type" "unknown" site_d ;;
  let raw_fuel := str_lower (str_strip fuel) in
  let fuel_type := if existsb (String.eqb raw_fuel) ["diesel"; "gaseous"; "unknown"] then raw_fuel else "unknown" in
  id <-? get_as_str "id" "SITE-1" site_d ;;
  name <-? get_as_str "name" "Generac H-100" site_d ;;
  rating_kw <-? get_int "rating_kw" 200 site_d ;;
  engine <-? get_as_str "engine" "Cummins QSB7-G5" site_d ;;
  tank_gal <-? get_int "tank_gal" 220 site_d ;;
  enabled <-? get_bool "enabled" true ex ;;
  day <-? get_str "day" "sun" ex ;;
  time <-? get_str "time" "03:00" ex ;;
  duration <-? get_int "duration_min" 30 ex ;;
  quiet <-? get_bool "quiet" true ex ;;
  r_ret {| site_id := id; site_name := name; site_rating_kw := rating_kw; site_engine := engine;
           site_tank_gal := tank_gal; site_fuel_type := fuel_type; site_exercise_enabled := enabled;
           site_exercise_day := str_lower day; site_exercise_time := time;
           site_exercise_duration_min := duration; site_exercise_quiet := quiet |}.

Definition load_state_rule (r : pyval) : res StateBitRule :=
  state <-? item_str "state" r ;;
  register <-? item_str "register" r ;;
  m <-? pv_item "mask" r ;;
  mask <-? coerce_addr m ;;
  r_ret {| sb_state := str_lower state; sb_register := register; sb_mask := mask |}.

Definition load_panel_rule (r : pyval) : res PanelModeRule :=
  mode <-? item_str "mode" r ;;
  register <-? item_str "register" r ;;
  m <-? pv_item "mask" r ;;
  mask <-? coerce_addr m ;;
  r_ret {| pm_mode := str_lower mode; pm_register := register; pm_mask := mask |}.

(** The states of an entry, stripped and in lower case, blank ones dropped. *)
Definition suppress_states (l : list pyval) : list string :=
  map (fun s => str_lower (str_strip (pv_str s)))
    (List.filter (fun s => negb (str_strip (pv_str s) =? "")) l).

Definition load_alarm_bit (a : pyval) : res AlarmBit :=
  sup <-? get_or "suppress_in_states" (PvList []) a ;;
  suppress <-? (match sup with PvStr _ => r_ret [sup] | _ => pv_iter sup end) ;;
  raw_min <-? pv_get "min_poll_count" (num 1) a ;;
  min_polls <-? (match pv_int raw_min with
                 | inl TypeError | inl (ValueError _) => r_ret 1%Z
                 | r => r
                 end) ;;
  register <-? item_str "register" a ;;
  m <-? pv_item "mask" a ;;
  mask <-? coerce_addr m ;;
  code <-? item_str "code" a ;;
  desc <-? get_str "desc" "" a ;;
  severity <-? get_str "severity" "alarm" a ;;
  r_ret {| ab_register := register; ab_mask := mask; ab_code := code; ab_desc := desc;
           ab_severity := severity; ab_suppress_in_states := suppress_states suppress;
           ab_min_poll_count := if (min_polls <? 1)%Z then 1 else min_polls |}.

Definition load_register (read_fc : Z) (r : pyval) : res RegisterDef :=
  nm <-? pv_item "name" r ;;
  name <-? as_str nm ;;
  a <-? pv_item "addr" r ;;
  addr <-? coerce_addr a ;;
  fc <-? get_int "fc" read_fc r ;;
  type <-? get_as_str "type" "u16" r ;;
  tier <-? get_as_str "tier" "base" r ;;
  group <-? get_str "group" "" r ;;
  unit <-? get_str "unit" "" r ;;
  scale <-? get_float "scale" f_one r ;;
  wr <-? pv_get "warn_range" PvNone r ;;
  warn <-? coerce_range wr ;;
  ar <-? pv_get "alarm_range" PvNone r ;;
  alarm <-? coerce_range ar ;;
  r_ret {| r_name := name; r_addr := addr; r_fc := fc; r_type := reg_type_of type; r_tier := tier;
           r_group := group; r_unit := unit; r_scale := scale; r_warn_range := warn; r_alarm_range := alarm |}.

Definition load_control (c : pyval) : res ControlDef :=
  vs <-? pv_get "values" PvNone c ;;
  values <-? (if pv_truth vs then l <-? pv_iter vs ;; r_map coerce_addr l else r_ret []) ;;
  nm <-? pv_item "name" c ;;
  name <-? as_str nm ;;
  a <-? pv_item "addr" c ;;
  addr <-? coerce_addr a ;;
  fc <-? get_int "fc" 6 c ;;
  value <-? get_int "value" 1 c ;;
  desc <-? get_str "desc" "" c ;;
  r_ret {| c_name := name; c_addr := addr; c_fc := fc; c_value := value; c_values := values; c_desc := desc |}.

(** [controls\[d.name\] = d] for each entry. *)
Definition index_controls (l : list ControlDef) : odict string ControlDef :=
  foldl (fun d c => od_set (c_name c) c d) [] l.

Definition default_backoff : list pyval := map (fun f => PvNum (PFloat f)) [flt 1 4; flt 1 2; f_one].

(** [load_register_map], from what [yaml.safe_load] returned for the file at [path]. *)
Definition parse_register_map (path : string) (tree : pyval) : res RegisterMap :=
  let data := pv_or tree (PvDict []) in
  site <-? load_site data ;;
  mb <-? get_or "modbus" (PvDict []) data ;;
  slave <-? get_int "slave" 100 mb ;;
  read_fc <-? get_int "read_fc" 3 mb ;;
  prime_ms <-? get_int "prime_poll_ms" 1500 mb ;;
  base_ms <-? get_int "base_poll_ms" 15000 mb ;;
  timeout_s <-? get_float "timeout_s" (flt 3 2) mb ;;
  retries <-? get_int "retries" 2 mb ;;
  bo <-? pv_get "backoff_s" (PvList default_backoff) mb ;;
  bl <-? pv_iter bo ;;
  backoff <-? r_map kept_float bl ;;
  esb <-? get_list "engine_state_bits" data ;;
  engine_state_bits <-? r_map load_state_rule esb ;;
  ab <-? get_list "alarm_bits" data ;;
  alarm_bits <-? r_map load_alarm_bit ab ;;
  pmb <-? get_list "panel_mode_bits" data ;;
  panel_mode_bits <-? r_map load_panel_rule pmb ;;
  rs <-? get_list "registers" data ;;
  registers <-? r_map (load_register read_fc) rs ;;
  cs <-? get_list "controls" data ;;
  controls <-? r_map load_control cs ;;
  numeric <-? get_bool "numeric_alarms_enabled" false data ;;
  r_ret {| rm_path := path; rm_site := site; rm_slave := slave; rm_read_fc := read_fc;
           rm_prime_poll_ms := prime_ms; rm_base_poll_ms := base_ms; rm_timeout_s := timeout_s;
           rm_retries := retries; rm_backoff_s := backoff; rm_engine_state_bits := engine_state_bits;
           rm_alarm_bits := alarm_bits; rm_panel_mode_bits := panel_mode_bits; rm_registers := registers;
           rm_controls := index_controls controls; rm_numeric_alarms_enabled := numeric |}.

Definition load_register_map (path : string) (tree : pyval) : res RegisterMap :=
  rm <-? parse_register_map path tree ;;
  match mv_errors (validate_register_map rm) with
  | [] => r_ret rm
  | errs => inl (ValueError (str_join "; " errs))
  end.

(** ** Dumping a map *)

Definition type_name (t : RegType) : string :=
  match t with
  | u16 => "u16" | s16 => "s16" | u32 => "u32" | u32_lo => "u32_lo" | s32 => "s32"
  | bitfld => "bitfld" | enum => "enum" | other_type s => s
  end.
Definition dump_range (r : option range_t) : pyval :=
  match r with Some (lo, hi) => PvList [fl lo; fl hi] | None => PvNone end.
Definition dump_site (s : SiteConfig) : pyval :=
  PvDict [("id", PvStr (site_id s)); ("name", PvStr (site_name s)); ("rating_kw", num (site_rating_kw s));
          ("engine", PvStr (site_engine s)); ("tank_gal", num (site_tank_gal s));
          ("fuel_type", PvStr (site_fuel_type s));
          ("exercise", PvDict [("enabled", PvBool (site_exercise_enabled s)); ("day", PvStr (site_exercise_day s));
             ("time", PvStr (site_exercise_time s)); ("duration_min", num (site_exercise_duration_min s));
             ("quiet", PvBool (site_exercise_quiet s))])].
Definition dump_state_rule (r : StateBitRule) : pyval :=
  PvDict [("state", PvStr (sb_state r)); ("register", PvStr (sb_register r)); ("mask", num (sb_mask r))].
Definition dump_panel_rule (r : PanelModeRule) : pyval :=
  PvDict [("mode", PvStr (pm_mode r)); ("register", PvStr (pm_register r)); ("mask", num (pm_mask r))].
Definition dump_alarm_bit (a : AlarmBit) : pyval :=
  PvDict [("register", PvStr (ab_register a)); ("mask", num (ab_mask a)); ("code", PvStr (ab_code a));
          ("desc", PvStr (ab_desc a)); ("severity", PvStr (ab_severity a));
          ("suppress_in_states", PvList (map PvStr (ab_suppress_in_states a)));
          ("min_poll_count", num (ab_min_poll_count a))].
Definition dump_register (r : RegisterDef) : pyval :=
  PvDict [("name", PvStr (r_name r)); ("addr", num (r_addr r)); ("fc", num (r_fc r));
          ("type", PvStr (type_name (r_type r))); ("tier", PvStr (r_tier r)); ("group", PvStr (r_group r));
          ("unit", PvStr (r_unit r)); ("scale", fl (r_scale r)); ("warn_range", dump_range (r_warn_range r));
          ("alarm_range", dump_range (r_alarm_range r))].
Definition dump_control (c : ControlDef) : pyval :=
  PvDict [("name", PvStr (c_name c)); ("addr", num (c_addr c)); ("fc", num (c_fc c)); ("value", num (c_value c));
          ("values", PvList (map num (c_values c))); ("desc", PvStr (c_desc c))].
Definition dump (rm : RegisterMap) : pyval :=
  PvDict [("site", dump_site (rm_site rm));
          ("modbus", PvDict [("slave", num (rm_slave rm)); ("read_fc", num (rm_read_fc rm));
             ("prime_poll_ms", num (rm_prime_poll_ms rm)); ("base_poll_ms", num (rm_base_poll_ms rm));
             ("timeout_s", fl (rm_timeout_s rm)); ("retries", num (rm_retries rm));
             ("backoff_s", PvList (map fl (rm_backoff_s rm)))]);
          ("engine_state_bits", PvList (map dump_state_rule (rm_engine_state_bits rm)));
          ("alarm_bits", PvList (map dump_alarm_bit (rm_alarm_bits rm)));
          ("panel_mode_bits", PvList (map dump_panel_rule (rm_panel_mode_bits rm)));
          ("registers", PvList (map dump_register (rm_registers rm)));
          ("controls", PvList (map dump_control (od_values (rm_controls rm))));
          ("numeric_alarms_enabled", PvBool (rm_numeric_alarms_enabled rm))].

(** ** Canonical maps

    What the coercions leave alone: names of states and modes in lower case, a known
    fuel, debounce counts of at least one, type names spelt as the decoder knows them,
    controls indexed by their own names. *)

Definition lower (s : string) : Prop := str_lower s = s.
Definition plain_state (s : string) : Prop := lower s /\ str_strip s = s /\ s <> "".

Record canonical (rm : RegisterMap) : Prop := {
  ca_fuel : site_fuel_type (rm_site rm) ∈ ["diesel"; "gaseous"; "unknown"];
  ca_day : lower (site_exercise_day (rm_site rm));
  ca_states : Forall (fun r => lower (sb_state r)) (rm_engine_state_bits rm);
  ca_modes : Forall (fun r => lower (pm_mode r)) (rm_panel_mode_bits rm);
  ca_alarms : Forall (fun a => Forall plain_state (ab_suppress_in_states a) /\ (1 <= ab_min_poll_count a)%Z)
                (rm_alarm_bits rm);
  ca_types : Forall (fun r => reg_type_of (type_name (r_type r)) = r_type r) (rm_registers rm);
  ca_controls : Forall (fun kv => fst kv = c_name (snd kv)) (rm_controls rm);
  ca_keys : NoDup (od_keys (rm_controls rm))
}.

Lemma r_map_dump {A} (f : pyval -> res A) (g : A -> pyval) l :
  Forall (fun x => f (g x) = inr x) l -> r_map f (map g l) = inr l.
Proof. intros Hl. apply r_map_inr, Forall2_fmap_l. by apply Forall_Forall2_diag. Qed.

Lemma pv_or_list l : pv_or (PvList l) (PvList []) = PvList l.
Proof. by destruct l. Qed.

Lemma pv_or_dict kv d alt : pv_or (PvDict (kv :: d)) alt = PvDict (kv :: d).
Proof. done. Qed.

Lemma load_dump_range r : coerce_range (dump_range r) = inr r.
Proof. by destruct r as [[lo hi]|]. Qed.

Ltac fields :=
  unfold get_or, get_list, get_str, get_as_str, get_int, get_bool, get_float, item_str, pv_get, pv_item;
  repeat (rewrite od_get_hd || rewrite od_get_tl by discriminate);
  cbn [r_bind r_ret default from_option id as_str pv_str pv_int pv_float pv_truth py_truth coerce_addr num fl].

Lemma load_dump_register fc r :
  reg_type_of (type_name (r_type r)) = r_type r -> load_register fc (dump_register r) = inr r.
Proof.
  intros Ht. unfold load_register, dump_register. fields. rewrite !load_dump_range. cbn. rewrite Ht. by destruct r.
Qed.

Lemma load_dump_state_rule r : lower (sb_state r) -> load_state_rule (dump_state_rule r) = inr r.
Proof. intros Hl. unfold load_state_rule, dump_state_rule. fields. rewrite Hl. by destruct r. Qed.
Lemma load_dump_panel_rule r : lower (pm_mode r) -> load_panel_rule (dump_panel_rule r) = inr r.
Proof. intros Hl. unfold load_panel_rule, dump_panel_rule. fields. rewrite Hl. by destruct r. Qed.

Lemma suppress_plain l : Forall plain_state l -> suppress_states (map PvStr l) = l.
Proof.
  unfold suppress_states. induction 1 as [|s l (Hl & Hs & Hne) _ IH]; [done|]. cbn [map List.filter pv_str].
  rewrite Hs, (proj2 (String.eqb_neq _ _) Hne). cbn [negb map pv_str]. by rewrite Hs, Hl, IH.
Qed.

Lemma load_dump_alarm_bit a :
  Forall plain_state (ab_suppress_in_states a) -> (1 <= ab_min_poll_count a)%Z ->
  load_alarm_bit (dump_alarm_bit a) = inr a.
Proof.
  intros Hs Hm. unfold load_alarm_bit, dump_alarm_bit. fields. rewrite pv_or_list. cbn [pv_iter r_bind].
  rewrite (suppress_plain _ Hs), (proj2 (Z.ltb_ge _ _)) by lia. by destruct a.
Qed.

Lemma load_dump_control c : load_control (dump_control c) = inr c.
Proof.
  assert (forall vals, (if pv_truth (PvList (map num vals)) then r_map coerce_addr (map num vals) else r_ret []) = inr vals) as Hv.
  { intros [|v vals]; [done|]. apply (r_map_dump coerce_addr num (v :: vals)). by apply Forall_true. }
  specialize (Hv (c_values c)). unfold load_control, dump_control. fields. cbn [pv_iter r_bind].
  cbn [pv_truth] in Hv. rewrite Hv. by destruct c.
Qed.

Lemma load_dump_site s :
  site_fuel_type s ∈ ["diesel"; "gaseous"; "unknown"] -> lower (site_exercise_day s) ->
  forall rest, load_site (PvDict (("site", dump_site s) :: rest)) = inr s.
Proof.
  intros Hf Hd rest. unfold load_site, dump_site. fields. rewrite pv_or_dict. fields. rewrite pv_or_dict. fields.
  rewrite Hd. destruct s as [id name kw eng tank fuel en day time dur quiet]. cbn [site_fuel_type] in *.
  repeat (apply elem_of_cons in Hf as [->|Hf]; [done|]). by apply elem_of_nil in Hf.
Qed.

Lemma od_set_fresh {V} (k : string) (v : V) d : k ∉ od_keys d -> od_set k v d = (d ++ [(k, v)])%list.
Proof.
  induction d as [|[k' v'] d IH]; intros Hk; [done|]. cbn in Hk. apply not_elem_of_cons in Hk as [Hne Hk].
  cbn. rewrite decide_False by done. by rewrite IH.
Qed.

Lemma index_controls_keys d :
  Forall (fun kv => fst kv = c_name (snd kv)) d -> NoDup (od_keys d) -> index_controls (od_values d) = d.
Proof.
  unfold index_controls. intros Hn Hd.
  assert (forall acc, NoDup (od_keys (acc ++ d)%list) ->
            foldl (fun d c => od_set (c_name c) c d) acc (od_values d) = (acc ++ d)%list) as H.
  { clear Hd. induction Hn as [|[k c] d Hk _ IH]; intros acc Hd; [by rewrite app_nil_r|].
    cbn [od_values map foldl snd]. cbn [fst snd] in Hk. subst k. rewrite od_set_fresh.
    - rewrite (app_cons_snoc acc (c_name c, c) d). apply IH. by rewrite <- app_cons_snoc.
    - unfold od_keys in *. rewrite map_app in Hd. cbn in Hd. apply NoDup_app in Hd as (_ & Hd & _).
      intros Hin. by apply (Hd _ Hin), elem_of_cons; left. }
  by apply (H []).
Qed.

Lemma parse_dump rm : canonical rm -> parse_register_map (rm_path rm) (dump rm) = inr rm.
Proof.
  intros [Hf Hd Hs Hm Ha Ht Hc Hk]. unfold parse_register_map. cbv zeta.
  assert (pv_or (dump rm) (PvDict []) = dump rm) as -> by done. unfold dump at 1.
  rewrite load_dump_site by done. unfold dump. cbn [r_bind]. fields.
  rewrite pv_or_dict. fields. cbn [pv_iter r_bind].
  rewrite (r_map_dump kept_float fl) by by apply Forall_true. cbn [r_bind]. rewrite !pv_or_list. cbn [pv_iter r_bind].
  rewrite (r_map_dump load_state_rule dump_state_rule) by (eapply Forall_impl; [exact Hs|apply load_dump_state_rule]).
  cbn [r_bind]. rewrite (r_map_dump load_alarm_bit dump_alarm_bit)
    by (eapply Forall_impl; [exact Ha|]; intros a [H1 H2]; by apply load_dump_alarm_bit).
  cbn [r_bind]. rewrite (r_map_dump load_panel_rule dump_panel_rule) by (eapply Forall_impl; [exact Hm|apply load_dump_panel_rule]).
  cbn [r_bind]. rewrite (r_map_dump (load_register _) dump_register) by (eapply Forall_impl; [exact Ht|apply load_dump_register]).
  cbn [r_bind]. rewrite (r_map_dump load_control dump_control) by (by apply Forall_true; intros; apply load_dump_control).
  cbn [r_bind r_ret]. rewrite index_controls_keys by done. by destruct rm.
Qed.

(** ** What a load leaves behind *)

Lemma str_lower_lower s : lower (str_lower s).
Proof.
  unfold lower, str_lower. induction s as [|c s IH]; [done|]. cbn. rewrite IH. f_equal.
  destruct c as [[] [] [] [] [] [] [] []]; reflexivity.
Qed.

Ltac invert_load H :=
  repeat (apply r_bind_inr in H as (? & ? & H); cbn beta in H); injection H as <-.

Lemma load_alarm_bit_ok a ab :
  load_alarm_bit a = inr ab -> (1 <= ab_min_poll_count ab)%Z /\ Forall lower (ab_suppress_in_states ab).
Proof.
  intros H. unfold load_alarm_bit in H. invert_load H. cbn. split.
  - destruct (Z.ltb_spec x2 1); lia.
  - unfold suppress_states. apply Forall_fmap, Forall_true. intros s. apply str_lower_lower.
Qed.

Lemma index_controls_ok l :
  Forall (fun kv => fst kv = c_name (snd kv)) (index_controls l) /\ NoDup (od_keys (index_controls l)).
Proof.
  unfold index_controls.
  apply (foldl_invariant (fun d => Forall (fun kv => fst kv = c_name (snd kv)) d /\ NoDup (od_keys d))).
  2: split; constructor.
  intros d c _ [Hd Hk]. split; [|by apply od_keys_set_NoDup].
  clear Hk. induction Hd as [|[k c'] d Hkc Hd IH]; cbn; [by repeat constructor|].
  case_decide; constructor; done.
Qed.

Lemma parse_ok path tree rm :
  parse_register_map path tree = inr rm ->
  rm_path rm = path /\
  Forall (fun a => (1 <= ab_min_poll_count a)%Z /\ Forall lower (ab_suppress_in_states a)) (rm_alarm_bits rm) /\
  Forall (fun kv => fst kv = c_name (snd kv)) (rm_controls rm) /\ NoDup (od_keys (rm_controls rm)).
Proof.
  unfold parse_register_map. cbv zeta. generalize (pv_or tree (PvDict [])). intros data H.
  invert_load H. cbn. split; [done|]. split; [|apply index_controls_ok].
  match goal with Ha : r_map load_alarm_bit _ = inr _ |- _ => revert Ha end.
  apply r_map_Forall, load_alarm_bit_ok.
Qed.

(** ** Theorems *)

(** C24. Every well-formed register map in canonical form is what the loader makes of
    its own dump: no coercion, default or index of the loader loses or changes a field. *)
Theorem load_dump_roundtrip rm :
  canonical rm -> map_ok rm -> Forall nonempty_name (rm_registers rm) ->
  load_register_map (rm_path rm) (dump rm) = inr rm.
Proof.
  intros Hc Hok Hn. unfold load_register_map. rewrite (parse_dump rm Hc). cbn [r_bind].
  pose proof (proj2 (validate_ok_iff rm Hn) Hok) as Hv. unfold mv_ok in Hv.
  by destruct (mv_errors (validate_register_map rm)).
Qed.

(** C25. Whatever tree the file holds, a map that loads has passed the validator,
    debounces every alarm by at least one poll, knows its suppressing states in lower case,
    and indexes every control by its own name, once. *)
Theorem load_only_valid path tree rm :
  load_register_map path tree = inr rm ->
  rm_path rm = path /\ mv_ok (validate_register_map rm) = true /\
  (Forall nonempty_name (rm_registers rm) -> map_ok rm) /\
  Forall (fun a => (1 <= ab_min_poll_count a)%Z /\ Forall lower (ab_suppress_in_states a)) (rm_alarm_bits rm) /\
  Forall (fun kv => fst kv = c_name (snd kv)) (rm_controls rm) /\ NoDup (od_keys (rm_controls rm)).
Proof.
  intros H. unfold load_register_map in H. apply r_bind_inr in H as (rm' & Hp & H).
  destruct (mv_errors (validate_register_map rm')) eqn:Ev; [|done]. injection H as ->.
  destruct (parse_ok _ _ _ Hp) as (Hpath & Ha & Hc & Hk).
  assert (mv_ok (validate_register_map rm) = true) as Hv by (unfold mv_ok; by rewrite Ev).
  split_and!; try done. intros Hn. by apply (validate_ok_iff rm Hn).
Qed.
