(* ===== verification/ShippedFiles.v ===== *)
(** * The shipped register files

    registers/h100.yaml and registers/ats_pi.yaml as [yaml.safe_load] returns them,
    and the theorem that the loader turns them into the maps of ShippedMaps.v. *)

From S2P Require Import Prelude PyNum PyVal Registers RegisterFacts RegisterValidation ShippedMaps Loader.

Local Open Scope Z_scope.
Local Open Scope string_scope.

Local Abbreviation s := PvStr.
Local Abbreviation i := num.
Local Abbreviation f := fl.
Local Abbreviation b := PvBool.

Definition h100_yaml : pyval :=
  PvDict [("site", PvDict [("id", s "SITE-23");
    ("name", s "Generac H-100");
    ("rating_kw", i 350);
    ("engine", s "Cummins QSB7-G5");
    ("tank_gal", i 680);
    ("fuel_type", s "diesel");
    ("exercise", PvDict [("enabled", b true); ("day", s "sun"); ("time", s "03:00"); ("duration_min", i 30);
        ("quiet", b true)])]);
  ("modbus", PvDict [("slave", i 100);
    ("read_fc", i 3);
    ("prime_poll_ms", i 1500);
    ("base_poll_ms", i 15000);
    ("timeout_s", f (flt 3 2));
    ("retries", i 2);
    ("backoff_s", PvList [f (flt 1 4); f (flt 1 2); f (flt 1 1)])]);
  ("engine_state_bits", PvList [PvDict [("state", s "alarm"); ("register", s "output_status_1"); ("mask", i 32768)];
    PvDict [("state", s "cranking"); ("register", s "output_status_7"); ("mask", i 4096)];
    PvDict [("state", s "cooling"); ("register", s "output_status_7"); ("mask", i 8192)];
    PvDict [("state", s "exercising"); ("register", s "output_status_7"); ("mask", i 32)];
    PvDict [("state", s "running"); ("register", s "output_status_1"); ("mask", i 8192)];
    PvDict [("state", s "stopped"); ("register", s "output_status_1"); ("mask", i 256)]]);
  ("panel_mode_bits", PvList [PvDict [("mode", s "auto"); ("register", s "input_status_1"); ("mask", i 32768)];
    PvDict [("mode", s "manual"); ("register", s "input_status_1"); ("mask", i 16384)];
    PvDict [("mode", s "off"); ("register", s "input_status_1"); ("mask", i 8192)]]);
  ("numeric_alarms_enabled", b false);
  ("alarm_bits", PvList [PvDict [("register", s "output_status_1"); ("mask", i 32768); ("code", s "COMMON_ALARM");
      ("desc", s "Common Alarm"); ("severity", s "alarm")];
    PvDict [("register", s "output_status_1"); ("mask", i 16384); ("code", s "COMMON_WARNING");
        ("desc", s "Common Warning"); ("severity", s "warn")];
    PvDict [("register", s "output_status_1"); ("mask", i 512); ("code", s "STOPPED_IN_ALARM");
        ("desc", s "Stopped in Alarm"); ("severity", s "alarm")];
    PvDict [("register", s "output_status_1"); ("mask", i 16); ("code", s "OVERCRANK"); ("desc", s "Overcrank");
        ("severity", s "alarm")];
    PvDict [("register", s "output_status_1"); ("mask", i 8); ("code", s "OIL_INHIBIT");
        ("desc", s "Oil Inhibit Alarm"); ("severity", s "alarm")];
    PvDict [("register", s "output_status_1"); ("mask", i 2); ("code", s "OIL_TEMP_HIGH_ALARM");
        ("desc", s "Oil Temp High Alarm"); ("severity", s "alarm")];
    PvDict [("register", s "output_status_1"); ("mask", i 1); ("code", s "OIL_TEMP_LOW_ALARM");
        ("desc", s "Oil Temp Low Alarm"); ("severity", s "alarm")];
    PvDict [("register", s "output_status_2"); ("mask", i 32768); ("code", s "OIL_TEMP_HIGH_WARN");
        ("desc", s "Oil Temp High Warning"); ("severity", s "warn")];
    PvDict [("register", s "output_status_2"); ("mask", i 16384); ("code", s "OIL_TEMP_LOW_WARN");
        ("desc", s "Oil Temp Low Warning"); ("severity", s "warn")];
    PvDict [("register", s "output_status_2"); ("mask", i 8192); ("code", s "OIL_TEMP_FAULT");
        ("desc", s "Oil Temp Sensor Fault"); ("severity", s "warn")];
    PvDict [("register", s "output_status_2"); ("mask", i 4096); ("code", s "COOLANT_TEMP_HIGH_ALARM");
        ("desc", s "Coolant Temp High Alarm"); ("severity", s "alarm")];
    PvDict [("register", s "output_status_2"); ("mask", i 2048); ("code", s "COOLANT_TEMP_LOW_ALARM");
        ("desc", s "Coolant Temp Low Alarm"); ("severity", s "alarm")];
    PvDict [("register", s "output_status_2"); ("mask", i 1024); ("code", s "COOLANT_TEMP_HIGH_WARN");
        ("desc", s "Coolant Temp High Warning"); ("severity", s "warn")];
    PvDict [("register", s "output_status_2"); ("mask", i 512); ("code", s "COOLANT_TEMP_LOW_WARN");
        ("desc", s "Coolant Temp Low Warning"); ("severity", s "warn")];
    PvDict [("register", s "output_status_2"); ("mask", i 256); ("code", s "COOLANT_TEMP_FAULT");
        ("desc", s "Coolant Temp Sensor Fault"); ("severity", s "warn")];
    PvDict [("register", s "output_status_2"); ("mask", i 128); ("code", s "OIL_PRESSURE_HIGH_ALARM");
        ("desc", s "Oil Pressure High Alarm"); ("severity", s "alarm")];
    PvDict [("register", s "output_status_2"); ("mask", i 64); ("code", s "OIL_PRESSURE_LOW_ALARM");
        ("desc", s "Oil Pressure Low Alarm"); ("severity", s "alarm")];
    PvDict [("register", s "output_status_2"); ("mask", i 32); ("code", s "OIL_PRESSURE_HIGH_WARN");
        ("desc", s "Oil Pressure High Warning"); ("severity", s "warn")];
    PvDict [("register", s "output_status_2"); ("mask", i 16); ("code", s "OIL_PRESSURE_LOW_WARN");
        ("desc", s "Oil Pressure Low Warning"); ("severity", s "warn")];
    PvDict [("register", s "output_status_2"); ("mask", i 8); ("code", s "OIL_PRESSURE_FAULT");
        ("desc", s "Oil Pressure Sensor Fault"); ("severity", s "warn")];
    PvDict [("register", s "output_status_2"); ("mask", i 4); ("code", s "COOLANT_LEVEL_HIGH_ALARM");
        ("desc", s "Coolant Level High Alarm"); ("severity", s "alarm")];
    PvDict [("register", s "output_status_2"); ("mask", i 2); ("code", s "COOLANT_LEVEL_LOW_ALARM");
        ("desc", s "Coolant Level Low Alarm"); ("severity", s "alarm")];
    PvDict [("register", s "output_status_2"); ("mask", i 1); ("code", s "COOLANT_LEVEL_HIGH_WARN");
        ("desc", s "Coolant Level High Warning"); ("severity", s "warn")];
    PvDict [("register", s "output_status_3"); ("mask", i 32768); ("code", s "COOLANT_LEVEL_LOW_WARN");
        ("desc", s "Coolant Level Low Warning"); ("severity", s "warn")];
    PvDict [("register", s "output_status_3"); ("mask", i 16384); ("code", s "COOLANT_LEVEL_FAULT");
        ("desc", s "Coolant Level Sensor Fault"); ("severity", s "warn")];
    PvDict [("register", s "output_status_3"); ("mask", i 8192); ("code", s "FUEL_LEVEL_HIGH_ALARM");
        ("desc", s "Fuel Level High Alarm"); ("severity", s "alarm"); ("min_poll_count", i 20)];
    PvDict [("register", s "output_status_3"); ("mask", i 4096); ("code", s "FUEL_LEVEL_LOW_ALARM");
        ("desc", s "Fuel Level Low Alarm"); ("severity", s "alarm")];
    PvDict [("register", s "output_status_3"); ("mask", i 2048); ("code", s "FUEL_LEVEL_HIGH_WARN");
        ("desc", s "Fuel Level High Warning"); ("severity", s "warn"); ("min_poll_count", i 20)];
    PvDict [("register", s "output_status_3"); ("mask", i 1024); ("code", s "FUEL_LEVEL_LOW_WARN");
        ("desc", s "Fuel Level Low Warning"); ("severity", s "warn")];
    PvDict [("register", s "output_status_3"); ("mask", i 512); ("code", s "FUEL_LEVEL_FAULT");
        ("desc", s "Fuel Level Sensor Fault"); ("severity", s "warn")];
    PvDict [("register", s "output_status_3"); ("mask", i 8); ("code", s "THROTTLE_HIGH_ALARM");
        ("desc", s "Throttle Position High Alarm"); ("severity", s "alarm")];
    PvDict [("register", s "output_status_3"); ("mask", i 4); ("code", s "THROTTLE_LOW_ALARM");
        ("desc", s "Throttle Position Low Alarm"); ("severity", s "alarm")];
    PvDict [("register", s "output_status_4"); ("mask", i 32768); ("code", s "THROTTLE_FAULT");
        ("desc", s "Throttle Position Fault"); ("severity", s "warn")];
    PvDict [("register", s "output_status_4"); ("mask", i 16); ("code", s "BATT_VOLT_HIGH_ALARM");
        ("desc", s "Battery Voltage High Alarm"); ("severity", s "alarm")];
    PvDict [("register", s "output_status_4"); ("mask", i 8); ("code", s "BATT_VOLT_LOW_ALARM");
        ("desc", s "Battery Voltage Low Alarm"); ("severity", s "alarm")];
    PvDict [("register", s "output_status_4"); ("mask", i 4); ("code", s "BATT_VOLT_HIGH_WARN");
        ("desc", s "Battery Voltage High Warning"); ("severity", s "warn")];
    PvDict [("register", s "output_status_4"); ("mask", i 2); ("code", s "BATT_VOLT_LOW_WARN");
        ("desc", s "Battery Voltage Low Warning"); ("severity", s "warn")];
    PvDict [("register", s "output_status_4"); ("mask", i 1); ("code", s "BATT_VOLT_FAULT");
        ("desc", s "Battery Voltage Sensor Fault"); ("severity", s "warn")];
    PvDict [("register", s "output_status_5"); ("mask", i 4096); ("code", s "AVG_VOLT_HIGH_ALARM");
        ("desc", s "Average Voltage High Alarm"); ("severity", s "alarm")];
    PvDict [("register", s "output_status_5"); ("mask", i 2048); ("code", s "AVG_VOLT_LOW_ALARM");
        ("desc", s "Average Voltage Low Alarm"); ("severity", s "alarm")];
    PvDict [("register", s "output_status_5"); ("mask", i 16); ("code", s "FREQ_HIGH_ALARM");
        ("desc", s "Generator Frequency High Alarm"); ("severity", s "alarm")];
    PvDict [("register", s "output_status_5"); ("mask", i 8); ("code", s "FREQ_LOW_ALARM");
        ("desc", s "Generator Frequency Low Alarm"); ("severity", s "alarm")];
    PvDict [("register", s "output_status_6"); ("mask", i 32768); ("code", s "RPM_HIGH_ALARM");
        ("desc", s "Engine RPM High Alarm"); ("severity", s "alarm")];
    PvDict [("register", s "output_status_6"); ("mask", i 16384); ("code", s "RPM_LOW_ALARM");
        ("desc", s "Engine RPM Low Alarm"); ("severity", s "alarm")];
    PvDict [("register", s "output_status_6"); ("mask", i 2048); ("code", s "RPM_FAULT");
        ("desc", s "Engine RPM Sensor Fault"); ("severity", s "warn")];
    PvDict [("register", s "output_status_6"); ("mask", i 64); ("code", s "BATT_CHARGER_FAIL");
        ("desc", s "Battery Charger Fail (DI-1)"); ("severity", s "warn")];
    PvDict [("register", s "output_status_7"); ("mask", i 2048); ("code", s "NEEDS_SERVICE");
        ("desc", s "Needs Service"); ("severity", s "warn")];
    PvDict [("register", s "output_status_7"); ("mask", i 1024); ("code", s "SHUTDOWN"); ("desc", s "Shutdown");
        ("severity", s "alarm")];
    PvDict [("register", s "output_status_7"); ("mask", i 512); ("code", s "VOLT_PHASE_ROTATION");
        ("desc", s "Check Voltage Phase Rotation"); ("severity", s "warn");
        ("suppress_in_states", PvList [s "cooling"; s "cranking"; s "stopped"]); ("min_poll_count", i 3)];
    PvDict [("register", s "output_status_7"); ("mask", i 256); ("code", s "CURR_PHASE_ROTATION");
        ("desc", s "Check Current Phase Rotation"); ("severity", s "warn");
        ("suppress_in_states", PvList [s "cooling"; s "cranking"; s "stopped"]); ("min_poll_count", i 3)];
    PvDict [("register", s "output_status_8"); ("mask", i 512); ("code", s "RPM_MISSING");
        ("desc", s "RPM Signal Missing"); ("severity", s "alarm")]]);
  ("registers", PvList [PvDict [("name", s "input_status_1"); ("addr", i 128); ("fc", i 3); ("type", s "bitfld");
      ("tier", s "prime"); ("group", s "State"); ("unit", s "bits")];
    PvDict [("name", s "output_status_1"); ("addr", i 130); ("fc", i 3); ("type", s "bitfld"); ("tier", s "prime");
        ("group", s "State"); ("unit", s "bits")];
    PvDict [("name", s "output_status_2"); ("addr", i 131); ("fc", i 3); ("type", s "bitfld"); ("tier", s "prime");
        ("group", s "Alarms"); ("unit", s "bits")];
    PvDict [("name", s "output_status_3"); ("addr", i 132); ("fc", i 3); ("type", s "bitfld"); ("tier", s "prime");
        ("group", s "Alarms"); ("unit", s "bits")];
    PvDict [("name", s "output_status_4"); ("addr", i 133); ("fc", i 3); ("type", s "bitfld"); ("tier", s "prime");
        ("group", s "Alarms"); ("unit", s "bits")];
    PvDict [("name", s "output_status_5"); ("addr", i 134); ("fc", i 3); ("type", s "bitfld"); ("tier", s "prime");
        ("group", s "Alarms"); ("unit", s "bits")];
    PvDict [("name", s "output_status_6"); ("addr", i 135); ("fc", i 3); ("type", s "bitfld"); ("tier", s "prime");
        ("group", s "Alarms"); ("unit", s "bits")];
    PvDict [("name", s "output_status_7"); ("addr", i 136); ("fc", i 3); ("type", s "bitfld"); ("tier", s "prime");
        ("group", s "State"); ("unit", s "bits")];
    PvDict [("name", s "output_status_8"); ("addr", i 137); ("fc", i 3); ("type", s "bitfld"); ("tier", s "prime");
        ("group", s "Alarms"); ("unit", s "bits")];
    PvDict [("name", s "oil_temp"); ("addr", i 138); ("fc", i 3); ("type", s "u32_lo"); ("tier", s "base");
        ("group", s "Engine"); ("unit", s "F")];
    PvDict [("name", s "coolant_temp"); ("addr", i 140); ("fc", i 3); ("type", s "u32_lo"); ("tier", s "base");
        ("group", s "Engine"); ("unit", s "F"); ("warn_range", PvList [i 170; i 210]);
        ("alarm_range", PvList [i 120; i 235])];
    PvDict [("name", s "oil_pressure"); ("addr", i 142); ("fc", i 3); ("type", s "u32_lo"); ("tier", s "base");
        ("group", s "Engine"); ("unit", s "psi"); ("warn_range", PvList [i 35; i 80])];
    PvDict [("name", s "coolant_level"); ("addr", i 144); ("fc", i 3); ("type", s "u32_lo"); ("tier", s "base");
        ("group", s "Engine"); ("unit", s "pct")];
    PvDict [("name", s "fuel_level_pct"); ("addr", i 146); ("fc", i 3); ("type", s "u32_lo"); ("tier", s "base");
        ("group", s "Engine"); ("unit", s "pct")];
    PvDict [("name", s "throttle_position"); ("addr", i 150); ("fc", i 3); ("type", s "u32_lo"); ("tier", s "base");
        ("group", s "Engine"); ("unit", s "pct")];
    PvDict [("name", s "o2_sensor"); ("addr", i 152); ("fc", i 3); ("type", s "u32_lo"); ("tier", s "base");
        ("group", s "Engine"); ("unit", s "pct")];
    PvDict [("name", s "batt_charge_current"); ("addr", i 154); ("fc", i 3); ("type", s "u32_lo");
        ("tier", s "base"); ("group", s "Engine"); ("unit", s "A")];
    PvDict [("name", s "battery_volts"); ("addr", i 156); ("fc", i 3); ("type", s "u32_lo"); ("tier", s "base");
        ("group", s "Engine"); ("unit", s "V"); ("scale", f (flt 1 100));
        ("warn_range", PvList [f (flt 63 5); f (flt 73 5)])];
    PvDict [("name", s "gen_current_a"); ("addr", i 158); ("fc", i 3); ("type", s "u32_lo"); ("tier", s "base");
        ("group", s "Electrical"); ("unit", s "A")];
    PvDict [("name", s "gen_current_b"); ("addr", i 160); ("fc", i 3); ("type", s "u32_lo"); ("tier", s "base");
        ("group", s "Electrical"); ("unit", s "A")];
    PvDict [("name", s "gen_current_c"); ("addr", i 162); ("fc", i 3); ("type", s "u32_lo"); ("tier", s "base");
        ("group", s "Electrical"); ("unit", s "A")];
    PvDict [("name", s "avg_current"); ("addr", i 164); ("fc", i 3); ("type", s "u32_lo"); ("tier", s "base");
        ("group", s "Electrical"); ("unit", s "A")];
    PvDict [("name", s "gen_voltage_ab"); ("addr", i 166); ("fc", i 3); ("type", s "u32_lo"); ("tier", s "base");
        ("group", s "Electrical"); ("unit", s "V")];
    PvDict [("name", s "gen_voltage_bc"); ("addr", i 168); ("fc", i 3); ("type", s "u32_lo"); ("tier", s "base");
        ("group", s "Electrical"); ("unit", s "V")];
    PvDict [("name", s "gen_voltage_ca"); ("addr", i 170); ("fc", i 3); ("type", s "u32_lo"); ("tier", s "base");
        ("group", s "Electrical"); ("unit", s "V")];
    PvDict [("name", s "avg_voltage"); ("addr", i 172); ("fc", i 3); ("type", s "u32_lo"); ("tier", s "base");
        ("group", s "Electrical"); ("unit", s "V")];
    PvDict [("name", s "total_kw"); ("addr", i 174); ("fc", i 3); ("type", s "u32_lo"); ("tier", s "base");
        ("group", s "Electrical"); ("unit", s "kW")];
    PvDict [("name", s "power_factor"); ("addr", i 176); ("fc", i 3); ("type", s "u32_lo"); ("tier", s "base");
        ("group", s "Electrical"); ("unit", s "pf"); ("scale", f (flt 1 100))];
    PvDict [("name", s "frequency"); ("addr", i 178); ("fc", i 3); ("type", s "u32_lo"); ("tier", s "base");
        ("group", s "Electrical"); ("unit", s "Hz"); ("scale", f (flt 1 10))];
    PvDict [("name", s "rpm"); ("addr", i 180); ("fc", i 3); ("type", s "u32_lo"); ("tier", s "base");
        ("group", s "Engine"); ("unit", s "rpm"); ("warn_range", PvList [i 1750; i 1850])];
    PvDict [("name", s "active_alarm_count"); ("addr", i 303); ("fc", i 3); ("type", s "u16"); ("tier", s "prime");
        ("group", s "State"); ("unit", s "count")];
    PvDict [("name", s "run_hours"); ("addr", i 304); ("fc", i 3); ("type", s "u32"); ("tier", s "base");
        ("group", s "Maintenance"); ("unit", s "h"); ("scale", f (flt 1 10))];
    PvDict [("name", s "engine_status_code"); ("addr", i 306); ("fc", i 3); ("type", s "u16"); ("tier", s "prime");
        ("group", s "State"); ("unit", s "enum")];
    PvDict [("name", s "key_switch_state"); ("addr", i 416); ("fc", i 3); ("type", s "bitfld"); ("tier", s "prime");
        ("group", s "State"); ("unit", s "bits")];
    PvDict [("name", s "quiettest_status"); ("addr", i 555); ("fc", i 3); ("type", s "u16"); ("tier", s "prime");
        ("group", s "State"); ("unit", s "enum")]]);
  ("controls", PvList [PvDict [("name", s "remote_start"); ("addr", i 412); ("fc", i 16);
      ("values", PvList [i 128; i 0; i 0]); ("desc", s "Remote start (no transfer)")];
    PvDict [("name", s "remote_stop"); ("addr", i 412); ("fc", i 16); ("values", PvList [i 0; i 0; i 0]);
        ("desc", s "Remote stop / cool-down")];
    PvDict [("name", s "transfer"); ("addr", i 412); ("fc", i 16); ("values", PvList [i 128; i 0; i 128]);
        ("desc", s "Remote start + transfer to generator")];
    PvDict [("name", s "exercise"); ("addr", i 555); ("fc", i 16); ("values", PvList [i 1]);
        ("desc", s "Begin quiet test (unloaded exercise)")];
    PvDict [("name", s "ack_alarm"); ("addr", i 302); ("fc", i 16); ("values", PvList [i 1]);
        ("desc", s "Acknowledge/clear alarm")]])].

Definition ats_pi_yaml : pyval :=
  PvDict [("site", PvDict [("id", s "ATSPI-23");
    ("name", s "ASCO Series 300 (via ATS-Pi)");
    ("rating_kw", i 0);
    ("engine", s "n/a (companion device)");
    ("tank_gal", i 0);
    ("fuel_type", s "unknown");
    ("exercise", PvDict [("enabled", b false); ("day", s "sun"); ("time", s "00:00"); ("duration_min", i 0);
        ("quiet", b false)])]);
  ("modbus", PvDict [("slave", i 1);
    ("read_fc", i 3);
    ("prime_poll_ms", i 1500);
    ("base_poll_ms", i 15000);
    ("timeout_s", f (flt 1 1));
    ("retries", i 2);
    ("backoff_s", PvList [f (flt 1 4); f (flt 1 2); f (flt 1 1)])]);
  ("engine_state_bits", PvList []);
  ("panel_mode_bits", PvList []);
  ("alarm_bits", PvList [PvDict [("register", s "fault_summary"); ("mask", i 1); ("code", s "ATS_PI_INPUT_FAULT");
      ("desc", s "ATS-Pi input fault — contact stuck"); ("severity", s "warn")];
    PvDict [("register", s "fault_summary"); ("mask", i 2); ("code", s "ATS_PI_OUTPUT_FAULT");
        ("desc", s "ATS-Pi output fault — relay readback"); ("severity", s "warn")];
    PvDict [("register", s "fault_summary"); ("mask", i 4); ("code", s "ATS_PI_MODE_UNKNOWN");
        ("desc", s "ATS-Pi cannot determine mode"); ("severity", s "warn")];
    PvDict [("register", s "fault_summary"); ("mask", i 8); ("code", s "ATS_PI_CALIBRATION");
        ("desc", s "Impossible ATS position — both position-sense contacts asserted; check aux contacts or Group 5 status map"); ("severity", s "warn")]]);
  ("registers", PvList [PvDict [("name", s "position"); ("addr", i 0); ("fc", i 3); ("type", s "u16");
      ("tier", s "prime"); ("group", s "ATS"); ("unit", s "enum")];
    PvDict [("name", s "normal_available"); ("addr", i 1); ("fc", i 3); ("type", s "u16"); ("tier", s "prime");
        ("group", s "ATS"); ("unit", s "bool")];
    PvDict [("name", s "emergency_available"); ("addr", i 2); ("fc", i 3); ("type", s "u16"); ("tier", s "prime");
        ("group", s "ATS"); ("unit", s "bool")];
    PvDict [("name", s "engine_start_calling"); ("addr", i 3); ("fc", i 3); ("type", s "u16"); ("tier", s "prime");
        ("group", s "ATS"); ("unit", s "bool")];
    PvDict [("name", s "ats_mode"); ("addr", i 4); ("fc", i 3); ("type", s "u16"); ("tier", s "prime");
        ("group", s "ATS"); ("unit", s "enum")];
    PvDict [("name", s "fault_summary"); ("addr", i 5); ("fc", i 3); ("type", s "bitfld"); ("tier", s "prime");
        ("group", s "ATS"); ("unit", s "bits")];
    PvDict [("name", s "last_transfer_to_gen_ts"); ("addr", i 16); ("fc", i 3); ("type", s "u32");
        ("tier", s "base"); ("group", s "ATS"); ("unit", s "epoch_s")];
    PvDict [("name", s "last_retransfer_to_util_ts"); ("addr", i 18); ("fc", i 3); ("type", s "u32");
        ("tier", s "base"); ("group", s "ATS"); ("unit", s "epoch_s")];
    PvDict [("name", s "ats_pi_uptime_s"); ("addr", i 20); ("fc", i 3); ("type", s "u32"); ("tier", s "base");
        ("group", s "ATS"); ("unit", s "s")];
    PvDict [("name", s "ats_pi_wallclock"); ("addr", i 22); ("fc", i 3); ("type", s "u32"); ("tier", s "base");
        ("group", s "ATS"); ("unit", s "epoch_s")];
    PvDict [("name", s "transfer_count_lifetime"); ("addr", i 32); ("fc", i 3); ("type", s "u32");
        ("tier", s "base"); ("group", s "ATS"); ("unit", s "count")];
    PvDict [("name", s "transfer_count_24h"); ("addr", i 34); ("fc", i 3); ("type", s "u32"); ("tier", s "base");
        ("group", s "ATS"); ("unit", s "count")];
    PvDict [("name", s "icd_version_major"); ("addr", i 48); ("fc", i 3); ("type", s "u16"); ("tier", s "base");
        ("group", s "ATS"); ("unit", s "version")];
    PvDict [("name", s "icd_version_minor"); ("addr", i 49); ("fc", i 3); ("type", s "u16"); ("tier", s "base");
        ("group", s "ATS"); ("unit", s "version")];
    PvDict [("name", s "ats_pi_fw_major"); ("addr", i 50); ("fc", i 3); ("type", s "u16"); ("tier", s "base");
        ("group", s "ATS"); ("unit", s "version")];
    PvDict [("name", s "ats_pi_fw_minor"); ("addr", i 51); ("fc", i 3); ("type", s "u16"); ("tier", s "base");
        ("group", s "ATS"); ("unit", s "version")];
    PvDict [("name", s "ats_pi_fw_patch"); ("addr", i 52); ("fc", i 3); ("type", s "u16"); ("tier", s "base");
        ("group", s "ATS"); ("unit", s "version")];
    PvDict [("name", s "ats_pi_unit_id"); ("addr", i 53); ("fc", i 3); ("type", s "u16"); ("tier", s "base");
        ("group", s "ATS"); ("unit", s "id")];
    PvDict [("name", s "cmd_test_active"); ("addr", i 64); ("fc", i 3); ("type", s "u16"); ("tier", s "prime");
        ("group", s "ATS"); ("unit", s "bool")];
    PvDict [("name", s "cmd_inhibit_active"); ("addr", i 65); ("fc", i 3); ("type", s "u16"); ("tier", s "prime");
        ("group", s "ATS"); ("unit", s "bool")];
    PvDict [("name", s "cmd_force_transfer_active"); ("addr", i 66); ("fc", i 3); ("type", s "u16");
        ("tier", s "prime"); ("group", s "ATS"); ("unit", s "bool")];
    PvDict [("name", s "cmd_bypass_delay_active"); ("addr", i 67); ("fc", i 3); ("type", s "u16");
        ("tier", s "prime"); ("group", s "ATS"); ("unit", s "bool")]]);
  ("controls", PvList [PvDict [("name", s "ats_test"); ("addr", i 256); ("fc", i 6); ("values", PvList [i 1]);
      ("desc", s "Momentary test transfer")];
    PvDict [("name", s "ats_inhibit_assert"); ("addr", i 257); ("fc", i 6); ("values", PvList [i 1]);
        ("desc", s "Assert inhibit (maintained)")];
    PvDict [("name", s "ats_inhibit_release"); ("addr", i 257); ("fc", i 6); ("values", PvList [i 0]);
        ("desc", s "Release inhibit")];
    PvDict [("name", s "ats_force_assert"); ("addr", i 258); ("fc", i 6); ("values", PvList [i 1]);
        ("desc", s "Force transfer to gen (maintained)")];
    PvDict [("name", s "ats_force_release"); ("addr", i 258); ("fc", i 6); ("values", PvList [i 0]);
        ("desc", s "Release force-transfer")];
    PvDict [("name", s "ats_bypass_delay"); ("addr", i 259); ("fc", i 6); ("values", PvList [i 1]);
        ("desc", s "Bypass transfer time delay (momentary)")]])].

(** The two register files of the repository load without an error, to the maps the
    rest of the development is instantiated at. *)
Theorem shipped_files_load :
  load_register_map "registers/h100.yaml" h100_yaml = inr h100_map /\
  load_register_map "registers/ats_pi.yaml" ats_pi_yaml = inr ats_pi_map.
Proof. split; vm_compute; reflexivity. Qed.
