(* ===== verification/Client.v ===== *)
(** * Modbus clients (modbus/client.py)

    The result type, the argument check of writes, and the retrying reads and
    single-shot writes of the serial and TCP-RTU clients, and the keep-alive options of
    the TCP socket.  The pymodbus client
    under them is a parameter ([Link]): what one transaction or connect attempt
    returns.  [ModbusClient] is the interface the poller and the control
    services use. *)

From S2P Require Import Prelude PyNum.

Local Open Scope Z_scope.
Local Open Scope gw_scope.

(** ** Results *)

Record ModbusResult : Type := {
  mr_ok : bool;
  mr_words : option (list Z);
  mr_error : option string;
  mr_elapsed : Z                    (* nanoseconds; the source's elapsed_ms *)
}.

Definition mr_success (words : list Z) (elapsed : Z) : ModbusResult :=
  {| mr_ok := true; mr_words := Some words; mr_error := None; mr_elapsed := elapsed |}.
Definition mr_failure (reason : string) (elapsed : Z) : ModbusResult :=
  {| mr_ok := false; mr_words := None; mr_error := Some reason; mr_elapsed := elapsed |}.

(** [_coerce_write_args]: a definitive list of words, or an error. *)
Definition coerce_write_args (value : option Z) (values : option (list Z)) (fc : Z)
    : list Z * option string :=
  match values, value with
  | Some _, Some _ => ([], Some "both_value_and_values_provided"%string)
  | None, None => ([], Some "no_value_provided"%string)
  | _, _ =>
      let word_list := match values, value with
                       | Some vs, _ => vs
                       | None, Some v => [v]
                       | None, None => []
                       end in
      if (length word_list =? 0)%nat then ([], Some "empty_values"%string)
      else if (fc =? 6) && negb (length word_list =? 1)%nat
           then ([], Some "fc6_requires_single_value"%string)
           else (word_list, None)
  end.

(** ** The pymodbus link *)

(** What a transaction returns: no response, an error response with its
    exception code, or a response carrying registers. *)
Inductive pdu : Type :=
| PduNone
| PduError (exception_code : string)
| PduRegs (registers : option (list Z)).

Inductive outcome : Type :=
| Responded (rr : pdu)
| TimedOut
| Raised (type_name : string).

Inductive request : Type :=
| ReadHolding (addr count : Z)
| ReadInput (addr count : Z)
| WriteOne (addr value : Z)
| WriteMany (addr : Z) (values : list Z).

(** A link state [W]: the clock, the wire and the socket. *)
Class Link (W : Type) := {
  perf_counter : W -> Z;
  transact : request -> W -> outcome * W;
  is_connected : W -> bool;
  reconnect : W -> outcome * bool * W;
  sleep : pyfloat -> W -> W
}.

Record client_cfg : Type := {
  cl_present : bool;               (* self._client is not None *)
  cl_retries : Z;
  cl_backoff_s : list pyfloat
}.

(** [max(0, retries)] and [list(backoff_s) or \[0.25\]] of the constructors. *)
Definition mk_client_cfg (present : bool) (retries : Z) (backoff : list pyfloat) : client_cfg :=
  {| cl_present := present; cl_retries := Z.max 0 retries;
     cl_backoff_s := match backoff with [] => [flt 25 100] | _ => backoff end |}.

Section client.
Context {W : Type} `{Link W}.

(** [_ensure_connected] of the TCP client; a raised or timed-out connect is [false]. *)
Definition ensure_connected (cfg : client_cfg) (w : W) : bool * W :=
  if negb (cl_present cfg) then (false, w)
  else if is_connected w then (true, w)
  else match reconnect w with
       | (Responded _, ok, w') => (ok, w')
       | (_, _, w') => (false, w')
       end.

(** A serial port needs no reconnect. *)
Definition always_connected (w : W) : bool * W := (true, w).

(** [_read_once]: an unsupported function code raises before the wire. *)
Definition read_once (addr count fc : Z) (w : W) : outcome * W :=
  if fc =? 3 then transact (ReadHolding addr count) w
  else if fc =? 4 then transact (ReadInput addr count) w
  else (Raised "ValueError", w).

(** The verdict on one attempt: the words, or the error string. *)
Definition read_verdict (count : Z) (o : outcome) : list Z + string :=
  match o with
  | Responded PduNone => inr "no_response"%string
  | Responded (PduError code) => inr ("exc_" +:+ code)
  | Responded (PduRegs None) => inr "short_read"%string
  | Responded (PduRegs (Some regs)) =>
      if Z.of_nat (length regs) =? count then inl regs else inr "short_read"%string
  | TimedOut => inr "timeout"%string
  | Raised ty => inr ty
  end.

Definition read_attempt (ensure : W -> bool * W) (addr count fc : Z) (w : W)
    : (list Z + string) * W :=
  match ensure w with
  | (false, w1) => (inr "tcp_disconnected"%string, w1)
  | (true, w1) => let '(o, w2) := read_once addr count fc w1 in (read_verdict count o, w2)
  end.

(** [self.backoff_s\[min(i, len(self.backoff_s) - 1)\]] *)
Definition backoff_at (cfg : client_cfg) (i : nat) : pyfloat :=
  nth (Nat.min i (length (cl_backoff_s cfg) - 1)) (cl_backoff_s cfg) (flt 25 100).

(** The retry loop: [left] attempts remain, [i] were made. *)
Fixpoint read_loop (cfg : client_cfg) (ensure : W -> bool * W) (addr count fc : Z) (t0 : Z)
    (left i : nat) (last_err : string) (w : W) : ModbusResult * W :=
  match left with
  | O => (mr_failure last_err (perf_counter w - t0), w)
  | S left' =>
      match read_attempt ensure addr count fc w with
      | (inl regs, w1) => (mr_success regs (perf_counter w1 - t0), w1)
      | (inr err, w1) =>
          let w2 := match left' with O => w1 | _ => sleep (backoff_at cfg i) w1 end in
          read_loop cfg ensure addr count fc t0 left' (S i) err w2
      end
  end.

Definition attempts (cfg : client_cfg) : nat := Z.to_nat (cl_retries cfg + 1).

Definition client_read (cfg : client_cfg) (ensure : W -> bool * W) (addr count fc : Z) (w : W)
    : ModbusResult * W :=
  if negb (cl_present cfg) then (mr_failure "not_connected" 0, w)
  else read_loop cfg ensure addr count fc (perf_counter w) (attempts cfg) 0 "unknown" w.

Definition serial_read (cfg : client_cfg) : Z -> Z -> Z -> W -> ModbusResult * W :=
  client_read cfg always_connected.
Definition tcp_read (cfg : client_cfg) : Z -> Z -> Z -> W -> ModbusResult * W :=
  client_read cfg (ensure_connected cfg).

Definition write_request (addr fc : Z) (words : list Z) : option request :=
  if fc =? 6 then Some (WriteOne addr (hd 0 words))
  else if fc =? 16 then Some (WriteMany addr words)
  else None.

Definition write_verdict (words : list Z) (o : outcome) (elapsed : Z) : ModbusResult :=
  match o with
  | Responded PduNone => mr_failure "write_failed_?" elapsed
  | Responded (PduError code) => mr_failure ("write_failed_" +:+ code) elapsed
  | Responded (PduRegs _) => mr_success words elapsed
  | TimedOut => mr_failure "timeout" elapsed
  | Raised ty => mr_failure ty elapsed
  end.

Definition client_write (cfg : client_cfg) (ensure : W -> bool * W) (addr : Z)
    (value : option Z) (fc : Z) (values : option (list Z)) (w : W) : ModbusResult * W :=
  if negb (cl_present cfg) then (mr_failure "not_connected" 0, w)
  else match coerce_write_args value values fc with
       | (_, Some err) => (mr_failure err 0, w)
       | (words, None) =>
           let t0 := perf_counter w in
           match ensure w with
           | (false, w1) => (mr_failure "tcp_disconnected" (perf_counter w1 - t0), w1)
           | (true, w1) =>
               match write_request addr fc words with
               | None => (mr_failure ("unsupported_write_fc_" +:+ str_Z fc) 0, w1)
               | Some rq => let '(o, w2) := transact rq w1 in
                            (write_verdict words o (perf_counter w2 - t0), w2)
               end
           end
       end.

Definition serial_write (cfg : client_cfg) := client_write cfg always_connected.
Definition tcp_write (cfg : client_cfg) := client_write cfg (ensure_connected cfg).
End client.

(** ** The client interface *)

Class ModbusClient (W : Type) := {
  mc_read : Z -> Z -> Z -> W -> ModbusResult * W;
  mc_write : Z -> option Z -> Z -> option (list Z) -> W -> ModbusResult * W
}.

(** What callers rely on: a successful read carries exactly the words asked for. *)
Class ModbusClientLaws (W : Type) `{ModbusClient W} := {
  mc_read_ok : forall addr count fc w r w',
    mc_read addr count fc w = (r, w') -> mr_ok r = true ->
    exists words, mr_words r = Some words /\ Z.of_nat (length words) = count
}.

Definition TcpRtuModbusClient {W} `{Link W} (cfg : client_cfg) : ModbusClient W :=
  {| mc_read := tcp_read cfg; mc_write := tcp_write cfg |}.
Definition SerialModbusClient {W} `{Link W} (cfg : client_cfg) : ModbusClient W :=
  {| mc_read := serial_read cfg; mc_write := serial_write cfg |}.

(** ** Theorems *)

Lemma coerce_write_args_ok value values fc words :
  coerce_write_args value values fc = (words, None) ->
  words <> [] /\ (fc = 6 -> length words = 1%nat) /\
  ((values = Some words /\ value = None) \/ (values = None /\ exists v, value = Some v /\ words = [v])).
Proof.
  unfold coerce_write_args. destruct values as [vs|], value as [v|]; try done; simpl.
  - destruct vs as [|x vs]; [done|]. simpl. case_match eqn:E; [done|]. intros [= <-].
    split_and!; [done| |by left]. intros ->. simpl in E.
    by destruct vs.
  - case_match; intros [= <-]; naive_solver.
Qed.

Section client_facts.
Context {W : Type} `{Link W}.
Implicit Types (cfg : client_cfg) (w : W).

Lemma read_verdict_ok count o regs :
  read_verdict count o = inl regs -> Z.of_nat (length regs) = count.
Proof.
  destruct o as [[| |[r|]]| |]; simpl; try done.
  case_match; [|done]. intros [= <-]. by apply Z.eqb_eq.
Qed.

Lemma read_attempt_ok ensure addr count fc w regs w' :
  read_attempt ensure addr count fc w = (inl regs, w') -> Z.of_nat (length regs) = count.
Proof.
  unfold read_attempt. destruct (ensure w) as [[] w1]; [|done].
  destruct (read_once addr count fc w1) as [o w2]. intros [= Hv _].
  by eapply read_verdict_ok.
Qed.

Lemma read_loop_ok cfg ensure addr count fc t0 left i err w r w' :
  read_loop cfg ensure addr count fc t0 left i err w = (r, w') -> mr_ok r = true ->
  exists words, mr_words r = Some words /\ Z.of_nat (length words) = count.
Proof.
  revert i err w. induction left as [|left IH]; intros i err w; simpl; [by intros [= <- _]|].
  destruct (read_attempt ensure addr count fc w) as [[regs|e] w1] eqn:E.
  - intros [= <- _] _. exists regs. split; [done|]. by eapply read_attempt_ok.
  - apply IH.
Qed.

Lemma client_read_ok cfg ensure addr count fc w r w' :
  client_read cfg ensure addr count fc w = (r, w') -> mr_ok r = true ->
  exists words, mr_words r = Some words /\ Z.of_nat (length words) = count.
Proof.
  unfold client_read. case_match; [by intros [= <- _]|]. apply read_loop_ok.
Qed.

#[export] Instance tcp_laws cfg : @ModbusClientLaws W (TcpRtuModbusClient cfg).
Proof. constructor. intros *. apply client_read_ok. Qed.
#[export] Instance serial_laws cfg : @ModbusClientLaws W (SerialModbusClient cfg).
Proof. constructor. intros *. apply client_read_ok. Qed.

(** A run of the retry loop as a relation: the attempts that failed, in order,
    and the final verdict. *)
Inductive read_run (cfg : client_cfg) (ensure : W -> bool * W) (addr count fc : Z)
    : nat -> nat -> W -> list string -> option (list Z) -> W -> Prop :=
| run_exhausted i w : read_run cfg ensure addr count fc 0 i w [] None w
| run_success left i w regs w1 :
    read_attempt ensure addr count fc w = (inl regs, w1) ->
    read_run cfg ensure addr count fc (S left) i w [] (Some regs) w1
| run_retry left i w err w1 errs res w2 :
    read_attempt ensure addr count fc w = (inr err, w1) ->
    read_run cfg ensure addr count fc left (S i)
      (match left with O => w1 | _ => sleep (backoff_at cfg i) w1 end) errs res w2 ->
    read_run cfg ensure addr count fc (S left) i w (err :: errs) res w2.

Lemma read_loop_run cfg ensure addr count fc t0 left i err w r w' :
  read_loop cfg ensure addr count fc t0 left i err w = (r, w') ->
  exists errs res, read_run cfg ensure addr count fc left i w errs res w' /\
    (length errs + (if res then 1 else 0) <= left)%nat /\
    r = match res with
        | Some regs => mr_success regs (perf_counter w' - t0)
        | None => mr_failure (List.last errs err) (perf_counter w' - t0)
        end /\
    (res = None -> length errs = left).
Proof.
  revert i err w. induction left as [|left IH]; intros i err w; simpl.
  { intros [= <- <-]. exists [], None. split_and!; [constructor|simpl; lia|done|done]. }
  destruct (read_attempt ensure addr count fc w) as [[regs|e] w1] eqn:E.
  - intros [= <- <-]. exists [], (Some regs). split_and!; [by constructor|simpl; lia|done|done].
  - intros Hr. destruct (IH _ _ _ Hr) as (errs & res & Hrun & Hlen & -> & Hnone).
    exists (e :: errs), res. split_and!.
    + by econstructor.
    + simpl. lia.
    + destruct res; [done|]. f_equal. destruct errs as [|x errs]; [done|]. exact (last_default errs x e err).
    + intros ->. simpl. by rewrite Hnone.
Qed.

(** C36. A Modbus read makes at most retries + 1 attempts, succeeds at the first one
    that returns the full word count, and otherwise fails with the last attempt's error
    after making all of them. *)
Theorem client_read_spec cfg ensure addr count fc w r w' :
  cl_present cfg = true -> 0 <= cl_retries cfg ->
  client_read cfg ensure addr count fc w = (r, w') ->
  exists errs res,
    read_run cfg ensure addr count fc (attempts cfg) 0 w errs res w' /\
    (length errs + (if res then 1 else 0) <= attempts cfg)%nat /\
    match res with
    | Some regs => r = mr_success regs (perf_counter w' - perf_counter w) /\
                   Z.of_nat (length regs) = count
    | None => length errs = attempts cfg /\ (0 < length errs)%nat /\
              exists pre err, errs = pre ++ [err] /\
                r = mr_failure err (perf_counter w' - perf_counter w)
    end.
Proof.
  intros Hp Hret. unfold client_read. rewrite Hp. simpl. intros Hr.
  pose proof (read_loop_ok _ _ _ _ _ _ _ _ _ _ _ _ Hr) as Hok.
  destruct (read_loop_run _ _ _ _ _ _ _ _ _ _ _ _ Hr) as (errs & res & Hrun & Hlen & -> & Hn).
  exists errs, res. split_and!; [done|done|]. destruct res as [regs|].
  - split; [done|]. destruct (Hok eq_refl) as (ws & [= <-] & ?). done.
  - specialize (Hn eq_refl).
    assert (0 < length errs)%nat as Hpos by (rewrite Hn; unfold attempts; lia).
    split_and!; [done|done|].
    destruct (exists_last (l := errs)) as (pre & err & ->); [intros ->; simpl in Hpos; lia|].
    exists pre, err. split; [done|]. by rewrite last_last.
Qed.

(** A successful Modbus write sent exactly one request, with the words asked for,
    and only for supported arguments and function codes. *)
Theorem client_write_spec cfg ensure addr value fc values w r w' :
  client_write cfg ensure addr value fc values w = (r, w') -> mr_ok r = true ->
  exists words rq w1 rr,
    coerce_write_args value values fc = (words, None) /\ mr_words r = Some words /\
    ensure w = (true, w1) /\ write_request addr fc words = Some rq /\
    transact rq w1 = (Responded (PduRegs rr), w').
Proof.
  unfold client_write. case_match; [by intros [= <- _]|].
  destruct (coerce_write_args value values fc) as [words [err|]]; [by intros [= <- _]|].
  destruct (ensure w) as [[] w1] eqn:He; [|by intros [= <- _]].
  destruct (write_request addr fc words) as [rq|] eqn:Hrq; [|by intros [= <- _]].
  destruct (transact rq w1) as [o w2] eqn:Ht. intros [= <- <-].
  destruct o as [[| |rr]| |]; simpl; try done. intros _.
  by exists words, rq, w1, rr.
Qed.
End client_facts.

(** ** Keep-alive of the TCP socket *)

Definition TCP_KEEPIDLE_S : Z := 30.
Definition TCP_KEEPINTVL_S : Z := 10.
Definition TCP_KEEPCNT : Z := 3.

Inductive sockopt : Type := SO_KEEPALIVE | KEEPIDLE | KEEPINTVL | KEEPCNT.
#[export] Instance sockopt_eq_dec : EqDecision sockopt.
Proof. solve_decision. Defined.

(** What [_apply_tcp_keepalive] asks for; the timings exist on Linux only. *)
Definition keepalive_options (linux : bool) : list (sockopt * Z) :=
  (SO_KEEPALIVE, 1) ::
  if linux then [(KEEPIDLE, TCP_KEEPIDLE_S); (KEEPINTVL, TCP_KEEPINTVL_S); (KEEPCNT, TCP_KEEPCNT)] else [].

(** The options a socket ends up with: they are set in order until one raises. *)
Fixpoint set_options (accepts : sockopt -> Z -> bool) (opts : list (sockopt * Z)) (set : odict sockopt Z) : odict sockopt Z :=
  match opts with
  | [] => set
  | (o, v) :: opts => if accepts o v then set_options accepts opts (od_set o v set) else set
  end.

(** [_enable_keepalive]: the transport of the client's context, else its own; nothing
    happens without one or without a socket under it. *)
Definition enable_keepalive {T} (ctx_transport own_transport : option T) (socket_of : T -> option (odict sockopt Z))
    (accepts : sockopt -> Z -> bool) (linux : bool) : option (odict sockopt Z) :=
  match (match ctx_transport with Some t => Some t | None => own_transport end) with
  | None => None
  | Some t => set_options accepts (keepalive_options linux) <$> socket_of t
  end.

(** A socket of Linux that takes the options gives a silent peer up after about 60 s:
    the idle time and the probes after it. *)
Definition silence_allowed (set : odict sockopt Z) : option Z :=
  match od_get SO_KEEPALIVE set, od_get KEEPIDLE set, od_get KEEPINTVL set, od_get KEEPCNT set with
  | Some 1, Some idle, Some intvl, Some cnt => Some (idle + cnt * intvl)
  | _, _, _, _ => None
  end.

Lemma set_options_get accepts opts set o :
  NoDup (map fst opts) -> (forall o v, (o, v) ∈ opts -> accepts o v = true) ->
  od_get o (set_options accepts opts set) = match od_get o opts with Some v => Some v | None => od_get o set end.
Proof.
  revert set. induction opts as [|[o' v] opts IH]; intros set Hnd Ha; cbn; [done|].
  apply NoDup_cons in Hnd as [Hnotin Hnd]. rewrite Ha by (by left). rewrite IH by (first [done|intros; apply Ha; by right]).
  rewrite od_get_set. case_decide as E; [|done]. subst. by rewrite (proj2 (od_get_None _ _)).
Qed.

Theorem keepalive_silence {T} (ctx own : option T) (t : T) socket_of set accepts :
  match ctx with Some t => Some t | None => own end = Some t -> socket_of t = Some set ->
  (forall o v, (o, v) ∈ keepalive_options true -> accepts o v = true) ->
  exists set', enable_keepalive ctx own socket_of accepts true = Some set' /\ silence_allowed set' = Some 60.
Proof.
  intros Ht Hs Ha. eexists. unfold enable_keepalive. rewrite Ht, Hs. split; [done|]. unfold silence_allowed.
  rewrite !set_options_get by (first [done|apply (bool_decide_unpack _); by vm_compute]). done.
Qed.
