(* ===== verification/Poller.v ===== *)
(** * The two-tier poller (modbus/poller.py)

    Comms health with its rolling window, recovery streak and flap gate; the
    batched poll of one tier with its single-register fan-out, decode, per-tier
    eviction of stale values and watchdog heartbeat; hot reload and the silence
    watchdog. *)

From S2P Require Import Prelude PyNum Registers Client.

Local Open Scope Z_scope.

(** ** Constants *)

Definition HEALTHY_RECOVERY_STREAK : Z := 5.
Definition FLAP_WINDOW_S : Z := sec 120.
Definition FLAP_MAX_EPISODES : Z := 2.
Definition TIER_STALE_MULTIPLIER : Z := 3.
Definition RESULTS_MAXLEN : nat := 60.
Definition EPISODES_MAXLEN : nat := 32.

(** ** State *)

(** [CommsHealth].  [success_pct] counts tenths of a percent and
    [p95_latency_ms] tenths of a millisecond, the precision the source rounds to. *)
Record CommsHealth : Type := {
  ch_state : string;
  ch_success_pct : Z;
  ch_last_good_at : option Z;
  ch_last_attempt_at : option Z;
  ch_rate_ms : Z;
  ch_p95_latency_ms : Z;
  ch_consecutive_failures : Z;
  ch_consecutive_successes : Z;
  ch_last_prime_good_monotonic : option Z
}.

Definition CommsHealth_default (rate_ms : Z) : CommsHealth :=
  {| ch_state := "healthy"; ch_success_pct := 1000; ch_last_good_at := None;
     ch_last_attempt_at := None; ch_rate_ms := rate_ms; ch_p95_latency_ms := 0;
     ch_consecutive_failures := 0; ch_consecutive_successes := 0;
     ch_last_prime_good_monotonic := None |}.

#[export] Instance CommsHealth_inhabited : Inhabited CommsHealth :=
  populate (CommsHealth_default 1500).

Record Reading : Type := {
  rd_values : gmap string pynum;
  rd_ts : Z;
  rd_value_ages : gmap string Z
}.

Record Poller : Type := {
  p_regmap : RegisterMap;
  p_health : CommsHealth;
  p_reading : Reading;
  p_results : list bool;
  p_latencies : list Z;
  p_lost_episodes : list Z;
  p_prime_batches : list (Z * Z);
  p_base_batches : list (Z * Z)
}.

Definition with_health (h : CommsHealth) (p : Poller) : Poller :=
  {| p_regmap := p_regmap p; p_health := h; p_reading := p_reading p; p_results := p_results p;
     p_latencies := p_latencies p; p_lost_episodes := p_lost_episodes p;
     p_prime_batches := p_prime_batches p; p_base_batches := p_base_batches p |}.

Definition with_reading (r : Reading) (p : Poller) : Poller :=
  {| p_regmap := p_regmap p; p_health := p_health p; p_reading := r; p_results := p_results p;
     p_latencies := p_latencies p; p_lost_episodes := p_lost_episodes p;
     p_prime_batches := p_prime_batches p; p_base_batches := p_base_batches p |}.

Definition Poller_init (rm : RegisterMap) (now : Z) : Poller :=
  {| p_regmap := rm; p_health := CommsHealth_default (rm_prime_poll_ms rm);
     p_reading := {| rd_values := ∅; rd_ts := now; rd_value_ages := ∅ |};
     p_results := []; p_latencies := []; p_lost_episodes := [];
     p_prime_batches := batch_reads (tier rm "prime") default_max_words;
     p_base_batches := batch_reads (tier rm "base") default_max_words |}.

(** ** Comms health *)

(** Successes in the window, and their share in tenths of a percent. *)
Definition count_ok (results : list bool) : Z := Z.of_nat (length (List.filter (fun b => b) results)).
Definition success_pct_of (results : list bool) : Z :=
  round_half_even (1000 * count_ok results) (Pos.of_nat (length results)).

(** [ordered\[int(0.95 * (len(ordered) - 1))\]], the maximum below five samples. *)
Definition p95_index (n : nat) : nat :=
  Z.to_nat (py_int (PFloat (f_mul (flt 95 100) (f_of_Z (Z.of_nat n - 1))))).
Definition p95_of (latencies : list Z) : Z :=
  let ordered := merge_sort Z.le latencies in
  let v := if (length ordered <? 5)%nat then List.last ordered 0
           else nth (p95_index (length ordered)) ordered 0 in
  round_half_even v 100000.

(** [_classify] *)
Definition recent_flaps (episodes : list Z) (now : Z) : Z :=
  Z.of_nat (length (List.filter (fun t => now - t <=? FLAP_WINDOW_S) episodes)).

Definition classify (h : CommsHealth) (episodes : list Z) (now : Z) : string :=
  if 3 <=? ch_consecutive_failures h then "lost"
  else if (HEALTHY_RECOVERY_STREAK <=? ch_consecutive_successes h) &&
          (recent_flaps episodes now <? FLAP_MAX_EPISODES)
  then "healthy"
  else if (ch_success_pct h <? 950) || (1 <=? ch_consecutive_failures h) then "degraded"
  else "healthy".

(** [_record]: one comms-health sample, at wall-clock [wall] and monotonic [mono]. *)
Definition record (ok : bool) (elapsed : Z) (wall mono : Z) (p : Poller) : Poller :=
  let h := p_health p in
  let results := deque_push RESULTS_MAXLEN ok (p_results p) in
  let latencies := if elapsed =? 0 then p_latencies p
                   else deque_push RESULTS_MAXLEN elapsed (p_latencies p) in
  let h1 :=
    {| ch_state := ch_state h;
       ch_success_pct := success_pct_of results;
       ch_last_good_at := if ok then Some wall else ch_last_good_at h;
       ch_last_attempt_at := Some wall;
       ch_rate_ms := ch_rate_ms h;
       ch_p95_latency_ms := match latencies with [] => ch_p95_latency_ms h | _ => p95_of latencies end;
       ch_consecutive_failures := if ok then 0 else ch_consecutive_failures h + 1;
       ch_consecutive_successes := if ok then ch_consecutive_successes h + 1 else 0;
       ch_last_prime_good_monotonic := ch_last_prime_good_monotonic h |} in
  let new_state := classify h1 (p_lost_episodes p) mono in
  let changed := negb (new_state =? ch_state h)%string in
  {| p_regmap := p_regmap p;
     p_health :=
       {| ch_state := new_state;
          ch_success_pct := ch_success_pct h1; ch_last_good_at := ch_last_good_at h1;
          ch_last_attempt_at := ch_last_attempt_at h1; ch_rate_ms := ch_rate_ms h1;
          ch_p95_latency_ms := ch_p95_latency_ms h1;
          ch_consecutive_failures := ch_consecutive_failures h1;
          ch_consecutive_successes := ch_consecutive_successes h1;
          ch_last_prime_good_monotonic := ch_last_prime_good_monotonic h1 |};
     p_reading := p_reading p;
     p_results := results;
     p_latencies := latencies;
     p_lost_episodes := if changed && (new_state =? "lost")%string
                        then deque_push EPISODES_MAXLEN mono (p_lost_episodes p)
                        else p_lost_episodes p;
     p_prime_batches := p_prime_batches p;
     p_base_batches := p_base_batches p |}.

(** One pass of [_watchdog] after its sleep. *)
Definition watchdog_tick (mono mono_append : Z) (p : Poller) : Poller :=
  let h := p_health p in
  let threshold := msec (rm_prime_poll_ms (p_regmap p) * 3) in
  match ch_last_prime_good_monotonic h with
  | None => p
  | Some mono_last =>
      let silence := mono - mono_last in
      if (threshold <? silence) && negb (ch_state h =? "lost")%string then
        {| p_regmap := p_regmap p;
           p_health :=
             {| ch_state := "lost"; ch_success_pct := ch_success_pct h;
                ch_last_good_at := ch_last_good_at h; ch_last_attempt_at := ch_last_attempt_at h;
                ch_rate_ms := ch_rate_ms h; ch_p95_latency_ms := ch_p95_latency_ms h;
                ch_consecutive_failures := Z.max (ch_consecutive_failures h) 3;
                ch_consecutive_successes := 0;
                ch_last_prime_good_monotonic := ch_last_prime_good_monotonic h |};
           p_reading := p_reading p; p_results := p_results p; p_latencies := p_latencies p;
           p_lost_episodes := deque_push EPISODES_MAXLEN mono_append (p_lost_episodes p);
           p_prime_batches := p_prime_batches p; p_base_batches := p_base_batches p |}
      else p
  end.

(** [apply_regmap] *)
Definition poller_apply_regmap (rm : RegisterMap) (p : Poller) : Poller :=
  {| p_regmap := rm;
     p_health :=
       {| ch_state := ch_state (p_health p); ch_success_pct := ch_success_pct (p_health p);
          ch_last_good_at := ch_last_good_at (p_health p);
          ch_last_attempt_at := ch_last_attempt_at (p_health p);
          ch_rate_ms := rm_prime_poll_ms rm;
          ch_p95_latency_ms := ch_p95_latency_ms (p_health p);
          ch_consecutive_failures := ch_consecutive_failures (p_health p);
          ch_consecutive_successes := ch_consecutive_successes (p_health p);
          ch_last_prime_good_monotonic := ch_last_prime_good_monotonic (p_health p) |};
     p_reading := p_reading p; p_results := p_results p; p_latencies := p_latencies p;
     p_lost_episodes := p_lost_episodes p;
     p_prime_batches := batch_reads (tier rm "prime") default_max_words;
     p_base_batches := batch_reads (tier rm "base") default_max_words |}.

(** ** Polling a tier *)

(** The wall and monotonic clocks of the world the poller runs in. *)
Class Clock (W : Type) := {
  wall_clock : W -> Z;
  mono_clock : W -> Z
}.

(** What a batch yields: its start, its words and the offsets that could not be read. *)
Record batch_result : Type := {
  br_start : Z;
  br_words : list Z;
  br_failed : gset nat
}.

Section poll.
Context {W : Type} `{ModbusClient W} `{Clock W}.

(** [_fallback_singles]: [left] offsets remain, starting at [offset]. *)
Fixpoint fallback_loop (start read_fc : Z) (left offset : nat) (w : W)
    : (list Z * gset nat * bool) * W :=
  match left with
  | O => (([], ∅, false), w)
  | S left' =>
      let '(r, w1) := mc_read (start + Z.of_nat offset) 1 read_fc w in
      let '((words, failed, any_ok), w2) := fallback_loop start read_fc left' (S offset) w1 in
      match mr_ok r, mr_words r with
      | true, Some (x :: _) => ((x :: words, failed, true), w2)
      | _, _ => ((0 :: words, {[ offset ]} ∪ failed, any_ok), w2)
      end
  end.

Definition fallback_singles (start count read_fc : Z) (w : W)
    : option (list Z * gset nat) * W :=
  let '((words, failed, any_ok), w') := fallback_loop start read_fc (Z.to_nat count) 0 w in
  (if any_ok then Some (words, failed) else None, w').

Definition record_now (ok : bool) (elapsed : Z) (w : W) (p : Poller) : Poller :=
  record ok elapsed (wall_clock w) (mono_clock w) p.

(** One batch: the read, else the fan-out; exactly one health sample. *)
Definition poll_batch (fc : Z) (b : Z * Z) (p : Poller) (w : W)
    : option batch_result * Poller * W :=
  let '(start, count) := b in
  let '(r, w1) := mc_read start count fc w in
  match mr_ok r, mr_words r with
  | true, Some ws =>
      (Some {| br_start := start; br_words := ws; br_failed := ∅ |},
       record_now true (mr_elapsed r) w1 p, w1)
  | _, _ =>
      let '(fb, w2) := fallback_singles start count fc w1 in
      match fb with
      | Some (ws, failed) =>
          (Some {| br_start := start; br_words := ws; br_failed := failed |},
           record_now true (mr_elapsed r) w2 p, w2)
      | None => (None, record_now false (mr_elapsed r) w2 p, w2)
      end
  end.

Fixpoint poll_batches (fc : Z) (bs : list (Z * Z)) (p : Poller) (w : W)
    : list batch_result * Poller * W :=
  match bs with
  | [] => ([], p, w)
  | b :: bs' =>
      let '(res, p1, w1) := poll_batch fc b p w in
      let '(results, p2, w2) := poll_batches fc bs' p1 w1 in
      (match res with Some br => br :: results | None => results end, p2, w2)
  end.
End poll.

(** *** Decode *)

(** The register lies inside the words of the batch. *)
Definition in_result (reg : RegisterDef) (br : batch_result) : bool :=
  (br_start br <=? r_addr reg) &&
  (r_addr reg + r_words reg <=? br_start br + Z.of_nat (length (br_words br))).

Definition reg_offset (reg : RegisterDef) (br : batch_result) : nat :=
  Z.to_nat (r_addr reg - br_start br).

(** Some word of the register failed even after the fan-out. *)
Definition offsets_failed (reg : RegisterDef) (br : batch_result) : bool :=
  existsb (fun o => bool_decide (o ∈ br_failed br))
    (seq (reg_offset reg br) (Z.to_nat (r_words reg))).

Definition reg_slice (reg : RegisterDef) (br : batch_result) : list Z :=
  take (Z.to_nat (r_words reg)) (drop (reg_offset reg br) (br_words br)).

(** The decode of a register from the first batch that contains it, if that
    batch read all of its words. *)
Definition fresh_decode (results : list batch_result) (reg : RegisterDef) : option pynum :=
  match List.find (in_result reg) results with
  | None => None
  | Some br => if offsets_failed reg br then None else decode_value reg (reg_slice reg br)
  end.

Definition decode_step (results : list batch_result) (mono_now : Z)
    (va : gmap string pynum * gmap string Z) (reg : RegisterDef)
    : gmap string pynum * gmap string Z :=
  match fresh_decode results reg with
  | Some v => (<[r_name reg := v]> (fst va), <[r_name reg := mono_now]> (snd va))
  | None => va
  end.

(** *** Eviction *)

Definition tier_cadence (rm : RegisterMap) (t : string) : Z :=
  msec (if (t =? "prime")%string then rm_prime_poll_ms rm else rm_base_poll_ms rm).
Definition stale_threshold (rm : RegisterMap) (t : string) : Z :=
  tier_cadence rm t * TIER_STALE_MULTIPLIER.

Definition evict_step (threshold mono_now : Z)
    (va : gmap string pynum * gmap string Z) (reg : RegisterDef)
    : gmap string pynum * gmap string Z :=
  match snd va !! r_name reg with
  | None => va
  | Some age_ts => if threshold <=? mono_now - age_ts
                   then (delete (r_name reg) (fst va), delete (r_name reg) (snd va))
                   else va
  end.

Definition decode_and_evict (rm : RegisterMap) (t : string) (results : list batch_result)
    (mono_now : Z) (reading : Reading) : gmap string pynum * gmap string Z :=
  let regs := tier rm t in
  foldl (evict_step (stale_threshold rm t) mono_now)
    (foldl (decode_step results mono_now) (rd_values reading, rd_value_ages reading) regs)
    regs.

(** *** Heartbeat *)

(** Every register the engine-state rules read was decoded in this cycle; without
    such rules, any batch that was read counts. *)
Definition state_fresh (rm : RegisterMap) (ages : gmap string Z) (mono_now : Z)
    (any_batch_ok : bool) : bool :=
  match rm_engine_state_bits rm with
  | [] => any_batch_ok
  | rules => forallb (fun rule => bool_decide (ages !! sb_register rule = Some mono_now)) rules
  end.

Definition stamp_heartbeat (mono : Z) (h : CommsHealth) : CommsHealth :=
  {| ch_state := ch_state h; ch_success_pct := ch_success_pct h;
     ch_last_good_at := ch_last_good_at h; ch_last_attempt_at := ch_last_attempt_at h;
     ch_rate_ms := ch_rate_ms h; ch_p95_latency_ms := ch_p95_latency_ms h;
     ch_consecutive_failures := ch_consecutive_failures h;
     ch_consecutive_successes := ch_consecutive_successes h;
     ch_last_prime_good_monotonic := Some mono |}.

Section poll_tier.
Context {W : Type} `{ModbusClient W} `{Clock W}.

Definition tier_batches (t : string) (p : Poller) : list (Z * Z) :=
  if (t =? "prime")%string then p_prime_batches p else p_base_batches p.

(** [_poll_tier] up to the callback; [false] when the tier has no batch and the
    callback is not called. *)
Definition poll_tier (t : string) (p : Poller) (w : W) : bool * Poller * W :=
  let rm := p_regmap p in
  match tier_batches t p with
  | [] => (false, p, w)
  | batches =>
      let '(results, p1, w1) := poll_batches (rm_read_fc rm) batches p w in
      let mono_now := mono_clock w1 in
      let '(values, ages) := decode_and_evict rm t results mono_now (p_reading p1) in
      let p2 := with_reading {| rd_values := values; rd_ts := wall_clock w1;
                                rd_value_ages := ages |} p1 in
      let any_batch_ok := match results with [] => false | _ => true end in
      let p3 := if (t =? "prime")%string && state_fresh rm ages mono_now any_batch_ok
                then with_health (stamp_heartbeat (mono_clock w1) (p_health p2)) p2
                else p2 in
      (true, p3, w1)
  end.
End poll_tier.
