(* ===== verification/PollerFacts.v ===== *)
(** * Poller theorems

    The health window and its state machine, the values a poll leaves behind
    (fresh decode, bounded staleness, no decode of unread words), the heartbeat
    and the single health sample per batch. *)

From S2P Require Import Prelude PyNum Registers Client Poller.

Local Open Scope Z_scope.

(** ** The health window *)

Lemma count_ok_bounds l : 0 <= count_ok l <= Z.of_nat (length l).
Proof. unfold count_ok. pose proof (filter_length_le (fun b : bool => b) l). lia. Qed.

Lemma round_half_even_le n d k : n <= k * Zpos d -> round_half_even n d <= k.
Proof.
  intros Hn. unfold round_half_even.
  pose proof (Z.div_mod n (Zpos d) ltac:(lia)). pose proof (Z.mod_pos_bound n (Zpos d) ltac:(lia)).
  destruct (Z.compare_spec (2 * (n mod Zpos d)) (Zpos d)); [destruct (Z.even _)| |]; nia.
Qed.

Lemma round_half_even_nonneg n d : 0 <= n -> 0 <= round_half_even n d.
Proof.
  intros Hn. pose proof (round_half_even_bounds n d). pose proof (Z.div_pos n (Zpos d)). lia.
Qed.

Lemma success_pct_bounds l : l <> [] -> 0 <= success_pct_of l <= 1000.
Proof.
  intros Hl. unfold success_pct_of. pose proof (count_ok_bounds l). split.
  - apply round_half_even_nonneg. lia.
  - apply round_half_even_le. destruct l; [done|].
    rewrite <- (positive_nat_Z (Pos.of_nat _)), Nat2Pos.id by (simpl; lia). lia.
Qed.

(** The rounding to a tenth never moves a window across the 95% threshold. *)
Lemma success_pct_threshold l :
  l <> [] -> (length l <= RESULTS_MAXLEN)%nat ->
  success_pct_of l < 950 <-> 100 * count_ok l < 95 * Z.of_nat (length l).
Proof.
  intros Hl Hlen. unfold success_pct_of, RESULTS_MAXLEN in *.
  pose proof (count_ok_bounds l) as Hc. set (c := count_ok l) in *.
  assert (Zpos (Pos.of_nat (length l)) = Z.of_nat (length l)) as Hd.
  { destruct l; [done|]. rewrite <- (positive_nat_Z (Pos.of_nat _)), Nat2Pos.id by (simpl; lia). done. }
  pose proof (round_half_even_error (1000 * c) (Pos.of_nat (length l))) as He.
  rewrite Hd in He. set (n := Z.of_nat (length l)) in *.
  set (q := round_half_even _ _) in *. assert (0 < n <= 60) by (destruct l; simpl in *; [done|lia]).
  split; intros Hlt; nia.
Qed.

(** The nearest-rank index of the full window, computed in floating point as the
    source does, is [floor (0.95 * (n - 1))] and so inside the window. *)
Lemma p95_index_exact n :
  (5 <= n <= RESULTS_MAXLEN)%nat -> p95_index n = (95 * (n - 1) / 100)%nat /\ (p95_index n < n)%nat.
Proof.
  intros Hn.
  assert (forallb (fun k => (p95_index k =? 95 * (k - 1) / 100)%nat && (p95_index k <? k)%nat)
            (seq 5 56) = true) as Hall by (vm_compute; reflexivity).
  rewrite forallb_forall in Hall. unfold RESULTS_MAXLEN in Hn.
  specialize (Hall n ltac:(apply in_seq; lia)). apply andb_prop in Hall as [H1 H2].
  apply Nat.eqb_eq in H1. apply Nat.ltb_lt in H2. done.
Qed.

(** ** The comms state machine *)

(** The well-formed health of a poller. *)
Record health_inv (p : Poller) : Prop := {
  hi_failures : 0 <= ch_consecutive_failures (p_health p);
  hi_successes : 0 <= ch_consecutive_successes (p_health p);
  hi_exclusive : 0 < ch_consecutive_failures (p_health p) -> ch_consecutive_successes (p_health p) = 0;
  hi_pct : 0 <= ch_success_pct (p_health p) <= 1000;
  hi_lost : ch_state (p_health p) = "lost"%string <-> 3 <= ch_consecutive_failures (p_health p);
  hi_states : ch_state (p_health p) ∈ ["healthy"; "degraded"; "lost"]%string;
  hi_window : (length (p_results p) <= RESULTS_MAXLEN)%nat;
  hi_latencies : (length (p_latencies p) <= RESULTS_MAXLEN)%nat;
  hi_episodes : (length (p_lost_episodes p) <= EPISODES_MAXLEN)%nat
}.

Lemma classify_lost h ep now : classify h ep now = "lost"%string <-> 3 <= ch_consecutive_failures h.
Proof. unfold classify. repeat case_match; breflect; split; intros; (done || lia). Qed.

Lemma classify_states h ep now : classify h ep now ∈ ["healthy"; "degraded"; "lost"]%string.
Proof. unfold classify. repeat case_match; set_solver. Qed.

(** Fast recovery needs the streak and a link that is not flapping; otherwise the
    window must hold 95% with no failure pending. *)
Lemma classify_healthy h ep now :
  classify h ep now = "healthy"%string ->
  ch_consecutive_failures h < 3 /\
  ((HEALTHY_RECOVERY_STREAK <= ch_consecutive_successes h /\ recent_flaps ep now < FLAP_MAX_EPISODES) \/
   (950 <= ch_success_pct h /\ ch_consecutive_failures h < 1)).
Proof.
  unfold classify. repeat case_match; breflect; try done; intros _; naive_solver lia.
Qed.

Lemma health_inv_init rm now : health_inv (Poller_init rm now).
Proof. constructor; simpl; try lia; try done; set_solver. Qed.

Lemma record_state ok el wall mono p :
  ch_state (p_health (record ok el wall mono p)) =
  classify (p_health (record ok el wall mono p)) (p_lost_episodes p) mono.
Proof. reflexivity. Qed.

Lemma record_inv ok el wall mono p : health_inv p -> health_inv (record ok el wall mono p).
Proof.
  intros [Hf Hs Hx Hp Hl Hst Hw Hla He]. constructor.
  - simpl. destruct ok; lia.
  - simpl. destruct ok; lia.
  - simpl. destruct ok; lia.
  - apply success_pct_bounds. simpl. intros E.
    pose proof (deque_push_length RESULTS_MAXLEN ok (p_results p)) as L. rewrite E in L. done.
  - rewrite record_state. apply classify_lost.
  - rewrite record_state. apply classify_states.
  - apply deque_push_bound.
  - simpl. case_match; [done|apply deque_push_bound].
  - cbn -[classify]. case_match; [apply deque_push_bound|done].
Qed.

Lemma watchdog_inv mono m2 p : health_inv p -> health_inv (watchdog_tick mono m2 p).
Proof.
  intros Hinv. unfold watchdog_tick. repeat case_match; try done.
  destruct Hinv as [Hf Hs Hx Hp Hl Hst Hw Hla He].
  constructor; cbn -[deque_push]; try lia; try done; try (by split; intros; (done || lia)).
  - set_solver.
  - apply deque_push_bound.
Qed.

Lemma apply_regmap_inv rm p : health_inv p -> health_inv (poller_apply_regmap rm p).
Proof. intros [Hf Hs Hx Hp Hl Hst Hw Hla He]. by constructor. Qed.

(** *** Histories of samples *)

Record sample : Type := { s_ok : bool; s_elapsed : Z; s_wall : Z; s_mono : Z }.
Definition record_sample (p : Poller) (s : sample) : Poller :=
  record (s_ok s) (s_elapsed s) (s_wall s) (s_mono s) p.

(** Length of the run of [b] at the end of a history (given newest first). *)
Fixpoint run_length (b : bool) (newest_first : list bool) : Z :=
  match newest_first with
  | [] => 0
  | x :: rest => if Bool.eqb x b then 1 + run_length b rest else 0
  end.

(** C20. From a fresh poller, after any history of samples the streak counters are the
    trailing runs, the window is the last 60 samples, the percentage is the window's, and
    the link is lost exactly when the last three samples failed. *)
Theorem health_history rm now0 ss :
  let p := foldl record_sample (Poller_init rm now0) ss in
  let oks := map s_ok ss in
  ch_consecutive_failures (p_health p) = run_length false (rev oks) /\
  ch_consecutive_successes (p_health p) = run_length true (rev oks) /\
  p_results p = drop (length oks - RESULTS_MAXLEN) oks /\
  (ss <> [] -> ch_success_pct (p_health p) = success_pct_of (p_results p)) /\
  (ch_state (p_health p) = "lost"%string <-> 3 <= run_length false (rev oks)).
Proof.
  cbv zeta. induction ss as [|s ss IH] using rev_ind; [simpl; split_and!; try done; lia|].
  destruct IH as (Hf & Hs & Hr & _ & _).
  rewrite foldl_app, map_app, rev_app_distr. cbn [foldl map rev app].
  set (p := foldl record_sample (Poller_init rm now0) ss) in *.
  set (oks := map s_ok ss) in *.
  assert (ch_consecutive_failures (p_health (record_sample p s)) =
          run_length false (s_ok s :: rev oks)) as Hf'.
  { cbn -[classify]. rewrite Hf. destruct (s_ok s); simpl; lia. }
  split_and!.
  - exact Hf'.
  - cbn -[classify]. rewrite Hs. destruct (s_ok s); simpl; lia.
  - cbn -[classify deque_push]. rewrite Hr. apply deque_push_history.
  - done.
  - unfold record_sample at 1. rewrite record_state, classify_lost. fold (record_sample p s). by rewrite Hf'.
Qed.

(** *** Recovery *)

Lemma ok_run ss p :
  Forall (fun s => s_ok s = true) ss -> ss <> [] ->
  let p' := foldl record_sample p ss in
  ch_consecutive_failures (p_health p') = 0 /\
  ch_consecutive_successes (p_health p') =
    ch_consecutive_successes (p_health p) + Z.of_nat (length ss) /\
  p_lost_episodes p' = p_lost_episodes p.
Proof.
  cbv zeta. induction ss as [|s ss IH] using rev_ind; [done|]. intros Hall _.
  apply Forall_app in Hall as [Hall Hs]. apply Forall_cons_1 in Hs as [Hs _].
  rewrite foldl_app, length_app. cbn [foldl length].
  set (q := foldl record_sample p ss) in *.
  assert (ch_consecutive_successes (p_health q) =
            ch_consecutive_successes (p_health p) + Z.of_nat (length ss) /\
          p_lost_episodes q = p_lost_episodes p) as [Hcs Hep].
  { destruct ss as [|s0 ss']; [unfold q; split; [cbn; lia|done]|]. by apply IH. }
  assert (ch_consecutive_failures (p_health (record_sample q s)) = 0) as Hcf.
  { cbn -[classify]. by rewrite Hs. }
  split_and!; [done| |].
  - cbn -[classify]. rewrite Hs, Hcs. lia.
  - cbn -[classify deque_push]. rewrite <- Hep. case_match eqn:E; [|done].
    apply andb_prop in E as [_ E]. apply String.eqb_eq, classify_lost in E.
    simpl in E. rewrite Hs in E. lia.
Qed.

(** After five or more good samples in a row the link is healthy, unless it went
    lost at least twice in the flap window: then it is healthy exactly when the window is
    back at 95%. *)
Theorem recovery ss s p :
  health_inv p -> Forall (fun s => s_ok s = true) (ss ++ [s]) ->
  HEALTHY_RECOVERY_STREAK <= Z.of_nat (length (ss ++ [s])) ->
  let p' := foldl record_sample p (ss ++ [s]) in
  let flaps := recent_flaps (p_lost_episodes p) (s_mono s) in
  (flaps < FLAP_MAX_EPISODES -> ch_state (p_health p') = "healthy"%string) /\
  (FLAP_MAX_EPISODES <= flaps ->
   ch_state (p_health p') = "healthy"%string <-> 950 <= ch_success_pct (p_health p')).
Proof.
  intros Hinv Hall Hlen p' flaps.
  destruct (ok_run (ss ++ [s]) p Hall ltac:(by destruct ss)) as (Hcf & Hcs & _).
  fold p' in Hcf, Hcs. pose proof (hi_successes _ Hinv).
  apply Forall_app in Hall as [Hall0 _].
  assert (p_lost_episodes (foldl record_sample p ss) = p_lost_episodes p) as Hep.
  { destruct ss; [done|]. by apply ok_run. }
  assert (ch_state (p_health p') = classify (p_health p') (p_lost_episodes p) (s_mono s)) as Hst.
  { rewrite <- Hep. unfold p'. rewrite foldl_app. reflexivity. }
  rewrite Hst. unfold classify. fold flaps.
  rewrite (proj2 (Z.leb_gt 3 _)) by lia. rewrite (proj2 (Z.leb_gt 1 _)) by lia.
  rewrite (proj2 (Z.leb_le HEALTHY_RECOVERY_STREAK _)) by lia. simpl. rewrite orb_false_r.
  split; intros Hfl.
  - by rewrite (proj2 (Z.ltb_lt _ _)) by done.
  - rewrite (proj2 (Z.ltb_ge flaps _)) by done.
    destruct (Z.ltb_spec (ch_success_pct (p_health p')) 950); split; (done || lia).
Qed.

(** The watchdog's lost verdict is undone by a single good sample whenever the
    window is at 95%: no streak is rebuilt and the flap gate is not consulted. *)
Theorem watchdog_lost_undone_by_one_success p mono m2 s :
  s_ok s = true -> 950 <= success_pct_of (deque_push RESULTS_MAXLEN true (p_results p)) ->
  ch_state (p_health (watchdog_tick mono m2 p)) = "lost"%string ->
  ch_state (p_health (record_sample (watchdog_tick mono m2 p) s)) = "healthy"%string.
Proof.
  intros Hs Hpct Hlost. unfold record_sample. rewrite record_state, Hs.
  assert (p_results (watchdog_tick mono m2 p) = p_results p) as Hres.
  { unfold watchdog_tick. by repeat case_match. }
  unfold classify. cbn -[deque_push success_pct_of recent_flaps].
  rewrite Hres, (proj2 (Z.ltb_ge _ 950) Hpct). by case_match.
Qed.

(** ** One health sample per batch *)

Section poll_facts.
Context {W : Type} `{ModbusClientLaws W} `{Clock W}.

(** The fan-out over [left] offsets from [offset] on: every offset has a word,
    the failed ones lie in the range, and [any] tells whether one was read. *)
Definition fan_ok (offset left : nat) (words : list Z) (failed : gset nat) (any : bool) : Prop :=
  length words = left /\
  (forall o, o ∈ failed -> (offset <= o < offset + left)%nat) /\
  (any = true <-> exists o, (offset <= o < offset + left)%nat /\ o ∉ failed).

Lemma fan_ok_read offset left x words failed any :
  fan_ok (S offset) left words failed any -> fan_ok offset (S left) (x :: words) failed true.
Proof.
  intros (Hl & Hfl & _). split_and!; [simpl; lia|intros o Ho%Hfl; lia|].
  split; [intros _|done]. exists offset. split; [lia|]. intros Ho%Hfl. lia.
Qed.

Lemma fan_ok_failed offset left words failed any :
  fan_ok (S offset) left words failed any ->
  fan_ok offset (S left) (0 :: words) ({[ offset ]} ∪ failed) any.
Proof.
  intros (Hl & Hfl & Han). split_and!; [simpl; lia| |].
  - intros o [->%elem_of_singleton|Ho%Hfl]%elem_of_union; lia.
  - rewrite Han. split; intros (o & Ho & Hn); exists o.
    + split; [lia|]. rewrite elem_of_union, elem_of_singleton. intros [->|]; [lia|done].
    + rewrite elem_of_union, elem_of_singleton in Hn. split; [|tauto].
      assert (o <> offset) by tauto. lia.
Qed.

Lemma fallback_loop_spec start fc left offset w words failed any w' :
  fallback_loop start fc left offset w = ((words, failed, any), w') ->
  fan_ok offset left words failed any.
Proof.
  revert offset w w' words failed any. induction left as [|left IH];
    intros offset w w' words failed any; cbn [fallback_loop].
  { intros [= <- <- <- _]. split_and!; [done|set_solver|].
    split; [done|intros (o & Ho & _); lia]. }
  destruct (mc_read _ 1 fc w) as [r w1].
  destruct (fallback_loop start fc left (S offset) w1) as [[[ws fl] an] w2] eqn:E.
  apply IH in E. destruct (mr_ok r); [destruct (mr_words r) as [[|x rest]|]|].
  - intros [= <- <- <- _]. by apply fan_ok_failed.
  - intros [= <- <- <- _]. by eapply fan_ok_read.
  - intros [= <- <- <- _]. by apply fan_ok_failed.
  - intros [= <- <- <- _]. by apply fan_ok_failed.
Qed.

(** A batch result covers its batch; a failed offset lies inside it and at least
    one word was read. *)
Definition result_ok (b : Z * Z) (br : batch_result) : Prop :=
  br_start br = fst b /\ length (br_words br) = Z.to_nat (snd b) /\
  (forall o, o ∈ br_failed br -> (o < Z.to_nat (snd b))%nat) /\
  (br_failed br = ∅ \/ exists o, (o < Z.to_nat (snd b))%nat /\ o ∉ br_failed br).

Lemma poll_batch_spec fc b p w res p' w' :
  0 <= snd b -> poll_batch fc b p w = (res, p', w') ->
  (exists el wl m, p' = record (match res with Some _ => true | None => false end) el wl m p) /\
  (forall br, res = Some br -> result_ok b br).
Proof.
  intros Hb. destruct b as [start count]. unfold poll_batch, record_now. simpl in Hb.
  destruct (mc_read start count fc w) as [r w1] eqn:Er.
  assert (forall ws, mr_ok r = true -> mr_words r = Some ws -> length ws = Z.to_nat count) as Hlen.
  { intros ws Hok Hw. destruct (mc_read_ok _ _ _ _ _ _ Er Hok) as (ws' & E & L).
    rewrite Hw in E. injection E as <-. lia. }
  destruct (mr_ok r) eqn:Hok, (mr_words r) as [ws|] eqn:Hws;
    [intros [= <- <- <-]; split; [by do 3 eexists|intros br [= <-]];
     unfold result_ok; cbn; split_and!; [done|by apply Hlen|set_solver|by left]|..].
  all: unfold fallback_singles;
    destruct (fallback_loop start fc (Z.to_nat count) 0 w1) as [[[fws fl] an] w2] eqn:Ef;
    destruct (fallback_loop_spec _ _ _ _ _ _ _ _ _ Ef) as (Hl & Hfl & Han);
    destruct an; intros [= <- <- <-]; (split; [by do 3 eexists|]); intros br [= <-].
  all: unfold result_ok; cbn; split_and!; [done|done|intros o Ho%Hfl; lia|right];
    destruct (proj1 Han eq_refl) as (o & Ho & Hn); exists o; split; [lia|done].
Qed.

(** Polling the batches records exactly one sample per batch, successful exactly
    when the batch yields a result. *)
Lemma poll_batches_spec fc bs p w results p' w' :
  Forall (fun b => 0 <= snd b) bs -> poll_batches fc bs p w = (results, p', w') ->
  exists ss, p' = foldl record_sample p ss /\ length ss = length bs /\
    length results = length (List.filter s_ok ss) /\
    Forall (fun br => exists b, b ∈ bs /\ result_ok b br) results.
Proof.
  revert p w results. induction bs as [|b bs IH]; intros p w results; cbn [poll_batches].
  { intros _ [= <- <- <-]. exists []. split_and!; done. }
  intros [Hb Hbs]%Forall_cons.
  destruct (poll_batch fc b p w) as [[res p1] w1] eqn:Eb.
  destruct (poll_batches fc bs p1 w1) as [[results0 p2] w2] eqn:Ebs.
  intros [= <- <- <-].
  destruct (poll_batch_spec _ _ _ _ _ _ _ Hb Eb) as ((el & wl & m & ->) & Hres).
  destruct (IH _ _ _ Hbs Ebs) as (ss & -> & Hl & Hr & Hall).
  exists ({| s_ok := match res with Some _ => true | None => false end;
             s_elapsed := el; s_wall := wl; s_mono := m |} :: ss).
  split_and!; [done|simpl; lia| |].
  - destruct res; simpl; lia.
  - assert (Forall (fun br => exists b', b' ∈ b :: bs /\ result_ok b' br) results0) as Hall'.
    { eapply Forall_impl; [exact Hall|]. intros br (b' & Hb' & Hok).
      exists b'. split; [by right|done]. }
    destruct res as [br|]; [|done]. constructor; [|done].
    exists b. split; [by left|by apply Hres].
Qed.
End poll_facts.

(** ** The values a poll leaves behind *)

Section decode_facts.
Context (results : list batch_result) (now : Z).
Implicit Types (va : gmap string pynum * gmap string Z) (regs : list RegisterDef).

Lemma decode_step_other va reg n :
  r_name reg <> n ->
  fst (decode_step results now va reg) !! n = fst va !! n /\
  snd (decode_step results now va reg) !! n = snd va !! n.
Proof. intros. unfold decode_step. case_match; [|done]. cbn. by simplify_map_eq. Qed.

Lemma decode_fold_notin regs va n :
  n ∉ map r_name regs ->
  fst (foldl (decode_step results now) va regs) !! n = fst va !! n /\
  snd (foldl (decode_step results now) va regs) !! n = snd va !! n.
Proof.
  revert va. induction regs as [|r regs IH]; intros va Hn; [done|].
  cbn in Hn |- *. apply not_elem_of_cons in Hn as [Hne Hn].
  destruct (IH (decode_step results now va r) Hn) as [-> ->].
  by apply decode_step_other.
Qed.

Lemma decode_fold_in regs va reg :
  NoDup (map r_name regs) -> reg ∈ regs ->
  fst (foldl (decode_step results now) va regs) !! r_name reg =
    match fresh_decode results reg with Some v => Some v | None => fst va !! r_name reg end /\
  snd (foldl (decode_step results now) va regs) !! r_name reg =
    match fresh_decode results reg with Some _ => Some now | None => snd va !! r_name reg end.
Proof.
  revert va. induction regs as [|r regs IH]; intros va Hnd Hin; [by apply elem_of_nil in Hin|].
  cbn in Hnd |- *. apply NoDup_cons in Hnd as [Hr Hnd].
  apply elem_of_cons in Hin as [->|Hin].
  - destruct (decode_fold_notin regs (decode_step results now va r) (r_name r) Hr) as [-> ->].
    unfold decode_step. case_match; [|done]. cbn. by simplify_map_eq.
  - destruct (IH (decode_step results now va r) Hnd Hin) as [-> ->].
    destruct (decode_step_other va r (r_name reg)) as [-> ->]; [|done].
    intros E. apply Hr. rewrite E. by apply list_elem_of_fmap_2.
Qed.

Context (threshold : Z).

(** An age too old for its tier. *)
Definition stale (age : option Z) : bool :=
  match age with Some a => threshold <=? now - a | None => false end.

Lemma evict_step_other va reg n :
  r_name reg <> n ->
  fst (evict_step threshold now va reg) !! n = fst va !! n /\
  snd (evict_step threshold now va reg) !! n = snd va !! n.
Proof. intros. unfold evict_step. repeat case_match; try done. cbn. by simplify_map_eq. Qed.

Lemma evict_fold_notin regs va n :
  n ∉ map r_name regs ->
  fst (foldl (evict_step threshold now) va regs) !! n = fst va !! n /\
  snd (foldl (evict_step threshold now) va regs) !! n = snd va !! n.
Proof.
  revert va. induction regs as [|r regs IH]; intros va Hn; [done|].
  cbn in Hn |- *. apply not_elem_of_cons in Hn as [Hne Hn].
  destruct (IH (evict_step threshold now va r) Hn) as [-> ->].
  by apply evict_step_other.
Qed.

Lemma evict_step_at va reg :
  fst (evict_step threshold now va reg) !! r_name reg =
    (if stale (snd va !! r_name reg) then None else fst va !! r_name reg) /\
  snd (evict_step threshold now va reg) !! r_name reg =
    (if stale (snd va !! r_name reg) then None else snd va !! r_name reg).
Proof.
  unfold evict_step, stale. destruct (snd va !! r_name reg) as [a|] eqn:E; [|by rewrite E].
  case_match; cbn; simplify_map_eq; done.
Qed.

Lemma evict_fold_in regs va n :
  n ∈ map r_name regs ->
  fst (foldl (evict_step threshold now) va regs) !! n =
    (if stale (snd va !! n) then None else fst va !! n) /\
  snd (foldl (evict_step threshold now) va regs) !! n =
    (if stale (snd va !! n) then None else snd va !! n).
Proof.
  revert va. induction regs as [|r regs IH]; intros va Hin; [by apply elem_of_nil in Hin|].
  cbn [foldl map] in *.
  assert (fst (evict_step threshold now va r) !! n =
            (if decide (r_name r = n) then if stale (snd va !! n) then None else fst va !! n
             else fst va !! n) /\
          snd (evict_step threshold now va r) !! n =
            (if decide (r_name r = n) then if stale (snd va !! n) then None else snd va !! n
             else snd va !! n)) as [Hf Hs].
  { case_decide as E; [subst n; apply evict_step_at|by apply evict_step_other]. }
  destruct (decide (n ∈ map r_name regs)) as [Hn|Hn].
  - destruct (IH (evict_step threshold now va r) Hn) as [-> ->]. rewrite Hf, Hs.
    case_decide; [|done].
    destruct (stale (snd va !! n)) eqn:E; [split; reflexivity|by rewrite E].
  - destruct (evict_fold_notin regs (evict_step threshold now va r) n Hn) as [-> ->].
    apply elem_of_cons in Hin as [->|?]; [|by destruct Hn].
    by rewrite Hf, Hs, !decide_True.
Qed.
End decode_facts.

Lemma NoDup_tier_names rm t :
  NoDup (map r_name (rm_registers rm)) -> NoDup (map r_name (tier rm t)).
Proof.
  unfold tier. induction (rm_registers rm) as [|r rs IH]; [done|]. cbn.
  intros [Hr Hnd]%NoDup_cons. case_match; [|by apply IH].
  cbn. apply NoDup_cons. split; [|by apply IH].
  intros Hin. apply Hr. apply list_elem_of_In, in_map_iff in Hin as (x & <- & Hx).
  apply filter_In in Hx as [Hx _]. apply list_elem_of_In. by apply in_map.
Qed.

(** The reading of one register after a tier poll. *)
Lemma tier_reading rm t results now reading reg :
  NoDup (map r_name (rm_registers rm)) -> 0 < stale_threshold rm t ->
  reg ∈ rm_registers rm ->
  let va := decode_and_evict rm t results now reading in
  let n := r_name reg in
  (fst va !! n, snd va !! n) =
  if (r_tier reg =? t)%string then
    match fresh_decode results reg with
    | Some v => (Some v, Some now)
    | None => if stale now (stale_threshold rm t) (rd_value_ages reading !! n)
              then (None, None)
              else (rd_values reading !! n, rd_value_ages reading !! n)
    end
  else (rd_values reading !! n, rd_value_ages reading !! n).
Proof.
  intros Hnd Hthr Hreg. cbv zeta. pose proof (NoDup_tier_names _ t Hnd) as Htn.
  unfold decode_and_evict. cbv zeta.
  set (va0 := (rd_values reading, rd_value_ages reading)).
  destruct (String.eqb_spec (r_tier reg) t) as [Ht|Ht].
  - assert (reg ∈ tier rm t) as Hin by (apply elem_of_tier; done).
    destruct (evict_fold_in now (stale_threshold rm t) (tier rm t)
                (foldl (decode_step results now) va0 (tier rm t)) (r_name reg)) as [-> ->].
    { by apply list_elem_of_fmap_2. }
    destruct (decode_fold_in results now (tier rm t) va0 reg Htn Hin) as [-> ->].
    unfold va0. cbn [fst snd]. destruct (fresh_decode results reg) as [v|].
    + cbn. by rewrite (proj2 (Z.leb_gt _ _)) by lia.
    + by case_match.
  - assert (r_name reg ∉ map r_name (tier rm t)) as Hn.
    { intros Hin. apply list_elem_of_In, in_map_iff in Hin as (r & Er & Hr).
      apply list_elem_of_In, elem_of_tier in Hr as [Hr Hrt].
      by rewrite (NoDup_map_inj r_name _ r reg Hnd Hr Hreg Er) in Hrt. }
    destruct (evict_fold_notin now (stale_threshold rm t) (tier rm t)
                (foldl (decode_step results now) va0 (tier rm t)) _ Hn) as [-> ->].
    by destruct (decode_fold_notin results now (tier rm t) va0 _ Hn) as [-> ->].
Qed.

(** A register outside the tier's names keeps its age. *)
Lemma tier_age_other rm t results now reading n :
  n ∉ map r_name (tier rm t) ->
  snd (decode_and_evict rm t results now reading) !! n = rd_value_ages reading !! n.
Proof.
  intros Hn. unfold decode_and_evict. cbv zeta.
  destruct (evict_fold_notin now (stale_threshold rm t) (tier rm t)
    (foldl (decode_step results now) (rd_values reading, rd_value_ages reading) (tier rm t)) n Hn) as [_ ->].
  by destruct (decode_fold_notin results now (tier rm t) (rd_values reading, rd_value_ages reading) n Hn) as [_ ->].
Qed.

(** The ages that are now are those of the registers of the tier that were decoded. *)
Lemma aged_now rm t results now reading n :
  NoDup (map r_name (rm_registers rm)) -> 0 < stale_threshold rm t ->
  (forall x a, rd_value_ages reading !! x = Some a -> a < now) ->
  snd (decode_and_evict rm t results now reading) !! n = Some now <->
  exists reg, reg ∈ rm_registers rm /\ r_name reg = n /\ r_tier reg = t /\ exists v, fresh_decode results reg = Some v.
Proof.
  intros Hnd Hthr Hold.
  assert (rd_value_ages reading !! n <> Some now) as Hne by (intros E%Hold; lia).
  split.
  - intros Hage. destruct (decide (n ∈ map r_name (tier rm t))) as [Hin|Hn]; [|by rewrite tier_age_other in Hage].
    apply list_elem_of_fmap in Hin as (reg & -> & [Hreg Ht]%elem_of_tier). exists reg. split_and!; [done..|].
    pose proof (f_equal snd (tier_reading rm t results now reading reg Hnd Hthr Hreg)) as E.
    rewrite (proj2 (String.eqb_eq _ _) Ht) in E. cbn [snd] in E. rewrite Hage in E.
    destruct (fresh_decode results reg) as [v|]; [by exists v|]. by case_match.
  - intros (reg & Hreg & <- & Ht & v & Hv).
    pose proof (f_equal snd (tier_reading rm t results now reading reg Hnd Hthr Hreg)) as E.
    rewrite (proj2 (String.eqb_eq _ _) Ht), Hv in E. exact E.
Qed.

(** C19. After a tier poll a register of the tier holds its fresh decode stamped with
    this cycle, else its previous value unless that is three cadences old, in which case
    value and age are both gone; other tiers' values are untouched. *)
Theorem decode_and_evict_spec rm t results now reading reg :
  NoDup (map r_name (rm_registers rm)) -> 0 < stale_threshold rm t ->
  reg ∈ rm_registers rm ->
  let va := decode_and_evict rm t results now reading in
  let n := r_name reg in
  (fst va !! n, snd va !! n) =
  if (r_tier reg =? t)%string then
    match fresh_decode results reg with
    | Some v => (Some v, Some now)
    | None => if stale now (stale_threshold rm t) (rd_value_ages reading !! n)
              then (None, None)
              else (rd_values reading !! n, rd_value_ages reading !! n)
    end
  else (rd_values reading !! n, rd_value_ages reading !! n).
Proof. apply tier_reading. Qed.

(** Values and ages go together, and no value of the polled tier is three cadences old. *)
Definition reading_ok (r : Reading) : Prop := dom (rd_values r) = dom (rd_value_ages r).

Lemma decode_fold_dom results now regs va :
  dom (fst va) = dom (snd va) ->
  dom (fst (foldl (decode_step results now) va regs)) =
  dom (snd (foldl (decode_step results now) va regs)).
Proof.
  revert va. induction regs as [|r regs IH]; intros va Hd; [done|]. cbn. apply IH.
  unfold decode_step. case_match; [|done]. cbn. by rewrite !dom_insert_L, Hd.
Qed.

Lemma evict_fold_dom thr now regs va :
  dom (fst va) = dom (snd va) ->
  dom (fst (foldl (evict_step thr now) va regs)) = dom (snd (foldl (evict_step thr now) va regs)).
Proof.
  revert va. induction regs as [|r regs IH]; intros va Hd; [done|]. cbn. apply IH.
  unfold evict_step. repeat case_match; try done. cbn. by rewrite !dom_delete_L, Hd.
Qed.

Section poll_tier_facts.
Context {W : Type} `{ModbusClientLaws W} `{Clock W}.

Lemma record_samples_heartbeat ss p :
  ch_last_prime_good_monotonic (p_health (foldl record_sample p ss)) = ch_last_prime_good_monotonic (p_health p).
Proof. induction ss as [|s ss IH] using rev_ind; [done|]. rewrite foldl_app. exact IH. Qed.

(** The freshness test, by what was decoded. *)
Lemma state_fresh_spec rm results now reading :
  NoDup (map r_name (rm_registers rm)) -> 0 < stale_threshold rm "prime" ->
  (forall x a, rd_value_ages reading !! x = Some a -> a < now) ->
  state_fresh rm (snd (decode_and_evict rm "prime" results now reading)) now
    (match results with [] => false | _ => true end) = true <->
  (rm_engine_state_bits rm = [] -> results <> []) /\
  (forall rule, rule ∈ rm_engine_state_bits rm -> exists reg, reg ∈ rm_registers rm /\
     r_name reg = sb_register rule /\ r_tier reg = "prime"%string /\ exists v, fresh_decode results reg = Some v).
Proof.
  intros Hnd Hthr Hold. unfold state_fresh. destruct (rm_engine_state_bits rm) as [|r0 rules] eqn:Er.
  - split; [|intros [Hr _]; by destruct results; [destruct Hr|]].
    intros Hr. split; [by intros _ ->|]. intros rule Hin. by apply elem_of_nil in Hin.
  - rewrite forallb_forall. split.
    + intros Hall. split; [done|]. intros rule Hin. apply (aged_now rm _ _ now reading _ Hnd Hthr Hold).
      eapply bool_decide_eq_true_1, Hall. by apply list_elem_of_In.
    + intros [_ Hall] rule Hin. apply bool_decide_eq_true_2, aged_now; [done..|].
      apply Hall. by apply list_elem_of_In.
Qed.

(** C18. One poll of a tier records exactly one health sample per batch and decodes from
    the batches that were read. It changes nothing else of the health but the watchdog
    heartbeat, and stamps that exactly when a poll of the prime tier decoded, in this cycle,
    the register of every engine-state rule, or, on a map without such rules, read some
    batch (register names unique, the ages of earlier polls in the past). *)
Theorem poll_tier_spec t p w p' w' :
  Forall (fun b => 0 <= snd b) (tier_batches t p) ->
  poll_tier t p w = (true, p', w') ->
  exists ss results beat,
    results = fst (fst (poll_batches (rm_read_fc (p_regmap p)) (tier_batches t p) p w)) /\
    length ss = length (tier_batches t p) /\
    length results = length (List.filter s_ok ss) /\
    Forall (fun br => exists b, b ∈ tier_batches t p /\ result_ok b br) results /\
    (rd_values (p_reading p'), rd_value_ages (p_reading p')) =
      decode_and_evict (p_regmap p) t results (mono_clock w') (p_reading p) /\
    (let h := p_health (foldl record_sample p ss) in
     p_health p' =
       {| ch_state := ch_state h; ch_success_pct := ch_success_pct h;
          ch_last_good_at := ch_last_good_at h; ch_last_attempt_at := ch_last_attempt_at h;
          ch_rate_ms := ch_rate_ms h; ch_p95_latency_ms := ch_p95_latency_ms h;
          ch_consecutive_failures := ch_consecutive_failures h;
          ch_consecutive_successes := ch_consecutive_successes h;
          ch_last_prime_good_monotonic :=
            if beat : bool then Some (mono_clock w') else ch_last_prime_good_monotonic (p_health p) |}) /\
    (NoDup (map r_name (rm_registers (p_regmap p))) -> 0 < rm_prime_poll_ms (p_regmap p) ->
     (forall n a, rd_value_ages (p_reading p) !! n = Some a -> a < mono_clock w') ->
     beat = true <->
     t = "prime"%string /\ (rm_engine_state_bits (p_regmap p) = [] -> results <> []) /\
     (forall rule, rule ∈ rm_engine_state_bits (p_regmap p) -> exists reg, reg ∈ rm_registers (p_regmap p) /\
        r_name reg = sb_register rule /\ r_tier reg = "prime"%string /\
        exists v, fresh_decode results reg = Some v)).
Proof.
  intros Hb. unfold poll_tier. destruct (tier_batches t p) as [|b bs] eqn:Etb; [done|].
  destruct (poll_batches _ (b :: bs) p w) as [[results p1] w1] eqn:Ebs.
  destruct (poll_batches_spec _ _ _ _ _ _ _ Hb Ebs) as (ss & -> & Hl & Hr & Hall).
  assert (p_reading (foldl record_sample p ss) = p_reading p) as Hrd.
  { clear. induction ss as [|s ss IH] using rev_ind; [done|]. by rewrite foldl_app. }
  rewrite Hrd. destruct (decode_and_evict _ _ _ _ _) as [values ages] eqn:Ede. intros [= <- <-].
  exists ss, results, ((t =? "prime")%string && state_fresh (p_regmap p) ages (mono_clock w1)
                         (match results with [] => false | _ => true end)).
  assert (forall h q (b : bool), p_reading (if b then with_health h q else q) = p_reading q) as Hq by by intros ? ? [].
  rewrite Hq. split_and!; [done..| |].
  { cbv zeta. rewrite <- (record_samples_heartbeat ss p). destruct (_ && _); [done|]. cbn. by destruct (p_health _). }
  intros Hnd Hms Hold. rewrite andb_true_iff, String.eqb_eq.
  destruct (decide (t = "prime"%string)) as [->|]; [|tauto].
  rewrite <- (state_fresh_spec _ results _ (p_reading p) Hnd) by (done || (unfold stale_threshold, tier_cadence, TIER_STALE_MULTIPLIER, msec; rewrite String.eqb_refl; lia)).
  rewrite Ede. cbn [snd]. tauto.
Qed.
End poll_tier_facts.
