(* ===== verification/Database.v ===== *)
(** * The database (db.py)

    Tables as lists of rows in rowid order and one operation per method.  A
    timestamp column of type REAL holds nanoseconds; the integer bucket columns
    of the rollups hold seconds, as the schema has them.  SQL's AVG, MIN, MAX and
    SUM are taken over the rationals, without their binary64 rounding.  Statements
    are taken to succeed (no disk-full or lock timeout). *)

From S2P Require Import Prelude PyNum.
From Stdlib Require Import SpecFloat.

Local Open Scope Z_scope.

(** ** Rows *)

Record AlarmRow : Type := {
  al_code : string; al_desc : string; al_severity : string; al_raised_at : Z; al_raw : Z
}.

Record EventRow : Type := {
  ev_id : Z; ev_ts : Z; ev_severity : string; ev_type : string; ev_message : string;
  ev_meta : option string
}.

Record AuditRow : Type := {
  au_id : Z; au_ts : Z; au_operator : string; au_action : string; au_detail : string;
  au_token : string; au_result : string
}.

(** A telemetry sample; an absent column is NULL. *)
Record TelemetryRow : Type := {
  tl_ts : Z; tl_cols : gmap string pyfloat; tl_state : string; tl_alarm_raw : Z
}.

Record Rollup1m : Type := {
  m_ts : Z;
  m_avg : gmap string Q; m_min : gmap string Q; m_max : gmap string Q;
  m_samples : Z
}.

Record Rollup1h : Type := {
  h_ts : Z; h_avg : gmap string Q; h_samples : Z; h_runtime_s : Z; h_kwh : Q
}.

Record Database : Type := {
  db_telemetry : list TelemetryRow;
  db_telemetry_1m : list Rollup1m;
  db_telemetry_1h : list Rollup1h;
  db_events : list EventRow;
  db_next_event : Z;
  db_alarms : list AlarmRow;
  db_audit : list AuditRow;
  db_next_audit : Z;
  db_kv : odict string (string * Z)
}.

Definition Database_empty : Database :=
  {| db_telemetry := []; db_telemetry_1m := []; db_telemetry_1h := []; db_events := [];
     db_next_event := 1; db_alarms := []; db_audit := []; db_next_audit := 1; db_kv := [] |}.

Definition db_with_telemetry (t : list TelemetryRow) (d : Database) : Database :=
  {| db_telemetry := t; db_telemetry_1m := db_telemetry_1m d; db_telemetry_1h := db_telemetry_1h d;
     db_events := db_events d; db_next_event := db_next_event d; db_alarms := db_alarms d;
     db_audit := db_audit d; db_next_audit := db_next_audit d; db_kv := db_kv d |}.
Definition db_with_1m (t : list Rollup1m) (d : Database) : Database :=
  {| db_telemetry := db_telemetry d; db_telemetry_1m := t; db_telemetry_1h := db_telemetry_1h d;
     db_events := db_events d; db_next_event := db_next_event d; db_alarms := db_alarms d;
     db_audit := db_audit d; db_next_audit := db_next_audit d; db_kv := db_kv d |}.
Definition db_with_1h (t : list Rollup1h) (d : Database) : Database :=
  {| db_telemetry := db_telemetry d; db_telemetry_1m := db_telemetry_1m d; db_telemetry_1h := t;
     db_events := db_events d; db_next_event := db_next_event d; db_alarms := db_alarms d;
     db_audit := db_audit d; db_next_audit := db_next_audit d; db_kv := db_kv d |}.
Definition db_with_events (t : list EventRow) (next : Z) (d : Database) : Database :=
  {| db_telemetry := db_telemetry d; db_telemetry_1m := db_telemetry_1m d;
     db_telemetry_1h := db_telemetry_1h d;
     db_events := t; db_next_event := next; db_alarms := db_alarms d;
     db_audit := db_audit d; db_next_audit := db_next_audit d; db_kv := db_kv d |}.
Definition db_with_alarms (t : list AlarmRow) (d : Database) : Database :=
  {| db_telemetry := db_telemetry d; db_telemetry_1m := db_telemetry_1m d;
     db_telemetry_1h := db_telemetry_1h d;
     db_events := db_events d; db_next_event := db_next_event d; db_alarms := t;
     db_audit := db_audit d; db_next_audit := db_next_audit d; db_kv := db_kv d |}.
Definition db_with_audit (t : list AuditRow) (next : Z) (d : Database) : Database :=
  {| db_telemetry := db_telemetry d; db_telemetry_1m := db_telemetry_1m d;
     db_telemetry_1h := db_telemetry_1h d;
     db_events := db_events d; db_next_event := db_next_event d; db_alarms := db_alarms d;
     db_audit := t; db_next_audit := next; db_kv := db_kv d |}.
Definition db_with_kv (t : odict string (string * Z)) (d : Database) : Database :=
  {| db_telemetry := db_telemetry d; db_telemetry_1m := db_telemetry_1m d;
     db_telemetry_1h := db_telemetry_1h d;
     db_events := db_events d; db_next_event := db_next_event d; db_alarms := db_alarms d;
     db_audit := db_audit d; db_next_audit := db_next_audit d; db_kv := t |}.

(** ** SQL's ORDER BY and LIMIT *)

(** [ORDER BY key] (stable) and [ORDER BY key DESC]; rows with equal keys come in
    rowid order here, in no promised order in SQL. *)
Definition key_le {R} (key : R -> Z) (a b : R) : Prop := key a <= key b.
Definition key_ge {R} (key : R -> Z) (a b : R) : Prop := key b <= key a.
#[export] Instance key_le_dec {R} (key : R -> Z) : RelDecision (key_le key).
Proof. intros a b. unfold key_le. apply _. Defined.
#[export] Instance key_ge_dec {R} (key : R -> Z) : RelDecision (key_ge key).
Proof. intros a b. unfold key_ge. apply _. Defined.

Definition order_by {R} (key : R -> Z) (rows : list R) : list R := merge_sort (key_le key) rows.
Definition order_by_desc {R} (key : R -> Z) (rows : list R) : list R := merge_sort (key_ge key) rows.
(** A negative LIMIT is no limit. *)
Definition sql_limit {R} (n : Z) (rows : list R) : list R :=
  if n <? 0 then rows else take (Z.to_nat n) rows.

(** ** Alarms *)

Definition alarm_present (code : string) (d : Database) : bool :=
  existsb (fun r => (al_code r =? code)%string) (db_alarms d).

(** [raise_alarm]: INSERT OR IGNORE on the primary key; true when the row is new. *)
Definition raise_alarm (now : Z) (code desc severity : string) (raw : Z) (d : Database)
    : bool * Database :=
  if alarm_present code d then (false, d)
  else (true, db_with_alarms (db_alarms d ++
          [{| al_code := code; al_desc := desc; al_severity := severity; al_raised_at := now;
              al_raw := raw |}]) d).

(** [clear_alarm]: true when a row was deleted. *)
Definition clear_alarm (code : string) (d : Database) : bool * Database :=
  (alarm_present code d,
   db_with_alarms (List.filter (fun r => negb (al_code r =? code)%string) (db_alarms d)) d).

Definition active_alarms (d : Database) : list AlarmRow := order_by_desc al_raised_at (db_alarms d).

(** ** Events *)

Definition write_event (now : Z) (severity type_ message : string) (meta : option string)
    (d : Database) : Z * Database :=
  (db_next_event d,
   db_with_events (db_events d ++
     [{| ev_id := db_next_event d; ev_ts := now; ev_severity := severity; ev_type := type_;
         ev_message := message; ev_meta := meta |}]) (db_next_event d + 1) d).

(** The same, for the callers that ignore the row id. *)
Definition log_event (now : Z) (severity type_ message : string) (meta : option string)
    (d : Database) : Database := snd (write_event now severity type_ message meta d).

Definition opt_test {A} (o : option A) (p : A -> bool) : bool :=
  match o with Some a => p a | None => true end.

(** The WHERE clause of [read_events]; an empty severity list or type is no clause. *)
Definition event_matches (from_ts to_ts : option Z) (severities : option (list string))
    (type_ : option string) (e : EventRow) : bool :=
  opt_test from_ts (fun t => t <=? ev_ts e) && opt_test to_ts (fun t => ev_ts e <=? t) &&
  match severities with
  | Some (_ :: _ as ss) => existsb (fun s => (ev_severity e =? s)%string) ss
  | _ => true
  end &&
  match type_ with
  | None => true
  | Some t => if (t =? "")%string then true else (ev_type e =? t)%string
  end.

Definition read_events (limit : Z) (from_ts to_ts : option Z) (severities : option (list string))
    (type_ : option string) (d : Database) : list EventRow :=
  sql_limit limit (order_by_desc ev_ts
    (List.filter (event_matches from_ts to_ts severities type_) (db_events d))).

(** A TRANSITION row whose message has the arrow into [state]. *)
Definition transition_into (state : string) (e : EventRow) : bool :=
  (ev_type e =? "TRANSITION")%string &&
  str_contains (String.append "→ " state) (ev_message e).

Definition count_engine_starts (d : Database) : Z :=
  Z.of_nat (length (List.filter (transition_into "cranking") (db_events d))).
Definition last_transfer_to_gen (d : Database) : option (Z * string) :=
  (fun e => (ev_ts e, ev_message e)) <$>
    head (order_by_desc ev_ts (List.filter (transition_into "running") (db_events d))).
Definition count_transfers_since (since : Z) (d : Database) : Z :=
  Z.of_nat (length (List.filter (fun e => transition_into "running" e && (since <=? ev_ts e))
                      (db_events d))).
Definition last_alarm_event (d : Database) : option EventRow :=
  head (order_by_desc ev_ts (List.filter (fun e => (ev_type e =? "ALARM")%string &&
    ((ev_severity e =? "warn")%string || (ev_severity e =? "alarm")%string)) (db_events d))).

(** ** Audit and kv *)

Definition write_audit (now : Z) (operator action detail token result : string) (d : Database)
    : Z * Database :=
  (db_next_audit d,
   db_with_audit (db_audit d ++
     [{| au_id := db_next_audit d; au_ts := now; au_operator := operator; au_action := action;
         au_detail := detail; au_token := token; au_result := result |}])
     (db_next_audit d + 1) d).

Definition log_audit (now : Z) (operator action detail token result : string) (d : Database)
    : Database := snd (write_audit now operator action detail token result d).

Definition kv_get (k : string) (d : Database) : option string := fst <$> od_get k (db_kv d).
Definition kv_set (now : Z) (k v : string) (d : Database) : Database :=
  db_with_kv (od_set k (v, now) (db_kv d)) d.

(** ** Telemetry *)

Local Open Scope string_scope.
Definition COLUMN_MAP : list (string * string) :=
  [("rpm", "rpm"); ("frequency", "hz"); ("total_kw", "kw"); ("oil_pressure", "oil_p");
   ("coolant_temp", "cool_t"); ("battery_volts", "batt"); ("gen_voltage_ab", "v_ab");
   ("gen_voltage_bc", "v_bc"); ("gen_voltage_ca", "v_ca"); ("gen_current_a", "i_a");
   ("gen_current_b", "i_b"); ("gen_current_c", "i_c"); ("fuel_level_pct", "fuel_pct")].
Definition ROLLUP_1M_AVG_COLS : list string :=
  ["rpm"; "hz"; "kw"; "oil_p"; "cool_t"; "batt"; "v_ab"; "i_a"].
Definition ROLLUP_1M_MINMAX_COLS : list string := ["rpm"; "hz"; "kw"].
Definition ROLLUP_1H_AVG_COLS : list string := ["rpm"; "hz"; "kw"; "oil_p"; "cool_t"; "batt"].
Local Close Scope string_scope.

Definition RAW_TIER_MAX_SPAN_S : Z := sec (6 * 3600).
Definition ROLLUP_1M_MAX_SPAN_S : Z := sec (14 * 86400).

(** The columns of a row: the mapped registers that have a value. *)
Definition telemetry_cols (values : gmap string pynum) : gmap string pyfloat :=
  foldl (fun cols '(reg, col) =>
           match values !! reg with
           | Some v => <[col := py_float v]> cols
           | None => cols
           end) ∅ COLUMN_MAP.

Definition write_telemetry (ts : Z) (values : gmap string pynum) (state : string)
    (alarm_raw : Z) (d : Database) : Database :=
  db_with_telemetry (db_telemetry d ++
    [{| tl_ts := ts; tl_cols := telemetry_cols values; tl_state := state;
        tl_alarm_raw := alarm_raw |}]) d.

Definition telemetry_latest (d : Database) : option TelemetryRow :=
  head (order_by_desc tl_ts (db_telemetry d)).

(** The value of a REAL column; NaN is stored as NULL. *)
Definition col_value (m : gmap string pyfloat) (c : string) : option Q :=
  match m !! c with
  | Some f => match f_ext f with EFin q => Some q | _ => None end
  | None => None
  end.

Inductive tel_tier : Type := TierRaw | Tier1m | Tier1h.

(** Which table [read_telemetry] reads for a metric and a span. *)
Definition read_tier (metric : string) (span : Z) : tel_tier :=
  if (metric =? "state")%string || (span <=? RAW_TIER_MAX_SPAN_S) then TierRaw
  else if (span <=? ROLLUP_1M_MAX_SPAN_S) && bool_decide (metric ∈ ROLLUP_1M_AVG_COLS) then Tier1m
  else if bool_decide (metric ∈ ROLLUP_1H_AVG_COLS) then Tier1h
  else if bool_decide (metric ∈ ROLLUP_1M_AVG_COLS) then Tier1m
  else TierRaw.

Definition in_span {R} (key : R -> Z) (lo hi : Z) (rows : list R) : list R :=
  order_by key (List.filter (fun r => (lo <=? key r) && (key r <=? hi)) rows).

Definition read_rows (metric : string) (from_ts to_ts : Z) (d : Database)
    : list (Z * option Q) :=
  match read_tier metric (Z.max (sec 1) (to_ts - from_ts)) with
  | TierRaw => (fun r => (tl_ts r, col_value (tl_cols r) metric)) <$>
                 in_span tl_ts from_ts to_ts (db_telemetry d)
  | Tier1m => (fun r => (sec (m_ts r), m_avg r !! metric)) <$>
                in_span m_ts (Z.quot from_ts (sec 1)) (Z.quot to_ts (sec 1)) (db_telemetry_1m d)
  | Tier1h => (fun r => (sec (h_ts r), h_avg r !! metric)) <$>
                in_span h_ts (Z.quot from_ts (sec 1)) (Z.quot to_ts (sec 1)) (db_telemetry_1h d)
  end.

(** [rows\[::step\]] *)
Fixpoint every_from {A} (skip step : nat) (l : list A) : list A :=
  match l with
  | [] => []
  | x :: l' => match skip with
               | O => x :: every_from (step - 1) step l'
               | S k => every_from k step l'
               end
  end.
Definition every {A} (step : nat) (l : list A) : list A := every_from 0 step l.

Definition decimate {A} (max_points : Z) (rows : list A) : list A :=
  let n := Z.of_nat (length rows) in
  if max_points <? n then every (Z.to_nat (Z.max 1 (n / max_points))) rows else rows.

Inductive tel_error : Type := UnknownMetric | StateNotNumeric.

(** [read_telemetry].  The metric [state] selects a text column, whose values
    [float()] refuses. *)
Definition read_telemetry (metric : string) (from_ts to_ts max_points : Z) (d : Database)
    : tel_error + list (Z * Q) :=
  if negb (bool_decide (metric ∈ map snd COLUMN_MAP)) && negb (metric =? "state")%string
  then inl UnknownMetric
  else
    let rows := decimate max_points (read_rows metric from_ts to_ts d) in
    if (metric =? "state")%string && negb (bool_decide (rows = []))
    then inl StateNotNumeric
    else inr ((fun r => (fst r, default 0%Q (snd r))) <$> rows).

(** ** Pruning *)

(** One DELETE with its LIMIT: the rows left, and how many went. *)
Fixpoint delete_limited {R} (p : R -> bool) (limit : nat) (rows : list R) : list R * Z :=
  match rows, limit with
  | [], _ => ([], 0)
  | _, O => (rows, 0)
  | r :: rest, S l =>
      if p r then let '(kept, n) := delete_limited p l rest in (kept, n + 1)
      else let '(kept, n) := delete_limited p limit rest in (r :: kept, n)
  end.

Definition delete_chunk {R} (p : R -> bool) (chunk : Z) (rows : list R) : list R * Z :=
  delete_limited p (if chunk <? 0 then length rows else Z.to_nat chunk) rows.

(** [_prune_chunked]; [None] when the fuel runs out. *)
Fixpoint prune_chunked {R} (fuel : nat) (p : R -> bool) (chunk total : Z) (rows : list R)
    : option (list R * Z) :=
  match fuel with
  | O => None
  | S f => let '(kept, n) := delete_chunk p chunk rows in
           if n <? chunk then Some (kept, total + n)
           else prune_chunked f p chunk (total + n) kept
  end.

Definition prune_fuel {R} (rows : list R) : nat := S (length rows).

Definition PRUNE_CHUNK : Z := 5000.

Definition prune_table {R} (p : R -> bool) (rows : list R) : list R :=
  match prune_chunked (prune_fuel rows) p PRUNE_CHUNK 0 rows with
  | Some (kept, _) => kept
  | None => rows
  end.

Definition prune_raw_telemetry (older : Z) (d : Database) : Database :=
  db_with_telemetry (prune_table (fun r => tl_ts r <? older) (db_telemetry d)) d.
Definition prune_rollup_1m (older : Z) (d : Database) : Database :=
  db_with_1m (prune_table (fun r => m_ts r <? Z.quot older (sec 1)) (db_telemetry_1m d)) d.
Definition prune_rollup_1h (older : Z) (d : Database) : Database :=
  db_with_1h (prune_table (fun r => h_ts r <? Z.quot older (sec 1)) (db_telemetry_1h d)) d.
Definition prune_events (older : Z) (d : Database) : Database :=
  db_with_events (prune_table (fun e => (ev_ts e <? older) &&
      ((ev_severity e =? "info")%string || (ev_severity e =? "ok")%string)) (db_events d))
    (db_next_event d) d.

(** ** Rollups *)

Definition q_sum (l : list Q) : Q := foldr Qplus 0%Q l.
Definition sql_avg (l : list Q) : option Q :=
  match l with [] => None | _ => Some (q_sum l / inject_Z (Z.of_nat (length l)))%Q end.
Definition sql_sum (l : list Q) : option Q := match l with [] => None | _ => Some (q_sum l) end.
Definition q_min (a b : Q) : Q := if Qle_bool a b then a else b.
Definition q_max (a b : Q) : Q := if Qle_bool a b then b else a.
Definition sql_fold (f : Q -> Q -> Q) (l : list Q) : option Q :=
  match l with [] => None | x :: l' => Some (foldl f x l') end.

(** The columns [cols] with their aggregate, NULL ones absent. *)
Definition agg_cols (cols : list string) (f : string -> option Q) : gmap string Q :=
  foldl (fun m c => match f c with Some q => <[c := q]> m | None => m end) ∅ cols.

Definition group_keys {R} (key : R -> Z) (rows : list R) : list Z := remove_dups (map key rows).
Definition group_rows {R} (key : R -> Z) (k : Z) (rows : list R) : list R :=
  List.filter (fun r => key r =? k) rows.

(** INSERT OR REPLACE on the primary key [key]. *)
Definition insert_or_replace {R} (key : R -> Z) (tbl : list R) (row : R) : list R :=
  List.filter (fun r => negb (key r =? key row)) tbl ++ [row].

(** The grouping expressions, [CAST(ts/60 AS INTEGER)] on REAL seconds and
    [CAST(ts/3600 AS INTEGER)] on integer ones. *)
Definition minute_key (r : TelemetryRow) : Z := Z.quot (tl_ts r) (sec 60).
Definition hour_key (r : Rollup1m) : Z := Z.quot (m_ts r) 3600.

Definition minute_row (group : list TelemetryRow) (k : Z) : Rollup1m :=
  let vals c := omap (fun r => col_value (tl_cols r) c) group in
  {| m_ts := k * 60;
     m_avg := agg_cols ROLLUP_1M_AVG_COLS (fun c => sql_avg (vals c));
     m_min := agg_cols ROLLUP_1M_MINMAX_COLS (fun c => sql_fold q_min (vals c));
     m_max := agg_cols ROLLUP_1M_MINMAX_COLS (fun c => sql_fold q_max (vals c));
     m_samples := Z.of_nat (length group) |}.

Definition samples_sum (group : list Rollup1m) : Z :=
  foldr (fun r n => m_samples r + n) 0 group.

(** [SUM(x_avg * samples) / NULLIF(SUM(samples), 0)] *)
Definition weighted_avg (group : list Rollup1m) (c : string) : option Q :=
  match sql_sum (omap (fun r => (fun q => (q * inject_Z (m_samples r))%Q) <$> m_avg r !! c) group) with
  | None => None
  | Some s => if samples_sum group =? 0 then None
              else Some (s / inject_Z (samples_sum group))%Q
  end.

Definition hour_row (group : list Rollup1m) (k : Z) : Rollup1h :=
  {| h_ts := k * 3600;
     h_avg := agg_cols ROLLUP_1H_AVG_COLS (weighted_avg group);
     h_samples := samples_sum group;
     h_runtime_s := 0;
     h_kwh := (default 0 (sql_sum (omap (fun r => m_avg r !! "kw"%string) group)) / inject_Z 60)%Q |}.

(** One INSERT OR REPLACE per group of the selected rows. *)
Definition rollup {R T} (key : R -> Z) (tkey : T -> Z) (mk : list R -> Z -> T)
    (sel : R -> bool) (rows : list R) (tbl : list T) : list T :=
  let rows' := List.filter sel rows in
  foldl (insert_or_replace tkey) tbl (map (fun k => mk (group_rows key k rows') k) (group_keys key rows')).

Definition aggregate_rollup_1m (from_ts to_ts : Z) (d : Database) : Database :=
  db_with_1m (rollup minute_key m_ts minute_row
    (fun r => (from_ts <=? tl_ts r) && (tl_ts r <? to_ts)) (db_telemetry d) (db_telemetry_1m d)) d.

Definition aggregate_rollup_1h (from_ts to_ts : Z) (d : Database) : Database :=
  let lo := Z.quot from_ts (sec 1) in
  let hi := Z.quot to_ts (sec 1) in
  db_with_1h (rollup hour_key h_ts hour_row
    (fun r => (lo <=? m_ts r) && (m_ts r <? hi)) (db_telemetry_1m d) (db_telemetry_1h d)) d.

(** ** Retention (services/retention.py) *)

Record RetentionConfig : Type := {
  raw_days : Z; rollup_1m_days : Z; rollup_1h_days : Z; events_days : Z; audit_days : Z
}.

Definition days (n : Z) : Z := sec (n * 86400).

(** [RetentionService._tick] (the WAL checkpoint changes no row). *)
Definition retention_tick (cfg : RetentionConfig) (now : Z) (d : Database) : Database :=
  let d1 := aggregate_rollup_1m (now - sec 3600) (now - sec 60) d in
  let d2 := aggregate_rollup_1h (now - sec (2 * 3600)) now d1 in
  let d3 := prune_raw_telemetry (now - days (raw_days cfg)) d2 in
  let d4 := prune_rollup_1m (now - days (rollup_1m_days cfg)) d3 in
  let d5 := if 0 <? rollup_1h_days cfg then prune_rollup_1h (now - days (rollup_1h_days cfg)) d4
            else d4 in
  if 0 <? events_days cfg then prune_events (now - days (events_days cfg)) d5 else d5.

(** ** Projections of the writers *)

Lemma log_event_alarms now sev ty msg meta d :
  db_alarms (log_event now sev ty msg meta d) = db_alarms d.
Proof. reflexivity. Qed.
Lemma log_event_audit now sev ty msg meta d :
  db_audit (log_event now sev ty msg meta d) = db_audit d.
Proof. reflexivity. Qed.
Lemma log_audit_alarms now op a de t r d :
  db_alarms (log_audit now op a de t r d) = db_alarms d.
Proof. reflexivity. Qed.
#[export] Hint Rewrite log_event_alarms log_event_audit log_audit_alarms : gw.

(** ** Alarm rows as a map *)

Definition alarm_codes (d : Database) : gset string := list_to_set (map al_code (db_alarms d)).

Lemma alarm_present_spec code d : alarm_present code d = true <-> code ∈ alarm_codes d.
Proof.
  unfold alarm_present, alarm_codes. rewrite existsb_exists, elem_of_list_to_set, list_elem_of_fmap.
  split.
  - intros (r & Hr & E). exists r. apply list_elem_of_In in Hr. split; [|done].
    by apply String.eqb_eq in E.
  - intros (r & -> & Hr). exists r. split; [by apply list_elem_of_In|]. by apply String.eqb_eq.
Qed.

Lemma raise_alarm_fst now c de s raw d : fst (raise_alarm now c de s raw d) = negb (alarm_present c d).
Proof. unfold raise_alarm. by case_match. Qed.

Lemma raise_alarm_codes now c de s raw d :
  alarm_codes (snd (raise_alarm now c de s raw d)) = {[ c ]} ∪ alarm_codes d.
Proof.
  unfold raise_alarm. destruct (alarm_present c d) eqn:E; cbn.
  - apply alarm_present_spec in E. set_solver.
  - unfold alarm_codes. cbn. rewrite map_app, list_to_set_app_L. cbn. set_solver.
Qed.

Lemma clear_alarm_codes c d : alarm_codes (snd (clear_alarm c d)) = alarm_codes d ∖ {[ c ]}.
Proof.
  apply set_eq. intros x. unfold alarm_codes. cbn.
  rewrite elem_of_difference, !elem_of_list_to_set, !list_elem_of_fmap, elem_of_singleton. split.
  - intros (r & -> & Hr). apply list_elem_of_In, filter_In in Hr as [Hr Hc].
    apply negb_true_iff, String.eqb_neq in Hc. apply list_elem_of_In in Hr. naive_solver.
  - intros [(r & -> & Hr) Hc]. exists r. split; [done|]. apply list_elem_of_In, filter_In.
    split; [by apply list_elem_of_In|]. by apply negb_true_iff, String.eqb_neq.
Qed.

Lemma log_event_codes now sev ty msg meta d : alarm_codes (log_event now sev ty msg meta d) = alarm_codes d.
Proof. reflexivity. Qed.
#[export] Hint Rewrite raise_alarm_codes clear_alarm_codes log_event_codes : gw.

(** The rows of one code: at most one, since the code is the key. *)
Definition alarm_rows_of (code : string) (d : Database) : list AlarmRow :=
  List.filter (fun r => (al_code r =? code)%string) (db_alarms d).

Lemma alarm_rows_codes code d : code ∈ alarm_codes d <-> alarm_rows_of code d <> [].
Proof.
  rewrite <- alarm_present_spec. unfold alarm_present, alarm_rows_of.
  induction (db_alarms d) as [|r l IH]; cbn; [done|]. by destruct (al_code r =? code)%string.
Qed.

(** INSERT OR IGNORE: a row of the code stays as it is. *)
Lemma raise_alarm_rows now c de s raw d x :
  alarm_rows_of x (snd (raise_alarm now c de s raw d)) =
  if decide (x = c /\ alarm_rows_of x d = [])
  then [{| al_code := c; al_desc := de; al_severity := s; al_raised_at := now; al_raw := raw |}]
  else alarm_rows_of x d.
Proof.
  unfold raise_alarm. pose proof (alarm_rows_codes c d) as Hc. rewrite <- alarm_present_spec in Hc.
  destruct (alarm_present c d); cbn [snd].
  - rewrite decide_False; [done|]. intros [-> Hn]. by apply Hc.
  - unfold alarm_rows_of. cbn [db_alarms db_with_alarms]. rewrite List.filter_app. cbn [List.filter al_code].
    fold (alarm_rows_of x d). destruct (String.eqb_spec c x) as [->|Hne].
    + assert (alarm_rows_of x d = []) as -> by (destruct (decide (alarm_rows_of x d = [])) as [|Hn]; [done|by apply Hc in Hn]).
      by rewrite decide_True.
    + rewrite decide_False by naive_solver. by rewrite app_nil_r.
Qed.

Lemma clear_alarm_rows c d x :
  alarm_rows_of x (snd (clear_alarm c d)) = if decide (x = c) then [] else alarm_rows_of x d.
Proof.
  unfold alarm_rows_of. cbn [clear_alarm snd db_alarms db_with_alarms].
  induction (db_alarms d) as [|r l IH]; cbn; [by case_decide|].
  destruct (String.eqb_spec (al_code r) c) as [Er|Er]; cbn; rewrite IH; case_decide as E; try done.
  - destruct (String.eqb_spec (al_code r) x); congruence.
  - destruct (String.eqb_spec (al_code r) x); congruence.
Qed.

Lemma log_event_rows now sev ty msg meta d x : alarm_rows_of x (log_event now sev ty msg meta d) = alarm_rows_of x d.
Proof. reflexivity. Qed.
