(* ===== verification/DatabaseFacts.v ===== *)
(** * Database theorems

    Pruning deletes exactly the old rows and terminates, rollup tables hold one
    row per bucket computed from the rows selected, decimation is bounded, and
    the retention tick keeps what it must. *)

From S2P Require Import Prelude PyNum Database.

Local Open Scope Z_scope.

(** ** Pruning *)

Section prune.
Context {R : Type} (p : R -> bool).
Implicit Types (rows : list R).

Definition matching rows : nat := length (List.filter p rows).

Lemma delete_limited_all n rows :
  (matching rows <= n)%nat ->
  delete_limited p n rows =
    (List.filter (fun r => negb (p r)) rows, Z.of_nat (matching rows)).
Proof.
  unfold matching. revert n. induction rows as [|r rows IH]; intros n Hn; [by destruct n|].
  cbn in Hn |- *. destruct (p r) eqn:E.
  - destruct n as [|n]; cbn in Hn; [lia|]. cbn [negb]. rewrite IH by lia.
    cbn [length]. f_equal. lia.
  - cbn [negb]. destruct n as [|n].
    + assert (length (List.filter p rows) = 0%nat) as E0 by lia. rewrite E0.
      f_equal. f_equal. clear -E0. induction rows as [|x l IH]; [done|]. cbn in *.
      destruct (p x); [done|]. cbn. f_equal. by apply IH.
    + by rewrite IH.
Qed.

Lemma delete_limited_some n rows :
  (n <= matching rows)%nat ->
  snd (delete_limited p n rows) = Z.of_nat n /\
  matching (fst (delete_limited p n rows)) = (matching rows - n)%nat /\
  List.filter (fun r => negb (p r)) (fst (delete_limited p n rows)) =
    List.filter (fun r => negb (p r)) rows.
Proof.
  unfold matching. revert n. induction rows as [|r rows IH]; intros n Hn; cbn in Hn |- *.
  { by destruct n; [|lia]. }
  destruct n as [|n]; [cbn; split_and!; (done || lia)|].
  destruct (p r) eqn:E; cbn in Hn.
  - destruct (IH n) as (H1 & H2 & H3); [lia|].
    destruct (delete_limited p n rows) as [kept k]. cbn [fst snd negb length] in *.
    split_and!; [lia|lia|done].
  - destruct (IH (S n) Hn) as (H1 & H2 & H3).
    destruct (delete_limited p (S n) rows) as [kept k]. cbn [fst snd negb] in *.
    cbn. rewrite E. cbn [negb]. split_and!; [done|done|by rewrite H3].
Qed.

Lemma prune_chunked_fuel chunk rows : forall fuel total,
  0 < chunk -> (matching rows < fuel)%nat ->
  prune_chunked fuel p chunk total rows =
    Some (List.filter (fun r => negb (p r)) rows, total + Z.of_nat (matching rows)).
Proof.
  intros fuel. revert rows. induction fuel as [|fuel IH]; intros rows total Hc Hf; [lia|].
  cbn [prune_chunked]. unfold delete_chunk. rewrite (proj2 (Z.ltb_ge chunk 0)) by lia.
  destruct (decide (Z.to_nat chunk <= matching rows)%nat) as [Hle|Hgt].
  - destruct (delete_limited_some _ _ Hle) as (H1 & H2 & H3).
    destruct (delete_limited p (Z.to_nat chunk) rows) as [kept n]. cbn [fst snd] in *.
    rewrite H1, Z2Nat.id by lia. rewrite (proj2 (Z.ltb_ge chunk chunk)) by lia.
    rewrite IH by lia. rewrite H3, H2. f_equal. f_equal. lia.
  - rewrite delete_limited_all by lia. by rewrite (proj2 (Z.ltb_lt _ chunk)) by lia.
Qed.
End prune.

Lemma matching_length {R} (p : R -> bool) rows : (matching p rows <= length rows)%nat.
Proof. apply filter_length_le. Qed.

(** The chunked prune terminates for any positive chunk, deletes exactly the rows
    its WHERE clause selects, and returns their number. *)
Theorem prune_chunked_exact {R} (p : R -> bool) chunk rows :
  0 < chunk ->
  prune_chunked (prune_fuel rows) p chunk 0 rows =
    Some (List.filter (fun r => negb (p r)) rows, Z.of_nat (matching p rows)).
Proof.
  intros Hc. pose proof (matching_length p rows).
  rewrite prune_chunked_fuel by (done || (unfold prune_fuel; lia)). done.
Qed.

(** With a chunk of no rows the loop never ends: every fuel runs out. *)
Lemma prune_chunked_zero {R} (p : R -> bool) fuel total rows :
  prune_chunked fuel p 0 total rows = None.
Proof.
  revert total rows. induction fuel as [|f IH]; intros total rows; [done|]. cbn.
  unfold delete_chunk. cbn. destruct rows; cbn; apply IH.
Qed.

Lemma prune_table_spec {R} (p : R -> bool) rows :
  prune_table p rows = List.filter (fun r => negb (p r)) rows.
Proof. unfold prune_table. by rewrite prune_chunked_exact. Qed.
#[export] Hint Rewrite @prune_table_spec : gw.

(** ** Rollups *)

Section rollup.
Context {R T : Type} (key : R -> Z) (tkey : T -> Z) (mk : list R -> Z -> T) (unit : Z).
Context (Hunit : unit <> 0) (Hmk : forall g k, tkey (mk g k) = k * unit).

Definition row_at (t : Z) (tbl : list T) : option T := List.find (fun r => tkey r =? t) tbl.

Lemma row_at_app t a b :
  row_at t (a ++ b) = match row_at t a with Some r => Some r | None => row_at t b end.
Proof. unfold row_at. induction a as [|x a IH]; cbn; [done|]. by destruct (tkey x =? t). Qed.

Lemma row_at_filter_eq t tbl :
  row_at t (List.filter (fun r => negb (tkey r =? t)) tbl) = None.
Proof.
  unfold row_at. induction tbl as [|x tbl IH]; cbn; [done|].
  destruct (tkey x =? t) eqn:E; cbn; [done|]. by rewrite E.
Qed.

Lemma row_at_filter_ne t t' tbl :
  t <> t' -> row_at t (List.filter (fun r => negb (tkey r =? t')) tbl) = row_at t tbl.
Proof.
  intros Hne. unfold row_at. induction tbl as [|x tbl IH]; cbn; [done|].
  destruct (Z.eqb_spec (tkey x) t') as [E|E]; cbn.
  - rewrite (proj2 (Z.eqb_neq (tkey x) t)) by lia. done.
  - by rewrite IH.
Qed.

Lemma row_at_insert t tbl row :
  row_at t (insert_or_replace tkey tbl row) = if tkey row =? t then Some row else row_at t tbl.
Proof.
  unfold insert_or_replace. rewrite row_at_app. destruct (Z.eqb_spec (tkey row) t) as [<-|Hne].
  - rewrite row_at_filter_eq. cbn. by rewrite Z.eqb_refl.
  - rewrite row_at_filter_ne by done. destruct (row_at t tbl); [done|]. cbn.
    by rewrite (proj2 (Z.eqb_neq _ _)).
Qed.

Lemma row_at_inserts (f : Z -> T) ks tbl k :
  (forall k, tkey (f k) = k * unit) ->
  row_at (k * unit) (foldl (insert_or_replace tkey) tbl (map f ks)) =
  if decide (k ∈ ks) then Some (f k) else row_at (k * unit) tbl.
Proof.
  intros Hf. revert tbl. induction ks as [|k0 ks IH]; intros tbl.
  { rewrite decide_False; [done|apply not_elem_of_nil]. }
  cbn [map foldl]. rewrite IH, row_at_insert, Hf.
  destruct (decide (k ∈ ks)) as [Hin|Hin].
  - rewrite decide_True; [done|by right].
  - destruct (Z.eqb_spec (k0 * unit) (k * unit)) as [E|E].
    + apply Z.mul_cancel_r in E as ->; [|done]. rewrite decide_True; [done|by left].
    + rewrite decide_False; [done|]. intros [->|?]%elem_of_cons; [by apply E|done].
Qed.

(** After a rollup, the bucket [k] holds the aggregate of the selected rows of
    that bucket when there is one, and what it held before otherwise. *)
Theorem rollup_spec sel rows tbl k :
  let group := group_rows key k (List.filter sel rows) in
  row_at (k * unit) (rollup key tkey mk sel rows tbl) =
  match group with [] => row_at (k * unit) tbl | _ => Some (mk group k) end.
Proof.
  intros group. unfold rollup.
  rewrite (row_at_inserts (fun k => mk (group_rows key k (List.filter sel rows)) k)) by auto.
  unfold group_keys. fold group.
  assert (k ∈ map key (List.filter sel rows) <-> group <> []) as Hk.
  { unfold group, group_rows. rewrite list_elem_of_fmap. split.
    - intros (r & -> & Hr) E. apply list_elem_of_In in Hr.
      assert (In r (List.filter (fun r' => key r' =? key r) (List.filter sel rows))) as Hin
        by (apply filter_In; split; [done|by apply Z.eqb_eq]).
      by rewrite E in Hin.
    - intros Hne. destruct (List.filter _ (List.filter sel rows)) as [|r l] eqn:E; [done|].
      assert (In r (r :: l)) as Hin by (by left). rewrite <- E in Hin.
      apply filter_In in Hin as [Hin Hr]. exists r. apply Z.eqb_eq in Hr.
      by split; [|apply list_elem_of_In]. }
  destruct (decide (k ∈ remove_dups _)) as [Hd|Hd]; rewrite elem_of_remove_dups in Hd.
  - apply Hk in Hd. by destruct group.
  - destruct group; [done|]. destruct Hd. by apply Hk.
Qed.

Lemma insert_or_replace_NoDup tbl row :
  NoDup (map tkey tbl) -> NoDup (map tkey (insert_or_replace tkey tbl row)).
Proof.
  intros Hnd. unfold insert_or_replace. rewrite map_app. apply NoDup_app. split_and!.
  - induction tbl as [|x tbl IH]; cbn; [done|]. cbn in Hnd. apply NoDup_cons in Hnd as [Hx Hnd].
    case_match; [|by apply IH]. cbn. apply NoDup_cons. split; [|by apply IH].
    intros Hin. apply Hx. apply list_elem_of_fmap in Hin as (r & -> & Hr).
    apply list_elem_of_In, filter_In in Hr as [Hr _]. apply list_elem_of_fmap_2. by apply list_elem_of_In.
  - intros t Ht Hin. apply list_elem_of_fmap in Ht as (r & -> & Hr).
    apply list_elem_of_In, filter_In in Hr as [_ Hr]. cbn in Hin.
    apply list_elem_of_singleton in Hin. rewrite Hin, Z.eqb_refl in Hr. done.
  - apply NoDup_singleton.
Qed.

(** The bucket column stays a primary key. *)
Lemma rollup_NoDup sel rows tbl :
  NoDup (map tkey tbl) -> NoDup (map tkey (rollup key tkey mk sel rows tbl)).
Proof.
  unfold rollup. generalize (map (fun k => mk (group_rows key k (List.filter sel rows)) k)
    (group_keys key (List.filter sel rows))). intros l. revert tbl.
  induction l as [|x l IH]; intros tbl Hnd; [done|]. cbn. by apply IH, insert_or_replace_NoDup.
Qed.
End rollup.

Definition minute_at : Z -> list Rollup1m -> option Rollup1m := row_at m_ts.
Definition hour_at : Z -> list Rollup1h -> option Rollup1h := row_at h_ts.

Lemma quot_bucket t u k : 0 < u -> 0 <= t -> Z.quot t u = k <-> (k * u <= t < (k + 1) * u).
Proof.
  intros Hu Ht. rewrite Z.quot_div_nonneg by lia.
  pose proof (Z.div_mod t u ltac:(lia)). pose proof (Z.mod_pos_bound t u Hu).
  split; [intros <-; nia|]. intros. symmetry. apply (Z.div_unique t u k (t - k * u)); lia.
Qed.

Lemma filter_filter_ext {R} (p q r : R -> bool) l :
  (forall x, x ∈ l -> q x && p x = r x) -> List.filter p (List.filter q l) = List.filter r l.
Proof.
  intros Hx. induction l as [|x l IH]; [done|]. cbn.
  rewrite <- (Hx x) by (by left).
  destruct (q x); cbn; [destruct (p x); [f_equal|]|]; apply IH; intros; apply Hx; by right.
Qed.

(** A minute inside the aggregated window is rolled up from all of its samples
    whatever the rollup table held; a minute without samples is left alone. *)
Theorem aggregate_1m_complete from_ts to_ts d k :
  Forall (fun r => 0 <= tl_ts r) (db_telemetry d) ->
  from_ts <= k * sec 60 -> (k + 1) * sec 60 <= to_ts ->
  let group := group_rows minute_key k (db_telemetry d) in
  minute_at (k * 60) (db_telemetry_1m (aggregate_rollup_1m from_ts to_ts d)) =
  match group with
  | [] => minute_at (k * 60) (db_telemetry_1m d)
  | _ => Some (minute_row group k)
  end.
Proof.
  intros Hpos Hlo Hhi group. unfold aggregate_rollup_1m, minute_at. cbn [db_telemetry_1m db_with_1m].
  rewrite (rollup_spec minute_key m_ts minute_row 60) by (done || lia).
  assert (group_rows minute_key k (List.filter (fun r => (from_ts <=? tl_ts r) && (tl_ts r <? to_ts))
            (db_telemetry d)) = group) as ->; [|done].
  apply filter_filter_ext. intros r Hr. rewrite Forall_forall in Hpos. specialize (Hpos r Hr).
  destruct (Z.eqb_spec (minute_key r) k) as [E|E]; [|by rewrite andb_false_r].
  apply quot_bucket in E; [|unfold sec; lia|done].
  rewrite (proj2 (Z.leb_le _ _)) by lia. by rewrite (proj2 (Z.ltb_lt _ _)) by lia.
Qed.

(** A window that starts inside a minute replaces that minute's row by the
    aggregate of its last samples only. *)
Definition partial_minute_db : Database :=
  let row t v := {| tl_ts := sec t; tl_cols := {[ "kw"%string := f_of_Z v ]};
                    tl_state := "running"; tl_alarm_raw := 0 |} in
  {| db_telemetry := [row 60 10; row 90 10; row 119 40]; db_telemetry_1m := []; db_telemetry_1h := [];
     db_events := []; db_next_event := 1; db_alarms := []; db_audit := []; db_next_audit := 1;
     db_kv := [] |}.

(** Aggregating from an unaligned start replaces a complete minute by a partial
    one. *)
Lemma partial_minute_overwrites :
  (m_samples <$> minute_at 60 (db_telemetry_1m (aggregate_rollup_1m 0 (sec 120) partial_minute_db))) = Some 3 /\
  (m_samples <$> minute_at 60 (db_telemetry_1m
     (aggregate_rollup_1m (sec 100) (sec 160) (aggregate_rollup_1m 0 (sec 120) partial_minute_db)))) = Some 1.
Proof. by vm_compute. Qed.

(** ** Retention *)

Lemma prune_raw_rows t d :
  db_telemetry (prune_raw_telemetry t d) = List.filter (fun r => negb (tl_ts r <? t)) (db_telemetry d).
Proof. apply prune_table_spec. Qed.

Definition event_kept (older : Z) (e : EventRow) : bool :=
  negb ((ev_ts e <? older) && ((ev_severity e =? "info")%string || (ev_severity e =? "ok")%string)).

Lemma prune_events_rows t d :
  db_events (prune_events t d) = List.filter (event_kept t) (db_events d).
Proof. apply prune_table_spec. Qed.

(** A retention tick keeps exactly the raw samples within their horizon, drops only
    info and ok events past theirs (none when it is zero), and never touches warnings,
    alarms, audit rows or settings. *)
Theorem retention_tick_spec cfg now d :
  let d' := retention_tick cfg now d in
  db_telemetry d' = List.filter (fun r => negb (tl_ts r <? now - days (raw_days cfg))) (db_telemetry d) /\
  db_events d' = (if 0 <? events_days cfg
                  then List.filter (event_kept (now - days (events_days cfg))) (db_events d)
                  else db_events d) /\
  (forall e, e ∈ db_events d -> ev_severity e ∈ ["warn"; "alarm"]%string -> e ∈ db_events d') /\
  db_alarms d' = db_alarms d /\ db_audit d' = db_audit d /\ db_kv d' = db_kv d.
Proof.
  cbv zeta.
  assert (db_events (retention_tick cfg now d) = (if 0 <? events_days cfg
            then List.filter (event_kept (now - days (events_days cfg))) (db_events d)
            else db_events d)) as Hev.
  { unfold retention_tick. repeat case_match; rewrite ?prune_events_rows; reflexivity. }
  split_and!.
  - unfold retention_tick. rewrite <- (prune_raw_rows _ d). repeat case_match; reflexivity.
  - exact Hev.
  - intros e He Hsev. rewrite Hev. case_match; [|done].
    apply list_elem_of_In, filter_In. split; [by apply list_elem_of_In|].
    unfold event_kept. apply negb_true_iff, andb_false_intro2.
    apply elem_of_cons in Hsev as [->|[->|Hn]%elem_of_cons]; [done|done|by apply elem_of_nil in Hn].
  - unfold retention_tick. repeat case_match; reflexivity.
  - unfold retention_tick. repeat case_match; reflexivity.
  - unfold retention_tick. repeat case_match; reflexivity.
Qed.

(** ** Decimation *)

Lemma every_from_sublist {A} skip step (l : list A) : every_from skip step l `sublist_of` l.
Proof.
  revert skip. induction l as [|x l IH]; intros skip; [done|]. cbn.
  destruct skip; [by apply sublist_skip|by apply sublist_cons].
Qed.

Lemma every_from_length {A} skip step (l : list A) :
  (0 < step)%nat -> (skip < step)%nat ->
  (length (every_from skip step l) * step < length l + (step - skip) + skip * 0)%nat \/
  (length (every_from skip step l) = 0%nat /\ (length l <= skip)%nat).
Proof.
  intros Hs. revert skip. induction l as [|x l IH]; intros skip Hk; cbn; [right; lia|].
  destruct skip as [|k].
  - left. cbn. destruct (IH (step - 1)%nat) as [H|[H1 H2]]; [lia|lia|]. rewrite H1. lia.
  - destruct (IH k) as [H|[H1 H2]]; [lia|left; lia|right; lia].
Qed.

Lemma decimate_length {A} m (rows : list A) :
  0 < m -> Z.of_nat (length (decimate m rows)) < 2 * m.
Proof.
  intros Hm. unfold decimate. destruct (Z.ltb_spec m (Z.of_nat (length rows))) as [Hlt|]; [|lia].
  set (n := Z.of_nat (length rows)) in *. set (s := Z.max 1 (n / m)).
  pose proof (Z.div_mod n m ltac:(lia)). pose proof (Z.mod_pos_bound n m Hm).
  assert (1 <= n / m) by (apply Z.div_le_lower_bound; lia).
  assert (s = n / m) as Es by lia.
  destruct (every_from_length 0 (Z.to_nat s) rows ltac:(lia) ltac:(lia)) as [Hl|[Hl _]];
    fold (every (Z.to_nat s) rows) in Hl; [|lia].
  assert (Z.of_nat (length (every (Z.to_nat s) rows)) * s < n + s) by nia.
  rewrite Es in *. nia.
Qed.

(** A row as a chart point; a missing value reads as zero. *)
Definition as_point (r : Z * option Q) : Z * Q := (fst r, default 0%Q (snd r)).

Lemma read_telemetry_points metric from_ts to_ts m d pts :
  0 < m -> read_telemetry metric from_ts to_ts m d = inr pts ->
  Z.of_nat (length pts) < 2 * m /\
  pts `sublist_of` (as_point <$> read_rows metric from_ts to_ts d).
Proof.
  intros Hm. unfold read_telemetry. case_match; [done|]. case_match; [done|].
  intros [= <-]. rewrite length_fmap. split.
  - by apply decimate_length.
  - apply fmap_sublist. unfold decimate. case_match; [apply every_from_sublist|done].
Qed.

(** read_telemetry returns fewer than twice the requested points, in order, each
    taken from a stored row of the tier it reads. *)
Theorem read_telemetry_bounded metric from_ts to_ts m d pts :
  0 < m -> read_telemetry metric from_ts to_ts m d = inr pts ->
  Z.of_nat (length pts) < 2 * m /\
  pts `sublist_of` (as_point <$> read_rows metric from_ts to_ts d).
Proof. apply read_telemetry_points. Qed.
