(* ===== verification/Retention.v ===== *)
(** * The retention service over time (services/retention.py)

    [RetentionService]: its start, its loop, a tick that fails, its end, as a step
    function on a state with a clock.  A tick is the sequence of its database
    operations, each run in a worker thread, between which the pollers and every other
    writer of the database go on.

    Theorems: the operations of a tick are [retention_tick]; ticks are at least
    [PERIOD_S] apart; and over any history in which no rollup window is missed, the
    1-minute table holds for every minute of the run exactly the aggregate of the
    samples written in it, unless the start of a rollup window fell inside the minute:
    then it holds the aggregate of some of its last samples.  At most one minute in
    five is cut in this way. *)

From S2P Require Import Prelude PyNum Registers Poller Database DatabaseFacts.
From Stdlib Require Import Sorted.

Local Open Scope Z_scope.

Definition PERIOD_S : Z := 5 * 60.

(** ** A tick as its database operations *)

Inductive RetOp : Type :=
| OpAggregate1m (now : Z) | OpAggregate1h (now : Z)
| OpPruneRaw (now : Z) | OpPrune1m (now : Z) | OpPrune1h (now : Z) | OpPruneEvents (now : Z)
| OpCheckpoint (now : Z).

Definition op_now (op : RetOp) : Z :=
  match op with
  | OpAggregate1m n | OpAggregate1h n | OpPruneRaw n | OpPrune1m n | OpPrune1h n | OpPruneEvents n
  | OpCheckpoint n => n
  end.

Section retention.
Variable cfg : RetentionConfig.

Definition run_op (op : RetOp) (d : Database) : Database :=
  match op with
  | OpAggregate1m now => aggregate_rollup_1m (now - sec 3600) (now - sec 60) d
  | OpAggregate1h now => aggregate_rollup_1h (now - sec (2 * 3600)) now d
  | OpPruneRaw now => prune_raw_telemetry (now - days (raw_days cfg)) d
  | OpPrune1m now => prune_rollup_1m (now - days (rollup_1m_days cfg)) d
  | OpPrune1h now => prune_rollup_1h (now - days (rollup_1h_days cfg)) d
  | OpPruneEvents now => prune_events (now - days (events_days cfg)) d
  | OpCheckpoint _ => d
  end.

(** What [_tick] awaits, in its order. *)
Definition tick_ops (now : Z) : list RetOp :=
  [OpAggregate1m now; OpAggregate1h now; OpPruneRaw now; OpPrune1m now] ++
  (if 0 <? rollup_1h_days cfg then [OpPrune1h now] else []) ++
  (if 0 <? events_days cfg then [OpPruneEvents now] else []) ++
  [OpCheckpoint now].

(** Undisturbed, they are the tick. *)
Lemma tick_is_its_ops now d : foldl (fun d op => run_op op d) d (tick_ops now) = retention_tick cfg now d.
Proof. unfold tick_ops, retention_tick. by repeat case_match. Qed.

(** ** The service *)

(** [Idle]: no task; [Starting]: inside the first tick, which [start] awaits;
    [Sleeping]: the loop until its wake-up; [Ticking]: the loop inside a tick. *)
Inductive RetPhase : Type := Idle | Starting | Sleeping (wake : Z) | Ticking.

(** The last four fields are history: the end of the last 1-minute rollup window, the
    ticks begun, the ticks whose hourly rollup ran, the samples written. *)
Record Retention : Type := {
  rs_clock : Z; rs_running : bool; rs_phase : RetPhase; rs_queue : list RetOp; rs_db : Database;
  rs_front : Z; rs_ticks : list Z; rs_hourly : list Z; rs_written : list TelemetryRow
}.

Inductive RetEvent : Type :=
| EvStart | EvStop | EvWake
| EvOp                                        (* the next database operation of the tick *)
| EvFail                                      (* it raises *)
| EvPass (dt : Z)                             (* time passes *)
| EvWrite (ts : Z) (values : gmap string pynum) (state : string) (alarm_raw : Z)
| EvOther (d : Database).                     (* a writer of the other tables *)

Definition begin_tick (phase : RetPhase) (st : Retention) : Retention :=
  {| rs_clock := rs_clock st; rs_running := true; rs_phase := phase; rs_queue := tick_ops (rs_clock st);
     rs_db := rs_db st; rs_front := rs_front st; rs_ticks := rs_ticks st ++ [rs_clock st]; rs_hourly := rs_hourly st;
     rs_written := rs_written st |}.

Definition set_phase (phase : RetPhase) (queue : list RetOp) (running : bool) (st : Retention) : Retention :=
  {| rs_clock := rs_clock st; rs_running := running; rs_phase := phase; rs_queue := queue;
     rs_db := rs_db st; rs_front := rs_front st; rs_ticks := rs_ticks st; rs_hourly := rs_hourly st; rs_written := rs_written st |}.

Definition do_op (op : RetOp) (st : Retention) : Retention :=
  {| rs_clock := rs_clock st; rs_running := rs_running st; rs_phase := rs_phase st; rs_queue := rs_queue st;
     rs_db := run_op op (rs_db st);
     rs_front := match op with OpAggregate1m now => now - sec 60 | _ => rs_front st end;
     rs_ticks := rs_ticks st;
     rs_hourly := match op with OpAggregate1h now => rs_hourly st ++ [now] | _ => rs_hourly st end;
     rs_written := rs_written st |}.

Definition set_db (d : Database) (st : Retention) : Retention :=
  {| rs_clock := rs_clock st; rs_running := rs_running st; rs_phase := rs_phase st; rs_queue := rs_queue st;
     rs_db := d; rs_front := rs_front st; rs_ticks := rs_ticks st; rs_hourly := rs_hourly st; rs_written := rs_written st |}.

(** The loop goes back to sleep: after the first tick [start] creates the task, which
    begins by sleeping. *)
Definition sleep (st : Retention) : RetPhase := Sleeping (rs_clock st + sec PERIOD_S).

Definition sample (ts : Z) (values : gmap string pynum) (state : string) (alarm_raw : Z) : TelemetryRow :=
  {| tl_ts := ts; tl_cols := telemetry_cols values; tl_state := state; tl_alarm_raw := alarm_raw |}.

(** The tables [d] with the samples and 1-minute rows of [d0]. *)
Definition other_tables (d d0 : Database) : Database :=
  db_with_telemetry (db_telemetry d0) (db_with_1m (db_telemetry_1m d0) (db_with_1h (db_telemetry_1h d0) d)).

(** [None] where the event cannot happen. *)
Definition ret_step (ev : RetEvent) (st : Retention) : option Retention :=
  match ev with
  | EvStart => match rs_phase st with
               | Starting => None
               | _ => if rs_running st then Some st else Some (begin_tick Starting st)
               end
  | EvWake => match rs_phase st with
              | Sleeping wake => if (wake <=? rs_clock st) && rs_running st then Some (begin_tick Ticking st) else None
              | _ => None
              end
  | EvOp => match rs_queue st with
            | op :: q => let st' := do_op op st in
                         Some (set_phase (match q with [] => sleep st' | _ => rs_phase st' end) q (rs_running st') st')
            | [] => None
            end
  | EvFail => match rs_queue st, rs_phase st with
              | _ :: _, Starting => Some (set_phase Idle [] (rs_running st) st)   (* [start] raises *)
              | _ :: _, Ticking => Some (set_phase (sleep st) [] (rs_running st) st)   (* logged *)
              | _, _ => None
              end
  | EvStop => match rs_phase st with
              | Starting => None
              | _ => Some (set_phase Idle [] false st)
              end
  | EvPass dt => if 0 <=? dt
                 then Some {| rs_clock := rs_clock st + dt; rs_running := rs_running st; rs_phase := rs_phase st;
                              rs_queue := rs_queue st; rs_db := rs_db st; rs_front := rs_front st;
                              rs_ticks := rs_ticks st; rs_hourly := rs_hourly st; rs_written := rs_written st |}
                 else None
  | EvWrite ts values state alarm_raw =>
      Some {| rs_clock := rs_clock st; rs_running := rs_running st; rs_phase := rs_phase st; rs_queue := rs_queue st;
              rs_db := write_telemetry ts values state alarm_raw (rs_db st); rs_front := rs_front st;
              rs_ticks := rs_ticks st; rs_hourly := rs_hourly st; rs_written := rs_written st ++ [sample ts values state alarm_raw] |}
  | EvOther d => Some (set_db (other_tables d (rs_db st)) st)
  end.

Fixpoint ret_run (evs : list RetEvent) (st : Retention) : option Retention :=
  match evs with
  | [] => Some st
  | ev :: evs => match ret_step ev st with Some st' => ret_run evs st' | None => None end
  end.

(** A service about to start at [t0] on the tables [d]. *)
Definition ret_init (t0 : Z) (d : Database) : Retention :=
  {| rs_clock := t0; rs_running := false; rs_phase := Idle; rs_queue := []; rs_db := d;
     rs_front := t0 - sec 60; rs_ticks := []; rs_hourly := []; rs_written := [] |}.

(** The histories of the theorem: samples are written within a minute of being taken,
    and a tick that begins finds the end of the last rollup window less than an hour
    old (with a tick every five minutes, eleven in a row may fail). *)
Definition prompt_step (ev : RetEvent) (st : Retention) : bool :=
  match ev with
  | EvWrite ts _ _ _ => (rs_clock st - sec 60 <=? ts) && (ts <=? rs_clock st)
  | EvStart | EvWake => rs_clock st - sec 3600 <=? rs_front st
  | _ => true
  end.
Fixpoint prompt (evs : list RetEvent) (st : Retention) : bool :=
  match evs with
  | [] => true
  | ev :: evs => prompt_step ev st && match ret_step ev st with Some st' => prompt evs st' | None => true end
  end.

(** The rollup window of the tick at [n] starts inside the minute [k]. *)
Definition cuts (k n : Z) : bool := (k * sec 60 <? n - sec 3600) && (n - sec 3600 <? (k + 1) * sec 60).
Definition uncut (k : Z) (st : Retention) : bool := forallb (fun n => negb (cuts k n)) (rs_ticks st).

(** ** The invariant *)

(** The samples of the minute [k] in [lo, hi). *)
Definition between (k lo hi : Z) (rows : list TelemetryRow) : list TelemetryRow :=
  List.filter (fun r => (minute_key r =? k) && ((lo <=? tl_ts r) && (tl_ts r <? hi))) rows.

Lemma between_spec k lo hi rows :
  group_rows minute_key k (List.filter (fun r => (lo <=? tl_ts r) && (tl_ts r <? hi)) rows) = between k lo hi rows.
Proof. apply filter_filter_ext. intros r _. apply andb_comm. Qed.

Lemma between_app k lo hi a b : between k lo hi (a ++ b) = between k lo hi a ++ between k lo hi b.
Proof. apply List.filter_app. Qed.

Lemma between_none k lo hi rows :
  (forall r, In r rows -> minute_key r = k -> lo <= tl_ts r -> tl_ts r < hi -> False) -> between k lo hi rows = [].
Proof.
  intros H. unfold between. induction rows as [|r rows IH]; [done|]. cbn [List.filter].
  destruct (Z.eqb_spec (minute_key r) k), (Z.leb_spec lo (tl_ts r)), (Z.ltb_spec (tl_ts r) hi); cbn [andb];
    first [destruct (H r); [by left|done|done|done] | apply IH; intros r' Hr'; apply H; by right].
Qed.

Lemma between_in k lo hi rows r :
  In r (between k lo hi rows) <-> In r rows /\ minute_key r = k /\ lo <= tl_ts r < hi.
Proof.
  unfold between. rewrite filter_In, !andb_true_iff, Z.eqb_eq, Z.leb_le, Z.ltb_lt. tauto.
Qed.

(** Moving the ends of the interval where no sample of the minute lies. *)
Lemma between_ext k lo hi lo' hi' rows :
  (forall r, In r rows -> minute_key r = k -> lo <= tl_ts r < hi <-> lo' <= tl_ts r < hi') ->
  between k lo hi rows = between k lo' hi' rows.
Proof.
  intros H. unfold between. apply List.filter_ext_in. intros r Hr.
  destruct (Z.eqb_spec (minute_key r) k) as [E|E]; [|done]. cbn [andb]. specialize (H r Hr E).
  apply eq_true_iff_eq. by rewrite !andb_true_iff, !Z.leb_le, !Z.ltb_lt.
Qed.

Lemma minute_at_none t tbl : Forall (fun r => m_ts r <> t) tbl -> minute_at t tbl = None.
Proof.
  unfold minute_at, row_at. induction 1 as [|r tbl Hr _ IH]; [done|]. cbn. by rewrite (proj2 (Z.eqb_neq _ _) Hr).
Qed.

Lemma minute_at_pruned older t tbl :
  older <= t -> minute_at t (List.filter (fun r => negb (m_ts r <? older)) tbl) = minute_at t tbl.
Proof.
  intros Ho. unfold minute_at, row_at. induction tbl as [|r tbl IH]; [done|]. cbn.
  destruct (Z.ltb_spec (m_ts r) older); cbn [negb]; [|cbn; by rewrite IH].
  rewrite (proj2 (Z.eqb_neq _ _)) by lia. done.
Qed.

(** A 1-minute rollup replaces the row of a minute it found samples of. *)
Lemma minute_rolled now k d :
  minute_at (k * 60) (db_telemetry_1m (run_op (OpAggregate1m now) d)) =
  match between k (now - sec 3600) (now - sec 60) (db_telemetry d) with
  | [] => minute_at (k * 60) (db_telemetry_1m d)
  | g => Some (minute_row g k)
  end.
Proof.
  cbn [run_op]. unfold aggregate_rollup_1m, minute_at. cbn [db_telemetry_1m db_with_1m].
  rewrite (rollup_spec minute_key m_ts minute_row 60); [|done|reflexivity].
  rewrite between_spec. by destruct (between _ _ _ _).
Qed.

Section minute.
(** The start, the tables it found and the minute watched, which lies after the start. *)
Variables (t0 : Z) (d0 : Database) (k : Z).
Hypothesis Hraw : 1 <= raw_days cfg.
Hypothesis Ht0 : sec 60 <= t0.
Hypothesis Hold : Forall (fun r => 0 <= tl_ts r < t0) (db_telemetry d0).
Hypothesis Hold1m : Forall (fun r => m_ts r * sec 1 < t0) (db_telemetry_1m d0).
Hypothesis Hk : t0 <= k * sec 60.

Definition last_tick (st : Retention) : Z := List.last (rs_ticks st) t0.

(** Where a tick is: before its 1-minute rollup, or past it. *)
Definition queue_ok (st : Retention) : Prop :=
  (rs_queue st = tick_ops (last_tick st) /\ last_tick st - sec 3600 <= rs_front st <= last_tick st - sec 60 /\
   last_tick st ∈ rs_ticks st) \/
  Forall (fun op => op_now op = last_tick st /\ forall m, op <> OpAggregate1m m) (rs_queue st).

(** The raw samples: what was there and what was written, less what is at least a day old. *)
Definition raw_ok (st : Retention) : Prop :=
  exists thr, thr <= last_tick st - days 1 /\
    db_telemetry (rs_db st) = List.filter (fun r => negb (tl_ts r <? thr)) (db_telemetry d0 ++ rs_written st).

(** The row of the minute: its samples from [c] up to the end of the last window. *)
Definition minute_ok (st : Retention) : Prop :=
  Z.quot (last_tick st - days (rollup_1m_days cfg)) (sec 1) <= k * 60 ->
  exists c, (uncut k st = true -> c <= k * sec 60) /\
    (between k c (rs_front st) (rs_written st) = [] -> between k (k * sec 60) (rs_front st) (rs_written st) = []) /\
    minute_at (k * 60) (db_telemetry_1m (rs_db st)) =
      match between k c (rs_front st) (rs_written st) with [] => None | g => Some (minute_row g k) end.

Record ret_inv (st : Retention) : Prop := {
  inv_front : rs_front st <= rs_clock st - sec 60;
  inv_start : t0 <= rs_clock st;
  inv_last : last_tick st <= rs_clock st;
  inv_written : Forall (fun r => 0 <= tl_ts r) (rs_written st);
  inv_queue : queue_ok st;
  inv_raw : raw_ok st;
  inv_minute : minute_ok st
}.

Lemma old_not_in_minute r : In r (db_telemetry d0) -> minute_key r = k -> False.
Proof.
  intros Hr Hq. rewrite Forall_forall in Hold. destruct (Hold r) as [H1 H2]; [by apply list_elem_of_In|].
  unfold minute_key in Hq. apply quot_bucket in Hq; unfold sec in *; lia.
Qed.

Lemma inv_init : ret_inv (ret_init t0 d0).
Proof.
  split; cbn [ret_init rs_clock rs_front rs_written rs_queue rs_db rs_ticks]; try (unfold last_tick, sec; cbn; lia).
  - constructor.
  - right. constructor.
  - exists (Z.min 0 (t0 - days 1)). split; [unfold last_tick; cbn; lia|]. cbn. rewrite app_nil_r. symmetry.
    apply forallb_filter_id. apply forallb_forall. intros r Hr%list_elem_of_In. rewrite Forall_forall in Hold.
    specialize (Hold r Hr). apply negb_true_iff, Z.ltb_ge. lia.
  - intros _. exists (k * sec 60). split_and!; [done|done|]. cbn. apply minute_at_none.
    eapply Forall_impl; [exact Hold1m|]. intros r Hr. cbv beta in Hr. unfold sec in *. lia.
Qed.

(** The selected samples of the minute are those written in the window. *)
Lemma raw_between st lo hi :
  raw_ok st -> last_tick st - days 1 <= lo -> between k lo hi (db_telemetry (rs_db st)) = between k lo hi (rs_written st).
Proof.
  intros (thr & Hthr & ->) Hlo. unfold between at 1. rewrite (filter_filter_ext _ _
    (fun r => (minute_key r =? k) && ((lo <=? tl_ts r) && (tl_ts r <? hi)))).
  - rewrite List.filter_app. fold (between k lo hi (db_telemetry d0)). rewrite between_none; [done|].
    intros r Hr Hq _ _. by apply (old_not_in_minute r).
  - intros r _. destruct (Z.ltb_spec (tl_ts r) thr), (Z.leb_spec lo (tl_ts r)); cbn; rewrite ?andb_false_r; first [done|lia].
Qed.

(** An operation that is not the 1-minute rollup. *)
Lemma op_raw op st :
  op_now op <= last_tick st -> raw_ok st -> raw_ok (do_op op st).
Proof.
  intros Ho (thr & Hthr & E). unfold raw_ok. change (last_tick (do_op op st)) with (last_tick st).
  destruct op; cbn [do_op rs_db rs_written run_op op_now] in *; try (by exists thr).
  exists (Z.max thr (now - days (raw_days cfg))). split; [unfold days, sec in *; nia|].
  rewrite prune_raw_rows, E. apply filter_filter_ext. intros r _.
  apply eq_true_iff_eq. rewrite andb_true_iff, !negb_true_iff, !Z.ltb_ge. lia.
Qed.

Lemma op_minute op st :
  op_now op <= last_tick st -> (forall m, op <> OpAggregate1m m) -> minute_ok st -> minute_ok (do_op op st).
Proof.
  intros Ho Hne Hm Hh. change (last_tick (do_op op st)) with (last_tick st) in Hh. destruct (Hm Hh) as (c & H1 & H2 & H3). exists c.
  assert (rs_front (do_op op st) = rs_front st) as -> by (by destruct op; try (by destruct (Hne now))).
  split_and!; [exact H1|exact H2|]. cbn [do_op rs_db rs_written]. rewrite <- H3.
  destruct op; cbn [run_op op_now] in *; try done; [by destruct (Hne now)|].
  unfold prune_rollup_1m. cbn [db_telemetry_1m db_with_1m]. rewrite prune_table_spec.
  apply minute_at_pruned. etrans; [|exact Hh]. apply Z.quot_le_mono; unfold sec; lia.
Qed.

(** The 1-minute rollup of the last tick. *)
Lemma rollup_minute st n :
  n = last_tick st -> n - sec 3600 <= rs_front st <= n - sec 60 -> n ∈ rs_ticks st ->
  Forall (fun r => 0 <= tl_ts r) (rs_written st) -> raw_ok st -> minute_ok st -> minute_ok (do_op (OpAggregate1m n) st).
Proof.
  intros Hn Hf Hin Hw Hr Hm Hh. change (last_tick (do_op _ st)) with (last_tick st) in Hh.
  destruct (Hm Hh) as (c & H1 & H2 & H3).
  change (rs_front (do_op _ st)) with (n - sec 60). change (rs_written (do_op _ st)) with (rs_written st).
  change (uncut k (do_op _ st)) with (uncut k st).
  change (rs_db (do_op _ st)) with (run_op (OpAggregate1m n) (rs_db st)).
  rewrite minute_rolled, raw_between by (done || (unfold days, sec in *; lia)).
  destruct (between k (n - sec 3600) (n - sec 60) (rs_written st)) as [|r g] eqn:E.
  - assert (forall lo, between k lo (n - sec 60) (rs_written st) = between k lo (rs_front st) (rs_written st)) as Hext.
    { intros lo. apply between_ext. intros r Hr' Hkey. split; intros [Hlo Hhi]; split; try lia.
      destruct (Z.lt_ge_cases (tl_ts r) (rs_front st)) as [|Hge]; [done|].
      assert (In r (between k (n - sec 3600) (n - sec 60) (rs_written st))) as Hbad by (apply between_in; split_and!; (done || lia)).
      by rewrite E in Hbad. }
    exists c. rewrite !Hext. done.
  - exists (n - sec 3600). rewrite E. split_and!; [|done|done]. intros Hu.
    unfold uncut in Hu. rewrite forallb_forall in Hu. specialize (Hu n ltac:(by apply list_elem_of_In)).
    apply negb_true_iff, andb_false_iff in Hu as [Hu|Hu]; [apply Z.ltb_ge in Hu; lia|]. apply Z.ltb_ge in Hu.
    assert (In r (between k (n - sec 3600) (n - sec 60) (rs_written st))) as Hb by (rewrite E; by left).
    apply between_in in Hb as (Hrw & Hkey & Hlo & Hhi).
    rewrite Forall_forall in Hw. specialize (Hw r ltac:(by apply list_elem_of_In)).
    unfold minute_key in Hkey. apply quot_bucket in Hkey; unfold sec in *; lia.
Qed.

(** ** Its preservation *)

Lemma later_ops n : Forall (fun op => op_now op = n /\ forall m, op <> OpAggregate1m m) (tl (tick_ops n)).
Proof. unfold tick_ops. repeat case_match; repeat constructor; done. Qed.

Lemma inv_op st st' : ret_inv st -> ret_step EvOp st = Some st' -> ret_inv st'.
Proof.
  intros [If Is Il Iw Iq Ir Im]. cbn [ret_step]. destruct (rs_queue st) as [|op q] eqn:Eq; [done|].
  set (st1 := do_op op st). intros [= <-].
  assert (op_now op = last_tick st /\ Forall (fun op => op_now op = last_tick st /\ forall m, op <> OpAggregate1m m) q /\
          rs_front st1 <= rs_clock st - sec 60 /\ minute_ok st1) as (Ho & Hq & Hf & Hm).
  { destruct Iq as [(E & Hf & Hin)|Hall]; rewrite Eq in *.
    - injection E as -> ->. split_and!; [done| |cbn; lia|by apply rollup_minute].
      apply later_ops.
    - apply Forall_cons in Hall as [[Ho Hne] Hq]. split_and!; [done|done| |apply op_minute; (done || lia)].
      destruct op; try done. by destruct (Hne now). }
  split; cbn [set_phase rs_clock rs_front rs_written rs_queue rs_ticks]; try done.
  - right. exact Hq.
  - apply (op_raw op st); [lia|done].
Qed.

Lemma inv_begin phase st : ret_inv st -> rs_clock st - sec 3600 <= rs_front st -> ret_inv (begin_tick phase st).
Proof.
  intros [If Is Il Iw Iq Ir Im] Hp.
  assert (last_tick (begin_tick phase st) = rs_clock st) as Hl by (unfold last_tick; cbn; apply last_last).
  split; cbn [begin_tick rs_clock rs_front rs_written]; rewrite ?Hl; try done; try lia.
  - left. rewrite Hl. cbn. split_and!; [done|lia|lia|set_solver].
  - destruct Ir as (thr & H1 & H2). exists thr. rewrite Hl. split; [lia|done].
  - intros Hh. rewrite Hl in Hh. destruct Im as (c & H1 & H2 & H3).
    { etrans; [|exact Hh]. apply Z.quot_le_mono; unfold sec; lia. }
    exists c. split_and!; [|done|done]. intros Hu. apply H1. unfold uncut in *. cbn in Hu.
    rewrite forallb_app in Hu. by apply andb_true_iff in Hu as [Hu _].
Qed.

(** Sleeping, failing and stopping leave the tables alone and at most drop operations. *)
Lemma inv_phase phase running st : ret_inv st -> ret_inv (set_phase phase [] running st).
Proof. intros [If Is Il Iw Iq Ir Im]. split; try done. right. constructor. Qed.

Lemma inv_write ts values state raw st st' :
  ret_inv st -> rs_clock st - sec 60 <= ts <= rs_clock st -> ret_step (EvWrite ts values state raw) st = Some st' ->
  ret_inv st'.
Proof.
  intros [If Is Il Iw Iq Ir Im] Hts [= <-].
  split; cbn [rs_clock rs_front rs_written]; try done.
  - apply Forall_app. split; [done|]. constructor; [cbn; lia|constructor].
  - destruct Ir as (thr & H1 & H2). exists thr. split; [done|]. cbn [rs_db rs_written]. unfold write_telemetry.
    cbn [db_telemetry db_with_telemetry]. rewrite app_assoc, List.filter_app, H2. f_equal. cbn.
    rewrite (proj2 (Z.ltb_ge _ _)); [done|]. unfold last_tick, days, sec in *. cbn [rs_ticks] in *. lia.
  - intros Hh. destruct (Im Hh) as (c & H1 & H2 & H3). exists c. cbn [rs_front rs_written rs_db].
    rewrite !between_app, !(between_none _ _ _ [_]), !app_nil_r; [done| |];
      intros r [<-|[]] _ _ Hlt; cbn in Hlt; lia.
Qed.

Lemma inv_step ev st st' : ret_inv st -> prompt_step ev st = true -> ret_step ev st = Some st' -> ret_inv st'.
Proof.
  intros Hi Hp. destruct ev; cbn [prompt_step] in Hp.
  - apply Z.leb_le in Hp. cbn. destruct (rs_phase st), (rs_running st); intros [= <-]; first [done|by apply inv_begin].
  - cbn. destruct (rs_phase st); intros [= <-]; by apply inv_phase.
  - apply Z.leb_le in Hp. cbn. destruct (rs_phase st); try done. case_match; [|done]. intros [= <-]. by apply inv_begin.
  - by apply inv_op.
  - cbn. destruct (rs_queue st), (rs_phase st); intros [= <-]; by apply inv_phase.
  - cbn. destruct (Z.leb_spec 0 dt); [|done]. intros [= <-]. destruct Hi as [If Is Il Iw Iq Ir Im].
    split; cbn [rs_clock rs_front rs_written]; try done; try lia. unfold last_tick in *. cbn [rs_ticks]. lia.
  - apply andb_true_iff in Hp as [H1%Z.leb_le H2%Z.leb_le]. by apply inv_write.
  - intros [= <-]. by destruct Hi as [If Is Il Iw Iq Ir Im]; split.
Qed.

Lemma inv_run evs : forall st st', ret_inv st -> prompt evs st = true -> ret_run evs st = Some st' -> ret_inv st'.
Proof.
  induction evs as [|ev evs IH]; intros st st' Hi; cbn; [by intros _ [= <-]|].
  intros [H1 H2]%andb_true_iff. destruct (ret_step ev st) as [st1|] eqn:E; [|done]. apply IH; [|done]. by apply (inv_step ev st).
Qed.
End minute.

(** ** Theorems *)

(** C31. Over any history of the retention service and the writers of the database in
    which samples are written within a minute and no hourly window is missed, a minute that
    the rollup windows have passed and that is within its horizon has no 1-minute row if no
    sample was written in it and otherwise the aggregate of its samples from some instant
    on, at least one; it is the aggregate of all of them when no window began inside the
    minute. *)
Theorem rollup_history evs t0 d0 st k :
  1 <= raw_days cfg -> sec 60 <= t0 ->
  Forall (fun r => 0 <= tl_ts r < t0) (db_telemetry d0) -> Forall (fun r => m_ts r * sec 1 < t0) (db_telemetry_1m d0) ->
  ret_run evs (ret_init t0 d0) = Some st -> prompt evs (ret_init t0 d0) = true ->
  t0 <= k * sec 60 -> (k + 1) * sec 60 <= rs_front st ->
  Z.quot (last_tick t0 st - days (rollup_1m_days cfg)) (sec 1) <= k * 60 ->
  let samples := group_rows minute_key k (rs_written st) in
  exists c, let kept := List.filter (fun r => c <=? tl_ts r) samples in
    minute_at (k * 60) (db_telemetry_1m (rs_db st)) =
      match kept with [] => None | _ => Some (minute_row kept k) end /\
    (kept = [] -> samples = []) /\
    (uncut k st = true -> kept = samples).
Proof.
  intros Hraw Ht0 Hold Hold1m Hrun Hprompt Hk Hfront Hh samples.
  assert (ret_inv t0 d0 k st) as [_ _ _ Iw _ _ Im] by (eapply inv_run; eauto using inv_init).
  destruct (Im Hh) as (c & H1 & H2 & H3). exists c. cbv zeta.
  assert (forall r, In r (rs_written st) -> minute_key r = k -> k * sec 60 <= tl_ts r < rs_front st) as Hin.
  { intros r Hr Hq. rewrite Forall_forall in Iw. specialize (Iw r ltac:(by apply list_elem_of_In)).
    unfold minute_key in Hq. apply quot_bucket in Hq; unfold sec in *; lia. }
  assert (List.filter (fun r => c <=? tl_ts r) samples = between k c (rs_front st) (rs_written st)) as ->.
  { unfold samples, group_rows, between. apply filter_filter_ext. intros r Hr%list_elem_of_In.
    destruct (Z.eqb_spec (minute_key r) k) as [E|E]; [|done]. specialize (Hin r Hr E).
    rewrite (proj2 (Z.ltb_lt (tl_ts r) _)) by lia. by rewrite andb_true_r. }
  assert (between k (k * sec 60) (rs_front st) (rs_written st) = samples) as Hall.
  { unfold samples, group_rows, between. apply List.filter_ext_in. intros r Hr.
    destruct (Z.eqb_spec (minute_key r) k) as [E|E]; [|done]. specialize (Hin r Hr E).
    rewrite (proj2 (Z.ltb_lt _ _)), (proj2 (Z.leb_le _ _)) by lia. done. }
  rewrite <- Hall. split_and!; [|exact H2|].
  - rewrite H3. by destruct (between _ _ _ _).
  - intros Hu. specialize (H1 Hu). apply between_ext. intros r Hr Hq. specialize (Hin r Hr Hq). lia.
Qed.

(** Ticks of one life of the service are at least a period apart. *)
Definition spaced (l : list Z) : Prop :=
  forall i j a b, (i < j)%nat -> l !! i = Some a -> l !! j = Some b -> a + sec PERIOD_S <= b.

Lemma spaced_snoc l n : spaced l -> Forall (fun a => a + sec PERIOD_S <= n) l -> spaced (l ++ [n]).
Proof.
  intros Hl Hn i j a b Hij Ha Hb. apply lookup_snoc_Some in Hb as [[Hj Hb]|[-> <-]].
  - rewrite lookup_app_l in Ha by lia. by apply (Hl i j).
  - rewrite lookup_app_l in Ha by lia. by eapply Forall_lookup_1 in Hn.
Qed.

Record paced (st : Retention) : Prop := {
  pc_spaced : spaced (rs_ticks st);
  pc_past : Forall (fun n => n <= rs_clock st) (rs_ticks st);
  pc_first : rs_running st = false -> rs_ticks st = [];
  pc_wake : match rs_phase st with
            | Sleeping wake => Forall (fun n => n + sec PERIOD_S <= wake) (rs_ticks st)
            | _ => True
            end
}.

Lemma paced_begin phase st :
  phase = Starting \/ phase = Ticking -> paced st -> Forall (fun n => n + sec PERIOD_S <= rs_clock st) (rs_ticks st) ->
  paced (begin_tick phase st).
Proof.
  intros Hp [H1 H2 H3 H4] Hn. split; cbn; [by apply spaced_snoc| |done|by destruct Hp as [->| ->]].
  apply Forall_app. split; [done|]. by repeat constructor.
Qed.

(** The loop sleeps for a period. *)
Lemma paced_sleep queue st : paced st -> paced (set_phase (sleep st) queue (rs_running st) st).
Proof.
  intros [H1 H2 H3 H4]. split; cbn; try done. eapply Forall_impl; [exact H2|]. cbv beta. lia.
Qed.

Lemma paced_step ev st st' : ev <> EvStop -> paced st -> ret_step ev st = Some st' -> paced st'.
Proof.
  intros Hne Hi. pose proof Hi as [H1 H2 H3 H4]. destruct ev; [| done | | | | | |]; cbn [ret_step].
  - destruct (rs_running st) eqn:Er; [destruct (rs_phase st); by intros [= <-]|].
    destruct (rs_phase st); intros [= <-]; apply paced_begin; auto; rewrite H3; done.
  - destruct (rs_phase st); try done. destruct (Z.leb_spec wake (rs_clock st)), (rs_running st); try done.
    intros [= <-]. apply paced_begin; auto. eapply Forall_impl; [exact H4|]. cbv beta. lia.
  - destruct (rs_queue st) as [|op q]; [done|]. intros [= <-]. assert (paced (do_op op st)) as Hd by (by split).
    destruct q as [|op' q]; [exact (paced_sleep [] _ Hd)|]. by split.
  - destruct (rs_queue st), (rs_phase st) eqn:E; intros [= <-]; [by split|by apply paced_sleep].
  - destruct (Z.leb_spec 0 dt); [|done]. intros [= <-]. split; cbn; try done. eapply Forall_impl; [exact H2|]. cbv beta. lia.
  - intros [= <-]. by split.
  - intros [= <-]. by split.
Qed.

Lemma paced_run evs : forall st st', Forall (fun ev => ev <> EvStop) evs -> paced st -> ret_run evs st = Some st' -> paced st'.
Proof.
  induction evs as [|ev evs IH]; intros st st' Hev Hp; cbn; [by intros [= <-]|]. apply Forall_cons in Hev as [Hev Hevs].
  destruct (ret_step ev st) eqn:E; [|done]. apply IH; [done|]. by apply (paced_step ev st).
Qed.

Lemma cut_by m l : forallb (fun n => negb (cuts m n)) l = false -> exists i n, l !! i = Some n /\ cuts m n = true.
Proof.
  induction l as [|n l IH]; cbn; [done|]. destruct (cuts m n) eqn:E; cbn; [by exists 0%nat, n|].
  intros (i & n' & H)%IH. by exists (S i), n'.
Qed.

(** Of five consecutive minutes at most one is cut. *)
Theorem cuts_are_sparse evs t0 d0 st k k' :
  Forall (fun ev => ev <> EvStop) evs -> ret_run evs (ret_init t0 d0) = Some st ->
  uncut k st = false -> uncut k' st = false -> k < k' -> k + 5 <= k'.
Proof.
  intros Hev Hrun Hk Hk' Hlt.
  assert (paced st) as [Hs _ _ _].
  { eapply paced_run; [exact Hev| |exact Hrun]. split; cbn; auto. intros i j a b _ Ha. by rewrite lookup_nil in Ha. }
  assert (forall m, uncut m st = false -> exists i n, rs_ticks st !! i = Some n /\ cuts m n = true) as Hc.
  { intros m Hm. by apply cut_by. }
  destruct (Hc k Hk) as (i & n & Hi & Hn), (Hc k' Hk') as (j & n' & Hj & Hn').
  unfold cuts in *. rewrite andb_true_iff, !Z.ltb_lt in Hn, Hn'.
  destruct (lt_eq_lt_dec i j) as [[Hij| ->]|Hji].
  - specialize (Hs i j n n' Hij Hi Hj). unfold PERIOD_S, sec in *. lia.
  - rewrite Hi in Hj. injection Hj as ->. unfold sec in *. lia.
  - specialize (Hs j i n' n Hji Hj Hi). unfold PERIOD_S, sec in *. lia.
Qed.

End retention.
