(* ===== verification/Hourly.v ===== *)
(** * What is left of an hour (services/retention.py, db.py)

    The hourly rollups of the retention service over its history (Retention.v).  The window
    of a rollup begins two hours before the tick, inside an hour; the row of that hour is
    replaced by the aggregate of the minutes the window still sees.

    Theorems: over any history, once the windows begin inside or after an hour, the hourly
    row of that hour is the aggregate of the minutes that the last window with any of them
    saw, not of the hour; ticks five minutes apart leave the last minutes of every hour. *)

From S2P Require Import Prelude PyNum Registers Poller Database DatabaseFacts Retention.

Local Open Scope Z_scope.

(** The minutes of the hour [k] that a window beginning at [from] sees. *)
Definition hour_tail (k from : Z) (tbl : list Rollup1m) : list Rollup1m :=
  List.filter (fun r => (hour_key r =? k) && (Z.quot from (sec 1) <=? m_ts r)) tbl.

(** ** The tables under the operations of a tick *)

(** Replacing rows outside of a set of keys leaves the rows of the set as they were. *)
Lemma filter_inserts {T} (tkey : T -> Z) (p : Z -> bool) rows tbl :
  Forall (fun r => p (tkey r) = false) rows ->
  List.filter (fun r => p (tkey r)) (foldl (insert_or_replace tkey) tbl rows) = List.filter (fun r => p (tkey r)) tbl.
Proof.
  intros H. revert tbl. induction H as [|row rows Hrow _ IH]; intros tbl; [done|]. cbn [foldl]. rewrite IH.
  unfold insert_or_replace. rewrite List.filter_app. cbn [List.filter]. rewrite Hrow, app_nil_r.
  apply filter_filter_ext. intros r _. destruct (Z.eqb_spec (tkey r) (tkey row)) as [->|]; [by rewrite Hrow|done].
Qed.

(** [m_ts] in whole seconds against a window's start. *)
Lemma quot_sec_le a b : 0 <= a -> a * sec 1 <= b -> a <= Z.quot b (sec 1).
Proof. intros Ha Hb. rewrite Z.quot_div_nonneg by (unfold sec in *; lia). apply Z.div_le_lower_bound; unfold sec in *; lia. Qed.

(** A 1-minute rollup whose window begins after the hour leaves its minutes alone. *)
Lemma tail_minute_rollup k from lo hi d :
  0 <= k -> (k + 1) * sec 3600 <= lo ->
  hour_tail k from (db_telemetry_1m (aggregate_rollup_1m lo hi d)) = hour_tail k from (db_telemetry_1m d).
Proof.
  intros Hk Hlo. unfold aggregate_rollup_1m, rollup, hour_tail, hour_key. cbn [db_telemetry_1m db_with_1m].
  apply (filter_inserts m_ts (fun t => (Z.quot t 3600 =? k) && (Z.quot from (sec 1) <=? t))).
  apply Forall_forall. intros r Hr. apply list_elem_of_fmap in Hr as (q & -> & Hq). cbn [m_ts minute_row].
  apply elem_of_remove_dups, list_elem_of_fmap in Hq as (s & -> & Hs%list_elem_of_In).
  apply filter_In in Hs as [_ [H1%Z.leb_le _]%andb_true_iff].
  assert ((k + 1) * 60 <= minute_key s) as Hm.
  { unfold minute_key. rewrite Z.quot_div_nonneg by (unfold sec in *; lia). apply Z.div_le_lower_bound; unfold sec in *; lia. }
  rewrite (proj2 (Z.eqb_neq _ _)); [done|]. rewrite Z.quot_div_nonneg by lia.
  assert (k + 1 <= minute_key s * 60 / 3600) by (apply Z.div_le_lower_bound; lia). lia.
Qed.

(** An hourly rollup after the end of the hour replaces its row by the minutes it sees. *)
Lemma hour_rolled k now d :
  0 <= k -> (k + 2) * sec 3600 <= now ->
  hour_at (k * 3600) (db_telemetry_1h (aggregate_rollup_1h (now - sec (2 * 3600)) now d)) =
  match hour_tail k (now - sec (2 * 3600)) (db_telemetry_1m d) with
  | [] => hour_at (k * 3600) (db_telemetry_1h d)
  | g => Some (hour_row g k)
  end.
Proof.
  intros Hk Hnow. unfold aggregate_rollup_1h, hour_at. cbn [db_telemetry_1h db_with_1h].
  rewrite (rollup_spec hour_key h_ts hour_row 3600); [|done|reflexivity].
  assert (group_rows hour_key k (List.filter (fun r => (Z.quot (now - sec (2 * 3600)) (sec 1) <=? m_ts r) &&
            (m_ts r <? Z.quot now (sec 1))) (db_telemetry_1m d)) =
          hour_tail k (now - sec (2 * 3600)) (db_telemetry_1m d)) as ->; [|by destruct (hour_tail _ _ _)].
  apply filter_filter_ext. intros r _. destruct (Z.eqb_spec (hour_key r) k) as [E|]; [|by rewrite andb_false_r].
  rewrite andb_true_r. cbn [andb]. destruct (Z.leb_spec (Z.quot (now - sec (2 * 3600)) (sec 1)) (m_ts r)) as [Hr|]; [|done].
  assert (k * 3600 <= Z.quot (now - sec (2 * 3600)) (sec 1)) by (apply quot_sec_le; unfold sec in *; lia).
  assert ((k + 2) * 3600 <= Z.quot now (sec 1)) by (apply quot_sec_le; unfold sec in *; lia).
  unfold hour_key in E. apply quot_bucket in E; [|lia|lia]. apply Z.ltb_lt. lia.
Qed.

(** Pruning before the hour. *)
Lemma tail_pruned k from older tbl :
  0 <= k -> k * sec 3600 <= from -> older <= k * 3600 ->
  hour_tail k from (List.filter (fun r => negb (m_ts r <? older)) tbl) = hour_tail k from tbl.
Proof.
  intros Hk Hf Ho. apply filter_filter_ext. intros r _.
  destruct (Z.leb_spec (Z.quot from (sec 1)) (m_ts r)) as [Hr|]; [|by rewrite !andb_false_r].
  assert (k * 3600 <= Z.quot from (sec 1)) by (apply quot_sec_le; unfold sec in *; lia).
  by rewrite (proj2 (Z.ltb_ge _ _)) by lia.
Qed.

Lemma hour_at_pruned older t tbl :
  older <= t -> hour_at t (List.filter (fun r => negb (h_ts r <? older)) tbl) = hour_at t tbl.
Proof.
  intros Ho. unfold hour_at, row_at. induction tbl as [|r tbl IH]; [done|]. cbn.
  destruct (Z.ltb_spec (h_ts r) older); cbn [negb]; [|cbn; by rewrite IH].
  by rewrite (proj2 (Z.eqb_neq _ _)) by lia.
Qed.

(** ** The invariant of the history *)

Section hour.
Variables (cfg : RetentionConfig) (t0 k : Z).
Hypothesis Hk : 0 <= k.

(** The hour is within the horizons of both tables. *)
Definition kept_at (now : Z) : Prop :=
  Z.quot (now - days (rollup_1m_days cfg)) (sec 1) <= k * 3600 /\
  (0 < rollup_1h_days cfg -> Z.quot (now - days (rollup_1h_days cfg)) (sec 1) <= k * 3600).

Lemma kept_at_le a b : a <= b -> kept_at b -> kept_at a.
Proof.
  intros Hab [H1 H2]. split; [|intros Hd; specialize (H2 Hd)]; (etrans; [|eassumption]); apply Z.quot_le_mono; unfold sec; lia.
Qed.

(** What the windows that ran left of the hour [k]: [c] is the last that saw any of it. *)
Definition left_by (hourly : list Z) (d : Database) : Prop :=
  forall n, n ∈ hourly -> (k + 2) * sec 3600 <= n -> hour_tail k (n - sec (2 * 3600)) (db_telemetry_1m d) <> [] ->
  exists c, c ∈ hourly /\ n <= c /\ hour_tail k (c - sec (2 * 3600)) (db_telemetry_1m d) <> [] /\
    (forall m, m ∈ hourly -> c < m -> hour_tail k (m - sec (2 * 3600)) (db_telemetry_1m d) = []) /\
    hour_at (k * 3600) (db_telemetry_1h d) = Some (hour_row (hour_tail k (c - sec (2 * 3600)) (db_telemetry_1m d)) k).

Record hour_inv (st : Retention) : Prop := {
  hi_past : last_tick t0 st <= rs_clock st;
  hi_done : Forall (fun n => n <= last_tick t0 st) (rs_hourly st);
  hi_queue : Forall (fun op => op ∈ tick_ops cfg (last_tick t0 st)) (rs_queue st);
  hi_left : kept_at (last_tick t0 st) -> left_by (rs_hourly st) (rs_db st)
}.

(** Tables with the same minutes of the hour and the same row. *)
Lemma left_by_ext hourly d d' :
  (forall n, n ∈ hourly -> (k + 2) * sec 3600 <= n ->
     hour_tail k (n - sec (2 * 3600)) (db_telemetry_1m d') = hour_tail k (n - sec (2 * 3600)) (db_telemetry_1m d)) ->
  hour_at (k * 3600) (db_telemetry_1h d') = hour_at (k * 3600) (db_telemetry_1h d) ->
  left_by hourly d -> left_by hourly d'.
Proof.
  intros Ht Hh Hl n Hn Hlate. rewrite (Ht n) by done. intros Hne.
  destruct (Hl n Hn Hlate Hne) as (c & H1 & H2 & H3 & H4 & H5).
  assert ((k + 2) * sec 3600 <= c) as Hc by lia. exists c. rewrite (Ht c), Hh by done. split_and!; try done.
  intros m Hm Hcm. rewrite (Ht m); [by apply H4|done|lia].
Qed.

(** The hourly rollup of the last tick. *)
Lemma left_by_rollup hourly d now :
  Forall (fun n => n <= now) hourly -> left_by hourly d ->
  left_by (hourly ++ [now]) (aggregate_rollup_1h (now - sec (2 * 3600)) now d).
Proof.
  intros Hp Hl n Hn Hlate. change (db_telemetry_1m (aggregate_rollup_1h _ _ d)) with (db_telemetry_1m d). intros Hne.
  assert (n <= now) as Hle.
  { apply elem_of_app in Hn as [Hn|Hn%list_elem_of_singleton]; [|lia]. rewrite Forall_forall in Hp. by apply Hp. }
  rewrite hour_rolled by lia. destruct (hour_tail k (now - _) (db_telemetry_1m d)) as [|r g] eqn:E.
  - apply elem_of_app in Hn as [Hn|Hn%list_elem_of_singleton]; [|by subst].
    destruct (Hl n Hn Hlate Hne) as (c & H1 & H2 & H3 & H4 & H5). exists c. split_and!; try done; [set_solver|].
    intros m [Hm|Hm%list_elem_of_singleton]%elem_of_app Hcm; [by apply H4|by subst].
  - exists now. rewrite E. split_and!; try done; [set_solver|].
    intros m [Hm|Hm%list_elem_of_singleton]%elem_of_app Hcm; [|lia].
    rewrite Forall_forall in Hp. specialize (Hp m Hm). cbv beta in Hp. lia.
Qed.

(** An operation of the tick at [now]; the hourly rows are pruned only under a horizon. *)
Lemma tick_op now op :
  op ∈ tick_ops cfg now -> op_now op = now /\ (op = OpPrune1h now -> 0 < rollup_1h_days cfg).
Proof.
  unfold tick_ops. rewrite !elem_of_app.
  destruct (Z.ltb_spec 0 (rollup_1h_days cfg)), (0 <? events_days cfg); set_solver.
Qed.

Lemma left_by_op op st :
  op ∈ tick_ops cfg (last_tick t0 st) -> kept_at (last_tick t0 st) -> Forall (fun n => n <= last_tick t0 st) (rs_hourly st) ->
  left_by (rs_hourly st) (rs_db st) -> left_by (rs_hourly (do_op cfg op st)) (rs_db (do_op cfg op st)).
Proof.
  intros [Ho H1]%tick_op [Hm Hh] Hp Hl. pose proof (proj1 (Forall_forall _ _) Hp) as Hp'. cbv beta in Hp'.
  destruct op; cbn [do_op rs_hourly rs_db run_op op_now] in *; subst now; try exact Hl.
  - apply (left_by_ext _ (rs_db st)); [|done|done]. intros n Hn Hlate. apply tail_minute_rollup; [done|].
    specialize (Hp' n Hn). unfold sec in *. lia.
  - by apply left_by_rollup.
  - apply (left_by_ext _ (rs_db st)); [|done|done]. intros n Hn Hlate.
    unfold prune_rollup_1m. cbn [db_telemetry_1m db_with_1m]. rewrite prune_table_spec.
    apply tail_pruned; unfold sec in *; lia.
  - apply (left_by_ext _ (rs_db st)); [done| |done].
    unfold prune_rollup_1h. cbn [db_telemetry_1h db_with_1h]. rewrite prune_table_spec. by apply hour_at_pruned, Hh, H1.
Qed.

(** ** Its preservation *)

Lemma hour_inv_init d : hour_inv (ret_init t0 d).
Proof. split; cbn; [done|by constructor|by constructor|]. intros _ n Hn. by apply elem_of_nil in Hn. Qed.

(** Steps that leave the history of the rollups and the two tables alone. *)
Lemma hour_inv_same st st' :
  rs_clock st <= rs_clock st' -> rs_ticks st' = rs_ticks st -> rs_hourly st' = rs_hourly st ->
  (rs_queue st' = rs_queue st \/ rs_queue st' = []) ->
  db_telemetry_1m (rs_db st') = db_telemetry_1m (rs_db st) -> db_telemetry_1h (rs_db st') = db_telemetry_1h (rs_db st) ->
  hour_inv st -> hour_inv st'.
Proof.
  intros Hc Ht Hh Hq Hm Hd [H1 H2 H3 H4].
  assert (last_tick t0 st' = last_tick t0 st) as E by (unfold last_tick; by rewrite Ht).
  split; rewrite ?E, ?Hh; [lia|done|destruct Hq as [->| ->]; [done|constructor]|].
  intros Hkept. apply (left_by_ext _ (rs_db st)); [by rewrite Hm|by rewrite Hd|by apply H4].
Qed.

Ltac by_same := eapply hour_inv_same; [..|eassumption]; cbn; solve [auto|lia].

Lemma hour_inv_begin phase st : hour_inv st -> hour_inv (begin_tick cfg phase st).
Proof.
  intros [H1 H2 H3 H4].
  assert (last_tick t0 (begin_tick cfg phase st) = rs_clock st) as E by (unfold last_tick; cbn; apply last_last).
  split; rewrite ?E; cbn [begin_tick rs_clock rs_hourly rs_queue rs_db]; [lia| |by apply Forall_forall|].
  - eapply Forall_impl; [exact H2|]. cbv beta. lia.
  - intros Hkept. apply H4. by eapply kept_at_le.
Qed.

Lemma hour_inv_op st st' : hour_inv st -> ret_step cfg EvOp st = Some st' -> hour_inv st'.
Proof.
  intros [H1 H2 H3 H4]. cbn [ret_step]. destruct (rs_queue st) as [|op q] eqn:Eq; [done|]. intros [= <-].
  apply Forall_cons in H3 as [Hop Hq]. pose proof (proj1 (tick_op _ _ Hop)) as Hnow. split; try done.
  - change (Forall (fun n => n <= last_tick t0 st) (rs_hourly (do_op cfg op st))).
    destruct op; cbn [do_op rs_hourly op_now] in *; try done. apply Forall_snoc; [done|lia].
  - intros Hkept. change (left_by (rs_hourly (do_op cfg op st)) (rs_db (do_op cfg op st))).
    apply left_by_op; try done. by apply H4.
Qed.

Lemma hour_inv_step ev st st' : hour_inv st -> ret_step cfg ev st = Some st' -> hour_inv st'.
Proof.
  intros Hi. destruct ev; cbn [ret_step].
  - destruct (rs_phase st), (rs_running st); intros [= <-]; first [done|by apply hour_inv_begin].
  - destruct (rs_phase st); intros [= <-]; by_same.
  - destruct (rs_phase st); try done. case_match; [|done]. intros [= <-]. by apply hour_inv_begin.
  - by apply hour_inv_op.
  - destruct (rs_queue st), (rs_phase st); intros [= <-]; by_same.
  - destruct (Z.leb_spec 0 dt); [|done]. intros [= <-]. by_same.
  - intros [= <-]. by_same.
  - intros [= <-]. by_same.
Qed.

Lemma hour_inv_run evs : forall st st', hour_inv st -> ret_run cfg evs st = Some st' -> hour_inv st'.
Proof.
  induction evs as [|ev evs IH]; intros st st' Hi; cbn; [by intros [= <-]|].
  destruct (ret_step cfg ev st) as [st1|] eqn:E; [|done]. apply IH. by apply (hour_inv_step ev st).
Qed.
End hour.

(** ** Theorems *)

(** C32. Over any history of the retention service and the writers of the database, from
    any tables: once an hourly rollup ran two hours after the beginning of an hour or later
    and saw minutes of it, the hourly row of that hour, within its horizon, is the aggregate
    of the minutes that the window of the last such rollup saw: those of the hour from the
    beginning of the window on, a beginning at least as late as that of any other rollup
    that saw minutes of it. *)
Theorem hour_row_is_its_tail cfg evs t0 d0 st k n :
  ret_run cfg evs (ret_init t0 d0) = Some st -> 0 <= k -> kept_at cfg k (last_tick t0 st) ->
  n ∈ rs_hourly st -> (k + 2) * sec 3600 <= n ->
  hour_tail k (n - sec (2 * 3600)) (db_telemetry_1m (rs_db st)) <> [] ->
  exists c, c ∈ rs_hourly st /\ n <= c /\
    let kept := hour_tail k (c - sec (2 * 3600)) (db_telemetry_1m (rs_db st)) in
    kept <> [] /\ hour_at (k * 3600) (db_telemetry_1h (rs_db st)) = Some (hour_row kept k) /\
    Forall (fun r => n - sec (2 * 3600) < (m_ts r + 1) * sec 1) kept /\
    (forall m, m ∈ rs_hourly st -> c < m -> hour_tail k (m - sec (2 * 3600)) (db_telemetry_1m (rs_db st)) = []).
Proof.
  intros Hrun Hk Hkept Hn Hlate Hne.
  destruct (hi_left cfg t0 k st) with (n := n) as (c & H1 & H2 & H3 & H4 & H5); try done.
  { eapply hour_inv_run; [done|apply hour_inv_init|exact Hrun]. }
  exists c. cbv zeta. split_and!; try done.
  apply Forall_forall. intros r Hr%list_elem_of_In. apply filter_In in Hr as [_ [_ Hr%Z.leb_le]%andb_true_iff].
  rewrite Z.quot_div_nonneg in Hr by (unfold sec in *; lia).
  pose proof (Z.mul_succ_div_gt (c - sec (2 * 3600)) (sec 1) ltac:(unfold sec; lia)). unfold sec in *. nia.
Qed.
