(* ===== verification/Events.v ===== *)
(** * Events and the event bus

    The messages that the services emit, the outbox in which one synchronous
    handler collects its database writes and messages, the heap of the comms
    records the poller shares with its listeners, and the publish/subscribe
    fan-out ([EventBus] of services/state.py). *)

From S2P Require Import Prelude PyNum Poller Database.

Local Open Scope Z_scope.

(** ** Messages *)

(** The dictionaries put on the bus, by their ["type"]. *)
Inductive BusEvent : Type :=
| EvTransition (from to : string) (ts : Z)
| EvAlarm (code desc severity : string) (ts : Z)
| EvAlarmCleared (code desc : string) (ts : Z)
| EvComms (from to : string) (success_pct : Z) (ts : Z)
| EvLoadSource (from to : string) (ts : Z)
| EvAtsPosition (from to : string) (ts : Z)
| EvAtsSource (source : string) (available : bool) (code : string) (ts : Z)
| EvAtsMode (from to : string) (ts : Z)
| EvAtsCommandExternal (command : string) (active : bool) (ts : Z)
| EvAtsReboot (prev_uptime_s new_uptime_s : Z) (ts : Z)
| EvAtsComms (from to : string) (success_pct : Z) (ts : Z)
| EvAtsIcdVersion (major minor : Z) (compatibility : string) (ts : Z)
| EvCommand (command operator : string) (ts : Z)
| EvAtsCommand (command : string) (asserted : bool) (operator : string) (ts : Z)
| EvSnapshot (ts : Z).

(** ** Outbox of a handler *)

Record Outbox : Type := { ob_db : Database; ob_emitted : list BusEvent }.

Definition emit (e : BusEvent) (ob : Outbox) : Outbox :=
  {| ob_db := ob_db ob; ob_emitted := ob_emitted ob ++ [e] |}.
Definition on_db (f : Database -> Database) (ob : Outbox) : Outbox :=
  {| ob_db := f (ob_db ob); ob_emitted := ob_emitted ob |}.

(** ** Shared comms records

    The poller creates one [CommsHealth], mutates it in place and hands the same
    object to its callback on every poll; a listener that keeps it keeps a
    reference.  A location of the heap stands for the object. *)

Abbreviation comms_heap := (gmap nat CommsHealth).
Definition comms_at (h : comms_heap) (l : nat) : CommsHealth := h !!! l.

(** ** The bus *)

Definition BUS_QUEUE_MAX : nat := 64.

(** Subscriber queues by identity; a queue holds what its client has not read. *)
Record EventBus : Type := {
  bus_next : nat;
  bus_subs : gmap nat (list BusEvent)
}.

Definition EventBus_init : EventBus := {| bus_next := 0; bus_subs := ∅ |}.

Definition subscribe (b : EventBus) : nat * EventBus :=
  (bus_next b, {| bus_next := S (bus_next b); bus_subs := <[bus_next b := []]> (bus_subs b) |}).
Definition unsubscribe (q : nat) (b : EventBus) : EventBus :=
  {| bus_next := bus_next b; bus_subs := delete q (bus_subs b) |}.

(** [put_nowait]: [None] when the queue is full. *)
Definition put_nowait (e : BusEvent) (q : list BusEvent) : option (list BusEvent) :=
  if (length q <? BUS_QUEUE_MAX)%nat then Some (q ++ [e]) else None.

(** [publish]: every queue with room gets the message, a full one is dropped. *)
Definition publish (e : BusEvent) (b : EventBus) : EventBus :=
  {| bus_next := bus_next b; bus_subs := omap (put_nowait e) (bus_subs b) |}.

Definition publish_all (es : list BusEvent) (b : EventBus) : EventBus :=
  foldl (fun b e => publish e b) b es.

Definition bus_ok (b : EventBus) : Prop :=
  (forall q l, bus_subs b !! q = Some l -> (length l <= BUS_QUEUE_MAX)%nat) /\
  (forall q, (bus_next b <= q)%nat -> bus_subs b !! q = None).

Lemma subscribe_ok b : bus_ok b -> bus_ok (snd (subscribe b)) /\ bus_subs b !! fst (subscribe b) = None.
Proof.
  intros [Hlen Hnext]. split; [split; cbn|by apply Hnext].
  - intros q l. rewrite lookup_insert_Some. intros [[<- <-]|[_ ?]]; [simpl; lia|by eapply Hlen].
  - intros q Hq. rewrite lookup_insert_ne by lia. apply Hnext. lia.
Qed.

Lemma unsubscribe_ok q b : bus_ok b -> bus_ok (unsubscribe q b).
Proof.
  intros [Hlen Hnext]. split; cbn.
  - intros q' l [_ ?]%lookup_delete_Some. by eapply Hlen.
  - intros q' Hq. rewrite lookup_delete_None. right. by apply Hnext.
Qed.

Lemma publish_lookup e b q :
  bus_subs (publish e b) !! q =
  match bus_subs b !! q with
  | Some l => if (length l <? BUS_QUEUE_MAX)%nat then Some (l ++ [e]) else None
  | None => None
  end.
Proof. cbn. rewrite lookup_omap. by destruct (bus_subs b !! q). Qed.

Lemma publish_ok e b : bus_ok b -> bus_ok (publish e b).
Proof.
  intros [Hlen Hnext]. split.
  - intros q l. rewrite publish_lookup. destruct (bus_subs b !! q) as [l0|]; [|done].
    destruct (Nat.ltb_spec (length l0) BUS_QUEUE_MAX); [|done].
    intros [= <-]. rewrite length_app. simpl. lia.
  - intros q Hq. rewrite publish_lookup, (Hnext q Hq). done.
Qed.

(** A subscriber that is still there after a run of messages has received every one
    of them, in order, behind what it had; it is gone exactly when its queue was too
    full for the run.  Other subscribers have no influence. *)
Lemma publish_all_delivery es b q l :
  bus_ok b -> bus_subs b !! q = Some l ->
  bus_ok (publish_all es b) /\
  bus_subs (publish_all es b) !! q =
    if decide (length l + length es <= BUS_QUEUE_MAX)%nat then Some (l ++ es) else None.
Proof.
  unfold publish_all. revert b l. induction es as [|e es IH]; intros b l Hb Hl.
  { split; [done|]. rewrite decide_True; [by rewrite app_nil_r|].
    destruct Hb as [Hlen _]. specialize (Hlen _ _ Hl). cbn. lia. }
  cbn [foldl]. pose proof (publish_lookup e b q) as Hq. rewrite Hl in Hq.
  destruct (Nat.ltb_spec (length l) BUS_QUEUE_MAX).
  - destruct (IH _ _ (publish_ok e b Hb) Hq) as [Hok ->]. split; [done|].
    rewrite length_app, <- app_assoc. cbn [app length].
    repeat case_decide; (done || lia).
  - split.
    + assert (bus_ok (publish e b)) as Hb' by by apply publish_ok.
      clear -Hb'. revert Hb'. generalize (publish e b). clear. induction es as [|e es IH]; [done|].
      intros b Hb. apply IH, publish_ok, Hb.
    + rewrite decide_False by (cbn; lia). revert Hq. generalize (publish e b). clear.
      induction es as [|e es IH]; [done|]. intros b Hb. cbn. apply IH.
      by rewrite publish_lookup, Hb.
Qed.
