(* ===== verification/StateMachine.v ===== *)
(** * The engine state machine and alarm tracker (services/state.py)

    [update] is the composition of the stages of [StateMachine.update], in the
    order of the source; each stage maps the machine and the outbox.  One reading
    [now] of the wall clock stands for the several a call makes. *)

From S2P Require Import Prelude PyNum Registers Poller Database Events.

Local Open Scope Z_scope.
Local Open Scope gw_scope.

(** ** Constants *)

Definition LOAD_ON_KW_THRESHOLD : pynum := PFloat (f_of_Z 2).
Definition LOAD_ON_CURRENT_THRESHOLD : pynum := PFloat (f_of_Z 5).
Definition LOAD_OFF_KW_THRESHOLD : pynum := PFloat (f_of_Z 1).
Definition LOAD_OFF_CURRENT_THRESHOLD : pynum := PFloat (f_of_Z 2).
Definition LOADSOURCE_DISAGREE_DEBOUNCE_POLLS : Z := 3.
Definition LOADSOURCE_DISAGREE_ALARM_CODE : string := "ATS_LOADSOURCE_DISAGREE".
Definition NUMERIC_ALARM_STATES : list string := ["running"; "exercising"]%string.
Definition NUMERIC_ALARM_MIN_POLLS : Z := 3.
Definition NUMERIC_ALARM_CODE_PREFIX : string := "RANGE_".

(** ** State *)

Record StateSnapshot : Type := {
  ss_engine_state : string;
  ss_state_started_at : Z;
  ss_active_alarms : gset string;
  ss_last_reading : Reading;
  ss_comms : nat;                     (* location of the comms record *)
  ss_panel_mode : string;
  ss_load_source : string;
  ss_load_source_started_at : Z
}.

Record StateMachine : Type := {
  sm_regmap : RegisterMap;
  sm_snap : StateSnapshot;
  sm_alarm_poll_counts : gmap string Z;
  sm_raised_this_session : gset string;
  sm_loadsource_disagree_count : Z;
  sm_loadsource_disagree_raised : bool;
  sm_numeric_poll_counts : gmap string Z;
  sm_numeric_raised : odict string string
}.

(** [StateSnapshot()]: the comms record of a fresh snapshot lives at [comms0]. *)
Definition StateMachine_init (rm : RegisterMap) (comms0 : nat) (now : Z) : StateMachine :=
  {| sm_regmap := rm;
     sm_snap := {| ss_engine_state := "unknown"; ss_state_started_at := now;
                   ss_active_alarms := ∅;
                   ss_last_reading := {| rd_values := ∅; rd_ts := now; rd_value_ages := ∅ |};
                   ss_comms := comms0; ss_panel_mode := "unknown"; ss_load_source := "unknown";
                   ss_load_source_started_at := now |};
     sm_alarm_poll_counts := ∅; sm_raised_this_session := ∅; sm_loadsource_disagree_count := 0;
     sm_loadsource_disagree_raised := false; sm_numeric_poll_counts := ∅; sm_numeric_raised := [] |}.

(** Field updates. *)
Definition with_snap (f : StateSnapshot -> StateSnapshot) (m : StateMachine) : StateMachine :=
  {| sm_regmap := sm_regmap m; sm_snap := f (sm_snap m);
     sm_alarm_poll_counts := sm_alarm_poll_counts m;
     sm_raised_this_session := sm_raised_this_session m;
     sm_loadsource_disagree_count := sm_loadsource_disagree_count m;
     sm_loadsource_disagree_raised := sm_loadsource_disagree_raised m;
     sm_numeric_poll_counts := sm_numeric_poll_counts m; sm_numeric_raised := sm_numeric_raised m |}.
Definition with_raised (s : gset string) (m : StateMachine) : StateMachine :=
  {| sm_regmap := sm_regmap m; sm_snap := sm_snap m;
     sm_alarm_poll_counts := sm_alarm_poll_counts m; sm_raised_this_session := s;
     sm_loadsource_disagree_count := sm_loadsource_disagree_count m;
     sm_loadsource_disagree_raised := sm_loadsource_disagree_raised m;
     sm_numeric_poll_counts := sm_numeric_poll_counts m; sm_numeric_raised := sm_numeric_raised m |}.
Definition with_counts (c : gmap string Z) (m : StateMachine) : StateMachine :=
  {| sm_regmap := sm_regmap m; sm_snap := sm_snap m; sm_alarm_poll_counts := c;
     sm_raised_this_session := sm_raised_this_session m;
     sm_loadsource_disagree_count := sm_loadsource_disagree_count m;
     sm_loadsource_disagree_raised := sm_loadsource_disagree_raised m;
     sm_numeric_poll_counts := sm_numeric_poll_counts m; sm_numeric_raised := sm_numeric_raised m |}.
Definition with_disagree (n : Z) (r : bool) (m : StateMachine) : StateMachine :=
  {| sm_regmap := sm_regmap m; sm_snap := sm_snap m;
     sm_alarm_poll_counts := sm_alarm_poll_counts m;
     sm_raised_this_session := sm_raised_this_session m;
     sm_loadsource_disagree_count := n; sm_loadsource_disagree_raised := r;
     sm_numeric_poll_counts := sm_numeric_poll_counts m; sm_numeric_raised := sm_numeric_raised m |}.
Definition with_numeric (c : gmap string Z) (r : odict string string) (m : StateMachine)
    : StateMachine :=
  {| sm_regmap := sm_regmap m; sm_snap := sm_snap m;
     sm_alarm_poll_counts := sm_alarm_poll_counts m;
     sm_raised_this_session := sm_raised_this_session m;
     sm_loadsource_disagree_count := sm_loadsource_disagree_count m;
     sm_loadsource_disagree_raised := sm_loadsource_disagree_raised m;
     sm_numeric_poll_counts := c; sm_numeric_raised := r |}.

Definition set_engine (s : string) (started : Z) (x : StateSnapshot) : StateSnapshot :=
  {| ss_engine_state := s; ss_state_started_at := started; ss_active_alarms := ss_active_alarms x;
     ss_last_reading := ss_last_reading x; ss_comms := ss_comms x; ss_panel_mode := ss_panel_mode x;
     ss_load_source := ss_load_source x; ss_load_source_started_at := ss_load_source_started_at x |}.
Definition set_active (a : gset string) (x : StateSnapshot) : StateSnapshot :=
  {| ss_engine_state := ss_engine_state x; ss_state_started_at := ss_state_started_at x;
     ss_active_alarms := a; ss_last_reading := ss_last_reading x; ss_comms := ss_comms x;
     ss_panel_mode := ss_panel_mode x; ss_load_source := ss_load_source x;
     ss_load_source_started_at := ss_load_source_started_at x |}.
Definition set_panel (p : string) (x : StateSnapshot) : StateSnapshot :=
  {| ss_engine_state := ss_engine_state x; ss_state_started_at := ss_state_started_at x;
     ss_active_alarms := ss_active_alarms x; ss_last_reading := ss_last_reading x;
     ss_comms := ss_comms x; ss_panel_mode := p; ss_load_source := ss_load_source x;
     ss_load_source_started_at := ss_load_source_started_at x |}.
Definition set_load_source (s : string) (started : Z) (x : StateSnapshot) : StateSnapshot :=
  {| ss_engine_state := ss_engine_state x; ss_state_started_at := ss_state_started_at x;
     ss_active_alarms := ss_active_alarms x; ss_last_reading := ss_last_reading x;
     ss_comms := ss_comms x; ss_panel_mode := ss_panel_mode x; ss_load_source := s;
     ss_load_source_started_at := started |}.
Definition set_poll (l : nat) (r : Reading) (x : StateSnapshot) : StateSnapshot :=
  {| ss_engine_state := ss_engine_state x; ss_state_started_at := ss_state_started_at x;
     ss_active_alarms := ss_active_alarms x; ss_last_reading := r; ss_comms := l;
     ss_panel_mode := ss_panel_mode x; ss_load_source := ss_load_source x;
     ss_load_source_started_at := ss_load_source_started_at x |}.

(** [time_in_state_s], [time_in_load_source_s] and [alarm_raw] of the snapshot. *)
Definition time_in_state_s (now : Z) (x : StateSnapshot) : Z :=
  Z.quot (now - ss_state_started_at x) (sec 1).
Definition time_in_load_source_s (now : Z) (x : StateSnapshot) : Z :=
  Z.quot (now - ss_load_source_started_at x) (sec 1).
Definition alarm_raw (x : StateSnapshot) : Z :=
  if bool_decide (ss_active_alarms x = ∅) then 0 else 1.

(** [apply_regmap] *)
Definition sm_apply_regmap (rm : RegisterMap) (m : StateMachine) : StateMachine :=
  {| sm_regmap := rm; sm_snap := sm_snap m; sm_alarm_poll_counts := ∅;
     sm_raised_this_session := sm_raised_this_session m;
     sm_loadsource_disagree_count := sm_loadsource_disagree_count m;
     sm_loadsource_disagree_raised := sm_loadsource_disagree_raised m;
     sm_numeric_poll_counts := sm_numeric_poll_counts m; sm_numeric_raised := sm_numeric_raised m |}.

(** What the machine sees of the ATS service ([ats.is_authoritative()],
    [ats.snap.position], [ats.snap.normal_available]); [None] without one. *)
Record AtsView : Type := {
  av_authoritative : bool;
  av_position : string;
  av_normal_available : option bool
}.

Definition authoritative (ats : option AtsView) : bool :=
  match ats with Some v => av_authoritative v | None => false end.

(** ** Load source *)

Definition or_zero (v : option pynum) : pynum := default (PInt 0) v.
(** [float(x)] of a reading. *)
Definition as_float (v : pynum) : pynum := PFloat (py_float v).

Definition derive_load_source_from_telemetry (values : values_t) (engine_state prev : string)
    : string :=
  if (engine_state =? "unknown")%string then prev
  else if existsb (String.eqb engine_state) ["stopped"; "cranking"; "cooling"; "exercising"]%string
  then "utility"
  else
    match values !! "avg_current"%string, values !! "total_kw"%string with
    | None, None => if (prev =? "unknown")%string then "utility" else prev
    | current, kw =>
        let current_val := as_float (or_zero current) in
        let kw_val := as_float (or_zero kw) in
        if (prev =? "generator")%string then
          if py_ltb current_val LOAD_OFF_CURRENT_THRESHOLD && py_ltb kw_val LOAD_OFF_KW_THRESHOLD
          then "utility" else "generator"
        else if py_geb current_val LOAD_ON_CURRENT_THRESHOLD && py_geb kw_val LOAD_ON_KW_THRESHOLD
             then "generator" else "utility"
    end.

Definition derive_load_source (ats : option AtsView) (values : values_t)
    (engine_state prev : string) : string :=
  match ats with
  | Some v => if av_authoritative v && negb (av_position v =? "unknown")%string
              then av_position v
              else derive_load_source_from_telemetry values engine_state prev
  | None => derive_load_source_from_telemetry values engine_state prev
  end.

(** [_load_source_event]: the severity and message of the log row, if any. *)
Definition load_source_event (old new : string) : option (string * string) :=
  if (old =? "unknown")%string && (new =? "utility")%string then None
  else if (new =? "generator")%string
  then Some ("warn", "Load source → GENERATOR (was " +:+ old +:+ ")")%string
  else if (new =? "utility")%string
  then Some ("ok", "Load source → UTILITY (was " +:+ old +:+ ")")%string
  else Some ("warn", "Load source → UNKNOWN (was " +:+ old +:+ ")")%string.

(** ** Stages of [update] *)

Definition stage : Type := StateMachine * Outbox -> StateMachine * Outbox.

(** Engine state: no downgrade to [unknown]. *)
Definition step_engine (now : Z) (values : values_t) : stage := fun '(m, ob) =>
  let derived := derive_engine_state (sm_regmap m) values in
  let old := ss_engine_state (sm_snap m) in
  let new_state := if (derived =? "unknown")%string && negb (old =? "unknown")%string
                   then old else derived in
  if (new_state =? old)%string then (m, ob)
  else (with_snap (set_engine new_state now) m,
        on_db (log_event now "ok" "TRANSITION" ("Engine state: " +:+ old +:+ " → " +:+ new_state) None)
          (emit (EvTransition old new_state now) ob)).

(** Debounce counters: one up for each active bit, gone for codes not active. *)
Definition bump (counts : gmap string Z) (code : string) : gmap string Z :=
  <[code := default 0 (counts !! code) + 1]> counts.
Definition bump_counts (codes : list string) (counts : gmap string Z) : gmap string Z :=
  filter (fun kv => fst kv ∈ codes) (foldl bump counts codes).

Definition alarm_effective (counts : gmap string Z) (engine_state : string) (ab : AlarmBit) : bool :=
  (ab_min_poll_count ab <=? default 0 (counts !! ab_code ab)) &&
  negb (existsb (String.eqb engine_state) (ab_suppress_in_states ab)).

(** The raise of one alarm that is not displayed yet. *)
Definition raise_one (now : Z) (displayed : gset string) (ab : AlarmBit) : stage := fun '(m, ob) =>
  if bool_decide (ab_code ab ∈ displayed) then (m, ob)
  else
    let '(raised, db1) := raise_alarm now (ab_code ab) (ab_desc ab) (ab_severity ab) (ab_mask ab)
                            (ob_db ob) in
    let ob1 := {| ob_db := db1; ob_emitted := ob_emitted ob |} in
    let m1 := with_raised ({[ ab_code ab ]} ∪ sm_raised_this_session m) m in
    if raised
    then (m1, emit (EvAlarm (ab_code ab) (ab_desc ab) (ab_severity ab) now)
                (on_db (log_event now (ab_severity ab) "ALARM" ("Alarm raised — " +:+ ab_desc ab)
                          (Some ("code " +:+ ab_code ab))) ob1))
    else (m1, ob1).

Definition alarm_desc (rm : RegisterMap) (code : string) : string :=
  match List.find (fun x => (ab_code x =? code)%string) (rm_alarm_bits rm) with
  | Some ab => ab_desc ab
  | None => code
  end.

(** The clear of one code raised in this session whose bit is low. *)
Definition clear_one (now : Z) (raw_codes : list string) (code : string) : stage := fun '(m, ob) =>
  if bool_decide (code ∈ raw_codes) then (m, ob)
  else
    let desc := alarm_desc (sm_regmap m) code in
    let '(cleared, db1) := clear_alarm code (ob_db ob) in
    let ob1 := {| ob_db := db1; ob_emitted := ob_emitted ob |} in
    let m1 := with_raised (sm_raised_this_session m ∖ {[ code ]}) m in
    if cleared
    then (m1, emit (EvAlarmCleared code desc now)
                (on_db (log_event now "ok" "ALARM" ("Alarm cleared — " +:+ desc)
                          (Some ("code " +:+ code))) ob1))
    else (m1, ob1).

Section update.
Context `{SetOrder}.

Definition step_alarms (now : Z) (values : values_t) : stage := fun '(m, ob) =>
  let raw_active := derive_active_alarms (sm_regmap m) values in
  let raw_codes := map ab_code raw_active in
  let counts := bump_counts raw_codes (sm_alarm_poll_counts m) in
  let m1 := with_counts counts m in
  let effective := List.filter (alarm_effective counts (ss_engine_state (sm_snap m))) raw_active in
  let displayed := ss_active_alarms (sm_snap m) in
  let st2 := foldl (fun st ab => raise_one now displayed ab st) (m1, ob) effective in
  let '(m3, ob3) := foldl (fun st code => clear_one now raw_codes code st) st2
                      (set_iter (sm_raised_this_session (fst st2))) in
  (with_snap (set_active (list_to_set (map ab_code effective))) m3, ob3).

(** *** Numeric range alarms *)

Definition out_of_band (val : pynum) (r : range_t) : bool :=
  py_ltb val (PFloat (fst r)) || py_gtb val (PFloat (snd r)).
Definition band_str (r : range_t) : string := repr_float (fst r) +:+ "–" +:+ repr_float (snd r).

Definition severity_for (values : values_t) (reg : RegisterDef) : option (string * string) :=
  match values !! r_name reg with
  | None => None
  | Some val =>
      match r_alarm_range reg, r_warn_range reg with
      | Some ar, Some wr => if out_of_band val ar then Some ("alarm"%string, band_str ar)
                            else if out_of_band val wr then Some ("warn"%string, band_str wr) else None
      | Some ar, None => if out_of_band val ar then Some ("alarm"%string, band_str ar) else None
      | None, Some wr => if out_of_band val wr then Some ("warn"%string, band_str wr) else None
      | None, None => None
      end
  end.

Definition numeric_code (reg : RegisterDef) : string :=
  NUMERIC_ALARM_CODE_PREFIX +:+ str_upper (r_name reg).

(** [active_now]: code to severity, register and band. *)
Definition active_ranges (rm : RegisterMap) (values : values_t) (engine_state : string)
    : odict string (string * RegisterDef * string) :=
  if existsb (String.eqb engine_state) NUMERIC_ALARM_STATES then
    foldl (fun d reg => match severity_for values reg with
                        | Some (sev, band) => od_set (numeric_code reg) (sev, reg, band) d
                        | None => d
                        end) [] (rm_registers rm)
  else [].

Definition numeric_desc (values : values_t) (reg : RegisterDef) (band : string) : string :=
  let val := match values !! r_name reg with Some v => py_str v | None => "None"%string end in
  r_name reg +:+ " out of range (" +:+ val +:+
    (if (r_unit reg =? "")%string then "" else " " +:+ r_unit reg) +:+ ", allowed " +:+ band +:+ ")".

Definition numeric_raise (now : Z) (values : values_t)
    (entry : string * (string * RegisterDef * string)) : stage := fun '(m, ob) =>
  let '(code, (sev, reg, band)) := entry in
  if default 0 (sm_numeric_poll_counts m !! code) <? NUMERIC_ALARM_MIN_POLLS then (m, ob)
  else if od_mem code (sm_numeric_raised m) then (m, ob)
  else
    let desc := numeric_desc values reg band in
    let m1 := with_numeric (sm_numeric_poll_counts m) (od_set code sev (sm_numeric_raised m)) m in
    let '(raised, db1) := raise_alarm now code desc sev 0 (ob_db ob) in
    let ob1 := {| ob_db := db1; ob_emitted := ob_emitted ob |} in
    if raised
    then (m1, emit (EvAlarm code desc sev now)
                (on_db (log_event now sev "ALARM" ("Alarm raised — " +:+ desc)
                          (Some ("code " +:+ code))) ob1))
    else (m1, ob1).

Definition numeric_clear (now : Z) (active : list string) (code : string) : stage := fun '(m, ob) =>
  if bool_decide (code ∈ active) then (m, ob)
  else
    let m1 := with_numeric (sm_numeric_poll_counts m) (od_del code (sm_numeric_raised m)) m in
    let '(cleared, db1) := clear_alarm code (ob_db ob) in
    let ob1 := {| ob_db := db1; ob_emitted := ob_emitted ob |} in
    if cleared
    then (m1, emit (EvAlarmCleared code code now)
                (on_db (log_event now "ok" "ALARM" ("Alarm cleared — " +:+ code)
                          (Some ("code " +:+ code))) ob1))
    else (m1, ob1).

Definition check_numeric_ranges (now : Z) (values : values_t) : stage := fun '(m, ob) =>
  let active := active_ranges (sm_regmap m) values (ss_engine_state (sm_snap m)) in
  let m1 := with_numeric (bump_counts (od_keys active) (sm_numeric_poll_counts m))
              (sm_numeric_raised m) m in
  let st2 := foldl (fun st e => numeric_raise now values e st) (m1, ob) active in
  foldl (fun st code => numeric_clear now (od_keys active) code st) st2
    (od_keys (sm_numeric_raised (fst st2))).

Definition step_numeric (now : Z) (values : values_t) : stage := fun '(m, ob) =>
  let '(m1, ob1) := if rm_numeric_alarms_enabled (sm_regmap m)
                    then check_numeric_ranges now values (m, ob) else (m, ob) in
  (with_snap (fun x => set_active (ss_active_alarms x ∪
                         list_to_set (od_keys (sm_numeric_raised m1))) x) m1, ob1).

(** *** Comms, panel mode, load source *)

Definition comms_severity (state : string) : string :=
  if (state =? "healthy")%string then "ok" else "warn".

Definition step_comms (now : Z) (heap : comms_heap) (comms : nat) : stage := fun '(m, ob) =>
  let new := comms_at heap comms in
  let old := comms_at heap (ss_comms (sm_snap m)) in
  if (ch_state new =? ch_state old)%string then (m, ob)
  else (m, emit (EvComms (ch_state old) (ch_state new) (ch_success_pct new) now)
             (on_db (log_event now (comms_severity (ch_state new)) "COMMS"
                ("Comms " +:+ ch_state new +:+ " · " +:+ fmt_tenths (ch_success_pct new) +:+ "% success")
                None) ob)).

Definition step_panel (values : values_t) : stage := fun '(m, ob) =>
  (with_snap (set_panel (derive_panel_mode (sm_regmap m) values)) m, ob).

Definition step_load_source (now : Z) (ats : option AtsView) (values : values_t) : stage :=
  fun '(m, ob) =>
  let old := ss_load_source (sm_snap m) in
  let new := derive_load_source ats values (ss_engine_state (sm_snap m)) old in
  if (new =? old)%string then (m, ob)
  else
    let m1 := with_snap (set_load_source new now) m in
    if authoritative ats then (m1, ob)
    else
      let ob1 := emit (EvLoadSource old new now) ob in
      match load_source_event old new with
      | Some (severity, message) => (m1, on_db (log_event now severity "LOAD_SOURCE" message None) ob1)
      | None => (m1, ob1)
      end.

(** *** Disagreement of the ATS position with the generator output *)

Definition emit_disagree_raise (now : Z) (message : string) : stage := fun '(m, ob) =>
  let '(raised, db1) := raise_alarm now LOADSOURCE_DISAGREE_ALARM_CODE message "warn" 0 (ob_db ob) in
  let ob1 := {| ob_db := db1; ob_emitted := ob_emitted ob |} in
  let m1 := with_disagree (sm_loadsource_disagree_count m) true m in
  if raised
  then (m1, emit (EvAlarm LOADSOURCE_DISAGREE_ALARM_CODE message "warn" now)
              (on_db (log_event now "warn" "ALARM" ("Alarm raised — " +:+ message)
                        (Some ("code " +:+ LOADSOURCE_DISAGREE_ALARM_CODE))) ob1))
  else (m1, ob1).

Definition emit_disagree_clear (now : Z) (reason : string) : stage := fun '(m, ob) =>
  let '(cleared, db1) := clear_alarm LOADSOURCE_DISAGREE_ALARM_CODE (ob_db ob) in
  let ob1 := {| ob_db := db1; ob_emitted := ob_emitted ob |} in
  let m1 := with_disagree (sm_loadsource_disagree_count m) false m in
  if cleared
  then (m1, emit (EvAlarmCleared LOADSOURCE_DISAGREE_ALARM_CODE
                    ("load-source disagreement cleared (" +:+ reason +:+ ")") now)
              (on_db (log_event now "ok" "ALARM"
                 ("Alarm cleared — load-source disagreement (" +:+ reason +:+ ")")
                 (Some ("code " +:+ LOADSOURCE_DISAGREE_ALARM_CODE))) ob1))
  else (m1, ob1).

(** Clear if raised, then reset the counter. *)
Definition disagree_reset (now : Z) (reason : string) : stage := fun '(m, ob) =>
  let '(m1, ob1) := if sm_loadsource_disagree_raised m then emit_disagree_clear now reason (m, ob)
                    else (m, ob) in
  (with_disagree 0 (sm_loadsource_disagree_raised m1) m1, ob1).

Definition disagreement (pos : string) (normal : option bool) (current kw : pynum) : option string :=
  let current_val := as_float current in
  let kw_val := as_float kw in
  if (pos =? "utility")%string && py_geb current_val LOAD_ON_CURRENT_THRESHOLD &&
     py_geb kw_val LOAD_ON_KW_THRESHOLD
  then Some ("ATS reports UTILITY but H-100 is delivering " +:+ fmt_fixed 1 (py_float kw) +:+
             " kW / " +:+ fmt_fixed 0 (py_float current) +:+ " A. " +:+
             "Likely a stuck ATS aux contact or miswired position sense.")
  else if (pos =? "generator")%string && py_ltb current_val LOAD_OFF_CURRENT_THRESHOLD &&
          py_ltb kw_val LOAD_OFF_KW_THRESHOLD && bool_decide (normal = Some false)
  then Some ("ATS reports GENERATOR with utility UNAVAILABLE but H-100 output is " +:+
             fmt_fixed 1 (py_float kw) +:+ " kW / " +:+ fmt_fixed 1 (py_float current) +:+ " A. " +:+
             "Likely a stuck ATS aux contact (claiming generator while the building actually has no power) or a broken kW/A sensor on the H-100.")
  else None.

Definition check_loadsource_disagreement (now : Z) (ats : option AtsView) (values : values_t)
    : stage := fun '(m, ob) =>
  match ats with
  | None => disagree_reset now "ATS-Pi no longer authoritative" (m, ob)
  | Some v =>
      if negb (av_authoritative v) then disagree_reset now "ATS-Pi no longer authoritative" (m, ob)
      else if negb (existsb (String.eqb (ss_engine_state (sm_snap m))) ["running"; "alarm"]%string)
      then disagree_reset now ("engine state is " +:+ ss_engine_state (sm_snap m)) (m, ob)
      else if negb (existsb (String.eqb (av_position v)) ["utility"; "generator"]%string) then (m, ob)
      else
        match values !! "avg_current"%string, values !! "total_kw"%string with
        | Some current, Some kw =>
            match disagreement (av_position v) (av_normal_available v) current kw with
            | Some msg =>
                let n := sm_loadsource_disagree_count m + 1 in
                let m1 := with_disagree n (sm_loadsource_disagree_raised m) m in
                if (LOADSOURCE_DISAGREE_DEBOUNCE_POLLS <=? n) && negb (sm_loadsource_disagree_raised m)
                then emit_disagree_raise now msg (m1, ob) else (m1, ob)
            | None => disagree_reset now "ATS and H-100 now agree on load source" (m, ob)
            end
        | _, _ => (m, ob)
        end
  end.

Definition step_finish (reading : Reading) (comms : nat) : stage := fun '(m, ob) =>
  let code : gset string := {[ LOADSOURCE_DISAGREE_ALARM_CODE ]} in
  let layer x := if sm_loadsource_disagree_raised m then ss_active_alarms x ∪ code
                 else ss_active_alarms x ∖ code in
  (with_snap (fun x => set_poll comms reading (set_active (layer x) x)) m, ob).

(** [StateMachine.update] *)
Definition update (now : Z) (heap : comms_heap) (ats : option AtsView) (reading : Reading)
    (comms : nat) : stage := fun st =>
  let values := rd_values reading in
  step_finish reading comms
    (check_loadsource_disagreement now ats values
      (step_load_source now ats values
        (step_panel values
          (step_comms now heap comms
            (step_numeric now values
              (step_alarms now values
                (step_engine now values st))))))).
End update.
