(* ===== verification/StateMachineFacts.v ===== *)
(** * State machine theorems

    The engine state and its transition log, the alarm pipeline (debounce,
    suppression, rows of the database), the load source with its hysteresis, the
    disagreement detector, and the comms transitions. *)

From S2P Require Import Prelude PyNum Registers Poller PollerFacts Database DatabaseFacts Events StateMachine.

Local Open Scope Z_scope.

(** ** What each stage touches *)

(** Rows of one type in the event log. *)
Definition rows_of (ty : string) (ob : Outbox) : list EventRow :=
  List.filter (fun e => (ev_type e =? ty)%string) (db_events (ob_db ob)).

Lemma rows_of_emit ty e ob : rows_of ty (emit e ob) = rows_of ty ob.
Proof. reflexivity. Qed.

Lemma rows_of_log ty now sev ty' msg meta ob :
  ty' <> ty -> rows_of ty (on_db (log_event now sev ty' msg meta) ob) = rows_of ty ob.
Proof.
  intros Hne. unfold rows_of. cbn. rewrite List.filter_app. cbn.
  rewrite (proj2 (String.eqb_neq ty' ty)) by done. apply app_nil_r.
Qed.

Lemma rows_of_db ty db es ob :
  db_events db = db_events (ob_db ob) ->
  rows_of ty {| ob_db := db; ob_emitted := es |} = rows_of ty ob.
Proof. unfold rows_of. cbn. by intros ->. Qed.

Lemma raise_alarm_events now c de s raw d :
  db_events (snd (raise_alarm now c de s raw d)) = db_events d.
Proof. unfold raise_alarm. by case_match. Qed.

(** A stage of the alarm pipelines: it may change alarm rows, the alarm counters
    and the displayed set, and logs rows of type ALARM only. *)
Record quiet (st st' : StateMachine * Outbox) : Prop := {
  q_regmap : sm_regmap (fst st') = sm_regmap (fst st);
  q_engine : ss_engine_state (sm_snap (fst st')) = ss_engine_state (sm_snap (fst st));
  q_started : ss_state_started_at (sm_snap (fst st')) = ss_state_started_at (sm_snap (fst st));
  q_comms : ss_comms (sm_snap (fst st')) = ss_comms (sm_snap (fst st));
  q_panel : ss_panel_mode (sm_snap (fst st')) = ss_panel_mode (sm_snap (fst st));
  q_source : ss_load_source (sm_snap (fst st')) = ss_load_source (sm_snap (fst st));
  q_source_started :
    ss_load_source_started_at (sm_snap (fst st')) = ss_load_source_started_at (sm_snap (fst st));
  q_rows : forall ty, ty <> "ALARM"%string -> rows_of ty (snd st') = rows_of ty (snd st);
  q_emitted : exists es, ob_emitted (snd st') = ob_emitted (snd st) ++ es /\
    Forall (fun e => match e with EvAlarm _ _ _ _ | EvAlarmCleared _ _ _ => True | _ => False end) es
}.

#[export] Instance quiet_preorder : PreOrder quiet.
Proof.
  split.
  - intros st. constructor; try done. exists []. by rewrite app_nil_r.
  - intros a b c [? ? ? ? ? ? ? Hr (es & He & Hes)] [? ? ? ? ? ? ? Hr' (es' & He' & Hes')].
    constructor; try congruence.
    + intros ty Hty. by rewrite Hr', Hr.
    + exists (es ++ es'). rewrite He', He, app_assoc. split; [done|]. by apply Forall_app.
Qed.

Lemma quiet_foldl {B} (g : StateMachine * Outbox -> B -> StateMachine * Outbox) l st :
  (forall st b, quiet st (g st b)) -> quiet st (foldl g st l).
Proof.
  intros Hg. revert st. induction l as [|b l IH]; intros st; [reflexivity|]. cbn.
  etransitivity; [apply Hg|apply IH].
Qed.

(** A machine that keeps its register map and the snapshot but the displayed set,
    with an outbox that keeps the log or grows it by one ALARM row and message. *)
Lemma filter_other_type ty ty' (l : list EventRow) e :
  ev_type e = ty' -> ty' <> ty ->
  List.filter (fun e => (ev_type e =? ty)%string) (l ++ [e]) =
  List.filter (fun e => (ev_type e =? ty)%string) l.
Proof.
  intros <- Hne. rewrite List.filter_app. cbn.
  rewrite (proj2 (String.eqb_neq _ _)) by done. apply app_nil_r.
Qed.

Ltac quiet_tac :=
  constructor; cbn; try reflexivity;
  try (intros ty Hty; by apply (filter_other_type ty "ALARM"));
  first [ by exists []; rewrite app_nil_r
        | eexists [_]; split; [reflexivity|by constructor] ].

Section stages.
Context `{SetOrder}.
Implicit Types (m : StateMachine) (ob : Outbox) (st : StateMachine * Outbox).

Lemma raise_one_quiet now disp ab st : quiet st (raise_one now disp ab st).
Proof.
  destruct st as [m ob]. unfold raise_one, raise_alarm. repeat case_match; simplify_eq; quiet_tac.
Qed.

Lemma clear_one_quiet now codes c st : quiet st (clear_one now codes c st).
Proof.
  destruct st as [m ob]. unfold clear_one, clear_alarm. repeat case_match; simplify_eq; quiet_tac.
Qed.

Lemma numeric_raise_quiet now v e st : quiet st (numeric_raise now v e st).
Proof.
  destruct st as [m ob], e as [? [[? ?] ?]]. unfold numeric_raise, raise_alarm.
  repeat case_match; simplify_eq; quiet_tac.
Qed.

Lemma numeric_clear_quiet now a c st : quiet st (numeric_clear now a c st).
Proof.
  destruct st as [m ob]. unfold numeric_clear, clear_alarm. repeat case_match; simplify_eq; quiet_tac.
Qed.

Lemma disagree_raise_quiet now msg st : quiet st (emit_disagree_raise now msg st).
Proof.
  destruct st as [m ob]. unfold emit_disagree_raise, raise_alarm.
  repeat case_match; simplify_eq; quiet_tac.
Qed.

Lemma disagree_clear_quiet now msg st : quiet st (emit_disagree_clear now msg st).
Proof.
  destruct st as [m ob]. unfold emit_disagree_clear, clear_alarm.
  repeat case_match; simplify_eq; quiet_tac.
Qed.

Lemma with_quiet m m' ob :
  sm_regmap m' = sm_regmap m ->
  (exists a, sm_snap m' = set_active a (sm_snap m)) \/ sm_snap m' = sm_snap m ->
  quiet (m, ob) (m', ob).
Proof.
  intros Hr [[a Hs]|Hs]; constructor; cbn; rewrite ?Hs; try done; exists []; by rewrite app_nil_r.
Qed.
End stages.

Section steps.
Context `{SetOrder}.
Implicit Types (m : StateMachine) (ob : Outbox) (st : StateMachine * Outbox).

Lemma step_alarms_quiet now values st : quiet st (step_alarms now values st).
Proof.
  destruct st as [m ob]. unfold step_alarms.
  set (m1 := with_counts _ m). set (st2 := foldl _ (m1, ob) _).
  assert (quiet (m, ob) st2) as H2.
  { transitivity (m1, ob); [by apply with_quiet; [|right]|].
    apply quiet_foldl. intros. apply raise_one_quiet. }
  set (cs := set_iter _). set (st3 := foldl _ st2 cs).
  assert (quiet (m, ob) st3) as H3.
  { etransitivity; [exact H2|]. apply quiet_foldl. intros. apply clear_one_quiet. }
  destruct st3 as [m3 ob3]. etransitivity; [exact H3|].
  apply with_quiet; [done|left]. by eexists.
Qed.

Lemma check_numeric_quiet now values st : quiet st (check_numeric_ranges now values st).
Proof.
  destruct st as [m ob]. unfold check_numeric_ranges.
  set (m1 := with_numeric _ _ m). etransitivity; [apply (with_quiet m m1); [done|by right]|].
  etransitivity; [apply (quiet_foldl (fun st e => numeric_raise now values e st));
                  intros; apply numeric_raise_quiet|].
  apply quiet_foldl. intros. apply numeric_clear_quiet.
Qed.

Lemma step_numeric_quiet now values st : quiet st (step_numeric now values st).
Proof.
  destruct st as [m ob]. unfold step_numeric.
  pose proof (check_numeric_quiet now values (m, ob)) as Hq.
  destruct (rm_numeric_alarms_enabled _).
  - destruct (check_numeric_ranges now values (m, ob)) as [m1 ob1].
    etransitivity; [exact Hq|]. apply with_quiet; [done|left]. by eexists.
  - apply with_quiet; [done|left]. by eexists.
Qed.

Lemma disagree_reset_quiet now r st : quiet st (disagree_reset now r st).
Proof.
  destruct st as [m ob]. unfold disagree_reset.
  pose proof (disagree_clear_quiet now r (m, ob)) as Hq.
  destruct (sm_loadsource_disagree_raised m).
  - destruct (emit_disagree_clear now r (m, ob)) as [m1 ob1].
    etransitivity; [exact Hq|]. by apply with_quiet; [|right].
  - by apply with_quiet; [|right].
Qed.

Lemma disagreement_quiet now ats values st : quiet st (check_loadsource_disagreement now ats values st).
Proof.
  destruct st as [m ob]. unfold check_loadsource_disagreement.
  repeat case_match; try apply disagree_reset_quiet; try reflexivity;
    try (etransitivity; [|apply disagree_raise_quiet]); by apply with_quiet; [|right].
Qed.

(** ** Engine state *)

Definition next_engine (old derived : string) : string :=
  if (derived =? "unknown")%string then old else derived.

Lemma step_engine_spec now values m ob :
  let old := ss_engine_state (sm_snap m) in
  let new := next_engine old (derive_engine_state (sm_regmap m) values) in
  let '(m', ob') := step_engine now values (m, ob) in
  ss_engine_state (sm_snap m') = new /\
  m' = (if (new =? old)%string then m else with_snap (set_engine new now) m) /\
  ob' = (if (new =? old)%string then ob
         else on_db (log_event now "ok" "TRANSITION"
                 ("Engine state: " ++ old ++ " → " ++ new)%string None)
                (emit (EvTransition old new now) ob)).
Proof.
  cbv zeta. unfold step_engine, next_engine.
  destruct (String.eqb_spec (derive_engine_state (sm_regmap m) values) "unknown") as [->|Hd]; cbn.
  - destruct (String.eqb_spec (ss_engine_state (sm_snap m)) "unknown") as [E|E]; cbn.
    + rewrite E, String.eqb_refl. cbn. rewrite ?E. split_and!; try done.
    + by rewrite String.eqb_refl.
  - destruct (String.eqb_spec (derive_engine_state (sm_regmap m) values) (ss_engine_state (sm_snap m)));
      split_and!; done.
Qed.

Lemma step_comms_fst now heap l st : fst (step_comms now heap l st) = fst st.
Proof. destruct st. unfold step_comms. by case_match. Qed.

Lemma step_comms_rows ty now heap l st :
  ty <> "COMMS"%string -> rows_of ty (snd (step_comms now heap l st)) = rows_of ty (snd st).
Proof.
  intros Hty. destruct st as [m ob]. unfold step_comms. case_match; [done|]. cbn [snd].
  by rewrite rows_of_emit, rows_of_log.
Qed.

Lemma step_load_source_rows ty now ats values st :
  ty <> "LOAD_SOURCE"%string -> rows_of ty (snd (step_load_source now ats values st)) = rows_of ty (snd st).
Proof.
  intros Hty. destruct st as [m ob]. unfold step_load_source.
  repeat case_match; try done; cbn [snd]; by rewrite ?rows_of_log, ?rows_of_emit by done.
Qed.

Lemma step_load_source_snap now ats values st :
  sm_regmap (fst (step_load_source now ats values st)) = sm_regmap (fst st) /\
  let x := sm_snap (fst (step_load_source now ats values st)) in
  let y := sm_snap (fst st) in
  ss_engine_state x = ss_engine_state y /\ ss_state_started_at x = ss_state_started_at y /\
  ss_active_alarms x = ss_active_alarms y /\ ss_comms x = ss_comms y /\
  ss_panel_mode x = ss_panel_mode y /\
  ss_load_source x = derive_load_source ats values (ss_engine_state y) (ss_load_source y).
Proof.
  destruct st as [m ob]. unfold step_load_source.
  destruct (String.eqb_spec (derive_load_source ats values (ss_engine_state (sm_snap m))
              (ss_load_source (sm_snap m))) (ss_load_source (sm_snap m))) as [E|E]; [done|].
  repeat case_match; done.
Qed.

Implicit Types (now : Z) (heap : comms_heap) (reading : Reading).

(** The engine state, start time, panel mode, load source and kept comms record
    after an update, and the transition rows it logs. *)
Lemma update_snapshot now heap ats reading l m ob :
  let old := ss_engine_state (sm_snap m) in
  let new := next_engine old (derive_engine_state (sm_regmap m) (rd_values reading)) in
  let st' := update now heap ats reading l (m, ob) in
  let x' := sm_snap (fst st') in
  sm_regmap (fst st') = sm_regmap m /\
  ss_engine_state x' = new /\
  ss_state_started_at x' = (if (new =? old)%string then ss_state_started_at (sm_snap m) else now) /\
  ss_panel_mode x' = derive_panel_mode (sm_regmap m) (rd_values reading) /\
  ss_load_source x' = derive_load_source ats (rd_values reading) new (ss_load_source (sm_snap m)) /\
  ss_comms x' = l /\ ss_last_reading x' = reading /\
  rows_of "TRANSITION" (snd st') = rows_of "TRANSITION" (snd (step_engine now (rd_values reading) (m, ob))).
Proof.
  cbv zeta. unfold update. set (v := rd_values reading).
  pose proof (step_engine_spec now v m ob) as He. cbv zeta in He.
  destruct (step_engine now v (m, ob)) as [m1 ob1]. destruct He as (He & Hm1 & _).
  set (st2 := step_alarms now v (m1, ob1)).
  set (st3 := step_numeric now v st2).
  assert (quiet (m1, ob1) st3) as Hq3.
  { etransitivity; [apply step_alarms_quiet|apply step_numeric_quiet]. }
  set (st4 := step_comms now heap l st3).
  assert (fst st4 = fst st3) as E4 by apply step_comms_fst.
  set (st5 := step_panel v st4).
  set (st6 := step_load_source now ats v st5).
  destruct (step_load_source_snap now ats v st5) as (Hr6 & He6 & Hs6 & Ha6 & Hc6 & Hp6 & Hl6).
  fold st6 in Hr6, He6, Hs6, Ha6, Hc6, Hp6, Hl6.
  set (st7 := check_loadsource_disagreement now ats v st6).
  pose proof (disagreement_quiet now ats v st6) as Hq7. fold st7 in Hq7.
  assert (rows_of "TRANSITION" (snd st7) = rows_of "TRANSITION" ob1) as Hrows.
  { rewrite (q_rows _ _ Hq7) by done. unfold st6. rewrite step_load_source_rows by done.
    unfold st5. destruct st4 as [m4 ob4] eqn:E4'. cbn [step_panel snd].
    change ob4 with (snd (m4, ob4)). rewrite <- E4'. unfold st4.
    rewrite step_comms_rows by done. by rewrite (q_rows _ _ Hq3). }
  assert (sm_regmap (fst st5) = sm_regmap m1 /\ ss_engine_state (sm_snap (fst st5)) = ss_engine_state (sm_snap m1) /\
          ss_state_started_at (sm_snap (fst st5)) = ss_state_started_at (sm_snap m1) /\
          ss_load_source (sm_snap (fst st5)) = ss_load_source (sm_snap m1) /\
          ss_panel_mode (sm_snap (fst st5)) = derive_panel_mode (sm_regmap m1) v) as (H1 & H2 & H3 & H4 & H5).
  { destruct Hq3. unfold st5. destruct st4 as [m4 ob4]. cbn in E4 |- *. subst m4.
    split_and!; try done. by f_equal. }
  assert (sm_regmap m1 = sm_regmap m /\ ss_load_source (sm_snap m1) = ss_load_source (sm_snap m) /\
          ss_state_started_at (sm_snap m1) =
            if (next_engine (ss_engine_state (sm_snap m)) (derive_engine_state (sm_regmap m) v) =?
                ss_engine_state (sm_snap m))%string
            then ss_state_started_at (sm_snap m) else now) as (F1 & F2 & F3).
  { rewrite Hm1. by case_match. }
  destruct Hq7 as [Q1 Q2 Q3 _ Q5 Q6 _ _ _]. clearbody st7 st6 st5 st4.
  destruct st7 as [m7 ob7]. cbn [step_finish fst snd with_snap sm_regmap sm_snap] in *.
  split_and!; try reflexivity.
  - by rewrite Q1, Hr6, H1, F1.
  - cbn. by rewrite Q2, He6, H2, He.
  - cbn. by rewrite Q3, Hs6, H3, F3.
  - cbn. by rewrite Q5, Hp6, H5, F1.
  - cbn. by rewrite Q6, Hl6, H2, H4, He, F2.
  - exact Hrows.
Qed.
End steps.
