(* ===== verification/AlarmFacts.v ===== *)
(** * Alarm pipeline theorems

    Exact effect of an update on the alarm counters, the codes raised in the
    session, the displayed set and the rows of [alarms_active]; from these, the
    debounce over a history of polls. *)

From S2P Require Import Prelude PyNum Registers Poller PollerFacts Database Events StateMachine StateMachineFacts.

Local Open Scope Z_scope.

(** ** Counters *)

Lemma bump_fold_lookup codes counts c :
  NoDup codes ->
  foldl bump counts codes !! c =
    if decide (c ∈ codes) then Some (default 0 (counts !! c) + 1) else counts !! c.
Proof.
  revert counts. induction codes as [|x codes IH]; intros counts Hnd; [done|].
  apply NoDup_cons in Hnd as [Hx Hnd]. cbn [foldl]. rewrite IH by done. unfold bump.
  destruct (decide (c = x)) as [->|Hne].
  - rewrite decide_False by done. rewrite decide_True by (by left). by rewrite lookup_insert_eq.
  - rewrite lookup_insert_ne by done. destruct (decide (c ∈ codes)).
    + by rewrite decide_True by (by right).
    + rewrite decide_False; [done|]. by intros [?|?]%elem_of_cons.
Qed.

Lemma bump_counts_lookup codes counts c :
  NoDup codes ->
  bump_counts codes counts !! c =
    if decide (c ∈ codes) then Some (default 0 (counts !! c) + 1) else None.
Proof.
  intros Hnd. unfold bump_counts. rewrite map_lookup_filter, bump_fold_lookup by done.
  case_decide as E; cbn.
  - by rewrite option_guard_True.
  - destruct (counts !! c); cbn; [by rewrite option_guard_False|done].
Qed.

(** ** One pass over the bit alarms *)

Section passes.
Context `{SetOrder}.
Implicit Types (m : StateMachine) (ob : Outbox).

Definition codes_of (abs : list AlarmBit) : gset string := list_to_set (map ab_code abs).

Lemma raise_fold now disp abs m ob :
  let st' := foldl (fun st ab => raise_one now disp ab st) (m, ob) abs in
  fst st' = with_raised (sm_raised_this_session m ∪ (codes_of abs ∖ disp)) m /\
  alarm_codes (ob_db (snd st')) = alarm_codes (ob_db ob) ∪ (codes_of abs ∖ disp).
Proof.
  cbv zeta. revert m ob. induction abs as [|ab abs IH]; intros m ob.
  { assert (codes_of [] ∖ disp = ∅) as -> by (unfold codes_of; set_solver). cbn.
    rewrite !(right_id_L ∅ (∪)). by destruct m. }
  assert (let st1 := raise_one now disp ab (m, ob) in
          fst st1 = with_raised (sm_raised_this_session m ∪ ({[ ab_code ab ]} ∖ disp)) m /\
          alarm_codes (ob_db (snd st1)) = alarm_codes (ob_db ob) ∪ ({[ ab_code ab ]} ∖ disp)) as [E1 E2].
  { cbv zeta. unfold raise_one. case_bool_decide as Hd.
    - assert (({[ ab_code ab ]} : gset string) ∖ disp = ∅) as -> by set_solver.
      rewrite !(right_id_L ∅ (∪)). by destruct m.
    - assert (({[ ab_code ab ]} : gset string) ∖ disp = {[ ab_code ab ]}) as -> by set_solver.
      pose proof (raise_alarm_codes now (ab_code ab) (ab_desc ab) (ab_severity ab) (ab_mask ab) (ob_db ob)) as Hr.
      destruct (raise_alarm _ _ _ _ _ _) as [[] d]; cbn [fst snd emit on_db ob_db] in Hr |- *;
        rewrite ?log_event_codes, Hr, (union_comm_L {[ ab_code ab ]}); split; try done;
        by rewrite (union_comm_L {[ ab_code ab ]}). }
  cbn [foldl]. destruct (raise_one now disp ab (m, ob)) as [m1 ob1]. cbn in E1, E2.
  destruct (IH m1 ob1) as [-> ->]. subst m1. rewrite E2. unfold codes_of. cbn. split.
  - unfold with_raised. cbn. f_equal. set_solver.
  - set_solver.
Qed.

Lemma clear_fold now raw cs m ob :
  let gone : gset string := list_to_set cs ∖ list_to_set raw in
  let st' := foldl (fun st c => clear_one now raw c st) (m, ob) cs in
  fst st' = with_raised (sm_raised_this_session m ∖ gone) m /\
  alarm_codes (ob_db (snd st')) = alarm_codes (ob_db ob) ∖ gone.
Proof.
  cbv zeta. revert m ob. induction cs as [|c cs IH]; intros m ob.
  { assert ((list_to_set [] : gset string) ∖ list_to_set raw = ∅) as -> by set_solver. cbn.
    rewrite !difference_empty_L. by destruct m. }
  assert (let st1 := clear_one now raw c (m, ob) in
          let g : gset string := {[ c ]} ∖ list_to_set raw in
          fst st1 = with_raised (sm_raised_this_session m ∖ g) m /\
          alarm_codes (ob_db (snd st1)) = alarm_codes (ob_db ob) ∖ g) as [E1 E2].
  { cbv zeta. unfold clear_one. case_bool_decide as Hd.
    - assert (({[ c ]} : gset string) ∖ list_to_set raw = ∅) as -> by set_solver.
      rewrite !difference_empty_L. by destruct m.
    - assert (({[ c ]} : gset string) ∖ list_to_set raw = {[ c ]}) as -> by set_solver.
      pose proof (clear_alarm_codes c (ob_db ob)) as Hr.
      destruct (clear_alarm _ _) as [[] d]; cbn [fst snd emit on_db ob_db] in Hr |- *;
        by rewrite ?log_event_codes, Hr. }
  cbn [foldl]. destruct (clear_one now raw c (m, ob)) as [m1 ob1]. cbn in E1, E2.
  destruct (IH m1 ob1) as [-> ->]. subst m1. rewrite E2. cbn. split.
  - unfold with_raised. cbn. f_equal. set_solver.
  - set_solver.
Qed.

(** The row an alarm gets when it is raised. *)
Definition row_of now (ab : AlarmBit) : AlarmRow :=
  {| al_code := ab_code ab; al_desc := ab_desc ab; al_severity := ab_severity ab;
     al_raised_at := now; al_raw := ab_mask ab |}.

(** A row that is there stays; one that is not comes from an alarm that is not displayed. *)
Lemma raise_fold_kept now disp abs c st :
  (alarm_rows_of c (ob_db (snd st)) <> [] \/ c ∉ codes_of abs \/ c ∈ disp) ->
  alarm_rows_of c (ob_db (snd (foldl (fun st ab => raise_one now disp ab st) st abs))) =
  alarm_rows_of c (ob_db (snd st)).
Proof.
  revert st. induction abs as [|ab abs IH]; intros [m ob] Hor; [done|]. cbn [foldl].
  assert (alarm_rows_of c (ob_db (snd (raise_one now disp ab (m, ob)))) = alarm_rows_of c (ob_db ob)) as E1.
  { unfold raise_one. case_bool_decide as Hd; [done|].
    pose proof (raise_alarm_rows now (ab_code ab) (ab_desc ab) (ab_severity ab) (ab_mask ab) (ob_db ob) c) as Hr.
    destruct (raise_alarm _ _ _ _ _ _) as [[] d]; cbn [fst snd emit on_db ob_db] in Hr |- *;
      rewrite ?log_event_rows, Hr, decide_False; try done; intros [-> Hn];
      (destruct Hor as [Ho|[Ho|Ho]]; [by apply Ho| |done]; apply Ho; unfold codes_of; set_solver). }
  rewrite IH; [done|]. rewrite E1. destruct Hor as [Ho|[Ho|Ho]]; [by left| |by right; right].
  right; left. intros Hin. apply Ho. unfold codes_of in *. set_solver.
Qed.

Lemma raise_fold_new now disp abs c st :
  c ∈ codes_of abs -> c ∉ disp -> alarm_rows_of c (ob_db (snd st)) = [] ->
  exists ab, ab ∈ abs /\ ab_code ab = c /\
    alarm_rows_of c (ob_db (snd (foldl (fun st ab => raise_one now disp ab st) st abs))) = [row_of now ab].
Proof.
  revert st. induction abs as [|ab abs IH]; intros [m ob] Hin Hd Hn; [unfold codes_of in Hin; set_solver|].
  cbn [foldl].
  assert (alarm_rows_of c (ob_db (snd (raise_one now disp ab (m, ob)))) =
          if decide (c = ab_code ab) then [row_of now ab] else []) as E1.
  { unfold raise_one. case_bool_decide as Hd'; [by rewrite decide_False by congruence|].
    pose proof (raise_alarm_rows now (ab_code ab) (ab_desc ab) (ab_severity ab) (ab_mask ab) (ob_db ob) c) as Hr.
    cbn [snd] in Hn. rewrite Hn in Hr. destruct (raise_alarm _ _ _ _ _ _) as [[] d]; cbn [fst snd emit on_db ob_db] in Hr |- *;
      rewrite ?log_event_rows, Hr; repeat case_decide; naive_solver. }
  destruct (decide (c = ab_code ab)) as [->|Hne].
  - exists ab. split; [by left|]. split; [done|]. by rewrite raise_fold_kept; rewrite E1; [|by left].
  - destruct (IH (raise_one now disp ab (m, ob))) as (ab' & H1 & H2 & H3); [|done..|].
    { unfold codes_of in *. set_solver. }
    exists ab'. split; [by right|]. done.
Qed.

Lemma clear_fold_rows now raw cs c st :
  alarm_rows_of c (ob_db (snd (foldl (fun st c => clear_one now raw c st) st cs))) =
  if decide (c ∈ cs /\ c ∉ raw) then [] else alarm_rows_of c (ob_db (snd st)).
Proof.
  revert st. induction cs as [|x cs IH]; intros [m ob]; cbn [foldl].
  { rewrite decide_False; [done|set_solver]. }
  rewrite IH.
  assert (alarm_rows_of c (ob_db (snd (clear_one now raw x (m, ob)))) =
          if decide (c = x /\ x ∉ raw) then [] else alarm_rows_of c (ob_db ob)) as ->.
  { unfold clear_one. case_bool_decide as Hd; [by rewrite decide_False by naive_solver|].
    pose proof (clear_alarm_rows x (ob_db ob) c) as Hr.
    destruct (clear_alarm _ _) as [[] d]; cbn [fst snd emit on_db ob_db] in Hr |- *;
      rewrite ?log_event_rows, Hr; repeat case_decide; naive_solver. }
  repeat case_decide; set_solver.
Qed.

(** The alarms shown after the poll, and the counters they rest on. *)
Definition poll_counts values m : gmap string Z :=
  bump_counts (map ab_code (derive_active_alarms (sm_regmap m) values)) (sm_alarm_poll_counts m).
Definition raw_codes values m : gset string := codes_of (derive_active_alarms (sm_regmap m) values).
Definition shown_codes values engine m : gset string :=
  codes_of (List.filter (alarm_effective (poll_counts values m) engine)
              (derive_active_alarms (sm_regmap m) values)).

Lemma shown_raw values engine m : shown_codes values engine m ⊆ raw_codes values m.
Proof.
  intros c. unfold shown_codes, raw_codes, codes_of. rewrite !elem_of_list_to_set, !list_elem_of_fmap.
  intros (ab & -> & Hab). exists ab. split; [done|].
  apply list_elem_of_In, filter_In in Hab as [Hab _]. by apply list_elem_of_In.
Qed.

Lemma step_alarms_spec now values m ob :
  let engine := ss_engine_state (sm_snap m) in
  let fresh := shown_codes values engine m ∖ ss_active_alarms (sm_snap m) in
  let gone := sm_raised_this_session m ∖ raw_codes values m in
  let st' := step_alarms now values (m, ob) in
  let m' := fst st' in
  sm_alarm_poll_counts m' = poll_counts values m /\
  ss_active_alarms (sm_snap m') = shown_codes values engine m /\
  sm_raised_this_session m' = (sm_raised_this_session m ∪ fresh) ∩ raw_codes values m /\
  alarm_codes (ob_db (snd st')) = (alarm_codes (ob_db ob) ∪ fresh) ∖ gone /\
  sm_numeric_raised m' = sm_numeric_raised m /\
  sm_numeric_poll_counts m' = sm_numeric_poll_counts m /\
  sm_loadsource_disagree_raised m' = sm_loadsource_disagree_raised m /\
  sm_loadsource_disagree_count m' = sm_loadsource_disagree_count m.
Proof.
  cbv zeta. unfold step_alarms.
  set (raw := derive_active_alarms (sm_regmap m) values).
  set (counts := bump_counts (map ab_code raw) (sm_alarm_poll_counts m)).
  set (eff := List.filter (alarm_effective counts (ss_engine_state (sm_snap m))) raw).
  set (disp := ss_active_alarms (sm_snap m)).
  destruct (raise_fold now disp eff (with_counts counts m) ob) as [E1 E2].
  destruct (foldl _ (with_counts counts m, ob) eff) as [m2 ob2]. cbn [fst snd] in E1, E2.
  subst m2. set (R2 := sm_raised_this_session (with_counts counts m) ∪ codes_of eff ∖ disp).
  change (sm_raised_this_session (fst (with_raised R2 (with_counts counts m), ob2))) with R2.
  destruct (clear_fold now (map ab_code raw) (set_iter R2) (with_raised R2 (with_counts counts m)) ob2)
    as [E3 E4].
  destruct (foldl _ (with_raised R2 (with_counts counts m), ob2) (set_iter R2)) as [m3 ob3].
  cbn [fst snd] in E3, E4. subst m3.
  assert ((list_to_set (set_iter R2) : gset string) = R2) as ER.
  { apply set_eq. intros c. by rewrite elem_of_list_to_set, elem_of_set_iter. }
  rewrite ER in *. pose proof (shown_raw values (ss_engine_state (sm_snap m)) m) as Hsub.
  change (codes_of eff) with (shown_codes values (ss_engine_state (sm_snap m)) m) in *.
  set (S := shown_codes values (ss_engine_state (sm_snap m)) m) in *.
  change (list_to_set (map ab_code raw)) with (raw_codes values m) in *.
  set (RC := raw_codes values m) in *.
  split_and!; try reflexivity.
  - cbn. unfold R2. cbn. apply set_eq. intros c. destruct (decide (c ∈ RC)); set_solver.
  - cbn [snd with_snap]. rewrite E4, E2. unfold R2. cbn. apply set_eq. intros c.
    destruct (decide (c ∈ RC)); set_solver.
Qed.

(** The same for the rows themselves. *)
Lemma step_alarms_rows now values m ob c :
  let shown := shown_codes values (ss_engine_state (sm_snap m)) m in
  let resolved := c ∈ sm_raised_this_session m /\ c ∉ raw_codes values m in
  let before := alarm_rows_of c (ob_db ob) in
  let after := alarm_rows_of c (ob_db (snd (step_alarms now values (m, ob)))) in
  (resolved -> after = []) /\
  (~ resolved -> before <> [] \/ c ∉ shown \/ c ∈ ss_active_alarms (sm_snap m) -> after = before) /\
  (c ∈ shown -> c ∉ ss_active_alarms (sm_snap m) -> before = [] ->
   exists ab, ab ∈ derive_active_alarms (sm_regmap m) values /\ ab_code ab = c /\ after = [row_of now ab]).
Proof.
  cbv zeta. pose proof (shown_raw values (ss_engine_state (sm_snap m)) m c) as Hsub. unfold step_alarms.
  set (raw := derive_active_alarms (sm_regmap m) values) in *.
  set (counts := bump_counts (map ab_code raw) (sm_alarm_poll_counts m)).
  set (eff := List.filter (alarm_effective counts (ss_engine_state (sm_snap m))) raw).
  set (disp := ss_active_alarms (sm_snap m)).
  change (shown_codes values (ss_engine_state (sm_snap m)) m) with (codes_of eff) in *.
  destruct (raise_fold now disp eff (with_counts counts m) ob) as [E1 _].
  pose proof (raise_fold_kept now disp eff c (with_counts counts m, ob)) as Hkept.
  pose proof (raise_fold_new now disp eff c (with_counts counts m, ob)) as Hnew.
  destruct (foldl _ (with_counts counts m, ob) eff) as [m2 ob2]. cbn [fst snd] in E1, Hkept, Hnew. cbn [fst].
  pose proof (clear_fold_rows now (map ab_code raw) (set_iter (sm_raised_this_session m2)) c (m2, ob2)) as Hclear.
  destruct (foldl _ (m2, ob2) _) as [m3 ob3]. cbn [fst snd] in Hclear |- *. rewrite Hclear.
  assert ((c ∈ set_iter (sm_raised_this_session m2) /\ c ∉ map ab_code raw) <->
          (c ∈ sm_raised_this_session m /\ c ∉ raw_codes values m)) as Hiff.
  { unfold raw_codes in *. fold raw in Hsub |- *. unfold codes_of in *.
    rewrite elem_of_set_iter, E1. cbn. set_solver. }
  split_and!.
  - intros Hres. by rewrite decide_True by (by apply Hiff).
  - intros Hres Hor. rewrite decide_False by (by rewrite Hiff). by apply Hkept.
  - intros Hin Hnd Hb. rewrite decide_False by (rewrite Hiff; intros [_ ?]; auto).
    destruct (Hnew Hin Hnd Hb) as (ab & Hab & Hc & Hr). exists ab. split_and!; [|done..].
    apply list_elem_of_In, filter_In in Hab as [Hab _]. by apply list_elem_of_In.
Qed.
End passes.

(** ** Numeric and disagreement alarms leave the other codes alone *)

Definition is_numeric (c : string) : Prop := exists n, c = (NUMERIC_ALARM_CODE_PREFIX ++ n)%string.

Definition numeric_keys_ok (m : StateMachine) : Prop :=
  Forall is_numeric (od_keys (sm_numeric_raised m)).

(** [st'] has the same bit-alarm state as [st], and the same alarm row for every
    code that is neither a range code nor the disagreement's. *)
Record bits_kept (st st' : StateMachine * Outbox) : Prop := {
  bk_counts : sm_alarm_poll_counts (fst st') = sm_alarm_poll_counts (fst st);
  bk_raised : sm_raised_this_session (fst st') = sm_raised_this_session (fst st);
  bk_keys : numeric_keys_ok (fst st) -> numeric_keys_ok (fst st');
  bk_rows : numeric_keys_ok (fst st) -> forall c, ~ is_numeric c -> c <> LOADSOURCE_DISAGREE_ALARM_CODE ->
    alarm_rows_of c (ob_db (snd st')) = alarm_rows_of c (ob_db (snd st));
  bk_active : numeric_keys_ok (fst st) -> forall c, ~ is_numeric c -> c <> LOADSOURCE_DISAGREE_ALARM_CODE ->
    c ∈ ss_active_alarms (sm_snap (fst st')) <-> c ∈ ss_active_alarms (sm_snap (fst st))
}.

#[export] Instance bits_kept_preorder : PreOrder bits_kept.
Proof.
  split.
  - intros st. by constructor.
  - intros a b c [? ? Hk Hr Ha] [? ? Hk' Hr' Ha']. constructor; try congruence; [auto| |].
    + intros Hn x Hx Hd. rewrite Hr' by auto. by apply Hr.
    + intros Hn x Hx Hd. rewrite Ha' by auto. by apply Ha.
Qed.

Lemma bk_codes st st' c :
  bits_kept st st' -> numeric_keys_ok (fst st) -> ~ is_numeric c -> c <> LOADSOURCE_DISAGREE_ALARM_CODE ->
  c ∈ alarm_codes (ob_db (snd st')) <-> c ∈ alarm_codes (ob_db (snd st)).
Proof. intros K Hn Hc Hd. by rewrite !alarm_rows_codes, (bk_rows _ _ K Hn c Hc Hd). Qed.

Lemma bits_kept_foldl {B} (P : B -> Prop) (g : StateMachine * Outbox -> B -> StateMachine * Outbox) l st :
  (forall st b, P b -> bits_kept st (g st b)) -> Forall P l -> bits_kept st (foldl g st l).
Proof.
  intros Hg. revert st. induction l as [|b l IH]; intros st Hl; [reflexivity|]. cbn.
  apply Forall_cons_1 in Hl as [Hb Hl]. etransitivity; [by apply Hg|by apply IH].
Qed.

Lemma od_keys_set_Forall {V} (P : string -> Prop) k (v : V) d :
  P k -> Forall P (od_keys d) -> Forall P (od_keys (od_set k v d)).
Proof.
  intros Hk Hd. destruct (decide (k ∈ od_keys d)).
  - by rewrite od_keys_set_in.
  - rewrite od_keys_set_notin by done. by apply Forall_snoc.
Qed.

Lemma od_keys_del_Forall {V} (P : string -> Prop) k (d : odict string V) :
  Forall P (od_keys d) -> Forall P (od_keys (od_del k d)).
Proof.
  rewrite !Forall_forall. intros Hd c Hc. apply Hd. eapply elem_of_sublist; [exact Hc|].
  apply od_keys_del_sub.
Qed.

Lemma active_ranges_numeric rm values engine : Forall is_numeric (od_keys (active_ranges rm values engine)).
Proof.
  unfold active_ranges. case_match; [|constructor].
  apply (foldl_invariant (fun d => Forall is_numeric (od_keys d))); [|constructor].
  intros d reg _ Hd. case_match; [|done]. case_match. apply od_keys_set_Forall; [by eexists|done].
Qed.

Section kept.
Context `{SetOrder}.

Lemma numeric_raise_kept now values e st :
  is_numeric (fst e) -> bits_kept st (numeric_raise now values e st).
Proof.
  intros Hnum. destruct st as [m ob], e as [code [[sev reg] band]]. cbn in Hnum.
  unfold numeric_raise. case_match; [reflexivity|]. case_match; [reflexivity|].
  pose proof (raise_alarm_rows now code (numeric_desc values reg band) sev 0 (ob_db ob)) as Hr.
  destruct (raise_alarm _ _ _ _ _ _) as [[] d]; cbn [snd] in Hr; constructor; try reflexivity;
    cbn [fst snd emit on_db ob_db]; try (intros; by apply od_keys_set_Forall);
    intros _ c Hc _; rewrite ?log_event_rows, Hr, decide_False; naive_solver.
Qed.

Lemma numeric_clear_kept now a c st :
  is_numeric c -> bits_kept st (numeric_clear now a c st).
Proof.
  intros Hnum. destruct st as [m ob]. unfold numeric_clear. case_match; [reflexivity|].
  pose proof (clear_alarm_rows c (ob_db ob)) as Hr.
  destruct (clear_alarm _ _) as [[] d]; cbn [snd] in Hr; constructor; try reflexivity;
    cbn [fst snd emit on_db ob_db]; try (intros; by apply od_keys_del_Forall);
    intros _ c' Hc _; rewrite ?log_event_rows, Hr, decide_False; naive_solver.
Qed.

Lemma step_numeric_kept now values st :
  numeric_keys_ok (fst st) -> bits_kept st (step_numeric now values st).
Proof.
  intros Hn. destruct st as [m ob]. unfold step_numeric.
  assert (bits_kept (m, ob) (check_numeric_ranges now values (m, ob))) as Hk.
  { unfold check_numeric_ranges. set (m1 := with_numeric _ _ m).
    assert (bits_kept (m, ob) (m1, ob)) as H1 by (by constructor).
    pose proof (active_ranges_numeric (sm_regmap m) values (ss_engine_state (sm_snap m))) as Ha.
    set (act := active_ranges _ _ _) in *. set (st2 := foldl _ (m1, ob) act).
    assert (bits_kept (m1, ob) st2) as H2.
    { apply (bits_kept_foldl (fun e => is_numeric (fst e))).
      - intros. by apply numeric_raise_kept.
      - apply Forall_forall. intros e He. rewrite Forall_forall in Ha. apply Ha.
        by apply list_elem_of_fmap_2. }
    etransitivity; [exact H1|]. etransitivity; [exact H2|].
    apply (bits_kept_foldl is_numeric); [intros; by apply numeric_clear_kept|].
    apply (bk_keys _ _ H2), (bk_keys _ _ H1). done. }
  assert (forall m1 ob1, numeric_keys_ok m1 -> bits_kept (m1, ob1)
    (with_snap (fun x => set_active (ss_active_alarms x ∪
       list_to_set (od_keys (sm_numeric_raised m1))) x) m1, ob1)) as Hlayer.
  { intros m1 ob1 H1. constructor; try done. intros _ c Hc _. cbn.
    rewrite elem_of_union, elem_of_list_to_set. split; [intros [?|Hin]; [done|]|by left].
    unfold numeric_keys_ok in H1. rewrite Forall_forall in H1. by destruct (Hc (H1 c Hin)). }
  destruct (rm_numeric_alarms_enabled _); [|by apply Hlayer].
  destruct (check_numeric_ranges now values (m, ob)) as [m1 ob1].
  etransitivity; [exact Hk|]. apply Hlayer. by apply (bk_keys _ _ Hk).
Qed.

Lemma disagree_raise_kept now msg st : bits_kept st (emit_disagree_raise now msg st).
Proof.
  destruct st as [m ob]. unfold emit_disagree_raise.
  pose proof (raise_alarm_rows now LOADSOURCE_DISAGREE_ALARM_CODE msg "warn" 0 (ob_db ob)) as Hr.
  destruct (raise_alarm _ _ _ _ _ _) as [[] d]; cbn [snd] in Hr; constructor; try done;
    cbn [fst snd emit on_db ob_db];
    intros _ c _ Hc; rewrite ?log_event_rows, Hr, decide_False; naive_solver.
Qed.

Lemma disagree_reset_kept now reason st : bits_kept st (disagree_reset now reason st).
Proof.
  destruct st as [m ob]. unfold disagree_reset, emit_disagree_clear.
  destruct (sm_loadsource_disagree_raised m); [|by constructor].
  pose proof (clear_alarm_rows LOADSOURCE_DISAGREE_ALARM_CODE (ob_db ob)) as Hr.
  destruct (clear_alarm _ _) as [[] d]; cbn [snd] in Hr; constructor; try done;
    cbn [fst snd emit on_db ob_db];
    intros _ c _ Hc; rewrite ?log_event_rows, Hr, decide_False; naive_solver.
Qed.

Lemma disagreement_kept now ats values st :
  bits_kept st (check_loadsource_disagreement now ats values st).
Proof.
  destruct st as [m ob]. unfold check_loadsource_disagreement.
  repeat case_match; try apply disagree_reset_kept; try reflexivity;
    try (etransitivity; [|apply disagree_raise_kept]); by constructor.
Qed.
End kept.

(** ** The update as a whole *)

Section whole.
Context `{SetOrder}.
Implicit Types (m : StateMachine) (ob : Outbox) (now : Z) (heap : comms_heap).

Lemma step_comms_kept now heap l st : bits_kept st (step_comms now heap l st).
Proof. destruct st as [m ob]. unfold step_comms. case_match; by constructor. Qed.

Lemma step_panel_kept values st : bits_kept st (step_panel values st).
Proof. destruct st as [m ob]. by constructor. Qed.

Lemma step_load_source_kept now ats values st : bits_kept st (step_load_source now ats values st).
Proof. destruct st as [m ob]. unfold step_load_source. repeat case_match; by constructor. Qed.

Lemma step_finish_kept reading l st : bits_kept st (step_finish reading l st).
Proof.
  destruct st as [m ob]. constructor; try done. intros _ c _ Hc. cbn.
  case_match; set_solver.
Qed.

(** The engine state after the poll, and the alarms the poll shows. *)
Definition engine_after now values m : string :=
  next_engine (ss_engine_state (sm_snap m)) (derive_engine_state (sm_regmap m) values).
Definition shown_after values m : gset string :=
  shown_codes values (next_engine (ss_engine_state (sm_snap m))
                        (derive_engine_state (sm_regmap m) values)) m.

(** An update is a pass over the bit alarms, after the engine state and before stages
    that keep the bit alarms. *)
Lemma update_around_alarms now heap ats reading l m ob :
  numeric_keys_ok m ->
  exists m1 ob1,
    bits_kept (m, ob) (m1, ob1) /\ sm_regmap m1 = sm_regmap m /\
    ss_active_alarms (sm_snap m1) = ss_active_alarms (sm_snap m) /\
    ss_engine_state (sm_snap m1) = engine_after now (rd_values reading) m /\
    numeric_keys_ok (fst (step_alarms now (rd_values reading) (m1, ob1))) /\
    bits_kept (step_alarms now (rd_values reading) (m1, ob1)) (update now heap ats reading l (m, ob)).
Proof.
  intros Hn. unfold update. set (v := rd_values reading).
  pose proof (step_engine_spec now v m ob) as He. cbv zeta in He.
  destruct (step_engine now v (m, ob)) as [m1 ob1]. destruct He as (He & Hm1 & Hob1). exists m1, ob1.
  assert (bits_kept (m, ob) (m1, ob1)) as K1 by (rewrite Hm1, Hob1; case_match; [reflexivity|by constructor]).
  assert (sm_regmap m1 = sm_regmap m /\ ss_active_alarms (sm_snap m1) = ss_active_alarms (sm_snap m)) as (R1 & A1)
    by (rewrite Hm1; by case_match).
  pose proof (bk_keys _ _ K1 Hn) as N1. cbn [fst] in N1.
  assert (numeric_keys_ok (fst (step_alarms now v (m1, ob1)))) as Hn2.
  { destruct (step_alarms_spec now v m1 ob1) as (_ & _ & _ & _ & HN & _). unfold numeric_keys_ok. by rewrite HN. }
  split_and!; try done. destruct (step_alarms now v (m1, ob1)) as [m2 ob2].
  etransitivity; [by apply step_numeric_kept|].
  etransitivity; [apply step_comms_kept|]. etransitivity; [apply step_panel_kept|].
  etransitivity; [apply step_load_source_kept|]. etransitivity; [apply disagreement_kept|].
  apply step_finish_kept.
Qed.

Lemma shown_after_eq now values m m1 :
  sm_regmap m1 = sm_regmap m -> sm_alarm_poll_counts m1 = sm_alarm_poll_counts m ->
  ss_engine_state (sm_snap m1) = engine_after now values m ->
  shown_codes values (ss_engine_state (sm_snap m1)) m1 = shown_after values m.
Proof. intros R1 C1 He. unfold shown_after, shown_codes, poll_counts. by rewrite R1, C1, He. Qed.

(** Exact effect of an update on the bit alarms.  The displayed set is exactly
    the alarms that are debounced and not suppressed.  A row appears for an alarm
    that comes into the displayed set, and goes for a code raised in this session
    whose bit is low; no other row of a bit alarm changes. *)
Lemma update_alarms_spec now heap ats reading l m ob c :
  numeric_keys_ok m -> ~ is_numeric c -> c <> LOADSOURCE_DISAGREE_ALARM_CODE ->
  let v := rd_values reading in
  let st' := update now heap ats reading l (m, ob) in
  let fresh := shown_after v m ∖ ss_active_alarms (sm_snap m) in
  (c ∈ ss_active_alarms (sm_snap (fst st')) <-> c ∈ shown_after v m) /\
  sm_raised_this_session (fst st') = (sm_raised_this_session m ∪ fresh) ∩ raw_codes v m /\
  sm_alarm_poll_counts (fst st') = poll_counts v m /\
  numeric_keys_ok (fst st').
Proof.
  intros Hn Hc Hd. cbv zeta. set (v := rd_values reading).
  destruct (update_around_alarms now heap ats reading l m ob Hn) as (m1 & ob1 & K1 & R1 & A1 & He & Hn2 & K).
  fold v in K1, He, Hn2, K. pose proof (bk_counts _ _ K1) as C1. pose proof (bk_raised _ _ K1) as Q1. cbn [fst] in C1, Q1.
  pose proof (step_alarms_spec now v m1 ob1) as (HC & HA & HR & _).
  rewrite (shown_after_eq now v m m1 R1 C1 He) in HA, HR.
  split_and!.
  - rewrite (bk_active _ _ K Hn2 c Hc Hd). by rewrite HA.
  - rewrite (bk_raised _ _ K), HR, A1, Q1. unfold raw_codes. by rewrite R1.
  - rewrite (bk_counts _ _ K), HC. unfold poll_counts. by rewrite R1, C1.
  - by apply (bk_keys _ _ K).
Qed.

Lemma update_alarm_rows now heap ats reading l m ob c :
  numeric_keys_ok m -> ~ is_numeric c -> c <> LOADSOURCE_DISAGREE_ALARM_CODE ->
  let v := rd_values reading in
  let st' := update now heap ats reading l (m, ob) in
  let resolved := c ∈ sm_raised_this_session m /\ c ∉ raw_codes v m in
  let before := alarm_rows_of c (ob_db ob) in
  let after := alarm_rows_of c (ob_db (snd st')) in
  (resolved -> after = []) /\
  (~ resolved -> before <> [] \/ c ∉ shown_after v m \/ c ∈ ss_active_alarms (sm_snap m) -> after = before) /\
  (c ∈ shown_after v m -> c ∉ ss_active_alarms (sm_snap m) -> before = [] ->
   exists ab, ab ∈ derive_active_alarms (sm_regmap m) v /\ ab_code ab = c /\ after = [row_of now ab]).
Proof.
  intros Hn Hc Hd. cbv zeta. set (v := rd_values reading).
  destruct (update_around_alarms now heap ats reading l m ob Hn) as (m1 & ob1 & K1 & R1 & A1 & He & Hn2 & K).
  fold v in K1, He, Hn2, K. rewrite (bk_rows _ _ K Hn2 c Hc Hd).
  change (alarm_rows_of c (ob_db ob)) with (alarm_rows_of c (ob_db (snd (m, ob)))). rewrite <- (bk_rows _ _ K1 Hn c Hc Hd).
  rewrite <- (shown_after_eq now v m m1 R1 (bk_counts _ _ K1) He), <- A1, <- R1.
  change (sm_raised_this_session m) with (sm_raised_this_session (fst (m, ob))). rewrite <- (bk_raised _ _ K1).
  replace (raw_codes v m) with (raw_codes v m1) by (unfold raw_codes; by rewrite R1).
  exact (step_alarms_rows now v m1 ob1 c).
Qed.

(** *** Histories of polls *)

Record poll_input : Type := {
  pi_now : Z; pi_heap : comms_heap; pi_ats : option AtsView; pi_reading : Reading; pi_comms : nat
}.
Definition update_input (st : StateMachine * Outbox) (i : poll_input) : StateMachine * Outbox :=
  update (pi_now i) (pi_heap i) (pi_ats i) (pi_reading i) (pi_comms i) st.
Definition run_updates (st : StateMachine * Outbox) (ins : list poll_input)
    : StateMachine * Outbox := foldl update_input st ins.

Definition bit_seen (ab : AlarmBit) (i : poll_input) : bool :=
  alarm_bit_set (rd_values (pi_reading i)) ab.

Lemma not_numeric_empty : ~ is_numeric "".
Proof. intros [n Hn]. by destruct n. Qed.

Lemma update_regmap now heap ats reading l st :
  sm_regmap (fst (update now heap ats reading l st)) = sm_regmap (fst st).
Proof. destruct st as [m ob]. apply update_snapshot. Qed.

Lemma run_regmap ins st : sm_regmap (fst (run_updates st ins)) = sm_regmap (fst st).
Proof. apply (foldl_preserves (fun st => sm_regmap (fst st))). intros. apply update_regmap. Qed.

Lemma run_numeric_ok ins st : numeric_keys_ok (fst st) -> numeric_keys_ok (fst (run_updates st ins)).
Proof.
  apply (foldl_invariant (fun st => numeric_keys_ok (fst st))). intros [m ob] i _ Hn.
  by apply (update_alarms_spec (pi_now i) (pi_heap i) (pi_ats i) (pi_reading i) (pi_comms i) m ob ""
              Hn not_numeric_empty).
Qed.

(** A code is active when an alarm of the map has it and its bit is set. *)
Lemma raw_code_bit values m c :
  c ∈ raw_codes values m <->
  exists ab, ab ∈ rm_alarm_bits (sm_regmap m) /\ ab_code ab = c /\ alarm_bit_set values ab = true.
Proof.
  unfold raw_codes, codes_of. rewrite elem_of_list_to_set, list_elem_of_fmap. split.
  - intros (ab & -> & Hab%elem_of_active_alarms). naive_solver.
  - intros (ab & Hin & <- & Hb). exists ab. by rewrite elem_of_active_alarms.
Qed.

(** Alarm codes are unique in the map, so a code is active exactly when its bit is. *)
Lemma active_code_bit rm values ab :
  NoDup (map ab_code (rm_alarm_bits rm)) -> ab ∈ rm_alarm_bits rm ->
  ab_code ab ∈ map ab_code (derive_active_alarms rm values) <-> alarm_bit_set values ab = true.
Proof.
  intros Hnd Hab. rewrite list_elem_of_fmap. split.
  - intros (ab' & E & Hin). apply elem_of_active_alarms in Hin as [Hin Hb].
    by rewrite (NoDup_map_inj ab_code _ ab ab' Hnd Hab Hin E).
  - intros Hb. exists ab. split; [done|]. by apply elem_of_active_alarms.
Qed.

Lemma NoDup_active_codes rm values :
  NoDup (map ab_code (rm_alarm_bits rm)) -> NoDup (map ab_code (derive_active_alarms rm values)).
Proof.
  unfold derive_active_alarms. induction (rm_alarm_bits rm) as [|x l IH]; [done|]. cbn.
  intros [Hx Hnd]%NoDup_cons. case_match; [|by apply IH]. cbn. apply NoDup_cons.
  split; [|by apply IH]. intros Hin. apply Hx. apply list_elem_of_fmap in Hin as (y & -> & Hy).
  apply list_elem_of_In, filter_In in Hy as [Hy _]. apply list_elem_of_fmap_2. by apply list_elem_of_In.
Qed.

(** The counter of a code is the number of consecutive polls, up to the last,
    that saw its bit. *)
Lemma counts_run_length ins m ob ab :
  sm_alarm_poll_counts m = ∅ -> numeric_keys_ok m ->
  NoDup (map ab_code (rm_alarm_bits (sm_regmap m))) -> ab ∈ rm_alarm_bits (sm_regmap m) ->
  default 0 (sm_alarm_poll_counts (fst (run_updates (m, ob) ins)) !! ab_code ab) =
  run_length true (rev (map (bit_seen ab) ins)).
Proof.
  intros H0 Hn Hnd Hab. induction ins as [|i ins IH] using rev_ind; [by cbn; rewrite H0|].
  unfold run_updates. rewrite foldl_app. cbn [foldl]. fold (run_updates (m, ob) ins).
  rewrite map_app, rev_app_distr. cbn [map rev app run_length].
  pose proof (run_regmap ins (m, ob)) as Hrm. pose proof (run_numeric_ok ins (m, ob) Hn) as Hn'.
  destruct (run_updates (m, ob) ins) as [m' ob']. cbn [fst] in *.
  destruct (update_alarms_spec (pi_now i) (pi_heap i) (pi_ats i) (pi_reading i) (pi_comms i) m' ob' ""
              Hn' not_numeric_empty) as (_ & _ & Hc & _); [done|].
  unfold update_input. rewrite Hc. unfold poll_counts. rewrite Hrm.
  rewrite bump_counts_lookup by by apply NoDup_active_codes.
  pose proof (active_code_bit (sm_regmap m) (rd_values (pi_reading i)) ab Hnd Hab) as Hbit.
  unfold bit_seen at 1. destruct (alarm_bit_set _ ab) eqn:Eb; cbn [Bool.eqb].
  - rewrite decide_True by by apply Hbit. cbn. rewrite IH. lia.
  - rewrite decide_False; [done|]. intros Hin%Hbit. done.
Qed.

(** C11. Over any history of polls a bit alarm is displayed exactly when its bit was
    seen in each of the last min_poll_count polls and the engine is in no state that
    suppresses it. *)
Theorem alarm_debounce ins i m ob ab :
  sm_alarm_poll_counts m = ∅ -> numeric_keys_ok m ->
  NoDup (map ab_code (rm_alarm_bits (sm_regmap m))) -> ab ∈ rm_alarm_bits (sm_regmap m) ->
  ~ is_numeric (ab_code ab) -> ab_code ab <> LOADSOURCE_DISAGREE_ALARM_CODE ->
  let x := sm_snap (fst (run_updates (m, ob) (ins ++ [i]))) in
  ab_code ab ∈ ss_active_alarms x <->
  bit_seen ab i = true /\
  ab_min_poll_count ab <= run_length true (rev (map (bit_seen ab) (ins ++ [i]))) /\
  ss_engine_state x ∉ ab_suppress_in_states ab.
Proof.
  intros H0 Hn Hnd Hab Hnum Hdis x.
  pose proof (counts_run_length (ins ++ [i]) m ob ab H0 Hn Hnd Hab) as Hcount.
  rewrite <- Hcount. clear Hcount. subst x.
  unfold run_updates. rewrite foldl_app. cbn [foldl]. fold (run_updates (m, ob) ins).
  pose proof (run_regmap ins (m, ob)) as Hrm. pose proof (run_numeric_ok ins (m, ob) Hn) as Hn'.
  destruct (run_updates (m, ob) ins) as [m' ob']. cbn [fst] in *. unfold update_input.
  destruct (update_alarms_spec (pi_now i) (pi_heap i) (pi_ats i) (pi_reading i) (pi_comms i) m' ob'
              (ab_code ab) Hn' Hnum Hdis) as (-> & _ & -> & _).
  destruct (update_snapshot (pi_now i) (pi_heap i) (pi_ats i) (pi_reading i) (pi_comms i) m' ob')
    as (_ & -> & _).
  unfold shown_after, shown_codes, codes_of. rewrite elem_of_list_to_set, Hrm.
  set (eng := next_engine _ _). set (cnt := poll_counts _ m').
  assert (forall ab', alarm_effective cnt eng ab' = true <->
    ab_min_poll_count ab' <= default 0 (cnt !! ab_code ab') /\ eng ∉ ab_suppress_in_states ab') as Heff.
  { intros ab'. unfold alarm_effective. rewrite andb_true_iff, Z.leb_le, negb_true_iff.
    rewrite <- not_true_iff_false, existsb_exists. split; intros [Hle Hs]; (split; [done|]).
    - intros Hin. apply Hs. exists eng. split; [by apply list_elem_of_In|by apply String.eqb_eq].
    - intros (s & Hin & ->%String.eqb_eq). apply Hs. by apply list_elem_of_In. }
  rewrite list_elem_of_fmap. split.
  - intros (ab' & E & Hin). apply list_elem_of_In, filter_In in Hin as [Hin Hef].
    apply list_elem_of_In, elem_of_active_alarms in Hin as [Hin Hb].
    rewrite (NoDup_map_inj ab_code _ ab ab' Hnd Hab Hin E). split; [done|by apply Heff].
  - intros (Hb & Hle). exists ab. split; [done|]. apply list_elem_of_In, filter_In.
    split; [|by apply Heff]. apply list_elem_of_In, elem_of_active_alarms. done.
Qed.

(** C12. An update gives a bit alarm that comes into the displayed set a row of
    alarms_active, unless it has one, with its description, severity, mask and the time of
    the update; it deletes the row of every code raised in this session whose bit is low,
    and leaves every other bit alarm's row as it was. *)
Theorem alarm_rows_exact now heap ats reading l m ob c :
  numeric_keys_ok m -> ~ is_numeric c -> c <> LOADSOURCE_DISAGREE_ALARM_CODE ->
  let st' := update now heap ats reading l (m, ob) in
  let bit_up := exists ab, ab ∈ rm_alarm_bits (sm_regmap m) /\ ab_code ab = c /\
                           alarm_bit_set (rd_values reading) ab = true in
  let comes_up := c ∈ ss_active_alarms (sm_snap (fst st')) /\ c ∉ ss_active_alarms (sm_snap m) in
  let resolved := c ∈ sm_raised_this_session m /\ ~ bit_up in
  let before := alarm_rows_of c (ob_db ob) in
  let after := alarm_rows_of c (ob_db (snd st')) in
  (resolved -> after = [] /\ c ∉ sm_raised_this_session (fst st')) /\
  (comes_up -> c ∈ sm_raised_this_session (fst st') /\
     (before <> [] -> after = before) /\
     (before = [] -> exists ab, ab ∈ rm_alarm_bits (sm_regmap m) /\ ab_code ab = c /\
        alarm_bit_set (rd_values reading) ab = true /\
        after = [{| al_code := c; al_desc := ab_desc ab; al_severity := ab_severity ab;
                    al_raised_at := now; al_raw := ab_mask ab |}])) /\
  (~ resolved -> ~ comes_up -> after = before).
Proof.
  intros Hn Hc Hd. cbv zeta.
  destruct (update_alarms_spec now heap ats reading l m ob c Hn Hc Hd) as (Hshown & -> & _).
  destruct (update_alarm_rows now heap ats reading l m ob c Hn Hc Hd) as (Hres & Hkept & Hnew).
  pose proof (shown_raw (rd_values reading)
    (next_engine (ss_engine_state (sm_snap m)) (derive_engine_state (sm_regmap m) (rd_values reading))) m c) as Hs.
  fold (shown_after (rd_values reading) m) in Hs.
  rewrite Hshown, elem_of_intersection, elem_of_union, elem_of_difference, <- raw_code_bit. split_and!.
  - intros Hr. split; [by apply Hres|tauto].
  - intros [Hin Hnd]. split; [tauto|]. split; [intros Hb; apply Hkept; [tauto|by left]|].
    intros Hb. destruct (Hnew Hin Hnd Hb) as (ab & Hab & <- & Hrow). apply elem_of_active_alarms in Hab as [Hab Hbit].
    by exists ab.
  - intros Hr Hu. apply Hkept; [done|]. destruct (decide (c ∈ ss_active_alarms (sm_snap m))); [by right; right|].
    right; left. tauto.
Qed.
End whole.
