(* ===== verification/LoadFacts.v ===== *)
(** * Histories of the state machine

    The engine state and its log over a run of polls, the load source and its
    hysteresis, the debounced cross-check with the ATS position, and the comms
    transitions a run can see. *)

From S2P Require Import Prelude PyNum Registers Poller PollerFacts Database Events StateMachine StateMachineFacts AlarmFacts.

Local Open Scope Z_scope.

(** ** Engine state *)

Definition transition_message (old new : string) : string :=
  ("Engine state: " ++ old ++ " → " ++ new)%string.

(** The state changes a list of derived states makes. *)
Fixpoint state_changes (old : string) (derived : list string) : list (string * string) :=
  match derived with
  | [] => []
  | d :: rest => let new := next_engine old d in
                 (if (new =? old)%string then [] else [(old, new)]) ++ state_changes new rest
  end.

Section engine.
Context `{SetOrder}.
Implicit Types (m : StateMachine) (ob : Outbox).

Definition derived_states rm (ins : list poll_input) : list string :=
  map (fun i => derive_engine_state rm (rd_values (pi_reading i))) ins.

Lemma step_engine_rows now v m ob :
  let old := ss_engine_state (sm_snap m) in
  let new := next_engine old (derive_engine_state (sm_regmap m) v) in
  map ev_message (rows_of "TRANSITION" (snd (step_engine now v (m, ob)))) =
  map ev_message (rows_of "TRANSITION" ob) ++
    (if (new =? old)%string then [] else [transition_message old new]).
Proof.
  cbv zeta. pose proof (step_engine_spec now v m ob) as He. cbv zeta in He.
  destruct (step_engine now v (m, ob)) as [m1 ob1]. destruct He as (_ & _ & ->).
  case_match; [by rewrite app_nil_r|]. cbn [snd]. unfold rows_of. cbn.
  by rewrite List.filter_app, map_app.
Qed.

(** C15. Over any run of polls the engine state is the last state the bit rules derived
    (unknown skipped), the event log has one TRANSITION row per change, in order, and a
    known state never becomes unknown. *)
Theorem engine_history ins m ob :
  let old := ss_engine_state (sm_snap m) in
  let ds := derived_states (sm_regmap m) ins in
  let st' := run_updates (m, ob) ins in
  ss_engine_state (sm_snap (fst st')) = foldl next_engine old ds /\
  map ev_message (rows_of "TRANSITION" (snd st')) =
    map ev_message (rows_of "TRANSITION" ob) ++
    map (fun c => transition_message (fst c) (snd c)) (state_changes old ds) /\
  (old <> "unknown"%string -> ss_engine_state (sm_snap (fst st')) <> "unknown"%string).
Proof.
  cbv zeta. revert m ob. induction ins as [|i ins IH]; intros m ob.
  { cbn. rewrite app_nil_r. by split_and!. }
  unfold derived_states. cbn [map foldl state_changes].
  unfold run_updates. cbn [foldl]. fold (run_updates (update_input (m, ob) i) ins).
  destruct (update_snapshot (pi_now i) (pi_heap i) (pi_ats i) (pi_reading i) (pi_comms i) m ob)
    as (Hrm & He & _ & _ & _ & _ & _ & Hrows).
  fold (update_input (m, ob) i) in Hrm, He, Hrows.
  pose proof (step_engine_rows (pi_now i) (rd_values (pi_reading i)) m ob) as Hmsg. cbv zeta in Hmsg.
  destruct (update_input (m, ob) i) as [m1 ob1]. cbn [fst snd] in *.
  destruct (IH m1 ob1) as (E1 & E2 & Hk). rewrite He, Hrm in E1, E2. rewrite He in Hk.
  fold (derived_states (sm_regmap m) ins). split_and!.
  - exact E1.
  - rewrite E2, Hrows, Hmsg, map_app, <- app_assoc. by case_match.
  - intros Hold. apply Hk. unfold next_engine.
    destruct (String.eqb_spec (derive_engine_state (sm_regmap m) (rd_values (pi_reading i))) "unknown"); done.
Qed.
End engine.

(** The start counter counts the changes into [cranking]: its LIKE pattern matches
    a transition message exactly when that is the new state. *)
Definition engine_states : list string :=
  ["unknown"; "stopped"; "cranking"; "running"; "cooling"; "exercising"; "alarm"]%string.

(** The start and transfer counters of the event log grow by one exactly for
    transitions into cranking and into running. *)
Theorem engine_starts_counted now old new d :
  old ∈ engine_states -> new ∈ engine_states ->
  count_engine_starts (log_event now "ok" "TRANSITION" (transition_message old new) None d) =
  count_engine_starts d + (if (new =? "cranking")%string then 1 else 0) /\
  (forall since, since <= now ->
     count_transfers_since since (log_event now "ok" "TRANSITION" (transition_message old new) None d) =
     count_transfers_since since d + (if (new =? "running")%string then 1 else 0)).
Proof.
  intros Ho Hn.
  assert (forall s, s ∈ ["cranking"; "running"]%string ->
    str_contains (String.append "→ " s) (transition_message old new) = (new =? s)%string) as Hc.
  { intros s Hs.
    assert (forallb (fun s => forallb (fun o => forallb (fun n =>
      Bool.eqb (str_contains (String.append "→ " s) (transition_message o n)) (n =? s)%string)
      engine_states) engine_states) ["cranking"; "running"]%string = true) as Hall by (vm_compute; done).
    rewrite forallb_forall in Hall. specialize (Hall s (proj1 (list_elem_of_In _ _) Hs)).
    rewrite forallb_forall in Hall. specialize (Hall old (proj1 (list_elem_of_In _ _) Ho)).
    rewrite forallb_forall in Hall. specialize (Hall new (proj1 (list_elem_of_In _ _) Hn)).
    by apply Bool.eqb_prop in Hall. }
  split; [|intros since Hs].
  - unfold count_engine_starts. cbn [log_event write_event snd db_with_events db_events].
    rewrite List.filter_app, length_app. unfold transition_into at 2. cbn [List.filter ev_type ev_message].
    rewrite Hc by set_solver. by destruct (new =? "cranking")%string; cbn; lia.
  - unfold count_transfers_since. cbn [log_event write_event snd db_with_events db_events].
    rewrite List.filter_app, length_app. unfold transition_into at 2. cbn [List.filter ev_type ev_message ev_ts].
    rewrite Hc by set_solver. rewrite (proj2 (Z.leb_le _ _)) by done.
    by destruct (new =? "running")%string; cbn; lia.
Qed.

(** ** Load source *)

Definition unloaded_states : list string := ["stopped"; "cranking"; "cooling"; "exercising"]%string.

Lemma existsb_eqb s l : existsb (String.eqb s) l = true <-> s ∈ l.
Proof.
  rewrite existsb_exists. split.
  - intros (x & Hx & ->%String.eqb_eq). by apply list_elem_of_In.
  - intros Hs. exists s. split; [by apply list_elem_of_In|by apply String.eqb_eq].
Qed.

Lemma gap_current x : py_geb x LOAD_ON_CURRENT_THRESHOLD = true -> py_ltb x LOAD_OFF_CURRENT_THRESHOLD = false.
Proof. apply py_hysteresis_gap. by vm_compute. Qed.
Lemma gap_kw x : py_geb x LOAD_ON_KW_THRESHOLD = true -> py_ltb x LOAD_OFF_KW_THRESHOLD = false.
Proof. apply py_hysteresis_gap. by vm_compute. Qed.

(** The switch on one pair of tests, and the derivation as that switch. *)
Definition on_off (on off : bool) (prev : string) : string :=
  if (prev =? "generator")%string then if off then "utility" else "generator"
  else if on then "generator" else "utility".

Lemma on_off_spec on off prev :
  (on = true -> off = false) ->
  on_off on off (on_off on off prev) = on_off on off prev /\
  (on_off on off prev = "generator"%string -> prev <> "generator"%string -> on = true) /\
  (prev = "generator"%string -> on_off on off prev <> "generator"%string -> off = true).
Proof.
  unfold on_off. intros Hgap. destruct (String.eqb_spec prev "generator") as [->|Hp].
  - destruct off, on; cbn; split_and!; try done. by specialize (Hgap eq_refl).
  - destruct on; cbn; [rewrite Hgap by done|]; by split_and!.
Qed.

Definition sensors_on (c k : pynum) : bool :=
  py_geb c LOAD_ON_CURRENT_THRESHOLD && py_geb k LOAD_ON_KW_THRESHOLD.
Definition sensors_off (c k : pynum) : bool :=
  py_ltb c LOAD_OFF_CURRENT_THRESHOLD && py_ltb k LOAD_OFF_KW_THRESHOLD.

Lemma sensors_gap c k : sensors_on c k = true -> sensors_off c k = false.
Proof. unfold sensors_on, sensors_off. intros [Hc _]%andb_prop. by rewrite (gap_current c Hc). Qed.

Lemma derive_telemetry_cases values engine :
  let f := derive_load_source_from_telemetry values engine in
  let c := as_float (or_zero (values !! "avg_current"%string)) in
  let k := as_float (or_zero (values !! "total_kw"%string)) in
  (engine = "unknown"%string /\ forall prev, f prev = prev) \/
  (engine ∈ unloaded_states /\ forall prev, f prev = "utility"%string) \/
  (engine ∉ unloaded_states /\ forall prev, f prev = if (prev =? "unknown")%string then "utility"%string else prev) \/
  (engine ∉ unloaded_states /\ forall prev, f prev = on_off (sensors_on c k) (sensors_off c k) prev).
Proof.
  cbv zeta. unfold derive_load_source_from_telemetry. fold unloaded_states.
  destruct (String.eqb_spec engine "unknown") as [|_]; [by left|].
  pose proof (existsb_eqb engine unloaded_states) as Hun.
  destruct (existsb (String.eqb engine) unloaded_states).
  { right; left. split; [by apply Hun|done]. }
  assert (engine ∉ unloaded_states) as Hn by (intros Hin%Hun; congruence).
  destruct (values !! "avg_current"%string), (values !! "total_kw"%string);
    try (right; right; right; by split).
  right; right; left. by split.
Qed.

(** The inferred load source is stable under repeated evaluation, moves to
    generator only when both sensors reach their ON thresholds, and leaves it only when the
    engine cannot carry load or both are under their OFF thresholds. *)
Theorem load_source_hysteresis values engine prev :
  let f := derive_load_source_from_telemetry values engine in
  let current := as_float (or_zero (values !! "avg_current"%string)) in
  let kw := as_float (or_zero (values !! "total_kw"%string)) in
  f (f prev) = f prev /\
  (f prev = "generator"%string -> prev <> "generator"%string ->
     engine ∉ unloaded_states /\ py_geb current LOAD_ON_CURRENT_THRESHOLD = true /\
     py_geb kw LOAD_ON_KW_THRESHOLD = true) /\
  (prev = "generator"%string -> f prev <> "generator"%string ->
     engine ∈ unloaded_states \/
     (py_ltb current LOAD_OFF_CURRENT_THRESHOLD = true /\ py_ltb kw LOAD_OFF_KW_THRESHOLD = true)).
Proof.
  cbv zeta. destruct (derive_telemetry_cases values engine) as [[_ Hf]|[[He Hf]|[[Hn Hf]|[Hn Hf]]]];
    rewrite !Hf.
  - split_and!; [done|by intros|by intros ->].
  - split_and!; [done|by intros|by left].
  - destruct (String.eqb_spec prev "unknown") as [->|Hp].
    + by split_and!.
    + rewrite (proj2 (String.eqb_neq _ _) Hp). split_and!; [done|by intros|by intros ->].
  - destruct (on_off_spec _ _ prev (sensors_gap
      (as_float (or_zero (values !! "avg_current"%string))) (as_float (or_zero (values !! "total_kw"%string)))))
      as (Hs & Hon & Hoff).
    split_and!; [done| |].
    + intros Hg Hp. split; [done|]. apply andb_prop. by apply Hon.
    + intros Hp Hg. right. apply andb_prop. by apply Hoff.
Qed.

(** ** The cross-check of the ATS position *)

(** What one poll says: nothing, an agreement that resets, or a disagreement. *)
Inductive verdict : Type := Hold | Agree | Disagree.

Definition cross_check (engine : string) (ats : option AtsView) (values : values_t) : verdict :=
  match ats with
  | None => Agree
  | Some v =>
      if negb (av_authoritative v) then Agree
      else if negb (existsb (String.eqb engine) ["running"; "alarm"]%string) then Agree
      else if negb (existsb (String.eqb (av_position v)) ["utility"; "generator"]%string) then Hold
      else match values !! "avg_current"%string, values !! "total_kw"%string with
           | Some c, Some k => match disagreement (av_position v) (av_normal_available v) c k with
                               | Some _ => Disagree
                               | None => Agree
                               end
           | _, _ => Hold
           end
  end.

(** Disagreements since the last agreement. *)
Definition votes_step (n : Z) (v : verdict) : Z :=
  match v with Hold => n | Agree => 0 | Disagree => n + 1 end.

Definition disagree_state (m : StateMachine) : Z * bool :=
  (sm_loadsource_disagree_count m, sm_loadsource_disagree_raised m).

Section disagree.
Context `{SetOrder}.
Implicit Types (m : StateMachine) (ob : Outbox).

Lemma disagree_reset_state now reason st :
  disagree_state (fst (disagree_reset now reason st)) = (0, false).
Proof.
  destruct st as [m ob]. unfold disagree_reset, emit_disagree_clear, clear_alarm, disagree_state.
  destruct (sm_loadsource_disagree_raised m) eqn:E; [|cbn; by rewrite E].
  by destruct (alarm_present _ _).
Qed.

Lemma check_state now ats values m ob :
  let v := cross_check (ss_engine_state (sm_snap m)) ats values in
  let n := votes_step (sm_loadsource_disagree_count m) v in
  disagree_state (fst (check_loadsource_disagreement now ats values (m, ob))) =
    (n, match v with
        | Hold => sm_loadsource_disagree_raised m
        | Agree => false
        | Disagree => sm_loadsource_disagree_raised m || (LOADSOURCE_DISAGREE_DEBOUNCE_POLLS <=? n)
        end).
Proof.
  cbv zeta. unfold check_loadsource_disagreement, cross_check.
  destruct ats as [v|]; [|apply disagree_reset_state].
  destruct (negb (av_authoritative v)); [apply disagree_reset_state|].
  destruct (negb (existsb _ ["running"; "alarm"]%string)); [apply disagree_reset_state|].
  destruct (negb (existsb _ _)); [done|].
  destruct (values !! "avg_current"%string) as [c|]; [|done].
  destruct (values !! "total_kw"%string) as [k|]; [|done].
  destruct (disagreement _ _ c k) as [msg|]; [|apply disagree_reset_state].
  cbn [votes_step]. set (n := sm_loadsource_disagree_count m + 1).
  destruct (sm_loadsource_disagree_raised m) eqn:Er; cbn [negb orb]; [by rewrite andb_false_r|].
  rewrite andb_true_r. destruct (LOADSOURCE_DISAGREE_DEBOUNCE_POLLS <=? n); [|done].
  unfold emit_disagree_raise, raise_alarm, disagree_state. by destruct (alarm_present _ _).
Qed.

(** Stages other than the cross-check leave its state alone. *)
Lemma numeric_fold_disagree now v l st :
  disagree_state (fst (foldl (fun st e => numeric_raise now v e st) st l)) = disagree_state (fst st).
Proof.
  apply (foldl_preserves (fun st => disagree_state (fst st))). intros [m ob] [? [[? ?] ?]].
  unfold numeric_raise, raise_alarm. repeat case_match; simplify_eq; done.
Qed.

Lemma numeric_clear_fold_disagree now a l st :
  disagree_state (fst (foldl (fun st c => numeric_clear now a c st) st l)) = disagree_state (fst st).
Proof.
  apply (foldl_preserves (fun st => disagree_state (fst st))). intros [m ob] c.
  unfold numeric_clear, clear_alarm. repeat case_match; simplify_eq; done.
Qed.

Lemma step_numeric_disagree now v st :
  disagree_state (fst (step_numeric now v st)) = disagree_state (fst st).
Proof.
  destruct st as [m ob]. unfold step_numeric.
  assert (disagree_state (fst (check_numeric_ranges now v (m, ob))) = disagree_state m) as Hc.
  { unfold check_numeric_ranges. rewrite numeric_clear_fold_disagree, numeric_fold_disagree. done. }
  destruct (rm_numeric_alarms_enabled _); [|done].
  by destruct (check_numeric_ranges now v (m, ob)).
Qed.

Lemma before_check_disagree now heap ats v l m ob :
  disagree_state (fst (step_load_source now ats v (step_panel v (step_comms now heap l
    (step_numeric now v (step_alarms now v (step_engine now v (m, ob)))))))) = disagree_state m.
Proof.
  assert (forall st, disagree_state (fst (step_load_source now ats v st)) = disagree_state (fst st)) as ->.
  { intros [? ?]. unfold step_load_source. by repeat case_match. }
  assert (forall st, disagree_state (fst (step_panel v st)) = disagree_state (fst st)) as -> by by intros [].
  rewrite step_comms_fst, step_numeric_disagree.
  pose proof (step_engine_spec now v m ob) as He. cbv zeta in He.
  destruct (step_engine now v (m, ob)) as [m1 ob1]. destruct He as (_ & -> & _).
  match goal with |- context [step_alarms now v (?m1, ob1)] =>
    destruct (step_alarms_spec now v m1 ob1) as (_ & _ & _ & _ & _ & _ & E1 & E2) end.
  unfold disagree_state. rewrite E1, E2. by case_match.
Qed.

Lemma update_disagree i m ob :
  let st' := update_input (m, ob) i in
  let v := cross_check (ss_engine_state (sm_snap (fst st'))) (pi_ats i) (rd_values (pi_reading i)) in
  let n := votes_step (sm_loadsource_disagree_count m) v in
  disagree_state (fst st') =
    (n, match v with
        | Hold => sm_loadsource_disagree_raised m
        | Agree => false
        | Disagree => sm_loadsource_disagree_raised m || (LOADSOURCE_DISAGREE_DEBOUNCE_POLLS <=? n)
        end) /\
  (LOADSOURCE_DISAGREE_ALARM_CODE ∈ ss_active_alarms (sm_snap (fst st')) <->
   sm_loadsource_disagree_raised (fst st') = true).
Proof.
  cbv zeta. unfold update_input, update. set (v := rd_values (pi_reading i)).
  pose proof (before_check_disagree (pi_now i) (pi_heap i) (pi_ats i) v (pi_comms i) m ob) as Hb.
  match type of Hb with disagree_state (fst ?s) = _ => set (st := s) in * end.
  destruct st as [m1 ob1] eqn:Est. pose proof (check_state (pi_now i) (pi_ats i) v m1 ob1) as Hc.
  cbv zeta in Hc. pose proof (disagreement_quiet (pi_now i) (pi_ats i) v (m1, ob1)) as Hq.
  destruct (check_loadsource_disagreement (pi_now i) (pi_ats i) v (m1, ob1)) as [m2 ob2].
  assert (ss_engine_state (sm_snap m2) = ss_engine_state (sm_snap m1)) as He by apply Hq.
  cbn [fst] in Hb, Hc. injection Hb as Hb1 Hb2.
  assert (forall x, ss_engine_state (sm_snap (fst (step_finish (pi_reading i) (pi_comms i) (m2, x)))) =
    ss_engine_state (sm_snap m2)) as -> by done.
  rewrite He, <- Hb1, <- Hb2. split; [exact Hc|]. cbn.
  destruct (sm_loadsource_disagree_raised m2); set_solver.
Qed.

(** The verdicts of a run of polls. *)
Fixpoint verdicts (st : StateMachine * Outbox) (ins : list poll_input) : list verdict :=
  match ins with
  | [] => []
  | i :: rest =>
      let st' := update_input st i in
      cross_check (ss_engine_state (sm_snap (fst st'))) (pi_ats i) (rd_values (pi_reading i))
        :: verdicts st' rest
  end.

(** The ATS/H-100 disagreement alarm is up, and displayed, exactly when three or
    more polls disagreed since the last one that agreed or could not be evaluated, polls
    without evidence not counted. *)
Theorem disagreement_debounce ins i m ob :
  disagree_state m = (0, false) ->
  let st' := run_updates (m, ob) (ins ++ [i]) in
  let n := foldl votes_step 0 (verdicts (m, ob) (ins ++ [i])) in
  sm_loadsource_disagree_count (fst st') = n /\
  (sm_loadsource_disagree_raised (fst st') = true <-> LOADSOURCE_DISAGREE_DEBOUNCE_POLLS <= n) /\
  (LOADSOURCE_DISAGREE_ALARM_CODE ∈ ss_active_alarms (sm_snap (fst st')) <->
   LOADSOURCE_DISAGREE_DEBOUNCE_POLLS <= n).
Proof.
  intros H0. cbv zeta.
  assert (forall ins st n, 0 <= n -> disagree_state (fst st) = (n, LOADSOURCE_DISAGREE_DEBOUNCE_POLLS <=? n) ->
    let n' := foldl votes_step n (verdicts st ins) in
    disagree_state (fst (run_updates st ins)) = (n', LOADSOURCE_DISAGREE_DEBOUNCE_POLLS <=? n') /\ 0 <= n') as Hrun.
  { clear. intros ins. induction ins as [|i ins IH]; intros [m ob] n Hn Hst; [done|].
    cbn [verdicts foldl]. unfold run_updates. cbn [foldl]. fold (run_updates (update_input (m, ob) i) ins).
    destruct (update_disagree i m ob) as [Hu _]. cbv zeta in Hu.
    set (v := cross_check _ _ _) in *. injection Hst as Hc Hr. rewrite Hc, Hr in Hu.
    apply IH; [destruct v; cbn; lia|]. rewrite Hu. f_equal. destruct v; cbn [votes_step].
    - done.
    - done.
    - unfold LOADSOURCE_DISAGREE_DEBOUNCE_POLLS.
      destruct (Z.leb_spec 3 n), (Z.leb_spec 3 (n + 1)); cbn; (done || lia). }
  destruct (Hrun (ins ++ [i]) (m, ob) 0 ltac:(lia) H0) as [Hst _]. injection Hst as Hc Hr.
  assert (sm_loadsource_disagree_raised (fst (run_updates (m, ob) (ins ++ [i]))) = true <->
    LOADSOURCE_DISAGREE_ALARM_CODE ∈ ss_active_alarms (sm_snap (fst (run_updates (m, ob) (ins ++ [i]))))) as Hd.
  { unfold run_updates. rewrite foldl_app. cbn [foldl]. destruct (foldl update_input (m, ob) ins) as [m1 ob1].
    symmetry. apply update_disagree. }
  split_and!; [done| |].
  - rewrite Hr. apply Z.leb_le.
  - rewrite <- Hd, Hr. apply Z.leb_le.
Qed.
End disagree.

(** ** Comms transitions *)

Section comms.
Context `{SetOrder}.

Lemma update_comms_rows now heap ats reading l m ob :
  ss_comms (sm_snap m) = l ->
  rows_of "COMMS" (snd (update now heap ats reading l (m, ob))) = rows_of "COMMS" ob.
Proof.
  intros Hl. unfold update. set (v := rd_values reading).
  pose proof (step_engine_spec now v m ob) as He. cbv zeta in He.
  destruct (step_engine now v (m, ob)) as [m1 ob1]. destruct He as (_ & Hm1 & Hob1).
  assert (rows_of "COMMS" ob1 = rows_of "COMMS" ob /\ ss_comms (sm_snap m1) = l) as [R1 L1].
  { rewrite Hob1, Hm1. case_match; [done|]. by rewrite rows_of_log, rows_of_emit. }
  assert (quiet (m1, ob1) (step_numeric now v (step_alarms now v (m1, ob1)))) as Hq.
  { etransitivity; [apply step_alarms_quiet|apply step_numeric_quiet]. }
  destruct (step_numeric now v (step_alarms now v (m1, ob1))) as [m3 ob3].
  assert (ss_comms (sm_snap m3) = l) as L3 by (rewrite <- L1; apply Hq).
  assert (rows_of "COMMS" ob3 = rows_of "COMMS" ob) as R3 by (rewrite <- R1; by apply Hq).
  assert (step_comms now heap l (m3, ob3) = (m3, ob3)) as ->.
  { unfold step_comms. by rewrite L3, String.eqb_refl. }
  assert (forall st, rows_of "COMMS" (snd (step_finish reading l st)) = rows_of "COMMS" (snd st)) as ->
    by by intros [].
  rewrite (q_rows _ _ (disagreement_quiet now ats v _)) by done.
  by rewrite step_load_source_rows.
Qed.

(** Every poll of the run hands over the record at [l]. *)
Definition one_record (l : nat) (ins : list poll_input) : Prop := Forall (fun i => pi_comms i = l) ins.

(** Because the poller hands over one record it mutates in place, once the state
    machine has kept it no later change of the link state is ever logged. *)
Theorem comms_transitions_missed ins i0 m ob l :
  one_record l (i0 :: ins) ->
  rows_of "COMMS" (snd (run_updates (m, ob) (i0 :: ins))) =
  rows_of "COMMS" (snd (update_input (m, ob) i0)).
Proof.
  intros [H0 Hins]%Forall_cons_1. unfold run_updates. cbn [foldl].
  assert (ss_comms (sm_snap (fst (update_input (m, ob) i0))) = l) as Hl.
  { rewrite <- H0. apply update_snapshot. }
  revert Hl. generalize (update_input (m, ob) i0).
  induction ins as [|i ins IH]; intros [m1 ob1] Hl; [done|]. cbn [foldl].
  apply Forall_cons_1 in Hins as [Hi Hins]. rewrite IH; [|done|].
  - cbn in Hl. cbn [snd]. apply update_comms_rows. congruence.
  - rewrite <- Hi. apply update_snapshot.
Qed.
End comms.
