(* ===== verification/Ats.v ===== *)
(** * The ATS-Pi service (services/ats.py)

    Decodes the companion's registers into a snapshot, diffs it against the last
    one, and decides whether the ATS position is authoritative.  [ats_update] is
    [_update] up to the publication of what it emits.  One reading of the wall
    clock and one of the monotonic clock stand for the several of a call. *)

From S2P Require Import Prelude PyNum Registers Poller Database Events StateMachine.

Local Open Scope Z_scope.
Local Open Scope gw_scope.

(** ** Constants *)

Definition EXPECTED_ICD_MAJOR : Z := 1.
Definition EXPECTED_ICD_MINOR : Z := 0.
Definition TIME_SKEW_THRESHOLD_S : Z := sec 5.
Definition CMD_ECHO_WINDOW_S : Z := sec 10.

Local Open Scope string_scope.
Definition POSITION_BY_VALUE : list (Z * string) :=
  [(0%Z, "utility"); (1%Z, "generator"); (2%Z, "transferring"); (3%Z, "unknown")].
Definition MODE_BY_VALUE : list (Z * string) :=
  [(0%Z, "auto"); (1%Z, "manual"); (2%Z, "test"); (3%Z, "unknown")].
Definition POSITION_FAULTS : gset string := {[ "ATS_PI_INPUT_FAULT"; "ATS_PI_CALIBRATION" ]}.
Local Close Scope string_scope.

(** ** Decoding helpers *)

Definition enum_label (tbl : list (Z * string)) (raw : Z) : string :=
  match List.find (fun kv => fst kv =? raw) tbl with Some kv => snd kv | None => "unknown" end.
Definition enum_value (tbl : list (Z * string)) (label : string) : Z :=
  match List.find (fun kv => (snd kv =? label)%string) tbl with Some kv => fst kv | None => 3 end.

Definition invert_position : string -> Z := enum_value POSITION_BY_VALUE.
Definition invert_mode : string -> Z := enum_value MODE_BY_VALUE.

Definition bool_or (v : option pynum) (d : bool) : bool :=
  match v with Some x => negb (py_int x =? 0) | None => d end.
Definition bool_or_none (v : option pynum) : option bool := (fun x => negb (py_int x =? 0)) <$> v.
(** Epoch seconds; [0] is the never-observed sentinel. *)
Definition epoch_or_none (v : option pynum) : option Z :=
  match v with Some x => if 0 <? py_int x then Some (py_int x) else None | None => None end.
Definition u16_of (v : values_t) (name : string) (prev_raw : Z) : Z :=
  match v !! name with Some x => Z.land (py_int x) 0xFFFF | None => prev_raw end.
(** [int(v.get(name, prev) or 0)] *)
Definition int_or (v : values_t) (name : string) (prev : Z) : Z :=
  match v !! name with Some x => py_int x | None => prev end.

Definition decode_fault_bits (raw : Z) (rm : RegisterMap) : gset string :=
  list_to_set (map ab_code (List.filter (fun ab => (ab_register ab =? "fault_summary")%string &&
    (Z.land raw (ab_mask ab) =? ab_mask ab)) (rm_alarm_bits rm))).

(** ** State *)

Record AtsSnapshot : Type := {
  at_position : string;
  at_normal_available : option bool;
  at_emergency_available : option bool;
  at_engine_start_calling : option bool;
  at_mode : string;
  at_fault_codes : gset string;
  at_last_transfer_to_gen_ts : option Z;
  at_last_retransfer_to_util_ts : option Z;
  at_uptime_s : Z;
  at_wallclock : option Z;
  at_transfer_count_lifetime : Z;
  at_transfer_count_24h : Z;
  at_icd_version : Z * Z;
  at_fw : Z * Z * Z;
  at_unit_id : Z;
  at_cmd_test_active : bool;
  at_cmd_inhibit_active : bool;
  at_cmd_force_transfer_active : bool;
  at_cmd_bypass_delay_active : bool;
  at_last_reading_ts : Z;
  at_comms : nat;
  at_base_poll_completed : bool
}.

Definition AtsSnapshot_init (comms0 : nat) : AtsSnapshot :=
  {| at_position := "unknown"; at_normal_available := None; at_emergency_available := None;
     at_engine_start_calling := None; at_mode := "unknown"; at_fault_codes := ∅;
     at_last_transfer_to_gen_ts := None; at_last_retransfer_to_util_ts := None; at_uptime_s := 0;
     at_wallclock := None; at_transfer_count_lifetime := 0; at_transfer_count_24h := 0;
     at_icd_version := (0, 0); at_fw := (0, 0, 0); at_unit_id := 0; at_cmd_test_active := false;
     at_cmd_inhibit_active := false; at_cmd_force_transfer_active := false;
     at_cmd_bypass_delay_active := false; at_last_reading_ts := 0; at_comms := comms0;
     at_base_poll_completed := false |}.

Record AtsService : Type := {
  as_regmap : RegisterMap;
  as_expected_unit_id : option Z;
  as_snap : AtsSnapshot;
  as_prev_uptime_s : Z;
  as_time_skew_alarm_active : bool;
  as_icd_version_validated : bool;
  as_cmd_write_monotonic : gmap (string * bool) Z
}.

Definition AtsService_init (rm : RegisterMap) (unit_id : option Z) (comms0 : nat) : AtsService :=
  {| as_regmap := rm; as_expected_unit_id := unit_id; as_snap := AtsSnapshot_init comms0;
     as_prev_uptime_s := 0; as_time_skew_alarm_active := false; as_icd_version_validated := false;
     as_cmd_write_monotonic := ∅ |}.

(** [note_command_write] *)
Definition note_command_write (mono : Z) (command : string) (assert_ : bool) (a : AtsService)
    : AtsService :=
  {| as_regmap := as_regmap a; as_expected_unit_id := as_expected_unit_id a; as_snap := as_snap a;
     as_prev_uptime_s := as_prev_uptime_s a; as_time_skew_alarm_active := as_time_skew_alarm_active a;
     as_icd_version_validated := as_icd_version_validated a;
     as_cmd_write_monotonic := <[(command, assert_) := mono]> (as_cmd_write_monotonic a) |}.

(** ** Authority *)

Definition is_authoritative (heap : comms_heap) (a : AtsService) : bool :=
  let s := as_snap a in
  (ch_state (comms_at heap (at_comms s)) =? "healthy")%string &&
  at_base_poll_completed s &&
  (fst (at_icd_version s) =? EXPECTED_ICD_MAJOR) &&
  match as_expected_unit_id a with Some u => at_unit_id s =? u | None => true end &&
  bool_decide (at_fault_codes s ∩ POSITION_FAULTS = ∅).

(** What the state machine sees. *)
Definition ats_view (heap : comms_heap) (a : AtsService) : AtsView :=
  {| av_authoritative := is_authoritative heap a;
     av_position := at_position (as_snap a);
     av_normal_available := at_normal_available (as_snap a) |}.

(** ** Emission *)

(** [_emit_event]: a log row and a message. *)
Definition emit_event (now : Z) (severity type_ message : string) (meta : option string)
    (e : BusEvent) (ob : Outbox) : Outbox :=
  emit e (on_db (log_event now severity type_ message meta) ob).

Definition emit_position (now : Z) (old new : string) (ob : Outbox) : Outbox :=
  if (old =? "unknown")%string && (new =? "utility")%string then ob
  else
    let severity := if (new =? "transferring")%string then "info"%string
                    else if (new =? "generator")%string then "warn"%string else "ok"%string in
    emit_event now severity "ATS_POSITION" ("ATS position: " +:+ old +:+ " → " +:+ new) None
      (EvAtsPosition old new now) ob.

Definition emit_source (now : Z) (source : string) (available : bool) (ob : Outbox) : Outbox :=
  let '(msg, severity, code) :=
    if (source =? "normal")%string then
      if available then ("Utility power restored", "ok", "UTILITY_RESTORED")%string
      else ("Utility power lost", "warn", "UTILITY_LOST")%string
    else
      if available then ("Generator source available", "ok", "GEN_AVAILABLE")%string
      else ("Generator source unavailable", "warn", "GEN_UNAVAILABLE")%string in
  emit_event now severity "ATS_SOURCE" msg (Some code) (EvAtsSource source available code now) ob.

(** A source's availability, known before and now, changed. *)
Definition source_changed (prev new : option bool) : option bool :=
  match new, prev with
  | Some n, Some p => if Bool.eqb n p then None else Some n
  | _, _ => None
  end.

Definition step_source (now : Z) (source : string) (prev new : option bool) (ob : Outbox) : Outbox :=
  match source_changed prev new with
  | Some n => emit_source now source n ob
  | None => ob
  end.

Definition step_mode (now : Z) (old new : string) (ob : Outbox) : Outbox :=
  if negb (new =? old)%string && negb (old =? "unknown")%string
  then emit_event now (if (new =? "auto")%string then "info" else "warn") "ATS_MODE"
         ("ATS mode: " +:+ old +:+ " → " +:+ new) None (EvAtsMode old new now) ob
  else ob.

(** ** Faults *)

Definition fault_raise (now : Z) (rm : RegisterMap) (ob : Outbox) (code : string) : Outbox :=
  let desc := alarm_desc rm code in
  emit_event now "warn" "ALARM" ("ATS fault raised — " +:+ desc) (Some ("code " +:+ code))
    (EvAlarm code desc "warn" now)
    (on_db (fun d => snd (raise_alarm now code desc "warn" 0 d)) ob).

Definition fault_clear (now : Z) (rm : RegisterMap) (ob : Outbox) (code : string) : Outbox :=
  let desc := alarm_desc rm code in
  emit_event now "ok" "ALARM" ("ATS fault cleared — " +:+ desc) (Some ("code " +:+ code))
    (EvAlarmCleared code desc now)
    (on_db (fun d => snd (clear_alarm code d)) ob).

Definition step_faults (now : Z) (rm : RegisterMap) (old new : gset string) (ob : Outbox) : Outbox :=
  foldl (fault_clear now rm)
    (foldl (fault_raise now rm) ob (str_sorted (elements (new ∖ old))))
    (str_sorted (elements (old ∖ new))).

(** ** Maintained-command edges *)

(** A write of ours to the same state within the echo window. *)
Definition own_echo (mono : Z) (writes : gmap (string * bool) Z) (command : string) (is_now : bool)
    : bool :=
  match writes !! (command, is_now) with
  | Some wrote => mono - wrote <=? CMD_ECHO_WINDOW_S
  | None => false
  end.

Definition cmd_edge (now mono : Z) (writes : gmap (string * bool) Z)
    (command label : string) (was is_now : bool) (ob : Outbox) : Outbox :=
  if Bool.eqb was is_now then ob
  else if own_echo mono writes command is_now then ob
  else emit_event now "warn" "ATS_COMMAND"
         (if is_now then "ATS " +:+ label +:+ " asserted outside GenWatch — check for a foreign Modbus client on the ATS-Pi or a companion fault"
          else "ATS " +:+ label +:+ " released by the ATS-Pi without an operator release — comms-loss auto-release (ICD §8.3) or a companion restart")
         None (EvAtsCommandExternal command is_now now) ob.

Definition check_maintained_cmd_edges (now mono : Z) (a : AtsService) (cmd_inhibit cmd_force : bool)
    (ob : Outbox) : Outbox :=
  let prev := as_snap a in
  if at_last_reading_ts prev =? 0 then ob
  else cmd_edge now mono (as_cmd_write_monotonic a) "force_transfer" "Force-transfer"
         (at_cmd_force_transfer_active prev) cmd_force
         (cmd_edge now mono (as_cmd_write_monotonic a) "inhibit" "Inhibit"
            (at_cmd_inhibit_active prev) cmd_inhibit ob).

(** ** Reboot, time skew, comms, ICD version *)

Definition step_reboot (now : Z) (prev_uptime uptime : Z) (ob : Outbox) : Outbox :=
  if (0 <? prev_uptime) && (uptime <? prev_uptime)
  then emit_event now "info" "ATS_REBOOT"
         ("ATS-Pi rebooted (uptime " +:+ str_Z prev_uptime +:+ " → " +:+ str_Z uptime +:+ " s)") None
         (EvAtsReboot prev_uptime uptime now) ob
  else ob.

Definition step_skew (now : Z) (wallclock : option Z) (active : bool) (ob : Outbox) : bool * Outbox :=
  match wallclock with
  | None => (active, ob)
  | Some w =>
      let skew := Z.abs (sec w - now) in
      if (TIME_SKEW_THRESHOLD_S <? skew) && negb active
      then (true, on_db (fun d => snd (raise_alarm now "ATS_PI_TIME_SKEW"
              ("ATS-Pi wall-clock differs from GenWatch by " +:+
               fmt_tenths (round_half_even skew 100000000) +:+ " s") "warn" 0 d)) ob)
      else if (skew <=? TIME_SKEW_THRESHOLD_S) && active
      then (false, on_db (fun d => snd (clear_alarm "ATS_PI_TIME_SKEW" d)) ob)
      else (active, ob)
  end.

Definition step_ats_comms (now : Z) (heap : comms_heap) (prev_l new_l : nat) (ob : Outbox) : Outbox :=
  let old := comms_at heap prev_l in
  let new := comms_at heap new_l in
  if (ch_state new =? ch_state old)%string then ob
  else emit (EvAtsComms (ch_state old) (ch_state new) (ch_success_pct new) now)
         (on_db (log_event now (comms_severity (ch_state new)) "ATS_COMMS"
            ("ATS-Pi comms " +:+ ch_state new +:+ " · " +:+ fmt_tenths (ch_success_pct new) +:+ "% success")
            None) ob).

Definition validate_icd_version (now major minor : Z) (ob : Outbox) : Outbox :=
  let reports := "ATS-Pi reports ICD v" +:+ str_Z major +:+ "." +:+ str_Z minor +:+
                 ", GenWatch expects v" +:+ str_Z EXPECTED_ICD_MAJOR in
  if negb (major =? EXPECTED_ICD_MAJOR)
  then emit_event now "warn" "ATS_ICD_VERSION"
         (reports +:+ ".x. Major mismatch — ATS-Pi readings will not drive loadSource until aligned.")
         None (EvAtsIcdVersion major minor "major_mismatch" now) ob
  else if EXPECTED_ICD_MINOR <? minor
  then emit_event now "info" "ATS_ICD_VERSION"
         (reports +:+ "." +:+ str_Z EXPECTED_ICD_MINOR +:+ ". Minor-ahead: the companion may expose newer registers this version of GenWatch doesn't read. Existing fields are wire-compatible.")
         None (EvAtsIcdVersion major minor "minor_ahead" now) ob
  else if minor <? EXPECTED_ICD_MINOR
  then emit_event now "warn" "ATS_ICD_VERSION"
         (reports +:+ "." +:+ str_Z EXPECTED_ICD_MINOR +:+ ". Minor-behind: registers added in newer minor versions will read as zero. Some UI fields may be missing — update the ATS-Pi firmware to align.")
         None (EvAtsIcdVersion major minor "minor_behind" now) ob
  else ob.

Definition step_icd (now major minor : Z) (validated : bool) (ob : Outbox) : bool * Outbox :=
  if negb validated && (0 <? major) then (true, validate_icd_version now major minor ob)
  else (validated, ob).

(** ** The update *)

Definition or_prev {A} (new prev : option A) : option A := match new with Some x => Some x | None => prev end.

(** The snapshot a poll leaves behind. *)
Definition decode_snapshot (now : Z) (tier : string) (v : values_t) (comms : nat) (rm : RegisterMap)
    (prev : AtsSnapshot) : AtsSnapshot :=
  {| at_position := enum_label POSITION_BY_VALUE
       (u16_of v "position" (invert_position (at_position prev)));
     at_normal_available := or_prev (bool_or_none (v !! "normal_available"%string)) (at_normal_available prev);
     at_emergency_available :=
       or_prev (bool_or_none (v !! "emergency_available"%string)) (at_emergency_available prev);
     at_engine_start_calling :=
       or_prev (bool_or_none (v !! "engine_start_calling"%string)) (at_engine_start_calling prev);
     at_mode := enum_label MODE_BY_VALUE (u16_of v "ats_mode" (invert_mode (at_mode prev)));
     at_fault_codes := decode_fault_bits (int_or v "fault_summary" 0) rm;
     at_last_transfer_to_gen_ts :=
       or_prev (epoch_or_none (v !! "last_transfer_to_gen_ts"%string)) (at_last_transfer_to_gen_ts prev);
     at_last_retransfer_to_util_ts :=
       or_prev (epoch_or_none (v !! "last_retransfer_to_util_ts"%string)) (at_last_retransfer_to_util_ts prev);
     at_uptime_s := int_or v "ats_pi_uptime_s" (at_uptime_s prev);
     at_wallclock := or_prev (epoch_or_none (v !! "ats_pi_wallclock"%string)) (at_wallclock prev);
     at_transfer_count_lifetime := int_or v "transfer_count_lifetime" (at_transfer_count_lifetime prev);
     at_transfer_count_24h := int_or v "transfer_count_24h" (at_transfer_count_24h prev);
     at_icd_version := (int_or v "icd_version_major" (fst (at_icd_version prev)),
                        int_or v "icd_version_minor" (snd (at_icd_version prev)));
     at_fw := (int_or v "ats_pi_fw_major" (fst (fst (at_fw prev))),
               int_or v "ats_pi_fw_minor" (snd (fst (at_fw prev))),
               int_or v "ats_pi_fw_patch" (snd (at_fw prev)));
     at_unit_id := int_or v "ats_pi_unit_id" (at_unit_id prev);
     at_cmd_test_active := bool_or (v !! "cmd_test_active"%string) (at_cmd_test_active prev);
     at_cmd_inhibit_active := bool_or (v !! "cmd_inhibit_active"%string) (at_cmd_inhibit_active prev);
     at_cmd_force_transfer_active :=
       bool_or (v !! "cmd_force_transfer_active"%string) (at_cmd_force_transfer_active prev);
     at_cmd_bypass_delay_active :=
       bool_or (v !! "cmd_bypass_delay_active"%string) (at_cmd_bypass_delay_active prev);
     at_last_reading_ts := now;
     at_comms := comms;
     at_base_poll_completed := at_base_poll_completed prev || (tier =? "base")%string |}.

Definition ats_update (now mono : Z) (heap : comms_heap) (tier : string) (reading : Reading)
    (comms : nat) (a : AtsService) (ob : Outbox) : AtsService * Outbox :=
  let prev := as_snap a in
  let v := rd_values reading in
  let new := decode_snapshot now tier v comms (as_regmap a) prev in
  let ob1 := if (at_position new =? at_position prev)%string then ob
             else emit_position now (at_position prev) (at_position new) ob in
  let ob2 := step_source now "normal" (at_normal_available prev)
               (bool_or_none (v !! "normal_available"%string)) ob1 in
  let ob3 := step_source now "emergency" (at_emergency_available prev)
               (bool_or_none (v !! "emergency_available"%string)) ob2 in
  let ob4 := step_mode now (at_mode prev) (at_mode new) ob3 in
  let ob5 := step_faults now (as_regmap a) (at_fault_codes prev) (at_fault_codes new) ob4 in
  let ob6 := check_maintained_cmd_edges now mono a (at_cmd_inhibit_active new)
               (at_cmd_force_transfer_active new) ob5 in
  let ob7 := step_reboot now (as_prev_uptime_s a) (at_uptime_s new) ob6 in
  let '(skew, ob8) := step_skew now (epoch_or_none (v !! "ats_pi_wallclock"%string))
                        (as_time_skew_alarm_active a) ob7 in
  let ob9 := step_ats_comms now heap (at_comms prev) comms ob8 in
  let '(validated, ob10) := step_icd now (fst (at_icd_version new)) (snd (at_icd_version new))
                              (as_icd_version_validated a) ob9 in
  ({| as_regmap := as_regmap a; as_expected_unit_id := as_expected_unit_id a; as_snap := new;
      as_prev_uptime_s := at_uptime_s new; as_time_skew_alarm_active := skew;
      as_icd_version_validated := validated;
      as_cmd_write_monotonic := as_cmd_write_monotonic a |}, ob10).
