(* ===== verification/AtsFacts.v ===== *)
(** * ATS-Pi service theorems

    What a history of polls leaves in the snapshot, when the position is
    authoritative, the alarm rows of the companion's faults and of the clock
    skew, and the rows an update logs. *)

From S2P Require Import Prelude PyNum Registers Poller Database DatabaseFacts Events StateMachine StateMachineFacts Ats.

Local Open Scope Z_scope.

(** ** Histories of polls *)

Record ats_input : Type := {
  ai_now : Z; ai_mono : Z; ai_heap : comms_heap; ai_tier : string; ai_reading : Reading; ai_comms : nat
}.
Definition ats_step (st : AtsService * Outbox) (i : ats_input) : AtsService * Outbox :=
  ats_update (ai_now i) (ai_mono i) (ai_heap i) (ai_tier i) (ai_reading i) (ai_comms i) (fst st) (snd st).
Definition run_ats (st : AtsService * Outbox) (ins : list ats_input) : AtsService * Outbox :=
  foldl ats_step st ins.

Definition ai_values (i : ats_input) : values_t := rd_values (ai_reading i).

(** The last value the polls carried for a register. *)
Definition carried (name : string) (ins : list ats_input) : option pynum :=
  foldl (fun acc i => or_prev (ai_values i !! name) acc) None ins.

Lemma carried_snoc name ins i :
  carried name (ins ++ [i]) = or_prev (ai_values i !! name) (carried name ins).
Proof. unfold carried. by rewrite foldl_app. Qed.

Lemma run_ats_snoc st ins i : run_ats st (ins ++ [i]) = ats_step (run_ats st ins) i.
Proof. unfold run_ats. by rewrite foldl_app. Qed.

(** What an update does to the service, its outbox aside. *)
Lemma ats_step_service st i :
  let a' := fst (ats_step st i) in
  as_regmap a' = as_regmap (fst st) /\ as_expected_unit_id a' = as_expected_unit_id (fst st) /\
  as_cmd_write_monotonic a' = as_cmd_write_monotonic (fst st) /\
  as_snap a' = decode_snapshot (ai_now i) (ai_tier i) (ai_values i) (ai_comms i) (as_regmap (fst st))
                 (as_snap (fst st)).
Proof.
  destruct st as [a ob]. unfold ats_step, ats_update, ai_values. cbn [fst snd].
  destruct (step_skew _ _ _ _) as [skew ob8]. destruct (step_icd _ _ _ _ _) as [validated ob10]. done.
Qed.

Lemma run_ats_const st ins :
  as_regmap (fst (run_ats st ins)) = as_regmap (fst st) /\
  as_expected_unit_id (fst (run_ats st ins)) = as_expected_unit_id (fst st).
Proof.
  induction ins as [|i ins IH] using rev_ind; [done|]. rewrite run_ats_snoc.
  destruct (ats_step_service (run_ats st ins) i) as (-> & -> & _). done.
Qed.

(** ** The snapshot *)

Definition int_of (v : option pynum) : Z := match v with Some x => py_int x | None => 0 end.
Definition label_of (tbl : list (Z * string)) (v : option pynum) : string :=
  match v with Some x => enum_label tbl (Z.land (py_int x) 0xFFFF) | None => "unknown" end.
Definition flag_of (v : option pynum) : bool := bool_or v false.

(** The fault word of the last poll, zero when it does not carry the register. *)
Definition last_fault_word (ins : list ats_input) : Z :=
  match last ins with Some i => int_of (ai_values i !! "fault_summary"%string) | None => 0 end.

Record snapshot_of (rm : RegisterMap) (ins : list ats_input) (x : AtsSnapshot) : Prop := {
  sn_position : at_position x = label_of POSITION_BY_VALUE (carried "position" ins);
  sn_mode : at_mode x = label_of MODE_BY_VALUE (carried "ats_mode" ins);
  sn_normal : at_normal_available x = bool_or_none (carried "normal_available" ins);
  sn_emergency : at_emergency_available x = bool_or_none (carried "emergency_available" ins);
  sn_start : at_engine_start_calling x = bool_or_none (carried "engine_start_calling" ins);
  sn_uptime : at_uptime_s x = int_of (carried "ats_pi_uptime_s" ins);
  sn_icd : at_icd_version x = (int_of (carried "icd_version_major" ins), int_of (carried "icd_version_minor" ins));
  sn_unit : at_unit_id x = int_of (carried "ats_pi_unit_id" ins);
  sn_test : at_cmd_test_active x = flag_of (carried "cmd_test_active" ins);
  sn_inhibit : at_cmd_inhibit_active x = flag_of (carried "cmd_inhibit_active" ins);
  sn_force : at_cmd_force_transfer_active x = flag_of (carried "cmd_force_transfer_active" ins);
  sn_bypass : at_cmd_bypass_delay_active x = flag_of (carried "cmd_bypass_delay_active" ins);
  sn_faults : at_fault_codes x = (if decide (ins = []) then ∅ else decode_fault_bits (last_fault_word ins) rm);
  sn_base : at_base_poll_completed x = existsb (fun i => (ai_tier i =? "base")%string) ins
}.

Lemma enum_label_cases tbl raw : In (enum_label tbl raw) (map snd tbl ++ ["unknown"%string]).
Proof.
  unfold enum_label. apply in_or_app. destruct (List.find _ tbl) as [kv|] eqn:E; [|right; by left].
  left. apply find_some in E as [Hin _]. by apply in_map.
Qed.

(** A label read back from its own value: what holds the field over a poll that
    does not carry the register. *)
Lemma label_held tbl x v :
  tbl = POSITION_BY_VALUE \/ tbl = MODE_BY_VALUE -> x = label_of tbl v ->
  enum_label tbl (enum_value tbl x) = x.
Proof.
  intros Ht ->. unfold label_of. destruct v as [p|]; [|by destruct Ht as [->| ->]].
  pose proof (enum_label_cases tbl (Z.land (py_int p) 0xFFFF)) as Hc.
  destruct Ht as [->| ->]; cbn in Hc; repeat destruct Hc as [<-|Hc]; done.
Qed.

Lemma label_step tbl name v x c :
  tbl = POSITION_BY_VALUE \/ tbl = MODE_BY_VALUE -> x = label_of tbl c ->
  enum_label tbl (u16_of v name (enum_value tbl x)) = label_of tbl (or_prev (v !! name) c).
Proof.
  intros Ht Hx. unfold u16_of. destruct (v !! name) as [p|]; cbn; [done|].
  rewrite (label_held tbl x c Ht Hx). done.
Qed.

Lemma snapshot_history_step now tier reading comms rm prev ins i :
  i = {| ai_now := now; ai_mono := ai_mono i; ai_heap := ai_heap i; ai_tier := tier;
         ai_reading := reading; ai_comms := comms |} ->
  snapshot_of rm ins prev ->
  snapshot_of rm (ins ++ [i]) (decode_snapshot now tier (rd_values reading) comms rm prev).
Proof.
  intros -> [Hp Hm Hn He Hs Hu Hi Hun H1 H2 H3 H4 _ Hb].
  assert (forall n x c, x = bool_or_none c ->
    or_prev (bool_or_none (rd_values reading !! n)) x = bool_or_none (or_prev (rd_values reading !! n) c)) as HB
    by (intros n x c ->; by destruct (rd_values reading !! n)).
  assert (forall n x c, x = int_of c ->
    int_or (rd_values reading) n x = int_of (or_prev (rd_values reading !! n) c)) as HI
    by (intros n x c ->; unfold int_or; by destruct (rd_values reading !! n)).
  assert (forall n x c, x = flag_of c ->
    bool_or (rd_values reading !! n) x = flag_of (or_prev (rd_values reading !! n) c)) as HF
    by (intros n x c ->; by destruct (rd_values reading !! n)).
  constructor; rewrite ?carried_snoc; unfold ai_values; cbn [ai_reading].
  1-2: unfold decode_snapshot, invert_position, invert_mode; cbn [at_position at_mode].
  1: by apply label_step; [left|].
  1: by apply label_step; [right|].
  1-3: by apply HB.
  1: by apply HI.
  1: { cbn [decode_snapshot at_icd_version]. f_equal; apply HI; by rewrite Hi. }
  1: by apply HI.
  1-4: by apply HF.
  - rewrite decide_False by by destruct ins. unfold last_fault_word. rewrite last_snoc. cbn.
    unfold int_or, int_of. done.
  - cbn [decode_snapshot at_base_poll_completed]. rewrite existsb_app, Hb. cbn [existsb ai_tier]. by rewrite orb_false_r.
Qed.

Lemma snapshot_history_lemma rm u l ob ins :
  snapshot_of rm ins (as_snap (fst (run_ats (AtsService_init rm u l, ob) ins))).
Proof.
  induction ins as [|i ins IH] using rev_ind; [by constructor|]. rewrite run_ats_snoc.
  destruct (ats_step_service (run_ats (AtsService_init rm u l, ob) ins) i) as (_ & _ & _ & ->).
  rewrite (proj1 (run_ats_const _ ins)). apply snapshot_history_step; [by destruct i|done].
Qed.

(** Every field of the companion's snapshot is the decode of the last value any
    poll carried for its register, except the faults, which are those of the last poll
    alone. *)
Theorem ats_snapshot_history rm unit_id comms0 ob ins :
  snapshot_of rm ins (as_snap (fst (run_ats (AtsService_init rm unit_id comms0, ob) ins))).
Proof. apply snapshot_history_lemma. Qed.

(** C16. After a history of polls the companion's position is authoritative exactly when
    the link is healthy, a base poll has completed, the last ICD major version carried is
    the expected one, the unit matches, and the last fault word shows no fault that blocks
    the position. *)
Theorem ats_authority_history rm unit_id comms0 ob ins i heap :
  is_authoritative heap (fst (run_ats (AtsService_init rm unit_id comms0, ob) (ins ++ [i]))) = true <->
  ch_state (comms_at heap (ai_comms i)) = "healthy"%string /\
  (exists j, j ∈ ins ++ [i] /\ ai_tier j = "base"%string) /\
  int_of (carried "icd_version_major" (ins ++ [i])) = EXPECTED_ICD_MAJOR /\
  (forall u, unit_id = Some u -> int_of (carried "ats_pi_unit_id" (ins ++ [i])) = u) /\
  decode_fault_bits (last_fault_word (ins ++ [i])) rm ∩ POSITION_FAULTS = ∅.
Proof.
  set (init := AtsService_init rm unit_id comms0).
  pose proof (snapshot_history_lemma rm unit_id comms0 ob (ins ++ [i])) as S. fold init in S.
  unfold is_authoritative. rewrite !andb_true_iff, String.eqb_eq, Z.eqb_eq, bool_decide_eq_true.
  rewrite (sn_icd _ _ _ S), (sn_base _ _ _ S), (sn_faults _ _ _ S), (sn_unit _ _ _ S).
  rewrite decide_False by (by destruct ins). cbn [fst].
  assert (at_comms (as_snap (fst (run_ats (init, ob) (ins ++ [i])))) = ai_comms i) as ->.
  { rewrite run_ats_snoc. destruct (ats_step_service (run_ats (init, ob) ins) i) as (_ & _ & _ & ->). done. }
  rewrite (proj2 (run_ats_const (init, ob) (ins ++ [i]))). cbn [fst as_expected_unit_id init AtsService_init].
  rewrite existsb_exists. setoid_rewrite String.eqb_eq. setoid_rewrite <- list_elem_of_In.
  assert ((match unit_id with Some u => int_of (carried "ats_pi_unit_id" (ins ++ [i])) =? u | None => true end) = true <->
          forall u, unit_id = Some u -> int_of (carried "ats_pi_unit_id" (ins ++ [i])) = u) as ->; [|tauto].
  destruct unit_id as [u|]; [|naive_solver]. rewrite Z.eqb_eq. naive_solver.
Qed.

(** ** What each step logs *)

(** A step that only logs rows of one type. *)
Record logs_only (ty : string) (ob ob' : Outbox) : Prop := {
  lo_rows : forall ty', ty' <> ty -> rows_of ty' ob' = rows_of ty' ob;
  lo_codes : alarm_codes (ob_db ob') = alarm_codes (ob_db ob)
}.

#[export] Instance logs_only_preorder ty : PreOrder (logs_only ty).
Proof. split; [by intros ob; constructor|]. intros a b c [H1 H2] [H3 H4]. constructor; [intros|]; by rewrite ?H3, ?H4, ?H1, ?H2. Qed.

Lemma emit_event_logs now sev ty msg meta e ob : logs_only ty ob (emit_event now sev ty msg meta e ob).
Proof. constructor; [|done]. intros ty' Hne. unfold emit_event. by rewrite rows_of_emit, rows_of_log. Qed.

Ltac logs_tac :=
  repeat match goal with
  | |- logs_only _ ?ob ?ob => reflexivity
  | |- logs_only _ _ (if ?b then _ else _) => destruct b
  | |- logs_only _ _ (match ?x with Some _ => _ | None => _ end) => destruct x
  | |- logs_only _ _ (let '(_, _) := ?p in _) => destruct p as [[? ?] ?]
  | |- logs_only _ _ (emit_event _ _ _ _ _ _ _) => apply emit_event_logs
  end.

Lemma position_logs (b : bool) now old new ob :
  logs_only "ATS_POSITION" ob (if b then ob else emit_position now old new ob).
Proof. unfold emit_position. logs_tac. Qed.
Lemma step_source_logs now src prev new ob : logs_only "ATS_SOURCE" ob (step_source now src prev new ob).
Proof. unfold step_source, emit_source. logs_tac. Qed.
Lemma step_mode_logs now old new ob : logs_only "ATS_MODE" ob (step_mode now old new ob).
Proof. unfold step_mode. logs_tac. Qed.
Lemma cmd_edge_logs now mono w c lbl was nw ob : logs_only "ATS_COMMAND" ob (cmd_edge now mono w c lbl was nw ob).
Proof. unfold cmd_edge. logs_tac. Qed.
Lemma edges_logs now mono a i f ob :
  logs_only "ATS_COMMAND" ob (check_maintained_cmd_edges now mono a i f ob).
Proof.
  unfold check_maintained_cmd_edges. cbv zeta. destruct (_ =? 0); [reflexivity|].
  etransitivity; apply cmd_edge_logs.
Qed.
Lemma step_reboot_logs now p u ob : logs_only "ATS_REBOOT" ob (step_reboot now p u ob).
Proof. unfold step_reboot. logs_tac. Qed.
Lemma step_ats_comms_logs now h p n ob : logs_only "ATS_COMMS" ob (step_ats_comms now h p n ob).
Proof.
  unfold step_ats_comms. destruct (_ =? _)%string; [reflexivity|]. constructor; [|done].
  intros ty' Hne. by rewrite rows_of_emit, rows_of_log.
Qed.
Lemma step_icd_logs now ma mi v ob : logs_only "ATS_ICD_VERSION" ob (snd (step_icd now ma mi v ob)).
Proof. unfold step_icd, validate_icd_version. destruct (_ && _); cbn [snd]; logs_tac. Qed.

(** ** Alarm rows *)

Lemma fault_raise_fold now rm l ob :
  alarm_codes (ob_db (foldl (fault_raise now rm) ob l)) = alarm_codes (ob_db ob) ∪ list_to_set l /\
  forall ty, ty <> "ALARM"%string -> rows_of ty (foldl (fault_raise now rm) ob l) = rows_of ty ob.
Proof.
  revert ob. induction l as [|c l IH]; intros ob; [split; [set_solver|done]|]. cbn [foldl].
  destruct (IH (fault_raise now rm ob c)) as [-> Hr]. unfold fault_raise at 1.
  rewrite (lo_codes "ALARM" _ _ (emit_event_logs _ _ _ _ _ _ _)). cbn [on_db ob_db].
  rewrite raise_alarm_codes. split; [set_solver|]. intros ty Hty. rewrite (Hr ty Hty).
  unfold fault_raise. rewrite (lo_rows "ALARM" _ _ (emit_event_logs _ _ _ _ _ _ _) ty Hty).
  apply rows_of_db, raise_alarm_events.
Qed.

Lemma fault_clear_fold now rm l ob :
  alarm_codes (ob_db (foldl (fault_clear now rm) ob l)) = alarm_codes (ob_db ob) ∖ list_to_set l /\
  forall ty, ty <> "ALARM"%string -> rows_of ty (foldl (fault_clear now rm) ob l) = rows_of ty ob.
Proof.
  revert ob. induction l as [|c l IH]; intros ob; [split; [set_solver|done]|]. cbn [foldl].
  destruct (IH (fault_clear now rm ob c)) as [-> Hr]. unfold fault_clear at 1.
  rewrite (lo_codes "ALARM" _ _ (emit_event_logs _ _ _ _ _ _ _)). cbn [on_db ob_db].
  rewrite clear_alarm_codes. split; [set_solver|]. intros ty Hty. rewrite (Hr ty Hty).
  unfold fault_clear. by rewrite (lo_rows "ALARM" _ _ (emit_event_logs _ _ _ _ _ _ _) ty Hty).
Qed.

Lemma sorted_elements (X : gset string) : (list_to_set (str_sorted (elements X)) : gset string) = X.
Proof. apply set_eq. intros c. by rewrite elem_of_list_to_set, elem_of_str_sorted, elem_of_elements. Qed.

Lemma step_faults_spec now rm old new ob :
  alarm_codes (ob_db (step_faults now rm old new ob)) = (alarm_codes (ob_db ob) ∪ (new ∖ old)) ∖ (old ∖ new) /\
  forall ty, ty <> "ALARM"%string -> rows_of ty (step_faults now rm old new ob) = rows_of ty ob.
Proof.
  unfold step_faults.
  destruct (fault_raise_fold now rm (str_sorted (elements (new ∖ old))) ob) as [Hc Hr].
  destruct (fault_clear_fold now rm (str_sorted (elements (old ∖ new)))
              (foldl (fault_raise now rm) ob (str_sorted (elements (new ∖ old))))) as [-> Hr'].
  split; [by rewrite Hc, !sorted_elements|]. intros ty Hty. by rewrite Hr', Hr.
Qed.

Definition SKEW_CODE : string := "ATS_PI_TIME_SKEW".

(** Whether a poll that carries the companion's clock finds it more than 5 s off. *)
Definition skewed (now : Z) (wallclock : option Z) (was : bool) : bool :=
  match wallclock with Some w => TIME_SKEW_THRESHOLD_S <? Z.abs (sec w - now) | None => was end.

Lemma step_skew_spec now wallclock active ob :
  let '(active', ob') := step_skew now wallclock active ob in
  active' = skewed now wallclock active /\
  alarm_codes (ob_db ob') =
    (if active' then (if active then alarm_codes (ob_db ob) else {[ SKEW_CODE ]} ∪ alarm_codes (ob_db ob))
     else if active then alarm_codes (ob_db ob) ∖ {[ SKEW_CODE ]} else alarm_codes (ob_db ob)) /\
  forall ty, rows_of ty ob' = rows_of ty ob.
Proof.
  unfold step_skew, skewed. destruct wallclock as [w|]; [|by destruct active].
  cbv zeta. set (skew := Z.abs (sec w - now)).
  destruct (Z.ltb_spec TIME_SKEW_THRESHOLD_S skew); destruct (Z.leb_spec skew TIME_SKEW_THRESHOLD_S); try lia;
    destruct active; cbn [andb negb]; try done.
  - split_and!; [done|cbn [on_db ob_db]; apply raise_alarm_codes|]. intros ty. apply rows_of_db, raise_alarm_events.
  - split_and!; [done|cbn [on_db ob_db]; apply clear_alarm_codes|done].
Qed.

(** Effect of one update on the alarm rows. *)
Lemma ats_step_alarms st i :
  let a := fst st in let a' := fst (ats_step st i) in
  let old := at_fault_codes (as_snap a) in let new := at_fault_codes (as_snap a') in
  as_time_skew_alarm_active a' =
    skewed (ai_now i) (epoch_or_none (ai_values i !! "ats_pi_wallclock"%string)) (as_time_skew_alarm_active a) /\
  alarm_codes (ob_db (snd (ats_step st i))) =
    let codes := (alarm_codes (ob_db (snd st)) ∪ (new ∖ old)) ∖ (old ∖ new) in
    if as_time_skew_alarm_active a'
    then (if as_time_skew_alarm_active a then codes else {[ SKEW_CODE ]} ∪ codes)
    else if as_time_skew_alarm_active a then codes ∖ {[ SKEW_CODE ]} else codes.
Proof.
  destruct st as [a ob]. unfold ats_step, ats_update, ai_values. cbn [fst snd].
  set (v := rd_values (ai_reading i)). set (new := decode_snapshot _ _ _ _ _ _).
  set (ob4 := step_mode _ _ _ _).
  set (ob5 := step_faults _ _ _ _ _). set (ob7 := step_reboot _ _ _ _).
  pose proof (step_skew_spec (ai_now i) (epoch_or_none (v !! "ats_pi_wallclock"%string)) (as_time_skew_alarm_active a) ob7) as Hs.
  destruct (step_skew _ _ _ _) as [skew ob8]. destruct Hs as (Hsk & Hc8 & _).
  set (ob9 := step_ats_comms _ _ _ _ _).
  pose proof (lo_codes _ _ _ (step_icd_logs (ai_now i) (fst (at_icd_version new)) (snd (at_icd_version new))
    (as_icd_version_validated a) ob9)) as Hc10.
  destruct (step_icd _ _ _ _ _) as [validated ob10]. cbn [fst snd as_time_skew_alarm_active as_snap] in *.
  assert (alarm_codes (ob_db ob9) = alarm_codes (ob_db ob8)) as Hc9 by apply (lo_codes _ _ _ (step_ats_comms_logs _ _ _ _ _)).
  assert (alarm_codes (ob_db ob4) = alarm_codes (ob_db ob)) as Hc4.
  { subst ob4. rewrite (lo_codes _ _ _ (step_mode_logs _ _ _ _)), !(lo_codes _ _ _ (step_source_logs _ _ _ _ _)).
    apply (lo_codes _ _ _ (position_logs _ _ _ _ _)). }
  assert (alarm_codes (ob_db ob7) = alarm_codes (ob_db ob5)) as Hc7.
  { subst ob7. rewrite (lo_codes _ _ _ (step_reboot_logs _ _ _ _)), (lo_codes _ _ _ (edges_logs _ _ _ _ _ _)). done. }
  split; [done|]. rewrite Hc10, Hc9, Hc8, Hc7. subst ob5. rewrite (proj1 (step_faults_spec _ _ _ _ _)), Hc4. done.
Qed.

(** The faults a poll shows, and the skew verdict of the last poll with a clock. *)
Definition poll_faults (rm : RegisterMap) (i : ats_input) : gset string :=
  decode_fault_bits (int_of (ai_values i !! "fault_summary"%string)) rm.
Definition skew_of (ins : list ats_input) : bool :=
  foldl (fun was i => skewed (ai_now i) (epoch_or_none (ai_values i !! "ats_pi_wallclock"%string)) was) false ins.

Lemma step_fault_codes st i :
  at_fault_codes (as_snap (fst (ats_step st i))) = poll_faults (as_regmap (fst st)) i.
Proof.
  destruct (ats_step_service st i) as (_ & _ & _ & ->). cbn [decode_snapshot at_fault_codes].
  unfold poll_faults, int_or, int_of. done.
Qed.

Lemma skew_history_lemma rm u l ob ins :
  as_time_skew_alarm_active (fst (run_ats (AtsService_init rm u l, ob) ins)) = skew_of ins.
Proof.
  induction ins as [|i ins IH] using rev_ind; [done|]. rewrite run_ats_snoc.
  rewrite (proj1 (ats_step_alarms (run_ats (AtsService_init rm u l, ob) ins) i)), IH.
  unfold skew_of. by rewrite foldl_app.
Qed.

(** One step of the row of a code that is not the skew alarm's. *)
Lemma ats_step_row st i c :
  c <> SKEW_CODE ->
  let old := at_fault_codes (as_snap (fst st)) in
  let new := poll_faults (as_regmap (fst st)) i in
  (c ∈ old -> c ∈ alarm_codes (ob_db (snd st))) ->
  c ∈ alarm_codes (ob_db (snd (ats_step st i))) <->
  c ∈ new \/ (c ∈ alarm_codes (ob_db (snd st)) /\ c ∉ old).
Proof.
  intros Hc. cbv zeta. intros Hold. rewrite (proj2 (ats_step_alarms st i)), step_fault_codes. cbv zeta.
  set (new := poll_faults _ _). set (old := at_fault_codes _) in *. set (codes := alarm_codes _) in *.
  assert (c ∈ (codes ∪ new ∖ old) ∖ (old ∖ new) <-> c ∈ new \/ c ∈ codes /\ c ∉ old) as Hx.
  { destruct (decide (c ∈ new)), (decide (c ∈ old)), (decide (c ∈ codes)); set_solver. }
  destruct (as_time_skew_alarm_active _), (as_time_skew_alarm_active _); rewrite <- Hx; set_solver.
Qed.

(** C17. After a history of polls of the companion a fault has a row in alarms_active
    exactly when the last poll showed it, or when it had one before and no poll ever showed
    it. *)
Theorem ats_alarm_rows rm unit_id comms0 ob ins i c :
  c <> SKEW_CODE ->
  let st := run_ats (AtsService_init rm unit_id comms0, ob) (ins ++ [i]) in
  c ∈ alarm_codes (ob_db (snd st)) <->
  c ∈ poll_faults rm i \/
  (c ∈ alarm_codes (ob_db ob) /\ Forall (fun j => c ∉ poll_faults rm j) (ins ++ [i])).
Proof.
  intros Hc. cbv zeta. rewrite run_ats_snoc. set (init := (AtsService_init rm unit_id comms0, ob)).
  assert (forall ins, let st := run_ats init ins in
    at_fault_codes (as_snap (fst st)) = (if last ins is Some j then poll_faults rm j else ∅) /\
    (c ∈ alarm_codes (ob_db (snd st)) <-> c ∈ at_fault_codes (as_snap (fst st)) \/
       (c ∈ alarm_codes (ob_db ob) /\ Forall (fun j => c ∉ poll_faults rm j) ins))) as H.
  { clear ins i. intros ins. cbv zeta. induction ins as [|i ins [IHf IHc]] using rev_ind.
    { cbn. split; [done|]. set_solver. }
    rewrite run_ats_snoc, last_snoc, step_fault_codes, (proj1 (run_ats_const init ins)).
    split; [done|]. rewrite ats_step_row; [|done|intros Hi; apply IHc; by left].
    rewrite IHc, (proj1 (run_ats_const init ins)), Forall_app, Forall_singleton. cbn [fst as_regmap init AtsService_init].
    destruct (decide (c ∈ poll_faults rm i)); destruct (decide (c ∈ at_fault_codes (as_snap (fst (run_ats init ins))))) as [Hi|Hi]; try tauto.
    split; [tauto|]. intros [?|[_ [Hall _]]]; [done|]. rewrite IHf in Hi. destruct (last ins) as [j|] eqn:El; [|set_solver].
    apply last_Some in El as [l' ->]. apply Forall_app in Hall as [_ Hall]. 
    by rewrite Forall_singleton in Hall. }
  rewrite <- run_ats_snoc. destruct (H (ins ++ [i])) as [Hf ->]. rewrite Hf, last_snoc. done.
Qed.

Theorem ats_skew_row rm unit_id comms0 ob ins :
  SKEW_CODE ∉ map ab_code (rm_alarm_bits rm) -> SKEW_CODE ∉ alarm_codes (ob_db ob) ->
  let st := run_ats (AtsService_init rm unit_id comms0, ob) ins in
  SKEW_CODE ∈ alarm_codes (ob_db (snd st)) <-> skew_of ins = true.
Proof.
  intros Hrm Hob. cbv zeta. set (init := (AtsService_init rm unit_id comms0, ob)).
  assert (forall i, SKEW_CODE ∉ poll_faults rm i) as Hno.
  { intros i. unfold poll_faults, decode_fault_bits. rewrite elem_of_list_to_set, list_elem_of_fmap.
    intros (ab & Hab & Hin). apply Hrm, list_elem_of_fmap. exists ab. split; [done|].
    apply list_elem_of_In, filter_In in Hin as [Hin _]. by apply list_elem_of_In. }
  rewrite <- (skew_history_lemma rm unit_id comms0 ob ins). fold init.
  enough (SKEW_CODE ∉ at_fault_codes (as_snap (fst (run_ats init ins))) /\
    (SKEW_CODE ∈ alarm_codes (ob_db (snd (run_ats init ins))) <->
     as_time_skew_alarm_active (fst (run_ats init ins)) = true)) by tauto.
  induction ins as [|i ins [IHf IHc]] using rev_ind; [cbn; set_solver|].
  rewrite run_ats_snoc, step_fault_codes, (proj1 (run_ats_const init ins)). split; [apply Hno|].
  rewrite (proj2 (ats_step_alarms _ i)), step_fault_codes, (proj1 (run_ats_const init ins)). cbv zeta.
  cbn [fst as_regmap init AtsService_init]. specialize (Hno i).
  destruct (as_time_skew_alarm_active (fst (ats_step _ i))), (as_time_skew_alarm_active (fst (run_ats init ins)));
    set_solver.
Qed.

(** ** Rows of the position *)

(** The label after each poll, [held] being the last value carried so far. *)
Fixpoint positions (held : option pynum) (ins : list ats_input) : list string :=
  match ins with
  | [] => []
  | i :: rest => let held' := or_prev (ai_values i !! "position"%string) held in
                 label_of POSITION_BY_VALUE held' :: positions held' rest
  end.

Definition position_message (old new : string) : string :=
  String.append "ATS position: " (String.append old (String.append " → " new)).

(** One message per change, the first sight of the utility apart. *)
Fixpoint position_messages (old : string) (labels : list string) : list string :=
  match labels with
  | [] => []
  | new :: rest =>
      (if (new =? old)%string || ((old =? "unknown")%string && (new =? "utility")%string) then []
       else [position_message old new]) ++ position_messages new rest
  end.

(** The rows of a type that only one step of the update logs. *)
Lemma ats_step_rows ty st i :
  ty <> "ALARM"%string -> ty ∉ ["ATS_SOURCE"; "ATS_MODE"; "ATS_REBOOT"; "ATS_COMMS"; "ATS_ICD_VERSION"]%string ->
  let prev := as_snap (fst st) in let new := as_snap (fst (ats_step st i)) in
  exists ob0, rows_of ty (snd (ats_step st i)) =
    rows_of ty (check_maintained_cmd_edges (ai_now i) (ai_mono i) (fst st) (at_cmd_inhibit_active new)
                  (at_cmd_force_transfer_active new) ob0) /\
    rows_of ty ob0 = rows_of ty (if (at_position new =? at_position prev)%string then snd st
                                 else emit_position (ai_now i) (at_position prev) (at_position new) (snd st)).
Proof.
  intros Hal Hty. cbv zeta. rewrite (proj2 (proj2 (proj2 (ats_step_service st i)))).
  destruct st as [a ob]. unfold ats_step, ats_update, ai_values. cbn [fst snd].
  assert (forall t, t ∈ ["ATS_SOURCE"; "ATS_MODE"; "ATS_REBOOT"; "ATS_COMMS"; "ATS_ICD_VERSION"]%string -> ty <> t) as Hne
    by (intros t Ht ->; done).
  set (v := rd_values (ai_reading i)). set (new := decode_snapshot _ _ _ _ _ _).
  set (ob4 := step_mode _ _ _ _). set (ob5 := step_faults _ _ _ _ _). set (ob7 := step_reboot _ _ _ _).
  pose proof (step_skew_spec (ai_now i) (epoch_or_none (v !! "ats_pi_wallclock"%string)) (as_time_skew_alarm_active a) ob7) as Hs.
  destruct (step_skew _ _ _ _) as [skew ob8]. destruct Hs as (_ & _ & Hr8).
  set (ob9 := step_ats_comms _ _ _ _ _).
  pose proof (lo_rows _ _ _ (step_icd_logs (ai_now i) (fst (at_icd_version new)) (snd (at_icd_version new))
    (as_icd_version_validated a) ob9) ty) as Hr10.
  destruct (step_icd _ _ _ _ _) as [validated ob10]. cbn [fst snd as_snap] in *. exists ob5. split.
  - rewrite Hr10 by (apply Hne; set_solver). subst ob9.
    rewrite (lo_rows _ _ _ (step_ats_comms_logs _ _ _ _ _) ty) by (apply Hne; set_solver).
    rewrite Hr8. subst ob7. by rewrite (lo_rows _ _ _ (step_reboot_logs _ _ _ _) ty) by (apply Hne; set_solver).
  - subst ob5. rewrite (proj2 (step_faults_spec _ _ _ _ _) ty Hal). subst ob4.
    rewrite (lo_rows _ _ _ (step_mode_logs _ _ _ _) ty) by (apply Hne; set_solver).
    by rewrite !(lo_rows _ _ _ (step_source_logs _ _ _ _ _) ty) by (apply Hne; set_solver).
Qed.

Lemma position_row_step st i :
  let prev := as_snap (fst st) in let new := as_snap (fst (ats_step st i)) in
  map ev_message (rows_of "ATS_POSITION" (snd (ats_step st i))) =
  map ev_message (rows_of "ATS_POSITION" (snd st)) ++ position_messages (at_position prev) [at_position new].
Proof.
  cbv zeta. destruct (ats_step_rows "ATS_POSITION" st i) as (ob0 & -> & Hr); [done|set_solver|].
  rewrite (lo_rows _ _ _ (edges_logs _ _ _ _ _ _) "ATS_POSITION"), Hr by done. cbn [position_messages].
  rewrite app_nil_r. destruct (_ =? _)%string; cbn [orb]; [by rewrite app_nil_r|].
  unfold emit_position. destruct (_ && _); [by rewrite app_nil_r|].
  unfold emit_event. rewrite rows_of_emit. unfold rows_of. cbn.
  by rewrite List.filter_app, map_app.
Qed.

Lemma positions_snoc held ins i :
  positions held (ins ++ [i]) = positions held ins ++
    [label_of POSITION_BY_VALUE (foldl (fun acc i => or_prev (ai_values i !! "position"%string) acc) held (ins ++ [i]))].
Proof. revert held. induction ins as [|j ins IH]; intros held; [done|]. cbn [app positions foldl]. by rewrite IH. Qed.

Lemma position_messages_snoc old l x :
  position_messages old (l ++ [x]) = position_messages old l ++ position_messages (List.last l old) [x].
Proof.
  revert old. induction l as [|y l IH]; intros old; [done|].
  cbn [app]. rewrite last_cons_default. cbn [position_messages]. rewrite IH, <- app_assoc. done.
Qed.

(** The position rows logged over a history are exactly the changes of the decoded
    position, in order. *)
Theorem ats_position_log rm unit_id comms0 ob ins :
  let st := run_ats (AtsService_init rm unit_id comms0, ob) ins in
  map ev_message (rows_of "ATS_POSITION" (snd st)) =
  map ev_message (rows_of "ATS_POSITION" ob) ++ position_messages "unknown" (positions None ins).
Proof.
  cbv zeta. set (init := (AtsService_init rm unit_id comms0, ob)).
  assert (forall ins, at_position (as_snap (fst (run_ats init ins))) = List.last (positions None ins) "unknown"%string) as Hlast.
  { intros ins'. pose proof (sn_position _ _ _ (snapshot_history_lemma rm unit_id comms0 ob ins')) as E.
    fold init in E. rewrite E. clear E.
    induction ins' as [|j ins' _] using rev_ind; [done|]. by rewrite positions_snoc, last_last. }
  induction ins as [|i ins IH] using rev_ind; [by rewrite app_nil_r|].
  rewrite positions_snoc, position_messages_snoc, <- Hlast, app_assoc, <- IH, run_ats_snoc, position_row_step.
  do 3 f_equal. rewrite <- run_ats_snoc.
  exact (sn_position _ _ _ (snapshot_history_lemma rm unit_id comms0 ob (ins ++ [i]))).
Qed.

(** ** Commands the companion changed on its own *)

(** Since the previous poll the read-back of a command changed, and not as the echo
    of a write of ours in the last ten seconds. *)
Definition foreign_edge (a : AtsService) (mono : Z) (command : string) (was nw : bool) : bool :=
  negb (Bool.eqb was nw) &&
  negb match as_cmd_write_monotonic a !! (command, nw) with
       | Some wrote => bool_decide (mono - wrote <= sec 10)
       | None => false
       end.

Lemma cmd_edge_rows now mono a c lbl was nw ob :
  exists rows, rows_of "ATS_COMMAND" (cmd_edge now mono (as_cmd_write_monotonic a) c lbl was nw ob) =
    rows_of "ATS_COMMAND" ob ++ rows /\ Forall (fun e => ev_severity e = "warn"%string) rows /\
    length rows = Nat.b2n (foreign_edge a mono c was nw).
Proof.
  unfold cmd_edge, foreign_edge, own_echo. destruct (Bool.eqb was nw); [exists []; by rewrite app_nil_r|].
  assert (forall msg, exists rows, rows_of "ATS_COMMAND" (emit_event now "warn" "ATS_COMMAND" msg None
            (EvAtsCommandExternal c nw now) ob) = rows_of "ATS_COMMAND" ob ++ rows /\
            Forall (fun e => ev_severity e = "warn"%string) rows /\ length rows = 1%nat) as Hrow.
  { intros msg. eexists. split_and!; [unfold rows_of; cbn; by rewrite List.filter_app|by repeat constructor|done]. }
  destruct (as_cmd_write_monotonic a !! (c, nw)) as [w|]; cbn [negb andb]; [|apply Hrow].
  unfold CMD_ECHO_WINDOW_S. destruct (Z.leb_spec (mono - w) (sec 10)).
  - rewrite bool_decide_true by done. exists []. by rewrite app_nil_r.
  - rewrite bool_decide_false by lia. apply Hrow.
Qed.

(** A change of a maintained command's read-back that is not the echo of an own
    write of the last ten seconds is logged once, as a warning; nothing else is logged as a
    command, and nothing on the first poll. *)
Theorem foreign_commands_warned st i :
  let a := fst st in let prev := as_snap a in let new := as_snap (fst (ats_step st i)) in
  let edges := (Nat.b2n (foreign_edge a (ai_mono i) "inhibit" (at_cmd_inhibit_active prev) (at_cmd_inhibit_active new)) +
                Nat.b2n (foreign_edge a (ai_mono i) "force_transfer" (at_cmd_force_transfer_active prev)
                           (at_cmd_force_transfer_active new)))%nat in
  exists rows, rows_of "ATS_COMMAND" (snd (ats_step st i)) = rows_of "ATS_COMMAND" (snd st) ++ rows /\
    Forall (fun e => ev_severity e = "warn"%string) rows /\
    length rows = if at_last_reading_ts prev =? 0 then 0%nat else edges.
Proof.
  cbv zeta. destruct (ats_step_rows "ATS_COMMAND" st i) as (ob0 & -> & Hr); [done|set_solver|].
  rewrite (lo_rows _ _ _ (position_logs _ _ _ _ _) "ATS_COMMAND") in Hr by done. rewrite <- Hr.
  unfold check_maintained_cmd_edges. cbv zeta. destruct (_ =? 0); [exists []; by rewrite app_nil_r|].
  set (new := as_snap (fst (ats_step st i))).
  destruct (cmd_edge_rows (ai_now i) (ai_mono i) (fst st) "inhibit" "Inhibit"
    (at_cmd_inhibit_active (as_snap (fst st))) (at_cmd_inhibit_active new) ob0) as (r1 & E1 & F1 & L1).
  destruct (cmd_edge_rows (ai_now i) (ai_mono i) (fst st) "force_transfer" "Force-transfer"
    (at_cmd_force_transfer_active (as_snap (fst st))) (at_cmd_force_transfer_active new)
    (cmd_edge (ai_now i) (ai_mono i) (as_cmd_write_monotonic (fst st)) "inhibit" "Inhibit"
      (at_cmd_inhibit_active (as_snap (fst st))) (at_cmd_inhibit_active new) ob0)) as (r2 & E2 & F2 & L2).
  exists (r1 ++ r2). rewrite E2, E1, <- app_assoc. split_and!; [done|by apply Forall_app|].
  by rewrite length_app, L1, L2.
Qed.

(** ** The load source of an authoritative position *)

Section load_source.
Context `{SetOrder}.

Lemma authoritative_rows now heap a reading l m ob :
  is_authoritative heap a = true ->
  rows_of "LOAD_SOURCE" (snd (update now heap (Some (ats_view heap a)) reading l (m, ob))) =
  rows_of "LOAD_SOURCE" ob.
Proof.
  intros Ha. unfold update. set (v := rd_values reading).
  assert (forall st, rows_of "LOAD_SOURCE" (snd (step_finish reading l st)) = rows_of "LOAD_SOURCE" (snd st)) as ->
    by by intros [].
  rewrite (q_rows _ _ (disagreement_quiet now _ v _)) by done.
  assert (forall st, rows_of "LOAD_SOURCE" (snd (step_load_source now (Some (ats_view heap a)) v st)) =
                     rows_of "LOAD_SOURCE" (snd st)) as ->.
  { intros [m0 ob0]. unfold step_load_source. cbn [authoritative ats_view av_authoritative]. rewrite Ha. by case_match. }
  assert (forall st, rows_of "LOAD_SOURCE" (snd (step_panel v st)) = rows_of "LOAD_SOURCE" (snd st)) as ->
    by by intros [].
  rewrite step_comms_rows, (q_rows _ _ (step_numeric_quiet now v _)), (q_rows _ _ (step_alarms_quiet now v _)) by done.
  pose proof (step_engine_spec now v m ob) as He. cbv zeta in He. destruct (step_engine now v (m, ob)) as [m1 ob1].
  destruct He as (_ & _ & ->). cbn [snd]. case_match; [done|]. by rewrite rows_of_log, rows_of_emit.
Qed.

(** While the companion's position is authoritative and known the load source is
    that position, and the state machine logs no load-source row of its own. *)
Theorem load_source_follows_ats now heap a reading l m ob :
  is_authoritative heap a = true -> at_position (as_snap a) <> "unknown"%string ->
  let st' := update now heap (Some (ats_view heap a)) reading l (m, ob) in
  ss_load_source (sm_snap (fst st')) = at_position (as_snap a) /\
  rows_of "LOAD_SOURCE" (snd st') = rows_of "LOAD_SOURCE" ob.
Proof.
  intros Ha Hp. cbv zeta. split; [|by apply authoritative_rows].
  destruct (update_snapshot now heap (Some (ats_view heap a)) reading l m ob) as (_ & _ & _ & _ & -> & _).
  cbn [derive_load_source ats_view av_authoritative av_position]. rewrite Ha.
  by rewrite (proj2 (String.eqb_neq _ _) Hp).
Qed.
End load_source.
