(* ===== verification/Control.v ===== *)
(** * Confirm tokens and H-100 commands (services/control.py)

    The token store and the gated execution of a command, in the
    state-and-exception monad.  The state is the part of the application that the
    control services, the ATS control service and the acknowledge endpoint share.
    The services' asyncio lock makes each operation one step: no other operation
    that takes the lock runs between its first read and its Modbus write. *)

From S2P Require Import Prelude PyNum Registers Client Poller Database Events StateMachine Ats.

Local Open Scope Z_scope.
Local Open Scope gw_scope.

(** ** Constants *)

Definition TOKEN_TTL_S : Z := sec 30.
Definition CONTROL_FRESH_MULTIPLIER : Z := 2.

Local Open Scope string_scope.
Definition VERB_TO_CONTROL : odict string string :=
  [("start", "remote_start"); ("stop", "remote_stop"); ("exercise", "exercise"); ("transfer", "transfer")].
Definition ALLOWED : odict string (list string) :=
  [("start", ["stopped"]);
   ("stop", ["running"; "exercising"; "cranking"; "cooling"; "alarm"]);
   ("exercise", ["stopped"]);
   ("transfer", ["running"])].
Definition PANEL_AUTO_REQUIRED : list string := ["start"; "stop"; "exercise"; "transfer"].
Local Close Scope string_scope.

(** ** State *)

Record ConfirmToken : Type := {
  ct_token : string;
  ct_operator : string;
  ct_issued_at : Z;
  ct_expires_at : Z;
  ct_expires_monotonic : Z;
  ct_verb : option string
}.

Record ControlError : Type := { ce_code : string; ce_message : string; ce_http_status : Z }.
Definition control_error (code message : string) (status : Z) : ControlError :=
  {| ce_code := code; ce_message := message; ce_http_status := status |}.

(** A command notice for Slack: verb, operator, result and time. *)
Definition command_alert : Type := string * string * string * Z.

Record Sys (W : Type) : Type := {
  sy_regmap : RegisterMap;                 (* ControlService.regmap *)
  sy_tokens : odict string ConfirmToken;
  sy_db : Database;
  sy_sm : StateMachine;
  sy_heap : comms_heap;
  sy_ats : AtsService;
  sy_ats_regmap : RegisterMap;             (* AtsControlService.regmap *)
  sy_slack : bool;                         (* self.slack is not None *)
  sy_alerts : list command_alert;
  sy_world : W
}.
Arguments sy_regmap {W}. Arguments sy_tokens {W}. Arguments sy_db {W}. Arguments sy_sm {W}.
Arguments sy_heap {W}. Arguments sy_ats {W}. Arguments sy_ats_regmap {W}. Arguments sy_slack {W}.
Arguments sy_alerts {W}. Arguments sy_world {W}. Arguments Build_Sys {W}.

Section updates.
Context {W : Type}.
Implicit Types (s : Sys W).

Definition set_regmap (r : RegisterMap) s : Sys W :=
  Build_Sys r (sy_tokens s) (sy_db s) (sy_sm s) (sy_heap s) (sy_ats s) (sy_ats_regmap s)
    (sy_slack s) (sy_alerts s) (sy_world s).
Definition set_tokens (t : odict string ConfirmToken) s : Sys W :=
  Build_Sys (sy_regmap s) t (sy_db s) (sy_sm s) (sy_heap s) (sy_ats s) (sy_ats_regmap s)
    (sy_slack s) (sy_alerts s) (sy_world s).
Definition set_db (d : Database) s : Sys W :=
  Build_Sys (sy_regmap s) (sy_tokens s) d (sy_sm s) (sy_heap s) (sy_ats s) (sy_ats_regmap s)
    (sy_slack s) (sy_alerts s) (sy_world s).
Definition set_ats (a : AtsService) s : Sys W :=
  Build_Sys (sy_regmap s) (sy_tokens s) (sy_db s) (sy_sm s) (sy_heap s) a (sy_ats_regmap s)
    (sy_slack s) (sy_alerts s) (sy_world s).
Definition set_alerts (l : list command_alert) s : Sys W :=
  Build_Sys (sy_regmap s) (sy_tokens s) (sy_db s) (sy_sm s) (sy_heap s) (sy_ats s)
    (sy_ats_regmap s) (sy_slack s) l (sy_world s).
Definition set_world (w : W) s : Sys W :=
  Build_Sys (sy_regmap s) (sy_tokens s) (sy_db s) (sy_sm s) (sy_heap s) (sy_ats s)
    (sy_ats_regmap s) (sy_slack s) (sy_alerts s) w.
End updates.

(** ** Freshness *)

(** [_stale_control_registers] at monotonic time [mono]. *)
Definition control_sources (rm : RegisterMap) : list string :=
  str_sorted (elements (list_to_set (map sb_register (rm_engine_state_bits rm)) ∪
                        list_to_set (map pm_register (rm_panel_mode_bits rm)) : gset string)).
Definition max_control_age (rm : RegisterMap) : Z :=
  msec (Z.max (rm_prime_poll_ms rm) 1) * CONTROL_FRESH_MULTIPLIER.
Definition register_stale (ages : gmap string Z) (max_age mono : Z) (name : string) : bool :=
  match ages !! name with Some ts => max_age <? mono - ts | None => true end.
Definition stale_control_registers (rm : RegisterMap) (ages : gmap string Z) (mono : Z) : list string :=
  List.filter (register_stale ages (max_control_age rm) mono) (control_sources rm).

Section control.
Context {W : Type} `{ModbusClient W} `{Clock W}.

Definition M (A : Type) : Type := SE (Sys W) ControlError A.

Definition audit (operator action detail token result : string) : M unit :=
  modify (fun s => set_db (log_audit (wall_clock (sy_world s)) operator action detail token result
                             (sy_db s)) s).
Definition event (severity type_ message : string) (meta : option string) : M unit :=
  modify (fun s => set_db (log_event (wall_clock (sy_world s)) severity type_ message meta
                             (sy_db s)) s).
(** Audit, then raise. *)
Definition deny {A} (operator action detail token result : string) (e : ControlError) : M A :=
  audit operator action detail token result ;;; raise e.

(** ** Tokens *)

(** [_evict_expired_locked] *)
Definition token_expired (mono : Z) (ct : ConfirmToken) : bool := ct_expires_monotonic ct <? mono.
Definition evict_one (mono wall : Z) (st : odict string ConfirmToken * Database)
    (entry : string * ConfirmToken) : odict string ConfirmToken * Database :=
  let '(t, ct) := entry in
  if token_expired mono ct
  then (od_del t (fst st),
        log_audit wall (ct_operator ct) "control.evict_token" "ttl" t "expired" (snd st))
  else st.
Definition evict_expired : M unit :=
  modify (fun s =>
    let w := sy_world s in
    let '(tokens, db) := foldl (evict_one (mono_clock w) (wall_clock w)) (sy_tokens s, sy_db s)
                           (sy_tokens s) in
    set_db db (set_tokens tokens s)).

(** The draw of [secrets.token_hex(16).upper()] until it is not a live token;
    [draws] is what the generator yields. *)
Fixpoint draw_token (draws : list string) (tokens : odict string ConfirmToken) : option string :=
  match draws with
  | [] => None
  | t :: rest => if od_mem t tokens then draw_token rest tokens else Some t
  end.

(** [issue_token]; [None] when the given draws run out. *)
Definition issue_token (draws : list string) (operator : string) (verb : option string)
    : M (option ConfirmToken) :=
  evict_expired ;;;
  tokens <-- gets sy_tokens ;;
  w <-- gets sy_world ;;
  match draw_token draws tokens with
  | None => se_ret None
  | Some tok =>
      let ct := {| ct_token := tok; ct_operator := operator; ct_issued_at := wall_clock w;
                   ct_expires_at := wall_clock w + TOKEN_TTL_S;
                   ct_expires_monotonic := mono_clock w + TOKEN_TTL_S; ct_verb := verb |} in
      modify (set_tokens (od_set tok ct tokens)) ;;;
      audit operator "control.issue_token"
        ("verb=" +:+ match verb with Some v => if (v =? "")%string then "*" else v | None => "*" end)
        tok "ok" ;;;
      se_ret (Some ct)
  end.

(** [consume_token] *)
Definition consume_token (token operator : string) (verb : option string) : M ConfirmToken :=
  evict_expired ;;;
  tokens <-- gets sy_tokens ;;
  w <-- gets sy_world ;;
  match od_get token tokens with
  | None => deny operator "control.consume_token" "missing" token "denied"
              (control_error "token_invalid" "Invalid or expired confirm token" 400)
  | Some ct =>
      modify (set_tokens (od_del token tokens)) ;;;
      if token_expired (mono_clock w) ct
      then deny operator "control.consume_token" "expired" token "denied"
             (control_error "token_expired" "Confirm token expired (>30s)" 400)
      else if negb (ct_operator ct =? operator)%string
      then deny operator "control.consume_token" "operator_mismatch" token "denied"
             (control_error "token_mismatch" "Confirm token was issued to a different operator" 403)
      else match ct_verb ct, verb with
           | Some cv, Some v =>
               if negb (cv =? v)%string
               then deny operator "control.consume_token"
                      ("verb_mismatch want=" +:+ v +:+ " token=" +:+ cv) token "denied"
                      (control_error "token_action_mismatch"
                         "Confirm token was issued for a different action" 403)
               else se_ret ct
           | _, _ => se_ret ct
           end
  end.

(** [apply_regmap] *)
Definition control_apply_regmap (rm : RegisterMap) : M unit := modify (set_regmap rm).

(** ** Writing a control *)

(** FC06 with one word goes as [value], anything else as [values]. *)
Definition write_control (client : ModbusClient W) (ctl : ControlDef) : M ModbusResult :=
  fun s =>
    let words := write_values ctl in
    let '(res, w') :=
      if (length words =? 1)%nat && (c_fc ctl =? 6)
      then @mc_write W client (c_addr ctl) (Some (hd 0 words)) 6 None (sy_world s)
      else @mc_write W client (c_addr ctl) None (c_fc ctl) (Some words) (sy_world s) in
    (inr res, set_world w' s).

Definition error_or (res : ModbusResult) (dflt : string) : string :=
  match mr_error res with Some e => if (e =? "")%string then dflt else e | None => dflt end.
Definition error_text (res : ModbusResult) : string := default "None"%string (mr_error res).

Definition alert_command (verb operator result : string) (ts : Z) : M unit :=
  modify (fun s => if sy_slack s then set_alerts (sy_alerts s ++ [(verb, operator, result, ts)]) s else s).

Definition reg_detail (ctl : ControlDef) : string :=
  "reg=" +:+ c_name ctl +:+ "@0x" +:+ fmt_04X (c_addr ctl).
Definition words_detail (ctl : ControlDef) : string :=
  " fc" +:+ str_Z (c_fc ctl) +:+ " values=" +:+ py_list_str (map py_hex (write_values ctl)).

(** ** Gates of [execute] *)

Definition gate_comms (verb token operator : string) : M unit :=
  s <-- gets id ;;
  let comms_state := ch_state (comms_at (sy_heap s) (ss_comms (sm_snap (sy_sm s)))) in
  if negb (comms_state =? "healthy")%string
  then deny operator ("control." +:+ verb) ("comms=" +:+ comms_state) token "denied"
         (control_error "comms_lost"
            ("cannot " +:+ verb +:+ ": H-100 communication is " +:+ str_upper comms_state +:+
             " — live engine state and panel position can't be confirmed. Restore the link (run `genwatch doctor`) before issuing remote commands.")
            409)
  else se_ret tt.

Definition gate_fresh (verb token operator : string) : M unit :=
  s <-- gets id ;;
  match stale_control_registers (sy_regmap s) (rd_value_ages (ss_last_reading (sm_snap (sy_sm s))))
          (mono_clock (sy_world s)) with
  | [] => se_ret tt
  | stale =>
      deny operator ("control." +:+ verb) ("stale=" +:+ str_join "," stale) token "denied"
        (control_error "stale_data"
           ("cannot " +:+ verb +:+ ": the H-100 registers that determine engine state / panel position are stale (" +:+
            str_join ", " stale +:+
            ") even though the link is up. Wait for a fresh poll or run `genwatch doctor`.") 409)
  end.

Definition gate_panel (verb token operator : string) : M unit :=
  s <-- gets id ;;
  let panel_mode := ss_panel_mode (sm_snap (sy_sm s)) in
  if existsb (String.eqb verb) PANEL_AUTO_REQUIRED && negb (panel_mode =? "auto")%string
  then deny operator ("control." +:+ verb) ("panel_mode=" +:+ panel_mode) token "denied"
         (control_error "panel_mode_locked"
            ("cannot " +:+ verb +:+ ": H-100 front-panel key switch is " +:+ str_upper panel_mode +:+
             ". Set the panel to AUTO at the unit before issuing remote commands.") 409)
  else se_ret tt.

Definition gate_state (verb token operator : string) : M unit :=
  s <-- gets id ;;
  let cur := ss_engine_state (sm_snap (sy_sm s)) in
  if negb (existsb (String.eqb cur) (default [] (od_get verb ALLOWED)))
  then deny operator ("control." +:+ verb) ("state=" +:+ cur) token "denied"
         (control_error "invalid_state" ("cannot " +:+ verb +:+ " while engine is " +:+ cur) 409)
  else se_ret tt.

(** What a successful command returns. *)
Definition command_result : Type := string * string * Z * list Z.

(** [execute] *)
Definition execute (verb token operator role : string) : M command_result :=
  if negb (existsb (String.eqb role) ["operator"; "admin"]%string)
  then deny operator ("control." +:+ verb) ("role=" +:+ role) token "denied"
         (control_error "forbidden" "operator or admin role required" 403)
  else
  match od_get verb VERB_TO_CONTROL with
  | None => raise (control_error "unknown_verb" ("unknown control verb '" +:+ verb +:+ "'") 400)
  | Some ctl_name =>
      s <-- gets id ;;
      match od_get ctl_name (rm_controls (sy_regmap s)) with
      | None =>
          deny operator ("control." +:+ verb) "no_register" token "failed"
            (control_error "no_register" ("control '" +:+ ctl_name +:+
               "' is not present in the register map. Edit registers/h100.yaml or settings.") 500)
      | Some ctl =>
          gate_comms verb token operator ;;;
          gate_fresh verb token operator ;;;
          gate_panel verb token operator ;;;
          gate_state verb token operator ;;;
          consume_token token operator (Some verb) ;;;
          res <-- write_control _ ctl ;;
          w <-- gets sy_world ;;
          let ts := wall_clock w in
          if negb (mr_ok res)
          then
            audit operator ("control." +:+ verb) (error_or res "modbus_write_failed") token "failed" ;;;
            event "warn" "COMMAND" ("Operator command " +:+ verb +:+ " — Modbus write failed")
              (Some (error_or res "")) ;;;
            alert_command verb operator "failed" ts ;;;
            raise (control_error "modbus_failed" ("Modbus write failed: " +:+ error_text res) 502)
          else
            audit operator ("control." +:+ verb) (reg_detail ctl +:+ words_detail ctl) token "ok" ;;;
            event "ok" "COMMAND" ("Operator command " +:+ verb +:+ " — confirmed") (Some operator) ;;;
            alert_command verb operator "ok" ts ;;;
            se_ret (verb, c_name ctl, c_addr ctl, write_values ctl)
      end
  end.
End control.
