(* ===== verification/ControlFacts.v ===== *)
(** * Control theorems

    Tokens (expiry, binding, single use over any history) and the gates of
    [execute]: what must hold before the wire is touched, and what a refusal
    leaves behind. *)

From S2P Require Import Prelude PyNum Registers Client Poller Database Events StateMachine Ats Control.

Local Open Scope Z_scope.

Section control_facts.
Context {W : Type} `{ModbusClient W} `{Clock W}.
Implicit Types (s : Sys W) (operator token role : string).

(** ** Eviction *)

Definition tokens_ok (d : odict string ConfirmToken) : Prop := NoDup (od_keys d).
Definition now_mono s : Z := mono_clock (sy_world s).

(** A live token: in the store and not expired. *)
Definition live_token s (t : string) : option ConfirmToken :=
  match od_get t (sy_tokens s) with
  | Some ct => if token_expired (now_mono s) ct then None else Some ct
  | None => None
  end.

Lemma evict_fold_get mono wall l d db t :
  NoDup (map fst l) ->
  od_get t (fst (foldl (evict_one mono wall) (d, db) l)) =
  match od_get t l with
  | Some ct => if token_expired mono ct then None else od_get t d
  | None => od_get t d
  end.
Proof.
  revert d db. induction l as [|[k ct] l IH]; intros d db Hnd; [done|].
  cbn in Hnd. apply NoDup_cons in Hnd as [Hk Hnd]. cbn [foldl od_get].
  assert (exists d' db', evict_one mono wall (d, db) (k, ct) = (d', db') /\
    d' = if token_expired mono ct then od_del k d else d) as (d' & db' & -> & ->).
  { unfold evict_one. destruct (token_expired mono ct); do 2 eexists; by split. }
  rewrite IH by done. destruct (decide (t = k)) as [->|Hne].
  - apply od_get_None in Hk. rewrite Hk.
    destruct (token_expired mono ct); [apply od_get_del_eq|done].
  - destruct (token_expired mono ct); [|done].
    destruct (od_get t l); [|by apply od_get_del_ne]. case_match; [done|by apply od_get_del_ne].
Qed.

Lemma evict_fold_sub mono wall l d db :
  od_keys (fst (foldl (evict_one mono wall) (d, db) l)) `sublist_of` od_keys d.
Proof.
  revert d db. induction l as [|[k ct] l IH]; intros d db; [done|]. cbn.
  destruct (token_expired mono ct).
  - etransitivity; [apply IH|apply od_keys_del_sub].
  - apply IH.
Qed.

(** What leaves everything but tokens and the audit table alone. *)
Record same_but_tokens s s' : Prop := {
  sb_regmap : sy_regmap s' = sy_regmap s;
  sb_sm : sy_sm s' = sy_sm s;
  sb_heap : sy_heap s' = sy_heap s;
  sb_ats : sy_ats s' = sy_ats s;
  sb_ats_regmap : sy_ats_regmap s' = sy_ats_regmap s;
  sb_world : sy_world s' = sy_world s;
  sb_alerts : sy_alerts s' = sy_alerts s;
  sb_slack : sy_slack s' = sy_slack s;
  sb_events : db_events (sy_db s') = db_events (sy_db s);
  sb_alarms : db_alarms (sy_db s') = db_alarms (sy_db s);
  sb_audit : exists rows, db_audit (sy_db s') = db_audit (sy_db s) ++ rows
}.

#[export] Instance same_but_tokens_preorder : PreOrder same_but_tokens.
Proof.
  split.
  - intros s. constructor; try done. exists []. by rewrite app_nil_r.
  - intros a b c [? ? ? ? ? ? ? ? ? ? [r Hr]] [? ? ? ? ? ? ? ? ? ? [r' Hr']].
    constructor; try congruence. exists (r ++ r'). by rewrite Hr', Hr, app_assoc.
Qed.

Lemma evict_fold_db mono wall l d db :
  let db' := snd (foldl (evict_one mono wall) (d, db) l) in
  db_events db' = db_events db /\ db_alarms db' = db_alarms db /\
  exists rows, db_audit db' = db_audit db ++ rows.
Proof.
  cbv zeta. revert d db. induction l as [|[k ct] l IH]; intros d db.
  { split_and!; [done|done|]. exists []. by rewrite app_nil_r. }
  cbn [foldl]. unfold evict_one at 2 4 6. destruct (token_expired mono ct); [|apply IH].
  cbn [fst snd]. destruct (IH (od_del k d) (log_audit wall (ct_operator ct) "control.evict_token" "ttl" k "expired" db))
    as (-> & -> & rows & ->).
  split_and!; [done|done|]. eexists. cbn. by rewrite <- app_assoc.
Qed.

Lemma evict_expired_spec s :
  tokens_ok (sy_tokens s) ->
  exists s', evict_expired s = (inr tt, s') /\ same_but_tokens s s' /\ tokens_ok (sy_tokens s') /\
    forall t, od_get t (sy_tokens s') = live_token s t.
Proof.
  intros Hok. unfold evict_expired, modify.
  pose proof (evict_fold_get (mono_clock (sy_world s)) (wall_clock (sy_world s)) (sy_tokens s)
    (sy_tokens s) (sy_db s)) as Hget.
  pose proof (evict_fold_sub (mono_clock (sy_world s)) (wall_clock (sy_world s)) (sy_tokens s)
    (sy_tokens s) (sy_db s)) as Hsub.
  pose proof (evict_fold_db (mono_clock (sy_world s)) (wall_clock (sy_world s)) (sy_tokens s)
    (sy_tokens s) (sy_db s)) as (He & Ha & Hau).
  destruct (foldl _ (sy_tokens s, sy_db s) (sy_tokens s)) as [tokens db]. cbn [fst snd] in *.
  eexists. split; [reflexivity|]. split_and!.
  - by constructor.
  - cbn. by eapply sublist_NoDup.
  - intros t. cbn. rewrite Hget by done. unfold live_token, now_mono. by destruct (od_get t (sy_tokens s)).
Qed.

(** ** Consuming *)

(** The token may be spent by this operator on this action now. *)
Definition spendable s token operator (verb : option string) (ct : ConfirmToken) : Prop :=
  live_token s token = Some ct /\ ct_operator ct = operator /\
  (forall cv v, ct_verb ct = Some cv -> verb = Some v -> cv = v).

Definition token_codes : list string :=
  ["token_invalid"; "token_expired"; "token_mismatch"; "token_action_mismatch"]%string.

(** The audit table ends with a new row of the operator. *)
Definition audited s s' operator (results : list string) : Prop :=
  exists rows row, db_audit (sy_db s') = db_audit (sy_db s) ++ rows ++ [row] /\
    au_operator row = operator /\ au_result row ∈ results.

(** Consuming succeeds exactly on a spendable token, and takes the presented
    token out of the store on every outcome; no other live token is touched. *)
Lemma consume_spec s token operator verb :
  tokens_ok (sy_tokens s) ->
  exists r s', consume_token token operator verb s = (r, s') /\
    same_but_tokens s s' /\ tokens_ok (sy_tokens s') /\
    od_get token (sy_tokens s') = None /\
    (forall t, t <> token -> od_get t (sy_tokens s') = live_token s t) /\
    match r with
    | inr ct => spendable s token operator verb ct
    | inl e => ce_code e ∈ token_codes /\ audited s s' operator ["denied"%string] /\
        forall ct, ~ spendable s token operator verb ct
    end.
Proof.
  intros Hok. destruct (evict_expired_spec s Hok) as (s1 & E1 & Hs1 & Hok1 & Hget).
  unfold consume_token, se_bind at 1. rewrite E1. rewrite !se_bind_gets.
  assert (same_but_tokens s s1) as Hs1' by done.
  destruct (od_get token (sy_tokens s1)) as [ct|] eqn:Et.
  2: { eexists _, _. split; [reflexivity|]. rewrite Hget in Et. split_and!.
       - etransitivity; [exact Hs1|]. constructor; try done. by eexists [_].
       - done.
       - cbn. by rewrite Hget.
       - intros t _. cbn. apply Hget.
       - set_solver.
       - destruct (sb_audit _ _ Hs1) as [rows Hrows]. exists rows. eexists. cbn.
         rewrite Hrows, <- app_assoc. split_and!; [done|done|set_solver].
       - intros ct (Hl & _). congruence. }
  rewrite Hget in Et. rewrite se_bind_modify.
  set (s2 := set_tokens (od_del token (sy_tokens s1)) s1).
  assert (same_but_tokens s s2) as Hs2.
  { etransitivity; [exact Hs1|]. constructor; try done. exists []. by rewrite app_nil_r. }
  assert (tokens_ok (sy_tokens s2)) as Hok2 by by apply od_keys_del_NoDup.
  assert (od_get token (sy_tokens s2) = None) as Hg1 by apply od_get_del_eq.
  assert (forall t, t <> token -> od_get t (sy_tokens s2) = live_token s t) as Hg2.
  { intros t Ht. unfold s2. cbn. rewrite od_get_del_ne by done. apply Hget. }
  assert (forall e act de tok, ce_code e ∈ token_codes -> (forall ct', ~ spendable s token operator verb ct') ->
    exists (r : ControlError + ConfirmToken) s', deny operator act de tok "denied" e s2 = (r, s') /\
      same_but_tokens s s' /\ tokens_ok (sy_tokens s') /\ od_get token (sy_tokens s') = None /\
      (forall t, t <> token -> od_get t (sy_tokens s') = live_token s t) /\
      match r with
      | inr ct => spendable s token operator verb ct
      | inl e => ce_code e ∈ token_codes /\ audited s s' operator ["denied"%string] /\
        forall ct, ~ spendable s token operator verb ct
      end) as Hdeny.
  { intros e act de tok Hc Hns. eexists _, _. split; [reflexivity|].
    split_and!; try done.
    - etransitivity; [exact Hs2|]. constructor; try done. by eexists [_].
    - destruct (sb_audit _ _ Hs1) as [rows Hrows]. exists rows. eexists. cbn.
      rewrite Hrows, <- app_assoc. split_and!; [done|done|set_solver]. }
  assert (token_expired (mono_clock (sy_world s1)) ct = false) as ->.
  { revert Et. unfold live_token, now_mono. destruct (od_get token (sy_tokens s)) as [ct'|]; [|done].
    rewrite (sb_world _ _ Hs1). case_match; [done|]. by intros [= <-]. }
  destruct (String.eqb_spec (ct_operator ct) operator) as [Ho|Ho]; cbn [negb].
  2: { apply Hdeny; [set_solver|]. intros ct' (Hl & Ho' & _). congruence. }
  assert (spendable s token operator verb ct -> exists (r : ControlError + ConfirmToken) s',
    se_ret ct s2 = (r, s') /\ same_but_tokens s s' /\ tokens_ok (sy_tokens s') /\
    od_get token (sy_tokens s') = None /\
    (forall t, t <> token -> od_get t (sy_tokens s') = live_token s t) /\
    match r with
    | inr ct => spendable s token operator verb ct
    | inl e => ce_code e ∈ token_codes /\ audited s s' operator ["denied"%string] /\
        forall ct, ~ spendable s token operator verb ct
    end) as Hret.
  { intros Hsp. eexists _, _. split; [reflexivity|]. by split_and!. }
  destruct (ct_verb ct) as [cv|] eqn:Ecv, verb as [v|];
    try (apply Hret; split_and!; [done|done|]; intros; congruence).
  destruct (String.eqb_spec cv v) as [->|Hv]; cbn [negb].
  - apply Hret. split_and!; [done|done|]. intros; congruence.
  - apply Hdeny; [set_solver|]. intros ct' (Hl & _ & Hb). apply Hv.
    assert (ct' = ct) as -> by congruence. by apply Hb.
Qed.

(** ** The gates of a command *)

(** A refusal that only adds its audit row. *)
Record refused s s' operator : Prop := {
  rf_same : same_but_tokens s s';
  rf_tokens : sy_tokens s' = sy_tokens s;
  rf_row : exists row, db_audit (sy_db s') = db_audit (sy_db s) ++ [row] /\
    au_operator row = operator /\ au_result row ∈ ["denied"; "failed"]%string
}.

Lemma deny_refused {A} s operator action detail token result e :
  result ∈ ["denied"; "failed"]%string ->
  exists s', deny (A := A) operator action detail token result e s = (inl e, s') /\ refused s s' operator.
Proof.
  intros Hr. eexists. split; [reflexivity|]. constructor.
  - constructor; try done. by eexists [_].
  - done.
  - by eexists.
Qed.

(** A gate passes without effect when [P] holds and refuses otherwise. *)
Definition gate_spec (g : M unit) s operator (P : Prop) : Prop :=
  (g s = (inr tt, s) /\ P) \/ (exists e s', g s = (inl e, s') /\ refused s s' operator /\ ~ P).

Definition comms_state s : string := ch_state (comms_at (sy_heap s) (ss_comms (sm_snap (sy_sm s)))).

Lemma gate_comms_spec verb token operator s :
  gate_spec (gate_comms verb token operator) s operator (comms_state s = "healthy"%string).
Proof.
  unfold gate_spec, gate_comms. rewrite se_bind_gets. cbn. fold (comms_state s).
  destruct (String.eqb_spec (comms_state s) "healthy") as [E|E]; cbn [negb]; [by left|].
  right. edestruct (deny_refused (A := unit) s operator) as (s' & E' & Hr);
    [|do 2 eexists; split; [exact E'|done]]. set_solver.
Qed.

(** Every register behind an engine-state or panel-mode rule decoded within two
    prime cadences. *)
Definition control_fresh s : Prop :=
  forall name,
    (exists rule, rule ∈ rm_engine_state_bits (sy_regmap s) /\ sb_register rule = name) \/
    (exists rule, rule ∈ rm_panel_mode_bits (sy_regmap s) /\ pm_register rule = name) ->
    exists ts, rd_value_ages (ss_last_reading (sm_snap (sy_sm s))) !! name = Some ts /\
      now_mono s - ts <= 2 * msec (Z.max (rm_prime_poll_ms (sy_regmap s)) 1).

Lemma stale_nil_fresh s :
  stale_control_registers (sy_regmap s) (rd_value_ages (ss_last_reading (sm_snap (sy_sm s)))) (now_mono s) = []
  <-> control_fresh s.
Proof.
  unfold stale_control_registers, control_fresh.
  set (ages := rd_value_ages _). set (rm := sy_regmap s).
  assert (forall name, name ∈ control_sources rm <->
    (exists rule, rule ∈ rm_engine_state_bits rm /\ sb_register rule = name) \/
    (exists rule, rule ∈ rm_panel_mode_bits rm /\ pm_register rule = name)) as Hsrc.
  { intros name. unfold control_sources.
    rewrite elem_of_str_sorted, elem_of_elements, elem_of_union, !elem_of_list_to_set, !list_elem_of_fmap.
    naive_solver. }
  assert (forall name, register_stale ages (max_control_age rm) (now_mono s) name = false <->
    exists ts, ages !! name = Some ts /\ now_mono s - ts <= 2 * msec (Z.max (rm_prime_poll_ms rm) 1)) as Hst.
  { intros name. unfold register_stale, max_control_age, CONTROL_FRESH_MULTIPLIER.
    destruct (ages !! name) as [ts|]; [|split; [done|naive_solver]]. rewrite Z.ltb_ge. split.
    - intros. exists ts. split; [done|lia].
    - intros (ts' & [= <-] & ?). lia. }
  split.
  - intros Hnil name Hn. apply Hst. apply Hsrc in Hn.
    destruct (register_stale ages (max_control_age rm) (now_mono s) name) eqn:E; [|done].
    assert (In name (List.filter (register_stale ages (max_control_age rm) (now_mono s)) (control_sources rm))) as Hin
      by (apply filter_In; split; [by apply list_elem_of_In|done]).
    by rewrite Hnil in Hin.
  - intros Hf. destruct (List.filter _ _) as [|name l] eqn:E; [done|].
    assert (In name (name :: l)) as Hin by by left. rewrite <- E in Hin.
    apply filter_In in Hin as [Hin Hs]. apply list_elem_of_In, Hsrc, Hf, Hst in Hin. congruence.
Qed.

Lemma gate_fresh_spec verb token operator s :
  gate_spec (gate_fresh verb token operator) s operator (control_fresh s).
Proof.
  unfold gate_spec, gate_fresh. rewrite se_bind_gets. cbn. fold (now_mono s).
  pose proof (stale_nil_fresh s) as Hn.
  destruct (stale_control_registers _ _ _) as [|x l]; [left; split; [done|by apply Hn]|].
  right. edestruct (deny_refused (A := unit) s operator) as (s' & E' & Hr);
    [|do 2 eexists; split; [exact E'|split; [done|]]]; [set_solver|].
  intros Hf%Hn. done.
Qed.

Lemma gate_panel_spec verb token operator s :
  verb ∈ PANEL_AUTO_REQUIRED ->
  gate_spec (gate_panel verb token operator) s operator (ss_panel_mode (sm_snap (sy_sm s)) = "auto"%string).
Proof.
  intros Hv. unfold gate_spec, gate_panel. rewrite se_bind_gets. cbn [id].
  assert (existsb (String.eqb verb) PANEL_AUTO_REQUIRED = true) as ->.
  { apply existsb_exists. exists verb. split; [by apply list_elem_of_In|by apply String.eqb_eq]. }
  cbn [andb].
  destruct (String.eqb_spec (ss_panel_mode (sm_snap (sy_sm s))) "auto") as [E|E]; cbn [negb]; [by left|].
  right. edestruct (deny_refused (A := unit) s operator) as (s' & E' & Hr);
    [|do 2 eexists; split; [exact E'|done]]. set_solver.
Qed.

Lemma gate_state_spec verb token operator s :
  gate_spec (gate_state verb token operator) s operator
    (ss_engine_state (sm_snap (sy_sm s)) ∈ default [] (od_get verb ALLOWED)).
Proof.
  unfold gate_spec, gate_state. rewrite se_bind_gets. cbn [id].
  destruct (existsb _ _) eqn:E; cbn [negb].
  - left. split; [done|]. apply existsb_exists in E as (x & Hx & ->%String.eqb_eq). by apply list_elem_of_In.
  - right. edestruct (deny_refused (A := unit) s operator) as (s' & E' & Hr);
      [|do 2 eexists; split; [exact E'|split; [done|]]]; [set_solver|].
    intros Hin. apply not_true_iff_false in E. apply E. apply existsb_exists.
    eexists. split; [by apply list_elem_of_In|by apply String.eqb_eq].
Qed.

(** ** Executing a command *)

(** Everything that must hold before a command goes to the wire. *)
Record gates s (verb token operator role : string) (ctl : ControlDef) (ct : ConfirmToken) : Prop := {
  g_role : role ∈ ["operator"; "admin"]%string;
  g_control : exists name, od_get verb VERB_TO_CONTROL = Some name /\
                od_get name (rm_controls (sy_regmap s)) = Some ctl;
  g_comms : comms_state s = "healthy"%string;
  g_fresh : control_fresh s;
  g_panel : ss_panel_mode (sm_snap (sy_sm s)) = "auto"%string;
  g_state : ss_engine_state (sm_snap (sy_sm s)) ∈ default [] (od_get verb ALLOWED);
  g_token : spendable s token operator (Some verb) ct
}.

(** The one write a command makes, and its result. *)
Definition control_write (client : ModbusClient W) (ctl : ControlDef) (w : W) : ModbusResult * W :=
  let words := write_values ctl in
  if (length words =? 1)%nat && (c_fc ctl =? 6)
  then @mc_write W client (c_addr ctl) (Some (hd 0 words)) 6 None w
  else @mc_write W client (c_addr ctl) None (c_fc ctl) (Some words) w.

Lemma write_control_eq client ctl s :
  write_control client ctl s =
  (inr (fst (control_write client ctl (sy_world s))),
   set_world (snd (control_write client ctl (sy_world s))) s).
Proof. unfold write_control, control_write. by destruct (if _ && _ then _ else _). Qed.

Lemma verbs_panel_required verb name : od_get verb VERB_TO_CONTROL = Some name -> verb ∈ PANEL_AUTO_REQUIRED.
Proof.
  intros Hv. apply od_get_elem in Hv. unfold VERB_TO_CONTROL in Hv. unfold PANEL_AUTO_REQUIRED.
  set_solver.
Qed.

Definition alerts_of s (n : command_alert) : list command_alert :=
  if sy_slack s then sy_alerts s ++ [n] else sy_alerts s.

(** The outcome after the token is spent: the write, its audit and event rows
    and the Slack notice. *)
Lemma execute_tail verb token operator ctl s :
  exists r s',
    (res <-- write_control _ ctl ;;
     w <-- gets sy_world ;;
     if negb (mr_ok res)
     then
       audit operator ("control." ++ verb) (error_or res "modbus_write_failed") token "failed" ;;;
       event "warn" "COMMAND" ("Operator command " ++ verb ++ " — Modbus write failed")
         (Some (error_or res "")) ;;;
       alert_command verb operator "failed" (wall_clock w) ;;;
       raise (control_error "modbus_failed" ("Modbus write failed: " ++ error_text res) 502)
     else
       audit operator ("control." ++ verb) (reg_detail ctl ++ words_detail ctl) token "ok" ;;;
       event "ok" "COMMAND" ("Operator command " ++ verb ++ " — confirmed") (Some operator) ;;;
       alert_command verb operator "ok" (wall_clock w) ;;;
       se_ret (verb, c_name ctl, c_addr ctl, write_values ctl))%gw%string s = (r, s') /\
    let '(res, w') := control_write _ ctl (sy_world s) in
    sy_world s' = w' /\ sy_tokens s' = sy_tokens s /\
    (exists row, db_audit (sy_db s') = db_audit (sy_db s) ++ [row] /\ au_operator row = operator /\
       au_token row = token /\ au_result row = (if mr_ok res then "ok" else "failed")%string) /\
    sy_alerts s' = alerts_of s (verb, operator, (if mr_ok res then "ok" else "failed")%string, wall_clock w') /\
    match r with
    | inr x => mr_ok res = true /\ x = (verb, c_name ctl, c_addr ctl, write_values ctl)
    | inl e => mr_ok res = false /\ ce_code e = "modbus_failed"%string
    end.
Proof.
  unfold se_bind at 1. rewrite write_control_eq.
  destruct (control_write _ ctl (sy_world s)) as [res w']. cbn [fst snd]. rewrite se_bind_gets.
  destruct (mr_ok res) eqn:Eok; cbn [negb]; unfold audit, event, alert_command; rewrite !se_bind_modify;
    (eexists _, _; split; [reflexivity|]); cbn; unfold alerts_of; destruct (sy_slack s); cbn;
    split_and!; try done; by eexists.
Qed.

(** How a call of [execute] ends. *)
Inductive outcome_of s verb token operator role : ControlError + command_result -> Sys W -> Prop :=
| out_refused e s' :
    refused s s' operator -> (forall ctl ct, ~ gates s verb token operator role ctl ct) ->
    outcome_of s verb token operator role (inl e) s'
| out_unknown e :
    ce_code e = "unknown_verb"%string -> od_get verb VERB_TO_CONTROL = None ->
    outcome_of s verb token operator role (inl e) s
| out_token e s' :
    same_but_tokens s s' -> ce_code e ∈ token_codes -> audited s s' operator ["denied"%string] -> od_get token (sy_tokens s') = None ->
    (forall ctl ct, ~ gates s verb token operator role ctl ct) ->
    outcome_of s verb token operator role (inl e) s'
| out_written ctl ct r s1 s' :
    gates s verb token operator role ctl ct ->
    same_but_tokens s s1 -> od_get token (sy_tokens s1) = None ->
    (forall t, t <> token -> od_get t (sy_tokens s1) = live_token s t) ->
    (let '(res, w') := control_write _ ctl (sy_world s) in
     sy_world s' = w' /\ sy_tokens s' = sy_tokens s1 /\
     (exists row, db_audit (sy_db s') = db_audit (sy_db s1) ++ [row] /\ au_operator row = operator /\
        au_token row = token /\ au_result row = (if mr_ok res then "ok" else "failed")%string) /\
     sy_alerts s' = alerts_of s (verb, operator, (if mr_ok res then "ok" else "failed")%string, wall_clock w') /\
     match r with
     | inr x => mr_ok res = true /\ x = (verb, c_name ctl, c_addr ctl, write_values ctl)
     | inl e => mr_ok res = false /\ ce_code e = "modbus_failed"%string
     end) ->
    outcome_of s verb token operator role r s'.

Lemma execute_outcome s verb token operator role r s' :
  tokens_ok (sy_tokens s) -> execute verb token operator role s = (r, s') ->
  outcome_of s verb token operator role r s'.
Proof.
  intros Hok E. unfold execute in E.
  destruct (existsb (String.eqb role) ["operator"; "admin"]%string) eqn:Er; cbn [negb] in E.
  2: { edestruct (deny_refused (A := command_result) s operator) as (s1 & E' & Hr);
         [|rewrite E' in E; injection E as <- <-; apply out_refused; [exact Hr|]]; [set_solver|].
       intros ctl ct [Hrole _ _ _ _ _ _]. apply not_true_iff_false in Er. apply Er.
       apply existsb_exists. exists role. split; [by apply list_elem_of_In|by apply String.eqb_eq]. }
  assert (role ∈ ["operator"; "admin"]%string) as Hrole.
  { apply existsb_exists in Er as (x & Hx & ->%String.eqb_eq). by apply list_elem_of_In. }
  destruct (od_get verb VERB_TO_CONTROL) as [name|] eqn:Ev.
  2: { injection E as <- <-. by apply out_unknown. }
  rewrite se_bind_gets in E. cbn [id] in E.
  destruct (od_get name (rm_controls (sy_regmap s))) as [ctl|] eqn:Ec.
  2: { edestruct (deny_refused (A := command_result) s operator) as (s1 & E' & Hr);
         [|rewrite E' in E; injection E as <- <-; apply out_refused; [exact Hr|]]; [set_solver|].
       intros ctl ct [_ (name' & En & Ectl) _ _ _ _ _]. congruence. }
  destruct (gate_comms_spec verb token operator s) as [[Eg Hcomms]|(e & s1 & Eg & Hr & Hn)].
  2: { destruct (se_bind_stop _ _ _ _ _ _ _ Eg E) as [-> ->]. apply out_refused; [done|].
       by intros ctl' ct [_ _ Hc _ _ _ _]. }
  apply (se_bind_pass _ _ _ _ _ _ _ Eg) in E. clear Eg.
  destruct (gate_fresh_spec verb token operator s) as [[Eg Hfresh]|(e & s1 & Eg & Hr & Hn)].
  2: { destruct (se_bind_stop _ _ _ _ _ _ _ Eg E) as [-> ->]. apply out_refused; [done|].
       by intros ctl' ct [_ _ _ Hf _ _ _]. }
  apply (se_bind_pass _ _ _ _ _ _ _ Eg) in E. clear Eg.
  destruct (gate_panel_spec verb token operator s (verbs_panel_required _ _ Ev))
    as [[Eg Hpanel]|(e & s1 & Eg & Hr & Hn)].
  2: { destruct (se_bind_stop _ _ _ _ _ _ _ Eg E) as [-> ->]. apply out_refused; [done|].
       by intros ctl' ct [_ _ _ _ Hp _ _]. }
  apply (se_bind_pass _ _ _ _ _ _ _ Eg) in E. clear Eg.
  destruct (gate_state_spec verb token operator s) as [[Eg Hstate]|(e & s1 & Eg & Hr & Hn)].
  2: { destruct (se_bind_stop _ _ _ _ _ _ _ Eg E) as [-> ->]. apply out_refused; [done|].
       by intros ctl' ct [_ _ _ _ _ Hs _]. }
  apply (se_bind_pass _ _ _ _ _ _ _ Eg) in E. clear Eg.
  destruct (consume_spec s token operator (Some verb) Hok) as (r1 & s1 & E1 & Hs1 & Hok1 & Hgone & Hrest & Hr1).
  destruct r1 as [e|ct].
  - destruct (se_bind_stop _ _ _ _ _ _ _ E1 E) as [-> ->]. destruct Hr1 as (Hcode & Haud & Hns).
    apply out_token; [done..|]. intros ctl' ct [_ _ _ _ _ _ Ht]. by apply (Hns ct).
  - apply (se_bind_pass _ _ _ _ _ _ _ E1) in E.
    destruct (execute_tail verb token operator ctl s1) as (r2 & s2 & E2 & Ht).
    assert ((r, s') = (r2, s2)) as [= -> ->] by (rewrite <- E, <- E2; reflexivity).
    apply (out_written _ _ _ _ _ ctl ct r2 s1 s2).
    + constructor; try done. by exists name.
    + done.
    + done.
    + done.
    + rewrite (sb_world _ _ Hs1) in Ht. unfold alerts_of in *.
      by rewrite (sb_slack _ _ Hs1), (sb_alerts _ _ Hs1) in Ht.
Qed.

(** C1. ControlService.execute reaches the H-100's wire only through every gate (role,
    healthy comms, fresh registers, panel in AUTO, allowed engine state, a spendable token),
    with exactly the words of the verb's control, in one write, and with the token gone from
    the store; any other call leaves the wire untouched. *)
Theorem execute_wire_gated s verb token operator role :
  tokens_ok (sy_tokens s) ->
  let '(r, s') := execute verb token operator role s in
  (sy_world s' = sy_world s /\ (exists e, r = inl e)) \/
  (exists ctl ct, gates s verb token operator role ctl ct /\
     sy_world s' = snd (control_write _ ctl (sy_world s)) /\
     od_get token (sy_tokens s') = None /\
     (mr_ok (fst (control_write _ ctl (sy_world s))) = true <->
      r = inr (verb, c_name ctl, c_addr ctl, write_values ctl))).
Proof.
  intros Hok. destruct (execute verb token operator role s) as [r s'] eqn:E.
  pose proof (execute_outcome _ _ _ _ _ _ _ Hok E) as Ho. clear E.
  destruct Ho as [e s' [Hs _ _] _|e _ _|e s' Hs _ _ _ _|ctl ct r s1 s' Hg Hs1 Hgone Hrest Ht].
  - left. split; [apply Hs|by eexists].
  - left. split; [done|by eexists].
  - left. split; [apply Hs|by eexists].
  - right. exists ctl, ct. destruct (control_write _ ctl (sy_world s)) as [res w'].
    destruct Ht as (-> & -> & _ & _ & Hr). split_and!; [done|done|done|]. cbn.
    destruct r as [e|x]; destruct Hr as [-> Hr]; [split; done|]. subst x. done.
Qed.

(** C2. A command whose gates all hold is written to the wire and succeeds exactly when
    the Modbus write does; a failed write is reported as modbus_failed. *)
Theorem execute_complete s verb token operator role ctl ct :
  tokens_ok (sy_tokens s) -> gates s verb token operator role ctl ct ->
  let '(r, s') := execute verb token operator role s in
  sy_world s' = snd (control_write _ ctl (sy_world s)) /\
  (mr_ok (fst (control_write _ ctl (sy_world s))) = true ->
   r = inr (verb, c_name ctl, c_addr ctl, write_values ctl)) /\
  (mr_ok (fst (control_write _ ctl (sy_world s))) = false ->
   exists e, r = inl e /\ ce_code e = "modbus_failed"%string).
Proof.
  intros Hok Hg. destruct (execute verb token operator role s) as [r s'] eqn:E.
  pose proof (execute_outcome _ _ _ _ _ _ _ Hok E) as Ho. clear E.
  destruct Ho as [e s' _ Hn|e _ Hn|e s' _ _ _ _ Hn|ctl' ct' r s1 s' Hg' _ _ _ Ht].
  - by destruct (Hn ctl ct).
  - destruct Hg as [_ (name & En & _) _ _ _ _ _]. congruence.
  - by destruct (Hn ctl ct).
  - assert (ctl' = ctl) as ->.
    { destruct Hg as [_ (n1 & E1 & F1) _ _ _ _ _], Hg' as [_ (n2 & E2 & F2) _ _ _ _ _]. congruence. }
    destruct (control_write _ ctl (sy_world s)) as [res w'].
    destruct Ht as (-> & _ & _ & _ & Hr). cbn. split; [done|].
    destruct r as [e|x]; destruct Hr as [-> Hr]; split; try done; [by eexists|]. by subst x.
Qed.

(** C4. A refused command changes neither tokens, alarms, events nor Slack (a wrong
    token apart), and every call of a known verb ends with an audit row of the operator that
    says ok exactly on success. *)
Theorem execute_audited s verb token operator role :
  tokens_ok (sy_tokens s) ->
  let '(r, s') := execute verb token operator role s in
  (forall e, r = inl e -> ce_code e ∉ token_codes -> ce_code e <> "modbus_failed"%string ->
     sy_tokens s' = sy_tokens s /\ sy_alerts s' = sy_alerts s /\
     db_events (sy_db s') = db_events (sy_db s) /\ db_alarms (sy_db s') = db_alarms (sy_db s)) /\
  ((od_get verb VERB_TO_CONTROL = None /\ s' = s) \/
   (exists rows row, db_audit (sy_db s') = db_audit (sy_db s) ++ rows ++ [row] /\
      au_operator row = operator /\
      (au_result row = "ok"%string <-> exists x, r = inr x))).
Proof.
  intros Hok. destruct (execute verb token operator role s) as [r s'] eqn:E.
  pose proof (execute_outcome _ _ _ _ _ _ _ Hok E) as Ho. clear E.
  destruct Ho as [e s' [Hs Ht (row & Hrow & Hop & Hres)] _|e He Hv|e s' Hs He Hau _ _
                 |ctl ct r s1 s' Hg Hs1 Hgone Hrest Ht].
  - split; [intros; split_and!; [done|apply Hs..]|]. right. exists [], row.
    split_and!; [done|done|]. split; [|by intros [x Hx]].
    intros Eok. rewrite Eok in Hres. by apply list_elem_of_In in Hres as [?|[?|[]]].
  - split; [done|]. by left.
  - split; [by intros ? [= <-]|]. right. destruct Hau as (rows & row & Hrow & Hop & Hres).
    exists rows, row. split_and!; [done|done|]. split; [|by intros [x Hx]].
    intros Eok. rewrite Eok in Hres. by apply list_elem_of_In in Hres as [?|[]].
  - destruct (control_write _ ctl (sy_world s)) as [res w'].
    destruct Ht as (_ & _ & (row & Hrow & Hop & _ & Hres) & _ & Hr). split.
    + intros e -> _ Hm. by destruct Hr.
    + right. destruct (sb_audit _ _ Hs1) as [rows Hrows]. exists rows, row.
      rewrite Hrow, Hrows, <- app_assoc. split_and!; [done|done|].
      rewrite Hres. destruct r as [e|x]; destruct Hr as [-> _]; split; try done; [by intros [? ?]|by eexists].
Qed.

(** ** Histories of the token store *)

Inductive token_op : Type :=
| TIssue (draws : list string) (operator : string) (verb : option string)
| TConsume (token operator : string) (verb : option string)
| TTick (w : W).

Inductive token_event : Type :=
| Issued (ct : ConfirmToken) (mono : Z)
| Spent (token operator : string) (verb : option string) (ct : ConfirmToken) (mono : Z).

Definition token_step (op : token_op) s : list token_event * Sys W :=
  match op with
  | TIssue draws operator verb =>
      match issue_token draws operator verb s with
      | (inr (Some ct), s') => ([Issued ct (now_mono s)], s')
      | (_, s') => ([], s')
      end
  | TConsume token operator verb =>
      match consume_token token operator verb s with
      | (inr ct, s') => ([Spent token operator verb ct (now_mono s)], s')
      | (inl _, s') => ([], s')
      end
  | TTick w => ([], set_world w s)
  end.

Fixpoint token_run (ops : list token_op) s : list token_event * Sys W :=
  match ops with
  | [] => ([], s)
  | op :: rest => let '(l1, s1) := token_step op s in
                  let '(l2, s2) := token_run rest s1 in (l1 ++ l2, s2)
  end.

Definition issues_of (t : string) (e : token_event) : bool :=
  match e with Issued ct _ => (ct_token ct =? t)%string | _ => false end.
Definition spends_of (t : string) (e : token_event) : bool :=
  match e with Spent t' _ _ _ _ => (t' =? t)%string | _ => false end.
Definition count (p : token_event -> bool) (l : list token_event) : nat := length (List.filter p l).

Lemma count_app p l l' : count p (l ++ l') = (count p l + count p l')%nat.
Proof. unfold count. by rewrite List.filter_app, length_app. Qed.

(** A live token was issued, under its own name and with 30 s to live. *)
Record store_ok (log : list token_event) s : Prop := {
  so_keys : tokens_ok (sy_tokens s);
  so_issued : forall t ct, od_get t (sy_tokens s) = Some ct -> ct_token ct = t /\
    exists m0, Issued ct m0 ∈ log /\ ct_expires_monotonic ct = m0 + TOKEN_TTL_S;
  so_count : forall t, (count (spends_of t) log + (if od_mem t (sy_tokens s) then 1 else 0) <=
                        count (issues_of t) log)%nat;
  so_spent : forall t op v ct m, Spent t op v ct m ∈ log ->
    ct_token ct = t /\ ct_operator ct = op /\
    (forall cv w, ct_verb ct = Some cv -> v = Some w -> cv = w) /\
    exists m0, Issued ct m0 ∈ log /\ m <= m0 + TOKEN_TTL_S
}.

Lemma draw_token_fresh draws tokens t : draw_token draws tokens = Some t -> od_get t tokens = None.
Proof.
  induction draws as [|d draws IH]; cbn; [done|]. unfold od_mem.
  destruct (od_get d tokens) eqn:E; [done|]. by intros [= <-].
Qed.

Lemma draw_token_complete draws tokens :
  (exists t, t ∈ draws /\ od_get t tokens = None) -> is_Some (draw_token draws tokens).
Proof.
  induction draws as [|d draws IH]; intros (t & Ht & Hg); [by apply elem_of_nil in Ht|].
  cbn. unfold od_mem. destruct (od_get d tokens) eqn:E; [|by eexists].
  apply IH. exists t. split; [|done]. apply elem_of_cons in Ht as [->|?]; [congruence|done].
Qed.

Lemma live_token_get s t ct : live_token s t = Some ct -> od_get t (sy_tokens s) = Some ct /\
  now_mono s <= ct_expires_monotonic ct.
Proof.
  unfold live_token. destruct (od_get t (sy_tokens s)) as [c|]; [|done].
  unfold token_expired. destruct (Z.ltb_spec (ct_expires_monotonic c) (now_mono s)); [done|].
  by intros [= <-].
Qed.

Lemma issue_spec draws operator verb s :
  tokens_ok (sy_tokens s) ->
  exists o s', issue_token draws operator verb s = (inr o, s') /\ tokens_ok (sy_tokens s') /\
    sy_world s' = sy_world s /\
    match o with
    | None => forall t, od_get t (sy_tokens s') = live_token s t
    | Some ct =>
        ct_operator ct = operator /\ ct_verb ct = verb /\
        ct_expires_monotonic ct = now_mono s + TOKEN_TTL_S /\ live_token s (ct_token ct) = None /\
        forall t, od_get t (sy_tokens s') = if decide (t = ct_token ct) then Some ct else live_token s t
    end.
Proof.
  intros Hok. destruct (evict_expired_spec s Hok) as (s1 & E1 & Hs1 & Hok1 & Hget).
  unfold issue_token, se_bind at 1. rewrite E1, !se_bind_gets.
  destruct (draw_token draws (sy_tokens s1)) as [tok|] eqn:Ed.
  - apply draw_token_fresh in Ed. rewrite Hget in Ed. rewrite se_bind_modify.
    unfold audit. rewrite se_bind_modify. eexists _, _. split; [reflexivity|]. cbn.
    split_and!; [by apply od_keys_set_NoDup|apply Hs1|done|done| |done|].
    + unfold now_mono. by rewrite (sb_world _ _ Hs1).
    + intros t. rewrite od_get_set. case_decide; [done|apply Hget].
  - eexists _, _. split; [reflexivity|]. split_and!; [done|apply Hs1|exact Hget].
Qed.

Lemma store_shrink log s s' :
  store_ok log s -> tokens_ok (sy_tokens s') ->
  (forall t ct, od_get t (sy_tokens s') = Some ct -> od_get t (sy_tokens s) = Some ct) ->
  store_ok log s'.
Proof.
  intros [Hk Hi Hc Hsp] Hok Hsub. constructor; [done| | |done].
  - intros t ct Ht. by apply Hi, Hsub.
  - intros t. specialize (Hc t). unfold od_mem in *.
    destruct (od_get t (sy_tokens s')) as [ct|] eqn:E; [|lia].
    by rewrite (Hsub _ _ E) in Hc.
Qed.

Lemma token_step_ok op log s :
  store_ok log s ->
  let '(l, s') := token_step op s in store_ok (log ++ l) s'.
Proof.
  intros Hso. pose proof (so_keys _ _ Hso) as Hok. destruct op as [draws operator verb|token operator verb|w]; cbn [token_step].
  - destruct (issue_spec draws operator verb s Hok) as (o & s1 & -> & Hok1 & Hw & Ho).
    destruct o as [ct|].
    2: { rewrite app_nil_r. apply (store_shrink log s); [done|done|].
         intros t ct Ht. rewrite Ho in Ht. by apply live_token_get in Ht as [? _]. }
    destruct Ho as (Hop & Hv & Hexp & Hfresh & Hget). destruct Hso as [_ Hi Hc Hsp]. constructor; [done| | |].
    + intros t ct' Ht. rewrite Hget in Ht. case_decide as Et.
      * injection Ht as <-. split; [done|]. exists (now_mono s). split; [set_solver|done].
      * apply live_token_get in Ht as [Ht _]. destruct (Hi _ _ Ht) as (? & m0 & ? & ?).
        split; [done|]. exists m0. split; [set_solver|done].
    + intros t. specialize (Hc t). rewrite !count_app. unfold od_mem in *. rewrite Hget.
      unfold count at 2 4. cbn [List.filter spends_of issues_of]. case_decide as Et.
      * subst t. rewrite String.eqb_refl. cbn. destruct (od_get (ct_token ct) (sy_tokens s)); lia.
      * rewrite (proj2 (String.eqb_neq _ _)) by done. cbn.
        destruct (live_token s t) as [c|] eqn:El; [|lia].
        apply live_token_get in El as [El _]. rewrite El in Hc. lia.
    + intros t op v ct' m [Hin|Hin]%elem_of_app.
      * destruct (Hsp _ _ _ _ _ Hin) as (? & ? & ? & m0 & ? & ?).
        split_and!; [done..|]. exists m0. split; [set_solver|done].
      * by apply list_elem_of_singleton in Hin.
  - destruct (consume_spec s token operator verb Hok) as (r & s1 & -> & Hs1 & Hok1 & Hgone & Hrest & Hr).
    assert (forall t ct, od_get t (sy_tokens s1) = Some ct -> od_get t (sy_tokens s) = Some ct) as Hsub.
    { intros t ct Ht. destruct (decide (t = token)) as [->|Hne]; [congruence|].
      rewrite Hrest in Ht by done. by apply live_token_get in Ht as [? _]. }
    destruct r as [e|ct]; [rewrite app_nil_r; by apply (store_shrink log s)|].
    destruct Hr as (Hlive & Hop & Hv). apply live_token_get in Hlive as [Hlive Hexp].
    destruct Hso as [_ Hi Hc Hsp]. destruct (Hi _ _ Hlive) as (Htok & m0 & Hm0 & Hexp0).
    constructor; [done| | |].
    + intros t ct' Ht. apply Hsub, Hi in Ht as (? & m1 & ? & ?). split; [done|]. exists m1. split; [set_solver|done].
    + intros t. specialize (Hc t). rewrite !count_app. unfold count at 2 4. cbn [List.filter spends_of issues_of].
      unfold od_mem in *. destruct (String.eqb_spec token t) as [<-|Hne]; cbn.
      * rewrite Hgone. rewrite Hlive in Hc. lia.
      * destruct (od_get t (sy_tokens s1)) as [c|] eqn:E; [|lia]. rewrite (Hsub _ _ E) in Hc. lia.
    + intros t op v ct' m [Hin|Hin]%elem_of_app.
      * destruct (Hsp _ _ _ _ _ Hin) as (? & ? & ? & m1 & ? & ?).
        split_and!; [done..|]. exists m1. split; [set_solver|done].
      * apply list_elem_of_singleton in Hin. injection Hin as -> -> -> -> ->.
        split_and!; [done|done|done|]. exists m0. split; [set_solver|lia].
  - rewrite app_nil_r. apply (store_shrink log s); [done..|]. by intros.
Qed.

(** C3. Over any history of issues, consumptions and clock changes from an empty store,
    a confirm token is spent at most as often as it was issued, only by the operator and for
    the action it was issued to, and within 30 s of its issue on the monotonic clock. *)
Theorem token_single_use ops s t :
  sy_tokens s = [] ->
  let log := fst (token_run ops s) in
  (count (spends_of t) log <= count (issues_of t) log)%nat /\
  (forall op v ct m, Spent t op v ct m ∈ log ->
     ct_token ct = t /\ ct_operator ct = op /\
     (forall cv w, ct_verb ct = Some cv -> v = Some w -> cv = w) /\
     exists m0, Issued ct m0 ∈ log /\ m <= m0 + TOKEN_TTL_S).
Proof.
  intros Hempty. cbv zeta.
  assert (forall ops log s, store_ok log s ->
    store_ok (log ++ fst (token_run ops s)) (snd (token_run ops s))) as Hrun.
  { clear. intros ops. induction ops as [|op ops IH]; intros log s Hso; cbn; [by rewrite app_nil_r|].
    pose proof (token_step_ok op log s Hso) as H1. destruct (token_step op s) as [l1 s1].
    specialize (IH _ _ H1). destruct (token_run ops s1) as [l2 s2]. cbn in *. by rewrite app_assoc. }
  assert (store_ok [] s) as Hso.
  { constructor; rewrite ?Hempty; [constructor|done| |].
    - intros t'. unfold count, od_mem. cbn. lia.
    - by intros ? ? ? ? ? ?%elem_of_nil. }
  specialize (Hrun ops [] s Hso). cbn [app] in Hrun. split.
  - pose proof (so_count _ _ Hrun t). destruct (od_mem _ _); lia.
  - intros op v ct m Hin. by apply (so_spent _ _ Hrun).
Qed.
End control_facts.
