(* ===== verification/Mock.v ===== *)
(** * The mock controller (modbus/client.py, [MockModbusClient])

    The synthetic H-100 the service runs against without hardware: a state machine that
    writes on the control registers and the passing of time drive, and the register
    values made up from its state.  [math.sin] is a parameter, as are the pauses of
    [asyncio.sleep]: [pause now] is the clock after a sleep begun at [now].  Code
    between two awaits takes no time.

    The theorems about it are in MockFacts.v. *)

From S2P Require Import Prelude PyNum Registers RegisterFacts ShippedMaps Client Poller.
From Stdlib Require Import SpecFloat.

Local Open Scope Z_scope.

Class MockEnv : Type := {
  mock_sin : pyfloat -> pyfloat;
  pause : Z -> Z;
  epoch : Z                          (* the wall clock when the monotonic one reads 0 *)
}.

(** ** State *)

Record MockSlave : Type := {
  mk_regmap : RegisterMap;
  mk_regs : gmap Z Z;
  mk_state : string;
  mk_state_started : Z;
  mk_cool_until : option Z;
  mk_exercise_until : option Z;
  mk_alarm_active : Z;
  mk_connected : bool;
  mk_inject_alarm : option Z
}.

Definition MockSlave_init (rm : RegisterMap) (now : Z) : MockSlave :=
  {| mk_regmap := rm; mk_regs := ∅; mk_state := "stopped"; mk_state_started := now; mk_cool_until := None;
     mk_exercise_until := None; mk_alarm_active := 0; mk_connected := false; mk_inject_alarm := None |}.

Definition mk_with_connected (b : bool) (m : MockSlave) : MockSlave :=
  {| mk_regmap := mk_regmap m; mk_regs := mk_regs m; mk_state := mk_state m; mk_state_started := mk_state_started m;
     mk_cool_until := mk_cool_until m; mk_exercise_until := mk_exercise_until m; mk_alarm_active := mk_alarm_active m;
     mk_connected := b; mk_inject_alarm := mk_inject_alarm m |}.
Definition mk_with_regs (r : gmap Z Z) (m : MockSlave) : MockSlave :=
  {| mk_regmap := mk_regmap m; mk_regs := r; mk_state := mk_state m; mk_state_started := mk_state_started m;
     mk_cool_until := mk_cool_until m; mk_exercise_until := mk_exercise_until m; mk_alarm_active := mk_alarm_active m;
     mk_connected := mk_connected m; mk_inject_alarm := mk_inject_alarm m |}.
Definition mk_with_cool (u : option Z) (m : MockSlave) : MockSlave :=
  {| mk_regmap := mk_regmap m; mk_regs := mk_regs m; mk_state := mk_state m; mk_state_started := mk_state_started m;
     mk_cool_until := u; mk_exercise_until := mk_exercise_until m; mk_alarm_active := mk_alarm_active m;
     mk_connected := mk_connected m; mk_inject_alarm := mk_inject_alarm m |}.
Definition mk_with_exercise (u : option Z) (m : MockSlave) : MockSlave :=
  {| mk_regmap := mk_regmap m; mk_regs := mk_regs m; mk_state := mk_state m; mk_state_started := mk_state_started m;
     mk_cool_until := mk_cool_until m; mk_exercise_until := u; mk_alarm_active := mk_alarm_active m;
     mk_connected := mk_connected m; mk_inject_alarm := mk_inject_alarm m |}.
Definition mk_with_alarm (a : Z) (i : option Z) (m : MockSlave) : MockSlave :=
  {| mk_regmap := mk_regmap m; mk_regs := mk_regs m; mk_state := mk_state m; mk_state_started := mk_state_started m;
     mk_cool_until := mk_cool_until m; mk_exercise_until := mk_exercise_until m; mk_alarm_active := a;
     mk_connected := mk_connected m; mk_inject_alarm := i |}.

(** [_set_state] *)
Definition set_state (now : Z) (s : string) (m : MockSlave) : MockSlave :=
  if (s =? mk_state m)%string then m
  else {| mk_regmap := mk_regmap m; mk_regs := mk_regs m; mk_state := s; mk_state_started := now;
          mk_cool_until := mk_cool_until m; mk_exercise_until := mk_exercise_until m;
          mk_alarm_active := mk_alarm_active m; mk_connected := mk_connected m; mk_inject_alarm := mk_inject_alarm m |}.

(** ** The status words *)

Definition in_state (m : MockSlave) (l : list string) : bool := existsb (String.eqb (mk_state m)) l.
Definition is_running (m : MockSlave) : bool := in_state m ["running"; "exercising"; "cooling"]%string.

Definition output_status_1_bits (m : MockSlave) : Z :=
  let bits := if is_running m then Z.lor 0 0x2000 else 0 in
  let bits := if in_state m ["running"]%string then Z.lor bits 0x0800 else bits in
  let bits := if in_state m ["stopped"]%string then Z.lor (Z.lor bits 0x0100) 0x0400 else bits in
  if in_state m ["alarm"]%string then Z.lor (Z.lor bits 0x8000) 0x0200 else bits.

Definition output_status_7_bits (m : MockSlave) : Z :=
  let bits := if in_state m ["cranking"]%string then Z.lor 0 0x1000 else 0 in
  let bits := if in_state m ["cooling"]%string then Z.lor bits 0x2000 else bits in
  if in_state m ["exercising"]%string then Z.lor bits 0x0020 else bits.

(** ** Time *)

(** A deadline that is set, is not the falsy 0.0, and has passed. *)
Definition due (now : Z) (deadline : option Z) : bool :=
  match deadline with Some u => negb (u =? 0) && (u <? now) | None => false end.

(** The automatic transitions, in the order of [_advance]. *)
Definition end_cranking (now : Z) (m : MockSlave) : MockSlave :=
  if in_state m ["cranking"]%string && (sec 4 <? now - mk_state_started m) then set_state now "running" m else m.
Definition end_cooling (now : Z) (m : MockSlave) : MockSlave :=
  if in_state m ["cooling"]%string && due now (mk_cool_until m)
  then mk_with_cool None (set_state now "stopped" m) else m.
Definition end_exercise (now : Z) (m : MockSlave) : MockSlave :=
  if in_state m ["exercising"]%string && due now (mk_exercise_until m)
  then mk_with_cool (Some (now + sec 6)) (set_state now "cooling" m) else m.

(** [_advance] *)
Definition advance (now : Z) (m : MockSlave) : MockSlave :=
  let m := end_exercise now (end_cooling now (end_cranking now m)) in
  match mk_inject_alarm m with
  | Some a => mk_with_alarm a None (set_state now "alarm" (mk_with_alarm a (mk_inject_alarm m) m))
  | None => m
  end.

(** ** Values *)

Definition f_add : pyfloat -> pyfloat -> pyfloat := SFadd 53 1024.
Definition monotonic_s (now : Z) : pyfloat := f_div (f_of_Z now) (f_of_Z 1000000000).
Definition int_of (f : pyfloat) : Z := py_int (PFloat f).
(** [int(max(0, f))] *)
Definition int_floor0 (f : pyfloat) : Z := if py_gtb (PFloat f) (PInt 0) then int_of f else 0.
(** [f % 1000], exact for a finite non-negative [f]. *)
Definition f_mod_1000 (f : pyfloat) : pyfloat :=
  match f_ext f with
  | EFin q => let k := (Qnum q / (1000 * Zpos (Qden q)))%Z in flt (Qnum q - k * 1000 * Zpos (Qden q)) (Qden q)
  | _ => f
  end.

Section mock.
Context `{MockEnv}.

Definition wob (now : Z) : pyfloat :=
  let t := monotonic_s now in
  f_add (f_mul (mock_sin (f_mul t (flt 6 10))) (flt 4 10)) (f_mul (mock_sin (f_mul t (flt 17 100))) (flt 3 10)).

(** [base + wob * k] *)
Definition jitter (now base : Z) (k : pyfloat) : pyfloat := f_add (f_of_Z base) (f_mul (wob now) k).
Definition loaded_kw (m : MockSlave) : Z := int_of (f_mul (f_of_Z (Z.max 1 (site_rating_kw (rm_site (mk_regmap m))))) (flt 71 100)).
Definition loaded_amps (m : MockSlave) : Z := int_of (f_mul (f_of_Z (Z.max 1 (site_rating_kw (rm_site (mk_regmap m))))) (flt 90 100)).

Definition amps (m : MockSlave) (now exercising offset : Z) : Z :=
  let base := if in_state m ["exercising"]%string then exercising
              else if is_running m then loaded_amps m + offset else 0 in
  Z.max 0 (int_of (jitter now base (f_of_Z 3))).

(** [_synth_value]: the raw register value for a name. *)
Definition synth_value (m : MockSlave) (now : Z) (name : string) : Z :=
  let nm x := (name =? x)%string in
  let running := is_running m in
  if nm "output_status_1" then output_status_1_bits m
  else if nm "output_status_7" then output_status_7_bits m
  else if nm "input_status_1" then 0x8000
  else if existsb (String.eqb name) ["output_status_2"; "output_status_3"; "output_status_4"; "output_status_5";
                                     "output_status_6"; "output_status_8"]%string
  then if nm "output_status_2" && negb (mk_alarm_active m =? 0) then 0x1000 else 0
  else if nm "active_alarm_count" then if mk_alarm_active m =? 0 then 0 else 1
  else if nm "engine_status_code" then 0
  else if nm "key_switch_state" then 0xFF00
  else if nm "quiettest_status" then if in_state m ["exercising"]%string then 1 else 0
  else if nm "rpm" then
    let base := if running then 1800 else 0 in
    let base := if in_state m ["cranking"]%string then 400 else base in
    Z.max 0 (int_of (jitter now base (f_of_Z 8)))
  else if nm "oil_temp" then int_of (jitter now (if running then 215 else 100) (f_of_Z 2))
  else if nm "oil_pressure" then int_floor0 (jitter now (if running then 62 else 0) (flt 15 10))
  else if nm "coolant_temp" then int_of (jitter now (if running then 188 else 95) (f_of_Z 2))
  else if nm "coolant_level" then 95
  else if nm "throttle_position" then int_floor0 (jitter now (if running then 50 else 0) (f_of_Z 3))
  else if nm "o2_sensor" then 21
  else if nm "batt_charge_current" then int_floor0 (jitter now 2 (flt 5 10))
  else if nm "battery_volts" then int_of (jitter now (if running then 1380 else 1260) (f_of_Z 5))
  else if nm "frequency" then if running then int_of (f_mul (jitter now 60 (flt 5 100)) (f_of_Z 10)) else 0
  else if nm "total_kw" then
    if in_state m ["exercising"]%string then Z.max 0 (int_of (jitter now 6 (f_of_Z 3)))
    else Z.max 0 (int_of (jitter now (if running then loaded_kw m else 0) (f_of_Z 4)))
  else if nm "power_factor" then if running then 95 else 0
  else if nm "gen_voltage_ab" then if running then int_of (jitter now 480 (flt 12 10)) else 0
  else if nm "gen_voltage_bc" then if running then int_of (jitter now 481 (flt 11 10)) else 0
  else if nm "gen_voltage_ca" then if running then int_of (jitter now 479 (f_of_Z 1)) else 0
  else if nm "avg_voltage" then if running then int_of (jitter now 480 (f_of_Z 1)) else 0
  else if nm "gen_current_a" then amps m now 8 0
  else if nm "gen_current_b" then amps m now 7 (-4)
  else if nm "gen_current_c" then amps m now 9 4
  else if nm "avg_current" then amps m now 8 0
  else if nm "run_hours" then int_of (f_add (f_of_Z 184760) (f_mod_1000 (f_div (monotonic_s now) (flt 36 10))))
  else if nm "fuel_level_pct" then 78
  else 0.

(** [_read_addr]: the word at an address. *)
Definition read_addr (m : MockSlave) (now addr : Z) : Z :=
  match List.find (fun r => (r_addr r <=? addr) && (addr <? r_addr r + r_words r)) (rm_registers (mk_regmap m)) with
  | Some r =>
      let val := synth_value m now (r_name r) in
      if r_words r =? 2
      then if addr - r_addr r =? 0 then Z.land (Z.shiftr val 16) 0xFFFF else Z.land val 0xFFFF
      else Z.land val 0xFFFF
  | None => 0
  end.

(** ** Controls *)

(** The control a write addresses: by address and words, else by address alone. *)
Definition match_control (rm : RegisterMap) (addr : Z) (words : list Z) : option ControlDef :=
  match List.find (fun c => (c_addr c =? addr) && bool_decide (write_values c = words)) (od_values (rm_controls rm)) with
  | Some c => Some c
  | None => List.find (fun c => c_addr c =? addr) (od_values (rm_controls rm))
  end.

(** [_apply_control_write] *)
Definition apply_control_write (now addr : Z) (words : list Z) (m : MockSlave) : MockSlave :=
  match match_control (mk_regmap m) addr words with
  | None => m
  | Some c =>
      let nm x := (c_name c =? x)%string in
      if nm "remote_start" then set_state now "cranking" m
      else if nm "remote_stop" then
        if in_state m ["running"; "exercising"; "cranking"]%string
        then set_state now "cooling" (mk_with_cool (Some (now + sec 6)) m)
        else set_state now "stopped" m
      else if nm "transfer" then set_state now "cranking" m
      else if nm "exercise" then set_state now "exercising" (mk_with_exercise (Some (now + sec 12)) m)
      else if nm "ack_alarm" then
        let m := mk_with_alarm 0 (mk_inject_alarm m) m in
        if in_state m ["alarm"]%string then set_state now "stopped" m else m
      else m
  end.

(** ** The client *)

Record MockWorld : Type := { mw_slave : MockSlave; mw_now : Z }.

Definition mock_connect (w : MockWorld) : bool * MockWorld :=
  (true, {| mw_slave := mk_with_connected true (mw_slave w); mw_now := mw_now w |}).
Definition mock_close (w : MockWorld) : MockWorld :=
  {| mw_slave := mk_with_connected false (mw_slave w); mw_now := mw_now w |}.

Definition mock_read (addr count fc : Z) (w : MockWorld) : ModbusResult * MockWorld :=
  if negb (mk_connected (mw_slave w)) then (mr_failure "not_connected" 0, w)
  else
    let m := advance (mw_now w) (mw_slave w) in
    let now := pause (mw_now w) in
    (mr_success ((fun i => read_addr m now (addr + i)) <$> seqZ 0 count) (msec 12), {| mw_slave := m; mw_now := now |}).

Fixpoint store (addr : Z) (words : list Z) (regs : gmap Z Z) : gmap Z Z :=
  match words with [] => regs | w :: ws => store (addr + 1) ws (<[addr := w]> regs) end.

Definition mock_write (addr : Z) (value : option Z) (fc : Z) (values : option (list Z)) (w : MockWorld)
    : ModbusResult * MockWorld :=
  if negb (mk_connected (mw_slave w)) then (mr_failure "not_connected" 0, w)
  else match coerce_write_args value values fc with
       | (_, Some err) => (mr_failure err 0, w)
       | (words, None) =>
           let now := pause (mw_now w) in
           let m := apply_control_write now addr words (mw_slave w) in
           (mr_success words (msec 12), {| mw_slave := mk_with_regs (store addr words (mk_regs m)) m; mw_now := now |})
       end.

(** The helpers that tests use. *)
Definition inject_alarm (code : Z) (w : MockWorld) : MockWorld :=
  {| mw_slave := mk_with_alarm (mk_alarm_active (mw_slave w)) (Some code) (mw_slave w); mw_now := mw_now w |}.
Definition mock_clear_alarm (w : MockWorld) : MockWorld :=
  let m := mk_with_alarm 0 (mk_inject_alarm (mw_slave w)) (mw_slave w) in
  {| mw_slave := if in_state m ["alarm"]%string then set_state (mw_now w) "stopped" m else m; mw_now := mw_now w |}.

#[export] Instance mock_client : ModbusClient MockWorld := {| mc_read := mock_read; mc_write := mock_write |}.
#[export] Instance mock_clock : Clock MockWorld := {| wall_clock := fun w => epoch + mw_now w; mono_clock := mw_now |}.
End mock.
