(* ===== verification/MockFacts.v ===== *)
(** * Theorems about the mock controller

    Read through the shipped register map the mock is in the state it says it is; left
    alone it settles; and a command of the control service takes it where the
    controller would go. *)

From S2P Require Import Prelude PyNum Registers RegisterFacts ShippedMaps Client Poller Database Events StateMachine Ats Control ControlFacts Mock.

Local Open Scope Z_scope.

Definition MOCK_STATES : list string := ["stopped"; "running"; "cranking"; "cooling"; "exercising"; "alarm"]%string.

(** Where a state leads when nothing else happens. *)
Definition heading (state : string) : string :=
  if existsb (String.eqb state) ["cranking"; "running"]%string then "running"%string
  else if existsb (String.eqb state) ["cooling"; "exercising"; "stopped"]%string then "stopped"%string
  else state.

(** What holds of the mock at a moment. *)
Record mock_ok (now : Z) (m : MockSlave) : Prop := {
  ok_state : mk_state m ∈ MOCK_STATES;
  ok_started : mk_state_started m <= now;
  ok_cool : mk_state m = "cooling"%string -> exists u, mk_cool_until m = Some u /\ 0 < u <= now + sec 6;
  ok_exercise : mk_state m = "exercising"%string -> exists u, mk_exercise_until m = Some u /\ 0 < u <= now + sec 12
}.

(** ** One step of time *)

Lemma in_state_one m s : in_state m [s] = (mk_state m =? s)%string.
Proof. unfold in_state. cbn. by rewrite orb_false_r. Qed.

Lemma set_state_state now s m : mk_state (set_state now s m) = s.
Proof. unfold set_state. by destruct (String.eqb_spec s (mk_state m)). Qed.

Lemma set_state_inject now s m : mk_inject_alarm (set_state now s m) = mk_inject_alarm m.
Proof. unfold set_state. by case_match. Qed.
Lemma not_cranking t m : mk_state m <> "cranking"%string -> end_cranking t m = m.
Proof. intros Hc. unfold end_cranking. rewrite in_state_one. by destruct (String.eqb_spec (mk_state m) "cranking"). Qed.
Lemma not_cooling t m : mk_state m <> "cooling"%string -> end_cooling t m = m.
Proof. intros Hc. unfold end_cooling. rewrite in_state_one. by destruct (String.eqb_spec (mk_state m) "cooling"). Qed.
Lemma not_exercising t m : mk_state m <> "exercising"%string -> end_exercise t m = m.
Proof. intros Hc. unfold end_exercise. rewrite in_state_one. by destruct (String.eqb_spec (mk_state m) "exercising"). Qed.

(** Without an injected alarm at most one transition fires. *)
Lemma advance_step t m :
  mk_inject_alarm m = None ->
  advance t m =
    if (mk_state m =? "cranking")%string
    then if sec 4 <? t - mk_state_started m then set_state t "running" m else m
    else if (mk_state m =? "cooling")%string
    then if due t (mk_cool_until m) then mk_with_cool None (set_state t "stopped" m) else m
    else if (mk_state m =? "exercising")%string
    then if due t (mk_exercise_until m) then mk_with_cool (Some (t + sec 6)) (set_state t "cooling" m) else m
    else m.
Proof.
  assert (forall m', mk_inject_alarm m' = None -> match mk_inject_alarm m' with
            | Some a => mk_with_alarm a None (set_state t "alarm" (mk_with_alarm a (mk_inject_alarm m') m')) | None => m' end = m')
    as Hn by (by intros m' ->).
  intros Hi. unfold advance. destruct (String.eqb_spec (mk_state m) "cranking") as [Hc|Hc].
  { assert (end_cranking t m = if sec 4 <? t - mk_state_started m then set_state t "running" m else m) as ->
      by (unfold end_cranking; by rewrite in_state_one, Hc).
    destruct (_ <? _); rewrite not_cooling, not_exercising by (rewrite ?set_state_state, ?Hc; done); apply Hn; [|done].
    by rewrite set_state_inject. }
  rewrite (not_cranking t m Hc). destruct (String.eqb_spec (mk_state m) "cooling") as [Hk|Hk].
  { assert (end_cooling t m = if due t (mk_cool_until m) then mk_with_cool None (set_state t "stopped" m) else m) as ->
      by (unfold end_cooling; by rewrite in_state_one, Hk).
    destruct (due _ _); rewrite not_exercising by (cbn; rewrite ?set_state_state, ?Hk; done); apply Hn; [|done].
    cbn. by rewrite set_state_inject. }
  rewrite (not_cooling t m Hk). unfold end_exercise. rewrite in_state_one.
  destruct (_ =? _)%string; cbn [andb]; [|by apply Hn]. destruct (due _ _); apply Hn; [|done]. cbn. by rewrite set_state_inject.
Qed.

(** ** Left alone *)

Definition settled (m : MockSlave) : Prop := mk_state m ∈ ["running"; "stopped"; "alarm"]%string.
(** Cranking and exercising began no later than [now]. *)
Definition begun_by (now : Z) (m : MockSlave) : Prop :=
  (mk_state m = "cranking"%string -> mk_state_started m <= now) /\
  (mk_state m = "exercising"%string -> exists u, mk_exercise_until m = Some u /\ 0 < u <= now + sec 12).
(** Only a cool-down that ends by [u0] is left. *)
Definition cooling_until (u0 : Z) (m : MockSlave) : Prop :=
  mk_state m <> "cranking"%string /\ mk_state m <> "exercising"%string /\
  (mk_state m = "cooling"%string -> exists u, mk_cool_until m = Some u /\ 0 < u <= u0).

Lemma due_by t u u0 : 0 < u <= u0 -> u0 < t -> due t (Some u) = true.
Proof. intros Hu Ht. unfold due. rewrite (proj2 (Z.eqb_neq u 0)), (proj2 (Z.ltb_lt u t)) by lia. done. Qed.

Lemma known_state m : mk_state m ∈ MOCK_STATES ->
  mk_state m <> "cranking"%string -> mk_state m <> "cooling"%string -> mk_state m <> "exercising"%string -> settled m.
Proof. unfold MOCK_STATES, settled. rewrite !elem_of_cons, !elem_of_nil. naive_solver. Qed.

Lemma advance_ok now t m :
  0 <= now <= t -> mk_inject_alarm m = None -> mock_ok now m ->
  mock_ok t (advance t m) /\ mk_inject_alarm (advance t m) = None /\ heading (mk_state (advance t m)) = heading (mk_state m) /\
  mk_regmap (advance t m) = mk_regmap m /\ mk_connected (advance t m) = mk_connected m.
Proof.
  unfold sec in *. intros Ht Hi [H1 H2 H3 H4]. rewrite (advance_step t m Hi).
  assert (mock_ok t m) as Hm.
  { constructor; [done|lia| |].
    - intros E. destruct (H3 E) as (u & -> & ?). exists u. split; [done|]. unfold sec in *. lia.
    - intros E. destruct (H4 E) as (u & -> & ?). exists u. split; [done|]. unfold sec in *. lia. }
  unfold set_state. destruct m as [rm regs st started cool ex al con inj]. cbn in *.
  destruct (String.eqb_spec st "cranking") as [->|Hc].
  { case_match; [|done]. split_and!; [|done..]. constructor; cbn; [set_solver|lia|done|done]. }
  destruct (String.eqb_spec st "cooling") as [->|Hk].
  { case_match; [|done]. split_and!; [|done..]. constructor; cbn; [set_solver|lia|done|done]. }
  destruct (String.eqb_spec st "exercising") as [->|He]; [|done].
  case_match; [|done]. split_and!; [|done..]. constructor; cbn; [set_solver|lia| |done].
  intros _. eexists. split; [done|]. unfold sec. lia.
Qed.

Lemma advance_begun now t m :
  mk_inject_alarm m = None -> begun_by now m -> begun_by now (advance t m).
Proof.
  intros Hi [H1 H2]. rewrite (advance_step t m Hi). unfold begun_by, set_state in *.
  destruct m as [rm regs st started cool ex al con inj]. cbn in *.
  destruct (String.eqb_spec st "cranking") as [->|Hc]; [by case_match|].
  destruct (String.eqb_spec st "cooling") as [->|Hk]; [by case_match|].
  destruct (String.eqb_spec st "exercising") as [->|He]; [by case_match|done].
Qed.

(** A read more than 12 s after the last command finds at most a cool-down. *)
Lemma advance_cools now s t m :
  0 <= now <= s -> s <= t -> now + sec 12 < t -> mk_inject_alarm m = None -> mock_ok s m -> begun_by now m ->
  cooling_until (t + sec 6) (advance t m).
Proof.
  intros Hns Hst Ht Hi [H1 H2 H3 H4] [Hb1 Hb2]. rewrite (advance_step t m Hi). unfold cooling_until, set_state.
  destruct m as [rm regs st started cool ex al con inj]. cbn in *.
  destruct (String.eqb_spec st "cranking") as [->|Hc].
  { specialize (Hb1 eq_refl). assert (sec 4 <? t - started = true) as -> by (apply Z.ltb_lt; unfold sec in *; lia).
    cbn. split_and!; done. }
  destruct (String.eqb_spec st "cooling") as [->|Hk].
  { destruct (H3 eq_refl) as (u & -> & Hu). case_match; cbn; split_and!; try done.
    intros _. exists u. split; [done|]. lia. }
  destruct (String.eqb_spec st "exercising") as [->|He]; [|done].
  destruct (Hb2 eq_refl) as (u & -> & Hu). rewrite (due_by t u (now + sec 12)) by lia. cbn. split_and!; try done.
  intros _. eexists. split; [done|]. unfold sec in *. lia.
Qed.

Lemma advance_cooling u0 t m :
  mk_inject_alarm m = None -> cooling_until u0 m -> cooling_until u0 (advance t m).
Proof.
  intros Hi (H1 & H2 & H3). rewrite (advance_step t m Hi). unfold cooling_until in *.
  destruct (String.eqb_spec (mk_state m) "cranking"); [done|].
  destruct (String.eqb_spec (mk_state m) "cooling") as [Hk|Hk].
  { case_match; [|done]. cbn. by rewrite set_state_state. }
  by destruct (String.eqb_spec (mk_state m) "exercising").
Qed.

(** A read after that settles. *)
Lemma advance_settles u0 t m :
  mk_state m ∈ MOCK_STATES -> mk_inject_alarm m = None -> cooling_until u0 m -> u0 < t -> settled (advance t m).
Proof.
  intros Hs Hi (H1 & H2 & H3) Ht. rewrite (advance_step t m Hi).
  destruct (String.eqb_spec (mk_state m) "cranking"); [done|].
  destruct (String.eqb_spec (mk_state m) "cooling") as [Hk|Hk].
  { destruct (H3 Hk) as (u & -> & Hu). rewrite (due_by t u u0) by lia. unfold settled. cbn. rewrite set_state_state. set_solver. }
  destruct (String.eqb_spec (mk_state m) "exercising"); [done|]. by apply known_state.
Qed.

Lemma advance_settled t m : mk_inject_alarm m = None -> settled m -> settled (advance t m).
Proof.
  intros Hi Hs. rewrite (advance_step t m Hi). unfold settled in *.
  destruct (String.eqb_spec (mk_state m) "cranking") as [E|_]; [rewrite E in Hs; set_solver|].
  destruct (String.eqb_spec (mk_state m) "cooling") as [E|_]; [rewrite E in Hs; set_solver|].
  destruct (String.eqb_spec (mk_state m) "exercising") as [E|_]; [rewrite E in Hs; set_solver|done].
Qed.

Lemma settled_heading m : settled m -> heading (mk_state m) = mk_state m.
Proof. unfold settled. rewrite !elem_of_cons, elem_of_nil. by intros [->|[->|[->|[]]]]. Qed.

(** The reads of a mock that gets no command: only the clock matters. *)
Definition reads (ts : list Z) (m : MockSlave) : MockSlave := foldl (fun m t => advance t m) m ts.
Fixpoint ordered (now : Z) (ts : list Z) : Prop :=
  match ts with [] => True | t :: ts => now <= t /\ ordered t ts end.

Lemma ordered_app now ts ts' : ordered now (ts ++ ts') <-> ordered now ts /\ ordered (List.last ts now) ts'.
Proof.
  revert now. induction ts as [|t ts IH]; intros now; [cbn; tauto|].
  rewrite last_cons_default. cbn [app ordered]. rewrite IH. tauto.
Qed.

Lemma reads_preserve (P : Z -> MockSlave -> Prop) s ts m :
  (forall s t m, s <= t -> P s m -> P t (advance t m)) -> ordered s ts -> P s m -> P (List.last ts s) (reads ts m).
Proof.
  intros HP. revert s m. induction ts as [|t ts IH]; intros s m Ho Hm; [done|]. destruct Ho as [Ht Ho].
  rewrite last_cons_default. cbn [reads foldl]. apply IH; [done|]. by eapply HP.
Qed.

(** What stays true of a mock nobody commands. *)
Record calm (rm : RegisterMap) (h : string) (s : Z) (m : MockSlave) : Prop := {
  ca_time : 0 <= s; ca_ok : mock_ok s m; ca_inject : mk_inject_alarm m = None; ca_regmap : mk_regmap m = rm;
  ca_connected : mk_connected m = true; ca_heading : heading (mk_state m) = h
}.

Lemma advance_calm rm h s t m : s <= t -> calm rm h s m -> calm rm h t (advance t m).
Proof.
  intros Ht [H0 H1 H2 H3 H4 H5]. destruct (advance_ok s t m) as (? & ? & ? & ? & ?); [lia|done|done|].
  constructor; [lia|done|done|congruence..].
Qed.

(** A read more than 12 s after the last command and another more than 6 s after that:
    the mock has arrived, and stays. *)
Lemma left_alone rm h now a t1 b t2 c m :
  calm rm h now m -> begun_by now m -> ordered now (a ++ t1 :: b ++ t2 :: c) ->
  now + sec 12 < t1 -> t1 + sec 6 < t2 ->
  calm rm h (List.last c t2) (reads (a ++ t1 :: b ++ t2 :: c) m) /\ settled (reads (a ++ t1 :: b ++ t2 :: c) m).
Proof.
  intros Hm Hb Ho H1 H2. apply ordered_app in Ho as [Ha [Ht1 Ho]]. apply ordered_app in Ho as [Hob [Ht2 Hoc]].
  unfold reads. rewrite foldl_app. cbn [foldl]. rewrite foldl_app. cbn [foldl].
  change (calm rm h (List.last c t2) (reads c (advance t2 (reads b (advance t1 (reads a m))))) /\
          settled (reads c (advance t2 (reads b (advance t1 (reads a m)))))).
  assert (calm rm h (List.last a now) (reads a m) /\ begun_by now (reads a m) /\ now <= List.last a now) as (Hm1 & Hb1 & Hs1).
  { apply (reads_preserve (fun s m => calm rm h s m /\ begun_by now m /\ now <= s)); [|done|by split_and!].
    intros s t m' Hst (Hc & Hb' & Hn). split_and!; [by eapply advance_calm|by apply advance_begun, Hb'; apply Hc|lia]. }
  set (m1 := reads a m) in *.
  assert (cooling_until (t1 + sec 6) (advance t1 m1)) as Hk.
  { destruct Hm as [? _ _ _ _ _], Hm1 as [? ? ? _ _ _]. by apply (advance_cools now (List.last a now)). }
  assert (calm rm h t1 (advance t1 m1)) as Hm2 by (by eapply advance_calm).
  assert (calm rm h (List.last b t1) (reads b (advance t1 m1)) /\ cooling_until (t1 + sec 6) (reads b (advance t1 m1))) as [Hm3 Hk3].
  { apply (reads_preserve (fun s m => calm rm h s m /\ cooling_until (t1 + sec 6) m)); [|done|done].
    intros s t m' Hst [Hc Hk']. split; [by eapply advance_calm|]. apply advance_cooling; [apply Hc|done]. }
  set (m3 := reads b _) in *.
  assert (settled (advance t2 m3)) as Hs.
  { destruct Hm3 as [_ [? _ _ _] ? _ _ _]. by apply (advance_settles (t1 + sec 6)). }
  apply (reads_preserve (fun s m => calm rm h s m /\ settled m)); [|done|split; [by eapply advance_calm|done]].
  intros s t m' Hst [Hc Hs']. split; [by eapply advance_calm|]. apply advance_settled; [apply Hc|done].
Qed.

(** ** What a poll sees *)

Section served.
Context `{MockEnv}.

(** The registers of the map, read and decoded. *)
Definition decoded (m : MockSlave) (now : Z) : values_t :=
  list_to_map (omap (fun r => (fun v => (r_name r, v)) <$> decode_value r ((fun i => read_addr m now (r_addr r + i)) <$> seqZ 0 (r_words r)))
                    (rm_registers (mk_regmap m))).

Definition STATUS_REGISTERS : list string :=
  ["input_status_1"; "output_status_1"; "output_status_2"; "output_status_3"; "output_status_4"; "output_status_5";
   "output_status_6"; "output_status_7"; "output_status_8"]%string.

(** A one-word status register of the shipped map: found by name, and first at its address. *)
Definition plain_status (name : string) : bool :=
  match by_name h100_map name with
  | Some r => (r_name r =? name)%string && bool_decide (r_type r = bitfld) &&
              bool_decide (List.find (fun r' => (r_addr r' <=? r_addr r) && (r_addr r <? r_addr r' + r_words r')) h100_registers = Some r)
  | None => false
  end.
Lemma status_registers_plain : forallb plain_status STATUS_REGISTERS = true.
Proof. vm_compute. reflexivity. Qed.
Lemma h100_names_unique : NoDup (r_name <$> h100_registers).
Proof. apply (bool_decide_eq_true_1 _). vm_compute. reflexivity. Qed.

Lemma decoded_lookup m now r v :
  NoDup (r_name <$> rm_registers (mk_regmap m)) -> r ∈ rm_registers (mk_regmap m) ->
  decode_value r ((fun i => read_addr m now (r_addr r + i)) <$> seqZ 0 (r_words r)) = Some v ->
  decoded m now !! r_name r = Some v.
Proof.
  intros Hn Hr Hv. unfold decoded. revert Hn. generalize dependent (rm_registers (mk_regmap m)).
  intros l Hr Hn. induction l as [|r' l IH]; [by apply elem_of_nil in Hr|].
  cbn in Hn. apply NoDup_cons in Hn as [Hni Hn]. apply elem_of_cons in Hr as [->|Hr].
  - cbn. rewrite Hv. cbn. by rewrite lookup_insert_eq.
  - cbn. destruct (decode_value r' _) as [v'|]; cbn; [|by apply IH].
    rewrite lookup_insert_ne; [by apply IH|]. intros E. apply Hni. rewrite E. by apply list_elem_of_fmap_2.
Qed.

Lemma decoded_status m now name :
  mk_regmap m = h100_map -> name ∈ STATUS_REGISTERS ->
  decoded m now !! name = Some (PInt (word16 (word16 (synth_value m now name)))).
Proof.
  intros Hrm Hin. pose proof status_registers_plain as Hp. rewrite forallb_forall in Hp.
  specialize (Hp name (proj1 (list_elem_of_In _ _) Hin)). unfold plain_status in Hp.
  destruct (by_name h100_map name) as [r|] eqn:Er; [|done].
  apply andb_true_iff in Hp as [Hp Hf%bool_decide_eq_true]. apply andb_true_iff in Hp as [<-%String.eqb_eq Ht%bool_decide_eq_true].
  apply decoded_lookup; rewrite ?Hrm; [exact h100_names_unique|apply find_some in Er as [Er _]; by apply list_elem_of_In|].
  unfold r_words. rewrite Ht. cbn [type_words]. change (seqZ 0 1) with [0]. cbn [fmap list_fmap].
  unfold read_addr. rewrite Z.add_0_r, Hrm. change (rm_registers h100_map) with h100_registers. rewrite Hf.
  unfold r_words. rewrite Ht. unfold decode_value. rewrite Ht. cbn. by rewrite andb_false_r.
Qed.

Definition shown_alarms (m : MockSlave) : list string :=
  (if (mk_state m =? "alarm")%string then ["COMMON_ALARM"; "STOPPED_IN_ALARM"]%string else []) ++
  (if mk_alarm_active m =? 0 then [] else ["COOLANT_TEMP_HIGH_ALARM"]%string).

Lemma served_engine m now :
  mk_regmap m = h100_map -> mk_state m ∈ MOCK_STATES ->
  derive_engine_state h100_map (decoded m now) = mk_state m /\ derive_panel_mode h100_map (decoded m now) = "auto"%string.
Proof.
  intros Hrm Hs. unfold derive_engine_state, derive_panel_mode. cbn [rm_engine_state_bits rm_panel_mode_bits h100_map].
  unfold h100_engine_state_bits, h100_panel_mode_bits. cbn [first_state first_mode sb_register sb_mask sb_state pm_register pm_mask pm_mode].
  rewrite !(decoded_status m now) by (first [exact Hrm|refine (bool_decide_eq_true_1 _ _); vm_compute; reflexivity]).
  destruct m as [rm regs st started cool ex al con inj]. cbn in Hs.
  unfold MOCK_STATES in Hs. repeat (apply elem_of_cons in Hs as [->|Hs]; [split; reflexivity|]). by apply elem_of_nil in Hs.
Qed.

(** The alarm bits of the shipped map lie in status registers. *)
Lemma alarm_registers : forallb (fun ab => existsb (String.eqb (ab_register ab)) STATUS_REGISTERS) h100_alarm_bits = true.
Proof. vm_compute. reflexivity. Qed.

Lemma served_alarms m now :
  mk_regmap m = h100_map -> mk_state m ∈ MOCK_STATES ->
  ab_code <$> derive_active_alarms h100_map (decoded m now) = shown_alarms m.
Proof.
  intros Hrm Hs. unfold derive_active_alarms. cbn [rm_alarm_bits h100_map].
  rewrite (List.filter_ext_in _ (fun ab => mask_any (PInt (word16 (word16 (synth_value m now (ab_register ab))))) (ab_mask ab))).
  2: { intros ab Hab. pose proof alarm_registers as Ha. rewrite forallb_forall in Ha. specialize (Ha ab Hab).
       apply existsb_exists in Ha as (x & Hx & <-%String.eqb_eq). unfold alarm_bit_set.
       by rewrite (decoded_status m now _ Hrm (proj2 (list_elem_of_In _ _) Hx)). }
  unfold shown_alarms. destruct m as [rm regs st started cool ex al con inj]. cbn in Hs. cbn [mk_alarm_active mk_state].
  unfold MOCK_STATES in Hs.
  destruct (al =? 0) eqn:Ea; unfold synth_value; cbn [mk_alarm_active]; rewrite Ea;
    repeat (apply elem_of_cons in Hs as [->|Hs]; [vm_compute; reflexivity|]); by apply elem_of_nil in Hs.
Qed.

(** ** Commands *)

(** Where a verb takes the mock at once, and in the end. *)
Definition commanded (verb state : string) : string :=
  if (verb =? "stop")%string
  then if existsb (String.eqb state) ["running"; "exercising"; "cranking"]%string then "cooling"%string else "stopped"%string
  else if (verb =? "exercise")%string then "exercising"%string else "cranking"%string.

Lemma set_state_fields t s m :
  mk_cool_until (set_state t s m) = mk_cool_until m /\ mk_exercise_until (set_state t s m) = mk_exercise_until m /\
  mk_inject_alarm (set_state t s m) = mk_inject_alarm m /\ mk_regmap (set_state t s m) = mk_regmap m /\
  mk_connected (set_state t s m) = mk_connected m /\ mk_state (set_state t s m) = s /\
  (mk_state_started (set_state t s m) = t \/ mk_state_started (set_state t s m) = mk_state_started m).
Proof. unfold set_state. destruct (String.eqb_spec s (mk_state m)) as [->|]; split_and!; auto. Qed.

(** Entering a state with its deadline set. *)
Lemma entered now t s m :
  0 <= now <= t -> mk_state_started m <= now -> mk_inject_alarm m = None -> mk_connected m = true -> s ∈ MOCK_STATES ->
  (s = "cooling"%string -> mk_cool_until m = Some (t + sec 6)) ->
  (s = "exercising"%string -> mk_exercise_until m = Some (t + sec 12)) ->
  calm (mk_regmap m) (heading s) t (set_state t s m) /\ begun_by t (set_state t s m).
Proof.
  intros Ht H2 Hi Hc Hs H3 H4. destruct (set_state_fields t s m) as (F1 & F2 & F3 & F4 & F5 & F6 & F7).
  assert (mk_state_started (set_state t s m) <= t) by (destruct F7; lia).
  assert (s = "exercising"%string -> exists u, mk_exercise_until (set_state t s m) = Some u /\ 0 < u <= t + sec 12).
  { intros E. rewrite F2, (H4 E). eexists. split; [done|]. unfold sec. lia. }
  split; [|by split; rewrite F6]. constructor; [lia| |congruence..]. constructor; rewrite ?F6; [done|done| |done].
  intros E. rewrite F1, (H3 E). eexists. split; [done|]. unfold sec. lia.
Qed.

Lemma verb_control verb ctl :
  (exists name, od_get verb VERB_TO_CONTROL = Some name /\ od_get name (rm_controls h100_map) = Some ctl) ->
  match_control h100_map (c_addr ctl) (write_values ctl) = Some ctl /\ c_fc ctl = 16 /\ write_values ctl <> [] /\
  (verb = "start" /\ c_name ctl = "remote_start" \/ verb = "stop" /\ c_name ctl = "remote_stop" \/
   verb = "exercise" /\ c_name ctl = "exercise" \/ verb = "transfer" /\ c_name ctl = "transfer")%string.
Proof.
  intros (name & Hv & Hc). apply od_get_elem in Hv. unfold VERB_TO_CONTROL in Hv.
  repeat (apply elem_of_cons in Hv as [Hv|Hv]; [injection Hv as -> ->; vm_compute in Hc; injection Hc as <-;
    split_and!; [vm_compute; reflexivity|reflexivity|discriminate|tauto]|]).
  by apply elem_of_nil in Hv.
Qed.

Lemma commanded_heading verb state :
  verb ∈ ["start"; "stop"; "exercise"; "transfer"]%string ->
  heading (commanded verb state) = (if existsb (String.eqb verb) ["start"; "transfer"]%string then "running" else "stopped")%string.
Proof.
  intros Hv. repeat (apply elem_of_cons in Hv as [->|Hv]; [unfold commanded; cbn; by repeat case_match|]). by apply elem_of_nil in Hv.
Qed.

Ltac enter H := apply H; first [done|unfold MOCK_STATES; set_solver].

(** A control word taken by the mock. *)
Lemma apply_command now t verb ctl m :
  (exists name, od_get verb VERB_TO_CONTROL = Some name /\ od_get name (rm_controls h100_map) = Some ctl) ->
  0 <= now <= t -> mock_ok now m -> mk_inject_alarm m = None -> mk_connected m = true -> mk_regmap m = h100_map ->
  let m' := apply_control_write t (c_addr ctl) (write_values ctl) m in
  calm h100_map (heading (commanded verb (mk_state m))) t m' /\ begun_by t m' /\ mk_state m' = commanded verb (mk_state m).
Proof.
  intros Hv Ht Hok Hi Hc Hrm. destruct (verb_control verb ctl Hv) as (Hm & _ & _ & Hn).
  cbv zeta. unfold apply_control_write. rewrite Hrm, Hm, <- Hrm.
  assert (mk_state_started m <= now) as Hst by apply Hok.
  destruct Hn as [[-> ->]|[[-> ->]|[[-> ->]|[-> ->]]]]; cbn [String.eqb Ascii.eqb Bool.eqb]; unfold commanded;
    cbn [String.eqb Ascii.eqb Bool.eqb].
  - split_and!; [enter (entered now t "cranking" m)..|apply set_state_state].
  - change (in_state m ["running"; "exercising"; "cranking"]%string)
      with (existsb (String.eqb (mk_state m)) ["running"; "exercising"; "cranking"]%string).
    destruct (existsb _ _); split_and!; try apply set_state_state.
    + enter (entered now t "cooling" (mk_with_cool (Some (t + sec 6)) m)).
    + enter (entered now t "cooling" (mk_with_cool (Some (t + sec 6)) m)).
    + enter (entered now t "stopped" m).
    + enter (entered now t "stopped" m).
  - split_and!; [enter (entered now t "exercising" (mk_with_exercise (Some (t + sec 12)) m))..|apply set_state_state].
  - split_and!; [enter (entered now t "cranking" m)..|apply set_state_state].
Qed.

(** A command whose gates hold, against the mock: what it leaves behind. *)
Lemma mock_command (s : Sys MockWorld) verb token operator role ctl ct :
  tokens_ok (sy_tokens s) -> gates s verb token operator role ctl ct -> sy_regmap s = h100_map ->
  let w := sy_world s in
  let m := mw_slave w in
  0 <= mw_now w <= pause (mw_now w) -> mock_ok (mw_now w) m -> mk_inject_alarm m = None ->
  mk_connected m = true -> mk_regmap m = h100_map ->
  let '(r, s') := execute verb token operator role s in
  let m' := mw_slave (sy_world s') in
  let now' := mw_now (sy_world s') in
  r = inr (verb, c_name ctl, c_addr ctl, write_values ctl) /\
  mk_state m' = commanded verb (mk_state m) /\ now' = pause (mw_now w) /\
  calm h100_map (heading (commanded verb (mk_state m))) now' m' /\ begun_by now' m'.
Proof.
  cbv zeta. intros Htok Hg Hrm Ht Hok Hi Hc Hmrm. destruct (execute verb token operator role s) as [r s'] eqn:E.
  pose proof (execute_outcome _ _ _ _ _ _ _ Htok E) as Ho. clear E.
  destruct Ho as [e s' _ Hn|e _ Hn|e s' _ _ _ _ Hn|ctl' ct' r s1 s' Hg' _ _ _ Hw].
  - by destruct (Hn ctl ct).
  - destruct Hg as [_ (name & Hname & _) _ _ _ _ _]. congruence.
  - by destruct (Hn ctl ct).
  - assert (ctl' = ctl) as ->.
    { destruct Hg as [_ (n1 & H1 & H2) _ _ _ _ _], Hg' as [_ (n2 & H3 & H4) _ _ _ _ _]. congruence. }
    assert (exists name, od_get verb VERB_TO_CONTROL = Some name /\ od_get name (rm_controls h100_map) = Some ctl) as Hv
      by (rewrite <- Hrm; apply Hg).
    destruct (verb_control verb ctl Hv) as (_ & Hfc & Hne & _).
    destruct (apply_command (mw_now (sy_world s)) (pause (mw_now (sy_world s))) verb ctl (mw_slave (sy_world s)) Hv Ht Hok Hi Hc Hmrm)
      as (Hcalm & Hb & Hst).
    unfold control_write in Hw. rewrite Hfc, andb_false_r in Hw. cbn [mc_write mock_client] in Hw. unfold mock_write in Hw.
    rewrite Hc in Hw. cbn [negb] in Hw.
    assert (coerce_write_args None (Some (write_values ctl)) 16 = (write_values ctl, None)) as Hco
      by (unfold coerce_write_args; by destruct (write_values ctl)).
    rewrite Hco in Hw. destruct Hw as (Hw & _ & _ & _ & Hr). rewrite Hw. cbn [mw_slave mw_now].
    destruct r as [e|x]; [by destruct Hr|]. destruct Hr as [_ ->].
    split_and!; [done|done|done| |exact Hb]. by destruct Hcalm as [? [] ? ? ? ?].
Qed.

(** ** Theorems *)

(** Through *)
Theorem mock_is_what_it_shows m now :
  mk_regmap m = h100_map -> mk_state m ∈ MOCK_STATES ->
  let v := decoded m now in
  derive_engine_state h100_map v = mk_state m /\ derive_panel_mode h100_map v = "auto"%string /\
  ab_code <$> derive_active_alarms h100_map v = shown_alarms m.
Proof. intros Hrm Hs. destruct (served_engine m now Hrm Hs). split_and!; [done|done|by apply served_alarms]. Qed.

(** Against the mock controller a command whose gates hold succeeds, a poll right
    after it shows the state the command calls for, and once a poll falls 12 s later and
    another 6 s after that every further poll shows the engine running (start, transfer) or
    stopped (stop, exercise). *)
Theorem mock_obeys (s : Sys MockWorld) verb token operator role ctl ct a t1 b t2 c :
  tokens_ok (sy_tokens s) -> gates s verb token operator role ctl ct -> sy_regmap s = h100_map ->
  let w := sy_world s in
  let m := mw_slave w in
  0 <= mw_now w <= pause (mw_now w) -> mock_ok (mw_now w) m -> mk_inject_alarm m = None ->
  mk_connected m = true -> mk_regmap m = h100_map ->
  ordered (pause (mw_now w)) (a ++ t1 :: b ++ t2 :: c) ->
  pause (mw_now w) + sec 12 < t1 -> t1 + sec 6 < t2 ->
  let '(r, s') := execute verb token operator role s in
  let m' := mw_slave (sy_world s') in
  r = inr (verb, c_name ctl, c_addr ctl, write_values ctl) /\
  (forall t, derive_engine_state h100_map (decoded m' t) = commanded verb (mk_state m)) /\
  (forall t, derive_engine_state h100_map (decoded (reads (a ++ t1 :: b ++ t2 :: c) m') t) =
     if existsb (String.eqb verb) ["start"; "transfer"]%string then "running"%string else "stopped"%string).
Proof.
  cbv zeta. intros Htok Hg Hrm Ht Hok Hi Hc Hmrm Ho H1 H2.
  pose proof (mock_command s verb token operator role ctl ct Htok Hg Hrm Ht Hok Hi Hc Hmrm) as Hm.
  destruct (execute verb token operator role s) as [r s'] eqn:E. destruct Hm as (-> & Hst & En & Hcalm & Hb).
  split; [done|]. split.
  { intros t. destruct Hcalm as [_ [Hs _ _ _] _ Hr _ _]. rewrite <- Hst. by apply served_engine. }
  rewrite En in *.
  destruct (left_alone _ _ _ a t1 b t2 c _ Hcalm Hb Ho H1 H2) as ([_ [Hs _ _ _] _ Hr _ Hh] & Hset).
  intros t. destruct (served_engine _ t Hr Hs) as [-> _]. rewrite <- (settled_heading _ Hset), Hh. apply commanded_heading.
  destruct Hg as [_ (name & Hv & _) _ _ _ _ _]. apply od_get_elem in Hv. unfold VERB_TO_CONTROL in Hv. set_solver.
Qed.
End served.
