(* ===== verification/AtsControl.v ===== *)
(** * ATS commands (services/ats_control.py)

    The command table, the gates of [execute] and their theorem.  The confirm
    tokens are those of Control.v; the write goes through the ATS-Pi's own client. *)

From S2P Require Import Prelude PyNum Registers Client Poller Database Events StateMachine Ats Control ControlFacts.

Local Open Scope Z_scope.
Local Open Scope gw_scope.

(** ** Policy *)

Local Open Scope string_scope.
Definition ROLE_RANK : odict string Z := [("viewer", 0%Z); ("operator", 1%Z); ("admin", 2%Z)].
Definition ASSERT_BLOCKING_FAULTS : gset string :=
  {[ "ATS_PI_INPUT_FAULT"; "ATS_PI_CALIBRATION"; "ATS_PI_OUTPUT_FAULT"; "ATS_PI_MODE_UNKNOWN" ]}.
Local Close Scope string_scope.

Definition role_satisfies (role required : string) : bool :=
  default 99 (od_get required ROLE_RANK) <=? default 0 (od_get role ROLE_RANK).

Inductive command_kind : Type := Momentary | Maintained.

Record AtsCommandSpec : Type := {
  sp_kind : command_kind;
  sp_assert_control : string;
  sp_release_control : option string;
  sp_role : string;
  sp_desc : string
}.

Definition ATS_COMMAND_SPECS : odict string AtsCommandSpec :=
  [("test"%string, {| sp_kind := Momentary; sp_assert_control := "ats_test"; sp_release_control := None;
      sp_role := "operator"; sp_desc := "momentary test transfer" |});
   ("inhibit"%string, {| sp_kind := Maintained; sp_assert_control := "ats_inhibit_assert";
      sp_release_control := Some "ats_inhibit_release"%string; sp_role := "operator";
      sp_desc := "inhibit transfer" |});
   ("force_transfer"%string, {| sp_kind := Maintained; sp_assert_control := "ats_force_assert";
      sp_release_control := Some "ats_force_release"%string; sp_role := "admin";
      sp_desc := "force transfer to generator" |});
   ("bypass_delay"%string, {| sp_kind := Momentary; sp_assert_control := "ats_bypass_delay";
      sp_release_control := None; sp_role := "operator"; sp_desc := "bypass transfer time delay" |})].

(** The control a call writes, and whether it asserts. *)
Definition spec_control (sp : AtsCommandSpec) (assert_ : bool) : option string :=
  match sp_kind sp with
  | Maintained => if assert_ then Some (sp_assert_control sp) else sp_release_control sp
  | Momentary => Some (sp_assert_control sp)
  end.
Definition spec_is_assert (sp : AtsCommandSpec) (assert_ : bool) : bool :=
  match sp_kind sp with Maintained => assert_ | Momentary => true end.
Definition spec_verb (sp : AtsCommandSpec) (assert_ : bool) : string :=
  match sp_kind sp with
  | Maintained => if assert_ then "asserted" else "released"
  | Momentary => "pulsed"
  end.
Definition py_bool (b : bool) : string := if b then "True" else "False".

Section ats_control.
Context {W : Type} `{Clock W} (ats_client : ModbusClient W).

Definition ats_comms_state (s : Sys W) : string :=
  ch_state (comms_at (sy_heap s) (at_comms (as_snap (sy_ats s)))).

Definition ats_deny {A} (operator command detail token result : string) (e : ControlError) : M A :=
  deny operator ("ats." +:+ command) detail token result e.

(** Authority, faults and the healthy-utility guard, for asserts only. *)
Definition gate_assert (command token operator : string) (is_assert override : bool) : M unit :=
  s <-- gets id ;;
  let snap := as_snap (sy_ats s) in
  let blocking := at_fault_codes snap ∩ ASSERT_BLOCKING_FAULTS in
  if negb is_assert then se_ret tt
  else if negb (is_authoritative (sy_heap s) (sy_ats s))
  then ats_deny operator command "not_authoritative" token "denied"
         (control_error "ats_not_authoritative"
            ("cannot " +:+ command +:+ ": ATS-Pi link is not authoritative (comms degraded, ICD-version/unit-id mismatch, or the ATS-Pi cannot currently trust its own position sense). Command refused for safety.")
            409)
  else if negb (bool_decide (blocking = ∅))
  then let codes := str_join "," (str_sorted (elements blocking)) in
       ats_deny operator command ("fault:" +:+ codes) token "denied"
         (control_error "ats_fault"
            ("cannot " +:+ command +:+ ": ATS-Pi reports " +:+ codes +:+
             ". Asserting a command is refused until the fault clears; a release is still permitted.") 409)
  else if (command =? "force_transfer")%string && negb override &&
          bool_decide (at_normal_available snap = Some true)
  then ats_deny operator command "normal_available_no_override" token "denied"
         (control_error "override_required" "force-transfer refused: the utility (normal) source is AVAILABLE. Re-issue with override to transfer the load onto the generator anyway."
            409)
  else se_ret tt.

Definition note_write (command : string) (assert_ : bool) : M unit :=
  modify (fun s => set_ats (note_command_write (mono_clock (sy_world s)) command assert_ (sy_ats s)) s).

(** [AtsControlService.execute] *)
Definition ats_execute (command token operator role : string) (assert_ override : bool)
    : M command_result :=
  match od_get command ATS_COMMAND_SPECS with
  | None => raise (control_error "unknown_command" ("unknown ATS command '" +:+ command +:+ "'") 400)
  | Some sp =>
      if negb (role_satisfies role (sp_role sp))
      then ats_deny operator command ("role=" +:+ role) token "denied"
             (control_error "forbidden" (sp_role sp +:+ " role required for ATS " +:+ command) 403)
      else
        s <-- gets id ;;
        if (ats_comms_state s =? "lost")%string
        then ats_deny operator command "ats_comms=lost" token "denied"
               (control_error "ats_comms_lost"
                  ("cannot " +:+ command +:+ ": ATS-Pi link is LOST. Commands are disabled until the companion device is reachable.")
                  502)
        else
          gate_assert command token operator (spec_is_assert sp assert_) override ;;;
          let ctl_name := spec_control sp assert_ in
          match ctl_name ≫= fun n => od_get n (rm_controls (sy_ats_regmap s)) with
          | None =>
              let n := default "None"%string ctl_name in
              ats_deny operator command ("no_register:" +:+ n) token "failed"
                (control_error "no_register" ("ATS control '" +:+ n +:+ "' is not present in the ATS register map.") 500)
          | Some ctl =>
              consume_token token operator (Some command) ;;;
              res <-- write_control ats_client ctl ;;
              if negb (mr_ok res)
              then
                audit operator ("ats." +:+ command) (error_or res "modbus_write_failed") token "failed" ;;;
                event "warn" "ATS_COMMAND" ("ATS command " +:+ command +:+ " — Modbus write failed")
                  (Some (error_or res "")) ;;;
                raise (control_error "ats_modbus_failed" ("ATS Modbus write failed: " +:+ error_text res) 502)
              else
                note_write command assert_ ;;;
                audit operator ("ats." +:+ command)
                  (reg_detail ctl +:+ words_detail ctl +:+ " assert=" +:+ py_bool assert_ +:+
                   " override=" +:+ py_bool override) token "ok" ;;;
                event "ok" "ATS_COMMAND"
                  ("ATS command " +:+ command +:+ " " +:+ spec_verb sp assert_ +:+ " — confirmed")
                  (Some operator) ;;;
                se_ret (command, c_name ctl, c_addr ctl, write_values ctl)
          end
  end.

(** ** The gates as a specification *)

(** What must hold before an ATS command goes to the wire.  The trust conditions
    concern asserts only: a release needs just a link that is not lost. *)
Record ats_gates (s : Sys W) (command token operator role : string) (assert_ override : bool)
    (ctl : ControlDef) (ct : ConfirmToken) : Prop := {
  ag_spec : exists sp n, od_get command ATS_COMMAND_SPECS = Some sp /\
    role_satisfies role (sp_role sp) = true /\
    spec_control sp assert_ = Some n /\ od_get n (rm_controls (sy_ats_regmap s)) = Some ctl /\
    (spec_is_assert sp assert_ = true ->
       is_authoritative (sy_heap s) (sy_ats s) = true /\
       at_fault_codes (as_snap (sy_ats s)) ∩ ASSERT_BLOCKING_FAULTS = ∅ /\
       (command = "force_transfer"%string -> override = false ->
        at_normal_available (as_snap (sy_ats s)) <> Some true));
  ag_comms : ats_comms_state s <> "lost"%string;
  ag_token : spendable s token operator (Some command) ct
}.

Definition assert_allowed (s : Sys W) (command : string) (is_assert override : bool) : Prop :=
  is_assert = true ->
  is_authoritative (sy_heap s) (sy_ats s) = true /\
  at_fault_codes (as_snap (sy_ats s)) ∩ ASSERT_BLOCKING_FAULTS = ∅ /\
  (command = "force_transfer"%string -> override = false ->
   at_normal_available (as_snap (sy_ats s)) <> Some true).

Lemma gate_assert_spec command token operator is_assert override s :
  gate_spec (gate_assert command token operator is_assert override) s operator
    (assert_allowed s command is_assert override).
Proof.
  unfold gate_spec, gate_assert, assert_allowed. rewrite se_bind_gets. cbn [id].
  destruct is_assert; cbn [negb]; [|by left].
  assert (forall detail e P, ~ P ->
    (ats_deny (A := unit) operator command detail token "denied" e s = (inr tt, s) /\ P) \/
    (exists e' s', ats_deny (A := unit) operator command detail token "denied" e s = (inl e', s') /\
       refused s s' operator /\ ~ P)) as Hdeny.
  { intros detail e P HP. right. unfold ats_deny.
    edestruct (deny_refused (A := unit) s operator) as (s' & E' & Hr);
      [|do 2 eexists; split; [exact E'|done]]. set_solver. }
  destruct (is_authoritative (sy_heap s) (sy_ats s)) eqn:Ea; cbn [negb].
  2: { apply Hdeny. intros Hp. by destruct (Hp eq_refl). }
  case_bool_decide as Eb; cbn [negb].
  2: { apply Hdeny. intros Hp. by destruct (Hp eq_refl) as (_ & ? & _). }
  destruct (String.eqb_spec command "force_transfer") as [->|Hc]; cbn [andb]; [|left; by split_and!].
  destruct override; cbn [negb andb]; [left; by split_and!|].
  case_bool_decide as En; [|left; split; [done|by intros _]].
  apply Hdeny. intros Hp. by destruct (Hp eq_refl) as (_ & _ & ?%(fun f => f eq_refl eq_refl)).
Qed.

(** An ATS command reaches the wire only through its gates, with the words of its
    control, once, its token spent; then its write is noted for the echo filter
    on success.  Any other call leaves the ATS-Pi untouched. *)
Lemma ats_execute_spec s command token operator role assert_ override :
  tokens_ok (sy_tokens s) ->
  let '(r, s') := ats_execute command token operator role assert_ override s in
  (sy_world s' = sy_world s /\ sy_ats s' = sy_ats s /\ (exists e, r = inl e) /\
   forall ctl ct, ~ ats_gates s command token operator role assert_ override ctl ct) \/
  (exists ctl ct, ats_gates s command token operator role assert_ override ctl ct /\
     let '(res, w') := control_write ats_client ctl (sy_world s) in
     sy_world s' = w' /\ od_get token (sy_tokens s') = None /\
     (mr_ok res = true -> r = inr (command, c_name ctl, c_addr ctl, write_values ctl) /\
        sy_ats s' = note_command_write (mono_clock w') command assert_ (sy_ats s)) /\
     (mr_ok res = false -> exists e, r = inl e /\ ce_code e = "ats_modbus_failed"%string /\
        sy_ats s' = sy_ats s)).
Proof.
  intros Hok. destruct (ats_execute command token operator role assert_ override s) as [r s'] eqn:E.
  unfold ats_execute in E.
  destruct (od_get command ATS_COMMAND_SPECS) as [sp|] eqn:Esp.
  2: { injection E as <- <-. left. split_and!; [done|done|by eexists|].
       intros ctl ct [(sp & n & Hs & _) _ _]. congruence. }
  destruct (role_satisfies role (sp_role sp)) eqn:Erole; cbn [negb] in E.
  2: { injection E as <- <-. left. split_and!; [done|done|by eexists|].
       intros ctl ct [(sp' & n & Hs & Hr & _) _ _]. congruence. }
  rewrite se_bind_gets in E. cbn [id] in E.
  destruct (String.eqb_spec (ats_comms_state s) "lost") as [El|El].
  { injection E as <- <-. left. split_and!; [done|done|by eexists|]. by intros ctl ct [_ Hc _]. }
  destruct (gate_assert_spec command token operator (spec_is_assert sp assert_) override s)
    as [[Eg Hg]|(e & s1 & Eg & Hr & Hn)].
  2: { destruct (se_bind_stop _ _ _ _ _ _ _ Eg E) as [-> ->]. left. destruct Hr as [Hs _ _].
       split_and!; [apply Hs|apply Hs|by eexists|].
       intros ctl ct [(sp' & n & Hs' & _ & _ & _ & Ha) _ _]. apply Hn.
       assert (sp' = sp) as -> by congruence. exact Ha. }
  apply (se_bind_pass _ _ _ _ _ _ _ Eg) in E. clear Eg. cbv zeta in E.
  destruct (spec_control sp assert_ ≫= _) as [ctl|] eqn:Ectl.
  2: { injection E as <- <-. left. split_and!; [done|done|by eexists|].
       intros ctl ct [(sp' & n & Hs' & _ & Hn & Hc & _) _ _]. assert (sp' = sp) as -> by congruence.
       rewrite Hn in Ectl. cbn in Ectl. congruence. }
  destruct (spec_control sp assert_) as [n|] eqn:En; [cbn in Ectl|done].
  destruct (consume_spec s token operator (Some command) Hok) as (r1 & s1 & E1 & Hs1 & _ & Hgone & _ & Hr1).
  destruct r1 as [e|ct].
  { destruct (se_bind_stop _ _ _ _ _ _ _ E1 E) as [-> ->]. left. destruct Hr1 as (_ & _ & Hns).
    split_and!; [apply Hs1|apply Hs1|by eexists|]. intros ctl' ct [_ _ Ht]. by apply (Hns ct). }
  apply (se_bind_pass _ _ _ _ _ _ _ E1) in E. right. exists ctl, ct.
  assert (ats_gates s command token operator role assert_ override ctl ct) as Hgates.
  { constructor; [|done|done]. by exists sp, n. }
  split; [exact Hgates|].
  unfold se_bind at 1 in E. rewrite write_control_eq, (sb_world _ _ Hs1) in E.
  destruct (control_write ats_client ctl (sy_world s)) as [res w']. cbn [fst snd] in E.
  destruct (mr_ok res) eqn:Eok; cbn [negb] in E.
  - unfold note_write, audit, event in E. rewrite !se_bind_modify in E. injection E as <- <-. cbn.
    rewrite (sb_ats _ _ Hs1). by split_and!.
  - unfold audit, event in E. rewrite !se_bind_modify in E. injection E as <- <-. cbn.
    split_and!; [done|done|done|]. intros _. eexists. split_and!; [done|done|apply Hs1].
Qed.

(** When a call asserts, or releases, an output. *)
Definition asserts (command : string) (assert_ : bool) : Prop :=
  exists sp, od_get command ATS_COMMAND_SPECS = Some sp /\ spec_is_assert sp assert_ = true.

(** C8. If an ATS assert changes anything on the wire, the position was authoritative,
    no blocking fault was up, a forced transfer was an admin's and dropped a healthy utility
    only on override, and the token was live, bound to this operator and command, and is
    gone. *)
Theorem ats_assert_gated s command token operator role assert_ override :
  tokens_ok (sy_tokens s) -> asserts command assert_ ->
  let s' := snd (ats_execute command token operator role assert_ override s) in
  sy_world s' <> sy_world s ->
  is_authoritative (sy_heap s) (sy_ats s) = true /\
  at_fault_codes (as_snap (sy_ats s)) ∩ ASSERT_BLOCKING_FAULTS = ∅ /\
  (command = "force_transfer"%string ->
     role = "admin"%string /\
     (at_normal_available (as_snap (sy_ats s)) = Some true -> override = true)) /\
  (exists ct, spendable s token operator (Some command) ct) /\
  od_get token (sy_tokens s') = None.
Proof.
  intros Hok (sp & Hsp & Has). cbv zeta.
  pose proof (ats_execute_spec s command token operator role assert_ override Hok) as Hspec.
  destruct (ats_execute command token operator role assert_ override s) as [r s']. cbn [snd].
  intros Hne. destruct Hspec as [[? _]|(ctl & ct & Hg & Hrest)]; [done|].
  destruct (control_write ats_client ctl (sy_world s)) as [res w']. destruct Hrest as (_ & Hgone & _).
  destruct Hg as [(sp' & n & Hs' & Hrole & _ & _ & Ha) _ Ht].
  assert (sp' = sp) as -> by congruence. destruct (Ha Has) as (H1 & H2 & H3).
  split_and!; [done|done| |by exists ct|done].
  intros Hc. split.
  - subst command. injection Hsp as <-. cbn in Hrole. unfold role_satisfies in Hrole. cbn in Hrole.
    repeat case_decide; subst; cbn in Hrole; try lia; done.
  - intros Hna. destruct override; [done|]. by destruct (H3 Hc eq_refl Hna).
Qed.

(** C9. Releasing a maintained ATS command is never refused for a fault, for lost
    authority or for the state of the utility: with the role, a link that is not lost, the
    release register and a live token the write is made. *)
Theorem ats_release_unblocked s command token operator role override sp n ctl ct :
  tokens_ok (sy_tokens s) ->
  od_get command ATS_COMMAND_SPECS = Some sp -> sp_kind sp = Maintained ->
  role_satisfies role (sp_role sp) = true ->
  ats_comms_state s <> "lost"%string ->
  sp_release_control sp = Some n -> od_get n (rm_controls (sy_ats_regmap s)) = Some ctl ->
  spendable s token operator (Some command) ct ->
  let '(r, s') := ats_execute command token operator role false override s in
  let '(res, w') := control_write ats_client ctl (sy_world s) in
  sy_world s' = w' /\
  (mr_ok res = true -> r = inr (command, c_name ctl, c_addr ctl, write_values ctl)).
Proof.
  intros Hok Hsp Hkind Hrole Hcomms Hrel Hctl Ht.
  pose proof (ats_execute_spec s command token operator role false override Hok) as Hspec.
  assert (ats_gates s command token operator role false override ctl ct) as Hg.
  { constructor; [|done|done]. exists sp, n. unfold spec_control, spec_is_assert. rewrite Hkind.
    by split_and!. }
  destruct (ats_execute command token operator role false override s) as [r s'].
  destruct Hspec as [(_ & _ & _ & Hn)|(ctl' & ct' & Hg' & Hrest)]; [by destruct (Hn ctl ct)|].
  assert (ctl' = ctl) as ->.
  { destruct Hg' as [(sp' & n' & Hs' & _ & Hn' & Hc' & _) _ _].
    assert (sp' = sp) as -> by congruence. unfold spec_control in Hn'. rewrite Hkind in Hn'. congruence. }
  destruct (control_write ats_client ctl (sy_world s)) as [res w'].
  destruct Hrest as (-> & _ & Hr & _). split; [done|]. intros Hres. by destruct (Hr Hres).
Qed.
End ats_control.
