(* ===== verification/RateLimit.v ===== *)
(** * The token-bucket limiter (services/ratelimit.py)

    Buckets hold rational tokens; the source's floats are read as exact numbers.
    The lock makes each call one step. *)

From S2P Require Import Prelude.
From Stdlib Require Import Qround Lqa.

Local Open Scope Z_scope.

(** ** Definitions *)

Record Bucket : Type := { b_tokens : Q; b_last : Z }.

Record RateLimiter : Type := {
  rl_capacity : Q;
  rl_refill : Q;                      (* tokens per second *)
  rl_buckets : gmap string Bucket
}.

Definition RateLimiter_init (capacity refill : Q) : RateLimiter :=
  {| rl_capacity := capacity; rl_refill := refill; rl_buckets := ∅ |}.

Definition with_buckets (b : gmap string Bucket) (r : RateLimiter) : RateLimiter :=
  {| rl_capacity := rl_capacity r; rl_refill := rl_refill r; rl_buckets := b |}.

(** Nanoseconds as seconds. *)
Definition seconds (ns : Z) : Q := (inject_Z ns / inject_Z 1000000000)%Q.

Definition qmin (a b : Q) : Q := if Qle_bool a b then a else b.

(** [check] at monotonic time [now]. *)
Definition check (now : Z) (key : string) (r : RateLimiter) : bool * RateLimiter :=
  match rl_buckets r !! key with
  | None => (true, with_buckets (<[key := {| b_tokens := rl_capacity r - 1; b_last := now |}]>
                                   (rl_buckets r)) r)
  | Some b =>
      let tokens := qmin (rl_capacity r) (b_tokens b + seconds (now - b_last b) * rl_refill r) in
      if Qle_bool 1 tokens
      then (true, with_buckets (<[key := {| b_tokens := tokens - 1; b_last := now |}]> (rl_buckets r)) r)
      else (false, with_buckets (<[key := {| b_tokens := tokens; b_last := now |}]> (rl_buckets r)) r)
  end.

Definition reset (key : string) (r : RateLimiter) : RateLimiter :=
  with_buckets (delete key (rl_buckets r)) r.

(** [retry_after_s]; [int] truncates. *)
Definition retry_after_s (key : string) (r : RateLimiter) : Z :=
  match rl_buckets r !! key with
  | None => 0
  | Some b =>
      if Qle_bool 1 (b_tokens b) then 0
      else
        let needed := (1 - b_tokens b)%Q in
        let refill := if Qle_bool (rl_refill r) (1 # 1000000000) then (1 # 1000000000)%Q else rl_refill r in
        Z.max 1 (Qfloor (needed / refill))
  end.

(** The limiters of the application (main.py). *)
Definition login_limiter : RateLimiter := RateLimiter_init 5 (1 # 180).
Definition command_limiter : RateLimiter := RateLimiter_init 3 (1 # 5).

(** ** Theorems *)

Lemma qmin_l a b : (qmin a b <= a)%Q.
Proof.
  unfold qmin. destruct (Qle_bool a b) eqn:E; [lra|].
  apply not_true_iff_false in E. rewrite Qle_bool_iff in E. lra.
Qed.
Lemma qmin_r a b : (qmin a b <= b)%Q.
Proof. unfold qmin. destruct (Qle_bool a b) eqn:E; [by apply Qle_bool_iff in E|lra]. Qed.

Lemma seconds_diff a b c : (seconds (a - b) + seconds (b - c) == seconds (a - c))%Q.
Proof. unfold seconds. replace (a - c) with ((a - b) + (b - c)) by lia. rewrite inject_Z_plus. field. Qed.

Lemma seconds_nonneg n : 0 <= n -> (0 <= seconds n)%Q.
Proof.
  intros Hn. unfold seconds. apply Qle_shift_div_l; [reflexivity|]. rewrite Qmult_0_l.
  change 0%Q with (inject_Z 0). rewrite <- Zle_Qle. done.
Qed.

Section limiter.
Context (capacity refill : Q) (Hcap : (1 <= capacity)%Q) (Href : (0 <= refill)%Q).

(** One check of a bucket: the tokens left are bounded by what was there and what
    the elapsed time refills, and a pass costs one. *)
Lemma check_bucket now key r b :
  rl_capacity r = capacity -> rl_refill r = refill ->
  rl_buckets r !! key = Some b -> (0 <= b_tokens b)%Q -> b_last b <= now ->
  exists ok b', check now key r = (ok, with_buckets (<[key := b']> (rl_buckets r)) r) /\
    b_last b' = now /\ (0 <= b_tokens b')%Q /\ (b_tokens b' <= capacity)%Q /\
    (inject_Z (if ok then 1 else 0) + b_tokens b' <=
       b_tokens b + refill * seconds (now - b_last b))%Q.
Proof.
  intros Hc Hr Hb H0 Hl. unfold check. rewrite Hb, Hc, Hr.
  pose proof (seconds_nonneg (now - b_last b) ltac:(lia)) as Hs.
  pose proof (Qmult_le_0_compat _ _ Hs Href) as Hp.
  pose proof (Qmult_comm (seconds (now - b_last b)) refill) as Hcomm.
  set (full := (b_tokens b + seconds (now - b_last b) * refill)%Q) in *.
  pose proof (qmin_l capacity full). pose proof (qmin_r capacity full).
  assert (0 <= qmin capacity full)%Q by (unfold qmin; case_match; unfold full; lra).
  generalize dependent (qmin capacity full). intros q Hq1 Hq2 Hq0.
  assert (full == b_tokens b + refill * seconds (now - b_last b))%Q as Hfull
    by (unfold full; by rewrite Hcomm).
  clearbody full. destruct (Qle_bool 1 q) eqn:E.
  - apply Qle_bool_iff in E. do 2 eexists. split; [reflexivity|]. cbn [b_last b_tokens].
    change (inject_Z 1) with 1%Q. split_and!; [done|lra|lra|lra].
  - do 2 eexists. split; [reflexivity|]. cbn [b_last b_tokens].
    change (inject_Z 0) with 0%Q. split_and!; [done|lra|lra|lra].
Qed.

(** Checks of one key at times [ts]; how many were allowed. *)
Fixpoint allowed (key : string) (ts : list Z) (r : RateLimiter) : Z :=
  match ts with
  | [] => 0
  | t :: rest => let '(ok, r') := check t key r in (if ok then 1 else 0) + allowed key rest r'
  end.

(** Times in order, starting no earlier than [t]. *)
Fixpoint ordered (t : Z) (ts : list Z) : Prop :=
  match ts with [] => True | u :: rest => t <= u /\ ordered u rest end.

Lemma allowed_bound key ts r b :
  rl_capacity r = capacity -> rl_refill r = refill ->
  rl_buckets r !! key = Some b -> (0 <= b_tokens b)%Q -> ordered (b_last b) ts ->
  (inject_Z (allowed key ts r) <= b_tokens b + refill * seconds (List.last ts (b_last b) - b_last b))%Q.
Proof.
  revert r b. induction ts as [|u ts IH]; intros r b Hc Hr Hb H0 Ho.
  { cbn [allowed List.last]. rewrite Z.sub_diag. assert (seconds 0 == 0)%Q as -> by reflexivity.
    change (inject_Z 0) with 0%Q. lra. }
  destruct Ho as [Hu Ho]. cbn [allowed].
  destruct (check_bucket u key r b Hc Hr Hb H0 Hu) as (ok & b' & -> & Hl & H0' & _ & Hle).
  assert (rl_buckets (with_buckets (<[key:=b']> (rl_buckets r)) r) !! key = Some b') as Hb'
    by (cbn; by rewrite lookup_insert_eq).
  pose proof (IH (with_buckets (<[key:=b']> (rl_buckets r)) r) b' Hc Hr Hb' H0' ltac:(by rewrite Hl)) as Hrest.
  rewrite inject_Z_plus, last_cons_default. rewrite Hl in Hrest.
  pose proof (seconds_diff (List.last ts u) u (b_last b)) as Hd.
  assert (refill * seconds (List.last ts u - b_last b) ==
          refill * seconds (List.last ts u - u) + refill * seconds (u - b_last b))%Q as -> by (rewrite <- Hd; ring).
  lra.
Qed.

(** The allowed checks of a fresh bucket. *)
Lemma allowed_fresh key t ts r :
  rl_capacity r = capacity -> rl_refill r = refill -> rl_buckets r !! key = None ->
  ordered t ts ->
  (inject_Z (allowed key (t :: ts) r) <= capacity + refill * seconds (List.last ts t - t))%Q.
Proof.
  intros Hc Hr Hn Ho. cbn [allowed]. unfold check. rewrite Hn.
  set (b := {| b_tokens := rl_capacity r - 1; b_last := t |}).
  set (r' := with_buckets (<[key:=b]> (rl_buckets r)) r).
  rewrite inject_Z_plus.
  assert (rl_buckets r' !! key = Some b) as Hb by (cbn; by rewrite lookup_insert_eq).
  assert (0 <= b_tokens b)%Q as H0 by (cbn; rewrite Hc; lra).
  pose proof (allowed_bound key ts r' b Hc Hr Hb H0 Ho) as Hle. cbn [b_last b] in Hle.
  change (b_tokens b) with (rl_capacity r - 1)%Q in Hle. rewrite Hc in Hle.
  change (inject_Z 1) with 1%Q. lra.
Qed.

(** Over any run of checks of a key, the limiter allows at most its capacity plus
    what the time span refills, always allows the first, and never touches other keys. *)
Theorem limiter_bound key t ts r :
  rl_capacity r = capacity -> rl_refill r = refill -> rl_buckets r !! key = None ->
  ordered t ts ->
  (inject_Z (allowed key (t :: ts) r) <= capacity + refill * seconds (List.last ts t - t))%Q /\
  fst (check t key r) = true /\
  (forall k, k <> key -> rl_buckets (snd (check t key r)) !! k = rl_buckets r !! k).
Proof.
  intros Hc Hr Hn Ho. split_and!; [by apply allowed_fresh| |].
  - unfold check. by rewrite Hn.
  - intros k Hk. unfold check. rewrite Hn. cbn. by rewrite lookup_insert_ne.
Qed.

(** *** The level of a bucket

    What a key may still spend at a time; a key without a bucket has a full one. *)
Definition level (key : string) (t : Z) (r : RateLimiter) : Q :=
  match rl_buckets r !! key with
  | None => rl_capacity r
  | Some b => qmin (rl_capacity r) (b_tokens b + seconds (t - b_last b) * rl_refill r)
  end.

Definition limiter_ok (t : Z) (r : RateLimiter) : Prop :=
  rl_capacity r = capacity /\ rl_refill r = refill /\
  forall key b, rl_buckets r !! key = Some b -> (0 <= b_tokens b)%Q /\ b_last b <= t.

Lemma qmin_add a b d : (0 <= d)%Q -> (qmin a (b + d) <= qmin a b + d)%Q.
Proof.
  intros Hd. pose proof (qmin_l a (b + d)). pose proof (qmin_r a (b + d)).
  unfold qmin at 2. destruct (Qle_bool a b); lra.
Qed.

Lemma refilled_nonneg n : 0 <= n -> (0 <= seconds n * refill)%Q.
Proof. intros Hn. apply Qmult_le_0_compat; [by apply seconds_nonneg|done]. Qed.

Lemma limiter_ok_later t u r : t <= u -> limiter_ok t r -> limiter_ok u r.
Proof. intros Htu (H1 & H2 & H3). split_and!; [done..|]. intros key b Hb. destruct (H3 key b Hb). split; [done|lia]. Qed.

Lemma level_bounds key t r : limiter_ok t r -> (0 <= level key t r <= capacity)%Q.
Proof.
  intros (Hc & Hr & Hb). unfold level. destruct (rl_buckets r !! key) as [b|] eqn:Eb; [|rewrite Hc; lra].
  destruct (Hb key b Eb) as [H0 Hl]. rewrite Hc, Hr. split; [|apply qmin_l].
  pose proof (refilled_nonneg (t - b_last b) ltac:(lia)). unfold qmin. case_match; lra.
Qed.

(** Time fills a bucket no faster than the refill rate. *)
Lemma level_later key t u r : t <= u -> limiter_ok t r -> (level key u r <= level key t r + refill * seconds (u - t))%Q.
Proof.
  intros Htu (Hc & Hr & _). pose proof (refilled_nonneg (u - t) ltac:(lia)) as Hd.
  pose proof (Qmult_comm (seconds (u - t)) refill) as Hcomm. unfold level. destruct (rl_buckets r !! key) as [b|]; [|lra].
  rewrite Hr. pose proof (seconds_diff u t (b_last b)) as Hs.
  assert (b_tokens b + seconds (u - b_last b) * refill ==
          (b_tokens b + seconds (t - b_last b) * refill) + seconds (u - t) * refill)%Q as Heq by (rewrite <- Hs; ring).
  pose proof (qmin_add (rl_capacity r) (b_tokens b + seconds (t - b_last b) * refill) _ Hd) as Hq.
  assert (forall a x y, x == y -> qmin a x <= qmin a y)%Q as Hext.
  { intros a x y Hxy. pose proof (qmin_l a x). pose proof (qmin_r a x). unfold qmin at 2. case_match; lra. }
  pose proof (Hext (rl_capacity r) _ _ Heq). lra.
Qed.

(** A check spends a token of its key when it passes, and leaves the other keys alone. *)
Lemma check_level now key r :
  limiter_ok now r ->
  let '(ok, r') := check now key r in
  limiter_ok now r' /\ (inject_Z (if ok then 1 else 0) + level key now r' <= level key now r)%Q /\
  (forall k, k <> key -> level k now r' = level k now r).
Proof.
  intros Hok. pose proof (level_bounds key now r Hok) as Hb. destruct Hok as (Hc & Hr & Hbs).
  assert (forall tokens, (0 <= tokens)%Q ->
    let r' := with_buckets (<[key := {| b_tokens := tokens; b_last := now |}]> (rl_buckets r)) r in
    limiter_ok now r' /\ (level key now r' <= tokens)%Q /\ forall k, k <> key -> level k now r' = level k now r) as Hset.
  { intros tokens H0. cbv zeta. split_and!.
    - split_and!; [done..|]. intros k b. cbn [rl_buckets with_buckets]. rewrite lookup_insert. case_decide; [|apply Hbs].
      intros [= <-]. cbn. split; [done|lia].
    - unfold level. cbn [rl_buckets with_buckets rl_capacity rl_refill]. rewrite lookup_insert_eq. cbn [b_tokens b_last].
      rewrite Z.sub_diag. eapply Qle_trans; [apply qmin_r|]. assert (seconds 0 == 0)%Q as -> by reflexivity. lra.
    - intros k Hk. unfold level. cbn [rl_buckets with_buckets rl_capacity rl_refill]. by rewrite lookup_insert_ne. }
  destruct (rl_buckets r !! key) as [b|] eqn:Eb.
  - set (q := qmin (rl_capacity r) (b_tokens b + seconds (now - b_last b) * rl_refill r)).
    assert (level key now r = q) as El by (unfold level; by rewrite Eb).
    assert (check now key r = if Qle_bool 1 q
      then (true, with_buckets (<[key := {| b_tokens := q - 1; b_last := now |}]> (rl_buckets r)) r)
      else (false, with_buckets (<[key := {| b_tokens := q; b_last := now |}]> (rl_buckets r)) r)) as ->
      by (unfold check; by rewrite Eb).
    rewrite El in *. clearbody q. destruct (Qle_bool 1 q) eqn:E.
    + apply Qle_bool_iff in E. destruct (Hset (q - 1)%Q ltac:(lra)) as (H1 & H2 & H3).
      split_and!; [done|change (inject_Z 1) with 1%Q; lra|done].
    + destruct (Hset q (proj1 Hb)) as (H1 & H2 & H3). split_and!; [done|change (inject_Z 0) with 0%Q; lra|done].
  - assert (level key now r = rl_capacity r) as El by (unfold level; by rewrite Eb).
    assert (check now key r = (true, with_buckets (<[key := {| b_tokens := rl_capacity r - 1; b_last := now |}]> (rl_buckets r)) r)) as ->
      by (unfold check; by rewrite Eb).
    rewrite El, Hc in *. destruct (Hset (capacity - 1)%Q ltac:(lra)) as (H1 & H2 & H3).
    split_and!; [done|change (inject_Z 1) with 1%Q; lra|done].
Qed.

Lemma reset_level now key r :
  limiter_ok now r ->
  limiter_ok now (reset key r) /\ level key now (reset key r) = capacity /\
  forall k, k <> key -> level k now (reset key r) = level k now r.
Proof.
  intros (Hc & Hr & Hb). unfold reset, level. cbn [rl_buckets with_buckets rl_capacity rl_refill]. split_and!.
  - split_and!; [done..|]. intros k b. cbn [rl_buckets with_buckets]. rewrite lookup_delete. case_decide; [done|apply Hb].
  - by rewrite lookup_delete_eq.
  - intros k Hk. by rewrite lookup_delete_ne.
Qed.
End limiter.

(** The advertised delay can be too short: [int] truncates it, so a caller that
    comes back exactly then is refused again. *)
Definition run_checks (key : string) (ts : list Z) (r : RateLimiter) : RateLimiter :=
  foldl (fun r t => snd (check t key r)) r ts.

(** The advertised Retry-After can be too short: a caller that returns exactly then
    is refused again. *)
Theorem retry_after_too_early :
  let r := run_checks "10.0.0.7" [0; 0; 0; 0; 0; msec 500] login_limiter in
  retry_after_s "10.0.0.7" r = 179 /\
  fst (check (msec 500 + sec (retry_after_s "10.0.0.7" r)) "10.0.0.7" r) = false.
Proof. by vm_compute. Qed.
