(* ===== verification/Slack.v ===== *)
(** * Slack notifications (services/slack.py, and the forwarders of main.py and services/ats.py)

    The notifier's filters and dedupe window, its bounded queue, the worker with
    its retries (taking a message and the result of its send are two steps, other
    operations may come between them) and the message layout.  Sending a message is a parameter: one of
    the results [_send] returns. *)

From S2P Require Import Prelude PyNum Events.

Local Open Scope Z_scope.
Local Open Scope gw_scope.

(** ** Constants *)

Definition MAX_QUEUE : nat := 200.
Definition MAX_ATTEMPTS : Z := 4.
Definition BACKOFF_S : list Z := [sec 1; sec 4; sec 16].
Definition MAX_AGE_S : Z := sec 300.
Definition DEDUPE_WINDOW_S : Z := sec 60.

(** ** Data *)

Record SlackConfig : Type := {
  sl_enabled : bool;
  sl_bot_token : string;
  sl_channel : string;
  sl_site_label : string;
  sl_alert_on_alarm : bool;
  sl_alert_on_warning : bool;
  sl_alert_on_alarm_cleared : bool;
  sl_alert_on_state_change : bool;
  sl_alert_on_command : bool;
  sl_alert_on_comms_lost : bool;
  sl_alert_on_load_source_change : bool
}.

(** Block Kit blocks of a message. *)
Inductive block : Type :=
| BSection (text : string)
| BFields (texts : list string)
| BContext (text : string).

Record PendingMessage : Type := {
  pm_blocks : list block;
  pm_fallback : string;
  pm_attempt : Z;
  pm_enqueued_at : Z
}.

Record SlackNotifier : Type := {
  sn_cfg : SlackConfig;
  sn_site_name : string;
  sn_queue : list PendingMessage;
  sn_retries : list (Z * PendingMessage);     (* timers of [_requeue_after]: due time, message *)
  sn_sending : option PendingMessage;         (* the message whose send [_worker] awaits *)
  sn_running : bool;
  sn_recent_sends : gmap (string * string) Z
}.

Definition SlackNotifier_init (cfg : SlackConfig) (site : string) : SlackNotifier :=
  {| sn_cfg := cfg; sn_site_name := site; sn_queue := []; sn_retries := []; sn_sending := None; sn_running := false;
     sn_recent_sends := ∅ |}.

Definition sn_with (q : list PendingMessage) (r : list (Z * PendingMessage))
    (sends : gmap (string * string) Z) (n : SlackNotifier) : SlackNotifier :=
  {| sn_cfg := sn_cfg n; sn_site_name := sn_site_name n; sn_queue := q; sn_retries := r;
     sn_sending := sn_sending n; sn_running := sn_running n; sn_recent_sends := sends |}.

Definition update_config (cfg : SlackConfig) (n : SlackNotifier) : SlackNotifier :=
  {| sn_cfg := cfg; sn_site_name := sn_site_name n; sn_queue := sn_queue n; sn_retries := sn_retries n;
     sn_sending := sn_sending n; sn_running := sn_running n; sn_recent_sends := sn_recent_sends n |}.

(** [start] and [stop]: stopping cancels the worker, with the message it is sending, and
    every retry timer. *)
Definition slack_start (n : SlackNotifier) : SlackNotifier :=
  {| sn_cfg := sn_cfg n; sn_site_name := sn_site_name n; sn_queue := sn_queue n;
     sn_retries := sn_retries n; sn_sending := sn_sending n; sn_running := true; sn_recent_sends := sn_recent_sends n |}.
Definition slack_stop (n : SlackNotifier) : SlackNotifier :=
  {| sn_cfg := sn_cfg n; sn_site_name := sn_site_name n; sn_queue := sn_queue n;
     sn_retries := []; sn_sending := None; sn_running := false; sn_recent_sends := sn_recent_sends n |}.

Definition is_enabled (cfg : SlackConfig) : bool :=
  sl_enabled cfg && negb (sl_bot_token cfg =? "")%string && negb (sl_channel cfg =? "")%string.

Definition str_or (a b : string) : string := if (a =? "")%string then b else a.
Definition site (n : SlackNotifier) : string :=
  str_or (sl_site_label (sn_cfg n)) (str_or (sn_site_name n) "Castle Generator Monitor").

(** ** Message layout *)

Definition newline : string := String (Ascii.ascii_of_nat 10) EmptyString.

(** [range(0, len, 10)] slices. *)
Fixpoint chunk_fuel {A} (fuel : nat) (l : list A) : list (list A) :=
  match fuel, l with
  | O, _ | _, [] => []
  | S f, _ => take 10 l :: chunk_fuel f (drop 10 l)
  end.
Definition chunks_of_10 {A} (l : list A) : list (list A) := chunk_fuel (length l) l.

Definition build_blocks (severity title : string) (fields : list (string * string)) : list block :=
  [BSection ("*" +:+ title +:+ "*")] ++
  map BFields (chunks_of_10 (map (fun '(label, val) => "*" +:+ label +:+ "*" +:+ newline +:+ val) fields)) ++
  [BContext ("_severity:_ `" +:+ severity +:+ "` · _via Castle Generator Monitor_")].

(** ** Queueing *)

(** [_dedupe_skip]: the dict is swept when it holds more than 256 keys. *)
Definition dedupe_skip (now : Z) (code kind : string) (n : SlackNotifier) : bool * SlackNotifier :=
  let sends := if (256 <? size (sn_recent_sends n))%nat
               then filter (fun kv => now - DEDUPE_WINDOW_S * 10 < snd kv) (sn_recent_sends n)
               else sn_recent_sends n in
  let n1 := sn_with (sn_queue n) (sn_retries n) sends n in
  match sends !! (code, kind) with
  | Some last => if now - last <? DEDUPE_WINDOW_S then (true, n1)
                 else (false, sn_with (sn_queue n) (sn_retries n) (<[(code, kind) := now]> sends) n)
  | None => (false, sn_with (sn_queue n) (sn_retries n) (<[(code, kind) := now]> sends) n)
  end.

Definition queue_put (msg : PendingMessage) (q : list PendingMessage) : option (list PendingMessage) :=
  if (length q <? MAX_QUEUE)%nat then Some (q ++ [msg]) else None.

(** [_enqueue]: a full queue drops its oldest message for the new one. *)
Definition enqueue (now : Z) (severity title : string) (fields : list (string * string))
    (fallback : string) (n : SlackNotifier) : SlackNotifier :=
  if negb (is_enabled (sn_cfg n)) then n
  else
    let msg := {| pm_blocks := build_blocks severity title fields; pm_fallback := fallback;
                  pm_attempt := 0; pm_enqueued_at := now |} in
    let q := match queue_put msg (sn_queue n) with
             | Some q => q
             | None => match queue_put msg (tail (sn_queue n)) with
                       | Some q => q
                       | None => tail (sn_queue n)
                       end
             end in
    sn_with q (sn_retries n) (sn_recent_sends n) n.

(** ** Alerts *)

Definition alert_alarm (now : Z) (code desc severity : string) (n : SlackNotifier) : SlackNotifier :=
  if (severity =? "alarm")%string && negb (sl_alert_on_alarm (sn_cfg n)) then n
  else if (severity =? "warn")%string && negb (sl_alert_on_warning (sn_cfg n)) then n
  else
    let '(skip, n1) := dedupe_skip now code "raised" n in
    if skip then n1
    else
      let title := if (severity =? "alarm")%string then ":rotating_light: Alarm raised — " +:+ desc
                   else ":warning: Warning — " +:+ desc in
      enqueue now severity title [("Code", code); ("Site", site n1)]%string
        (str_upper severity +:+ ": " +:+ desc +:+ " (" +:+ code +:+ ") @ " +:+ site n1) n1.

Definition alert_alarm_cleared (now : Z) (code desc : string) (n : SlackNotifier) : SlackNotifier :=
  if negb (sl_alert_on_alarm_cleared (sn_cfg n)) then n
  else
    let '(skip, n1) := dedupe_skip now code "cleared" n in
    if skip then n1
    else
      enqueue now "ok" (":white_check_mark: Alarm cleared — " +:+ str_or desc code)
        [("Code", code); ("Site", site n1)]%string
        ("Alarm cleared: " +:+ str_or desc code +:+ " (" +:+ code +:+ ") @ " +:+ site n1) n1.

Definition alert_state_change (now : Z) (old new : string) (n : SlackNotifier) : SlackNotifier :=
  if negb (sl_alert_on_state_change (sn_cfg n)) then n
  else enqueue now "info" (":arrows_counterclockwise: Engine state — " +:+ old +:+ " → " +:+ new)
         [("Site", site n)]%string ("Engine state " +:+ old +:+ " → " +:+ new +:+ " @ " +:+ site n) n.

Definition alert_load_source_change (now : Z) (old new : string) (n : SlackNotifier) : SlackNotifier :=
  if negb (sl_alert_on_load_source_change (sn_cfg n)) then n
  else if (old =? "unknown")%string && (new =? "utility")%string then n
  else
    let '(sev, title) :=
      if (new =? "generator")%string then ("warn"%string, ":zap: Load on GENERATOR (was " +:+ old +:+ ")")
      else if (new =? "utility")%string
      then ("ok"%string, ":electric_plug: Load on UTILITY (was " +:+ old +:+ ")")
      else ("warn"%string, ":grey_question: Load source UNKNOWN (was " +:+ old +:+ ")") in
    enqueue now sev title [("Site", site n)]%string
      ("Load source " +:+ old +:+ " → " +:+ new +:+ " @ " +:+ site n) n.

Definition alert_command_sent (now : Z) (verb operator result : string) (n : SlackNotifier)
    : SlackNotifier :=
  if negb (sl_alert_on_command (sn_cfg n)) then n
  else
    let ok := (result =? "ok")%string in
    enqueue now (if ok then "info" else "warn")
      ((if ok then ":joystick:" else ":x:") +:+ " Control command — `" +:+ verb +:+ "` (" +:+ result +:+ ")")
      [("Operator", operator); ("Site", site n)]%string
      ("Command " +:+ verb +:+ " by " +:+ operator +:+ ": " +:+ result +:+ " @ " +:+ site n) n.

(** [success_pct] in tenths of a percent. *)
Definition alert_comms_change (now : Z) (old new : string) (success_pct : Z) (n : SlackNotifier)
    : SlackNotifier :=
  if negb (sl_alert_on_comms_lost (sn_cfg n)) then n
  else if (old =? new)%string then n
  else if (old =? "healthy")%string && (new =? "degraded")%string then n
  else
    let recovered := (new =? "healthy")%string in
    enqueue now (if recovered then "ok" else "warn")
      ((if recovered then ":white_check_mark:" else ":satellite_antenna:") +:+
       " Modbus comms — " +:+ old +:+ " → " +:+ new)
      [("Success rate"%string, fmt_tenths success_pct +:+ "%"); ("Site"%string, site n)]
      ("Modbus comms " +:+ old +:+ " → " +:+ new +:+ " (" +:+
       decimals 0 (round_half_even success_pct 10) +:+ "%) @ " +:+ site n) n.

(** [_forward_to_slack] of main.py. *)
Definition forward_to_slack (now : Z) (e : BusEvent) (n : SlackNotifier) : SlackNotifier :=
  if negb (is_enabled (sn_cfg n)) then n
  else match e with
       | EvAlarm code desc severity _ => alert_alarm now code desc severity n
       | EvAlarmCleared code desc _ => alert_alarm_cleared now code desc n
       | EvTransition old new _ => alert_state_change now old new n
       | EvComms old new pct _ => alert_comms_change now old new pct n
       | EvLoadSource old new _ => alert_load_source_change now old new n
       | _ => n
       end.

(** [AtsService._forward_to_slack]. *)
Definition ats_forward_to_slack (now : Z) (e : BusEvent) (n : SlackNotifier) : SlackNotifier :=
  if negb (is_enabled (sn_cfg n)) then n
  else match e with
       | EvAtsPosition old new _ =>
           if (new =? "utility")%string || (new =? "generator")%string
           then alert_load_source_change now old new n else n
       | EvAtsComms old new pct _ => alert_comms_change now old new pct n
       | EvAlarm code desc severity _ => alert_alarm now code desc severity n
       | EvAlarmCleared code desc _ => alert_alarm_cleared now code desc n
       | _ => n
       end.

(** ** The worker *)

(** What [_send] returns: posted, refused by Slack, or a transport error. *)
Inductive send_result : Type := SendOk | SendRefused (err : string) | SendFailed (err : string).

Definition backoff_for (attempt : Z) : Z :=
  nth (Z.to_nat (Z.min (attempt - 1) (Z.of_nat (length BACKOFF_S) - 1))) BACKOFF_S (sec 1).

Definition sn_busy (m : option PendingMessage) (q : list PendingMessage) (n : SlackNotifier) : SlackNotifier :=
  {| sn_cfg := sn_cfg n; sn_site_name := sn_site_name n; sn_queue := q; sn_retries := sn_retries n;
     sn_sending := m; sn_running := sn_running n; sn_recent_sends := sn_recent_sends n |}.

(** One turn of [_worker], in two steps: it takes the message at the head of the queue
    and starts the send ... *)
Definition worker_take (n : SlackNotifier) : SlackNotifier :=
  if negb (sn_running n) then n
  else match sn_sending n, sn_queue n with
  | None, msg :: rest => sn_busy (Some msg) rest n
  | _, _ => n
  end.

(** ... and, when the send has its result, drops the message or, on a transport error,
    may set it to retry later. *)
Definition worker_sent (now : Z) (res : send_result) (n : SlackNotifier) : SlackNotifier :=
  match sn_sending n with
  | None => n
  | Some msg =>
      let n1 := sn_busy None (sn_queue n) n in
      match res with
      | SendOk | SendRefused _ => n1
      | SendFailed _ =>
          let attempt := pm_attempt msg + 1 in
          let msg' := {| pm_blocks := pm_blocks msg; pm_fallback := pm_fallback msg;
                         pm_attempt := attempt; pm_enqueued_at := pm_enqueued_at msg |} in
          if MAX_ATTEMPTS <=? attempt then n1
          else if negb (pm_enqueued_at msg =? 0) && (MAX_AGE_S <? now - pm_enqueued_at msg) then n1
          else sn_with (sn_queue n1) (sn_retries n1 ++ [(now + backoff_for attempt, msg')]) (sn_recent_sends n1) n1
      end
  end.

(** [_requeue_after] of timer [i], when it fires: a full queue drops the retry. *)
Definition requeue (i : nat) (n : SlackNotifier) : SlackNotifier :=
  match sn_retries n !! i with
  | None => n
  | Some (_, msg) =>
      let retries := take i (sn_retries n) ++ drop (S i) (sn_retries n) in
      let q := if sn_running n then match queue_put msg (sn_queue n) with Some q => q | None => sn_queue n end
               else sn_queue n in
      sn_with q retries (sn_recent_sends n) n
  end.

(** ** Theorems *)

Lemma chunk_fuel_spec {A} fuel (l : list A) :
  (length l <= fuel)%nat -> concat (chunk_fuel fuel l) = l /\
  Forall (fun c => (0 < length c <= 10)%nat) (chunk_fuel fuel l).
Proof.
  revert l. induction fuel as [|f IH]; intros l Hf.
  { destruct l; [split; constructor|simpl in Hf; lia]. }
  destruct l as [|x l]; [split; constructor|]. cbn [chunk_fuel concat].
  destruct (IH (drop 10 (x :: l))) as [Hc Hl]; [rewrite length_drop; cbn in Hf |- *; lia|].
  split; [by rewrite Hc, take_drop|]. constructor; [|done]. rewrite length_take. cbn [length]. lia.
Qed.

(** The Slack layout keeps every field in order and puts at most ten into a block.
    *)
Theorem build_blocks_fields severity title fields :
  let texts := map (fun '(label, val) => ("*" +:+ label +:+ "*" +:+ newline +:+ val)) fields in
  concat (map (fun b => match b with BFields l => l | _ => [] end) (build_blocks severity title fields)) = texts /\
  Forall (fun b => match b with BFields l => (0 < length l <= 10)%nat | _ => True end)
    (build_blocks severity title fields).
Proof.
  cbv zeta. unfold build_blocks, chunks_of_10. set (texts := map _ fields).
  destruct (chunk_fuel_spec (length texts) texts (le_n _)) as [Hc Hf]. split.
  - cbn. rewrite map_app, concat_app, map_map. cbn. rewrite !app_nil_r. by rewrite map_id.
  - constructor; [done|]. apply Forall_app. split; [|by constructor].
    clear Hc. induction Hf; cbn; by constructor.
Qed.

(** *** Queue bound and number of sends *)

Inductive slack_op : Type :=
| OpForward (now : Z) (e : BusEvent)
| OpAtsForward (now : Z) (e : BusEvent)
| OpCommand (now : Z) (verb operator result : string)
| OpTake
| OpSent (now : Z) (res : send_result)
| OpTimer (i : nat)
| OpConfig (cfg : SlackConfig)
| OpStart
| OpStop.

Definition slack_step (op : slack_op) (n : SlackNotifier) : SlackNotifier :=
  match op with
  | OpForward now e => forward_to_slack now e n
  | OpAtsForward now e => ats_forward_to_slack now e n
  | OpCommand now v o r => alert_command_sent now v o r n
  | OpTake => worker_take n
  | OpSent now res => worker_sent now res n
  | OpTimer i => requeue i n
  | OpConfig cfg => update_config cfg n
  | OpStart => slack_start n
  | OpStop => slack_stop n
  end.

(** The alerts of a run, and its sends. *)
Definition is_alert (op : slack_op) : bool :=
  match op with OpForward _ _ | OpAtsForward _ _ | OpCommand _ _ _ _ => true | _ => false end.
Definition sends_of (op : slack_op) (n : SlackNotifier) : Z :=
  match op with
  | OpTake => match sn_running n, sn_sending n, sn_queue n with true, None, _ :: _ => 1 | _, _, _ => 0 end
  | _ => 0
  end.

(** Sends that are still possible: what each message may yet be tried. *)
Definition budget (msg : PendingMessage) : Z := MAX_ATTEMPTS - pm_attempt msg.
Fixpoint z_sum (l : list Z) : Z := match l with [] => 0 | x :: l' => x + z_sum l' end.
Definition sends_left (n : SlackNotifier) : Z :=
  z_sum (map budget (sn_queue n)) + z_sum (map (fun r => budget (snd r)) (sn_retries n)) +
  match sn_sending n with Some msg => budget msg - 1 | None => 0 end.

Definition msg_ok (msg : PendingMessage) : Prop := 0 <= pm_attempt msg < MAX_ATTEMPTS.
Record slack_ok (n : SlackNotifier) : Prop := {
  ok_queue : (length (sn_queue n) <= MAX_QUEUE)%nat;
  ok_msgs : Forall msg_ok (sn_queue n);
  ok_retries : Forall (fun r => msg_ok (snd r)) (sn_retries n);
  ok_sending : forall msg, sn_sending n = Some msg -> msg_ok msg
}.

Lemma z_sum_app a b : z_sum (a ++ b) = z_sum a + z_sum b.
Proof. induction a; cbn; lia. Qed.

Lemma z_sum_nonneg l : Forall (fun x => 0 <= x) l -> 0 <= z_sum l.
Proof. induction 1; cbn; lia. Qed.

Lemma budget_pos msg : msg_ok msg -> 1 <= budget msg <= 4.
Proof. unfold msg_ok, budget, MAX_ATTEMPTS. lia. Qed.

Lemma queue_put_some msg q q' : queue_put msg q = Some q' -> q' = q ++ [msg] /\ (length q < MAX_QUEUE)%nat.
Proof. unfold queue_put. destruct (Nat.ltb_spec (length q) MAX_QUEUE); [|done]. by intros [= <-]. Qed.

(** What any alert does to the queue: nothing, or one fresh message at its end. *)
Definition alert_effect (n n' : SlackNotifier) : Prop :=
  sn_cfg n' = sn_cfg n /\ sn_running n' = sn_running n /\ sn_retries n' = sn_retries n /\ sn_sending n' = sn_sending n /\
  (sn_queue n' = sn_queue n \/
   exists msg old, sn_queue n' = old ++ [msg] /\ pm_attempt msg = 0 /\
     (old = sn_queue n \/ (MAX_QUEUE <= length (sn_queue n))%nat /\ old = tail (sn_queue n)) /\
     (length old < MAX_QUEUE)%nat).

Lemma enqueue_effect now sev title fields fb n :
  (length (sn_queue n) <= MAX_QUEUE)%nat -> alert_effect n (enqueue now sev title fields fb n).
Proof.
  intros Hlen. unfold enqueue. destruct (negb _); [split_and!; try done; by left|].
  set (msg := Build_PendingMessage _ _ _ _).
  split_and!; try done. right. cbn. destruct (queue_put msg (sn_queue n)) as [q|] eqn:E.
  - apply queue_put_some in E as [-> Hl]. exists msg, (sn_queue n). split_and!; [done|done|by left|done].
  - unfold queue_put in E. destruct (Nat.ltb_spec (length (sn_queue n)) MAX_QUEUE); [done|].
    assert (length (tail (sn_queue n)) < MAX_QUEUE)%nat as Ht.
    { destruct (sn_queue n); cbn in *; unfold MAX_QUEUE in *; lia. }
    unfold queue_put. rewrite (proj2 (Nat.ltb_lt _ _)) by done.
    exists msg, (tail (sn_queue n)). split_and!; [done|done|by right|done].
Qed.

Lemma dedupe_effect now code kind n :
  let n' := snd (dedupe_skip now code kind n) in
  sn_cfg n' = sn_cfg n /\ sn_running n' = sn_running n /\ sn_retries n' = sn_retries n /\
  sn_sending n' = sn_sending n /\ sn_queue n' = sn_queue n.
Proof. cbv zeta. unfold dedupe_skip. repeat case_match; done. Qed.

Lemma alert_effect_none n : alert_effect n n.
Proof. split_and!; try done. by left. Qed.

Ltac alert_tac :=
  repeat match goal with
  | |- alert_effect ?n ?n => apply alert_effect_none
  | |- alert_effect _ (if ?b then _ else _) => destruct b
  | |- alert_effect _ (let '(_, _) := ?p in _) => destruct p as [? ?]
  | |- alert_effect _ (enqueue _ _ _ _ _ _) => by apply enqueue_effect
  end.

Lemma dedupe_then now code kind n sev (title : SlackNotifier -> string) fields fb :
  (length (sn_queue n) <= MAX_QUEUE)%nat ->
  alert_effect n (let '(skip, n1) := dedupe_skip now code kind n in
                  if skip : bool then n1 else enqueue now sev (title n1) (fields n1) (fb n1) n1).
Proof.
  intros Hl. pose proof (dedupe_effect now code kind n) as (Hc & Hr & Hre & Hse & Hq).
  destruct (dedupe_skip now code kind n) as [skip n1]. cbn [snd] in *. destruct skip.
  - split_and!; try done. by left.
  - assert (length (sn_queue n1) <= MAX_QUEUE)%nat as Hl1 by by rewrite Hq.
    pose proof (enqueue_effect now sev (title n1) (fields n1) (fb n1) n1 Hl1) as (E1 & E2 & E3 & E5 & E4).
    rewrite Hq in E4. unfold alert_effect. rewrite E1, E2, E3, E5. by split_and!.
Qed.

Lemma alerts_effect op n :
  (length (sn_queue n) <= MAX_QUEUE)%nat ->
  match op with OpForward _ _ | OpAtsForward _ _ | OpCommand _ _ _ _ => True | _ => False end ->
  alert_effect n (slack_step op n).
Proof.
  intros Hl Hop.
  assert (forall now code desc severity, alert_effect n (alert_alarm now code desc severity n)) as Ha.
  { intros. unfold alert_alarm. destruct (_ && _); [apply alert_effect_none|].
    destruct (_ && _); [apply alert_effect_none|].
    by apply (dedupe_then now code "raised" n severity (fun _ => _) (fun n1 => _) (fun n1 => _)). }
  assert (forall now code desc, alert_effect n (alert_alarm_cleared now code desc n)) as Hc.
  { intros. unfold alert_alarm_cleared. destruct (negb _); [apply alert_effect_none|].
    by apply (dedupe_then now code "cleared" n "ok" (fun _ => _) (fun n1 => _) (fun n1 => _)). }
  assert (forall now old new, alert_effect n (alert_state_change now old new n)) as Hs
    by (intros; unfold alert_state_change; alert_tac).
  assert (forall now old new, alert_effect n (alert_load_source_change now old new n)) as Hls.
  { intros. unfold alert_load_source_change. alert_tac. }
  assert (forall now old new pct, alert_effect n (alert_comms_change now old new pct n)) as Hcc
    by (intros; unfold alert_comms_change; alert_tac).
  destruct op as [now e|now e|now v o r| | | | | |]; try done; cbn [slack_step].
  - unfold forward_to_slack. destruct (negb _); [apply alert_effect_none|].
    destruct e; try apply alert_effect_none; auto.
  - unfold ats_forward_to_slack. destruct (negb _); [apply alert_effect_none|].
    destruct e; try apply alert_effect_none; auto. destruct (_ || _); [auto|apply alert_effect_none].
  - unfold alert_command_sent. alert_tac.
Qed.

Lemma sends_left_snoc n old msg :
  sn_queue n = old ++ [msg] -> pm_attempt msg = 0 ->
  sends_left n = z_sum (map budget old) + MAX_ATTEMPTS +
                 z_sum (map (fun r => budget (snd r)) (sn_retries n)) +
                 match sn_sending n with Some m => budget m - 1 | None => 0 end.
Proof.
  intros Eq Ha. unfold sends_left. rewrite Eq, map_app, z_sum_app. cbn. unfold budget at 2. rewrite Ha. lia.
Qed.

Lemma tail_budget q : Forall msg_ok q -> z_sum (map budget (tail q)) <= z_sum (map budget q).
Proof. destruct 1 as [|m q Hm _]; cbn; [lia|]. pose proof (budget_pos m Hm). lia. Qed.

(** An alert keeps the invariant and allows at most four more sends. *)
Lemma alert_effect_ok n n' :
  slack_ok n -> alert_effect n n' -> slack_ok n' /\ sends_left n' <= sends_left n + MAX_ATTEMPTS.
Proof.
  intros [Hq Hm Hr Hsm] (_ & _ & Hre & Hse & He). destruct He as [He|(msg & old & He & Ha & Hold & Hlen)].
  - split; [split; rewrite ?He, ?Hre, ?Hse; done|]. unfold sends_left. rewrite He, Hre, Hse. unfold MAX_ATTEMPTS. lia.
  - assert (Forall msg_ok old /\ z_sum (map budget old) <= z_sum (map budget (sn_queue n))) as [Hmo Hb].
    { destruct Hold as [->|[_ ->]]; [split; [done|lia]|].
      split; [by destruct Hm|by apply tail_budget]. }
    split.
    + split; [rewrite He, length_app; cbn; lia| |by rewrite Hre|by rewrite Hse].
      rewrite He. apply Forall_app. split; [done|]. constructor; [|done]. unfold msg_ok, MAX_ATTEMPTS. lia.
    + rewrite (sends_left_snoc n' old msg He Ha), Hre, Hse. unfold sends_left. lia.
Qed.

Lemma nth_take_drop {A} (l : list A) i x : l !! i = Some x -> l = take i l ++ x :: drop (S i) l.
Proof. intros H. symmetry. by apply take_drop_middle. Qed.

(** Taking a message spends one send; its result spends none. *)
Lemma worker_take_ok n :
  slack_ok n -> slack_ok (worker_take n) /\
  sends_left (worker_take n) + sends_of OpTake n <= sends_left n.
Proof.
  intros Hok. unfold sends_of, worker_take. destruct (sn_running n); cbn [negb andb]; [|split; [done|lia]].
  destruct (sn_sending n) as [m|] eqn:Es; [split; [done|lia]|].
  destruct Hok as [Hq Hm Hr Hs]. destruct (sn_queue n) as [|msg rest] eqn:Eq; [split; [by split; rewrite ?Eq|cbn; lia]|].
  apply Forall_cons_1 in Hm as [Hmsg Hm]. cbn [length] in Hq. split.
  - split; cbn; [lia|done|done|]. by intros ? [= <-].
  - unfold sends_left. cbn. rewrite Eq, Es. cbn. lia.
Qed.

Lemma worker_sent_ok now res n :
  slack_ok n -> slack_ok (worker_sent now res n) /\ sends_left (worker_sent now res n) <= sends_left n.
Proof.
  intros Hok. unfold worker_sent. destruct (sn_sending n) as [msg|] eqn:Es; [|split; [done|lia]].
  destruct Hok as [Hq Hm Hr Hs]. pose proof (Hs msg Es) as Hmsg. pose proof (budget_pos msg Hmsg) as Hb.
  assert (slack_ok (sn_busy None (sn_queue n) n) /\ sends_left (sn_busy None (sn_queue n) n) <= sends_left n) as Hdrop.
  { split; [by split|]. unfold sends_left. cbn. rewrite Es. lia. }
  cbv zeta. destruct res; try by apply Hdrop. cbn [pm_attempt pm_enqueued_at].
  destruct (Z.leb_spec MAX_ATTEMPTS (pm_attempt msg + 1)); [by apply Hdrop|].
  destruct (negb _ && _); [by apply Hdrop|].
  unfold msg_ok, budget, MAX_ATTEMPTS in *. split.
  - split; cbn; [lia|done| |done]. apply Forall_app. split; [done|]. constructor; [|done].
    unfold msg_ok, MAX_ATTEMPTS. cbn [snd pm_attempt]. lia.
  - unfold sends_left. cbn [sn_with sn_busy sn_queue sn_retries sn_sending]. rewrite Es, map_app, z_sum_app.
    cbn [map z_sum snd]. unfold budget, MAX_ATTEMPTS. cbn [pm_attempt]. lia.
Qed.

Lemma requeue_ok i n : slack_ok n -> slack_ok (requeue i n) /\ sends_left (requeue i n) <= sends_left n.
Proof.
  intros [Hq Hm Hr Hsm]. unfold requeue. destruct (sn_retries n !! i) as [[due msg]|] eqn:E;
    [|split; [by split|lia]].
  apply nth_take_drop in E. rewrite E in Hr. apply Forall_app in Hr as [Hr1 Hr2].
  apply Forall_cons_1 in Hr2 as [Hmsg Hr2]. cbn [snd] in Hmsg. pose proof (budget_pos msg Hmsg) as Hb.
  assert (Forall (fun r => msg_ok (snd r)) (take i (sn_retries n) ++ drop (S i) (sn_retries n)))
    as Hrest by by apply Forall_app.
  assert (sends_left n = z_sum (map budget (sn_queue n)) + budget msg +
    z_sum (map (fun r => budget (snd r)) (take i (sn_retries n) ++ drop (S i) (sn_retries n))) +
    match sn_sending n with Some m => budget m - 1 | None => 0 end) as Hs.
  { unfold sends_left. rewrite E at 1. rewrite !map_app, !z_sum_app. cbn. lia. }
  rewrite Hs. destruct (sn_running n); [destruct (queue_put msg (sn_queue n)) eqn:Ep|].
  - apply queue_put_some in Ep as [-> Hl]. split.
    + split; cbn; [rewrite length_app; cbn; lia|apply Forall_app; split; [done|by constructor]|done|done].
    + unfold sends_left. cbn. rewrite map_app, z_sum_app. cbn. lia.
  - split; [by split|]. unfold sends_left. cbn. lia.
  - split; [by split|]. unfold sends_left. cbn. lia.
Qed.

Lemma slack_step_ok op n :
  slack_ok n -> slack_ok (slack_step op n) /\
  sends_left (slack_step op n) + sends_of op n <=
    sends_left n + (if is_alert op then MAX_ATTEMPTS else 0).
Proof.
  intros Hok. destruct op as [now e|now e|now v o r| |now res|i|cfg| |] eqn:Eop.
  1-3: assert (alert_effect n (slack_step op n)) as Ha by (subst; apply alerts_effect; [apply Hok|done]);
    rewrite Eop in Ha; apply (alert_effect_ok _ _ Hok) in Ha as [? ?]; cbn [is_alert sends_of]; split; [done|lia].
  - destruct (worker_take_ok n Hok). cbn [slack_step is_alert]. split; [done|lia].
  - destruct (worker_sent_ok now res n Hok). cbn [slack_step is_alert sends_of]. split; [done|lia].
  - destruct (requeue_ok i n Hok). cbn [slack_step is_alert sends_of]. split; [done|lia].
  - destruct Hok. cbn. split; [by split|]. unfold sends_left. cbn. lia.
  - destruct Hok. cbn. split; [by split|]. unfold sends_left. cbn. lia.
  - destruct Hok as [Hq Hm Hr Hsm]. cbn. split; [by split|]. unfold sends_left. cbn.
    assert (0 <= match sn_sending n with Some m => budget m - 1 | None => 0 end) as Hin.
    { destruct (sn_sending n) as [m|] eqn:Es; [|done]. pose proof (budget_pos _ (Hsm m eq_refl)). lia. }
    enough (0 <= z_sum (map (fun r => budget (snd r)) (sn_retries n))) by lia.
    apply z_sum_nonneg. clear -Hr. induction Hr as [|r rs Hr _ IH]; constructor; [|done].
    pose proof (budget_pos _ Hr). lia.
Qed.

(** A run of the notifier: the state after the operations, and the posts made. *)
Fixpoint slack_run (ops : list slack_op) (n : SlackNotifier) : SlackNotifier * Z :=
  match ops with
  | [] => (n, 0)
  | op :: ops' => let '(n', k) := slack_run ops' (slack_step op n) in (n', sends_of op n + k)
  end.

(** C40. Whatever the alerts, timers, configuration changes and transport errors, the
    Slack queue never holds more than 200 messages, no waiting message and none being sent
    has been tried four times, and a run posts at most four times per alert. *)
Theorem slack_bounded (cfg : SlackConfig) (name : string) (ops : list slack_op) :
  let '(n, posts) := slack_run ops (SlackNotifier_init cfg name) in
  (length (sn_queue n) <= MAX_QUEUE)%nat /\
  Forall msg_ok (sn_queue n) /\ Forall (fun r => msg_ok (snd r)) (sn_retries n) /\
  (forall msg, sn_sending n = Some msg -> msg_ok msg) /\
  posts <= MAX_ATTEMPTS * Z.of_nat (length (filter (fun op => is_alert op = true) ops)).
Proof.
  enough (forall n, slack_ok n -> let '(n', posts) := slack_run ops n in slack_ok n' /\
    sends_left n' + posts <= sends_left n + MAX_ATTEMPTS * Z.of_nat (length (filter (fun op => is_alert op = true) ops))) as H.
  { specialize (H (SlackNotifier_init cfg name)). destruct (slack_run ops _) as [n posts].
    destruct H as [[Hq Hm Hr Hsm] Hs]; [split; cbn; [lia|constructor|constructor|done]|].
    split_and!; [done|done|done|done|]. unfold sends_left in Hs at 2. cbn in Hs.
    enough (0 <= sends_left n) by lia. unfold sends_left.
    assert (forall l, Forall msg_ok l -> 0 <= z_sum (map budget l)) as Hp.
    { induction 1 as [|m l Hm' _ IH]; cbn; [lia|]. pose proof (budget_pos m Hm'). lia. }
    assert (0 <= match sn_sending n with Some m => budget m - 1 | None => 0 end) as Hin.
    { destruct (sn_sending n) as [m|]; [|done]. pose proof (budget_pos _ (Hsm m eq_refl)). lia. }
    pose proof (Hp _ Hm). rewrite <- (map_map snd budget).
    pose proof (Hp (map snd (sn_retries n)) (proj2 (Forall_map _ _ _) Hr)). lia. }
  induction ops as [|op ops IH]; intros n Hok; cbn [slack_run]; [split; [done|cbn; lia]|].
  destruct (slack_step_ok op n Hok) as [Hok' Hs]. specialize (IH _ Hok').
  destruct (slack_run ops _) as [n' k]. destruct IH as [? ?]. split; [done|].
  rewrite filter_cons. destruct (is_alert op) eqn:Ea; cbn [length decide]; case_decide; try done; cbn [length]; lia.
Qed.

Lemma enqueue_newest now sev title fields fb n :
  (length (sn_queue n) <= MAX_QUEUE)%nat -> is_enabled (sn_cfg n) = true ->
  exists msg, last (sn_queue (enqueue now sev title fields fb n)) = Some msg /\
    pm_blocks msg = build_blocks sev title fields /\ pm_enqueued_at msg = now /\ pm_attempt msg = 0.
Proof.
  intros Hl He. unfold enqueue. rewrite He. cbn [negb]. set (msg := Build_PendingMessage _ _ _ _).
  exists msg. split; [|done]. cbn [sn_with sn_queue]. unfold queue_put at 1.
  destruct (Nat.ltb_spec (length (sn_queue n)) MAX_QUEUE); [apply last_snoc|].
  unfold queue_put. rewrite (proj2 (Nat.ltb_lt _ _)); [apply last_snoc|].
  destruct (sn_queue n); cbn in *; unfold MAX_QUEUE in *; lia.
Qed.

(** An alarm alert of a code is queued exactly when the last one is at least 60 s
    old; it is then the newest message even if the queue was full, and opens a new window.
    *)
Theorem alarm_alert_dedupe now code desc severity n :
  (length (sn_queue n) <= MAX_QUEUE)%nat -> is_enabled (sn_cfg n) = true ->
  sl_alert_on_alarm (sn_cfg n) = true -> sl_alert_on_warning (sn_cfg n) = true ->
  let n' := alert_alarm now code desc severity n in
  match sn_recent_sends n !! (code, "raised"%string) with
  | Some last_sent =>
      (size (sn_recent_sends n) <= 256)%nat ->
      if now - last_sent <? DEDUPE_WINDOW_S
      then sn_queue n' = sn_queue n /\ sn_recent_sends n' = sn_recent_sends n
      else (exists msg, last (sn_queue n') = Some msg /\ pm_enqueued_at msg = now) /\
           sn_recent_sends n' = <[(code, "raised"%string) := now]> (sn_recent_sends n)
  | None => (exists msg, last (sn_queue n') = Some msg /\ pm_enqueued_at msg = now) /\
            sn_recent_sends n' !! (code, "raised"%string) = Some now
  end.
Proof.
  intros Hl He Ha Hw. cbv zeta. unfold alert_alarm. rewrite Ha, Hw. cbn [negb]. rewrite !andb_false_r.
  assert (forall now' sev title fields fb sends,
    exists msg, last (sn_queue (enqueue now' sev title fields fb (sn_with (sn_queue n) (sn_retries n) sends n))) = Some msg
      /\ pm_enqueued_at msg = now') as Hq.
  { intros. destruct (enqueue_newest now' sev title fields fb (sn_with (sn_queue n) (sn_retries n) sends n) Hl He)
      as (m & ? & _ & ? & _). by exists m. }
  assert (forall now' sev title fields fb sends,
    sn_recent_sends (enqueue now' sev title fields fb (sn_with (sn_queue n) (sn_retries n) sends n)) = sends) as Hs.
  { intros. unfold enqueue. by destruct (negb _). }
  unfold dedupe_skip. destruct (sn_recent_sends n !! (code, "raised"%string)) as [t|] eqn:Et.
  - intros Hsz. rewrite (proj2 (Nat.ltb_ge 256 _)) by lia. rewrite Et.
    destruct (now - t <? DEDUPE_WINDOW_S); [done|]. split; [apply Hq|apply Hs].
  - set (sends := if (_ <? _)%nat then _ else _).
    assert (sends !! (code, "raised"%string) = None) as ->.
    { subst sends. destruct (_ <? _)%nat; [|done]. apply map_lookup_filter_None. by left. }
    split; [apply Hq|]. rewrite Hs. apply lookup_insert_eq.
Qed.
