(* ===== verification/SlackPost.v ===== *)
(** * Posting to Slack (services/slack.py)

    [_post_slack], [_send] and what the worker makes of their result.  What [urlopen]
    does with a request and [json.loads] are parameters.

    Theorems: whatever the request comes to, the worker takes a message as posted or
    refused exactly when Slack said so and tries it again otherwise; in an outage a
    message is posted four times, 1, 4 and 16 seconds apart or later, and dropped. *)

From S2P Require Import Prelude PyNum PyVal Slack.

Local Open Scope Z_scope.
Local Open Scope gw_scope.

(** ** The request *)

Definition SLACK_API_POST_MESSAGE : string := "https://slack.com/api/chat.postMessage".

Definition mrkdwn (text : string) : pyval := PvDict [("type", PvStr "mrkdwn"); ("text", PvStr text)].
Definition block_json (b : block) : pyval :=
  match b with
  | BSection text => PvDict [("type", PvStr "section"); ("text", mrkdwn text)]
  | BFields texts => PvDict [("type", PvStr "section"); ("fields", PvList (map mrkdwn texts))]
  | BContext text => PvDict [("type", PvStr "context"); ("elements", PvList [mrkdwn text])]
  end.

Definition payload (channel fallback : string) (blocks : list block) : pyval :=
  PvDict [("channel", PvStr channel); ("text", PvStr fallback); ("blocks", PvList (map block_json blocks))].

(** The body is sent as the JSON text of [rq_json]. *)
Record SlackRequest : Type := { rq_url : string; rq_method : string; rq_json : pyval; rq_headers : list (string * string) }.

Definition slack_request (token : string) (body : pyval) : SlackRequest :=
  {| rq_url := SLACK_API_POST_MESSAGE; rq_method := "POST"; rq_json := body;
     rq_headers := [("Authorization", "Bearer " +:+ token); ("Content-Type", "application/json; charset=utf-8");
                    ("User-Agent", "GenWatch/0.1 (+https://github.com/sethmorrowsoftware/genwatch)")] |}.

(** What opening the request and reading the answer comes to; [HTTPError] with the text
    of its answer where that can be read, [OtherError] any other exception with its class
    and text. *)
Inductive opened : Type :=
| Response (raw : string)
| HTTPError (code : Z) (raw : option string)
| URLError (reason_repr : string)
| TimedOut
| OtherError (kind text : string).

Section post.
Variables (urlopen : SlackRequest -> opened) (loads : string -> option pyval).

Definition first_200 (raw : string) : string := String.substring 0 200 raw.

(** The class name of a value that is not a dictionary. *)
Definition class_name (v : pyval) : string :=
  match v with
  | PvNone => "NoneType" | PvBool _ => "bool" | PvNum (PInt _) => "int" | PvNum (PFloat _) => "float"
  | PvStr _ => "str" | PvList _ => "list" | PvDict _ => "dict"
  end.

(** [inl] an exception: its class and text. *)
Definition post_slack (token : string) (body : pyval) : (string * string) + (bool * string) :=
  match urlopen (slack_request token body) with
  | HTTPError code raw => inr (false, "http_" +:+ str_Z code +:+ " " +:+ first_200 (default "" raw))
  | URLError reason => inr (false, "url_error " +:+ reason)
  | TimedOut => inr (false, "timeout")
  | OtherError kind text => inl (kind, text)
  | Response raw =>
      match loads raw with
      | None => inr (false, "invalid_json " +:+ first_200 raw)
      | Some data =>
          match pv_get "ok" PvNone data, pv_get "error" (PvStr "unknown") data with
          | inr ok, inr error => if pv_truth ok then inr (true, "ok") else inr (false, "slack_error " +:+ pv_str error)
          | _, _ => inl ("AttributeError", "'" +:+ class_name data +:+ "' object has no attribute 'get'")
          end
      end
  end.

Definition send (cfg : SlackConfig) (blocks : list block) (fallback : string) : bool * string :=
  if (sl_bot_token cfg =? "")%string || (sl_channel cfg =? "")%string then (false, "not_configured")
  else match post_slack (sl_bot_token cfg) (payload (sl_channel cfg) fallback blocks) with
       | inr r => r
       | inl (kind, text) => (false, kind +:+ ": " +:+ text)
       end.

(** How [_worker] reads it. *)
Definition worker_result (r : bool * string) : send_result :=
  let '(ok, err) := r in
  if ok then SendOk else if str_startswith "slack_error" err then SendRefused err else SendFailed err.

(** A turn of [_worker] with nothing in between: the message taken is sent under the
    configuration of that moment. *)
Definition worker_turn (now : Z) (n : SlackNotifier) : SlackNotifier :=
  let n1 := worker_take n in
  match sn_sending n1 with
  | None => n1
  | Some msg => worker_sent now (worker_result (send (sn_cfg n1) (pm_blocks msg) (pm_fallback msg))) n1
  end.

(** ** Theorems *)

(** The answer of Slack to a request that reached it. *)
Definition slack_answer (o : opened) : option (list (string * pyval)) :=
  match o with
  | Response raw => match loads raw with Some (PvDict d) => Some d | _ => None end
  | _ => None
  end.

Lemma prefix_slack_error s : str_startswith "slack_error" ("slack_error " +:+ s) = true.
Proof. by destruct s. Qed.

(** Posted is what Slack answered with a true [ok], refused what it answered otherwise;
    everything else (no settings, no network, another status, an answer that is not a JSON
    object) is a transport error, to be tried again.  No class of exceptions is called
    slack_error. *)
Theorem send_classified cfg blocks fallback :
  (forall kind text, urlopen (slack_request (sl_bot_token cfg) (payload (sl_channel cfg) fallback blocks)) = OtherError kind text ->
     str_startswith "slack_error" (kind +:+ ": " +:+ text) = false) ->
  let outcome := urlopen (slack_request (sl_bot_token cfg) (payload (sl_channel cfg) fallback blocks)) in
  let configured := negb (sl_bot_token cfg =? "")%string && negb (sl_channel cfg =? "")%string in
  match worker_result (send cfg blocks fallback) with
  | SendOk => configured = true /\ exists d, slack_answer outcome = Some d /\ pv_truth (default PvNone (od_get "ok" d)) = true
  | SendRefused err =>
      configured = true /\ exists d, slack_answer outcome = Some d /\ pv_truth (default PvNone (od_get "ok" d)) = false /\
        err = "slack_error " +:+ pv_str (default (PvStr "unknown") (od_get "error" d))
  | SendFailed _ => configured = false \/ slack_answer outcome = None
  end.
Proof.
  intros Hkind. cbv zeta. unfold send. destruct (sl_bot_token cfg =? "")%string; [by left|].
  destruct (sl_channel cfg =? "")%string; [by left|]. cbn [orb andb negb]. unfold post_slack.
  destruct (urlopen _) as [raw|code raw|reason| |kind text]; cbn [slack_answer]; try (by right).
  - destruct (loads raw) as [[]|]; cbn [pv_get worker_result]; try (by right).
    destruct (pv_truth _) eqn:E; cbn [worker_result].
    + split; [done|]. by exists d.
    + rewrite prefix_slack_error. split; [done|]. by exists d.
  - cbn [worker_result]. rewrite Hkind by done. by right.
Qed.

(** *** An outage *)

Definition tried (msg : PendingMessage) : PendingMessage :=
  {| pm_blocks := pm_blocks msg; pm_fallback := pm_fallback msg; pm_attempt := pm_attempt msg + 1;
     pm_enqueued_at := pm_enqueued_at msg |}.

(** The request for the message fails, before Slack answers. *)
Definition unreachable (cfg : SlackConfig) (msg : PendingMessage) : Prop :=
  exists err, worker_result (send cfg (pm_blocks msg) (pm_fallback msg)) = SendFailed err.

(** The only message of a notifier, waiting or on its retry timer. *)
Definition alone (n : SlackNotifier) (q : list PendingMessage) (r : list (Z * PendingMessage)) : SlackNotifier :=
  sn_busy None q (sn_with [] r (sn_recent_sends n) n).

Lemma take_alone msg r n :
  sn_running n = true -> worker_take (alone n [msg] r) = sn_busy (Some msg) [] (alone n [] r).
Proof. intros Hr. unfold worker_take. cbn. by rewrite Hr. Qed.

Lemma turn_retries now msg n :
  sn_running n = true -> unreachable (sn_cfg n) msg -> pm_attempt msg + 1 < MAX_ATTEMPTS -> now - pm_enqueued_at msg <= MAX_AGE_S ->
  worker_turn now (alone n [msg] []) = alone n [] [(now + backoff_for (pm_attempt msg + 1), tried msg)].
Proof.
  intros Hr [err He] Ha Hage. unfold worker_turn. rewrite take_alone by done. cbn [alone sn_busy sn_with sn_sending sn_cfg]. rewrite He.
  unfold worker_sent. cbn [sn_busy sn_with sn_sending sn_queue sn_retries].
  rewrite (proj2 (Z.leb_gt _ _)) by lia. rewrite (proj2 (Z.ltb_ge MAX_AGE_S _)) by lia. by rewrite andb_false_r.
Qed.

Lemma timer_requeues due msg n :
  sn_running n = true -> requeue 0 (alone n [] [(due, msg)]) = alone n [msg] [].
Proof. intros Hr. unfold requeue. cbn. by rewrite Hr. Qed.

(** A fresh message under an outage that outlasts its attempts: four posts, each but the
    last setting a timer, and nothing left of the message. *)
Theorem outage_gives_up n msg t0 t1 t2 t3 :
  sn_running n = true -> unreachable (sn_cfg n) msg -> pm_attempt msg = 0 ->
  Forall (fun t => t - pm_enqueued_at msg <= MAX_AGE_S) [t0; t1; t2] ->
  let again t n := worker_turn t (requeue 0 n) in
  let n1 := worker_turn t0 (alone n [msg] []) in
  n1 = alone n [] [(t0 + sec 1, tried msg)] /\
  again t1 n1 = alone n [] [(t1 + sec 4, tried (tried msg))] /\
  again t2 (again t1 n1) = alone n [] [(t2 + sec 16, tried (tried (tried msg)))] /\
  again t3 (again t2 (again t1 n1)) = alone n [] [].
Proof.
  intros Hr Hu Ha [H0 [H1 [H2 _]%Forall_cons]%Forall_cons]%Forall_cons. cbv zeta.
  rewrite turn_retries by (rewrite ?Ha; done || (unfold MAX_ATTEMPTS; lia)).
  rewrite timer_requeues, turn_retries by (cbn [tried pm_attempt]; rewrite ?Ha; done || (unfold MAX_ATTEMPTS; lia)).
  rewrite timer_requeues, turn_retries by (cbn [tried pm_attempt]; rewrite ?Ha; done || (unfold MAX_ATTEMPTS; lia)).
  rewrite timer_requeues by done. cbn [tried pm_attempt]. rewrite Ha. split_and!; try reflexivity.
  destruct Hu as [err He]. unfold worker_turn. rewrite take_alone by done. cbn [alone sn_busy sn_with sn_sending sn_cfg tried pm_blocks pm_fallback].
  rewrite He. unfold worker_sent. cbn [sn_busy sn_with sn_sending sn_queue sn_retries pm_attempt].
    rewrite (proj2 (Z.leb_le MAX_ATTEMPTS _)) by (cbn [tried pm_attempt]; rewrite Ha; done). reflexivity.
Qed.
End post.

(** A Slack that rejects the channel. *)
Example rejected :
  worker_result (send (fun _ => Response "{}") (fun _ => Some (PvDict [("ok", PvBool false); ("error", PvStr "channel_not_found")]))
    {| sl_enabled := true; sl_bot_token := "xoxb"; sl_channel := "C1"; sl_site_label := ""; sl_alert_on_alarm := true;
       sl_alert_on_warning := true; sl_alert_on_alarm_cleared := true; sl_alert_on_state_change := true;
       sl_alert_on_command := true; sl_alert_on_comms_lost := true; sl_alert_on_load_source_change := true |} [] "x")
  = SendRefused "slack_error channel_not_found".
Proof. reflexivity. Qed.
