(* ===== verification/Notify.v ===== *)
(** * The systemd watchdog (services/notify.py and the ticker of main.py)

    The decision to ping and the loop that takes it at every tick.  The socket is
    a parameter; the loop's output is the list of its pings and log lines. *)

From S2P Require Import Prelude.

Local Open Scope Z_scope.

(** ** Sending *)

(** [_send], with NOTIFY_SOCKET of the environment and whether the datagram reaches the
    socket of an address; the datagram sent.  A leading [@] names an abstract socket. *)
Definition notify_address (path : string) : string :=
  match path with
  | String c name => if Ascii.eqb c (Ascii.ascii_of_nat 64) then String Ascii.zero name else path
  | EmptyString => path
  end.
Definition notify_send (NOTIFY_SOCKET : option string) (reaches : string -> bool) (message : string) : bool * list (string * string) :=
  match NOTIFY_SOCKET with
  | None | Some EmptyString => (false, [])
  | Some path => let addr := notify_address path in
                 if reaches addr then (true, [(addr, message)]) else (false, [])
  end.
Definition ready socket reaches := notify_send socket reaches "READY=1".
Definition watchdog socket reaches := notify_send socket reaches "WATCHDOG=1".
Definition stopping socket reaches := notify_send socket reaches "STOPPING=1".

(** ** The decision *)

Definition WATCHDOG_COLD_START_GRACE_S : Z := sec 300.

(** Why a ping is withheld; the source renders it as text. *)
Inductive withhold_reason : Type := NoPrimePoll (grace : Z) | PrimeSilent (silence stale_after : Z).

Definition should_ping_watchdog (mono_last_prime_good : option Z)
    (service_start_mono now_mono stale_after_s cold_start_grace_s : Z) : bool * option withhold_reason :=
  match mono_last_prime_good with
  | None => if now_mono - service_start_mono <=? cold_start_grace_s then (true, None)
            else (false, Some (NoPrimePoll cold_start_grace_s))
  | Some last => let silence := now_mono - last in
                 if silence <=? stale_after_s then (true, None)
                 else (false, Some (PrimeSilent silence stale_after_s))
  end.

(** ** The ticker *)

(** [watchdog_interval_s], of the microseconds of WATCHDOG_USEC, in nanoseconds;
    a zero there is falsy further on. *)
Definition watchdog_interval_s (usec : option Z) : option Z :=
  match usec with Some u => Some (u * 500) | None => None end.

Definition watchdog_tick_s (interval : Z) : Z := Z.max (sec 1) (interval / 2).
Definition stale_after_s (tick prime_poll_ms : Z) : Z := Z.max (tick * 2) (msec (prime_poll_ms * 6)).

Record watchdog_env : Type := {
  we_start : Z;                       (* service_start_mono *)
  we_stale : Z
}.

(** What one pass sees after its sleep. *)
Record tick : Type := { tk_now : Z; tk_running : bool; tk_last_good : option Z }.

Inductive watchdog_out : Type := Ping (at_ : Z) | LogWithheld (why : withhold_reason) | LogResumed.

Definition watchdog_pass (env : watchdog_env) (withholding : bool) (t : tick) : bool * list watchdog_out :=
  if negb (tk_running t) then (withholding, [])
  else
    match should_ping_watchdog (tk_last_good t) (we_start env) (tk_now t) (we_stale env)
            WATCHDOG_COLD_START_GRACE_S with
    | (true, _) => (false, Ping (tk_now t) :: (if withholding then [LogResumed] else []))
    | (false, Some why) => (true, if withholding then [] else [LogWithheld why])
    | (false, None) => (true, [])
    end.

Fixpoint watchdog_loop (env : watchdog_env) (withholding : bool) (ticks : list tick) : list watchdog_out :=
  match ticks with
  | [] => []
  | t :: rest => let '(w, out) := watchdog_pass env withholding t in out ++ watchdog_loop env w rest
  end.

(** ** Theorems *)

(** A tick at which the poll loop counts as alive. *)
Definition alive (env : watchdog_env) (t : tick) : bool :=
  tk_running t &&
  match tk_last_good t with
  | Some last => tk_now t - last <=? we_stale env
  | None => tk_now t - we_start env <=? WATCHDOG_COLD_START_GRACE_S
  end.

Definition pings (out : list watchdog_out) : list Z :=
  omap (fun o => match o with Ping t => Some t | _ => None end) out.

(** The datagrams of a run of the ticker: one per ping where systemd listens. *)
Definition datagrams (socket : option string) (reaches : string -> bool) (out : list watchdog_out) : list (string * string) :=
  concat (map (fun o => match o with Ping _ => snd (watchdog socket reaches) | _ => [] end) out).

Lemma datagrams_of_pings socket reaches out :
  fst (watchdog socket reaches) = true ->
  exists addr, reaches addr = true /\ datagrams socket reaches out = replicate (length (pings out)) (addr, "WATCHDOG=1"%string).
Proof.
  unfold datagrams, watchdog, notify_send. destruct socket as [[|c path]|]; try done. cbv zeta.
  set (addr := notify_address _). destruct (reaches addr) eqn:E; [|done]. intros _. exists addr. split; [done|].
  induction out as [|[t|why|] out IH]; [done| | |]; cbn [map concat snd app pings omap length replicate]; [|exact IH|exact IH].
  cbn. by f_equal.
Qed.

Lemma watchdog_pass_pings env w t :
  pings (snd (watchdog_pass env w t)) = if alive env t then [tk_now t] else [].
Proof.
  unfold watchdog_pass, alive, should_ping_watchdog. destruct (tk_running t); [|done]. cbn [negb andb].
  destruct (tk_last_good t) as [last|]; cbv zeta; destruct (_ <=? _); by destruct w.
Qed.

Lemma watchdog_pings env w ticks :
  pings (watchdog_loop env w ticks) = tk_now <$> List.filter (alive env) ticks.
Proof.
  revert w. induction ticks as [|t ticks IH]; intros w; [done|]. cbn [watchdog_loop List.filter].
  pose proof (watchdog_pass_pings env w t) as Hp. destruct (watchdog_pass env w t) as [w' out]. cbn [snd] in Hp.
  unfold pings in *. rewrite omap_app, Hp, IH. by destruct (alive env t).
Qed.

(** C21. While prime polls complete within six cadences every watchdog tick pings; once
    the poll loop freezes no ping goes out later than the stale limit after its last good
    poll; and without any good poll none goes out after 300 s. *)
Theorem watchdog_liveness usec prime_ms start ticks :
  0 < prime_ms ->
  forall interval, watchdog_interval_s (Some usec) = Some interval ->
  let env := {| we_start := start; we_stale := stale_after_s (watchdog_tick_s interval) prime_ms |} in
  let run := pings (watchdog_loop env false ticks) in
  (Forall (fun t => tk_running t = true /\ exists g, tk_last_good t = Some g /\ tk_now t - g <= msec (6 * prime_ms)) ticks ->
   run = tk_now <$> ticks) /\
  (forall frozen, Forall (fun t => forall g, tk_last_good t = Some g -> g <= frozen) ticks ->
   Forall (fun t => is_Some (tk_last_good t)) ticks ->
   Forall (fun p => p <= frozen + we_stale env) run) /\
  (Forall (fun t => tk_last_good t = None) ticks -> Forall (fun p => p <= start + sec 300) run).
Proof.
  intros Hp interval Hi env. cbv zeta. rewrite watchdog_pings.
  assert (msec (6 * prime_ms) <= we_stale env) as Hst.
  { cbn. unfold stale_after_s. rewrite (Z.mul_comm 6). lia. }
  split_and!.
  - intros Ha. f_equal. induction Ha as [|t ticks [Hr (g & Hg & Hd)] _ IH]; [done|]. cbn [List.filter].
    assert (alive env t = true) as ->; [|by rewrite IH]. unfold alive. rewrite Hr, Hg. cbn [andb]. apply Z.leb_le. lia.
  - intros frozen Hf Hs. rewrite Forall_fmap. apply Forall_forall. intros t Ht.
    apply list_elem_of_In, filter_In in Ht as [Hin Ha]. apply list_elem_of_In in Hin.
    rewrite Forall_forall in Hf, Hs. destruct (Hs t Hin) as [g Hg]. specialize (Hf t Hin g Hg).
    unfold alive in Ha. rewrite Hg in Ha. apply andb_true_iff in Ha as [_ Ha%Z.leb_le]. unfold compose. lia.
  - intros Hn. rewrite Forall_fmap. apply Forall_forall. intros t Ht.
    apply list_elem_of_In, filter_In in Ht as [Hin Ha]. apply list_elem_of_In in Hin.
    rewrite Forall_forall in Hn. specialize (Hn t Hin). unfold alive in Ha. rewrite Hn in Ha.
    apply andb_true_iff in Ha as [_ Ha%Z.leb_le]. cbn in *. unfold WATCHDOG_COLD_START_GRACE_S in Ha. lia.
Qed.

(** Withholding is logged once, at the first withheld tick of a run of them. *)
Lemma withheld_once env ticks why w :
  Forall (fun t => tk_running t = true /\ alive env t = false) ticks ->
  LogWithheld why ∈ watchdog_loop env w ticks -> w = false /\ length (watchdog_loop env w ticks) = 1%nat.
Proof.
  assert (forall ticks, Forall (fun t => tk_running t = true /\ alive env t = false) ticks ->
            watchdog_loop env true ticks = []) as Hnil.
  { induction 1 as [|t l [Hr Ha] _ IH]; [done|]. cbn [watchdog_loop]. unfold watchdog_pass.
    unfold alive, should_ping_watchdog in *. rewrite Hr in *. cbn [negb andb] in *.
    destruct (tk_last_good t); rewrite Ha; cbn [app]; exact IH. }
  intros Hall Hin. destruct w; [rewrite Hnil in Hin by done; set_solver|]. split; [done|].
  destruct Hall as [|t l [Hr Ha] Hall]; [set_solver|]. cbn [watchdog_loop]. unfold watchdog_pass.
  unfold alive, should_ping_watchdog in *. rewrite Hr in *. cbn [negb andb] in *.
  destruct (tk_last_good t); rewrite Ha; cbn [app]; by rewrite Hnil.
Qed.
