(* ===== verification/PollLoop.v ===== *)
(** * The loops of the poller and the watchdog that watches them

    [_loop_prime] and [_loop_base] of modbus/poller.py: poll, sleep for what is left of
    the cadence in force, again, whatever the poll raises, until the poller stops.  The
    ticker of main.py (Notify.v) reads when a prime poll was last good.

    Theorems: consecutive polls start at least a cadence apart, the one in force at the
    earlier of them; while every prime poll is good and takes, like the lateness of a
    wake-up, at most two cadences, the ticker pings at every tick; and a reload that
    slows the cadence leaves the ticker with the threshold of the old one, so that a
    healthy poller is reported as silent.  [start] and [stop]: called in order they leave
    at most one set of loops. *)

From S2P Require Import Prelude Notify.

Local Open Scope Z_scope.

Section loop.
Context {S : Type}.
(** [_running], and [regmap.prime_poll_ms] or [base_poll_ms]. *)
Variables (running : S -> bool) (poll_ms : S -> Z).

(** One turn: what the rest of the program did since the last (a reload, a stop), the
    poll with its exception swallowed, how long it took, and how late the sleep ended. *)
Record Turn : Type := { tn_others : S -> S; tn_poll : S -> S; tn_elapsed : Z; tn_late : Z }.

(** Start, end and cadence of each poll, the clock and state at the end. *)
Record Polled : Type := { pl_start : Z; pl_end : Z; pl_cadence : Z }.

Fixpoint poll_loop (turns : list Turn) (now : Z) (s : S) : list Polled * (Z * S) :=
  match turns with
  | [] => ([], (now, s))
  | t :: rest =>
      let s := tn_others t s in
      if negb (running s) then ([], (now, s))
      else
        let period := msec (poll_ms s) in
        let t_end := now + tn_elapsed t in
        let sleep := Z.max 0 (period - tn_elapsed t) in
        let '(log, fin) := poll_loop rest (t_end + sleep + tn_late t) (tn_poll t s) in
        ({| pl_start := now; pl_end := t_end; pl_cadence := period |} :: log, fin)
  end.

Definition timed (t : Turn) : Prop := 0 <= tn_elapsed t /\ 0 <= tn_late t.

(** ** Cadence *)

Lemma poll_loop_head turns now s p log fin :
  poll_loop turns now s = (p :: log, fin) -> pl_start p = now.
Proof.
  destruct turns as [|t rest]; [done|]. cbn. destruct (negb _); [done|].
  destruct (poll_loop rest _ _) as [l f]. by intros [= <- _ _].
Qed.

(** Two consecutive polls of a run. *)
Fixpoint consecutive (R : Polled -> Polled -> Prop) (log : list Polled) : Prop :=
  match log with
  | a :: (b :: _) as rest => R a b /\ consecutive R rest
  | _ => True
  end.

(** From the start of a poll to the next: its cadence or its duration, whichever is
    longer, and the lateness. *)
Theorem poll_cadence turns now s :
  Forall timed turns ->
  consecutive (fun a b => pl_start a + Z.max (pl_cadence a) (pl_end a - pl_start a) <= pl_start b /\ pl_end a <= pl_start b)
    (fst (poll_loop turns now s)).
Proof.
  intros Ht. revert now s. induction Ht as [|t rest [He Hl] _ IH]; intros now s; [done|]. cbn.
  destruct (negb (running (tn_others t s))); [done|].
  set (next := now + tn_elapsed t + Z.max 0 (msec (poll_ms (tn_others t s)) - tn_elapsed t) + tn_late t).
  specialize (IH next (tn_poll t (tn_others t s))).
  destruct (poll_loop rest next _) as [log fin] eqn:E. destruct log as [|b log]; [done|].
  apply poll_loop_head in E. split; [|exact IH]. cbn. subst next. lia.
Qed.

(** ** The watchdog's view *)

(** The end of the last poll that is over by [t]. *)
Definition last_good (log : list Polled) (t : Z) : option Z :=
  last (List.filter (fun e => e <=? t) (map pl_end log)).

Lemma last_good_cons p log t :
  Forall (fun q => pl_end p <= pl_end q) log -> pl_end p <= t ->
  last_good (p :: log) t = match last_good log t with Some e => Some e | None => Some (pl_end p) end.
Proof.
  intros Hs Hp. unfold last_good. cbn [map List.filter]. rewrite (proj2 (Z.leb_le _ _) Hp).
  rewrite last_cons. by destruct (last _).
Qed.

(** Ends are in order and at most [gap] apart. *)
Definition dense (gap : Z) (log : list Polled) : Prop :=
  consecutive (fun a b => pl_end a <= pl_end b <= pl_end a + gap) log.

Lemma dense_le gap p log : dense gap (p :: log) -> Forall (fun q => pl_end p <= pl_end q) log.
Proof.
  revert p. induction log as [|q log IH]; intros p; [constructor|]. intros [Hp Hd]. constructor; [lia|].
  eapply Forall_impl; [exact (IH q Hd)|]. cbv beta. lia.
Qed.

(** Between the first end and [gap] after the last one a good poll is never further back. *)
Lemma dense_last_good gap log t p e :
  0 <= gap -> dense gap log -> head log = Some p -> last log = Some e -> pl_end p <= t <= pl_end e + gap ->
  exists g, last_good log t = Some g /\ t - gap <= g.
Proof.
  intros Hgap. revert p. induction log as [|q log IH]; intros p Hd Hh Hl Ht; [done|]. injection Hh as ->.
  rewrite last_good_cons by (first [lia|by eapply dense_le]).
  destruct log as [|q log].
  - cbn in Hl. injection Hl as ->. exists (pl_end e). split; [done|]. lia.
  - destruct Hd as [Hpq Hd]. destruct (Z.le_gt_cases (pl_end q) t) as [Hq|Hq].
    + destruct (IH q Hd eq_refl Hl ltac:(lia)) as (g & -> & Hg). by exists g.
    + assert (last_good (q :: log) t = None) as ->; [|exists (pl_end p); split; [done|lia]].
      unfold last_good. assert (List.filter (fun e => e <=? t) (map pl_end (q :: log)) = []) as ->; [|done].
      pose proof (dense_le gap q log Hd) as Hle. cbn. rewrite (proj2 (Z.leb_gt _ _) Hq).
      clear -Hle Hq. induction Hle as [|x l Hx _ IH]; [done|]. cbn. rewrite (proj2 (Z.leb_gt _ _)) by lia. exact IH.
Qed.

(** A turn under the cadence [ms]: nothing changes it, and neither the poll nor the
    wake-up takes more than two cadences. *)
Definition steady (ms : Z) (t : Turn) : Prop :=
  timed t /\ tn_elapsed t <= 2 * msec ms /\ tn_late t <= 2 * msec ms /\
  forall s, poll_ms s = ms -> poll_ms (tn_others t s) = ms /\ poll_ms (tn_poll t s) = ms.

Lemma poll_loop_dense ms turns now s :
  0 < ms -> Forall (steady ms) turns -> poll_ms s = ms -> dense (5 * msec ms) (fst (poll_loop turns now s)).
Proof.
  intros Hms Ht. revert now s. induction Ht as [|t rest (Hti & He & Hl & Hk) Hrest IH]; intros now s Hs; [done|]. cbn [poll_loop].
  destruct (negb (running (tn_others t s))); [done|]. destruct (Hk s Hs) as [Ho _]. destruct (Hk (tn_others t s) Ho) as [_ Hp].
  rewrite Ho. set (next := now + tn_elapsed t + Z.max 0 (msec ms - tn_elapsed t) + tn_late t).
  specialize (IH next (tn_poll t (tn_others t s)) Hp).
  assert (forall q log fin, poll_loop rest next (tn_poll t (tn_others t s)) = (q :: log, fin) ->
            next <= pl_end q <= next + 2 * msec ms) as Hhead.
  { intros q log fin E. destruct Hrest as [|u rest (Hui & Hue & _)]; [done|]. cbn in E.
    destruct (negb _); [done|]. destruct (poll_loop rest _ _) as [l f]. injection E as <- _ _. cbn. destruct Hui. lia. }
  destruct (poll_loop rest next _) as [log fin]. cbn [fst] in *. destruct log as [|q log]; [done|].
  split; [|exact IH]. specialize (Hhead q log fin eq_refl). cbn [pl_end]. destruct Hti. subst next. unfold msec in *. lia.
Qed.
End loop.

(** While prime polls are good and none of them, nor a wake-up, takes more than two
    cadences, the ticker pings at every tick from the end of the first poll to a cadence
    after the last. *)
Theorem steady_polls_feed_watchdog {S} (running : S -> bool) (poll_ms : S -> Z) usec ms start turns now (s : S) ticks p e interval :
  0 < ms -> Forall (steady poll_ms ms) turns -> poll_ms s = ms ->
  watchdog_interval_s (Some usec) = Some interval ->
  let log := fst (poll_loop running poll_ms turns now s) in
  head log = Some p -> last log = Some e ->
  Forall (fun t => tk_running t = true /\ tk_last_good t = last_good log (tk_now t) /\
                   pl_end p <= tk_now t <= pl_end e + msec ms) ticks ->
  pings (watchdog_loop {| we_start := start; we_stale := stale_after_s (watchdog_tick_s interval) ms |} false ticks) = map tk_now ticks.
Proof.
  intros Hms Ht Hs Hi log Hh Hl Hticks. pose proof (poll_loop_dense running poll_ms ms turns now s Hms Ht Hs) as Hd.
  rewrite watchdog_pings. f_equal. apply forallb_filter_id. apply forallb_forall. intros t Hin%list_elem_of_In.
  rewrite Forall_forall in Hticks. destruct (Hticks t Hin) as (Hr & Hg & Hrange).
  destruct (dense_last_good (5 * msec ms) log (tk_now t) p e) as (g & Eg & Hle); [unfold msec; lia|done|done|done|unfold msec in *; lia|].
  unfold alive. rewrite Hr, Hg, Eg. cbn [andb we_stale]. apply Z.leb_le. unfold stale_after_s, msec in *. lia.
Qed.

(** The service as shipped: WatchdogSec=60s, a map with a prime cadence of 1500 ms; ten
    minutes in, a reload brings one of 120 s.  Every poll is good, instant and on time. *)
Definition slow_reload : list (Turn (S := Z)) :=
  replicate 400 {| tn_others := fun ms => ms; tn_poll := fun ms => ms; tn_elapsed := 0; tn_late := 0 |} ++
  [{| tn_others := fun _ => 120000; tn_poll := fun ms => ms; tn_elapsed := 0; tn_late := 0 |}] ++
  replicate 3 {| tn_others := fun ms => ms; tn_poll := fun ms => ms; tn_elapsed := 0; tn_late := 0 |}.
Definition slow_log : list Polled := fst (poll_loop (fun _ => true) (fun ms => ms) slow_reload 0 1500).
Definition shipped_tick : Z := watchdog_tick_s (sec 30).
Definition slow_ticks : list tick :=
  map (fun k => let t := sec 1 + k * shipped_tick in {| tk_now := t; tk_running := true; tk_last_good := last_good slow_log t |})
    (seqZ 0 64).
Definition largest_gap (l : list Z) : Z := foldr Z.max 0 (zip_with Z.sub (tl l) l).

(** The ticks are 15 s apart, but the pings up to 105 s, past the 60 s of systemd; with
    the threshold of the reloaded map they would be as close as the ticks. *)
Lemma reload_starves_watchdog :
  watchdog_interval_s (Some 60000000) = Some (sec 30) /\ shipped_tick = sec 15 /\
  largest_gap (pings (watchdog_loop {| we_start := 0; we_stale := stale_after_s shipped_tick 1500 |} false slow_ticks)) = sec 105 /\
  largest_gap (pings (watchdog_loop {| we_start := 0; we_stale := stale_after_s shipped_tick 120000 |} false slow_ticks)) = sec 15.
Proof. vm_compute. done. Qed.

(** ** Start and stop

    [start] polls the base tier once and then creates the loops; [stop] clears the flag the
    loops test and cancels those it knows of.  The three tasks of one [start] count as one:
    they are created and cancelled together. *)

Record Lifecycle : Type := {
  lc_running : bool;
  lc_starting : nat;                  (* calls of [start] inside their base poll *)
  lc_tasks : list nat;                (* self._tasks *)
  lc_live : list nat;                 (* the loops that have not ended *)
  lc_next : nat
}.

Inductive LifeEvent : Type := LcStart | LcStarted | LcStop | LcTurn (task : nat).

(** [LcTurn]: a loop is at the top of its [while]. *)
Definition life_step (ev : LifeEvent) (l : Lifecycle) : option Lifecycle :=
  match ev with
  | LcStart =>
      Some (if lc_running l then l
            else {| lc_running := true; lc_starting := S (lc_starting l); lc_tasks := lc_tasks l; lc_live := lc_live l;
                    lc_next := lc_next l |})
  | LcStarted =>
      match lc_starting l with
      | O => None
      | S n => Some {| lc_running := lc_running l; lc_starting := n; lc_tasks := [lc_next l];
                       lc_live := lc_live l ++ [lc_next l]; lc_next := S (lc_next l) |}
      end
  | LcStop => Some {| lc_running := false; lc_starting := lc_starting l; lc_tasks := [];
                      lc_live := filter (fun t => t ∉ lc_tasks l) (lc_live l); lc_next := lc_next l |}
  | LcTurn t => if bool_decide (t ∈ lc_live l)
                then Some (if lc_running l then l
                           else {| lc_running := false; lc_starting := lc_starting l; lc_tasks := lc_tasks l;
                                   lc_live := filter (fun u => u <> t) (lc_live l); lc_next := lc_next l |})
                else None
  end.

Fixpoint life_run (evs : list LifeEvent) (l : Lifecycle) : option Lifecycle :=
  match evs with
  | [] => Some l
  | ev :: evs => match life_step ev l with Some l' => life_run evs l' | None => None end
  end.

Definition life_init : Lifecycle := {| lc_running := false; lc_starting := 0; lc_tasks := []; lc_live := []; lc_next := 0 |}.

(** No [stop] while a [start] is under way, as in lifespan. *)
Fixpoint orderly (evs : list LifeEvent) (l : Lifecycle) : bool :=
  match evs with
  | [] => true
  | ev :: evs => match ev with LcStop => (lc_starting l =? 0)%nat | _ => true end &&
                 match life_step ev l with Some l' => orderly evs l' | None => true end
  end.

Record life_ok (l : Lifecycle) : Prop := {
  lo_one : (length (lc_live l) + lc_starting l <= 1)%nat;
  lo_held : lc_live l = lc_tasks l;
  lo_stopped : lc_running l = false -> lc_live l = [] /\ lc_starting l = 0%nat
}.

Lemma life_ok_step ev l l' :
  life_ok l -> (ev = LcStop -> lc_starting l = 0%nat) -> life_step ev l = Some l' -> life_ok l'.
Proof.
  intros [H1 H2 H3] Hord. destruct ev; cbn.
  - intros [= <-]. destruct (lc_running l) eqn:Er; [by split; rewrite ?Er|]. destruct (H3 eq_refl) as [E ->].
    split; cbn; [rewrite E; cbn; lia|done|done].
  - destruct (lc_starting l) eqn:Es; [done|]. intros [= <-]. assert (lc_live l = []) as ->.
    { apply length_zero_iff_nil. lia. }
    split; cbn; [lia|done|]. intros Hr. destruct (H3 Hr) as [_ H]. congruence.
  - intros [= <-]. rewrite Hord in * by done. rewrite H2.
    assert (filter (fun t => t ∉ lc_tasks l) (lc_tasks l) = []) as E.
    { apply elem_of_nil_inv. intros t [Hn Hi]%list_elem_of_filter. done. }
    split; cbn; rewrite E; cbn; [lia|done|done].
  - case_bool_decide as Hin; [|done]. intros [= <-]. destruct (lc_running l) eqn:Er; [by split; rewrite ?Er|].
    destruct (H3 eq_refl) as [E _]. rewrite E in Hin. by apply elem_of_nil in Hin.
Qed.

(** However [start] is called, also again while it is under way, the poller has at most one
    set of loops, the one [stop] cancels, and none once it is stopped. *)
Theorem one_set_of_loops evs l :
  life_run evs life_init = Some l -> orderly evs life_init = true ->
  (length (lc_live l) <= 1)%nat /\ lc_live l = lc_tasks l /\ (lc_running l = false -> lc_live l = []).
Proof.
  assert (forall evs l l', life_ok l -> life_run evs l = Some l' -> orderly evs l = true -> life_ok l') as H.
  { clear. induction evs as [|ev evs IH]; intros l l' Hl; cbn; [by intros [= <-]|].
    destruct (life_step ev l) as [l1|] eqn:E; [|done]. intros Hrun [Ho Hos]%andb_true_iff. apply (IH l1); [|done|done].
    eapply life_ok_step; [exact Hl| |exact E]. intros ->. by apply Nat.eqb_eq. }
  intros Hrun Ho. destruct (H evs life_init l) as [H1 H2 H3]; [split; cbn; [lia|done|done]|done|done|].
  split_and!; [lia|done|]. intros Hr. by apply H3.
Qed.

(** A [stop] and a second [start] inside the base poll of the first leave two sets, of which
    the next [stop] cancels one; the flag ends the other at its next turn. *)
Lemma overlapping_starts :
  (fun l => (lc_live l, lc_tasks l)) <$> life_run [LcStart; LcStop; LcStart; LcStarted; LcStarted] life_init = Some ([0%nat; 1%nat], [1%nat]) /\
  lc_live <$> life_run [LcStart; LcStop; LcStart; LcStarted; LcStarted; LcStop] life_init = Some [0%nat] /\
  lc_live <$> life_run [LcStart; LcStop; LcStart; LcStarted; LcStarted; LcStop; LcTurn 0] life_init = Some [].
Proof. done. Qed.
