(* ===== verification/Http.v ===== *)
(** * Requests, origins, roles and sessions

    The cross-site request filter of main.py, the WebSocket origin check of
    api/ws.py, the role gates of api/deps.py, login and its limiter (api/auth.py),
    and the checks of the secrets at start-up (lifespan of main.py).  bcrypt and the
    JWT library are parameters of the definitions that call them. *)

From S2P Require Import Prelude Database RateLimit.
From Stdlib Require Import Lqa.

Local Open Scope Z_scope.
Local Open Scope gw_scope.
Local Open Scope string_scope.

(** ** Requests *)

(** Header names are in lower case, as Starlette compares them. *)
Record Request : Type := {
  rq_method : string;
  rq_path : string;
  rq_headers : odict string string;
  rq_cookies : odict string string;
  rq_client : option string;
  rq_scheme : string
}.

Definition header (name : string) (rq : Request) : option string := od_get name (rq_headers rq).
(** Python's truth of an optional string. *)
Definition truthy (s : option string) : bool := match s with Some x => negb (x =? "") | None => false end.

(** ** The origin of a Referer *)

Definition is_sep (c : Ascii.ascii) : bool :=
  let n := Ascii.nat_of_ascii c in ((n =? 47) || (n =? 63) || (n =? 35))%nat.
Definition is_alpha (c : Ascii.ascii) : bool :=
  let n := Ascii.nat_of_ascii c in (((65 <=? n) && (n <=? 90)) || ((97 <=? n) && (n <=? 122)))%nat.
Definition is_scheme_char (c : Ascii.ascii) : bool :=
  let n := Ascii.nat_of_ascii c in
  (is_alpha c || ((48 <=? n) && (n <=? 57)) || (n =? 43) || (n =? 45) || (n =? 46))%nat.

Fixpoint str_all (p : Ascii.ascii -> bool) (s : string) : bool :=
  match s with EmptyString => true | String c s' => p c && str_all p s' end.
Fixpoint take_until (p : Ascii.ascii -> bool) (s : string) : string :=
  match s with EmptyString => EmptyString | String c s' => if p c then EmptyString else String c (take_until p s') end.
Fixpoint split_colon (s : string) : option (string * string) :=
  match s with
  | EmptyString => None
  | String c s' => if (Ascii.nat_of_ascii c =? 58)%nat then Some (EmptyString, s')
                   else match split_colon s' with Some (a, b) => Some (String c a, b) | None => None end
  end.
Fixpoint lstrip_control (s : string) : string :=
  match s with String c s' => if (Ascii.nat_of_ascii c <=? 32)%nat then lstrip_control s' else s | _ => s end.
Fixpoint drop_newlines (s : string) : string :=
  match s with
  | EmptyString => EmptyString
  | String c s' => let n := Ascii.nat_of_ascii c in
                   if ((n =? 9) || (n =? 10) || (n =? 13))%nat then drop_newlines s' else String c (drop_newlines s')
  end.

(** [urlparse(url)]: scheme and netloc; [None] when it raises on unbalanced brackets
    (a bracketed host is not checked further). *)
Definition url_scheme (url : string) : string * string :=
  match split_colon url with
  | Some (String c pre, post) => if is_alpha c && str_all is_scheme_char (String c pre)
                                 then (str_lower (String c pre), post) else ("", url)
  | _ => ("", url)
  end.
Definition url_netloc (url : string) : string :=
  if str_startswith "//" url then take_until is_sep (String.substring 2 (String.length url) url) else "".
Definition urlparse (url : string) : option (string * string) :=
  let '(scheme, rest) := url_scheme (drop_newlines (lstrip_control url)) in
  let netloc := url_netloc rest in
  if Bool.eqb (str_contains "[" netloc) (str_contains "]" netloc) then Some (scheme, netloc) else None.

(** ** The cross-site request filter *)

Inductive csrf_decision : Type :=
| CsrfForward
| CsrfBlocked (message : string)
| CsrfFault.                        (* urlparse raised: a 500 *)

Definition SAFE_METHODS : list string := ["GET"; "HEAD"; "OPTIONS"].

Definition same_origin (rq : Request) : list string :=
  let host := default "" (header "host" rq) in ["http://" +:+ host; "https://" +:+ host].
Definition mem (x : string) (l : list string) : bool := existsb (String.eqb x) l.

(** [csrf_origin_check]; [live] is the settings' list once start-up has run. *)
Definition csrf_origin_check (live : option (list string)) (cors_list : list string) (rq : Request) : csrf_decision :=
  if mem (rq_method rq) SAFE_METHODS then CsrfForward
  else if negb (str_startswith "/api/" (rq_path rq)) then CsrfForward
  else
    let origin := header "origin" rq in
    let referer := header "referer" rq in
    if negb (truthy origin) && negb (truthy referer) then
      if truthy (header "x-requested-with" rq) then CsrfForward
      else CsrfBlocked "missing Origin/Referer or X-Requested-With"
    else
      let allowlist := (same_origin rq ++ match live with Some l => l | None => cors_list end)%list in
      let decide candidate :=
        match candidate with
        | Some c => if mem c allowlist then CsrfForward else CsrfBlocked "request origin not allowed"
        | None => CsrfBlocked "request origin not allowed"
        end in
      match origin, referer with
      | Some o, _ => if negb (o =? "") then decide (Some o)
                     else match urlparse (default "" referer) with
                          | Some (s, n) => if negb (s =? "") && negb (n =? "") then decide (Some (s +:+ "://" +:+ n))
                                           else decide (Some o)
                          | None => CsrfFault
                          end
      | None, r => match urlparse (default "" r) with
                   | Some (s, n) => if negb (s =? "") && negb (n =? "") then decide (Some (s +:+ "://" +:+ n))
                                    else decide None
                   | None => CsrfFault
                   end
      end.

(** [_origin_allowed] of the WebSocket endpoint. *)
Definition origin_allowed (cors_origins : list string) (rq : Request) : bool :=
  match header "origin" rq with
  | None => true
  | Some o => if o =? "" then true
              else if mem o (same_origin rq) then true
              else mem o (List.filter (fun x => negb (x =? "")) cors_origins)
  end.

(** ** Sessions and roles *)

Record Principal : Type := { p_operator : string; p_role : string }.

(** Claims of a session token: the two the code reads, and the expiry. *)
Record claims : Type := { cl_sub : option string; cl_role : option string; cl_exp : Z }.
Inductive jwt_result : Type := JwtOk (c : claims) | JwtExpired | JwtInvalid (why : string).

Record HttpError : Type := { he_status : Z; he_code : string; he_message : string }.
Definition http_error (status : Z) (message : string) : HttpError :=
  {| he_status := status; he_code := ""; he_message := message |}.
Definition http_error_code (status : Z) (code message : string) : HttpError :=
  {| he_status := status; he_code := code; he_message := message |}.

Section sessions.
(** [jwt.decode(token, secret)] at a wall-clock time. *)
Variable jwt_decode : Z -> string -> string -> jwt_result.

(** [decode_token] of services/auth.py. *)
Definition decode_token (now : Z) (secret token : string) : string + claims :=
  if secret =? "" then inl "auth not configured"
  else match jwt_decode now token secret with
       | JwtOk c => inr c
       | JwtExpired => inl "token expired"
       | JwtInvalid e => inl ("invalid token: " +:+ e)
       end.

(** [auth.split(" ", 1)\[1\]] of a value that starts with "bearer ". *)
Definition bearer (auth : string) : option string :=
  if str_startswith "bearer " (str_lower auth) then Some (String.substring 7 (String.length auth) auth) else None.

Definition session_token (rq : Request) : option string :=
  let cookie := od_get "genwatch_session" (rq_cookies rq) in
  if truthy cookie then cookie else bearer (default "" (header "authorization" rq)).

Definition get_principal (now : Z) (secret : string) (rq : Request) : HttpError + Principal :=
  match session_token rq with
  | Some token =>
      if token =? "" then inl (http_error 401 "not authenticated")
      else match decode_token now secret token with
           | inl e => inl (http_error 401 e)
           | inr c => inr {| p_operator := default "operator" (cl_sub c); p_role := default "viewer" (cl_role c) |}
           end
  | None => inl (http_error 401 "not authenticated")
  end.

Definition require_operator (now : Z) (secret : string) (rq : Request) : HttpError + Principal :=
  match get_principal now secret rq with
  | inl e => inl e
  | inr p => if mem (p_role p) ["operator"; "admin"] then inr p else inl (http_error 403 "operator role required")
  end.
Definition require_admin (now : Z) (secret : string) (rq : Request) : HttpError + Principal :=
  match get_principal now secret rq with
  | inl e => inl e
  | inr p => if p_role p =? "admin" then inr p else inl (http_error 403 "admin role required")
  end.
End sessions.

(** ** Start-up *)

Record AuthConfig : Type := {
  ac_admin_password_hash : string;
  ac_operator_name : string;
  ac_jwt_secret : string;
  ac_session_hours : Z;
  ac_cookie_secure : option bool;
  ac_cookie_samesite : string
}.

Definition PLACEHOLDER : string := "REPLACE_ME".
Definition secret_unusable (secret : string) : bool :=
  (secret =? "") || (secret =? PLACEHOLDER) || (String.length secret <? 32)%nat.

Inductive start_error : Type := NoSecret | NoPasswordHash.

(** The gates of [lifespan]; [ephemeral] is what [secrets.token_hex(32)] yields.
    The result is the secret that sessions are signed with. *)
Definition secret_gates (mock : bool) (ephemeral : string) (auth : AuthConfig) : start_error + string :=
  let secret := ac_jwt_secret auth in
  let pw_hash := ac_admin_password_hash auth in
  if secret_unusable secret && negb mock then inl NoSecret
  else if negb mock && ((pw_hash =? "") || (pw_hash =? PLACEHOLDER) || negb (str_startswith "$2" pw_hash))
  then inl NoPasswordHash
  else inr (if secret_unusable secret then ephemeral else secret).

(** [_samesite_requires_secure] *)
Definition samesite_requires_secure (auth : AuthConfig) : bool :=
  negb ((ac_cookie_samesite auth =? "none") && bool_decide (ac_cookie_secure auth = Some false)).

(** ** Login *)

Definition client_ip (rq : Request) : string := default "unknown" (rq_client rq).
Definition resolve_cookie_secure (rq : Request) (auth : AuthConfig) : bool :=
  match ac_cookie_secure auth with Some b => b | None => rq_scheme rq =? "https" end.

Record LoginState : Type := { ls_db : Database; ls_limiter : RateLimiter }.

Record Cookie : Type := {
  ck_value : string; ck_max_age : Z; ck_httponly : bool; ck_samesite : string; ck_secure : bool; ck_path : string
}.

Section login.
(** bcrypt's comparison of bytes ([false] when it raises), and the signing of a session for an operator and
    a role (the secret is not empty: start-up refuses that; Auth.v has [issue_token]). *)
Variables (checkpw : string -> string -> bool) (jwt_issue : Z -> string -> string -> string -> Z -> string).

(** [plain.encode("utf-8")\[:72\]], and whether [hashed.encode("ascii")] does not raise. *)
Definition BCRYPT_MAX : nat := 72.
Definition bcrypt_bytes (plain : string) : string := String.substring 0 BCRYPT_MAX plain.
Fixpoint is_ascii (s : string) : bool :=
  match s with EmptyString => true | String c s' => (Ascii.N_of_ascii c <? 128)%N && is_ascii s' end.

Definition verify_password (plain hashed : string) : bool :=
  if (hashed =? "") || (plain =? "") then false
  else if is_ascii hashed then checkpw (bcrypt_bytes plain) hashed else false.

(** [login] at wall-clock [now] and monotonic [mono]. *)
Definition login (now mono : Z) (auth : AuthConfig) (rq : Request) (password : string) (s : LoginState)
    : (HttpError + Cookie) * LoginState :=
  if ac_admin_password_hash auth =? ""
  then (inl (http_error 503 "auth not initialized — set admin_password_hash in config"), s)
  else
    let ip := client_ip rq in
    let '(ok, limiter) := check mono ip (ls_limiter s) in
    if negb ok then
      let retry := retry_after_s ip limiter in
      (inl (http_error_code 429 "rate_limited" ("too many attempts; retry in " +:+ str_Z retry +:+ "s")),
       {| ls_db := log_audit now "anonymous" "auth.login" ("ip=" +:+ ip) "" "rate_limited" (ls_db s);
          ls_limiter := limiter |})
    else if negb (verify_password password (ac_admin_password_hash auth)) then
      (inl (http_error 401 "invalid password"),
       {| ls_db := log_audit now "anonymous" "auth.login" ("ip=" +:+ ip) "" "denied" (ls_db s);
          ls_limiter := limiter |})
    else
      let token := jwt_issue now (ac_jwt_secret auth) (ac_operator_name auth) "admin" (ac_session_hours auth) in
      (inr {| ck_value := token; ck_max_age := ac_session_hours auth * 3600; ck_httponly := true;
              ck_samesite := ac_cookie_samesite auth; ck_secure := resolve_cookie_secure rq auth; ck_path := "/" |},
       {| ls_db := log_audit now (ac_operator_name auth) "auth.login" ""
                     (String.substring 0 8 token +:+ "...") "ok" (ls_db s);
          ls_limiter := reset ip limiter |}).
End login.

(** ** Theorems *)

Lemma mem_true x l : mem x l = true <-> x ∈ l.
Proof.
  unfold mem. rewrite existsb_exists, list_elem_of_In. split.
  - intros (y & Hy & E%String.eqb_eq). by subst.
  - intros Hx. exists x. by rewrite String.eqb_refl.
Qed.

Theorem csrf_exact live cors_list rq :
  rq_method rq ∉ SAFE_METHODS -> str_startswith "/api/" (rq_path rq) = true ->
  let trusted := (same_origin rq ++ default cors_list live)%list in
  let named := match header "origin" rq with
               | Some o => if o =? "" then None else Some o
               | None => None
               end in
  csrf_origin_check live cors_list rq = CsrfForward <->
  match named with
  | Some o => o ∈ trusted
  | None =>
      if truthy (header "referer" rq) then
        exists s n, urlparse (default "" (header "referer" rq)) = Some (s, n) /\
          (if negb (s =? "") && negb (n =? "") then s +:+ "://" +:+ n ∈ trusted
           else header "origin" rq = Some "" /\ "" ∈ trusted)
      else truthy (header "x-requested-with" rq) = true
  end.
Proof.
  intros Hm Hp. cbv zeta. unfold csrf_origin_check. rewrite Hp.
  destruct (mem (rq_method rq) SAFE_METHODS) eqn:Es; [by apply mem_true in Es|]. cbn [negb]. cbv zeta.
  assert (match live with Some l => l | None => cors_list end = default cors_list live) as -> by by destruct live.
  set (trusted := (same_origin rq ++ _)%list).
  assert (forall c, (if mem c trusted then CsrfForward else CsrfBlocked "request origin not allowed") = CsrfForward
                    <-> c ∈ trusted) as Hd.
  { intros c. rewrite <- mem_true. by destruct (mem c trusted). }
  destruct (header "origin" rq) as [o|] eqn:Eo; cbn [truthy].
  - destruct (String.eqb_spec o "") as [->|Hne]; cbn [negb andb].
    + destruct (truthy (header "referer" rq)); cbn [negb].
      * destruct (urlparse _) as [[s n]|]; [|naive_solver].
        destruct (negb (s =? "") && negb (n =? "")) eqn:Esn; rewrite Hd.
        -- split; [intros; exists s, n; by rewrite Esn|intros (s' & n' & [= <- <-] & Hx); by rewrite Esn in Hx].
        -- split; [intros; exists s, n; by rewrite Esn|intros (s' & n' & [= <- <-] & Hx); rewrite Esn in Hx; tauto].
      * by destruct (truthy (header "x-requested-with" rq)).
    + apply Hd.
  - destruct (truthy (header "referer" rq)); cbn [negb andb].
    + destruct (urlparse _) as [[s n]|]; [|naive_solver].
      destruct (negb (s =? "") && negb (n =? "")) eqn:Esn; rewrite ?Hd.
      * split; [intros; exists s, n; by rewrite Esn|intros (s' & n' & [= <- <-] & Hx); by rewrite Esn in Hx].
      * split; [done|intros (s' & n' & [= <- <-] & Hx); rewrite Esn in Hx; naive_solver].
    + by destruct (truthy (header "x-requested-with" rq)).
Qed.

(** *** What a request must show, without the program's gates *)

(** A request the cross-site filter has no reason to stop: a safe method, a path outside
    the API, an origin among the trusted ones, or, where there is none, a trusted page
    named by the Referer or the header a page of another site cannot set. *)
Definition trusted_request (trusted : list string) (rq : Request) : Prop :=
  rq_method rq ∈ ["GET"; "HEAD"; "OPTIONS"] \/ str_startswith "/api/" (rq_path rq) = false \/
  (exists o, header "origin" rq = Some o /\ o ∈ trusted) \/
  (truthy (header "origin" rq) = false /\
   exists page s n, header "referer" rq = Some page /\ urlparse page = Some (s, n) /\ s <> "" /\ n <> "" /\
     s +:+ "://" +:+ n ∈ trusted) \/
  (truthy (header "origin" rq) = false /\ truthy (header "referer" rq) = false /\
   exists x, header "x-requested-with" rq = Some x /\ x <> "").

Lemma truthy_some o : truthy o = true -> exists x, o = Some x /\ x <> "".
Proof. destruct o as [x|]; [|done]. cbn. intros Hx. exists x. split; [done|]. by apply String.eqb_neq, negb_true_iff. Qed.

Lemma csrf_forward live cors_list rq :
  csrf_origin_check live cors_list rq = CsrfForward ->
  trusted_request (same_origin rq ++ match live with Some l => l | None => cors_list end)%list rq.
Proof.
  unfold csrf_origin_check, trusted_request.
  destruct (mem (rq_method rq) SAFE_METHODS) eqn:Es; [intros _; left; exact (proj1 (mem_true _ SAFE_METHODS) Es)|].
  destruct (str_startswith "/api/" (rq_path rq)); [|intros _; right; by left]. cbn [negb]. cbv zeta.
  set (trusted := (same_origin rq ++ _)%list).
  destruct (truthy (header "origin" rq)) eqn:Eo; cbn [negb andb].
  { destruct (header "origin" rq) as [o|]; [|done]. cbn [truthy] in Eo. rewrite Eo.
    destruct (mem o trusted) eqn:Em; [|done]. intros _. do 2 right. left. exists o. by rewrite <- mem_true. }
  destruct (truthy (header "referer" rq)) eqn:Er; cbn [negb andb].
  - apply truthy_some in Er as (page & -> & Hp). cbn [default from_option id].
    intros Hf. do 2 right. destruct (header "origin" rq) as [o|] eqn:Eh; [cbn [truthy] in Eo; rewrite Eo in Hf|];
      (destruct (urlparse page) as [[s n]|] eqn:Eu; [|done]);
      (destruct (String.eqb_spec s ""), (String.eqb_spec n ""); cbn [negb andb] in Hf);
      first [right; left; split; [done|]; exists page, s, n; split_and!; try done;
             apply mem_true; by destruct (mem _ trusted)
            |left; exists o; split; [done|]; apply mem_true; by destruct (mem o trusted)
            |done].
  - destruct (truthy (header "x-requested-with" rq)) eqn:Ex; [|done]. intros _. do 4 right.
    split_and!; try done. by apply truthy_some.
Qed.

(** The token a request presents: the session cookie, or else a bearer header. *)
Definition presents (rq : Request) (tok : string) : Prop :=
  tok <> "" /\
  (od_get "genwatch_session" (rq_cookies rq) = Some tok \/
   truthy (od_get "genwatch_session" (rq_cookies rq)) = false /\
   exists scheme, header "authorization" rq = Some (scheme +:+ " " +:+ tok) /\ str_lower scheme = "bearer").

Section session_spec.
Variable jwt_decode : Z -> string -> string -> jwt_result.

(** [c] are the claims of a valid session of the request. *)
Definition session_claims (now : Z) (secret : string) (rq : Request) (c : claims) : Prop :=
  exists tok, presents rq tok /\ secret <> "" /\ jwt_decode now tok secret = JwtOk c.

Lemma lower_space c : ascii_lower c = Ascii.ascii_of_nat 32 -> c = Ascii.ascii_of_nat 32.
Proof. by destruct c as [[] [] [] [] [] [] [] []]; vm_compute. Qed.

Lemma substring_all n s : (String.length s <= n)%nat -> String.substring 0 n s = s.
Proof. revert n. induction s as [|c s IH]; intros [|n] Hn; cbn in *; [done..|lia|]. by rewrite IH by lia. Qed.

Lemma prefix_split p s : String.prefix p s = true -> exists r, s = p +:+ r.
Proof.
  revert s. induction p as [|c p IH]; intros [|d s]; cbn; try done; [by exists ""|by exists (String d s)|].
  destruct (Ascii.ascii_dec c d) as [->|]; [|done]. intros (r & ->)%IH. by exists r.
Qed.

Lemma str_map_split f a b s : str_map f s = a +:+ b -> exists a' b', s = a' +:+ b' /\ str_map f a' = a /\ str_map f b' = b.
Proof.
  revert s. induction a as [|c a IH]; intros s H; [by exists "", s|].
  destruct s as [|d s]; [done|]. injection H as Hd H. apply IH in H as (a' & b' & -> & <- & <-).
  exists (String d a'), b'. cbn. by rewrite Hd.
Qed.

Lemma bearer_spec auth tok :
  bearer auth = Some tok -> exists scheme, auth = scheme +:+ " " +:+ tok /\ str_lower scheme = "bearer".
Proof.
  unfold bearer. destruct (str_startswith _ _) eqn:Es; [|done]. intros [= <-].
  apply prefix_split in Es as (r & Er). change ("bearer " +:+ r) with ("bearer" +:+ " " +:+ r) in Er.
  apply str_map_split in Er as (a & b & -> & Ea & Eb). exists a. split; [|exact Ea].
  destruct b as [|c b]; [done|]. injection Eb as Ec _. apply lower_space in Ec as ->.
  do 6 (destruct a as [|? a]; [done|]). destruct a as [|? a]; [|done].
  match goal with |- _ = _ +:+ _ +:+ String.substring 7 ?m _ => change (String.substring 7 m _) with (String.substring 0 m b) end.
  rewrite substring_all; [done|]. unfold String.append. cbn. lia.
Qed.

(** A principal is that of a valid session. *)
Lemma principal_session now secret rq p :
  get_principal jwt_decode now secret rq = inr p ->
  exists c, session_claims now secret rq c /\
    p = {| p_operator := default "operator" (cl_sub c); p_role := default "viewer" (cl_role c) |}.
Proof.
  unfold get_principal. destruct (session_token rq) as [tok|] eqn:Et; [|done].
  destruct (String.eqb_spec tok "") as [|Hne]; [done|]. unfold decode_token.
  destruct (String.eqb_spec secret "") as [|Hs]; [done|]. destruct (jwt_decode now tok secret) as [c| |] eqn:Ej; try done.
  intros [= <-]. exists c. split; [|done]. exists tok. split_and!; [|done|done]. split; [done|].
  unfold session_token in Et. destruct (truthy (od_get _ _)) eqn:Ec; [by left|]. right. split; [done|].
  destruct (header "authorization" rq) as [auth|]; [|done]. cbn [default from_option id] in Et.
  apply bearer_spec in Et as (scheme & -> & Hl). by exists scheme.
Qed.

(** What the gates let pass and how they refuse. *)
Lemma operator_session now secret rq :
  match require_operator jwt_decode now secret rq with
  | inl e => he_status e = 401 \/ he_status e = 403
  | inr p => exists c, session_claims now secret rq c /\ (cl_role c = Some "operator" \/ cl_role c = Some "admin")
  end%Z.
Proof.
  unfold require_operator. pose proof (principal_session now secret rq) as Hp.
  destruct (get_principal _ _ _ _) as [e|p] eqn:Eg.
  - left. revert Eg. unfold get_principal. destruct (session_token rq) as [t|]; [|by intros [= <-]].
    destruct (t =? ""); [by intros [= <-]|]. destruct (decode_token _ _ _ _); [by intros [= <-]|done].
  - destruct (Hp p eq_refl) as (c & Hc & ->). destruct (mem _ _) eqn:Em; [|by right]. exists c. split; [done|].
    apply mem_true in Em. cbn in Em. destruct (cl_role c); cbn in Em; set_solver.
Qed.

Lemma admin_session now secret rq :
  match require_admin jwt_decode now secret rq with
  | inl e => he_status e = 401 \/ he_status e = 403
  | inr p => exists c, session_claims now secret rq c /\ cl_role c = Some "admin"
  end%Z.
Proof.
  unfold require_admin. pose proof (principal_session now secret rq) as Hp.
  destruct (get_principal _ _ _ _) as [e|p] eqn:Eg.
  - left. revert Eg. unfold get_principal. destruct (session_token rq) as [t|]; [|by intros [= <-]].
    destruct (t =? ""); [by intros [= <-]|]. destruct (decode_token _ _ _ _); [by intros [= <-]|done].
  - destruct (Hp p eq_refl) as (c & Hc & ->). destruct (String.eqb_spec (p_role {| p_operator := default "operator" (cl_sub c); p_role := default "viewer" (cl_role c) |}) "admin") as [Em|]; [|by right].
    exists c. split; [done|]. cbn in Em. destruct (cl_role c); cbn in Em; congruence.
Qed.
End session_spec.

Theorem csrf_ws_agree cors rq o :
  header "origin" rq = Some o -> o <> "" ->
  rq_method rq ∉ SAFE_METHODS -> str_startswith "/api/" (rq_path rq) = true ->
  csrf_origin_check (Some cors) [] rq = CsrfForward <-> origin_allowed cors rq = true.
Proof.
  intros Ho Hne Hm Hp. unfold csrf_origin_check, origin_allowed. rewrite Hp, Ho.
  destruct (mem (rq_method rq) SAFE_METHODS) eqn:Es; [by apply mem_true in Es|]. cbn [negb truthy].
  rewrite (proj2 (String.eqb_neq _ _) Hne). cbn [negb andb].
  assert (mem o (same_origin rq ++ cors)%list = mem o (same_origin rq) || mem o (List.filter (fun x => negb (x =? "")) cors)) as ->.
  { apply Bool.eq_true_iff_eq. rewrite orb_true_iff, !mem_true, elem_of_app, !list_elem_of_In, filter_In.
    apply String.eqb_neq in Hne. rewrite Hne. cbn. tauto. }
  destruct (mem o (same_origin rq)); cbn [orb]; [done|]. by destruct (mem o (List.filter _ cors)).
Qed.

Lemma secret_usable secret :
  secret_unusable secret = false -> (32 <= String.length secret)%nat /\ secret <> PLACEHOLDER.
Proof. unfold secret_unusable. intros Hu. breflect. split; [by apply Nat.ltb_ge|done]. Qed.

Theorem secret_gates_sound mock ephemeral auth secret :
  (64 <= String.length ephemeral)%nat ->
  secret_gates mock ephemeral auth = inr secret ->
  (32 <= String.length secret)%nat /\
  (mock = false -> secret = ac_jwt_secret auth /\ secret <> PLACEHOLDER /\
     str_startswith "$2" (ac_admin_password_hash auth) = true).
Proof.
  intros He. unfold secret_gates. pose proof (secret_usable (ac_jwt_secret auth)) as Hs.
  destruct (secret_unusable (ac_jwt_secret auth)), mock; cbn [andb negb]; try done.
  - intros [= <-]. split; [lia|done].
  - intros [= <-]. by split; [apply Hs|].
  - destruct (str_startswith "$2" _); cbn [negb]; [|by rewrite orb_true_r].
    destruct (_ || _); [done|]. intros [= <-]. destruct Hs; by split.
Qed.

(** *** Guessing the password *)

Section guesses.
Variables (checkpw : string -> string -> bool) (jwt_issue : Z -> string -> string -> string -> Z -> string).

(** Attempts of one client at wall and monotonic times, and the results. *)
Record attempt : Type := { at_now : Z; at_mono : Z; at_rq : Request; at_password : string }.
Fixpoint login_run (auth : AuthConfig) (atts : list attempt) (s : LoginState) : list (HttpError + Cookie) * LoginState :=
  match atts with
  | [] => ([], s)
  | a :: rest =>
      let '(r, s1) := login checkpw jwt_issue (at_now a) (at_mono a) auth (at_rq a) (at_password a) s in
      let '(rs, s2) := login_run auth rest s1 in (r :: rs, s2)
  end.

(** A wrong password of a client that was compared, and a login of that client. *)
Definition wrong_guess (auth : AuthConfig) (ip : string) (a : attempt) (r : HttpError + Cookie) : bool :=
  (client_ip (at_rq a) =? ip) && negb (verify_password checkpw (at_password a) (ac_admin_password_hash auth)) &&
  match r with inl e => negb (he_status e =? 429)%Z | inr _ => true end.
Definition logged_in (ip : string) (a : attempt) (r : HttpError + Cookie) : bool :=
  (client_ip (at_rq a) =? ip) && match r with inr _ => true | inl _ => false end.

Definition count_in (p : attempt -> (HttpError + Cookie) -> bool) (atts : list attempt) (rs : list (HttpError + Cookie)) : Z :=
  Z.of_nat (length (List.filter (fun ar => p (fst ar) (snd ar)) (combine atts rs))).

Lemma count_in_cons p a atts r rs : count_in p (a :: atts) (r :: rs) = ((if p a r then 1 else 0) + count_in p atts rs)%Z.
Proof. unfold count_in. cbn [combine List.filter fst snd]. destruct (p a r); cbn [length]; lia. Qed.

Abbreviation limiter_inv := (limiter_ok 5 (1 # 180)).

(** One attempt: what is guessed is paid for from the client's bucket, which a login fills. *)
Lemma login_level auth ip a s :
  ac_admin_password_hash auth <> "" -> limiter_inv (at_mono a) (ls_limiter s) ->
  let '(r, s') := login checkpw jwt_issue (at_now a) (at_mono a) auth (at_rq a) (at_password a) s in
  limiter_inv (at_mono a) (ls_limiter s') /\
  (inject_Z (if wrong_guess auth ip a r then 1 else 0) + level ip (at_mono a) (ls_limiter s') <=
     level ip (at_mono a) (ls_limiter s) + 5 * inject_Z (if logged_in ip a r then 1 else 0))%Q.
Proof.
  intros Hh Hok. unfold login. rewrite (proj2 (String.eqb_neq _ _) Hh).
  pose proof (check_level 5 (1 # 180) ltac:(vm_compute; discriminate) ltac:(vm_compute; discriminate)
                (at_mono a) (client_ip (at_rq a)) (ls_limiter s) Hok) as Hc.
  destruct (check (at_mono a) (client_ip (at_rq a)) (ls_limiter s)) as [ok limiter]. destruct Hc as (Hok' & Hle & Hother).
  unfold wrong_guess, logged_in. cbn [ls_limiter].
  assert (level ip (at_mono a) limiter <= level ip (at_mono a) (ls_limiter s))%Q as Hmono.
  { destruct (String.eqb_spec (client_ip (at_rq a)) ip) as [<-|Hne]; [|by rewrite Hother by congruence; apply Qle_refl].
    destruct ok; [change (inject_Z 1) with 1%Q in Hle|change (inject_Z 0) with 0%Q in Hle]; lra. }
  destruct ok; cbn [negb].
  - destruct (verify_password checkpw (at_password a) (ac_admin_password_hash auth)); cbn [negb ls_limiter].
    + destruct (reset_level 5 (1 # 180) (at_mono a) (client_ip (at_rq a)) limiter Hok') as (H1 & H2 & H3).
      split; [exact H1|]. rewrite andb_false_r. cbn [andb]. rewrite andb_true_r. change (inject_Z 0) with 0%Q.
      destruct (String.eqb_spec (client_ip (at_rq a)) ip) as [<-|Hne]; [|rewrite H3 by congruence; change (inject_Z 0) with 0%Q; lra].
      pose proof (level_bounds 5 (1 # 180) ltac:(vm_compute; discriminate) ltac:(vm_compute; discriminate)
                    (client_ip (at_rq a)) (at_mono a) _ Hok) as [H0 _].
      rewrite H2. change (inject_Z 1) with 1%Q. lra.
    + split; [exact Hok'|]. rewrite !andb_true_r. cbn [he_status http_error Z.eqb Pos.eqb negb andb]. rewrite ?andb_true_r, ?andb_false_r.
      change (inject_Z 0) with 0%Q. destruct (String.eqb_spec (client_ip (at_rq a)) ip) as [<-|Hne]; [change (inject_Z 1) with 1%Q in *; lra|].
      change (inject_Z 0) with 0%Q. lra.
  - split; [exact Hok'|]. cbn [he_status http_error_code Z.eqb Pos.eqb negb]. rewrite !andb_false_r.
    cbn [ls_limiter]. change (inject_Z 0) with 0%Q. lra.
Qed.

Lemma login_run_level auth ip atts : forall s t,
  ac_admin_password_hash auth <> "" -> limiter_inv t (ls_limiter s) -> ordered t (map at_mono atts) ->
  let '(rs, s') := login_run auth atts s in
  let fin := List.last (map at_mono atts) t in
  limiter_inv fin (ls_limiter s') /\
  (inject_Z (count_in (wrong_guess auth ip) atts rs) <=
     level ip t (ls_limiter s) + 5 * inject_Z (count_in (logged_in ip) atts rs) + (1 # 180) * seconds (fin - t))%Q.
Proof.
  induction atts as [|a atts IH]; intros s t Hh Hok Ho; cbn [login_run map List.last].
  { split; [done|]. rewrite Z.sub_diag. change (inject_Z (count_in _ [] [])) with 0%Q. change (inject_Z (count_in _ [] [])) with 0%Q.
    pose proof (level_bounds 5 (1 # 180) ltac:(vm_compute; discriminate) ltac:(vm_compute; discriminate) ip t _ Hok).
    assert (seconds 0 == 0)%Q as -> by reflexivity. lra. }
  destruct Ho as [Ht Ho]. pose proof (limiter_ok_later _ _ _ _ _ Ht Hok) as Hok1.
  pose proof (level_later 5 (1 # 180) ltac:(vm_compute; discriminate) ip _ _ _ Ht Hok) as Hlater.
  pose proof (login_level auth ip a s Hh Hok1) as Hstep.
  destruct (login _ _ _ _ _ _ _ s) as [r s1]. destruct Hstep as [Hok2 Hle].
  specialize (IH s1 (at_mono a) Hh Hok2 Ho). destruct (login_run auth atts s1) as [rs s2]. cbv zeta in IH |- *.
  change (match map at_mono atts with [] => at_mono a | _ :: _ => List.last (map at_mono atts) t end)
    with (List.last (at_mono a :: map at_mono atts) t).
  rewrite last_cons_default. destruct IH as [Hfin Hrest]. split; [exact Hfin|].
  rewrite !count_in_cons, !inject_Z_plus. pose proof (seconds_diff (List.last (map at_mono atts) (at_mono a)) (at_mono a) t) as Hd.
  assert ((1 # 180) * seconds (List.last (map at_mono atts) (at_mono a) - t) ==
          (1 # 180) * seconds (List.last (map at_mono atts) (at_mono a) - at_mono a) + (1 # 180) * seconds (at_mono a - t))%Q as -> by (rewrite <- Hd; ring).
  lra.
Qed.

Lemma ordered_times_app t l k : ordered t (l ++ k) <-> ordered t l /\ ordered (List.last l t) k.
Proof.
  revert t. induction l as [|u l IH]; intros t; [cbn; tauto|]. rewrite last_cons_default. cbn [app ordered]. rewrite IH. tauto.
Qed.

(** C37. From the start of the program on, whatever any clients try, in any stretch of
    attempts the wrong passwords of one client that are compared number at most five, five
    more for each login of that client in the stretch, and one per 180 s of the time it
    spans. *)
Theorem login_guesses_bounded auth ip before a atts s0 t0 :
  ls_limiter s0 = login_limiter -> ac_admin_password_hash auth <> "" ->
  ordered t0 (map at_mono (before ++ a :: atts)) ->
  let s := snd (login_run auth before s0) in
  let rs := fst (login_run auth (a :: atts) s) in
  (inject_Z (count_in (wrong_guess auth ip) (a :: atts) rs) <=
     5 + 5 * inject_Z (count_in (logged_in ip) (a :: atts) rs) +
     (1 # 180) * seconds (List.last (map at_mono atts) (at_mono a) - at_mono a))%Q.
Proof.
  intros Hl Hh Ho. cbv zeta. rewrite map_app in Ho. apply ordered_times_app in Ho as [Hb [Ha Ho]].
  assert (limiter_inv t0 (ls_limiter s0)) as H0.
  { rewrite Hl. split_and!; [done..|]. intros k b Hk. cbn in Hk. by rewrite lookup_empty in Hk. }
  pose proof (login_run_level auth ip before s0 t0 Hh H0 Hb) as Hpre.
  destruct (login_run auth before s0) as [rs0 s]. destruct Hpre as [Hok _]. cbn [snd].
  pose proof (limiter_ok_later _ _ _ _ _ Ha Hok) as Hok1.
  pose proof (login_run_level auth ip (a :: atts) s (at_mono a) Hh Hok1) as Hrun.
  assert (ordered (at_mono a) (map at_mono (a :: atts))) as Hord by (split; [lia|done]). specialize (Hrun Hord).
  destruct (login_run auth (a :: atts) s) as [rs s']. cbv zeta in Hrun. destruct Hrun as [_ Hle]. cbn [fst map] in *.
  rewrite last_cons_default in Hle.
  pose proof (level_bounds 5 (1 # 180) ltac:(vm_compute; discriminate) ltac:(vm_compute; discriminate) ip (at_mono a) _ Hok1). lra.
Qed.
End guesses.
