(* ===== verification/Acceptance.v ===== *)
(** * The commissioning script (deploy/scripts/acceptance_test.py)

    The acceptance test as a program over a service: its HTTP client with one cookie jar
    per session, the checks of its sections in their order, and the verdict.  What is
    printed with a row, beyond its status and name, is not modelled.

    Theorems: whatever the service answers, the script sends a command endpoint no token
    but two words that are no tokens, unless it was asked to drive the mock controller and
    the service reported mock mode, and then only to start and stop the engine; and
    against any service behind the cross-site filter of main.py it ends with the verdict
    NOT READY, because its requests carry none of the headers the filter asks for. *)

From S2P Require Import Prelude PyNum PyVal Database RateLimit Http.

Local Open Scope Z_scope.
Local Open Scope gw_scope.
Local Open Scope string_scope.

(** ** The result harness *)

Inductive status : Type := PASS | FAIL | WARN | SKIP | INFO.
#[export] Instance status_eq_dec : EqDecision status.
Proof. solve_decision. Defined.

Record row : Type := { rw_section : string; rw_status : status; rw_name : string }.
Definition count_status (s : status) (rows : list row) : nat := length (List.filter (fun r => bool_decide (rw_status r = s)) rows).

(** [summarize]: the exit code. *)
Definition summarize (rows : list row) : Z := if bool_decide (count_status FAIL rows = 0%nat) then 0 else 1.

(** ** The HTTP client *)

(** The body of a reply: empty or unreadable, JSON, or other text. *)
Inductive raw_body : Type := BodyEmpty | BodyJson (v : pyval) | BodyOther (text : string).
(** [rp_code] is [None] when the transport failed. *)
Record Reply : Type := { rp_code : option Z; rp_body : raw_body; rp_cookie : option (string * Cookie) }.

Definition read_json (b : raw_body) : list (string * pyval) :=
  match b with
  | BodyEmpty => []
  | BodyJson (PvDict d) => d
  | BodyJson v => [("_list", v)]
  | BodyOther text => [("_raw", PvStr (String.substring 0 200 text))]
  end.

Definition jar : Type := odict string Cookie.
(** A secure cookie goes back over https only. *)
Definition jar_cookies (https : bool) (j : jar) : odict string string :=
  map (fun nc => (fst nc, ck_value (snd nc))) (List.filter (fun nc => https || negb (ck_secure (snd nc))) j).
Definition jar_update (j : jar) (c : option (string * Cookie)) : jar :=
  match c with
  | Some (name, c) => if (ck_max_age c <=? 0)%Z then od_del name j else od_set name c j
  | None => j
  end.

(** A request as it goes out: the query of its path apart, and the JSON body. *)
Record sent : Type := { sn_request : Request; sn_query : string; sn_body : option pyval }.

Record Args : Type := {
  ar_base_url : string; ar_password : option string; ar_expected_unit_id : Z; ar_expect_mock : option bool;
  ar_actuate : bool; ar_local_checks : bool
}.

(** What the script finds on its host. *)
Inductive systemctl_result : Type := CtlOutput (text : string) | CtlMissing | CtlRaised.
Record Host : Type := {
  ho_env_password : option string; ho_prompt : string; ho_nonce : string; ho_client : option string;
  ho_systemctl : string -> string -> systemctl_result; ho_watchdog : bool;
  ho_rounds : nat                   (* polls of [_wait_state] before its deadline *)
}.

Record Script (S : Type) : Type := {
  sc_service : S; sc_anon : jar; sc_auth : jar; sc_section : string; sc_rows : list row; sc_sent : list sent
}.
Arguments sc_service {S}. Arguments sc_anon {S}. Arguments sc_auth {S}. Arguments sc_section {S}.
Arguments sc_rows {S}. Arguments sc_sent {S}. Arguments Build_Script {S}.

Section script.
Context {S : Type}.
(** The service: the request, its query and its body; and a second that passes. *)
Variables (respond : sent -> S -> Reply * S) (pause : S -> S).
Variables (args : Args) (host : Host).

Definition run (A : Type) : Type := SE (Script S) pyexc A.

Definition section (title : string) : run unit :=
  modify (fun s => {| sc_service := sc_service s; sc_anon := sc_anon s; sc_auth := sc_auth s; sc_section := title;
                      sc_rows := sc_rows s; sc_sent := sc_sent s |}).
Definition add (st : status) (name : string) : run unit :=
  modify (fun s => {| sc_service := sc_service s; sc_anon := sc_anon s; sc_auth := sc_auth s; sc_section := sc_section s;
                      sc_rows := (sc_rows s ++ [{| rw_section := sc_section s; rw_status := st; rw_name := name |}])%list;
                      sc_sent := sc_sent s |}).

Inductive session : Type := Anon | Auth.
Definition jar_of (who : session) (s : Script S) : jar := match who with Anon => sc_anon s | Auth => sc_auth s end.

Definition https : bool := str_startswith "https" (ar_base_url args).
Definition base_host : string := match urlparse (ar_base_url args) with Some (_, netloc) => netloc | None => "" end.

Definition headers_of (body : option pyval) (extra : odict string string) : odict string string :=
  foldl (fun h kv => od_set (fst kv) (snd kv) h)
    ([("host", base_host); ("user-agent", "Python-urllib"); ("accept-encoding", "identity"); ("connection", "close");
      ("accept", "application/json")] ++ match body with Some _ => [("content-type", "application/json")] | None => [] end)%list
    extra.

(** [Http.__call__] *)
Definition http (who : session) (method path query : string) (body : option pyval) (extra : odict string string)
    : run (option Z * list (string * pyval)) := fun s =>
  let q := {| sn_request := {| rq_method := method; rq_path := path; rq_headers := headers_of body extra;
                               rq_cookies := jar_cookies https (jar_of who s); rq_client := ho_client host;
                               rq_scheme := if https then "https" else "http" |};
              sn_query := query; sn_body := body |} in
  let '(r, service) := respond q (sc_service s) in
  let j := jar_update (jar_of who s) (rp_cookie r) in
  (inr (rp_code r, match rp_code r with Some _ => read_json (rp_body r) | None => [("_transport_error", PvStr "")] end),
   {| sc_service := service; sc_anon := match who with Anon => j | Auth => sc_anon s end;
      sc_auth := match who with Auth => j | Anon => sc_auth s end; sc_section := sc_section s; sc_rows := sc_rows s;
      sc_sent := (sc_sent s ++ [q])%list |}).

Definition get (who : session) (path : string) : run (option Z * list (string * pyval)) := http who "GET" path "" None [].
Definition post (who : session) (path : string) (body : list (string * pyval)) : run (option Z * list (string * pyval)) :=
  http who "POST" path "" (Some (PvDict body)) [].

(** ** Helpers *)

Definition dget (k : string) (d : list (string * pyval)) : pyval := default PvNone (od_get k d).
Definition lift {A} (r : res A) : run A := fun s => (r, s).
Definition code_is (n : Z) (code : option Z) : bool := bool_decide (code = Some n).
Definition when_ok (b : bool) : status := if b then PASS else FAIL.
Definition or_warn (b : bool) : status := if b then PASS else WARN.

Definition resolve_password : string :=
  if truthy (ar_password args) then default "" (ar_password args)
  else if truthy (ho_env_password host) then default "" (ho_env_password host)
  else ho_prompt host.

Definition rejected (code : option Z) : bool := match code with Some c => (400 <=? c)%Z | None => false end.

(** [_detail_code] *)
Definition detail_code (body : list (string * pyval)) : pyval :=
  match dget "detail" body with PvDict d => dget "code" d | _ => PvNone end.

Definition is_str (s : string) (v : pyval) : bool := match v with PvStr x => x =? s | _ => false end.
(** [v in {...}] for strings: a list or a dict cannot be hashed. *)
Definition in_set (l : list string) (v : pyval) : res bool :=
  match v with
  | PvStr x => inr (existsb (String.eqb x) l)
  | PvList _ | PvDict _ => inl TypeError
  | _ => inr false
  end.
(** [v == n] *)
Definition is_int (n : Z) (v : pyval) : bool :=
  match v with PvNum x => py_leb x (PInt n) && py_leb (PInt n) x | PvBool b => ((if b then 1 else 0) =? n)%Z | _ => false end.
(** [len(v)] *)
Definition pv_len (v : pyval) : res Z :=
  match v with
  | PvStr s => inr (Z.of_nat (String.length s)) | PvList l => inr (Z.of_nat (length l))
  | PvDict d => inr (Z.of_nat (length d)) | _ => inl TypeError
  end.

Definition engine_of (st : list (string * pyval)) : pyval := pv_or (dget "state" st) (dget "engineState" st).

Fixpoint wait_state (rounds : nat) (targets : list string) : run bool :=
  match rounds with
  | O => se_ret false
  | Datatypes.S n =>
      r <-- get Auth "/api/status" ;;
      hit <-- lift (in_set targets (engine_of (snd r))) ;;
      if (hit : bool) then se_ret true
      else modify (fun s => {| sc_service := pause (sc_service s); sc_anon := sc_anon s; sc_auth := sc_auth s;
                               sc_section := sc_section s; sc_rows := sc_rows s; sc_sent := sc_sent s |}) ;;;
           wait_state n targets
  end.

Definition systemctl (verb unit_ label : string) : run unit :=
  match ho_systemctl host verb unit_ with
  | CtlOutput val => add (or_warn (((verb =? "is-active") && (val =? "active")) || ((verb =? "is-enabled") && (val =? "enabled")))) label
  | CtlMissing => add SKIP label
  | CtlRaised => add WARN label
  end.
(** ** The sections *)

Definition section_connectivity : run (option bool) :=
  section "1. Connectivity & mode" ;;;
  r <-- get Anon "/api/health" ;;
  let '(code, health) := r in
  if negb (code_is 200 code) || negb (pv_truth (dget "ok" health)) then
    add FAIL "service reachable" ;;; se_ret None
  else
    add PASS "service reachable" ;;;
    let mock := pv_truth (dget "mock" health) in
    add INFO "mock mode" ;;;
    match ar_expect_mock args with
    | Some expected => add (when_ok (Bool.eqb mock expected)) "mock matches --expect-mock"
    | None => se_ret tt
    end ;;;
    add (or_warn (negb (existsb (fun k => od_mem k health) ["version"; "dbBytes"; "uptimeS"; "comms"; "engineState"])))
      "anon health is minimal" ;;;
    se_ret (Some mock).

Definition refused_unauthenticated (path : string) : run unit :=
  r <-- post Anon path [("confirm_token", PvStr "none")] ;;
  add (when_ok (code_is 401 (fst r))) ("unauthenticated POST " +:+ path +:+ " refused").

Definition section_auth : run bool :=
  section "2. Authentication & access control" ;;;
  r <-- get Anon "/api/status" ;;
  add (when_ok (code_is 401 (fst r))) "unauthenticated GET /api/status refused" ;;;
  refused_unauthenticated "/api/control/start" ;;;
  refused_unauthenticated "/api/ats/test" ;;;
  r <-- post Anon "/api/auth/login" [("password", PvStr ("wrong-" +:+ ho_nonce host))] ;;
  add (if code_is 401 (fst r) then PASS else if code_is 429 (fst r) then WARN else FAIL) "wrong password refused" ;;;
  r <-- post Auth "/api/auth/login" [("password", PvStr resolve_password)] ;;
  if negb (code_is 200 (fst r)) then add FAIL "admin login" ;;; se_ret false
  else
    add PASS "admin login" ;;;
    r <-- get Auth "/api/auth/me" ;;
    add (when_ok (code_is 200 (fst r))) "authenticated /api/auth/me" ;;;
    r <-- get Auth "/api/status" ;;
    add (when_ok (code_is 200 (fst r))) "authenticated GET /api/status" ;;;
    se_ret true.

Definition section_csrf : run unit :=
  section "3. CSRF protection" ;;;
  r <-- http Auth "POST" "/api/control/start" "" (Some (PvDict [("confirm_token", PvStr "none")]))
          [("origin", "http://evil.example.com")] ;;
  add (when_ok (code_is 403 (fst r))) "cross-origin POST blocked".

Definition BAD : string := "INVALID0000000000000000000000000".

Definition section_command_safety : run unit :=
  section "4. Command safety — confirm-token gate (non-actuating)" ;;;
  r <-- post Auth "/api/control/start" [] ;;
  add (when_ok (code_is 422 (fst r))) "control requires confirm_token" ;;;
  r <-- post Auth "/api/control/start" [("confirm_token", PvStr BAD)] ;;
  add (when_ok (rejected (fst r))) "control rejects invalid token" ;;;
  r <-- post Auth "/api/ats/test" [("confirm_token", PvStr BAD)] ;;
  add (if code_is 404 (fst r) && is_str "ats_disabled" (detail_code (snd r)) then SKIP else when_ok (rejected (fst r)))
    "ATS command rejects invalid token" ;;;
  r <-- http Auth "GET" "/api/control/confirm" "verb=start" None [] ;;
  add (when_ok (code_is 200 (fst r) && pv_truth (dget "token" (snd r)))) "confirm endpoint issues a token" ;;;
  add INFO "no actuation performed".

(** [(d.get(k) or {}).get(k')] *)
Definition get_in (k k' : string) (d : list (string * pyval)) : run pyval :=
  lift (pv_get k' PvNone (pv_or (dget k d) (PvDict []))).

Definition section_ats (st : list (string * pyval)) : run unit :=
  section "5. ATS-Pi integration & authority" ;;;
  enabled <-- get_in "ats" "enabled" st ;;
  if negb (pv_truth enabled) then add SKIP "ATS integration"
  else
    match dget "ats" st with
    | PvDict ats =>
        comms <-- get_in "comms" "state" ats ;;
        add (when_ok (is_str "healthy" comms)) "ATS comms healthy" ;;;
        add (or_warn (match dget "authoritative" ats with PvBool true => true | _ => false end)) "ATS authoritative" ;;;
        add (or_warn (is_int (ar_expected_unit_id args) (dget "atsPiUnitId" ats))) "ATS unit-id matches" ;;;
        add (or_warn (match dget "icdVersion" ats with PvList [a; b] => is_int 1 a && is_int 0 b | _ => false end)) "ICD version" ;;;
        add (or_warn (negb (pv_truth (dget "faultCodes" ats)))) "no active ATS faults" ;;;
        add (when_ok (existsb (fun p => is_str p (dget "position" ats)) ["utility"; "generator"; "transferring"; "unknown"]))
          "ATS position decoded"
    | _ => se_ret tt                        (* [get_in] has raised *)
    end.

Definition section_telemetry (mock : bool) (st : list (string * pyval)) : run unit :=
  section "6. Telemetry, state & events" ;;;
  add (or_warn (pv_truth (engine_of st))) "engine state present" ;;;
  hcomms <-- get_in "comms" "state" st ;;
  (if mock then add (or_warn (is_str "healthy" hcomms)) "H-100 comms (mock)" else add INFO "H-100 comms") ;;;
  r <-- get Auth "/api/events" ;;
  let '(code, ev) := r in
  lift (pv_len (if od_mem "_list" ev then dget "_list" ev else pv_or (dget "events" ev) (PvList []))) ;;;
  add (or_warn (code_is 200 code)) "events feed" ;;;
  r <-- get Auth "/api/telemetry/columns" ;;
  add (or_warn (code_is 200 (fst r))) "telemetry subsystem".

Definition section_local : run unit :=
  section "7. Local system (systemd / watchdog)" ;;;
  systemctl "is-active" "genwatch" "service active" ;;;
  systemctl "is-enabled" "genwatch" "service enabled at boot" ;;;
  add (or_warn (ho_watchdog host)) "hardware watchdog device".

(** The token of a verb, if the reply holds one. *)
Definition confirm (verb : string) : run (option Z * pyval) :=
  r <-- http Auth "GET" "/api/control/confirm" ("verb=" +:+ verb) None [] ;; se_ret (fst r, dget "token" (snd r)).

Definition section_actuate_mock (mock : bool) : run unit :=
  section "8. Actuation — MOCK GENERATOR ONLY (opt-in)" ;;;
  if negb mock then add SKIP "mock generator actuation"
  else
    r <-- get Auth "/api/status" ;;
    panel <-- get_in "panel" "mode" (snd r) ;;
    if negb (match panel with PvNone => true | _ => is_str "auto" panel end) then add SKIP "control happy-path"
    else if negb (is_str "stopped" (engine_of (snd r))) then add SKIP "control happy-path"
    else
      t <-- confirm "start" ;;
      if negb (code_is 200 (fst t)) || negb (pv_truth (snd t)) then add FAIL "issue start token"
      else
        r <-- post Auth "/api/control/start" [("confirm_token", snd t)] ;;
        if negb (code_is 200 (fst r)) then add FAIL "mock start accepted"
        else
          add PASS "mock start accepted" ;;;
          new <-- wait_state (ho_rounds host) ["cranking"; "running"; "exercising"] ;;
          add (when_ok new) "mock engine started" ;;;
          t <-- confirm "stop" ;;
          c <-- (if pv_truth (snd t) then r <-- post Auth "/api/control/stop" [("confirm_token", snd t)] ;; se_ret (fst r)
                 else se_ret None) ;;
          add (when_ok (code_is 200 c)) "mock stop accepted" ;;;
          back <-- wait_state (ho_rounds host) ["stopped"; "cooling"] ;;
          add (or_warn back) "mock engine stopped/cooling".

(** ** [main]: the exit code; an exception that escapes ends the interpreter. *)

Definition verdict : run Z := gets (fun s => summarize (sc_rows s)).

Definition main : run Z :=
  env <-- section_connectivity ;;
  match env with
  | None => add INFO "aborting" ;;; verdict
  | Some mock =>
      ok <-- section_auth ;;
      if negb ok then verdict
      else
        section_csrf ;;;
        section_command_safety ;;;
        r <-- get Auth "/api/status" ;;
        section_ats (snd r) ;;;
        section_telemetry mock (snd r) ;;;
        (if ar_local_checks args then section_local else se_ret tt) ;;;
        (if ar_actuate args then section_actuate_mock mock else se_ret tt) ;;;
        verdict
  end.

Definition script_init (service : S) : Script S :=
  {| sc_service := service; sc_anon := []; sc_auth := []; sc_section := ""; sc_rows := []; sc_sent := [] |}.
End script.

(** ** What the script sends *)

Definition is_command (q : sent) : bool :=
  (rq_method (sn_request q) =? "POST") &&
  (str_startswith "/api/control/" (rq_path (sn_request q)) || str_startswith "/api/ats/" (rq_path (sn_request q))).
(** No token, or a word that is none. *)
Definition harmless (body : option pyval) : Prop :=
  body ∈ map (fun d => Some (PvDict d)) [[]; [("confirm_token", PvStr "none")]; [("confirm_token", PvStr BAD)]].
(** A request of the script: a command carries no token unless [driving], and then it
    starts or stops the engine. *)
Definition permitted (driving : bool) (q : sent) : Prop :=
  is_command q = true ->
  harmless (sn_body q) \/ (driving = true /\ rq_path (sn_request q) ∈ ["/api/control/start"; "/api/control/stop"]).

Section trace.
Context {S : Type}.
Variables (respond : sent -> S -> Reply * S) (pause : S -> S) (args : Args) (host : Host).
Notation run := (SE (Script S) pyexc).

(** What the permitted requests preserve of the service. *)
Variables (driving : bool) (J : S -> Prop).
Hypothesis HJ : forall q s, permitted driving q -> J s -> J (snd (respond q s)).
Hypothesis Hpause : forall s, J s -> J (pause s).

Definition good (s : Script S) : Prop := Forall (permitted driving) (sc_sent s) /\ J (sc_service s).
Definition sends {A} (m : run A) : Prop := forall s, good s -> good (snd (m s)).

Lemma sends_ret {A} (a : A) : sends (se_ret a).
Proof. by intros s. Qed.
Lemma sends_bind {A B} (m : run A) (k : A -> run B) : sends m -> (forall a, sends (k a)) -> sends (se_bind m k).
Proof. intros Hm Hk s Hs. unfold se_bind. specialize (Hm s Hs). destruct (m s) as [[e|a] s']; [done|]. by apply Hk. Qed.
Lemma sends_same {A} (m : run A) :
  (forall s, sc_sent (snd (m s)) = sc_sent s /\ sc_service (snd (m s)) = sc_service s) -> sends m.
Proof. intros Hm s Hs. unfold good. by destruct (Hm s) as [-> ->]. Qed.
Lemma sends_if {A} (b : bool) (m1 m2 : run A) : sends m1 -> sends m2 -> sends (if b then m1 else m2).
Proof. by destruct b. Qed.
Lemma sends_http who method path query body extra :
  (forall rq, rq_method rq = method -> rq_path rq = path ->
     permitted driving {| sn_request := rq; sn_query := query; sn_body := body |}) ->
  sends (http respond args host who method path query body extra).
Proof.
  intros HP s [Hs Hj]. unfold http. match goal with |- context [respond ?q ?sv] =>
    assert (permitted driving q) as Hq by (by apply HP); pose proof (HJ q sv Hq Hj) as Hj' end.
  destruct (respond _ _) as [r service]. split; [|done]. cbn. apply Forall_app. split; [done|].
  by constructor.
Qed.

Lemma permitted_get rq query body : rq_method rq = "GET" -> permitted driving {| sn_request := rq; sn_query := query; sn_body := body |}.
Proof. intros Hm. unfold permitted, is_command. cbn. by rewrite Hm. Qed.
Lemma permitted_other rq query body path :
  rq_path rq = path -> str_startswith "/api/control/" path || str_startswith "/api/ats/" path = false ->
  permitted driving {| sn_request := rq; sn_query := query; sn_body := body |}.
Proof. intros <- Hp. unfold permitted, is_command. cbn. by rewrite Hp, andb_false_r. Qed.
Lemma permitted_harmless rq query body :
  harmless body -> permitted driving {| sn_request := rq; sn_query := query; sn_body := body |}.
Proof. by left. Qed.

Lemma sends_get who path query extra : sends (http respond args host who "GET" path query None extra).
Proof. apply sends_http. intros rq Hm _. by apply permitted_get. Qed.
Lemma sends_login who body : sends (post respond args host who "/api/auth/login" body).
Proof. apply sends_http. intros rq _ Hp. by apply (permitted_other _ _ _ _ Hp). Qed.
Lemma sends_harmless who path body extra :
  harmless (Some (PvDict body)) ->
  sends (http respond args host who "POST" path "" (Some (PvDict body)) extra).
Proof. intros Hb. apply sends_http. intros rq _ _. by apply permitted_harmless. Qed.
Lemma sends_drive path body :
  driving = true -> path ∈ ["/api/control/start"; "/api/control/stop"] -> sends (post respond args host Auth path body).
Proof. intros Hd Hp. apply sends_http. intros rq _ <- _. by right. Qed.

Lemma sends_lift {A} (r : res A) : sends (lift r).
Proof. by apply sends_same. Qed.
Lemma sends_add st name : sends (add st name).
Proof. by apply sends_same. Qed.
Lemma sends_section title : sends (section title).
Proof. by apply sends_same. Qed.
Lemma sends_systemctl verb unit_ label : sends (systemctl host verb unit_ label).
Proof. apply sends_same. intros s. unfold systemctl. by destruct (ho_systemctl host verb unit_). Qed.

(** One step of a section. *)
Ltac sends_step :=
  match goal with
  | |- sends (se_bind _ _) => apply sends_bind; [|intros ?]
  | |- sends (se_ret _) => apply sends_ret
  | |- sends (lift _) => apply sends_lift
  | |- sends (add _ _) => apply sends_add
  | |- sends (section _) => apply sends_section
  | |- sends (systemctl _ _ _ _) => apply sends_systemctl
  | |- sends (gets _) => by apply sends_same
  | |- sends (http _ _ _ _ "GET" _ _ None _) => apply sends_get
  | |- sends (post _ _ _ _ "/api/auth/login" _) => apply sends_login
  | |- sends (http _ _ _ _ "POST" _ _ _ _) => apply sends_harmless; unfold harmless; set_solver
  | |- sends (if _ then _ else _) => apply sends_if
  | |- sends (match ?x with _ => _ end) => destruct x
  | |- sends (get _ _ _ _ _) => apply sends_get
  | |- sends (get_in _ _ _) => apply sends_lift
  end.
Ltac sends_all := repeat sends_step.

Lemma sends_connectivity : sends (section_connectivity respond args host).
Proof. unfold section_connectivity. sends_all. Qed.
Lemma sends_auth : sends (section_auth respond args host).
Proof. unfold section_auth, refused_unauthenticated. sends_all; unfold post; sends_all. Qed.
Lemma sends_csrf : sends (section_csrf respond args host).
Proof. unfold section_csrf. sends_all. Qed.
Lemma sends_safety : sends (section_command_safety respond args host).
Proof. unfold section_command_safety. sends_all; unfold post; sends_all. Qed.
Lemma sends_ats st : sends (section_ats args st).
Proof. unfold section_ats. sends_all. Qed.
Lemma sends_telemetry mock st : sends (section_telemetry respond args host mock st).
Proof. unfold section_telemetry. sends_all. Qed.
Lemma sends_local : sends (section_local host).
Proof. unfold section_local. sends_all. Qed.
Lemma sends_wait targets rounds : sends (wait_state respond pause args host rounds targets).
Proof. induction rounds as [|n IH]; cbn [wait_state]; sends_all; [|exact IH].
  intros s [Hs Hj]. split; [done|by apply Hpause].
Qed.
Lemma sends_actuate mock :
  (mock = true -> driving = true) -> sends (section_actuate_mock respond pause args host mock).
Proof.
  intros Hd. unfold section_actuate_mock, confirm. destruct mock; cbn [negb]; sends_all;
    first [apply sends_drive; [by apply Hd|set_solver] | apply sends_wait].
Qed.

(** [driving] when the actuation section runs and the service said it is in mock mode. *)
Lemma sends_main s :
  good s ->
  (ar_actuate args = true -> fst (section_connectivity respond args host s) = inr (Some true) -> driving = true) ->
  good (snd (main respond pause args host s)).
Proof.
  intros Hs Hd. unfold main, se_bind at 1. pose proof (sends_connectivity s Hs) as H1.
  destruct (section_connectivity respond args host s) as [[e|env] s1]; [done|]. cbn [fst snd] in *. revert s1 H1.
  change (sends (match env with
    | None => add INFO "aborting" ;;; verdict
    | Some mock =>
        ok <-- section_auth respond args host ;;
        if negb ok then verdict
        else
          section_csrf respond args host ;;;
          section_command_safety respond args host ;;;
          r <-- get respond args host Auth "/api/status" ;;
          section_ats args (snd r) ;;;
          section_telemetry respond args host mock (snd r) ;;;
          (if ar_local_checks args then section_local host else se_ret tt) ;;;
          (if ar_actuate args then section_actuate_mock respond pause args host mock else se_ret tt) ;;;
          verdict
    end)).
  destruct env as [mock|]; unfold verdict; [|sends_all]. destruct (ar_actuate args); cbv iota;
  repeat first [sends_step | apply sends_auth | apply sends_csrf | apply sends_safety | apply sends_ats
               | apply sends_telemetry | apply sends_local].
  apply sends_actuate. intros ->. by apply Hd.
Qed.
End trace.

(** ** Theorems *)

Section theorems.
Context {S : Type}.
Variables (respond : sent -> S -> Reply * S) (pause : S -> S) (args : Args) (host : Host).

(** Whatever the service answers, each command request of the script carries no token
    or one of two words that are none; unless it was asked to drive the mock, when it may
    also start and stop the engine, and the service reported mock mode. *)
Theorem non_actuating service :
  let sends := sc_sent (snd (main respond pause args host (script_init service))) in
  Forall (permitted (ar_actuate args)) sends /\
  ((forall q s, rq_path (sn_request q) = "/api/health" ->
      pv_truth (dget "mock" (read_json (rp_body (fst (respond q s))))) = false) ->
   Forall (permitted false) sends).
Proof.
  cbv zeta. split.
  - apply (sends_main respond pause args host (ar_actuate args) (fun _ => True)); done.
  - intros Hmock. apply (sends_main respond pause args host false (fun _ => True)); try done.
    intros _. unfold section_connectivity, get, http, se_bind, section, modify. cbn.
    match goal with |- context [respond ?q ?s] => pose proof (Hmock q s eq_refl) as Hm; destruct (respond q s) as [r s'] end.
    cbn [fst] in *. destruct (rp_code r) as [c|]; [|done].
    destruct (_ || _); [done|]. cbn. rewrite Hm. by destruct (ar_expect_mock args).
Qed.
End theorems.

(** *** Against the service's own filter *)

Section behind_filter.
Context {S : Type}.
Variables (cors : S -> list string) (inner : sent -> S -> Reply * S).

(** The middleware of [create_app] in front of any handlers. *)
Definition behind_filter (q : sent) (s : S) : Reply * S :=
  match csrf_origin_check (Some (cors s)) [] (sn_request q) with
  | CsrfForward => inner q s
  | CsrfBlocked message =>
      ({| rp_code := Some 403;
          rp_body := BodyJson (PvDict [("detail", PvDict [("code", PvStr "csrf_blocked"); ("message", PvStr message)])]);
          rp_cookie := None |}, s)
  | CsrfFault => ({| rp_code := Some 500; rp_body := BodyOther "Internal Server Error"; rp_cookie := None |}, s)
  end.

Variables (pause : S -> S) (args : Args) (host : Host).

(** A POST of the script without an Origin of its own is a 403. *)
Lemma post_refused who path body s :
  str_startswith "/api/" path = true ->
  exists d s', post behind_filter args host who path body s = (inr (Some 403, d), s') /\
    sc_rows s' = sc_rows s /\ sc_section s' = sc_section s.
Proof.
  intros Hp. unfold post, http, behind_filter. cbn -[str_startswith]. unfold csrf_origin_check.
  cbn -[str_startswith]. rewrite Hp. cbn. by do 2 eexists.
Qed.

Lemma get_rows who path s :
  exists r s', get behind_filter args host who path s = (inr r, s') /\ sc_rows s' = sc_rows s.
Proof. unfold get, http. destruct (behind_filter _ _) as [r service]. by do 2 eexists. Qed.

Definition failed (s : Script S) : Prop := exists r, r ∈ sc_rows s /\ rw_status r = FAIL.

Lemma failed_verdict s : failed s -> verdict s = (inr 1, s).
Proof.
  intros (r & Hr & Hf). unfold verdict, gets, summarize. f_equal. f_equal. case_bool_decide as Hc; [|done].
  unfold count_status in Hc. apply length_zero_iff_nil in Hc.
  assert (In r []) as []. rewrite <- Hc. apply filter_In. split; [by apply list_elem_of_In|]. by apply bool_decide_eq_true.
Qed.

Lemma failed_add st name s : failed s -> failed (snd (add st name s)).
Proof. intros (r & Hr & Hf). exists r. split; [cbn; set_solver|done]. Qed.
Lemma add_fails name s : failed (snd (add FAIL name s)).
Proof. eexists. split; [cbn; apply elem_of_app; right; by apply list_elem_of_singleton|done]. Qed.

(** A first step that returns leaves the rest to be run. *)
Lemma bind_runs {A B} (m : run A) (k : A -> run B) s a s1 (Q : (pyexc + B) * Script S -> Prop) :
  m s = (inr a, s1) -> Q (k a s1) -> Q (se_bind m k s).
Proof. intros Hm. unfold se_bind. by rewrite Hm. Qed.

(** The authentication section ends at the refused login. *)
Lemma auth_fails s :
  exists s', section_auth behind_filter args host s = (inr false, s') /\ failed s'.
Proof.
  unfold section_auth, refused_unauthenticated.
  eapply bind_runs; [reflexivity|]. cbv beta.
  destruct (get_rows Anon "/api/status"
    {| sc_service := sc_service s; sc_anon := sc_anon s; sc_auth := sc_auth s;
       sc_section := "2. Authentication & access control"; sc_rows := sc_rows s; sc_sent := sc_sent s |}) as (r & s1 & E1 & _).
  eapply bind_runs; [exact E1|]. cbv beta. eapply bind_runs; [reflexivity|]. cbv beta. rewrite !se_bind_assoc.
  edestruct (post_refused Anon "/api/control/start") as (d2 & s2 & E2 & _); [reflexivity|].
  eapply bind_runs; [exact E2|]. cbv beta. eapply bind_runs; [reflexivity|]. cbv beta. rewrite !se_bind_assoc.
  edestruct (post_refused Anon "/api/ats/test") as (d3 & s3 & E3 & _); [reflexivity|].
  eapply bind_runs; [exact E3|]. cbv beta. eapply bind_runs; [reflexivity|]. cbv beta.
  edestruct (post_refused Anon "/api/auth/login") as (d4 & s4 & E4 & _); [reflexivity|].
  eapply bind_runs; [exact E4|]. cbv beta. eapply bind_runs; [reflexivity|]. cbv beta.
  edestruct (post_refused Auth "/api/auth/login") as (d5 & s5 & E5 & _); [reflexivity|].
  eapply bind_runs; [exact E5|]. cbv beta. change (negb (code_is 200 (fst (Some 403, d5)))) with true. cbv iota.
  eapply bind_runs; [reflexivity|]. eexists. split; [reflexivity|]. apply add_fails.
Qed.

(** Against any service behind the cross-site filter of main.py, whatever its
    handlers, settings and state and whatever the arguments and password, the acceptance
    script ends with the exit code 1 of NOT READY: its requests carry none of the headers
    the filter asks for, so even its login is refused. *)
Theorem never_ready service :
  fst (main behind_filter pause args host (script_init service)) = inr 1.
Proof.
  unfold main.
  assert (forall s, (exists s', section_connectivity behind_filter args host s = (inr None, s') /\ failed s') \/
            exists mock s', section_connectivity behind_filter args host s = (inr (Some mock), s')) as Hc.
  { intros s. unfold section_connectivity.
    eapply (bind_runs _ _ _ _ _ (fun o => (exists s', o = (inr None, s') /\ failed s') \/ exists mock s', o = (inr (Some mock), s')));
      [reflexivity|]. cbv beta.
    edestruct (get_rows Anon "/api/health") as (r & s1 & E1 & _).
    eapply (bind_runs _ _ _ _ _ (fun o => (exists s', o = (inr None, s') /\ failed s') \/ exists mock s', o = (inr (Some mock), s')));
      [exact E1|]. cbv beta. destruct r as [code health]. destruct (_ || _).
    - left. eexists. split; [reflexivity|]. apply add_fails.
    - right. destruct (ar_expect_mock args); by do 2 eexists. }
  destruct (Hc (script_init service)) as [(s1 & E & Hf)|(mock & s1 & E)]; clear Hc.
  - eapply (bind_runs _ _ _ _ _ (fun o => fst o = inr 1)); [exact E|]. cbv beta iota.
    eapply (bind_runs _ _ _ _ _ (fun o => fst o = inr 1)); [reflexivity|]. cbv beta.
    by rewrite failed_verdict by by apply failed_add.
  - eapply (bind_runs _ _ _ _ _ (fun o => fst o = inr 1)); [exact E|]. cbv beta iota.
    destruct (auth_fails s1) as (s2 & E2 & Hf).
    eapply (bind_runs _ _ _ _ _ (fun o => fst o = inr 1)); [exact E2|]. cbn [negb]. by rewrite failed_verdict.
Qed.
End behind_filter.
