(* ===== verification/Auth.v ===== *)
(** * Passwords and session tokens (services/auth.py, api/auth.py)

    Hashing and checking the operator's password, issuing a session token, logging out
    and the identity check of the user interface.  bcrypt and the JWT library are classes
    with the documented behaviour the code relies on as laws.

    Theorems: a hash accepts exactly the passwords (without NUL bytes) that agree with the
    hashed one in their first 72 bytes; and the cookie of a login is an admin session of the configured
    operator until session_hours after it was issued, and no session from then on. *)

From S2P Require Import Prelude Database RateLimit Http.
From Stdlib Require Import Ascii.

Local Open Scope Z_scope.
Local Open Scope gw_scope.
Local Open Scope string_scope.

(** ** The libraries *)

Class Bcrypt : Type := {
  hashpw : string -> string -> string;       (* bytes, salt *)
  gensalt : nat -> string;                   (* the salt drawn at the n-th call *)
  checkpw : string -> string -> bool         (* [false] when it raises *)
}.
(** bcrypt reads its key cyclically up to a NUL byte, so the law is for keys without one. *)
Fixpoint nul_free (s : string) : bool :=
  match s with EmptyString => true | String c s => negb (Ascii.eqb c Ascii.zero) && nul_free s end.
Class BcryptLaws (B : Bcrypt) : Prop := {
  check_hash : forall raw raw' salt, nul_free raw = true -> nul_free raw' = true ->
    checkpw raw' (hashpw raw (gensalt salt)) = true <-> raw' = raw;
  hash_ascii : forall raw salt, is_ascii (hashpw raw (gensalt salt)) = true;
  hash_nonempty : forall raw salt, hashpw raw (gensalt salt) <> ""
}.

(** The payload of a session token; times in seconds. *)
Record payload : Type := { pl_sub : string; pl_role : string; pl_iat : Z; pl_exp : Z }.
Definition claims_of (p : payload) : claims := {| cl_sub := Some (pl_sub p); cl_role := Some (pl_role p); cl_exp := pl_exp p |}.

Class Jwt : Type := {
  jwt_encode : payload -> string -> string;
  jwt_decode : Z -> string -> string -> jwt_result
}.
(** HS256 with one key: a token decodes to its claims from its [iat] on until its [exp]. *)
Class JwtLaws (J : Jwt) : Prop := {
  decode_live : forall now p secret, secret <> "" -> sec (pl_iat p) <= now -> now < sec (pl_exp p) ->
    jwt_decode now (jwt_encode p secret) secret = JwtOk (claims_of p);
  decode_expired : forall now p secret, secret <> "" -> sec (pl_iat p) <= now -> sec (pl_exp p) <= now ->
    jwt_decode now (jwt_encode p secret) secret = JwtExpired;
  encode_nonempty : forall p secret, jwt_encode p secret <> ""
}.

(** ** services/auth.py *)

Definition hash_password `{Bcrypt} (plain : string) (salt : nat) : string := hashpw (bcrypt_bytes plain) (gensalt salt).

(** [issue_token]: an AuthError without a secret. *)
Definition issue_token `{Jwt} (now : Z) (secret operator role : string) (hours : Z) : string + string :=
  if secret =? "" then inl "auth not configured (missing jwt_secret)"
  else let now := now / sec 1 in
       inr (jwt_encode {| pl_sub := operator; pl_role := role; pl_iat := now; pl_exp := now + hours * 3600 |} secret).

(** The signer [login] uses, where the secret is not empty. *)
Definition signer `{Jwt} (now : Z) (secret operator role : string) (hours : Z) : string :=
  match issue_token now secret operator role hours with inr t => t | inl _ => "" end.

(** ** api/auth.py *)

(** The cookie [logout] deletes: path and attributes of the one [login] set. *)
Definition logout (rq : Request) (auth : AuthConfig) : Cookie :=
  {| ck_value := ""; ck_max_age := 0; ck_httponly := false; ck_samesite := ac_cookie_samesite auth;
     ck_secure := resolve_cookie_secure rq auth; ck_path := "/" |}.

(** [me]: the operator and role of the session, if there is one. *)
Definition me `{Jwt} (now : Z) (secret : string) (rq : Request) : option (option string * option string) :=
  match od_get "genwatch_session" (rq_cookies rq) with
  | Some token => if token =? "" then None
                  else match decode_token jwt_decode now secret token with
                       | inr c => Some (cl_sub c, cl_role c)
                       | inl _ => None
                       end
  | None => None
  end.

(** ** Theorems *)

Lemma nul_free_substring s : forall n, nul_free s = true -> nul_free (String.substring 0 n s) = true.
Proof.
  induction s as [|c s IH]; intros [|n] H; try done. cbn [nul_free String.substring] in *.
  apply andb_true_iff in H as [-> H]. by apply IH.
Qed.

(** A hash accepts exactly the passwords that agree with the hashed one in the bytes bcrypt reads. *)
Theorem password_roundtrip {B : Bcrypt} {L : BcryptLaws B} plain plain' salt :
  nul_free plain = true -> nul_free plain' = true ->
  verify_password checkpw plain' (hash_password plain salt) = true <->
  plain' <> "" /\ bcrypt_bytes plain' = bcrypt_bytes plain.
Proof.
  intros Hp Hp'. unfold verify_password, hash_password. rewrite (proj2 (String.eqb_neq _ _) (hash_nonempty _ _)), hash_ascii. cbn [orb].
  destruct (String.eqb_spec plain' "") as [->|Hne]; [split; [done|by intros []]|].
  rewrite check_hash by by apply nul_free_substring. tauto.
Qed.

(** When the session of a login at [now] ends. *)
Definition session_end (now : Z) (auth : AuthConfig) : Z := sec (now / sec 1 + ac_session_hours auth * 3600).

Lemma sec_floor now : sec (now / sec 1) <= now < sec (now / sec 1) + sec 1.
Proof. unfold sec. pose proof (Z.div_mod now (1 * 1000000000)). pose proof (Z.mod_pos_bound now (1 * 1000000000)). lia. Qed.

Lemma login_token `{Jwt} (check : string -> string -> bool) now mono auth rq password s c s' :
  ac_jwt_secret auth <> "" -> login check signer now mono auth rq password s = (inr c, s') ->
  ck_value c = jwt_encode {| pl_sub := ac_operator_name auth; pl_role := "admin"; pl_iat := now / sec 1;
                             pl_exp := now / sec 1 + ac_session_hours auth * 3600 |} (ac_jwt_secret auth) /\
  ck_max_age c = ac_session_hours auth * 3600.
Proof.
  intros Hs. unfold login. destruct (ac_admin_password_hash auth =? ""); [done|].
  destruct (RateLimit.check _ _ _) as [[] lim]; cbn [negb]; [|done].
  destruct (negb (verify_password _ _ _)); [done|]. intros [= <- _]. cbn. split; [|done].
  unfold signer, issue_token. by rewrite (proj2 (String.eqb_neq _ _) Hs).
Qed.

(** C27. The cookie of a successful login, sent back with a request, is an admin session
    of the configured operator from the login until session_hours after it, and exactly then
    stops being a session; the cookie's max-age ends within a second of it. *)
Theorem session_roundtrip {J : Jwt} {L : JwtLaws J} (check : string -> string -> bool) now mono auth rq password s c s' now' rq' :
  login check signer now mono auth rq password s = (inr c, s') ->
  ac_jwt_secret auth <> "" -> now <= now' ->
  od_get "genwatch_session" (rq_cookies rq') = Some (ck_value c) ->
  let admin := {| p_operator := ac_operator_name auth; p_role := "admin" |} in
  let secret := ac_jwt_secret auth in
  (now' < session_end now auth ->
     require_admin jwt_decode now' secret rq' = inr admin /\ require_operator jwt_decode now' secret rq' = inr admin /\
     me now' secret rq' = Some (Some (ac_operator_name auth), Some "admin")) /\
  (session_end now auth <= now' ->
     require_operator jwt_decode now' secret rq' = inl (http_error 401 "token expired") /\ me now' secret rq' = None) /\
  session_end now auth <= now + sec (ck_max_age c) < session_end now auth + sec 1.
Proof.
  intros Hl Hsec Hn Hck. destruct (login_token check now mono auth rq password s c s' Hsec Hl) as [Hv Hage]. cbv zeta.
  pose proof (sec_floor now) as Hf. rewrite Hv in Hck.
  assert (truthy (Some (ck_value c)) = true) as Ht.
  { unfold truthy. rewrite Hv, (proj2 (String.eqb_neq _ _) (encode_nonempty _ _)). done. }
  unfold require_admin, require_operator, get_principal, session_token, me, decode_token. rewrite Hck. rewrite Hv in Ht. rewrite Ht.
  rewrite (proj2 (String.eqb_neq _ _) (encode_nonempty _ _)), (proj2 (String.eqb_neq _ _) Hsec).
  split_and!.
  - intros He. rewrite (decode_live now') by (cbn [pl_iat pl_exp]; first [done|unfold session_end in He; lia]). by split_and!.
  - intros He. rewrite (decode_expired now') by (cbn [pl_iat pl_exp]; first [done|unfold session_end in He; lia]). done.
  - rewrite Hage. unfold session_end, sec in *. lia.
  - rewrite Hage. unfold session_end, sec in *. lia.
Qed.
