(* ===== verification/Config.v ===== *)
(** * Deployment configuration (config.py)

    The models with their defaults and validators, the layering of the sources
    (environment over config.yaml over defaults), and [load].  pydantic's type
    coercions and the merge of pydantic-settings are the classes [Pydantic] and
    [SettingsMerge], with the documented behaviour the code relies on as laws.
    Theorems: which source each value comes from, what the validators enforce, and
    the dump of a model that validates back to it. *)

From S2P Require Import Prelude PyNum PyVal Database Http Slack.

Local Open Scope Z_scope.
Local Open Scope gw_scope.
Local Open Scope string_scope.

Definition pydict : Type := odict string pyval.

(** ** What pydantic does with a value *)

Class Pydantic : Type := {
  pyd_int : pyval -> option Z;
  pyd_float : pyval -> option pyfloat;
  pyd_bool : pyval -> option bool;
  pyd_str : pyval -> option string;
  pyd_lit_int : list Z -> pyval -> option Z;              (* Literal of integers *)
  pyd_lit_str : list string -> pyval -> option string     (* Literal of strings *)
}.

(** A value of the field's own type is taken as it is, and a literal is one of those
    listed. *)
Class PydanticLaws (P : Pydantic) : Prop := {
  pyd_int_id z : pyd_int (num z) = Some z;
  pyd_float_id f : pyd_float (fl f) = Some f;
  pyd_bool_id b : pyd_bool (PvBool b) = Some b;
  pyd_str_id s : pyd_str (PvStr s) = Some s;
  pyd_lit_int_id l z : z ∈ l -> pyd_lit_int l (num z) = Some z;
  pyd_lit_str_id l s : s ∈ l -> pyd_lit_str l (PvStr s) = Some s;
  pyd_lit_int_in l v z : pyd_lit_int l v = Some z -> z ∈ l;
  pyd_lit_str_in l v s : pyd_lit_str l v = Some s -> s ∈ l
}.

(** ** Models *)

Record SerialConfig : Type := {
  sc_device : string; sc_baud : Z; sc_parity : string; sc_stopbits : Z; sc_bytesize : Z; sc_timeout_s : pyfloat
}.
Record ModbusTcpConfig : Type := {
  tc_host : string; tc_port : Z; tc_timeout_s : pyfloat; tc_connect_timeout_s : pyfloat; tc_framer : string
}.
Record ModbusConfig : Type := {
  mc_slave : Z; mc_read_fc : Z; mc_prime_poll_ms : Z; mc_base_poll_ms : Z; mc_retries : Z; mc_register_file : string
}.
Record AtsConfig : Type := {
  xc_enabled : bool; xc_host : string; xc_port : Z; xc_framer : string; xc_slave : Z; xc_timeout_s : pyfloat;
  xc_connect_timeout_s : pyfloat; xc_register_file : string; xc_expected_unit_id : option Z
}.
Record Settings : Type := {
  st_data_dir : string; st_config_path : string; st_mock : bool; st_transport : string; st_serial : SerialConfig;
  st_modbus_tcp : ModbusTcpConfig; st_modbus : ModbusConfig; st_retention : RetentionConfig; st_auth : AuthConfig;
  st_slack : SlackConfig; st_ats : AtsConfig; st_ws_push_ms : Z; st_cors_origins : list string
}.

Section models.
Context {P : Pydantic}.

(** A field of a model: its default when the key is missing, else the coerced value. *)
Definition field {A} (coerce : pyval -> option A) (k : string) (dflt : A) (d : pydict) : option A :=
  match od_get k d with Some v => coerce v | None => Some dflt end.
(** [T | None] *)
Definition or_none {A} (coerce : pyval -> option A) (v : pyval) : option (option A) :=
  match v with PvNone => Some None | _ => Some <$> coerce v end.
(** A nested model is given as a mapping. *)
Definition model {A} (f : pydict -> option A) (v : pyval) : option A :=
  match v with PvDict d => f d | _ => None end.
(** [list\[str\]] *)
Definition str_list (v : pyval) : option (list string) :=
  match v with PvList l => mapM pyd_str l | _ => None end.

Definition serial_config (d : pydict) : option SerialConfig :=
  device ← field pyd_str "device" "/dev/ttyUSB0" d;
  baud ← field pyd_int "baud" 9600 d;
  parity ← field (pyd_lit_str ["N"; "E"; "O"]) "parity" "N" d;
  stopbits ← field (pyd_lit_int [1; 2]) "stopbits" 1 d;
  bytesize ← field (pyd_lit_int [7; 8]) "bytesize" 8 d;
  timeout_s ← field pyd_float "timeout_s" (flt 3 2) d;
  Some {| sc_device := device; sc_baud := baud; sc_parity := parity; sc_stopbits := stopbits;
          sc_bytesize := bytesize; sc_timeout_s := timeout_s |}.

Definition modbus_tcp_config (d : pydict) : option ModbusTcpConfig :=
  host ← field pyd_str "host" "192.168.1.249" d;
  port ← field pyd_int "port" 10001 d;
  timeout_s ← field pyd_float "timeout_s" (flt 3 2) d;
  connect_timeout_s ← field pyd_float "connect_timeout_s" (flt 3 1) d;
  framer ← field (pyd_lit_str ["rtu"; "socket"]) "framer" "rtu" d;
  Some {| tc_host := host; tc_port := port; tc_timeout_s := timeout_s;
          tc_connect_timeout_s := connect_timeout_s; tc_framer := framer |}.

(** [_slave_range] *)
Definition slave_range (v : Z) : option Z := if ((1 <=? v) && (v <=? 247))%Z then Some v else None.

Definition modbus_config (d : pydict) : option ModbusConfig :=
  slave ← field (fun v => pyd_int v ≫= slave_range) "slave" 100 d;
  read_fc ← field (pyd_lit_int [3; 4]) "read_fc" 3 d;
  prime_poll_ms ← field pyd_int "prime_poll_ms" 1500 d;
  base_poll_ms ← field pyd_int "base_poll_ms" 15000 d;
  retries ← field pyd_int "retries" 2 d;
  register_file ← field pyd_str "register_file" "registers/h100.yaml" d;
  Some {| mc_slave := slave; mc_read_fc := read_fc; mc_prime_poll_ms := prime_poll_ms;
          mc_base_poll_ms := base_poll_ms; mc_retries := retries; mc_register_file := register_file |}.

Definition retention_config (d : pydict) : option RetentionConfig :=
  raw ← field pyd_int "raw_days" 7 d;
  m1 ← field pyd_int "rollup_1m_days" 90 d;
  h1 ← field pyd_int "rollup_1h_days" 730 d;
  events ← field pyd_int "events_days" 30 d;
  audit ← field pyd_int "audit_days" 0 d;
  Some {| raw_days := raw; rollup_1m_days := m1; rollup_1h_days := h1; events_days := events; audit_days := audit |}.

(** The validator of [cookie_samesite] runs on a value that was given, and sees the
    [cookie_secure] before it. *)
Definition auth_config (d : pydict) : option AuthConfig :=
  hash ← field pyd_str "admin_password_hash" "" d;
  operator_name ← field pyd_str "operator_name" "operator" d;
  jwt_secret ← field pyd_str "jwt_secret" "" d;
  session_hours ← field pyd_int "session_hours" 12 d;
  secure ← field (or_none pyd_bool) "cookie_secure" None d;
  samesite ← field (pyd_lit_str ["strict"; "lax"; "none"]) "cookie_samesite" "strict" d;
  let cfg := {| ac_admin_password_hash := hash; ac_operator_name := operator_name; ac_jwt_secret := jwt_secret;
                ac_session_hours := session_hours; ac_cookie_secure := secure; ac_cookie_samesite := samesite |} in
  if od_mem "cookie_samesite" d && negb (samesite_requires_secure cfg) then None else Some cfg.

Definition slack_config (d : pydict) : option SlackConfig :=
  enabled ← field pyd_bool "enabled" false d;
  bot_token ← field pyd_str "bot_token" "" d;
  channel ← field pyd_str "channel" "" d;
  site_label ← field pyd_str "site_label" "" d;
  alarm ← field pyd_bool "alert_on_alarm" true d;
  warning ← field pyd_bool "alert_on_warning" true d;
  cleared ← field pyd_bool "alert_on_alarm_cleared" true d;
  state ← field pyd_bool "alert_on_state_change" false d;
  command ← field pyd_bool "alert_on_command" true d;
  comms ← field pyd_bool "alert_on_comms_lost" true d;
  load ← field pyd_bool "alert_on_load_source_change" true d;
  Some {| sl_enabled := enabled; sl_bot_token := bot_token; sl_channel := channel; sl_site_label := site_label;
          sl_alert_on_alarm := alarm; sl_alert_on_warning := warning; sl_alert_on_alarm_cleared := cleared;
          sl_alert_on_state_change := state; sl_alert_on_command := command; sl_alert_on_comms_lost := comms;
          sl_alert_on_load_source_change := load |}.

Definition ats_config (d : pydict) : option AtsConfig :=
  enabled ← field pyd_bool "enabled" false d;
  host ← field pyd_str "host" "192.168.1.250" d;
  port ← field pyd_int "port" 5020 d;
  framer ← field (pyd_lit_str ["socket"; "rtu"]) "framer" "socket" d;
  slave ← field pyd_int "slave" 1 d;
  timeout_s ← field pyd_float "timeout_s" (flt 1 1) d;
  connect_timeout_s ← field pyd_float "connect_timeout_s" (flt 3 1) d;
  register_file ← field pyd_str "register_file" "registers/ats_pi.yaml" d;
  unit_id ← field (or_none pyd_int) "expected_unit_id" None d;
  Some {| xc_enabled := enabled; xc_host := host; xc_port := port; xc_framer := framer; xc_slave := slave;
          xc_timeout_s := timeout_s; xc_connect_timeout_s := connect_timeout_s; xc_register_file := register_file;
          xc_expected_unit_id := unit_id |}.

(** A section of [Settings]: the default instance when the key is missing. *)
Definition section {A} (k : string) (f : pydict -> option A) (d : pydict) : option A :=
  match od_get k d with Some v => model f v | None => f [] end.

(** [Settings], from the merged sources. *)
Definition settings_of (d : pydict) : option Settings :=
  data_dir ← field pyd_str "data_dir" "/var/lib/genwatch" d;
  config_path ← field pyd_str "config_path" "" d;
  mock ← field pyd_bool "mock" false d;
  transport ← field (pyd_lit_str ["serial"; "tcp"]) "transport" "tcp" d;
  serial ← section "serial" serial_config d;
  modbus_tcp ← section "modbus_tcp" modbus_tcp_config d;
  modbus ← section "modbus" modbus_config d;
  retention ← section "retention" retention_config d;
  auth ← section "auth" auth_config d;
  slack ← section "slack" slack_config d;
  ats ← section "ats" ats_config d;
  ws_push_ms ← field pyd_int "ws_push_ms" 1500 d;
  cors_origins ← field str_list "cors_origins" [] d;
  Some {| st_data_dir := data_dir; st_config_path := config_path; st_mock := mock; st_transport := transport;
          st_serial := serial; st_modbus_tcp := modbus_tcp; st_modbus := modbus; st_retention := retention;
          st_auth := auth; st_slack := slack; st_ats := ats; st_ws_push_ms := ws_push_ms;
          st_cors_origins := cors_origins |}.
End models.

(** ** Sources *)

(** The deep merge of pydantic-settings, the second argument ranking higher:
    mappings are merged key by key, anything else is replaced. *)
Class SettingsMerge : Type := {
  deep_update : pydict -> pydict -> pydict;
  deep_update_get lo hi k :
    od_get k (deep_update lo hi) =
      match od_get k lo, od_get k hi with
      | Some (PvDict a), Some (PvDict b) => Some (PvDict (deep_update a b))
      | _, Some v => Some v
      | o, None => o
      end
}.

Definition model_fields : list string :=
  ["data_dir"; "config_path"; "mock"; "transport"; "serial"; "modbus_tcp"; "modbus"; "retention"; "auth"; "slack";
   "ats"; "ws_push_ms"; "cors_origins"].

(** [_YamlSettingsSource.__call__] *)
Definition yaml_source (data : pydict) : pydict :=
  omap (fun name => (fun v => (name, v)) <$> od_get name data) model_fields.

(** What a path holds. *)
Definition files : Type := string -> option (res pyval).

Definition DEFAULT_CONFIG_PATHS : list string := ["/etc/genwatch/config.yaml"; "./config.yaml"].

(** [_load_yaml]: the file's tree, [{}] when it is empty. *)
Definition load_yaml (fs : files) (path : string) : res pydict :=
  match fs path with
  | None => inr []
  | Some tree =>
      t <-? tree ;;
      match pv_or t (PvDict []) with
      | PvDict d => inr d
      | _ => inl (ValueError (path +:+ ": top-level must be a mapping"))
      end
  end.

(** The first candidate that exists. *)
Fixpoint find_config (fs : files) (candidates : list string) : res (pydict * string) :=
  match candidates with
  | [] => inr ([], "")
  | c :: cs =>
      if c =? "" then find_config fs cs
      else match fs c with
           | Some _ => d <-? load_yaml fs c ;; inr (d, c)
           | None => find_config fs cs
           end
  end.

Definition path_join (a b : string) : string :=
  if str_startswith "/" b then b
  else if String.eqb (String.substring (String.length a - 1) 1 a) "/" then a +:+ b else a +:+ "/" +:+ b.

Section load.
Context {P : Pydantic} `{SettingsMerge}.

(** The sources of [settings_customise_sources] merged: keyword arguments over the
    environment over the file. *)
Definition merged_sources (init env yaml : pydict) : pydict := deep_update (deep_update (yaml_source yaml) env) init.

(** [Settings(config_path=chosen)] with [_yaml_ctx] set to the file. *)
Definition build_settings (chosen : string) (env yaml : pydict) : res Settings :=
  match settings_of (merged_sources [("config_path", PvStr chosen)] env yaml) with
  | Some s => inr s
  | None => inl ValidationError
  end.

Definition with_data_dir (dir : string) (s : Settings) : Settings :=
  {| st_data_dir := dir; st_config_path := st_config_path s; st_mock := st_mock s; st_transport := st_transport s;
     st_serial := st_serial s; st_modbus_tcp := st_modbus_tcp s; st_modbus := st_modbus s;
     st_retention := st_retention s; st_auth := st_auth s; st_slack := st_slack s; st_ats := st_ats s;
     st_ws_push_ms := st_ws_push_ms s; st_cors_origins := st_cors_origins s |}.

(** [load]; [mkdir] says whether a directory can be made, [cwd] is the working
    directory.  The fallback's own failure is an [OSError]. *)
Definition load (fs : files) (env : pydict) (mkdir : string -> bool) (cwd : string) (config_path : option string)
    : res Settings :=
  let candidates := match config_path with
                    | Some c => if c =? "" then DEFAULT_CONFIG_PATHS else [c]
                    | None => DEFAULT_CONFIG_PATHS
                    end in
  found <-? find_config fs candidates ;;
  s <-? build_settings (snd found) env (fst found) ;;
  if mkdir (st_data_dir s) then inr s
  else let fallback := path_join cwd "var-genwatch" in
       if mkdir fallback then inr (with_data_dir fallback s) else inl OSError.
End load.

(** [db_path] and [register_file_path]; [pkg] is the package directory. *)
Definition db_path (s : Settings) : string := path_join (st_data_dir s) "db.sqlite".
Definition resolve_register_file (pkg : string) (exists_ : string -> bool) (p : string) : string :=
  if str_startswith "/" p then p
  else let pkg_local := path_join pkg p in if exists_ pkg_local then pkg_local else p.
Definition register_file_path (pkg : string) (exists_ : string -> bool) (s : Settings) : string :=
  resolve_register_file pkg exists_ (mc_register_file (st_modbus s)).

(** ** Dumping a model ([model_dump]) *)

Definition dump_serial (c : SerialConfig) : pydict :=
  [("device", PvStr (sc_device c)); ("baud", num (sc_baud c)); ("parity", PvStr (sc_parity c));
   ("stopbits", num (sc_stopbits c)); ("bytesize", num (sc_bytesize c)); ("timeout_s", fl (sc_timeout_s c))].
Definition dump_modbus_tcp (c : ModbusTcpConfig) : pydict :=
  [("host", PvStr (tc_host c)); ("port", num (tc_port c)); ("timeout_s", fl (tc_timeout_s c));
   ("connect_timeout_s", fl (tc_connect_timeout_s c)); ("framer", PvStr (tc_framer c))].
Definition dump_modbus (c : ModbusConfig) : pydict :=
  [("slave", num (mc_slave c)); ("read_fc", num (mc_read_fc c)); ("prime_poll_ms", num (mc_prime_poll_ms c));
   ("base_poll_ms", num (mc_base_poll_ms c)); ("retries", num (mc_retries c));
   ("register_file", PvStr (mc_register_file c))].
Definition dump_retention (c : RetentionConfig) : pydict :=
  [("raw_days", num (raw_days c)); ("rollup_1m_days", num (rollup_1m_days c));
   ("rollup_1h_days", num (rollup_1h_days c)); ("events_days", num (events_days c)); ("audit_days", num (audit_days c))].
Definition dump_slack (c : SlackConfig) : pydict :=
  [("enabled", PvBool (sl_enabled c)); ("bot_token", PvStr (sl_bot_token c)); ("channel", PvStr (sl_channel c));
   ("site_label", PvStr (sl_site_label c)); ("alert_on_alarm", PvBool (sl_alert_on_alarm c));
   ("alert_on_warning", PvBool (sl_alert_on_warning c)); ("alert_on_alarm_cleared", PvBool (sl_alert_on_alarm_cleared c));
   ("alert_on_state_change", PvBool (sl_alert_on_state_change c)); ("alert_on_command", PvBool (sl_alert_on_command c));
   ("alert_on_comms_lost", PvBool (sl_alert_on_comms_lost c));
   ("alert_on_load_source_change", PvBool (sl_alert_on_load_source_change c))].

(** ** Theorems *)

Section theorems.
Context {P : Pydantic} {L : PydanticLaws P} `{SettingsMerge}.

(** Every model reads its mapping by key only. *)
Definition same_entries (d d' : pydict) : Prop := forall k, od_get k d = od_get k d'.

Lemma field_same {A} (c : pyval -> option A) k dflt d d' : same_entries d d' -> field c k dflt d = field c k dflt d'.
Proof. intros E. unfold field. by rewrite E. Qed.

(** Reading a section after a successful bind. *)
Ltac binds H :=
  repeat match type of H with
  | (_ ≫= _) = Some _ => let x := fresh "x" in let Hx := fresh "Hx" in apply bind_Some in H as (x & Hx & H)
  end.

Lemma slack_config_same d d' : same_entries d d' -> slack_config d = slack_config d'.
Proof. intros E. unfold slack_config, field. by rewrite !E. Qed.
Lemma auth_config_same d d' : same_entries d d' -> auth_config d = auth_config d'.
Proof. intros E. unfold auth_config, field, od_mem. by rewrite !E. Qed.
Lemma modbus_config_same d d' : same_entries d d' -> modbus_config d = modbus_config d'.
Proof. intros E. unfold modbus_config, field. by rewrite !E. Qed.
Lemma serial_config_same d d' : same_entries d d' -> serial_config d = serial_config d'.
Proof. intros E. unfold serial_config, field. by rewrite !E. Qed.
Lemma modbus_tcp_config_same d d' : same_entries d d' -> modbus_tcp_config d = modbus_tcp_config d'.
Proof. intros E. unfold modbus_tcp_config, field. by rewrite !E. Qed.
Lemma retention_config_same d d' : same_entries d d' -> retention_config d = retention_config d'.
Proof. intros E. unfold retention_config, field. by rewrite !E. Qed.
Lemma ats_config_same d d' : same_entries d d' -> ats_config d = ats_config d'.
Proof. intros E. unfold ats_config, field. by rewrite !E. Qed.

(** *** Layers *)

Lemma yaml_source_get data k : k ∈ model_fields -> od_get k (yaml_source data) = od_get k data.
Proof.
  unfold yaml_source. induction model_fields as [|n l IH]; [by intros ?%elem_of_nil|].
  intros [<-|Hk]%elem_of_cons; cbn [omap list_omap].
  - destruct (od_get k data) as [v|] eqn:E; cbn [fmap option_fmap option_map].
    + cbn. by rewrite decide_True.
    + destruct (decide (k ∈ l)) as [Hl|Hl]; [by rewrite (IH Hl)|].
      clear -Hl E. induction l as [|m l IH]; [done|]. apply not_elem_of_cons in Hl as [Hm Hl]. cbn.
      destruct (od_get m data); cbn; [rewrite decide_False by done|]; by apply IH.
  - destruct (od_get n data) as [v|] eqn:E; cbn [fmap option_fmap option_map]; [|by apply IH].
    cbn. case_decide; [by subst|by apply IH].
Qed.

(** The mapping under a key, and one mapping over another. *)
Definition sec_of (k : string) (d : pydict) : pydict := match od_get k d with Some (PvDict x) => x | _ => [] end.
Definition over (hi lo : pydict) : pydict := (hi ++ lo)%list.

Lemma over_get hi lo k : od_get k (over hi lo) = match od_get k hi with Some v => Some v | None => od_get k lo end.
Proof. apply od_get_app. Qed.

Definition scalar (v : pyval) : bool := match v with PvDict _ => false | _ => true end.
Definition SECTIONS : list string := ["serial"; "modbus_tcp"; "modbus"; "retention"; "auth"; "slack"; "ats"].
(** A section is a mapping of scalars. *)
Definition section_flat (k : string) (d : pydict) : Prop := forall v, od_get k d = Some v ->
  exists x, v = PvDict x /\ forall f w, od_get f x = Some w -> scalar w = true.
Definition sections_flat (d : pydict) : Prop := forall k, k ∈ SECTIONS -> section_flat k d.

Lemma merged_get chosen env yaml k :
  k ∈ model_fields -> k <> "config_path" ->
  od_get k (merged_sources [("config_path", PvStr chosen)] env yaml) =
    match od_get k yaml, od_get k env with
    | Some (PvDict a), Some (PvDict b) => Some (PvDict (deep_update a b))
    | _, Some v => Some v
    | o, None => o
    end.
Proof.
  intros Hk Hne. unfold merged_sources. rewrite deep_update_get. cbn [od_get]. rewrite decide_False by done.
  rewrite deep_update_get, (yaml_source_get _ _ Hk). by destruct (od_get k yaml) as [[]|], (od_get k env) as [[]|].
Qed.

Lemma section_layers {A} (f : pydict -> option A) chosen env yaml k :
  (forall d d', same_entries d d' -> f d = f d') -> k ∈ SECTIONS -> section_flat k env -> section_flat k yaml ->
  section k f (merged_sources [("config_path", PvStr chosen)] env yaml) = f (over (sec_of k env) (sec_of k yaml)).
Proof.
  intros Hf Hk He Hy. unfold section. rewrite merged_get.
  2: { revert Hk. unfold SECTIONS, model_fields. set_solver. }
  2: { intros ->. revert Hk. unfold SECTIONS. set_solver. }
  unfold sec_of. destruct (od_get k yaml) as [v|] eqn:Ey, (od_get k env) as [w|] eqn:Ee.
  - destruct (Hy _ Ey) as (a & -> & Ha), (He _ Ee) as (b & -> & Hb). cbn [model].
    apply Hf. intros n. rewrite deep_update_get, over_get.
    destruct (od_get n b) as [w|] eqn:En; [|by destruct (od_get n a) as [[]|]].
    specialize (Hb _ _ En). destruct (od_get n a) as [[]|]; by destruct w.
  - destruct (Hy _ Ey) as (a & -> & _). done.
  - destruct (He _ Ee) as (b & -> & _). cbn [model]. apply Hf. intros n. rewrite over_get. by destruct (od_get n b).
  - done.
Qed.

(** C26. Each section of the loaded settings is its model applied to the environment's
    fields over those of config.yaml, so the environment wins field by field, siblings from
    the file survive, and defaults fill the rest. *)
Theorem settings_layers chosen env yaml s :
  build_settings chosen env yaml = inr s -> sections_flat env -> sections_flat yaml ->
  let layer k := over (sec_of k env) (sec_of k yaml) in
  st_config_path s = chosen /\
  serial_config (layer "serial") = Some (st_serial s) /\ modbus_tcp_config (layer "modbus_tcp") = Some (st_modbus_tcp s) /\
  modbus_config (layer "modbus") = Some (st_modbus s) /\ retention_config (layer "retention") = Some (st_retention s) /\
  auth_config (layer "auth") = Some (st_auth s) /\ slack_config (layer "slack") = Some (st_slack s) /\
  ats_config (layer "ats") = Some (st_ats s).
Proof.
  unfold build_settings, settings_of. intros Hb He Hy. cbv zeta.
  destruct (field pyd_str "data_dir" _ _); [|done]. cbn [mbind option_bind] in Hb.
  assert (field pyd_str "config_path" "" (merged_sources [("config_path", PvStr chosen)] env yaml) = Some chosen) as Hc.
  { unfold field, merged_sources. rewrite deep_update_get. cbn [od_get]. rewrite decide_True by done.
    destruct (od_get "config_path" _) as [[]|]; apply pyd_str_id. }
  rewrite Hc in Hb. cbn [mbind option_bind] in Hb.
  rewrite <- !(section_layers _ chosen env yaml _) by
    (eauto using serial_config_same, modbus_tcp_config_same, modbus_config_same, retention_config_same,
       auth_config_same, slack_config_same, ats_config_same; (apply He || apply Hy || idtac); unfold SECTIONS; set_solver).
  repeat match type of Hb with
  | context [?m ≫= _] => destruct m eqn:?; cbn [mbind option_bind] in Hb; [|done]
  end.
  injection Hb as <-. done.
Qed.

(** *** Validity *)

(** What a field holds: its default, or a coerced value. *)
Lemma field_inv {A} (c : pyval -> option A) k dflt d a :
  field c k dflt d = Some a -> a = dflt \/ exists v, c v = Some a.
Proof. unfold field. destruct (od_get k d) as [v|]; [by right; exists v|by intros [= ->]; left]. Qed.

Lemma field_lit_int l k dflt d z : dflt ∈ l -> field (pyd_lit_int l) k dflt d = Some z -> z ∈ l.
Proof. intros Hd [->|[v Hv]]%field_inv; [done|by eapply pyd_lit_int_in]. Qed.
Lemma field_lit_str l k dflt d z : dflt ∈ l -> field (pyd_lit_str l) k dflt d = Some z -> z ∈ l.
Proof. intros Hd [->|[v Hv]]%field_inv; [done|by eapply pyd_lit_str_in]. Qed.

Record serial_ok (c : SerialConfig) : Prop := {
  so_parity : sc_parity c ∈ ["N"; "E"; "O"]; so_stopbits : sc_stopbits c ∈ [1; 2]%Z; so_bytesize : sc_bytesize c ∈ [7; 8]%Z
}.
Record modbus_ok (c : ModbusConfig) : Prop := {
  mo_slave : (1 <= mc_slave c <= 247)%Z; mo_read_fc : mc_read_fc c ∈ [3; 4]%Z
}.
Record auth_ok (c : AuthConfig) : Prop := {
  ao_samesite : ac_cookie_samesite c ∈ ["strict"; "lax"; "none"];
  ao_none_secure : ac_cookie_samesite c = "none" -> ac_cookie_secure c <> Some false
}.

Lemma serial_config_ok d c : serial_config d = Some c -> serial_ok c.
Proof.
  intros Hd. unfold serial_config in Hd. binds Hd. injection Hd as <-.
  constructor; [eapply field_lit_str; [|eassumption]|eapply field_lit_int; [|eassumption]..]; set_solver.
Qed.
Lemma modbus_tcp_config_ok d c : modbus_tcp_config d = Some c -> tc_framer c ∈ ["rtu"; "socket"].
Proof.
  intros Hd. unfold modbus_tcp_config in Hd. binds Hd. injection Hd as <-. eapply field_lit_str; [|eassumption]. set_solver.
Qed.
Lemma ats_config_ok d c : ats_config d = Some c -> xc_framer c ∈ ["socket"; "rtu"].
Proof.
  intros Hd. unfold ats_config in Hd. binds Hd. injection Hd as <-. eapply field_lit_str; [|eassumption]. set_solver.
Qed.
Lemma modbus_config_ok d c : modbus_config d = Some c -> modbus_ok c.
Proof.
  intros Hd. unfold modbus_config in Hd. binds Hd. injection Hd as <-. constructor; cbn.
  - apply field_inv in Hx as [->|[v Hv]]; [lia|]. apply bind_Some in Hv as (z & _ & Hz). unfold slave_range in Hz.
    destruct (_ && _)%Z eqn:E; [|done]. injection Hz as <-. breflect. lia.
  - eapply field_lit_int; [|eassumption]. set_solver.
Qed.
Lemma auth_config_ok d c : auth_config d = Some c -> auth_ok c.
Proof.
  intros Hd. unfold auth_config in Hd. binds Hd. destruct (od_mem _ d) eqn:Em; cbn [andb] in Hd.
  - destruct (samesite_requires_secure _) eqn:E; [|done]. injection Hd as <-. constructor; cbn.
    + eapply field_lit_str; [|eassumption]. set_solver.
    + intros Hn Hs. unfold samesite_requires_secure in E. cbn in E. rewrite Hn, Hs, bool_decide_true in E; done.
  - injection Hd as <-. unfold od_mem in Em. match goal with H : field _ "cookie_samesite" _ _ = Some _ |- _ =>
      unfold field in H; destruct (od_get "cookie_samesite" d); [done|]; injection H as <- end.
    constructor; [set_solver|done].
Qed.

Record settings_ok (s : Settings) : Prop := {
  ok_transport : st_transport s ∈ ["serial"; "tcp"]; ok_serial : serial_ok (st_serial s);
  ok_tcp : tc_framer (st_modbus_tcp s) ∈ ["rtu"; "socket"]; ok_modbus : modbus_ok (st_modbus s);
  ok_auth : auth_ok (st_auth s); ok_ats : xc_framer (st_ats s) ∈ ["socket"; "rtu"]
}.

Lemma section_inv {A} (f : pydict -> option A) (Q : A -> Prop) k d a :
  (forall d c, f d = Some c -> Q c) -> section k f d = Some a -> Q a.
Proof. intros Hf. unfold section, model. destruct (od_get k d) as [[]|]; try done; apply Hf. Qed.

Lemma settings_of_ok d s : settings_of d = Some s -> settings_ok s.
Proof.
  intros Hd. unfold settings_of in Hd. binds Hd. injection Hd as <-. constructor; cbn.
  - eapply field_lit_str; [|eassumption]. set_solver.
  - eapply section_inv; [exact serial_config_ok|eassumption].
  - eapply (section_inv modbus_tcp_config (fun c => tc_framer c ∈ _)); [exact modbus_tcp_config_ok|eassumption].
  - eapply section_inv; [exact modbus_config_ok|eassumption].
  - eapply section_inv; [exact auth_config_ok|eassumption].
  - eapply (section_inv ats_config (fun c => xc_framer c ∈ _)); [exact ats_config_ok|eassumption].
Qed.

Lemma build_settings_ok chosen env yaml s : build_settings chosen env yaml = inr s -> settings_ok s.
Proof.
  unfold build_settings. destruct (settings_of _) eqn:E; [|done]. intros [= <-]. by eapply settings_of_ok.
Qed.

Lemma with_data_dir_ok dir s : settings_ok s -> settings_ok (with_data_dir dir s).
Proof. by intros []. Qed.

(** Whatever the files and the environment hold, settings that load have a slave
    address of 1 to 247, literals among those listed, no SameSite=none cookie without
    Secure, and a data directory that could be made. *)
Theorem load_well_formed fs env mkdir cwd path s :
  load fs env mkdir cwd path = inr s -> settings_ok s /\ mkdir (st_data_dir s) = true.
Proof.
  unfold load. intros (fd & _ & Hl)%r_bind_inr. apply r_bind_inr in Hl as (s' & Hs%build_settings_ok & Hl).
  destruct (mkdir (st_data_dir s')) eqn:E1; [injection Hl as <-; done|].
  destruct (mkdir (path_join _ _)) eqn:E2; [|done]. injection Hl as <-. split; [by apply with_data_dir_ok|done].
Qed.

(** *** Dumps *)

Ltac fields := unfold field; repeat (rewrite od_get_hd || rewrite od_get_tl by discriminate).

Lemma load_dump_slack c : slack_config (dump_slack c) = Some c.
Proof. unfold slack_config, dump_slack. fields. rewrite !pyd_bool_id, !pyd_str_id. by destruct c. Qed.

Theorem model_dump_roundtrip (c1 : SerialConfig) (c2 : ModbusTcpConfig) (c3 : ModbusConfig) (c4 : RetentionConfig) (c5 : SlackConfig) :
  (serial_ok c1 -> serial_config (dump_serial c1) = Some c1) /\
  (tc_framer c2 ∈ ["rtu"; "socket"] -> modbus_tcp_config (dump_modbus_tcp c2) = Some c2) /\
  (modbus_ok c3 -> modbus_config (dump_modbus c3) = Some c3) /\
  retention_config (dump_retention c4) = Some c4 /\ slack_config (dump_slack c5) = Some c5.
Proof.
  split_and!; [| | | |apply load_dump_slack].
  - intros [H1 H2 H3]. unfold serial_config, dump_serial. fields.
    rewrite pyd_str_id, !pyd_int_id, pyd_float_id, pyd_lit_str_id, !pyd_lit_int_id by done. by destruct c1.
  - intros H1. unfold modbus_tcp_config, dump_modbus_tcp. fields.
    rewrite pyd_str_id, !pyd_int_id, !pyd_float_id, pyd_lit_str_id by done. by destruct c2.
  - intros [H1 H2]. unfold modbus_config, dump_modbus. fields.
    rewrite pyd_str_id, !pyd_int_id, pyd_lit_int_id by done. cbn [mbind option_bind]. unfold slave_range.
    rewrite (proj2 (andb_true_iff _ _)) by (split; lia). by destruct c3.
  - unfold retention_config, dump_retention. fields. rewrite !pyd_int_id. by destruct c4.
Qed.
End theorems.
