(* ===== verification/SettingsApi.v ===== *)
(** * The configuration endpoints (api/settings.py)

    Reading and changing the deployment configuration, the Slack test, and the
    register map: listing, hot reload and verification.  A request acts on the state
    of the whole application.  The text of config.yaml is abstract, with the YAML
    reader and writer as parameters. *)

From S2P Require Import Prelude PyNum PyVal Registers RegisterFacts RegisterValidation ShippedMaps Loader Client Poller Database DatabaseFacts Events StateMachine Ats Control RateLimit Slack Http Config.

Local Open Scope Z_scope.
Local Open Scope gw_scope.
Local Open Scope string_scope.

(** ** The application state ([app.state]) *)

Record App (W T : Type) : Type := {
  ap_sys : Sys W;                    (* control service, state machine, database, links *)
  ap_poller : Poller;
  ap_comms_ref : nat;                (* where the poller's CommsHealth object lives *)
  ap_slack : SlackNotifier;
  ap_settings : Settings;
  ap_regmap : RegisterMap;
  ap_fs : gmap string T              (* the texts of the files, by path *)
}.
Arguments ap_sys {W T}. Arguments ap_poller {W T}. Arguments ap_comms_ref {W T}. Arguments ap_slack {W T}. Arguments ap_settings {W T}.
Arguments ap_regmap {W T}. Arguments ap_fs {W T}. Arguments Build_App {W T}.

(** How a route fails: an HTTPException, or an exception the framework turns into a
    500. *)
Inductive api_error : Type := Http (e : HttpError) | Uncaught (e : pyexc).

(** ** Requests *)

Record SlackUpdate : Type := {
  su_enabled : option bool; su_bot_token : option string; su_channel : option string; su_site_label : option string;
  su_alert_on_alarm : option bool; su_alert_on_warning : option bool; su_alert_on_alarm_cleared : option bool;
  su_alert_on_state_change : option bool; su_alert_on_command : option bool; su_alert_on_comms_lost : option bool;
  su_alert_on_load_source_change : option bool
}.
Record ConfigUpdate : Type := {
  cu_transport : option string; cu_serial : option pydict; cu_modbus_tcp : option pydict; cu_modbus : option pydict;
  cu_retention : option pydict; cu_slack : option SlackUpdate; cu_ws_push_ms : option Z
}.

(** A field of [model_dump(exclude_none=True)]. *)
Definition given {A} (k : string) (f : A -> pyval) (o : option A) : pydict :=
  match o with Some a => [(k, f a)] | None => [] end.
Definition slack_patch (u : SlackUpdate) : pydict :=
  (given "enabled" PvBool (su_enabled u) ++ given "bot_token" PvStr (su_bot_token u) ++
   given "channel" PvStr (su_channel u) ++ given "site_label" PvStr (su_site_label u) ++
   given "alert_on_alarm" PvBool (su_alert_on_alarm u) ++ given "alert_on_warning" PvBool (su_alert_on_warning u) ++
   given "alert_on_alarm_cleared" PvBool (su_alert_on_alarm_cleared u) ++
   given "alert_on_state_change" PvBool (su_alert_on_state_change u) ++
   given "alert_on_command" PvBool (su_alert_on_command u) ++
   given "alert_on_comms_lost" PvBool (su_alert_on_comms_lost u) ++
   given "alert_on_load_source_change" PvBool (su_alert_on_load_source_change u))%list.
Definition dump_update (b : ConfigUpdate) : pydict :=
  (given "transport" PvStr (cu_transport b) ++ given "serial" PvDict (cu_serial b) ++
   given "modbus_tcp" PvDict (cu_modbus_tcp b) ++ given "modbus" PvDict (cu_modbus b) ++
   given "retention" PvDict (cu_retention b) ++ given "slack" (fun u => PvDict (slack_patch u)) (cu_slack b) ++
   given "ws_push_ms" num (cu_ws_push_ms b))%list.

(** ** Editing the tree of the file *)

(** [d.update(patch)] *)
Definition od_update {V} (patch d : odict string V) : odict string V :=
  foldl (fun d kv => od_set (fst kv) (snd kv) d) d patch.

(** [on_disk\[k\] = v] *)
Definition set_item (k : string) (v disk : pyval) : res pyval :=
  match disk with PvDict d => inr (PvDict (od_set k v d)) | _ => inl TypeError end.
(** [on_disk.setdefault(k, {}).update(patch)] *)
Definition update_section (k : string) (patch : pydict) (disk : pyval) : res pyval :=
  match disk with
  | PvDict d =>
      match default (PvDict []) (od_get k d) with
      | PvDict sec => inr (PvDict (od_set k (PvDict (od_update patch sec)) d))
      | _ => inl AttributeError
      end
  | _ => inl AttributeError
  end.
(** [if patch: ...] *)
Definition patch_section (k : string) (patch : option pydict) (disk : pyval) : res pyval :=
  match patch with
  | Some (kv :: p) => update_section k (kv :: p) disk
  | _ => inr disk
  end.

(** ** Hiding secrets *)

Definition mark_token (v : pyval) : pyval := PvStr (if pv_truth v then "<set>" else "<cleared>").
(** [slack_for_audit] *)
Definition slack_for_audit (patch : pydict) : pydict :=
  match od_get "bot_token" patch with Some v => od_set "bot_token" (mark_token v) patch | None => patch end.

Definition get_config (s : Settings) : pyval :=
  let a := st_auth s in let sl := st_slack s in
  PvDict
    [("configPath", PvStr (st_config_path s)); ("mock", PvBool (st_mock s)); ("transport", PvStr (st_transport s));
     ("serial", PvDict (dump_serial (st_serial s))); ("modbus_tcp", PvDict (dump_modbus_tcp (st_modbus_tcp s)));
     ("modbus", PvDict (dump_modbus (st_modbus s))); ("retention", PvDict (dump_retention (st_retention s)));
     ("auth", PvDict [("operatorName", PvStr (ac_operator_name a)); ("sessionHours", num (ac_session_hours a));
        ("passwordConfigured", PvBool (negb (ac_admin_password_hash a =? "")));
        ("jwtSecretConfigured", PvBool (negb (ac_jwt_secret a =? "")))]);
     ("slack", PvDict [("enabled", PvBool (sl_enabled sl)); ("channel", PvStr (sl_channel sl));
        ("siteLabel", PvStr (sl_site_label sl)); ("botTokenConfigured", PvBool (negb (sl_bot_token sl =? "")));
        ("alertOnAlarm", PvBool (sl_alert_on_alarm sl)); ("alertOnWarning", PvBool (sl_alert_on_warning sl));
        ("alertOnAlarmCleared", PvBool (sl_alert_on_alarm_cleared sl));
        ("alertOnStateChange", PvBool (sl_alert_on_state_change sl)); ("alertOnCommand", PvBool (sl_alert_on_command sl));
        ("alertOnCommsLost", PvBool (sl_alert_on_comms_lost sl));
        ("alertOnLoadSourceChange", PvBool (sl_alert_on_load_source_change sl))]);
     ("wsPushMs", num (st_ws_push_ms s))].

(** [s.model_copy(update=slack)] *)
Definition settings_with_slack (cfg : SlackConfig) (st : Settings) : Settings :=
  {| st_data_dir := st_data_dir st; st_config_path := st_config_path st; st_mock := st_mock st;
     st_transport := st_transport st; st_serial := st_serial st; st_modbus_tcp := st_modbus_tcp st;
     st_modbus := st_modbus st; st_retention := st_retention st; st_auth := st_auth st; st_slack := cfg;
     st_ats := st_ats st; st_ws_push_ms := st_ws_push_ms st; st_cors_origins := st_cors_origins st |}.

(** ** The routes *)

Section api.
Context {W T : Type} `{ModbusClient W} `{Clock W} {P : Pydantic}.
Implicit Types (s : App W T).
(** [yaml.safe_load], [yaml.safe_dump] and [str] of an exception. *)
Variables (yaml_load : T -> res pyval) (yaml_dump : pyval -> T) (exc_text : pyexc -> string).

Definition handler (A : Type) : Type := SE (App W T) api_error A.
Definition of_res {A} (m : res A) : handler A := match m with inr a => se_ret a | inl e => raise (Uncaught e) end.
Definition http {A} (e : HttpError) : handler A := raise (Http e).

Definition with_sys (f : Sys W -> Sys W) s : App W T :=
  Build_App (f (ap_sys s)) (ap_poller s) (ap_comms_ref s) (ap_slack s) (ap_settings s) (ap_regmap s) (ap_fs s).
Definition with_file (path : string) (t : T) s : App W T :=
  Build_App (ap_sys s) (ap_poller s) (ap_comms_ref s) (ap_slack s) (ap_settings s) (ap_regmap s) (<[path := t]> (ap_fs s)).
Definition with_slack_cfg (cfg : SlackConfig) s : App W T :=
  Build_App (ap_sys s) (ap_poller s) (ap_comms_ref s) (update_config cfg (ap_slack s))
    (settings_with_slack cfg (ap_settings s)) (ap_regmap s) (ap_fs s).

Definition app_audit (operator action detail result : string) : handler unit :=
  modify (with_sys (fun y => set_db (log_audit (wall_clock (sy_world y)) operator action detail "" result (sy_db y)) y)).
Definition app_event (severity type_ message : string) (meta : option string) : handler unit :=
  modify (with_sys (fun y => set_db (log_event (wall_clock (sy_world y)) severity type_ message meta (sy_db y)) y)).

(** The file's tree; [{}] when it is missing or empty. *)
Definition read_disk (path : string) s : res pyval :=
  match ap_fs s !! path with
  | Some t => v <-? yaml_load t ;; r_ret (pv_or v (PvDict []))
  | None => r_ret (PvDict [])
  end.

(** The edited tree, in the order of the handler. *)
Definition edit_disk (b : ConfigUpdate) (disk : pyval) : res pyval :=
  d1 <-? match cu_transport b with Some t => set_item "transport" (PvStr t) disk | None => inr disk end ;;
  d2 <-? patch_section "serial" (cu_serial b) d1 ;;
  d3 <-? patch_section "modbus_tcp" (cu_modbus_tcp b) d2 ;;
  d4 <-? patch_section "modbus" (cu_modbus b) d3 ;;
  d5 <-? patch_section "retention" (cu_retention b) d4 ;;
  d6 <-? match cu_ws_push_ms b with Some n => set_item "ws_push_ms" (num n) d5 | None => inr d5 end ;;
  patch_section "slack" (slack_patch <$> cu_slack b) d6.

Definition is_some {A} (o : option A) : bool := match o with Some _ => true | None => false end.
Definition restart_required (b : ConfigUpdate) : bool :=
  is_some (cu_transport b) || is_some (cu_serial b) || is_some (cu_modbus_tcp b) || is_some (cu_modbus b) ||
  is_some (cu_retention b) || is_some (cu_ws_push_ms b).
(** The Slack fields the request sets, if any. *)
Definition sent_patch (b : ConfigUpdate) : option pydict :=
  match slack_patch <$> cu_slack b with Some (kv :: p) => Some (kv :: p) | _ => None end.
(** [audit_detail] *)
Definition audit_detail (b : ConfigUpdate) : pydict :=
  match sent_patch b with
  | Some p => od_set "slack" (PvDict (slack_for_audit p)) (dump_update b)
  | None => dump_update b
  end.

Record update_reply : Type := { ur_config_path : string; ur_restart_required : bool; ur_slack_updated : bool }.

Definition update_config_route (operator : string) (b : ConfigUpdate) : handler update_reply :=
  s <-- gets id ;;
  let path := st_config_path (ap_settings s) in
  if path =? "" then http (http_error 409 "no config.yaml path configured — set GENWATCH_CONFIG_PATH or copy deploy/config.yaml.example")
  else
    disk <-- of_res (read_disk path s) ;;
    if is_some (cu_transport b) && negb (existsb (String.eqb (default "" (cu_transport b))) ["serial"; "tcp"])
    then http (http_error 400 "transport must be 'serial' or 'tcp'")
    else
      disk' <-- of_res (edit_disk b disk) ;;
      modify (with_file path (yaml_dump disk')) ;;;
      (match sent_patch b with
       | Some p =>
           match slack_config (od_update p (dump_slack (st_slack (ap_settings s)))) with
           | Some cfg => modify (with_slack_cfg cfg)
           | None => raise (Uncaught ValidationError)
           end
       | None => se_ret tt
       end) ;;;
      app_audit operator "config.update" (py_repr (PvDict (audit_detail b))) "ok" ;;;
      se_ret {| ur_config_path := path; ur_restart_required := restart_required b;
                ur_slack_updated := is_some (sent_patch b) |}.

(** [SlackNotifier.test] with what posting the message yields. *)
Definition slack_test (post : bool * string) (cfg : SlackConfig) : bool * string :=
  if sl_bot_token cfg =? "" then (false, "bot_token not set")
  else if sl_channel cfg =? "" then (false, "channel not set")
  else (fst post, if fst post then "ok" else snd post).
Definition test_slack_route (operator : string) (post : bool * string) : handler (bool * string) :=
  s <-- gets id ;;
  let r := slack_test post (sn_cfg (ap_slack s)) in
  app_audit operator "slack.test" (if fst r then "" else snd r) (if fst r then "ok" else "failed") ;;;
  se_ret r.

(** ** Registers *)

Record register_row : Type := {
  rr_addr : string; rr_name : string; rr_fc : string; rr_type : string; rr_tier : string; rr_group : string;
  rr_unit : string; rr_scale : option pyfloat; rr_value : option pynum
}.
Definition reg_row (values : gmap string pynum) (r : RegisterDef) : register_row :=
  {| rr_addr := "0x" +:+ fmt_04X (r_addr r); rr_name := r_name r; rr_fc := "0" +:+ str_Z (r_fc r);
     rr_type := type_name (r_type r); rr_tier := r_tier r; rr_group := r_group r; rr_unit := r_unit r;
     rr_scale := if scale_is_one (r_scale r) then None else Some (r_scale r); rr_value := values !! r_name r |}.
Definition ctl_row (c : ControlDef) : register_row :=
  {| rr_addr := "0x" +:+ fmt_04X (c_addr c); rr_name := c_name c; rr_fc := "0" +:+ str_Z (c_fc c);
     rr_type := "u16"; rr_tier := "controls"; rr_group := "Controls · write-gated"; rr_unit := "cmd";
     rr_scale := None; rr_value := None |}.
Definition get_registers s : list register_row :=
  let rm := ap_regmap s in
  let values := rd_values (ss_last_reading (sm_snap (sy_sm (ap_sys s)))) in
  (map (reg_row values) (rm_registers rm) ++ map ctl_row (od_values (rm_controls rm)))%list.

(** [Path(p).name] *)
Fixpoint path_name (p : string) : string :=
  match p with
  | EmptyString => EmptyString
  | String c p' => if str_contains "/" p then path_name p' else p
  end.

(** [load_register_map(path)] on the application's files. *)
Definition load_file (path : string) s : res RegisterMap :=
  match ap_fs s !! path with
  | Some t => v <-? yaml_load t ;; load_register_map path v
  | None => inl OSError
  end.

(** The swap, in the order of the handler: poller (whose health object the others
    share), state machine, control service, application. *)
Definition apply_map (rm : RegisterMap) s : App W T :=
  let y := ap_sys s in
  let poller := poller_apply_regmap rm (ap_poller s) in
  let y1 := Build_Sys (sy_regmap y) (sy_tokens y) (sy_db y) (sm_apply_regmap rm (sy_sm y))
              (<[ap_comms_ref s := p_health poller]> (sy_heap y)) (sy_ats y)
              (sy_ats_regmap y) (sy_slack y) (sy_alerts y) (sy_world y) in
  Build_App (set_regmap rm y1) poller (ap_comms_ref s) (ap_slack s) (ap_settings s) rm (ap_fs s).

Definition reload_route (operator : string) : handler (nat * nat) :=
  s <-- gets id ;;
  match load_file (rm_path (ap_regmap s)) s with
  | inl e =>
      app_audit operator "registers.reload" (exc_text e) "failed" ;;;
      http (http_error 400 ("register map invalid: " +:+ exc_text e))
  | inr rm =>
      modify (apply_map rm) ;;;
      app_audit operator "registers.reload" (rm_path rm) "ok" ;;;
      app_event "info" "CONFIG" ("Register file reloaded — " +:+ path_name (rm_path rm))
        (Some (str_Z (Z.of_nat (length (rm_registers rm))) +:+ " regs · " +:+
               str_Z (Z.of_nat (length (rm_controls rm))) +:+ " controls")) ;;;
      se_ret (length (rm_registers rm), length (rm_controls rm))
  end.

(** The live probe of every register: one word each, failures in order. *)
Fixpoint probe (regs : list RegisterDef) (w : W) : list (RegisterDef * option string) * W :=
  match regs with
  | [] => ([], w)
  | r :: rest =>
      let '(res, w1) := mc_read (r_addr r) 1 (r_fc r) w in
      let '(fails, w2) := probe rest w1 in
      ((if mr_ok res then fails else (r, mr_error res) :: fails), w2)
  end.

Record live_report : Type := { lr_skipped : bool; lr_tested : nat; lr_failures : list (RegisterDef * option string) }.
Definition lr_ok (l : live_report) : bool := match lr_failures l with [] => true | _ => false end.
Record verify_reply : Type := { vr_static : MapValidation; vr_live : live_report }.
Definition vr_ok (v : verify_reply) : bool := mv_ok (vr_static v) && lr_ok (vr_live v).

Definition verify_route (operator : string) : handler verify_reply :=
  s <-- gets id ;;
  let rm := ap_regmap s in
  let report := validate_register_map rm in
  let '(fails, w) := if st_mock (ap_settings s) then ([], sy_world (ap_sys s)) else probe (rm_registers rm) (sy_world (ap_sys s)) in
  let live := {| lr_skipped := st_mock (ap_settings s);
                 lr_tested := if st_mock (ap_settings s) then 0 else length (rm_registers rm); lr_failures := fails |} in
  let reply := {| vr_static := report; vr_live := live |} in
  modify (with_sys (set_world w)) ;;;
  app_audit operator "registers.verify"
    ("static_ok=" +:+ py_repr (PvBool (mv_ok report)) +:+ " live_ok=" +:+ py_repr (PvBool (lr_ok live)) +:+
     " tested=" +:+ str_Z (Z.of_nat (lr_tested live)) +:+ " failed=" +:+ str_Z (Z.of_nat (length fails)))
    (if vr_ok reply then "ok" else "failed") ;;;
  se_ret reply.
End api.
