(* ===== verification/SettingsFacts.v ===== *)
(** * What the configuration endpoints guarantee

    The edit of config.yaml is a merge, or nothing at all; the Slack settings in
    memory are those the next start will load; secrets show neither in replies nor in
    the database; a reload replaces the register map everywhere or nowhere. *)

From S2P Require Import Prelude PyNum PyVal Registers RegisterFacts RegisterValidation ShippedMaps Loader Client Poller Database DatabaseFacts Events StateMachine Ats Control RateLimit Slack Http Config SettingsApi.

Local Open Scope Z_scope.
Local Open Scope gw_scope.
Local Open Scope string_scope.

(** ** Updates of mappings *)

Lemma od_update_get {V} (patch d : odict string V) k :
  NoDup (od_keys patch) ->
  od_get k (od_update patch d) = match od_get k patch with Some v => Some v | None => od_get k d end.
Proof.
  unfold od_update. revert d. induction patch as [|[k' v] patch IH]; intros d Hn; [done|].
  cbn in Hn. apply NoDup_cons in Hn as [Hk Hn]. cbn [foldl fst snd od_get]. rewrite IH by done. rewrite od_get_set.
  case_decide; [|done]. subst. by rewrite (proj2 (od_get_None _ _) Hk).
Qed.

Lemma given_keys {A} k (f : A -> pyval) o : od_keys (given k f o) = if is_some o then [k] else [].
Proof. by destruct o. Qed.

Lemma od_keys_app {V} (a b : odict string V) : od_keys (a ++ b)%list = (od_keys a ++ od_keys b)%list.
Proof. apply map_app. Qed.

(** The keys a Slack request sets are distinct. *)
Lemma given_sublist {A} k (f : A -> pyval) o (d : pydict) l :
  od_keys d `sublist_of` l -> od_keys (given k f o ++ d)%list `sublist_of` k :: l.
Proof. intros Hd. destruct o; cbn; [by apply sublist_skip|by apply sublist_cons]. Qed.

Lemma slack_patch_keys u : NoDup (od_keys (slack_patch u)).
Proof.
  eapply sublist_NoDup.
  2: { unfold slack_patch. repeat apply given_sublist.
       rewrite <- (app_nil_r (given "alert_on_load_source_change" _ _)). apply given_sublist, (sublist_nil_l []). }
  refine (bool_decide_eq_true_1 (NoDup _) _). vm_compute. reflexivity.
Qed.

Lemma od_get_given {A} k k' (f : A -> pyval) o :
  od_get k (given k' f o) = if k =? k' then f <$> o else None.
Proof. by destruct (String.eqb_spec k k'), o; cbn; rewrite ?decide_True, ?decide_False by done. Qed.

Ltac patch_get :=
  unfold slack_patch; rewrite !od_get_app, !od_get_given; cbn [String.eqb Ascii.eqb Bool.eqb];
  match goal with |- context [_ <$> ?o] => by destruct o end.

(** ** The Slack settings after a request *)

Definition patched (u : SlackUpdate) (c : SlackConfig) : SlackConfig :=
  {| sl_enabled := default (sl_enabled c) (su_enabled u); sl_bot_token := default (sl_bot_token c) (su_bot_token u);
     sl_channel := default (sl_channel c) (su_channel u); sl_site_label := default (sl_site_label c) (su_site_label u);
     sl_alert_on_alarm := default (sl_alert_on_alarm c) (su_alert_on_alarm u);
     sl_alert_on_warning := default (sl_alert_on_warning c) (su_alert_on_warning u);
     sl_alert_on_alarm_cleared := default (sl_alert_on_alarm_cleared c) (su_alert_on_alarm_cleared u);
     sl_alert_on_state_change := default (sl_alert_on_state_change c) (su_alert_on_state_change u);
     sl_alert_on_command := default (sl_alert_on_command c) (su_alert_on_command u);
     sl_alert_on_comms_lost := default (sl_alert_on_comms_lost c) (su_alert_on_comms_lost u);
     sl_alert_on_load_source_change := default (sl_alert_on_load_source_change c) (su_alert_on_load_source_change u) |}.

Section slack.
Context {P : Pydantic} {L : PydanticLaws P}.

Lemma field_patched {A} (c : pyval -> option A) (f : A -> pyval) k dflt u d o a :
  od_get k (slack_patch u) = f <$> o -> (forall x, c (f x) = Some x) -> field c k dflt d = Some a ->
  field c k dflt (od_update (slack_patch u) d) = Some (default a o).
Proof.
  intros Hp Hc Hd. unfold field in *. rewrite (od_update_get _ _ _ (slack_patch_keys u)), Hp.
  destruct o; cbn; [apply Hc|exact Hd].
Qed.

Lemma slack_config_patched u d c : slack_config d = Some c -> slack_config (od_update (slack_patch u) d) = Some (patched u c).
Proof.
  intros Hd. unfold slack_config in Hd.
  repeat match type of Hd with
  | (_ ≫= _) = Some _ => let x := fresh "x" in let Hx := fresh "Hx" in apply bind_Some in Hd as (x & Hx & Hd)
  end.
  injection Hd as <-. unfold slack_config.
  rewrite (field_patched pyd_bool PvBool "enabled" _ u d (su_enabled u) _ ltac:(patch_get) pyd_bool_id Hx).
  rewrite (field_patched pyd_str PvStr "bot_token" _ u d (su_bot_token u) _ ltac:(patch_get) pyd_str_id Hx0).
  rewrite (field_patched pyd_str PvStr "channel" _ u d (su_channel u) _ ltac:(patch_get) pyd_str_id Hx1).
  rewrite (field_patched pyd_str PvStr "site_label" _ u d (su_site_label u) _ ltac:(patch_get) pyd_str_id Hx2).
  rewrite (field_patched pyd_bool PvBool "alert_on_alarm" _ u d (su_alert_on_alarm u) _ ltac:(patch_get) pyd_bool_id Hx3).
  rewrite (field_patched pyd_bool PvBool "alert_on_warning" _ u d (su_alert_on_warning u) _ ltac:(patch_get) pyd_bool_id Hx4).
  rewrite (field_patched pyd_bool PvBool "alert_on_alarm_cleared" _ u d (su_alert_on_alarm_cleared u) _ ltac:(patch_get) pyd_bool_id Hx5).
  rewrite (field_patched pyd_bool PvBool "alert_on_state_change" _ u d (su_alert_on_state_change u) _ ltac:(patch_get) pyd_bool_id Hx6).
  rewrite (field_patched pyd_bool PvBool "alert_on_command" _ u d (su_alert_on_command u) _ ltac:(patch_get) pyd_bool_id Hx7).
  rewrite (field_patched pyd_bool PvBool "alert_on_comms_lost" _ u d (su_alert_on_comms_lost u) _ ltac:(patch_get) pyd_bool_id Hx8).
  rewrite (field_patched pyd_bool PvBool "alert_on_load_source_change" _ u d (su_alert_on_load_source_change u) _ ltac:(patch_get) pyd_bool_id Hx9).
  reflexivity.
Qed.
End slack.

(** ** The edit of the file *)

(** What a tree holds under a key, and under a key of a section. *)
Definition top (k : string) (v : pyval) : option pyval := match v with PvDict d => od_get k d | _ => None end.
Definition value_at (sec f : string) (v : pyval) : option pyval :=
  match top sec v with Some (PvDict x) => od_get f x | _ => None end.

(** What a request asks for. *)
Definition patch_of (b : ConfigUpdate) (sec : string) : pydict :=
  if sec =? "serial" then default [] (cu_serial b) else if sec =? "modbus_tcp" then default [] (cu_modbus_tcp b)
  else if sec =? "modbus" then default [] (cu_modbus b) else if sec =? "retention" then default [] (cu_retention b)
  else if sec =? "slack" then default [] (slack_patch <$> cu_slack b) else [].
Definition scalar_of (b : ConfigUpdate) (k : string) : option pyval :=
  if k =? "transport" then PvStr <$> cu_transport b else if k =? "ws_push_ms" then num <$> cu_ws_push_ms b else None.

(** A step that edits one key. *)
Definition edits (k : string) (new : option pyval) (d d' : pyval) : Prop :=
  forall k', top k' d' = if k' =? k then new else top k' d.

Lemma set_item_edits k v d d' : set_item k v d = inr d' -> edits k (Some v) d d'.
Proof.
  destruct d as [| | | | |d]; try done. intros [= <-] k'. cbn. rewrite od_get_set.
  destruct (String.eqb_spec k' k); [by rewrite decide_True|by rewrite decide_False].
Qed.

Lemma patch_section_edits k p d d' :
  patch_section k p d = inr d' ->
  edits k (match default [] p with
           | [] => top k d
           | patch => Some (PvDict (od_update patch (match top k d with Some (PvDict x) => x | _ => [] end)))
           end) d d'.
Proof.
  destruct p as [[|kv p]|]; cbn [patch_section default];
    try (intros [= <-] k'; by destruct (String.eqb_spec k' k); subst).
  unfold update_section. destruct d as [| | | | |d]; try done. cbn [top]. intros Hd k'.
  destruct (od_get k d) as [[]|]; cbn [default] in Hd; try done; injection Hd as <-; cbn [top]; rewrite od_get_set;
    by destruct (String.eqb_spec k' k); [rewrite decide_True|rewrite decide_False].
Qed.

Lemma edit_disk_top b d d' : edit_disk b d = inr d' -> forall k,
  top k d' = match scalar_of b k with
             | Some v => Some v
             | None => match patch_of b k with
                       | [] => top k d
                       | p => Some (PvDict (od_update p (match top k d with Some (PvDict x) => x | _ => [] end)))
                       end
             end.
Proof.
  unfold edit_disk. intros Hd k.
  apply r_bind_inr in Hd as (d1 & H1 & Hd). apply r_bind_inr in Hd as (d2 & H2%patch_section_edits & Hd).
  apply r_bind_inr in Hd as (d3 & H3%patch_section_edits & Hd). apply r_bind_inr in Hd as (d4 & H4%patch_section_edits & Hd).
  apply r_bind_inr in Hd as (d5 & H5%patch_section_edits & Hd). apply r_bind_inr in Hd as (d6 & H6 & H7%patch_section_edits).
  assert (edits "transport" (match cu_transport b with Some t => Some (PvStr t) | None => top "transport" d end) d d1) as E1.
  { destruct (cu_transport b); [by apply set_item_edits|]. injection H1 as <-. intros k'. by destruct (String.eqb_spec k' "transport"); subst. }
  assert (edits "ws_push_ms" (match cu_ws_push_ms b with Some n => Some (num n) | None => top "ws_push_ms" d5 end) d5 d6) as E6.
  { destruct (cu_ws_push_ms b); [by apply set_item_edits|]. injection H6 as <-. intros k'. by destruct (String.eqb_spec k' "ws_push_ms"); subst. }
  clear H1 H6. unfold scalar_of, patch_of.
  rewrite (H7 k), !(E6 k), !(H5 k), !(H4 k), !(H3 k), !(H2 k), !(E1 k).
  rewrite ?(H7 _), ?(E6 _), ?(H5 _), ?(H4 _), ?(H3 _), ?(H2 _), ?(E1 _).
  clear. cbn [String.eqb Ascii.eqb Bool.eqb].
  destruct (String.eqb_spec k "slack") as [->|]; [cbn; by destruct (cu_slack b) as [u|]; [destruct (slack_patch u)|]|].
  destruct (String.eqb_spec k "ws_push_ms") as [->|]; [cbn; by destruct (cu_ws_push_ms b)|].
  destruct (String.eqb_spec k "retention") as [->|]; [cbn; by destruct (cu_retention b) as [[]|]|].
  destruct (String.eqb_spec k "modbus") as [->|]; [cbn; by destruct (cu_modbus b) as [[]|]|].
  destruct (String.eqb_spec k "modbus_tcp") as [->|]; [cbn; by destruct (cu_modbus_tcp b) as [[]|]|].
  destruct (String.eqb_spec k "serial") as [->|]; [cbn; by destruct (cu_serial b) as [[]|]|].
  destruct (String.eqb_spec k "transport") as [->|]; [cbn; by destruct (cu_transport b)|]. done.
Qed.

(** Every section patched by a request lists its fields once. *)
Definition patches_unique (b : ConfigUpdate) : Prop := forall sec, NoDup (od_keys (patch_of b sec)).

Lemma edit_disk_value b d d' sec f :
  edit_disk b d = inr d' -> patches_unique b -> sec <> "transport" -> sec <> "ws_push_ms" ->
  value_at sec f d' = match od_get f (patch_of b sec) with Some v => Some v | None => value_at sec f d end.
Proof.
  intros Hd Hn H1 H2. unfold value_at. rewrite (edit_disk_top _ _ _ Hd sec).
  assert (scalar_of b sec = None) as ->
    by (unfold scalar_of; by rewrite (proj2 (String.eqb_neq _ _) H1), (proj2 (String.eqb_neq _ _) H2)).
  specialize (Hn sec). destruct (patch_of b sec) as [|kv p] eqn:Ep; [done|]. rewrite (od_update_get _ _ _ Hn).
  destruct (top sec d) as [[]|]; done.
Qed.

Lemma given_nil {A} k (f : A -> pyval) o : given k f o = [] -> o = None.
Proof. by destruct o. Qed.

Lemma slack_patch_nil u c : slack_patch u = [] -> patched u c = c.
Proof.
  unfold slack_patch. intros Hu. repeat (apply app_eq_nil in Hu as [?%given_nil Hu]). apply given_nil in Hu.
  destruct u; cbn in *; subst. by destruct c.
Qed.

(** ** The update route *)

Section update.
Context {W T : Type} `{ModbusClient W} `{Clock W} {P : Pydantic} {L : PydanticLaws P} `{SettingsMerge}.
Variables (yaml_load : T -> res pyval) (yaml_dump : pyval -> T).
Hypothesis yaml_roundtrip : forall v, yaml_load (yaml_dump v) = inr v.
Implicit Types (s : App W T) (b : ConfigUpdate).

Definition patched_by b (c : SlackConfig) : SlackConfig := match cu_slack b with Some u => patched u c | None => c end.
(** The notifier takes the configuration over when a Slack field was sent. *)
Definition with_slack_of b s : App W T :=
  match sent_patch b with Some _ => with_slack_cfg (patched_by b (st_slack (ap_settings s))) s | None => s end.
Definition audit_update operator b : App W T -> App W T :=
  with_sys (fun y => set_db (log_audit (wall_clock (sy_world y)) operator "config.update"
    (py_repr (PvDict (audit_detail b))) "" "ok" (sy_db y)) y).

Lemma update_route_cases operator b s r s' :
  update_config_route yaml_load yaml_dump operator b s = (r, s') ->
  let path := st_config_path (ap_settings s) in
  match r with
  | inl _ => s' = s
  | inr reply =>
      path <> "" /\ (exists disk disk', read_disk yaml_load path s = inr disk /\ edit_disk b disk = inr disk' /\
        s' = audit_update operator b (with_slack_of b (with_file path (yaml_dump disk') s))) /\
      reply = {| ur_config_path := path; ur_restart_required := restart_required b;
                 ur_slack_updated := is_some (sent_patch b) |}
  end.
Proof.
  cbv zeta. unfold update_config_route. rewrite se_bind_gets. cbn [id].
  destruct (String.eqb_spec (st_config_path (ap_settings s)) "") as [|Hp]; [by intros [= <- <-]|].
  destruct (read_disk _ _ s) as [e|disk]; cbn [of_res]; [rewrite se_bind_raise; by intros [= <- <-]|].
  rewrite se_bind_ret_l. destruct (is_some _ && _); [by intros [= <- <-]|].
  destruct (edit_disk b disk) as [e|disk'] eqn:Ed; cbn [of_res]; [rewrite se_bind_raise; by intros [= <- <-]|].
  rewrite se_bind_ret_l, se_bind_modify.
  assert (forall s1, (match sent_patch b with
       | Some p => match slack_config (od_update p (dump_slack (st_slack (ap_settings s)))) with
                   | Some cfg => modify (with_slack_cfg cfg) | None => raise (Uncaught ValidationError) end
       | None => se_ret tt end) s1 =
     (inr tt, match sent_patch b with Some _ => with_slack_cfg (patched_by b (st_slack (ap_settings s))) s1 | None => s1 end)) as Hs.
  { intros s1. unfold sent_patch, patched_by. destruct (cu_slack b) as [u|]; cbn [fmap option_fmap option_map]; [|done].
    destruct (slack_patch u) as [|kv p] eqn:Eu; [done|]. rewrite <- Eu.
    rewrite (slack_config_patched u _ (st_slack (ap_settings s))); [done|apply load_dump_slack]. }
  unfold se_bind at 1. rewrite Hs. unfold app_audit. rewrite se_bind_modify. intros [= <- <-].
  split_and!; [done| |done]. exists disk, disk'. split_and!; [done|done|].
  unfold audit_update, with_slack_of. by destruct (sent_patch b).
Qed.

(** What [read_disk] reads back after a write. *)
Lemma read_disk_truthy path s v : read_disk yaml_load path s = inr v -> pv_or v (PvDict []) = v.
Proof.
  unfold read_disk, pv_or. destruct (ap_fs s !! path); [|by intros [= <-]].
  intros (x & _ & [= <-])%r_bind_inr. destruct (pv_truth x) eqn:E; by rewrite ?E.
Qed.

Lemma edit_disk_truthy b d d' : pv_or d (PvDict []) = d -> edit_disk b d = inr d' -> pv_or d' (PvDict []) = d'.
Proof.
  intros Hd He. assert (d' = d \/ exists x, d' = PvDict x) as [->|[x ->]]; [|done|by destruct x].
  assert (forall k p v v', patch_section k p v = inr v' -> v' = v \/ exists x, v' = PvDict x) as Hp.
  { intros k [[|kv p]|] v v'; cbn [patch_section]; try (intros [= ->]; by left). unfold update_section.
    destruct v; try done. destruct (default _ _); try done. intros [= <-]. right. by eexists. }
  assert (forall k w v v', set_item k w v = inr v' -> v' = v \/ exists x, v' = PvDict x) as Hi.
  { intros k w [] v'; try done. intros [= <-]. right. by eexists. }
  unfold edit_disk in He.
  apply r_bind_inr in He as (d1 & E1 & He). apply r_bind_inr in He as (d2 & E2%Hp & He).
  apply r_bind_inr in He as (d3 & E3%Hp & He). apply r_bind_inr in He as (d4 & E4%Hp & He).
  apply r_bind_inr in He as (d5 & E5%Hp & He). apply r_bind_inr in He as (d6 & E6 & E7%Hp).
  assert (d1 = d \/ exists x, d1 = PvDict x) by (destruct (cu_transport b); [by eapply Hi|injection E1 as <-; by left]).
  assert (d6 = d5 \/ exists x, d6 = PvDict x) by (destruct (cu_ws_push_ms b); [by eapply Hi|injection E6 as <-; by left]).
  clear E1 E6. naive_solver.
Qed.

Lemma update_route_disk operator b s reply s' :
  update_config_route yaml_load yaml_dump operator b s = (inr reply, s') ->
  let path := st_config_path (ap_settings s) in
  exists disk disk', read_disk yaml_load path s = inr disk /\ edit_disk b disk = inr disk' /\
    read_disk yaml_load path s' = inr disk' /\
    st_slack (ap_settings s') = patched_by b (st_slack (ap_settings s)).
Proof.
  intros Hr. cbv zeta. apply update_route_cases in Hr as (Hp & (disk & disk' & Hd & He & ->) & ->).
  exists disk, disk'. split_and!; [done|done| |].
  - assert (forall t, ap_fs (audit_update operator b (with_slack_of b t)) = ap_fs t) as Hf
      by (intros t; unfold with_slack_of; by destruct (sent_patch b)).
    unfold read_disk. rewrite Hf. cbn [with_file ap_fs]. rewrite lookup_insert_eq, yaml_roundtrip. cbn [r_bind r_ret].
    f_equal. eapply edit_disk_truthy; [|done]. by eapply read_disk_truthy.
  - unfold with_slack_of, patched_by, sent_patch. destruct (cu_slack b) as [u|]; cbn [fmap option_fmap option_map]; [|done].
    destruct (slack_patch u) eqn:Eu; [|done]. cbn. by rewrite slack_patch_nil.
Qed.

(** C28. PUT /api/config either fails and changes nothing, or merges the request into
    config.yaml field by field, leaves every other key and file alone, applies the Slack
    fields sent to the settings in memory and hands the result to the running notifier at
    once, whose queue and timers it leaves alone, and asks for a restart exactly when
    anything else was sent. *)
Theorem update_config_merges operator b s r s' :
  patches_unique b ->
  update_config_route yaml_load yaml_dump operator b s = (r, s') ->
  let path := st_config_path (ap_settings s) in
  match r with
  | inl _ => s' = s
  | inr reply =>
      exists disk disk', read_disk yaml_load path s = inr disk /\ read_disk yaml_load path s' = inr disk' /\
        (forall sec f, sec <> "transport" -> sec <> "ws_push_ms" ->
           value_at sec f disk' = match od_get f (patch_of b sec) with Some v => Some v | None => value_at sec f disk end) /\
        (forall k, patch_of b k = [] -> top k disk' = match scalar_of b k with Some v => Some v | None => top k disk end) /\
        (forall p, p <> path -> ap_fs s' !! p = ap_fs s !! p) /\
        st_slack (ap_settings s') = patched_by b (st_slack (ap_settings s)) /\
        (let n := ap_slack s in
         ap_slack s' =
           {| sn_cfg := match patch_of b "slack" with [] => sn_cfg n | _ => st_slack (ap_settings s') end;
              sn_site_name := sn_site_name n; sn_queue := sn_queue n; sn_retries := sn_retries n;
              sn_sending := sn_sending n; sn_running := sn_running n; sn_recent_sends := sn_recent_sends n |}) /\
        ap_regmap s' = ap_regmap s /\ ap_poller s' = ap_poller s /\ sy_world (ap_sys s') = sy_world (ap_sys s) /\
        (ur_restart_required reply = true <->
           cu_transport b <> None \/ cu_serial b <> None \/ cu_modbus_tcp b <> None \/ cu_modbus b <> None \/
           cu_retention b <> None \/ cu_ws_push_ms b <> None)
  end.
Proof.
  intros Hn Hr. cbv zeta. pose proof (update_route_cases _ _ _ _ _ Hr) as Hc. destruct r as [e|reply]; [done|].
  destruct (update_route_disk _ _ _ _ _ Hr) as (disk & disk' & Hd & He & Hd' & Hs).
  destruct Hc as (_ & (d0 & d1 & E1 & E2 & ->) & ->). assert (d0 = disk) as -> by congruence.
  assert (d1 = disk') as -> by congruence. clear E1 E2. exists disk, disk'. split_and!; try done.
  - intros sec f. by apply edit_disk_value.
  - intros k Hk. rewrite (edit_disk_top _ _ _ He k), Hk. by destruct (scalar_of b k).
  - intros p Hp. unfold with_slack_of. destruct (sent_patch b); cbn; by rewrite lookup_insert_ne.
  - change (patch_of b "slack") with (default [] (slack_patch <$> cu_slack b)). unfold with_slack_of, sent_patch.
    destruct (slack_patch <$> cu_slack b) as [[|kv p]|]; cbn; by destruct (ap_slack s).
  - unfold with_slack_of. by destruct (sent_patch b).
  - unfold with_slack_of. by destruct (sent_patch b).
  - unfold with_slack_of. by destruct (sent_patch b).
  - cbn. unfold restart_required, is_some.
    destruct (cu_transport b), (cu_serial b), (cu_modbus_tcp b), (cu_modbus b), (cu_retention b), (cu_ws_push_ms b);
      cbn; naive_solver.
Qed.

(** ** Slack settings survive a restart *)

Lemma scalar_patch u f w : od_get f (slack_patch u) = Some w -> scalar w = true.
Proof.
  intros Hw%od_get_elem. revert Hw. unfold slack_patch. rewrite !elem_of_app.
  assert (forall A k (g : A -> pyval) o, (f, w) ∈ given k g o -> exists x, w = g x) as Hg.
  { intros A k g [x|]; cbn; [|by intros ?%elem_of_nil]. intros [= _ ->]%list_elem_of_singleton. by exists x. }
  intros Hin. destruct_or! Hin; by apply Hg in Hin as [x ->].
Qed.

Lemma slack_section_after b d d' :
  edit_disk b (PvDict d) = inr (PvDict d') -> section_flat "slack" d ->
  section_flat "slack" d' /\
  forall c, slack_config (sec_of "slack" d) = Some c -> slack_config (sec_of "slack" d') = Some (patched_by b c).
Proof.
  intros He Hf. pose proof (edit_disk_top _ _ _ He "slack") as Ht. cbn [top scalar_of patch_of String.eqb Ascii.eqb Bool.eqb] in Ht.
  destruct (cu_slack b) as [u|] eqn:Eb; cbn [fmap option_fmap option_map default] in Ht.
  2: { unfold section_flat, sec_of, patched_by. rewrite Ht, Eb. done. }
  destruct (slack_patch u) as [|kv p] eqn:Ep.
  { unfold section_flat, sec_of, patched_by. rewrite Ht, Eb. split; [done|]. intros c Hc. by rewrite slack_patch_nil. }
  assert (od_get "slack" d' = Some (PvDict (od_update (slack_patch u) (sec_of "slack" d)))) as Hd'
    by (rewrite Ht, Ep; unfold sec_of; by destruct (od_get "slack" d) as [[]|]).
  split.
  - intros v Hv. rewrite Hd' in Hv. injection Hv as <-. eexists. split; [done|]. intros f w.
    rewrite (od_update_get _ _ _ (slack_patch_keys u)). destruct (od_get f (slack_patch u)) eqn:Ef.
    + intros [= <-]. by eapply scalar_patch.
    + unfold sec_of. destruct (od_get "slack" d) as [v|] eqn:Ed; [|done]. destruct (Hf v Ed) as (x & -> & Hx). apply Hx.
  - intros c Hc. unfold sec_of at 1. rewrite Hd'. unfold patched_by. rewrite Eb. by apply slack_config_patched.
Qed.

(** The sections a start builds its settings from. *)
Lemma built_sections chosen env yaml st :
  build_settings chosen env yaml = inr st ->
  let merged := merged_sources [("config_path", PvStr chosen)] env yaml in
  section "slack" slack_config merged = Some (st_slack st) /\ section "modbus" modbus_config merged = Some (st_modbus st).
Proof.
  unfold build_settings. destruct (settings_of _) as [st'|] eqn:Es; [|done]. intros [= ->]. unfold settings_of in Es.
  repeat match type of Es with
  | (_ ≫= _) = Some _ => let x := fresh "x" in let Hx := fresh "Hx" in apply bind_Some in Es as (x & Hx & Es)
  end. by injection Es as <-.
Qed.

Lemma built_slack chosen env yaml st :
  build_settings chosen env yaml = inr st -> od_get "slack" env = None -> section_flat "slack" yaml ->
  slack_config (sec_of "slack" yaml) = Some (st_slack st).
Proof.
  intros [Hs _]%built_sections He Hy.
  rewrite section_layers in Hs; [|apply slack_config_same|unfold SECTIONS; set_solver|congruence|done].
  unfold sec_of in Hs at 1. by rewrite He in Hs.
Qed.

(** The settings a start would load from the files as they are. *)
Definition starts_with (env : pydict) s (st : Settings) : Prop :=
  exists d, read_disk yaml_load (st_config_path (ap_settings s)) s = inr (PvDict d) /\
    build_settings (st_config_path (ap_settings s)) env d = inr st.
Definition slack_flat s : Prop := forall d,
  read_disk yaml_load (st_config_path (ap_settings s)) s = inr (PvDict d) -> section_flat "slack" d.

(** C29. The Slack settings in memory after PUT /api/config are those that a restart
    reads from the file it wrote, if memory and file agreed before and no environment
    variable overrides the section. *)
Theorem slack_survives_restart operator b s reply s' env st0 st1 :
  od_get "slack" env = None -> slack_flat s -> starts_with env s st0 -> st_slack st0 = st_slack (ap_settings s) ->
  update_config_route yaml_load yaml_dump operator b s = (inr reply, s') -> starts_with env s' st1 ->
  st_slack st1 = st_slack (ap_settings s') /\
  (sn_cfg (ap_slack s) = st_slack (ap_settings s) -> sn_cfg (ap_slack s') = st_slack (ap_settings s')).
Proof.
  intros Henv Hf (d & Hd & Hb0) Hs0 Hr (d' & Hd' & Hb1).
  pose proof (update_route_cases _ _ _ _ _ Hr) as (_ & (y & y' & _ & _ & Es) & _).
  assert (st_config_path (ap_settings s') = st_config_path (ap_settings s)) as Hp
    by (rewrite Es; unfold with_slack_of; by destruct (sent_patch b)).
  rewrite Hp in Hd', Hb1. specialize (Hf d Hd). split.
  - destruct (update_route_disk _ _ _ _ _ Hr) as (x & x' & E1 & He & E2 & Hslack).
    rewrite Hd in E1. injection E1 as <-. rewrite Hd' in E2. injection E2 as <-.
    destruct (slack_section_after _ _ _ He Hf) as [Hf' Hc].
    pose proof (built_slack _ _ _ _ Hb0 Henv Hf) as B0. pose proof (built_slack _ _ _ _ Hb1 Henv Hf') as B1.
    rewrite (Hc _ B0), Hs0 in B1. rewrite Hslack. congruence.
  - intros Hn. rewrite Es. unfold with_slack_of. destruct (sent_patch b); cbn; congruence.
Qed.

(** ** A configuration the next start refuses *)

Definition slave_update (z : Z) : ConfigUpdate :=
  {| cu_transport := None; cu_serial := None; cu_modbus_tcp := None; cu_modbus := Some [("slave", num z)];
     cu_retention := None; cu_slack := None; cu_ws_push_ms := None |}.

(** PUT /api/config accepts a slave address outside 1 to 247, writes it and answers
    with success; the configuration it leaves is refused by the next start. *)
Theorem update_accepts_unbootable operator s env d z :
  let path := st_config_path (ap_settings s) in
  path <> "" -> read_disk yaml_load path s = inr (PvDict d) -> section_flat "modbus" d -> od_get "modbus" env = None ->
  ~ (1 <= z <= 247)%Z ->
  exists reply s' d', update_config_route yaml_load yaml_dump operator (slave_update z) s = (inr reply, s') /\
    read_disk yaml_load path s' = inr (PvDict d') /\ build_settings path env d' = inl ValidationError.
Proof.
  cbv zeta. intros Hp Hd Hf Henv Hz.
  set (ms := sec_of "modbus" d). set (d' := od_set "modbus" (PvDict (od_set "slave" (num z) ms)) d).
  assert (edit_disk (slave_update z) (PvDict d) = inr (PvDict d')) as He.
  { unfold edit_disk. cbn. subst d' ms. unfold sec_of.
    destruct (od_get "modbus" d) as [v|] eqn:E; [|done]. by destruct (Hf v E) as (x & -> & _). }
  destruct (update_config_route yaml_load yaml_dump operator (slave_update z) s) as [[e|reply] s'] eqn:Hr.
  - exfalso. revert Hr. unfold update_config_route. rewrite se_bind_gets. cbn [id].
    rewrite (proj2 (String.eqb_neq _ _) Hp), Hd. cbn [of_res]. rewrite se_bind_ret_l. cbn [is_some slave_update cu_transport andb].
    fold (slave_update z). rewrite He. cbn [of_res]. by rewrite se_bind_ret_l, se_bind_modify.
  - exists reply, s', d'. split; [done|].
    destruct (update_route_disk _ _ _ _ _ Hr) as (x & x' & E1 & He' & E2 & _).
    rewrite Hd in E1. injection E1 as <-. rewrite He in He'. injection He' as <-. split; [exact E2|].
    destruct (build_settings _ env d') as [[]|st] eqn:Es; try done;
      try (unfold build_settings in Es; by destruct (settings_of _)).
    exfalso. apply built_sections in Es as [_ Hm].
    rewrite section_layers in Hm; [|apply modbus_config_same|unfold SECTIONS; set_solver|congruence|].
    2: { intros v Hv. subst d'. rewrite od_get_set_eq in Hv. injection Hv as <-. eexists. split; [done|].
      intros f w. rewrite od_get_set. case_decide; [by intros [= <-]|]. subst ms. unfold sec_of.
      destruct (od_get "modbus" d) as [v|] eqn:E; [|done]. destruct (Hf v E) as (x' & -> & Hx'). apply Hx'. }
    unfold sec_of in Hm at 1. rewrite Henv in Hm. unfold sec_of in Hm. subst d'. rewrite od_get_set_eq in Hm.
    apply bind_Some in Hm as (sl & Hsl & _). unfold field in Hsl. rewrite over_get in Hsl. cbn [od_get] in Hsl.
    rewrite od_get_set_eq, pyd_int_id in Hsl. cbn in Hsl. unfold slave_range in Hsl.
    destruct (_ && _)%Z eqn:E; [|done]. breflect. lia.
Qed.
End update.

(** ** Secrets stay hidden *)

Definition veil (s : string) : string := if s =? "" then "" else "<set>".
(** Settings and requests without what their secrets are. *)
Definition redact_config (c : SlackConfig) : SlackConfig :=
  {| sl_enabled := sl_enabled c; sl_bot_token := veil (sl_bot_token c); sl_channel := sl_channel c;
     sl_site_label := sl_site_label c; sl_alert_on_alarm := sl_alert_on_alarm c;
     sl_alert_on_warning := sl_alert_on_warning c; sl_alert_on_alarm_cleared := sl_alert_on_alarm_cleared c;
     sl_alert_on_state_change := sl_alert_on_state_change c; sl_alert_on_command := sl_alert_on_command c;
     sl_alert_on_comms_lost := sl_alert_on_comms_lost c;
     sl_alert_on_load_source_change := sl_alert_on_load_source_change c |}.
Definition redact_auth (a : AuthConfig) : AuthConfig :=
  {| ac_admin_password_hash := veil (ac_admin_password_hash a); ac_operator_name := ac_operator_name a;
     ac_jwt_secret := veil (ac_jwt_secret a); ac_session_hours := ac_session_hours a;
     ac_cookie_secure := ac_cookie_secure a; ac_cookie_samesite := ac_cookie_samesite a |}.
Definition redact (st : Settings) : Settings :=
  {| st_data_dir := st_data_dir st; st_config_path := st_config_path st; st_mock := st_mock st;
     st_transport := st_transport st; st_serial := st_serial st; st_modbus_tcp := st_modbus_tcp st;
     st_modbus := st_modbus st; st_retention := st_retention st; st_auth := redact_auth (st_auth st);
     st_slack := redact_config (st_slack st); st_ats := st_ats st; st_ws_push_ms := st_ws_push_ms st;
     st_cors_origins := st_cors_origins st |}.
Definition redact_slack (u : SlackUpdate) : SlackUpdate :=
  {| su_enabled := su_enabled u; su_bot_token := veil <$> su_bot_token u; su_channel := su_channel u;
     su_site_label := su_site_label u; su_alert_on_alarm := su_alert_on_alarm u;
     su_alert_on_warning := su_alert_on_warning u; su_alert_on_alarm_cleared := su_alert_on_alarm_cleared u;
     su_alert_on_state_change := su_alert_on_state_change u; su_alert_on_command := su_alert_on_command u;
     su_alert_on_comms_lost := su_alert_on_comms_lost u;
     su_alert_on_load_source_change := su_alert_on_load_source_change u |}.
Definition redact_update (b : ConfigUpdate) : ConfigUpdate :=
  {| cu_transport := cu_transport b; cu_serial := cu_serial b; cu_modbus_tcp := cu_modbus_tcp b;
     cu_modbus := cu_modbus b; cu_retention := cu_retention b; cu_slack := redact_slack <$> cu_slack b;
     cu_ws_push_ms := cu_ws_push_ms b |}.

Lemma veil_empty s : (veil s =? "") = (s =? "").
Proof. unfold veil. by destruct (String.eqb_spec s ""). Qed.

Lemma get_config_redact st : get_config (redact st) = get_config st.
Proof. unfold get_config. cbn. by rewrite !veil_empty. Qed.

Lemma od_set_app_cons {V} k (w x : V) (d1 d2 : odict string V) :
  k ∉ od_keys d1 -> od_set k w (d1 ++ (k, x) :: d2)%list = (d1 ++ (k, w) :: d2)%list.
Proof.
  induction d1 as [|[k' v] d1 IH]; cbn; intros Hk; [by rewrite decide_True|].
  apply not_elem_of_cons in Hk as [Hne Hk]. rewrite decide_False by done. by rewrite IH.
Qed.

Lemma slack_for_audit_redact u : slack_for_audit (slack_patch (redact_slack u)) = slack_for_audit (slack_patch u).
Proof.
  destruct u as [e [t|] ? ? ? ? ? ? ? ? ?]; [|done].
  unfold slack_for_audit, slack_patch, redact_slack; cbn [su_bot_token su_enabled fmap option_fmap option_map given].
  assert (mark_token (PvStr (veil t)) = mark_token (PvStr t)) as Hm by (unfold mark_token; cbn; by rewrite veil_empty).
  destruct e; cbn -[mark_token]; repeat ((rewrite decide_True by done) || (rewrite decide_False by done)); cbn -[mark_token]; by rewrite Hm.
Qed.

Lemma sent_patch_redact b :
  sent_patch (redact_update b) = (match cu_slack b with Some u => match sent_patch b with Some _ => Some (slack_patch (redact_slack u)) | None => None end | None => None end).
Proof.
  unfold sent_patch, redact_update. cbn [cu_slack]. destruct (cu_slack b) as [u|]; [|done].
  cbn [fmap option_fmap option_map].
  destruct u as [[?|] [?|] [?|] [?|] ? ? ? ? ? ? ?]; try done. cbn. by destruct (_ ++ _)%list.
Qed.

(** The dump of a request around its Slack entry. *)
Definition before_slack (b : ConfigUpdate) : pydict :=
  (given "transport" PvStr (cu_transport b) ++ given "serial" PvDict (cu_serial b) ++
   given "modbus_tcp" PvDict (cu_modbus_tcp b) ++ given "modbus" PvDict (cu_modbus b) ++
   given "retention" PvDict (cu_retention b))%list.
Lemma dump_update_split b :
  dump_update b = (before_slack b ++ given "slack" (fun u => PvDict (slack_patch u)) (cu_slack b) ++
                   given "ws_push_ms" num (cu_ws_push_ms b))%list.
Proof. unfold dump_update, before_slack. by rewrite <- !app_assoc. Qed.
Lemma before_slack_keys b : "slack" ∉ od_keys (before_slack b).
Proof. unfold before_slack. rewrite !od_keys_app, !given_keys. repeat case_match; set_solver. Qed.

Lemma audit_detail_redact b : audit_detail (redact_update b) = audit_detail b.
Proof.
  unfold audit_detail. rewrite sent_patch_redact. unfold sent_patch.
  destruct (cu_slack b) as [u|] eqn:Eb; cbn [fmap option_fmap option_map].
  2: { unfold dump_update, redact_update. cbn. by rewrite Eb. }
  destruct (slack_patch u) as [|kv p] eqn:Ep.
  - unfold dump_update, redact_update. cbn [cu_transport cu_serial cu_modbus_tcp cu_modbus cu_retention cu_slack cu_ws_push_ms].
    rewrite Eb. cbn [fmap option_fmap option_map given].
    pose proof (slack_patch_nil u) as Hn. assert (su_bot_token u = None) as Ht.
    { unfold slack_patch in Ep. repeat (apply app_eq_nil in Ep as [?%given_nil Ep]). done. }
    assert (redact_slack u = u) as -> by (destruct u; cbn in *; by subst). done.
  - rewrite <- Ep, slack_for_audit_redact, !dump_update_split. cbn [redact_update cu_slack cu_ws_push_ms]. rewrite Eb.
    cbn [fmap option_fmap option_map given app]. rewrite !od_set_app_cons by apply before_slack_keys. done.
Qed.

Lemma redact_patched u c : redact_config (patched u c) = patched (redact_slack u) (redact_config c).
Proof. unfold redact_config, patched. cbn. by destruct (su_bot_token u). Qed.

Section hidden.
Context {W T : Type} `{ModbusClient W} `{Clock W} {P : Pydantic} {L : PydanticLaws P}.
Variables (yaml_load : T -> res pyval) (yaml_dump : pyval -> T).
Implicit Types (s : App W T) (b : ConfigUpdate).

Lemma redact_with_slack b s :
  redact (ap_settings (with_slack_of b s)) =
    settings_with_slack (patched_by (redact_update b) (st_slack (redact (ap_settings s)))) (redact (ap_settings s)).
Proof.
  unfold with_slack_of, sent_patch, patched_by, redact_update. cbn [cu_slack].
  destruct (cu_slack b) as [u|]; cbn [fmap option_fmap option_map]; [|done].
  destruct (slack_patch u) eqn:Eu.
  - cbn [redact st_slack]. rewrite <- redact_patched, slack_patch_nil by done. done.
  - cbn -[redact_config patched redact_slack]. unfold redact, settings_with_slack. cbn -[redact_config patched redact_slack]. by rewrite redact_patched.
Qed.

(** C30. Replies of GET and PUT /api/config, the audit trail and the rest of the
    database do not depend on the password hash, the session secret or the Slack token, only
    on whether they are set. *)
Theorem secrets_hidden operator b1 b2 s1 s2 reply1 reply2 s1' s2' :
  redact (ap_settings s1) = redact (ap_settings s2) -> redact_update b1 = redact_update b2 -> ap_sys s1 = ap_sys s2 ->
  update_config_route yaml_load yaml_dump operator b1 s1 = (inr reply1, s1') ->
  update_config_route yaml_load yaml_dump operator b2 s2 = (inr reply2, s2') ->
  get_config (ap_settings s1) = get_config (ap_settings s2) /\ reply1 = reply2 /\ ap_sys s1' = ap_sys s2' /\
  get_config (ap_settings s1') = get_config (ap_settings s2').
Proof.
  intros Hst Hb Hsys E1%update_route_cases E2%update_route_cases.
  destruct E1 as (_ & (d1 & d1' & _ & _ & ->) & ->), E2 as (_ & (d2 & d2' & _ & _ & ->) & ->).
  assert (st_config_path (ap_settings s1) = st_config_path (ap_settings s2)) as Hp
    by exact (f_equal st_config_path Hst).
  assert (is_some (sent_patch b1) = is_some (sent_patch b2)) as Hs.
  { transitivity (is_some (sent_patch (redact_update b1))); [|rewrite Hb]; rewrite sent_patch_redact;
      unfold sent_patch; [destruct (cu_slack b1)|destruct (cu_slack b2)]; cbn; try done; by case_match. }
  assert (restart_required b1 = restart_required b2) as Hr by exact (f_equal restart_required Hb).
  assert (forall b s x d, ap_sys (audit_update operator b (with_slack_of b (with_file x (yaml_dump d) s))) =
    set_db (log_audit (wall_clock (sy_world (ap_sys s))) operator "config.update" (py_repr (PvDict (audit_detail b)))
      "" "ok" (sy_db (ap_sys s))) (ap_sys s)) as Ha by (intros b s x d; unfold with_slack_of; by destruct (sent_patch b)).
  split_and!.
  - by rewrite <- get_config_redact, Hst, get_config_redact.
  - by rewrite Hp, Hs, Hr.
  - rewrite !Ha, <- (audit_detail_redact b1), Hb, audit_detail_redact. by rewrite Hsys.
  - rewrite <- (get_config_redact (ap_settings (audit_update _ b1 _))), <- (get_config_redact (ap_settings (audit_update _ b2 _))).
    unfold audit_update, with_sys. cbn [ap_settings]. rewrite !redact_with_slack. cbn [with_file ap_settings].
    by rewrite Hb, Hst.
Qed.
End hidden.

(** ** The register map *)

Section registers.
Context {W T : Type} `{ModbusClient W} `{Clock W}.
Variables (yaml_load : T -> res pyval) (exc_text : pyexc -> string).
Implicit Types (s : App W T).

Lemma load_register_map_ok path tree rm :
  load_register_map path tree = inr rm -> rm_path rm = path /\ mv_ok (validate_register_map rm) = true.
Proof.
  intros (rm' & Hp & Hl)%r_bind_inr. destruct (mv_errors (validate_register_map rm')) eqn:Ev; [|done].
  injection Hl as ->. split; [by apply parse_ok in Hp as (Hp & _)|]. unfold mv_ok. by rewrite Ev.
Qed.

(** The register map every consumer holds. *)
Definition maps_in_use s : list RegisterMap :=
  [ap_regmap s; p_regmap (ap_poller s); sm_regmap (sy_sm (ap_sys s)); sy_regmap (ap_sys s)].

(** C33. A register reload puts the validated new map into poller, state machine,
    control service and application together and rebuilds the batches, or leaves all four as
    they were; tokens, alarm rows, snapshot, readings and wire are untouched either way, and
    the audit row says which it was. *)
Theorem reload_everywhere_or_nowhere operator s r s' :
  reload_route yaml_load exc_text operator s = (r, s') ->
  sy_tokens (ap_sys s') = sy_tokens (ap_sys s) /\ db_alarms (sy_db (ap_sys s')) = db_alarms (sy_db (ap_sys s)) /\
  sm_snap (sy_sm (ap_sys s')) = sm_snap (sy_sm (ap_sys s)) /\ p_reading (ap_poller s') = p_reading (ap_poller s) /\
  sy_world (ap_sys s') = sy_world (ap_sys s) /\ ap_settings s' = ap_settings s /\
  (exists row, db_audit (sy_db (ap_sys s')) = (db_audit (sy_db (ap_sys s)) ++ [row])%list /\ au_operator row = operator /\
     au_action row = "registers.reload" /\ (au_result row = "ok" <-> exists n, r = inr n)) /\
  match r with
  | inr _ => exists rm, load_file yaml_load (rm_path (ap_regmap s)) s = inr rm /\
      Forall (eq rm) (maps_in_use s') /\ mv_ok (validate_register_map rm) = true /\
      rm_path rm = rm_path (ap_regmap s) /\ sm_alarm_poll_counts (sy_sm (ap_sys s')) = ∅ /\
      p_prime_batches (ap_poller s') = batch_reads (tier rm "prime") default_max_words /\ p_base_batches (ap_poller s') = batch_reads (tier rm "base") default_max_words /\
      sy_heap (ap_sys s') !! ap_comms_ref s = Some (p_health (ap_poller s'))
  | inl _ => maps_in_use s' = maps_in_use s /\ ap_poller s' = ap_poller s /\ sy_heap (ap_sys s') = sy_heap (ap_sys s)
  end.
Proof.
  unfold reload_route. rewrite se_bind_gets. cbn [id].
  destruct (load_file yaml_load (rm_path (ap_regmap s)) s) as [e|rm] eqn:El.
  - unfold app_audit. rewrite se_bind_modify. intros [= <- <-]. cbn. split_and!; try done.
    eexists. split_and!; [reflexivity|done|done|]. cbn. split; [done|by intros [? ?]].
  - rewrite se_bind_modify. unfold app_audit, app_event. rewrite !se_bind_modify. intros [= <- <-].
    cbn -[sm_apply_regmap poller_apply_regmap]. split_and!; try done.
    + eexists. split_and!; [reflexivity|done|done|]. cbn. split; [intros _; by eexists|done].
    + exists rm. pose proof El as Hl. unfold load_file in Hl. destruct (ap_fs s !! _); [|done].
      apply r_bind_inr in Hl as (v & Hv & Hl). destruct (load_register_map_ok _ _ _ Hl) as [Hp Hok].
      split_and!; try done; [by repeat constructor|by rewrite lookup_insert_eq].
Qed.
End registers.
