(* ===== verification/Status.v ===== *)
(** * What the user interface reads (api/status.py, api/telemetry.py, api/events.py)

    The status document, the snapshot pushed to the WebSocket clients, and the
    queries over telemetry, events and alarms.  Payloads are JSON trees; times in
    them are integers of nanoseconds like everywhere else. *)

From S2P Require Import Prelude PyNum PyVal Registers Poller Database DatabaseFacts Events StateMachine StateMachineFacts Ats Http.

Local Open Scope Z_scope.
Local Open Scope gw_scope.
Local Open Scope string_scope.

(** ** JSON *)

Definition json_opt {A} (f : A -> pyval) (o : option A) : pyval := match o with Some a => f a | None => PvNone end.
Definition json_bool (o : option bool) : pyval := json_opt PvBool o.
Definition json_time (o : option Z) : pyval := json_opt num o.
(** [values.get(name)] *)
Definition json_value (values : gmap string pynum) (name : string) : pyval := json_opt PvNum (values !! name).
Definition str_items (l : list string) : pyval := PvList (map PvStr l).

(** ** Readings *)

(** The keys of the user interface with the registers behind them. *)
Definition UI_KEYS : list (string * string) :=
  [("rpm", "rpm"); ("hz", "frequency"); ("kw", "total_kw"); ("pf", "power_factor"); ("oilP", "oil_pressure");
   ("oilT", "oil_temp"); ("coolT", "coolant_temp"); ("coolLevel", "coolant_level"); ("throttle", "throttle_position");
   ("o2", "o2_sensor"); ("batt", "battery_volts"); ("battA", "batt_charge_current"); ("vAB", "gen_voltage_ab");
   ("vBC", "gen_voltage_bc"); ("vCA", "gen_voltage_ca"); ("iA", "gen_current_a"); ("iB", "gen_current_b");
   ("iC", "gen_current_c"); ("fuelPct", "fuel_level_pct"); ("runHours", "run_hours"); ("startCount", "start_count")].
Definition reading_to_ui (values : gmap string pynum) : odict string pyval :=
  map (fun kr => (fst kr, json_value values (snd kr))) UI_KEYS.

(** ** The snapshot push of [on_poll] (main.py) *)

Definition panel_push (mode : string) (values : gmap string pynum) : pyval :=
  PvDict [("mode", PvStr mode); ("keySwitchRaw", json_value values "key_switch_state");
          ("engineStatusCode", json_value values "engine_status_code");
          ("activeAlarmCountHw", json_value values "active_alarm_count");
          ("quietTestStatusRaw", json_value values "quiettest_status")].

Definition ats_push (heap : comms_heap) (service : AtsService) : pyval :=
  let a := as_snap service in
  let c := comms_at heap (at_comms a) in
  PvDict
    [("enabled", PvBool true); ("position", PvStr (at_position a)); ("normalAvailable", json_bool (at_normal_available a));
     ("emergencyAvailable", json_bool (at_emergency_available a));
     ("engineStartCalling", json_bool (at_engine_start_calling a)); ("atsMode", PvStr (at_mode a));
     ("faultCodes", str_items (str_sorted (elements (at_fault_codes a))));
     ("lastTransferToGenTs", json_time (at_last_transfer_to_gen_ts a));
     ("lastRetransferToUtilTs", json_time (at_last_retransfer_to_util_ts a));
     ("transferCount24h", num (at_transfer_count_24h a)); ("transferCountLifetime", num (at_transfer_count_lifetime a));
     ("cmdTestActive", PvBool (at_cmd_test_active a)); ("cmdInhibitActive", PvBool (at_cmd_inhibit_active a));
     ("cmdForceTransferActive", PvBool (at_cmd_force_transfer_active a));
     ("cmdBypassDelayActive", PvBool (at_cmd_bypass_delay_active a));
     ("comms", PvDict [("state", PvStr (ch_state c)); ("successPct", num (ch_success_pct c))]);
     ("authoritative", PvBool (is_authoritative heap service))].

Definition push_payload (now : Z) (heap : comms_heap) (ats : option AtsService) (sm : StateMachine) (comms : CommsHealth)
    (reading : Reading) : odict string pyval :=
  let snap := sm_snap sm in
  [("type", PvStr "snapshot"); ("ts", num (rd_ts reading)); ("state", PvStr (ss_engine_state snap));
   ("timeInState", num (time_in_state_s now snap)); ("alarmRaw", num (alarm_raw snap));
   ("loadSource", PvStr (ss_load_source snap)); ("timeInLoadSource", num (time_in_load_source_s now snap));
   ("comms", PvDict [("state", PvStr (ch_state comms)); ("successPct", num (ch_success_pct comms));
      ("rateMs", num (ch_rate_ms comms)); ("p95LatencyMs", num (ch_p95_latency_ms comms))]);
   ("reading", PvDict (reading_to_ui (rd_values reading)));
   ("panel", panel_push (ss_panel_mode snap) (rd_values reading));
   ("ats", json_opt (ats_push heap) ats)].

(** ** The status document *)

Definition panel_block (mode : string) (r : gmap string pynum) : pyval :=
  PvDict [("mode", PvStr mode); ("keySwitchRaw", json_value r "key_switch_state");
          ("engineStatusCode", json_value r "engine_status_code");
          ("activeAlarmCountHw", json_value r "active_alarm_count");
          ("quietTestStatusRaw", json_value r "quiettest_status")].

Definition ats_block (heap : comms_heap) (ats : option AtsService) : pyval :=
  match ats with
  | None => PvDict [("enabled", PvBool false)]
  | Some service =>
      let s := as_snap service in
      let c := comms_at heap (at_comms s) in
      let '(icd_major, icd_minor) := at_icd_version s in
      let '(fw_major, fw_minor, fw_patch) := at_fw s in
      PvDict
        [("enabled", PvBool true); ("position", PvStr (at_position s));
         ("normalAvailable", json_bool (at_normal_available s)); ("emergencyAvailable", json_bool (at_emergency_available s));
         ("engineStartCalling", json_bool (at_engine_start_calling s)); ("atsMode", PvStr (at_mode s));
         ("faultCodes", str_items (str_sorted (elements (at_fault_codes s))));
         ("lastTransferToGenTs", json_time (at_last_transfer_to_gen_ts s));
         ("lastRetransferToUtilTs", json_time (at_last_retransfer_to_util_ts s));
         ("transferCount24h", num (at_transfer_count_24h s)); ("transferCountLifetime", num (at_transfer_count_lifetime s));
         ("icdVersion", PvList [num icd_major; num icd_minor]);
         ("atsPiFw", PvList [num fw_major; num fw_minor; num fw_patch]);
         ("atsPiUnitId", num (at_unit_id s)); ("atsPiUptimeS", num (at_uptime_s s));
         ("cmdTestActive", PvBool (at_cmd_test_active s)); ("cmdInhibitActive", PvBool (at_cmd_inhibit_active s));
         ("cmdForceTransferActive", PvBool (at_cmd_force_transfer_active s));
         ("cmdBypassDelayActive", PvBool (at_cmd_bypass_delay_active s));
         ("comms", PvDict [("state", PvStr (ch_state c)); ("successPct", num (ch_success_pct c));
            ("lastGoodAt", json_time (ch_last_good_at c)); ("rateMs", num (ch_rate_ms c))]);
         ("authoritative", PvBool (is_authoritative heap service))]
  end.

Definition alarm_json (r : AlarmRow) : pyval :=
  PvDict [("code", PvStr (al_code r)); ("desc", PvStr (al_desc r)); ("severity", PvStr (al_severity r));
          ("raised_at", num (al_raised_at r)); ("raw", num (al_raw r))].

(** The engine starts shown: the register when the map has one, else the event log. *)
Definition shown_starts (values : gmap string pynum) (d : Database) : pyval :=
  match values !! "start_count" with Some n => PvNum n | None => num (count_engine_starts d) end.

Definition status_payload (now : Z) (regmap : RegisterMap) (heap : comms_heap) (ats : option AtsService) (sm : StateMachine)
    (d : Database) : odict string pyval :=
  let snap := sm_snap sm in
  let r := rd_values (ss_last_reading snap) in
  let c := comms_at heap (ss_comms snap) in
  let site := rm_site regmap in
  [("state", PvStr (ss_engine_state snap)); ("alarmRaw", num (alarm_raw snap));
   ("timeInState", num (time_in_state_s now snap)); ("stateStartedAt", num (ss_state_started_at snap));
   ("loadSource", PvStr (ss_load_source snap)); ("loadSourceStartedAt", num (ss_load_source_started_at snap));
   ("timeInLoadSource", num (time_in_load_source_s now snap));
   ("comms", PvDict [("state", PvStr (ch_state c)); ("successPct", num (ch_success_pct c));
      ("lastGoodAt", json_time (ch_last_good_at c)); ("rateMs", num (ch_rate_ms c));
      ("p95LatencyMs", num (ch_p95_latency_ms c))]);
   ("reading", PvDict (od_set "startCount" (shown_starts r d) (reading_to_ui r)));
   ("site", PvDict [("id", PvStr (site_id site)); ("name", PvStr (site_name site)); ("ratingKw", num (site_rating_kw site));
      ("engine", PvStr (site_engine site)); ("tankGal", num (site_tank_gal site)); ("fuelType", PvStr (site_fuel_type site))]);
   ("exercise", PvDict [("enabled", PvBool (site_exercise_enabled site)); ("day", PvStr (site_exercise_day site));
      ("time", PvStr (site_exercise_time site)); ("durationMin", num (site_exercise_duration_min site))]);
   ("activeAlarms", PvList (map alarm_json (active_alarms d)));
   ("hts", PvDict [("transferredToGen", PvBool (ss_load_source snap =? "generator"));
      ("lastTransferTs", json_opt (fun x => num (fst x)) (last_transfer_to_gen d));
      ("transfers30d", num (count_transfers_since (now - sec (30 * 86400)) d))]);
   ("lastAlarm", json_opt (fun e => PvDict [("ts", num (ev_ts e)); ("severity", PvStr (ev_severity e));
      ("message", PvStr (ev_message e))]) (last_alarm_event d));
   ("panel", panel_block (derive_panel_mode regmap r) r);
   ("ats", ats_block heap ats); ("serverTs", num now)].

(** [health]; [authed] is whether [get_principal] let the caller in. *)
Definition health_payload (authed : bool) (now started_at db_bytes : Z) (version : string) (mock : bool) (heap : comms_heap)
    (sm : StateMachine) : odict string pyval :=
  if negb authed then [("ok", PvBool true); ("mock", PvBool mock)]
  else [("ok", PvBool true); ("comms", PvStr (ch_state (comms_at heap (ss_comms (sm_snap sm)))));
        ("engineState", PvStr (ss_engine_state (sm_snap sm))); ("uptimeS", num (Z.quot (now - started_at) (sec 1)));
        ("dbBytes", num db_bytes); ("mock", PvBool mock); ("version", PvStr version)].

(** ** Queries *)

Definition METRIC_TO_COLUMN : odict string string :=
  [("kw", "kw"); ("rpm", "rpm"); ("hz", "hz"); ("oilP", "oil_p"); ("coolT", "cool_t"); ("batt", "batt");
   ("vAB", "v_ab"); ("iA", "i_a")].

(** [x or dflt] of an optional time *)
Definition time_or (o : option Z) (dflt : Z) : Z :=
  match o with Some t => if (t =? 0)%Z then dflt else t | None => dflt end.

Inductive telemetry_error : Type := BadRequest (e : HttpError) | ReadFailed (e : tel_error).

(** [telemetry]; the framework has checked 10 <= max_points <= 10000. *)
Definition telemetry_query (now : Z) (metric : string) (from_ts to_ts : option Z) (max_points : Z) (d : Database)
    : telemetry_error + (string * Z * Z * list (Z * Q)) :=
  match od_get metric METRIC_TO_COLUMN with
  | None => inl (BadRequest (http_error 400 ("unknown metric " +:+ repr_str metric +:+ "; options: " +:+
                                             str_join "," (od_keys METRIC_TO_COLUMN))))
  | Some column =>
      let to := time_or to_ts now in
      let from := time_or from_ts (to - sec 3600) in
      if (to <=? from)%Z then inl (BadRequest (http_error 400 "from must be < to"))
      else match read_telemetry column from to max_points d with
           | inl e => inl (ReadFailed e)
           | inr rows => inr (column, from, to, rows)
           end
  end.

(** [s.split(",")] *)
Fixpoint split_comma (s : string) : list string :=
  match s with
  | EmptyString => [EmptyString]
  | String c s' =>
      if Ascii.eqb c (Ascii.ascii_of_nat 44) then EmptyString :: split_comma s'
      else match split_comma s' with x :: l => String c x :: l | [] => [String c EmptyString] end
  end.

(** [events]: an empty severity parameter is no filter. *)
Definition events_query (limit : Z) (severity type_ : option string) (from_ts to_ts : option Z) (d : Database) : list EventRow :=
  let sevs := match severity with Some s => if s =? "" then None else Some (split_comma s) | None => None end in
  read_events limit from_ts to_ts sevs type_ d.

(** [alarms] *)
Definition alarms_query (active : bool) (d : Database) : list EventRow + list AlarmRow :=
  if active then inr (active_alarms d) else inl (read_events 500 None None None (Some "ALARM") d).

(** [alarm_codes] *)
Definition alarm_codes_query (rm : RegisterMap) : list (string * string * string * string * string) :=
  map (fun a => (ab_code a, ab_desc a, ab_severity a, ab_register a, "0x" +:+ fmt_04X (ab_mask a))) (rm_alarm_bits rm).

(** ** Theorems *)

(** The field at a path of keys, and the fields that are not objects themselves. *)
Fixpoint dig (path : list string) (v : pyval) : option pyval :=
  match path with
  | [] => Some v
  | k :: p => match v with
              | PvDict d => match od_get k d with Some x => dig p x | None => None end
              | _ => None
              end
  end.
Definition leaf (v : pyval) : Prop := match v with PvDict _ => False | _ => True end.

(** Every leaf of [v] is one of [w], at the same path. *)
Definition mirrored (v w : pyval) : Prop := forall path u, dig path v = Some u -> leaf u -> dig path w = Some u.

Lemma mirrored_refl v : mirrored v v.
Proof. by intros path u. Qed.

Lemma mirrored_dict d e :
  (forall k x, od_get k d = Some x -> exists y, od_get k e = Some y /\ mirrored x y) -> mirrored (PvDict d) (PvDict e).
Proof.
  intros Hde [|k p] u Hd Hu; cbn [dig] in *; [by injection Hd as <-|].
  destruct (od_get k d) as [x|] eqn:Ex; [|done]. destruct (Hde k x Ex) as (y & -> & Hxy). by apply Hxy.
Qed.

Ltac fields := repeat (rewrite od_get_hd || rewrite od_get_tl by discriminate).
(** The key found in a literal object, case by case. *)
Ltac each_key H := cbn [od_get] in H; repeat (case_decide; [simplify_eq|]); try done.

Lemma ui_keys_get values k v : od_get k (od_set "startCount" v (reading_to_ui values)) =
  if k =? "startCount" then Some v else od_get k (reading_to_ui values).
Proof. rewrite od_get_set. destruct (String.eqb_spec k "startCount"); [by rewrite decide_True|by rewrite decide_False]. Qed.

Lemma ats_mirrored heap a : mirrored (ats_push heap a) (ats_block heap (Some a)).
Proof.
  unfold ats_push, ats_block. destruct (at_icd_version (as_snap a)), (at_fw (as_snap a)) as [[??]?].
  apply mirrored_dict. intros k x Hx. each_key Hx.
  all: eexists; split; [fields; reflexivity|]; try apply mirrored_refl.
  apply mirrored_dict. intros k x Hx. each_key Hx. all: eexists; split; [fields; reflexivity|apply mirrored_refl].
Qed.

Lemma start_count_pushed values : od_get "startCount" (reading_to_ui values) = Some (json_value values "start_count").
Proof. unfold reading_to_ui, UI_KEYS. cbn [map fst snd]. by fields. Qed.

(** C34. After a poll every field of the snapshot pushed to the clients but its type and
    time is in GET /api/status, at the same place and with the same value, with two
    exceptions: without a start_count register the status counts engine starts from the
    event log while the push says null, and without a companion the status says that it is
    not enabled while the push says null. *)
Theorem push_mirrors_status `{SetOrder} now now' heap view reading l m ob ats d :
  let m' := fst (update now heap view reading l (m, ob)) in
  let push := PvDict (push_payload now' heap ats m' (comms_at heap l) reading) in
  let doc := PvDict (status_payload now' (sm_regmap m) heap ats m' d) in
  let no_starts := rd_values reading !! "start_count" = None in
  (forall path v, dig path push = Some v -> leaf v -> path <> ["type"] -> path <> ["ts"] ->
     ~ (no_starts /\ path = ["reading"; "startCount"]) -> ~ (ats = None /\ path = ["ats"]) ->
     dig path doc = Some v) /\
  (no_starts -> dig ["reading"; "startCount"] push = Some PvNone /\
     dig ["reading"; "startCount"] doc = Some (num (count_engine_starts d))) /\
  (ats = None -> dig ["ats"] push = Some PvNone /\ dig ["ats"] doc = Some (PvDict [("enabled", PvBool false)])).
Proof.
  cbv zeta. destruct (update_snapshot now heap view reading l m ob) as (_ & _ & _ & Hp & _ & Hc & Hr & _).
  set (m' := fst (update _ _ _ _ _ _)) in *. unfold push_payload, status_payload. rewrite Hr, Hc. split_and!.
  - intros [|k p] v Hv Hl Hty Hts Hst Hats; cbn [dig] in Hv; [by injection Hv as <-|]. cbn [dig].
    destruct (od_get k _) as [x|] eqn:Ex in Hv; [|done]. each_key Ex.
    all: fields; try exact Hv.
    + by destruct p as [|? p]; [destruct Hty|].
    + by destruct p as [|? p]; [destruct Hts|].
    + refine (mirrored_dict _ _ _ p v Hv Hl). intros k x Hx. each_key Hx.
      all: eexists; split; [fields; reflexivity|apply mirrored_refl].
    + destruct p as [|k p]; cbn [dig] in Hv |- *; [by injection Hv as <-|]. rewrite ui_keys_get.
      destruct (String.eqb_spec k "startCount") as [->|]; [|done]. rewrite start_count_pushed in Hv.
      unfold shown_starts, json_value in *. destruct (rd_values reading !! "start_count"); [done|].
      destruct p as [|? p]; [by destruct Hst|done].
    + by rewrite Hp in Hv.
    + destruct ats as [a|]; [by apply (ats_mirrored heap a p v)|]. by destruct p as [|? p]; [destruct Hats|].
  - intros Hs. cbn [dig]. fields. rewrite start_count_pushed, ui_keys_get. cbn [String.eqb Ascii.eqb Bool.eqb].
    unfold shown_starts, json_value. by rewrite Hs.
  - intros ->. cbn [dig]. by fields.
Qed.

(** A telemetry query is a 400 for an unknown metric or an empty span and otherwise
    succeeds with fewer than twice the requested points, each of a stored row, in order. *)
Theorem telemetry_query_total now metric from_ts to_ts m d :
  0 < m ->
  match telemetry_query now metric from_ts to_ts m d with
  | inl (BadRequest e) => he_status e = 400 /\
      (od_get metric METRIC_TO_COLUMN = None \/ time_or to_ts now <= time_or from_ts (time_or to_ts now - sec 3600))
  | inl (ReadFailed _) => False
  | inr (column, from, to, rows) =>
      od_get metric METRIC_TO_COLUMN = Some column /\ from < to /\ Z.of_nat (length rows) < 2 * m /\
      rows `sublist_of` (as_point <$> read_rows column from to d)
  end%Z.
Proof.
  intros Hm. unfold telemetry_query. destruct (od_get metric METRIC_TO_COLUMN) as [column|] eqn:Ec; [|by split; [|left]].
  destruct (Z.leb_spec (time_or to_ts now) (time_or from_ts (time_or to_ts now - sec 3600))); [by split; [|right]|].
  assert (column ∈ map snd COLUMN_MAP /\ column <> "state") as [Hin Hne].
  { apply od_get_elem in Ec. unfold METRIC_TO_COLUMN in Ec. unfold COLUMN_MAP. cbn [map snd].
    repeat (apply elem_of_cons in Ec as [Ec|Ec]; [injection Ec as -> ->; split; [set_solver|done]|]). by apply elem_of_nil in Ec. }
  destruct (read_telemetry column _ _ m d) as [e|rows] eqn:Er.
  - unfold read_telemetry in Er. rewrite bool_decide_true in Er by done. cbn [negb andb] in Er.
    by rewrite (proj2 (String.eqb_neq _ _) Hne) in Er.
  - destruct (read_telemetry_points _ _ _ _ _ _ Hm Er). done.
Qed.
