(* ===== verification/LiveSocket.v ===== *)
(** * The live WebSocket (api/ws.py)

    Admission of a connection, its loop (one frame per turn, a ping after 20 s of
    silence, a fresh look at the session every 60 s) and the subscription behind it.
    The queue belongs to the handler: when the bus drops a full queue the handler
    keeps what is in it.  A send that raises ends the handler like a disconnect. *)

From S2P Require Import Prelude PyNum Poller Database Events StateMachine Http.

Local Open Scope Z_scope.

Definition REVALIDATE_EVERY_S : Z := sec 60.
Definition KEEPALIVE_S : Z := sec 20.

(** ** State *)

Inductive frame : Type :=
| FHello (state comms_state : string) (success_pct rate_ms server_ts : Z)
| FEvent (e : BusEvent)
| FPing.

Record Socket : Type := {
  so_open : bool;
  so_subscribed : bool;              (* the queue is in bus._subs *)
  so_waiting : list BusEvent;        (* the queue *)
  so_last_revalidated : Z;
  so_sent : list (Z * frame)         (* with the monotonic time of the send *)
}.

Section socket.
Variable jwt_decode : Z -> string -> string -> jwt_result.

(** ** Admission *)

Definition current_token (rq : Request) (fallback_query_token : option string) : option string :=
  let cookie := od_get "genwatch_session"%string (rq_cookies rq) in
  if truthy cookie then cookie else fallback_query_token.

(** [_authed] at wall-clock [now]. *)
Definition authed (now : Z) (secret : string) (rq : Request) (token : option string) : bool :=
  match current_token rq token with
  | Some raw => if (raw =? "")%string then false
                else match decode_token jwt_decode now secret raw with inr _ => true | inl _ => false end
  | None => false
  end.

(** The connection up to the loop; [None] when it is closed with a policy violation. *)
Definition live_connect (now mono : Z) (cors : list string) (secret : string) (rq : Request) (token : option string)
    (heap : comms_heap) (snap : StateSnapshot) : option Socket :=
  if negb (origin_allowed cors rq) then None
  else if negb (authed now secret rq token) then None
  else
    let comms := comms_at heap (ss_comms snap) in
    Some {| so_open := true; so_subscribed := true; so_waiting := []; so_last_revalidated := mono;
            so_sent := [(mono, FHello (ss_engine_state snap) (ch_state comms) (ch_success_pct comms)
                                 (ch_rate_ms comms) (rd_ts (ss_last_reading snap)))] |}.

(** ** The bus side *)

(** What [EventBus.publish] does to this queue. *)
Definition deliver (e : BusEvent) (s : Socket) : Socket :=
  if so_subscribed s then
    match put_nowait e (so_waiting s) with
    | Some q => {| so_open := so_open s; so_subscribed := true; so_waiting := q;
                   so_last_revalidated := so_last_revalidated s; so_sent := so_sent s |}
    | None => {| so_open := so_open s; so_subscribed := false; so_waiting := so_waiting s;
                 so_last_revalidated := so_last_revalidated s; so_sent := so_sent s |}
    end
  else s.

(** ** The loop *)

(** Leaving the handler unsubscribes; what was not sent is never sent, a message whose
    send raised included. *)
Definition close (s : Socket) : Socket :=
  {| so_open := false; so_subscribed := false; so_waiting := so_waiting s;
     so_last_revalidated := so_last_revalidated s; so_sent := so_sent s |}.

(** One turn, its frame sent at [mono]; [secret] is the one configured by then. *)
Definition live_turn (now mono : Z) (secret : string) (rq : Request) (token : option string) (s : Socket) : Socket :=
  if negb (so_open s) then s
  else
    let '(f, rest) := match so_waiting s with e :: rest => (FEvent e, rest) | [] => (FPing, []) end in
    let s1 := {| so_open := true; so_subscribed := so_subscribed s; so_waiting := rest;
                 so_last_revalidated := so_last_revalidated s; so_sent := so_sent s ++ [(mono, f)] |} in
    if REVALIDATE_EVERY_S <=? mono - so_last_revalidated s then
      if negb (authed now secret rq token) then close s1
      else {| so_open := true; so_subscribed := so_subscribed s1; so_waiting := rest;
              so_last_revalidated := mono; so_sent := so_sent s1 |}
    else s1.

(** What happens to a connection: a message on the bus, a turn of its loop, or the
    end of the connection. *)
Inductive socket_op : Type :=
| Publish (e : BusEvent)
| Turn (now mono : Z) (secret : string)
| Disconnect.

Definition socket_step (rq : Request) (token : option string) (s : Socket) (op : socket_op) : Socket :=
  match op with
  | Publish e => deliver e s
  | Turn now mono secret => live_turn now mono secret rq token s
  | Disconnect => close s
  end.
Definition socket_run (rq : Request) (token : option string) (s : Socket) (ops : list socket_op) : Socket :=
  foldl (socket_step rq token) s ops.

(** The queue of a socket and its entry in the bus go together. *)
Definition mirrors (b : EventBus) (q : nat) (s : Socket) : Prop :=
  bus_subs b !! q = if so_subscribed s then Some (so_waiting s) else None.

Lemma deliver_mirrors e b q s : mirrors b q s -> mirrors (publish e b) q (deliver e s).
Proof.
  unfold mirrors, deliver, put_nowait. intros Hm. rewrite publish_lookup, Hm.
  destruct (so_subscribed s) eqn:Es; [|by rewrite Es]. by destruct (length (so_waiting s) <? BUS_QUEUE_MAX)%nat.
Qed.

(** ** What a client receives *)

Definition events_sent (s : Socket) : list BusEvent :=
  omap (fun tf => match snd tf with FEvent e => Some e | _ => None end) (so_sent s).
Definition received_or_waiting (s : Socket) : list BusEvent := events_sent s ++ so_waiting s.

Definition published (ops : list socket_op) : list BusEvent :=
  omap (fun op => match op with Publish e => Some e | _ => None end) ops.

Lemma turn_received now mono secret rq token s :
  received_or_waiting (live_turn now mono secret rq token s) = received_or_waiting s.
Proof.
  unfold live_turn, received_or_waiting, events_sent. destruct (so_open s); [|done]. cbn [negb].
  destruct (so_waiting s) as [|e rest].
  - assert (forall s', so_sent s' = so_sent s ++ [(mono, FPing)] -> so_waiting s' = [] ->
      omap (fun tf => match snd tf with FEvent e => Some e | _ => None end) (so_sent s') ++ so_waiting s' =
      omap (fun tf => match snd tf with FEvent e => Some e | _ => None end) (so_sent s) ++ []) as H.
    { intros s' -> ->. rewrite omap_app. cbn. by rewrite !app_nil_r. }
    destruct (_ <=? _); [destruct (authed _ _ _ _)|]; by apply H.
  - assert (forall s', so_sent s' = so_sent s ++ [(mono, FEvent e)] -> so_waiting s' = rest ->
      omap (fun tf => match snd tf with FEvent e => Some e | _ => None end) (so_sent s') ++ so_waiting s' =
      omap (fun tf => match snd tf with FEvent e => Some e | _ => None end) (so_sent s) ++ e :: rest) as H.
    { intros s' -> ->. rewrite omap_app, <- app_assoc. done. }
    destruct (_ <=? _); [destruct (authed _ _ _ _)|]; by apply H.
Qed.

Lemma turn_subscribed now mono secret rq token s :
  so_subscribed (live_turn now mono secret rq token s) = true -> so_subscribed s = true.
Proof.
  unfold live_turn. destruct (so_open s); [|done]. cbn [negb].
  destruct (so_waiting s); destruct (_ <=? _); [destruct (authed _ _ _ _)| |destruct (authed _ _ _ _)|]; done.
Qed.

(** A connection that is no longer subscribed gets nothing but pings once its queue
    is drained, and only the session check closes it. *)
Lemma unsubscribed_step rq token s op :
  so_subscribed s = false ->
  so_subscribed (socket_step rq token s op) = false /\
  received_or_waiting (socket_step rq token s op) = received_or_waiting s.
Proof.
  intros Hs. destruct op as [e|now mono secret|]; cbn [socket_step].
  - unfold deliver. by rewrite Hs.
  - split; [|apply turn_received]. destruct (so_subscribed (live_turn now mono secret rq token s)) eqn:E; [|done].
    apply turn_subscribed in E. congruence.
  - by split.
Qed.

Lemma unsubscribed_run rq token ops s :
  so_subscribed s = false ->
  so_subscribed (socket_run rq token s ops) = false /\
  received_or_waiting (socket_run rq token s ops) = received_or_waiting s.
Proof.
  revert s. induction ops as [|op ops IH]; intros s Hs; [done|]. cbn.
  destruct (unsubscribed_step rq token s op Hs) as [H1 H2]. destruct (IH _ H1) as [H3 H4]. split; [done|].
  unfold socket_run in H4. by rewrite H4.
Qed.

Lemma subscribed_step rq token s op :
  so_subscribed (socket_step rq token s op) = true ->
  so_subscribed s = true /\
  received_or_waiting (socket_step rq token s op) =
    received_or_waiting s ++ match op with Publish e => [e] | _ => [] end.
Proof.
  destruct op as [e|now mono secret|]; cbn [socket_step]; intros Hs.
  - unfold deliver in *. destruct (so_subscribed s) eqn:Es; [|congruence]. unfold put_nowait in *.
    destruct (_ <? _)%nat; [|done]. split; [done|]. unfold received_or_waiting, events_sent. cbn. by rewrite app_assoc.
  - split; [by eapply turn_subscribed|]. by rewrite app_nil_r, turn_received.
  - done.
Qed.

(** C38. Over any interleaving of publications, turns and disconnects a subscribed
    connection has sent or holds exactly the messages published, in order; once it is not
    subscribed any more it has a prefix of them and never gets another. *)
Theorem socket_stream rq token s ops :
  so_subscribed s = true ->
  let s' := socket_run rq token s ops in
  if so_subscribed s' then received_or_waiting s' = received_or_waiting s ++ published ops
  else exists before after, ops = before ++ after /\
    received_or_waiting s' `prefix_of` received_or_waiting s ++ published before /\
    forall more, received_or_waiting (socket_run rq token s' more) = received_or_waiting s'.
Proof.
  intros Hs. cbv zeta. induction ops as [|op ops IH] using rev_ind; [cbn; by rewrite Hs, app_nil_r|].
  unfold socket_run in *. rewrite foldl_app. cbn [foldl]. set (s1 := foldl _ s ops) in *.
  unfold published. rewrite omap_app. fold (published ops).
  destruct (so_subscribed (socket_step rq token s1 op)) eqn:E.
  - destruct (subscribed_step rq token s1 op E) as [E1 ->]. rewrite E1 in IH. rewrite IH, <- app_assoc.
    by destruct op.
  - assert (forall more, received_or_waiting (foldl (socket_step rq token) (socket_step rq token s1 op) more) =
              received_or_waiting (socket_step rq token s1 op)) as Hmore
      by (intros more; by apply unsubscribed_run).
    destruct (so_subscribed s1) eqn:E1.
    + exists (ops ++ [op]), []. rewrite app_nil_r. split_and!; [done| |done].
      unfold published. rewrite omap_app. fold (published ops). rewrite app_assoc, <- IH.
      assert (received_or_waiting (socket_step rq token s1 op) = received_or_waiting s1) as ->.
      { destruct op as [e|now mono secret|]; cbn [socket_step] in *; [|apply turn_received|done].
        unfold deliver in *. rewrite E1 in *. by destruct (put_nowait e (so_waiting s1)). }
      by apply prefix_app_r.
    + destruct IH as (before & after & -> & Hp & _). exists before, (after ++ [op]). rewrite app_assoc.
      split_and!; [done| |done]. by rewrite (proj2 (unsubscribed_step rq token s1 op E1)).
Qed.

(** A dropped client that stays connected: its loop never ends by itself. *)
Definition silent (rq : Request) (token : option string) (op : socket_op) : Prop :=
  match op with Publish _ => True | Turn now _ secret => authed now secret rq token = true | Disconnect => False end.

(** A connection the bus dropped for a full queue is neither closed nor told: as
    long as its session is valid it stays open and is sent pings only. *)
Theorem dropped_client_starves rq token s ops :
  so_open s = true -> so_subscribed s = false -> so_waiting s = [] ->
  Forall (silent rq token) ops ->
  let s' := socket_run rq token s ops in
  so_open s' = true /\ events_sent s' = events_sent s /\
  exists pings, so_sent s' = so_sent s ++ pings /\ Forall (fun tf => snd tf = FPing) pings.
Proof.
  intros Ho Hs Hw Hops. cbv zeta. revert s Ho Hs Hw.
  induction Hops as [|op ops Hop _ IH]; intros s Ho Hs Hw.
  { split_and!; [done|done|]. exists []. by rewrite app_nil_r. }
  cbn [socket_run foldl]. fold (socket_run rq token (socket_step rq token s op) ops).
  destruct op as [e|now mono secret|]; cbn [socket_step silent] in *; [| |done].
  - unfold deliver. rewrite Hs. by apply IH.
  - set (s1 := live_turn now mono secret rq token s).
    assert (so_open s1 = true /\ so_subscribed s1 = false /\ so_waiting s1 = [] /\
            so_sent s1 = so_sent s ++ [(mono, FPing)]) as (H1 & H2 & H3 & H4).
    { subst s1. unfold live_turn. rewrite Ho, Hw, Hop, Hs. cbn [negb]. by destruct (_ <=? _). }
    destruct (IH s1 H1 H2 H3) as (H5 & H6 & pings & H7 & H8). split_and!; [done| |].
    + rewrite H6. unfold events_sent. rewrite H4, omap_app. cbn. by rewrite app_nil_r.
    + exists ((mono, FPing) :: pings). rewrite H7, H4, <- app_assoc. split; [done|]. by constructor.
Qed.

(** ** How long a dead session streams *)

(** The turns follow each other within the keep-alive period and [slack]. *)
Fixpoint paced (slack : Z) (from : Z) (ops : list socket_op) : Prop :=
  match ops with
  | [] => True
  | Turn _ mono _ :: rest => mono - from <= KEEPALIVE_S + slack /\ paced slack mono rest
  | _ :: rest => paced slack from rest
  end.

(** From monotonic time [x] on the session is not accepted any more. *)
Definition dead_from (x : Z) (rq : Request) (token : option string) (op : socket_op) : Prop :=
  match op with Turn now mono secret => x <= mono -> authed now secret rq token = false | _ => True end.

(** The loop looks at the session within a minute of its last look. *)
Record fresh_session (x from : Z) (s : Socket) : Prop := {
  fs_recent : so_open s = true -> from - so_last_revalidated s < REVALIDATE_EVERY_S;
  fs_valid : so_open s = true -> so_last_revalidated s <= x
}.

Lemma turn_session slack x from now mono secret rq token s :
  0 <= slack -> mono - from <= KEEPALIVE_S + slack -> fresh_session x from s ->
  (x <= mono -> authed now secret rq token = false) ->
  let s' := live_turn now mono secret rq token s in
  fresh_session x mono s' /\
  exists new, so_sent s' = so_sent s ++ new /\
    Forall (fun tf => fst tf <= x + REVALIDATE_EVERY_S + KEEPALIVE_S + slack) new.
Proof.
  intros Hsl Hp [Hr Hv] Hd. cbv zeta. unfold live_turn. destruct (so_open s) eqn:Eo; cbn [negb].
  2: { split; [constructor; congruence|]. exists []. by rewrite app_nil_r. }
  specialize (Hr eq_refl). specialize (Hv eq_refl).
  assert (mono <= x + REVALIDATE_EVERY_S + KEEPALIVE_S + slack) as Hb by lia.
  destruct (so_waiting s) as [|e rest];
    (destruct (Z.leb_spec REVALIDATE_EVERY_S (mono - so_last_revalidated s));
     [destruct (authed now secret rq token) eqn:Ea|]); cbn [negb].
  all: unfold REVALIDATE_EVERY_S, KEEPALIVE_S, sec in *.
  all: (split; [constructor; cbn; intros; (done || (try lia))|eexists; split; [reflexivity|by repeat constructor]]).
  all: destruct (Z.le_gt_cases x mono) as [Hx|Hx]; [by specialize (Hd Hx)|unfold REVALIDATE_EVERY_S, sec; lia].
Qed.

(** C39. A connection whose session stops being accepted is sent nothing later than 80 s
    (plus the delay of its turns) after that. *)
Theorem dead_session_bounded slack x from rq token s ops :
  0 <= slack -> fresh_session x from s -> paced slack from ops -> Forall (dead_from x rq token) ops ->
  exists new, so_sent (socket_run rq token s ops) = so_sent s ++ new /\
    Forall (fun tf => fst tf <= x + sec 80 + slack) new.
Proof.
  intros Hsl Hf Hp Hd. revert from s Hf Hp.
  induction Hd as [|op ops Hop _ IH]; intros from s Hf Hp; [exists []; by rewrite app_nil_r|].
  cbn [socket_run foldl]. fold (socket_run rq token (socket_step rq token s op) ops).
  destruct op as [e|now mono secret|]; cbn [socket_step paced dead_from] in *.
  - assert (so_sent (deliver e s) = so_sent s /\ fresh_session x from (deliver e s)) as [Hsent Hf'].
    { unfold deliver. destruct (so_subscribed s); [|done]. destruct Hf. by destruct (put_nowait _ _). }
    destruct (IH _ _ Hf' Hp) as (new & -> & Hn). exists new. by rewrite Hsent.
  - destruct Hp as [Hm Hp].
    destruct (turn_session slack x from now mono secret rq token s Hsl Hm Hf Hop) as (Hf' & n1 & E1 & H1).
    destruct (IH _ _ Hf' Hp) as (n2 & -> & H2). exists (n1 ++ n2). rewrite E1, app_assoc. split; [done|].
    apply Forall_app. split; [|done]. eapply Forall_impl; [exact H1|]. cbn. unfold REVALIDATE_EVERY_S, KEEPALIVE_S, sec. lia.
  - assert (fresh_session x from (close s)) as Hf' by (by constructor).
    destruct (IH _ _ Hf' Hp) as (new & -> & Hn). by exists new.
Qed.
End socket.
