(* ===== verification/Api.v ===== *)
(** * Command endpoints (api/events.py, api/ats.py, api/control.py)

    Acknowledging an alarm, and the routes that hand commands to the control
    services: their role gates, the command limiter and the mapping of control
    errors to HTTP errors.  The register map of the application state is the one
    the control service holds (start-up and reload set both). *)

From S2P Require Import Prelude PyNum Registers Client Poller Database DatabaseFacts Events StateMachine Ats Control ControlFacts AtsControl RateLimit Http.

Local Open Scope Z_scope.
Local Open Scope gw_scope.

(** ** Error mapping *)

(** [raise HTTPException(e.http_status, detail={code, message})] *)
Definition http_of_control (e : ControlError) : HttpError :=
  http_error_code (ce_http_status e) (ce_code e) (ce_message e).

Definition lift_control {S A} (m : SE S ControlError A) : SE S HttpError A := fun s =>
  match m s with
  | (inl e, s') => (inl (http_of_control e), s')
  | (inr a, s') => (inr a, s')
  end.

Section api.
Context {W : Type} `{ModbusClient W} `{Clock W}.
Implicit Types (s : Sys W).

Definition handler (A : Type) : Type := SE (Sys W) HttpError A.

(** ** Acknowledging an alarm *)

Definition ack_audit (operator detail result : string) : handler unit :=
  modify (fun s => set_db (log_audit (wall_clock (sy_world s)) operator "alarm.ack" detail "" result (sy_db s)) s).
Definition ack_event (severity message : string) (meta : option string) : handler unit :=
  modify (fun s => set_db (log_event (wall_clock (sy_world s)) severity "ALARM" message meta (sy_db s)) s).
Definition ack_reg (code : string) (ctl : ControlDef) : string :=
  code +:+ " via reg=" +:+ c_name ctl +:+ "@0x" +:+ fmt_04X (c_addr ctl).

(** The local part of an acknowledgement: the row goes, an event and an audit row stay. *)
Definition ack_clear (code operator audit_detail : string) : handler unit :=
  modify (fun s => set_db (snd (clear_alarm code (sy_db s))) s) ;;;
  ack_event "ok" ("Alarm acknowledged — " +:+ code) (Some operator) ;;;
  ack_audit operator audit_detail "ok".

(** [ack_alarm] for a principal that passed [require_operator]; the result is [hw_ack]. *)
Definition ack_alarm (code token operator : string) : handler bool :=
  s <-- gets id ;;
  if negb (existsb (fun r => (al_code r =? code)%string) (active_alarms (sy_db s)))
  then raise (http_error 404 ("alarm " +:+ code +:+ " not active"))
  else if (comms_state s =? "lost")%string
  then raise (http_error_code 409 "comms_lost"
         "cannot acknowledge: H-100 communication is LOST. Restore the link before acknowledging alarms.")
  else
    lift_control (consume_token token operator (Some "ack"%string)) ;;;
    match od_get "ack_alarm"%string (rm_controls (sy_regmap s)) with
    | Some ctl =>
        res <-- lift_control (write_control _ ctl) ;;
        if negb (mr_ok res)
        then
          ack_audit operator (ack_reg code ctl) ("failed: " +:+ error_text res) ;;;
          ack_event "warn" ("Alarm ack — Modbus write failed for " +:+ code) (Some (error_or res "")) ;;;
          raise (http_error 502 ("Modbus ack write failed: " +:+ error_text res))
        else
          ack_clear code operator (ack_reg code ctl +:+ " fc" +:+ str_Z (c_fc ctl)) ;;;
          se_ret true
    | None => ack_clear code operator code ;;; se_ret false
    end.

(** ** Routes to the control services *)

Variable jwt_decode : Z -> string -> string -> jwt_result.

(** A route behind a role gate. *)
Definition with_principal {A} (gate : HttpError + Principal) (body : Principal -> handler A) : handler A :=
  match gate with inl e => raise e | inr p => body p end.

Definition operator_gate (secret : string) (rq : Request) s : HttpError + Principal :=
  require_operator jwt_decode (wall_clock (sy_world s)) secret rq.
Definition admin_gate (secret : string) (rq : Request) s : HttpError + Principal :=
  require_admin jwt_decode (wall_clock (sy_world s)) secret rq.

Definition ack_route (secret : string) (rq : Request) (code token : string) : handler bool :=
  s <-- gets id ;;
  with_principal (operator_gate secret rq s) (fun p => ack_alarm code token (p_operator p)).

(** POST /api/control/{start,stop,exercise,transfer} *)
Definition control_route (secret : string) (rq : Request) (verb token : string) : handler command_result :=
  s <-- gets id ;;
  with_principal (operator_gate secret rq s)
    (fun p => lift_control (execute verb token (p_operator p) (p_role p))).

(** The ATS routes share a limiter, a state of its own; [ats_client] is the
    companion's client when the integration is enabled. *)
Definition ats_key (p : Principal) : string := "ats:" +:+ p_operator p.

Definition ats_run (ats_client : option (ModbusClient W)) (command token : string) (p : Principal) (assert_ override : bool)
    (st : Sys W * RateLimiter) : (HttpError + command_result) * (Sys W * RateLimiter) :=
  let '(s, limiter) := st in
  match ats_client with
  | None => (inl (http_error_code 404 "ats_disabled" "ATS-Pi integration is not enabled"), st)
  | Some client =>
      let '(ok, limiter1) := check (mono_clock (sy_world s)) (ats_key p) limiter in
      if negb ok then
        (inl (http_error_code 429 "rate_limited"
                ("too many ATS commands; retry in " +:+ str_Z (retry_after_s (ats_key p) limiter1) +:+ "s")),
         (set_db (log_audit (wall_clock (sy_world s)) (p_operator p) ("ats." +:+ command) "rate_limited" token "denied"
                    (sy_db s)) s, limiter1))
      else
        let '(r, s') := lift_control (ats_execute client command token (p_operator p) (p_role p) assert_ override) s in
        (r, (s', limiter1))
  end.

(** The four ATS routes: force-transfer asks for the admin role, and only it takes
    an override. *)
Inductive ats_route : Type := RouteTest | RouteInhibit (assert_ : bool) | RouteForce (assert_ override : bool) | RouteBypass.

Definition ats_endpoint (ats_client : option (ModbusClient W)) (secret : string) (rq : Request) (route : ats_route) (token : string)
    (st : Sys W * RateLimiter) : (HttpError + command_result) * (Sys W * RateLimiter) :=
  let gate := match route with
              | RouteForce _ _ => admin_gate secret rq (fst st)
              | _ => operator_gate secret rq (fst st)
              end in
  match gate with
  | inl e => (inl e, st)
  | inr p =>
      match route with
      | RouteTest => ats_run ats_client "test" token p true false st
      | RouteInhibit a => ats_run ats_client "inhibit" token p a false st
      | RouteForce a o => ats_run ats_client "force_transfer" token p a o st
      | RouteBypass => ats_run ats_client "bypass_delay" token p true false st
      end
  end.

(** ** Theorems *)

(** What an acknowledgement that reached the controller's answer leaves. *)
Definition acked s s' (code : string) : Prop :=
  alarm_codes (sy_db s') = alarm_codes (sy_db s) ∖ {[ code ]} /\
  (exists row, last (db_audit (sy_db s')) = Some row /\ au_action row = "alarm.ack"%string /\
     au_result row = "ok"%string).

Lemma ack_clear_spec s code operator detail :
  exists s', ack_clear code operator detail s = (inr tt, s') /\ acked s s' code /\
    sy_world s' = sy_world s /\ sy_tokens s' = sy_tokens s.
Proof.
  eexists. split; [reflexivity|]. split_and!; [|done|done]. split.
  - cbn [set_db sy_db]. unfold log_audit. cbn. apply clear_alarm_codes.
  - eexists. cbn [set_db sy_db log_audit]. split_and!; [cbn; apply last_snoc|done|done].
Qed.

(** The gates of an acknowledgement. *)
Record ack_gates s (code token operator : string) : Prop := {
  ag_active : code ∈ alarm_codes (sy_db s);
  ag_comms : comms_state s <> "lost"%string;
  ag_token : exists ct, spendable s token operator (Some "ack"%string) ct
}.

Lemma ack_active d code :
  existsb (fun r => (al_code r =? code)%string) (active_alarms d) = true <-> code ∈ alarm_codes d.
Proof.
  unfold alarm_codes, active_alarms. rewrite existsb_exists, elem_of_list_to_set, list_elem_of_fmap.
  assert (forall r, In r (order_by_desc al_raised_at (db_alarms d)) <-> r ∈ db_alarms d) as Hp.
  { intros r. rewrite <- list_elem_of_In. unfold order_by_desc. by rewrite (merge_sort_Permutation _ (db_alarms d)). }
  split.
  - intros (r & Hr & E%String.eqb_eq). exists r. split; [done|by apply Hp].
  - intros (r & -> & Hr). exists r. split; [by apply Hp|apply String.eqb_refl].
Qed.

(** The four ways an acknowledgement ends. *)
Inductive ack_outcome s (code token operator : string) : HttpError + bool -> Sys W -> Prop :=
| ack_refused e s' :
    ~ ack_gates s code token operator -> sy_world s' = sy_world s ->
    db_alarms (sy_db s') = db_alarms (sy_db s) -> ack_outcome s code token operator (inl e) s'
| ack_failed e s' ctl :
    ack_gates s code token operator -> od_get "ack_alarm"%string (rm_controls (sy_regmap s)) = Some ctl ->
    mr_ok (fst (control_write _ ctl (sy_world s))) = false ->
    sy_world s' = snd (control_write _ ctl (sy_world s)) ->
    od_get token (sy_tokens s') = None -> db_alarms (sy_db s') = db_alarms (sy_db s) ->
    ack_outcome s code token operator (inl e) s'
| ack_hardware s' ctl :
    ack_gates s code token operator -> od_get "ack_alarm"%string (rm_controls (sy_regmap s)) = Some ctl ->
    mr_ok (fst (control_write _ ctl (sy_world s))) = true ->
    sy_world s' = snd (control_write _ ctl (sy_world s)) ->
    od_get token (sy_tokens s') = None -> acked s s' code ->
    ack_outcome s code token operator (inr true) s'
| ack_local s' :
    ack_gates s code token operator -> od_get "ack_alarm"%string (rm_controls (sy_regmap s)) = None ->
    sy_world s' = sy_world s -> od_get token (sy_tokens s') = None -> acked s s' code ->
    ack_outcome s code token operator (inr false) s'.

Lemma acked_from s s1 s' code :
  db_alarms (sy_db s1) = db_alarms (sy_db s) -> acked s1 s' code -> acked s s' code.
Proof. unfold acked, alarm_codes. by intros ->. Qed.

Lemma lift_control_eq {T A} (m : SE T ControlError A) (st st1 : T) r :
  m st = (r, st1) ->
  lift_control m st = (match r with inl e => inl (http_of_control e) | inr a => inr a end, st1).
Proof. intros E. unfold lift_control. rewrite E. by destruct r. Qed.

Lemma ack_outcome_of s code token operator r s' :
  tokens_ok (sy_tokens s) -> ack_alarm code token operator s = (r, s') ->
  ack_outcome s code token operator r s'.
Proof.
  intros Hok. unfold ack_alarm. rewrite se_bind_gets. cbn [id].
  destruct (existsb _ _) eqn:Ea; cbn [negb].
  2: { intros [= <- <-]. apply ack_refused; [|done|done]. intros [Hg _ _]. apply ack_active in Hg. congruence. }
  apply ack_active in Ea. destruct (String.eqb_spec (comms_state s) "lost") as [El|El].
  { intros [= <- <-]. apply ack_refused; [|done|done]. by intros [_ Hc _]. }
  destruct (consume_spec s token operator (Some "ack"%string) Hok) as (rc & s1 & Ec & Hsame & _ & Hgone & _ & Hr).
  apply lift_control_eq in Ec. destruct rc as [e|ct]; intros E.
  { destruct Hr as (_ & _ & Hno). apply (se_bind_stop _ _ _ _ _ _ _ Ec) in E as [-> ->].
    apply ack_refused; [|apply Hsame|apply Hsame]. intros [_ _ [ct Hct]]. by eapply Hno. }
  apply (se_bind_pass _ _ _ _ _ _ _ Ec) in E.
  assert (ack_gates s code token operator) as Hg by (constructor; [done|done|by exists ct]).
  pose proof (sb_world _ _ Hsame) as Hw. pose proof (sb_alarms _ _ Hsame) as Hal.
  destruct (od_get "ack_alarm"%string (rm_controls (sy_regmap s))) as [ctl|] eqn:Ectl.
  - pose proof (write_control_eq _ ctl s1) as Ew. apply lift_control_eq in Ew. rewrite Hw in Ew.
    apply (se_bind_pass _ _ _ _ _ _ _ Ew) in E.
    revert E. cbn beta. destruct (mr_ok (fst (control_write _ ctl (sy_world s)))) eqn:Em; intros E; cbn [negb] in E.
    + destruct (ack_clear_spec (set_world (snd (control_write _ ctl (sy_world s))) s1) code operator
                  (ack_reg code ctl +:+ " fc" +:+ str_Z (c_fc ctl))) as (s3 & E3 & Ha & Hw3 & Ht3).
      apply (se_bind_pass _ _ _ _ _ _ _ E3) in E. injection E as <- <-.
      eapply ack_hardware; [done|exact Ectl|exact Em|exact Hw3|by rewrite Ht3|by eapply acked_from; [|exact Ha]].
    + injection E as <- <-. by eapply ack_failed.
  - destruct (ack_clear_spec s1 code operator code) as (s3 & E3 & Ha & Hw3 & Ht3).
    apply (se_bind_pass _ _ _ _ _ _ _ E3) in E. injection E as <- <-.
    apply ack_local; [done|done|by rewrite Hw3|by rewrite Ht3|by eapply acked_from].
Qed.

(** C10. Acknowledging an alarm ends in one of four ways: refused with wire and alarm
    rows untouched; failed after a write, the token spent and the row kept; written to the
    controller and the row gone; or, without an acknowledge control, the row gone locally.
    Success leaves an audit row that says ok. *)
Theorem ack_alarm_outcome s code token operator r s' :
  tokens_ok (sy_tokens s) -> ack_alarm code token operator s = (r, s') ->
  ack_outcome s code token operator r s'.
Proof. apply ack_outcome_of. Qed.

(** No session, no effect: a route whose role gate fails changes nothing. *)
Lemma routes_need_role secret rq s code token :
  (exists e, operator_gate secret rq s = inl e) ->
  snd (ack_route secret rq code token s) = s.
Proof. intros [e He]. unfold ack_route. rewrite se_bind_gets. cbn [id]. by rewrite He. Qed.
End api.
