(* ===== verification/Interlock.v ===== *)
(** * The interlock: an abstract specification of every write

    Three paths of the program write to a device: H-100 commands
    (services/control.py), ATS commands (services/ats_control.py) and alarm
    acknowledgements (api/events.py).  The specification is a machine that knows only
    outstanding grants and the two wires: an operator is granted an action, and an
    actuation uses up a live grant of that operator for that action while the plant
    permits it.  The theorems: the program refines the machine, over any history of
    requests, polls, reloads and clock changes; and the machine never actuates more
    often than it granted. *)

From S2P Require Import Prelude PyNum Registers Client Poller Database DatabaseFacts Events StateMachine Ats Control ControlFacts AtsControl RateLimit Http Api.

Local Open Scope Z_scope.
Local Open Scope gw_scope.

Section interlock.
Context {W : Type} (ats_client : ModbusClient W) `{HC : ModbusClient W} `{Clock W}.
Implicit Types (s : Sys W) (operator token role : string).

(** ** The abstract machine *)

Inductive device : Type := H100 | AtsPi.
Definition client_of (d : device) : ModbusClient W := match d with H100 => HC | AtsPi => ats_client end.

(** What an operator may ask for. *)
Inductive command : Type :=
| CmdEngine (verb role : string)
| CmdAts (name role : string) (assert_ override : bool)
| CmdAck (code : string).

(** The action a grant must name for a command. *)
Definition action_of (c : command) : string :=
  match c with CmdEngine verb _ => verb | CmdAts name _ _ _ => name | CmdAck _ => "ack" end.
Definition device_of (c : command) : device := match c with CmdAts _ _ _ _ => AtsPi | _ => H100 end.

(** The plant as the program sees it when it decides. *)
Record View : Type := {
  vw_regmap : RegisterMap; vw_ats_regmap : RegisterMap; vw_sm : StateMachine; vw_heap : comms_heap;
  vw_ats : AtsService; vw_alarms : gset string; vw_now : Z
}.
Definition view_of s : View :=
  {| vw_regmap := sy_regmap s; vw_ats_regmap := sy_ats_regmap s; vw_sm := sy_sm s; vw_heap := sy_heap s;
     vw_ats := sy_ats s; vw_alarms := alarm_codes (sy_db s); vw_now := mono_clock (sy_world s) |}.

Definition h100_link (v : View) : string := ch_state (comms_at (vw_heap v) (ss_comms (sm_snap (vw_sm v)))).
Definition ats_link (v : View) : string := ch_state (comms_at (vw_heap v) (at_comms (as_snap (vw_ats v)))).

(** When the plant permits a command, and the control it writes. *)
Definition permitted (v : View) (c : command) (ctl : ControlDef) : Prop :=
  match c with
  | CmdEngine verb role =>
      role ∈ ["operator"; "admin"]%string /\
      (exists name, od_get verb VERB_TO_CONTROL = Some name /\ od_get name (rm_controls (vw_regmap v)) = Some ctl) /\
      h100_link v = "healthy"%string /\
      stale_control_registers (vw_regmap v) (rd_value_ages (ss_last_reading (sm_snap (vw_sm v)))) (vw_now v) = [] /\
      ss_panel_mode (sm_snap (vw_sm v)) = "auto"%string /\
      ss_engine_state (sm_snap (vw_sm v)) ∈ default [] (od_get verb ALLOWED)
  | CmdAts name role assert_ override =>
      (exists sp n, od_get name ATS_COMMAND_SPECS = Some sp /\ role_satisfies role (sp_role sp) = true /\
         spec_control sp assert_ = Some n /\ od_get n (rm_controls (vw_ats_regmap v)) = Some ctl /\
         (spec_is_assert sp assert_ = true ->
            is_authoritative (vw_heap v) (vw_ats v) = true /\
            at_fault_codes (as_snap (vw_ats v)) ∩ ASSERT_BLOCKING_FAULTS = ∅ /\
            (name = "force_transfer"%string -> override = false ->
             at_normal_available (as_snap (vw_ats v)) <> Some true))) /\
      ats_link v <> "lost"%string
  | CmdAck code =>
      code ∈ vw_alarms v /\ h100_link v <> "lost"%string /\
      od_get "ack_alarm"%string (rm_controls (vw_regmap v)) = Some ctl
  end.

(** A grant is for one operator and, unless it was asked for without one, one action. *)
Record grant : Type := { gr_operator : string; gr_action : option string; gr_deadline : Z }.
Definition grant_of (ct : ConfirmToken) : grant :=
  {| gr_operator := ct_operator ct; gr_action := ct_verb ct; gr_deadline := ct_expires_monotonic ct |}.
Definition covers (g : grant) operator (action : string) (now : Z) : Prop :=
  gr_operator g = operator /\ (forall a, gr_action g = Some a -> a = action) /\ now <= gr_deadline g.

Record Spec : Type := { sp_grants : gmap string grant; sp_wire : W }.

(** What the machine shows: a grant, an actuation with the plant it was decided on, or
    something from outside. *)
Inductive label : Type :=
| Grant (token operator : string) (action : option string) (now : Z)
| Actuate (v : View) (c : command) (token operator : string)
| Outside.

Inductive spec_step : Spec -> label -> Spec -> Prop :=
| spec_grant a token operator action :
    spec_step a (Grant token operator action (mono_clock (sp_wire a)))
      {| sp_grants := <[token := {| gr_operator := operator; gr_action := action;
                                    gr_deadline := mono_clock (sp_wire a) + TOKEN_TTL_S |}]> (sp_grants a);
         sp_wire := sp_wire a |}
| spec_actuate a v c ctl token operator g :
    permitted v c ctl -> vw_now v = mono_clock (sp_wire a) -> sp_grants a !! token = Some g ->
    covers g operator (action_of c) (vw_now v) ->
    spec_step a (Actuate v c token operator)
      {| sp_grants := delete token (sp_grants a);
         sp_wire := snd (control_write (client_of (device_of c)) ctl (sp_wire a)) |}
| spec_outside a w' : spec_step a Outside {| sp_grants := sp_grants a; sp_wire := w' |}.

Inductive spec_run : Spec -> list label -> Spec -> Prop :=
| spec_nil a : spec_run a [] a
| spec_cons a l b ls c : spec_step a l b -> spec_run b ls c -> spec_run a (l :: ls) c.

Lemma spec_run_app a ls b ls' c : spec_run a ls b -> spec_run b ls' c -> spec_run a (ls ++ ls') c.
Proof. induction 1; intros; [done|]. cbn. eapply spec_cons; eauto. Qed.

(** ** The program's histories *)

Inductive plant_op : Type :=
| OpIssue (draws : list string) (operator : string) (verb : option string)
| OpCommand (verb token operator role : string)
| OpAts (name token operator role : string) (assert_ override : bool)
| OpAck (code token operator : string)
| OpOutside (f : Sys W -> Sys W).          (* polls, reloads, time *)

Definition plant_step (op : plant_op) s : Sys W :=
  match op with
  | OpIssue draws operator verb => snd (issue_token draws operator verb s)
  | OpCommand verb token operator role => snd (execute verb token operator role s)
  | OpAts name token operator role assert_ override =>
      snd (ats_execute ats_client name token operator role assert_ override s)
  | OpAck code token operator => snd (ack_alarm code token operator s)
  | OpOutside f => f s
  end.
Definition plant_run (ops : list plant_op) s : Sys W := foldl (fun s op => plant_step op s) s ops.

(** Nothing but the services themselves touches the token store. *)
Definition op_ok (op : plant_op) : Prop :=
  match op with OpOutside f => forall s, sy_tokens (f s) = sy_tokens s | _ => True end.

(** The labels an operation started in [s] may show: at most one, of its own kind, and
    an actuation is decided on the plant as it stands. *)
Definition shows (op : plant_op) s (ls : list label) : Prop :=
  match op with
  | OpIssue _ operator verb => ls = [] \/ exists token, ls = [Grant token operator verb (now_mono s)]
  | OpCommand verb token operator role => ls = [] \/ ls = [Actuate (view_of s) (CmdEngine verb role) token operator]
  | OpAts name token operator role a o => ls = [] \/ ls = [Actuate (view_of s) (CmdAts name role a o) token operator]
  | OpAck code token operator => ls = [] \/ ls = [Actuate (view_of s) (CmdAck code) token operator]
  | OpOutside _ => ls = [Outside]
  end.

Record related s (a : Spec) : Prop := {
  rl_keys : tokens_ok (sy_tokens s);
  rl_grants : forall t ct, od_get t (sy_tokens s) = Some ct -> sp_grants a !! t = Some (grant_of ct);
  rl_wire : sp_wire a = sy_world s
}.

(** ** Computations that only take tokens away *)

Definition takes {E A} (m : SE (Sys W) E A) : Prop := forall s r s',
  tokens_ok (sy_tokens s) -> m s = (r, s') ->
  tokens_ok (sy_tokens s') /\
  forall t ct, od_get t (sy_tokens s') = Some ct -> od_get t (sy_tokens s) = Some ct.

Lemma takes_bind {E A B} (m : SE (Sys W) E A) (k : A -> SE (Sys W) E B) :
  takes m -> (forall a, takes (k a)) -> takes (se_bind m k).
Proof.
  intros Hm Hk s r s' Hok E1. unfold se_bind in E1. destruct (m s) as [[e|a] s1] eqn:Em.
  - injection E1 as <- <-. by eapply Hm.
  - destruct (Hm _ _ _ Hok Em) as [Hok1 H1]. destruct (Hk a _ _ _ Hok1 E1) as [Hok2 H2]. auto.
Qed.
Lemma takes_pure {E A} (f : Sys W -> E + A) (g : Sys W -> Sys W) :
  (forall s, sy_tokens (g s) = sy_tokens s) -> takes (fun s => (f s, g s)).
Proof. intros Hg s r s' Hok [= <- <-]. rewrite Hg. auto. Qed.
Lemma takes_ret {E A} (a : A) : takes (E := E) (se_ret a).
Proof. by apply (takes_pure (fun _ => inr a) (fun s => s)). Qed.
Lemma takes_raise {E A} (e : E) : takes (A := A) (raise e).
Proof. by apply (takes_pure (fun _ => inl e) (fun s => s)). Qed.
Lemma takes_gets {E A} (f : Sys W -> A) : takes (E := E) (gets f).
Proof. by apply (takes_pure (fun s => inr (f s)) (fun s => s)). Qed.
Lemma takes_modify {E} (f : Sys W -> Sys W) : (forall s, sy_tokens (f s) = sy_tokens s) -> takes (E := E) (modify f).
Proof. intros Hf. by apply (takes_pure (fun _ => inr tt) f). Qed.
Lemma takes_write client ctl : takes (write_control client ctl).
Proof. intros s r s' Hok. rewrite write_control_eq. intros [= <- <-]. auto. Qed.
Lemma takes_consume token operator verb : takes (consume_token token operator verb).
Proof.
  intros s r s' Hok E. destruct (consume_spec s token operator verb Hok) as (r' & s1 & E' & _ & Hok1 & Hg & Hrest & _).
  rewrite E' in E. injection E as <- <-. split; [done|]. intros t ct Ht.
  destruct (decide (t = token)) as [->|Hne]; [congruence|]. rewrite Hrest in Ht by done. by apply live_token_get in Ht as [? _].
Qed.
Lemma takes_lift {A} (m : M A) : takes m -> takes (lift_control m).
Proof.
  intros Hm s r s' Hok. unfold lift_control. destruct (m s) as [[e|a] s1] eqn:E; intros [= <- <-]; exact (Hm _ _ _ Hok E).
Qed.

Lemma takes_if {E A} (b : bool) (m1 m2 : SE (Sys W) E A) : takes m1 -> takes m2 -> takes (if b then m1 else m2).
Proof. by destruct b. Qed.

(** Follows the shape of a computation, down to its atoms. *)
Ltac takes_tac :=
  repeat first
    [ apply takes_ret | apply takes_raise | apply takes_gets | apply takes_write | apply takes_consume
    | apply takes_lift | (apply takes_modify; intros; try case_match; reflexivity)
    | (apply takes_bind; [|intros]) | apply takes_if
    | match goal with |- takes (match ?x with _ => _ end) => destruct x end ].

Lemma execute_takes verb token operator role : takes (execute verb token operator role).
Proof.
  unfold execute, gate_comms, gate_fresh, gate_panel, gate_state, deny, audit, event, alert_command. takes_tac.
Qed.
Lemma ats_execute_takes name token operator role a o : takes (ats_execute ats_client name token operator role a o).
Proof. unfold ats_execute, gate_assert, ats_deny, deny, audit, event, note_write. cbv zeta. takes_tac. Qed.
Lemma ack_alarm_takes code token operator : takes (ack_alarm code token operator).
Proof. unfold ack_alarm, ack_clear, ack_event, ack_audit. takes_tac. Qed.

(** ** Refinement *)

Lemma spendable_covers s token operator action ct a :
  related s a -> spendable s token operator (Some action) ct ->
  sp_grants a !! token = Some (grant_of ct) /\ covers (grant_of ct) operator action (mono_clock (sp_wire a)).
Proof.
  intros [_ Hg Hw] (Hl & Ho & Hv). apply live_token_get in Hl as [Hget Hexp]. split; [by apply Hg|].
  rewrite Hw. split_and!; [done| |exact Hexp]. intros v Ha. by apply (Hv v action).
Qed.

(** A step that spends at most one token and writes what the control says. *)
Lemma related_actuate s s' a c ctl token operator ct :
  related s a -> tokens_ok (sy_tokens s') ->
  (forall t ct, od_get t (sy_tokens s') = Some ct -> od_get t (sy_tokens s) = Some ct) ->
  permitted (view_of s) c ctl -> spendable s token operator (Some (action_of c)) ct ->
  od_get token (sy_tokens s') = None ->
  sy_world s' = snd (control_write (client_of (device_of c)) ctl (sy_world s)) ->
  exists a', spec_run a [Actuate (view_of s) c token operator] a' /\ related s' a'.
Proof.
  intros Hr Hok Hsub Hp Hs Hgone Hw. destruct (spendable_covers _ _ _ _ _ _ Hr Hs) as [Hg Hc].
  pose proof (rl_wire _ _ Hr) as Hwire. eexists. split.
  - eapply spec_cons; [|constructor]. eapply spec_actuate; [done|cbn; by rewrite Hwire|done|].
    cbn. by rewrite <- Hwire.
  - constructor; cbn; [done| |by rewrite Hwire, Hw].
    intros t ct' Ht. rewrite lookup_delete_ne; [by apply (rl_grants _ _ Hr), Hsub|]. intros ->. congruence.
Qed.

Lemma related_silent s s' a :
  related s a -> tokens_ok (sy_tokens s') ->
  (forall t ct, od_get t (sy_tokens s') = Some ct -> od_get t (sy_tokens s) = Some ct) ->
  sy_world s' = sy_world s -> related s' a.
Proof. intros [_ Hg Hw] Hok Hsub Hw'. constructor; [done|auto|congruence]. Qed.

Lemma issue_refines draws operator verb s a :
  related s a -> exists ls a', spec_run a ls a' /\ related (snd (issue_token draws operator verb s)) a' /\
    (ls = [] \/ exists token, ls = [Grant token operator verb (now_mono s)]).
Proof.
  intros Hr. destruct (issue_spec draws operator verb s (rl_keys _ _ Hr)) as (o & s' & -> & Hok & Hw & Ho). cbn [snd].
  assert (forall t ct, live_token s t = Some ct -> sp_grants a !! t = Some (grant_of ct)) as Hlive
    by (intros t ct [Ht _]%live_token_get; by apply (rl_grants _ _ Hr)).
  pose proof (rl_wire _ _ Hr) as Hwire. destruct o as [ct|].
  - destruct Ho as (<- & <- & Hexp & _ & Hget). do 2 eexists. split_and!.
    + eapply spec_cons; [apply (spec_grant a (ct_token ct))|constructor].
    + constructor; cbn; [done| |by rewrite Hw].
      intros t ct' Ht. rewrite Hget in Ht. case_decide as Et.
      * injection Ht as <-. subst t. rewrite lookup_insert_eq. unfold grant_of. rewrite Hexp, Hwire. done.
      * rewrite lookup_insert_ne by done. by apply Hlive.
    + right. exists (ct_token ct). unfold now_mono. by rewrite Hwire.
  - exists [], a. split_and!; [constructor| |by left]. constructor; [done| |by rewrite Hw].
    intros t ct Ht. rewrite Ho in Ht. by apply Hlive.
Qed.

Lemma command_refines verb token operator role s a :
  related s a -> exists ls a', spec_run a ls a' /\ related (snd (execute verb token operator role s)) a' /\
    (ls = [] \/ ls = [Actuate (view_of s) (CmdEngine verb role) token operator]).
Proof.
  intros Hr. pose proof (rl_keys _ _ Hr) as Hok. destruct (execute verb token operator role s) as [r s'] eqn:E.
  destruct (execute_takes _ _ _ _ _ _ _ Hok E) as [Hok' Hsub]. cbn [snd].
  pose proof (execute_outcome _ _ _ _ _ _ _ Hok E) as Ho. clear E.
  destruct Ho as [e s' [Hs _ _] _|e _ _|e s' Hs _ _ _ _|ctl ct r s1 s' Hg Hs1 Hgone Hrest Ht].
  1-3: exists [], a; split_and!; [constructor|eapply related_silent; try done; apply Hs|by left].
  destruct (control_write _ ctl (sy_world s)) as [res w'] eqn:Ew. destruct Ht as (Hw & Htok & _).
  destruct Hg as [H1 H2 H3 H4%stale_nil_fresh H5 H6 H7].
  destruct (related_actuate s s' a (CmdEngine verb role) ctl token operator ct) as (a' & Hrun & Hr'); try done.
  - by rewrite Htok.
  - cbn. by rewrite Ew.
  - eexists _, a'. split_and!; [exact Hrun|done|by right].
Qed.

Lemma ats_refines name token operator role assert_ override s a :
  related s a -> exists ls a', spec_run a ls a' /\
    related (snd (ats_execute ats_client name token operator role assert_ override s)) a' /\
    (ls = [] \/ ls = [Actuate (view_of s) (CmdAts name role assert_ override) token operator]).
Proof.
  intros Hr. pose proof (rl_keys _ _ Hr) as Hok.
  pose proof (ats_execute_spec ats_client s name token operator role assert_ override Hok) as Hspec.
  destruct (ats_execute _ name token operator role assert_ override s) as [r s'] eqn:E.
  destruct (ats_execute_takes _ _ _ _ _ _ _ _ _ Hok E) as [Hok' Hsub]. cbn [snd].
  destruct Hspec as [(Hw & _)|(ctl & ct & [Hsp Hc Ht] & Hrest)].
  { exists [], a. split_and!; [constructor|by eapply related_silent|by left]. }
  destruct (control_write ats_client ctl (sy_world s)) as [res w'] eqn:Ew. destruct Hrest as (Hw & Hgone & _).
  destruct (related_actuate s s' a (CmdAts name role assert_ override) ctl token operator ct) as (a' & Hrun & Hr'); try done.
  - cbn. by rewrite Ew.
  - eexists _, a'. split_and!; [exact Hrun|done|by right].
Qed.

Lemma ack_refines code token operator s a :
  related s a -> exists ls a', spec_run a ls a' /\ related (snd (ack_alarm code token operator s)) a' /\
    (ls = [] \/ ls = [Actuate (view_of s) (CmdAck code) token operator]).
Proof.
  intros Hr. pose proof (rl_keys _ _ Hr) as Hok. destruct (ack_alarm code token operator s) as [r s'] eqn:E.
  destruct (ack_alarm_takes _ _ _ _ _ _ Hok E) as [Hok' Hsub]. cbn [snd].
  pose proof (ack_outcome_of s code token operator r s' Hok E) as Ho. clear E.
  assert (sy_world s' = sy_world s -> exists ls a', spec_run a ls a' /\ related s' a' /\
    (ls = [] \/ ls = [Actuate (view_of s) (CmdAck code) token operator])) as Hsilent.
  { intros Hw. exists [], a. split_and!; [constructor|by eapply related_silent|by left]. }
  assert (forall ctl, ack_gates s code token operator ->
    od_get "ack_alarm"%string (rm_controls (sy_regmap s)) = Some ctl ->
    sy_world s' = snd (control_write _ ctl (sy_world s)) -> od_get token (sy_tokens s') = None ->
    exists ls a', spec_run a ls a' /\ related s' a' /\
    (ls = [] \/ ls = [Actuate (view_of s) (CmdAck code) token operator])) as Hwrite.
  { intros ctl [Ha Hc [ct Ht]] Hctl Hw Hgone.
    destruct (related_actuate s s' a (CmdAck code) ctl token operator ct) as (a' & Hrun & Hr'); try done.
    eexists _, a'. split_and!; [exact Hrun|done|by right]. }
  destruct Ho; eauto.
Qed.

Lemma step_refines op s a :
  op_ok op -> related s a ->
  exists ls a', spec_run a ls a' /\ related (plant_step op s) a' /\ shows op s ls.
Proof.
  intros Hop Hr. destruct op; cbn [plant_step shows].
  - by apply issue_refines.
  - by apply command_refines.
  - by apply ats_refines.
  - by apply ack_refines.
  - exists [Outside], {| sp_grants := sp_grants a; sp_wire := sy_world (f s) |}. split_and!; [|constructor|done]; cbn.
    + eapply spec_cons; [apply spec_outside|constructor].
    + rewrite Hop. apply Hr.
    + rewrite Hop. apply Hr.
    + done.
Qed.
(** A history and the labels it shows. *)
Inductive explained : list plant_op -> Sys W -> list label -> Prop :=
| expl_nil s : explained [] s []
| expl_cons op ops s ls rest :
    shows op s ls -> explained ops (plant_step op s) rest -> explained (op :: ops) s (ls ++ rest).

Lemma run_refines ops s a :
  Forall op_ok ops -> related s a ->
  exists ls a', spec_run a ls a' /\ related (plant_run ops s) a' /\ explained ops s ls.
Proof.
  intros Hops. revert s a. induction Hops as [|op ops Hop _ IH]; intros s a Hr.
  - exists [], a. split_and!; [constructor|done|constructor].
  - destruct (step_refines op s a Hop Hr) as (ls & b & Hrun & Hr' & Hsh).
    destruct (IH _ _ Hr') as (rest & c & Hrun' & Hr'' & Hex).
    exists (ls ++ rest), c. split_and!; [by eapply spec_run_app|done|by constructor].
Qed.

(** The program refines the interlock machine: over any history of token requests,
    H-100 commands, ATS commands, acknowledgements, polls and reloads, the wires and the
    live tokens are those of a run of the machine, each operation showing at most its own
    grant or actuation. *)
Theorem plant_refines_interlock ops s :
  Forall op_ok ops -> sy_tokens s = [] ->
  exists ls a, spec_run {| sp_grants := ∅; sp_wire := sy_world s |} ls a /\
    explained ops s ls /\ related (plant_run ops s) a.
Proof.
  intros Hops Hs. destruct (run_refines ops s {| sp_grants := ∅; sp_wire := sy_world s |} Hops) as (ls & a & H1 & H2 & H3).
  - constructor; rewrite ?Hs; [constructor|done|done].
  - by exists ls, a.
Qed.

(** ** What the machine guarantees *)

Definition grants_of (t : string) (l : label) : bool :=
  match l with Grant t' _ _ _ => (t' =? t)%string | _ => false end.
Definition actuates_with (t : string) (l : label) : bool :=
  match l with Actuate _ _ t' _ => (t' =? t)%string | _ => false end.
Definition tally (p : label -> bool) (ls : list label) : nat := length (List.filter p ls).

Lemma tally_app p l l' : tally p (l ++ l') = (tally p l + tally p l')%nat.
Proof. unfold tally. by rewrite List.filter_app, length_app. Qed.

(** An actuation that its history authorises. *)
Definition authorised (past : list label) (l : label) : Prop :=
  match l with
  | Actuate v c token operator =>
      (exists ctl, permitted v c ctl) /\
      (tally (actuates_with token) past < tally (grants_of token) past)%nat /\
      exists action t0, Grant token operator action t0 ∈ past /\
        (forall x, action = Some x -> x = action_of c) /\ vw_now v <= t0 + TOKEN_TTL_S
  | _ => True
  end.

Record accounted (past : list label) (a : Spec) : Prop := {
  ac_grants : forall t g, sp_grants a !! t = Some g ->
    exists t0, Grant t (gr_operator g) (gr_action g) t0 ∈ past /\ gr_deadline g = t0 + TOKEN_TTL_S;
  ac_tally : forall t, (tally (actuates_with t) past + (if sp_grants a !! t is Some _ then 1 else 0) <=
                        tally (grants_of t) past)%nat
}.

Lemma spec_step_accounted past a l b :
  spec_step a l b -> accounted past a -> authorised past l /\ accounted (past ++ [l]) b.
Proof.
  intros Hs [Hg Ht]. destruct Hs as [a token operator action|a v c ctl token operator g Hp Hn Hgr (Ho & Ha & Hd)|a w'].
  - split; [done|]. constructor; cbn [sp_grants].
    + intros t g. rewrite lookup_insert_Some. intros [[<- <-]|[_ Hl]].
      * cbn. eexists. split; [|done]. set_solver.
      * destruct (Hg t g Hl) as (t0 & ? & ?). exists t0. split; [set_solver|done].
    + intros t. specialize (Ht t). rewrite !tally_app. unfold tally at 2 4. cbn [List.filter actuates_with grants_of].
      destruct (String.eqb_spec token t) as [->|Hne]; cbn [length].
      * rewrite lookup_insert_eq. destruct (sp_grants a !! t); lia.
      * rewrite lookup_insert_ne by done. lia.
  - pose proof (Ht token) as Htok. rewrite Hgr in Htok. split.
    + split_and!; [by exists ctl|lia|]. destruct (Hg _ _ Hgr) as (t0 & Hin & Hdl).
      exists (gr_action g), t0. rewrite <- Ho. split_and!; [done|done|lia].
    + constructor; cbn [sp_grants].
      * intros t g'. rewrite lookup_delete_Some. intros [_ Hl]. destruct (Hg t g' Hl) as (t0 & ? & ?).
        exists t0. split; [set_solver|done].
      * intros t. specialize (Ht t). rewrite !tally_app. unfold tally at 2 4. cbn [List.filter actuates_with grants_of].
        destruct (String.eqb_spec token t) as [->|Hne]; cbn [length].
        -- rewrite lookup_delete_eq. lia.
        -- rewrite lookup_delete_ne by done. lia.
  - split; [done|]. constructor; cbn [sp_grants].
    + intros t g Hl. destruct (Hg t g Hl) as (t0 & ? & ?). exists t0. split; [set_solver|done].
    + intros t. specialize (Ht t). rewrite !tally_app. unfold tally at 2 4. cbn. lia.
Qed.

Lemma spec_run_authorised past a ls b :
  spec_run a ls b -> accounted past a ->
  forall pre l post, ls = pre ++ l :: post -> authorised (past ++ pre) l.
Proof.
  intros Hr. revert past. induction Hr as [a|a l b ls c Hs Hr IH]; intros past Hac pre x post E.
  - by destruct pre.
  - destruct (spec_step_accounted past a l b Hs Hac) as [Hau Hac'].
    destruct pre as [|y pre]; cbn in E; injection E as -> ->; [by rewrite app_nil_r|].
    replace (past ++ y :: pre) with ((past ++ [y]) ++ pre) by by rewrite <- app_assoc. by eapply IH.
Qed.

(** Every write of any history was decided on a plant that permitted it and paid for
    by an earlier grant to the same operator for the same action, at most 30 s old, no token
    ever paying for more writes than it was granted for. *)
Theorem writes_authorised ops s :
  Forall op_ok ops -> sy_tokens s = [] ->
  exists ls a, spec_run {| sp_grants := ∅; sp_wire := sy_world s |} ls a /\
    explained ops s ls /\ sp_wire a = sy_world (plant_run ops s) /\
    forall pre l post, ls = pre ++ l :: post -> authorised pre l.
Proof.
  intros Hops Hs. destruct (run_refines ops s {| sp_grants := ∅; sp_wire := sy_world s |} Hops) as (ls & a & H1 & H2 & H3).
  { constructor; rewrite ?Hs; [constructor|done|done]. }
  exists ls, a. split_and!; [done|done|apply H2|].
  intros pre l post E. apply (spec_run_authorised [] _ _ _ H1) with (2 := E). by constructor.
Qed.
End interlock.
