(* ===== verification/Routes.v ===== *)
(** * The whole API

    Every request that can change the state, behind the cross-site filter and the role
    gates, served on one state.  Theorems: a request without the session or the role it
    needs changes nothing; and the API as a whole refines the interlock machine of
    Interlock.v, every write paid for by a grant to the operator of the session. *)

From S2P Require Import Prelude PyNum PyVal Registers RegisterFacts RegisterValidation ShippedMaps Loader Client Poller Database DatabaseFacts Events StateMachine Ats Control ControlFacts AtsControl RateLimit Slack Http Config SettingsApi SettingsFacts Api Interlock.

Local Open Scope Z_scope.
Local Open Scope gw_scope.

(** ** Requests and the state they act on *)

Inductive request_kind : Type :=
| RqLogin (password : string)
| RqConfirm (draws : list string) (verb : option string)       (* GET /api/control/confirm *)
| RqControl (verb token : string)
| RqAck (code token : string)
| RqAts (route : ats_route) (token : string)
| RqPutConfig (b : ConfigUpdate)
| RqSlackTest (post : bool * string)
| RqReload
| RqVerify.

Inductive reply : Type :=
| RpCookie (c : Cookie) | RpToken (t : option ConfirmToken) | RpCommand (r : command_result) | RpAck (hw : bool)
| RpUpdate (r : update_reply) | RpSlack (r : bool * string) | RpReload (r : nat * nat) | RpVerify (r : verify_reply).

Record Server (W T : Type) : Type := { sv_app : App W T; sv_logins : RateLimiter; sv_commands : RateLimiter }.
Arguments sv_app {W T}. Arguments sv_logins {W T}. Arguments sv_commands {W T}. Arguments Build_Server {W T}.

Section routes.
Context {W T : Type} (ats_client : ModbusClient W) `{HC : ModbusClient W} `{Clock W} {P : Pydantic} {PL : PydanticLaws P}.
Variables (yaml_load : T -> res pyval) (yaml_dump : pyval -> T) (exc_text : pyexc -> string).
Variables (jwt_decode : Z -> string -> string -> jwt_result) (checkpw : string -> string -> bool)
  (jwt_issue : Z -> string -> string -> string -> Z -> string).
Implicit Types (sv : Server W T) (rq : Request).

Definition sys_of sv : Sys W := ap_sys (sv_app sv).
Definition now_of sv : Z := wall_clock (sy_world (sys_of sv)).
Definition secret_of sv : string := ac_jwt_secret (st_auth (ap_settings (sv_app sv))).
Definition set_app (a : App W T) sv : Server W T := Build_Server a (sv_logins sv) (sv_commands sv).
Definition set_sys (y : Sys W) sv : Server W T := set_app (with_sys (fun _ => y) (sv_app sv)) sv.

Definition outcome (A : Type) : Type := (api_error + A) * Server W T.

(** A handler of the services, and one of api/settings.py. *)
Definition on_sys {A} (f : A -> reply) (m : SE (Sys W) HttpError A) sv : outcome reply :=
  let '(r, y) := m (sys_of sv) in
  (match r with inl e => inl (Http e) | inr a => inr (f a) end, set_sys y sv).
Definition on_app {A} (f : A -> reply) (m : SettingsApi.handler (W := W) (T := T) A) sv : outcome reply :=
  let '(r, a) := m (sv_app sv) in
  (match r with inl e => inl e | inr x => inr (f x) end, set_app a sv).
Definition gated {A} (gate : HttpError + Principal) (k : Principal -> outcome A) sv : outcome A :=
  match gate with inl e => (inl (Http e), sv) | inr p => k p end.

Definition operator_of rq sv : HttpError + Principal := require_operator jwt_decode (now_of sv) (secret_of sv) rq.
Definition admin_of rq sv : HttpError + Principal := require_admin jwt_decode (now_of sv) (secret_of sv) rq.

Definition serve_login rq (password : string) sv : outcome reply :=
  let '(r, ls) := login checkpw jwt_issue (now_of sv) (mono_clock (sy_world (sys_of sv)))
                    (st_auth (ap_settings (sv_app sv))) rq password
                    {| ls_db := sy_db (sys_of sv); ls_limiter := sv_logins sv |} in
  (match r with inl e => inl (Http e) | inr c => inr (RpCookie c) end,
   Build_Server (sv_app (set_sys (set_db (ls_db ls) (sys_of sv)) sv)) (ls_limiter ls) (sv_commands sv)).

Definition serve_ats rq (route : ats_route) (token : string) sv : outcome reply :=
  let client := if xc_enabled (st_ats (ap_settings (sv_app sv))) then Some ats_client else None in
  let '(r, (y, limiter)) := ats_endpoint jwt_decode client (secret_of sv) rq route token (sys_of sv, sv_commands sv) in
  (match r with inl e => inl (Http e) | inr c => inr (RpCommand c) end,
   Build_Server (sv_app (set_sys y sv)) (sv_logins sv) limiter).

(** The route behind a request. *)
Definition route rq (k : request_kind) sv : outcome reply :=
  match k with
  | RqLogin password => serve_login rq password sv
  | RqConfirm draws verb =>
      gated (operator_of rq sv) (fun p => on_sys RpToken (lift_control (issue_token draws (p_operator p) verb)) sv) sv
  | RqControl verb token => on_sys RpCommand (control_route jwt_decode (secret_of sv) rq verb token) sv
  | RqAck code token => on_sys RpAck (ack_route jwt_decode (secret_of sv) rq code token) sv
  | RqAts r token => serve_ats rq r token sv
  | RqPutConfig b =>
      gated (admin_of rq sv) (fun p => on_app RpUpdate (update_config_route yaml_load yaml_dump (p_operator p) b) sv) sv
  | RqSlackTest post => gated (admin_of rq sv) (fun p => on_app RpSlack (test_slack_route (p_operator p) post) sv) sv
  | RqReload => gated (admin_of rq sv) (fun p => on_app RpReload (reload_route yaml_load exc_text (p_operator p)) sv) sv
  | RqVerify => gated (admin_of rq sv) (fun p => on_app RpVerify (verify_route (p_operator p)) sv) sv
  end.

(** The cross-site filter in front of it; a fault of the filter is a 500. *)
Definition serve rq (k : request_kind) sv : outcome reply :=
  match csrf_origin_check (Some (st_cors_origins (ap_settings (sv_app sv)))) [] rq with
  | CsrfForward => route rq k sv
  | CsrfBlocked message => (inl (Http (http_error 403 message)), sv)
  | CsrfFault => (inl (Uncaught (ValueError "")), sv)
  end.

(** ** Who may do what *)

Definition needs_admin (k : request_kind) : bool :=
  match k with
  | RqPutConfig _ | RqSlackTest _ | RqReload | RqVerify | RqAts (RouteForce _ _) _ => true
  | _ => false
  end.
Definition caller rq (k : request_kind) sv : HttpError + Principal :=
  if needs_admin k then admin_of rq sv else operator_of rq sv.

Lemma set_sys_id sv : set_sys (sys_of sv) sv = sv.
Proof. by destruct sv as [[]]. Qed.

Lemma on_sys_raise {A} (f : A -> reply) gate body sv e :
  gate (sys_of sv) = inl e ->
  on_sys f (s <-- gets id ;; with_principal (gate s) body) sv = (inl (Http e), sv).
Proof. intros Hg. unfold on_sys. rewrite se_bind_gets. cbn [id]. rewrite Hg. cbn. by rewrite set_sys_id. Qed.

(** The roles that may send a request. *)
Definition entitled (k : request_kind) (role : option string) : Prop :=
  role = Some "admin" \/ (needs_admin k = false /\ role = Some "operator").

Lemma caller_entitled rq k sv :
  match caller rq k sv with
  | inl e => he_status e = 401 \/ he_status e = 403
  | inr p => exists c, session_claims jwt_decode (now_of sv) (secret_of sv) rq c /\ entitled k (cl_role c)
  end.
Proof.
  unfold caller, entitled, operator_of, admin_of. destruct (needs_admin k).
  - pose proof (admin_session jwt_decode (now_of sv) (secret_of sv) rq) as Hg. destruct (require_admin _ _ _ _); [done|].
    destruct Hg as (c & Hc & Hr). exists c. split; [done|by left].
  - pose proof (operator_session jwt_decode (now_of sv) (secret_of sv) rq) as Hg. destruct (require_operator _ _ _ _); [done|].
    destruct Hg as (c & Hc & Hr). exists c. split; [done|]. destruct Hr as [Hr|Hr]; [by right|by left].
Qed.

(** A route refuses whom its gate refuses, with the error of the gate. *)
Lemma route_refused rq k sv e :
  caller rq k sv = inl e -> (forall password, k <> RqLogin password) -> route rq k sv = (inl (Http e), sv).
Proof.
  intros He Hk. unfold caller in He.
  destruct k as [password|draws verb|verb token|code token|rt token|b|post| |]; cbn [needs_admin] in He; cbn [route];
    try (by rewrite He).
  - by destruct (Hk password).
  - exact (on_sys_raise _ _ _ _ e He).
  - exact (on_sys_raise _ _ _ _ e He).
  - unfold serve_ats, ats_endpoint, operator_gate, admin_gate. cbn [fst].
    destruct rt; cbn in He; (unfold operator_of in He || unfold admin_of in He); unfold now_of in He; rewrite He;
      cbn [fst snd]; rewrite set_sys_id; by destruct sv.
Qed.

(** C7. A request that is neither safe nor of a trusted origin, nor carries the header a
    page of another site cannot set, is refused; and so is any request but a login that does
    not present a valid session of a role its route takes (operator or admin; admin where
    the route asks for one). A refusal is a 401, a 403 or an uncaught fault of the filter,
    and leaves the whole state as it was: wire, tokens, database, limiters, settings and
    files. *)
Theorem unauthorised_requests_change_nothing rq k sv :
  let host := default "" (header "host" rq) in
  let trusted := ["http://" +:+ host; "https://" +:+ host] ++ st_cors_origins (ap_settings (sv_app sv)) in
  (~ trusted_request trusted rq ->
     snd (serve rq k sv) = sv /\
     ((exists message, fst (serve rq k sv) = inl (Http (http_error 403 message))) \/
      exists fault, fst (serve rq k sv) = inl (Uncaught fault))) /\
  ((forall password, k <> RqLogin password) ->
   (forall c, session_claims jwt_decode (now_of sv) (secret_of sv) rq c -> ~ entitled k (cl_role c)) ->
     snd (serve rq k sv) = sv /\
     ((exists e, fst (serve rq k sv) = inl (Http e) /\ (he_status e = 401 \/ he_status e = 403)) \/
      exists fault, fst (serve rq k sv) = inl (Uncaught fault))).
Proof.
  cbv zeta. unfold serve.
  pose proof (csrf_forward (Some (st_cors_origins (ap_settings (sv_app sv)))) [] rq) as Hf. split.
  - intros Hn. destruct (csrf_origin_check _ _ _) as [|message|]; [by destruct (Hn (Hf eq_refl))| |].
    + split; [done|]. left. by exists message.
    + split; [done|]. right. by eexists.
  - intros Hk Hn. destruct (csrf_origin_check _ _ _) as [|message|].
    + pose proof (caller_entitled rq k sv) as Hc. destruct (caller rq k sv) as [e|p] eqn:Ec.
      * rewrite (route_refused rq k sv e Ec Hk). split; [done|]. left. by exists e.
      * destruct Hc as (c & Hs & He). by destruct (Hn c Hs).
    + split; [done|]. left. eexists. split; [done|]. by right.
    + split; [done|]. right. by eexists.
Qed.

(** ** The API refines the interlock *)

Definition ats_name (r : ats_route) : string :=
  match r with RouteTest => "test" | RouteInhibit _ => "inhibit" | RouteForce _ _ => "force_transfer" | RouteBypass => "bypass_delay" end.

(** What a request may show on the machine: nothing, something outside it, or the one
    grant or actuation its caller asked for. *)
Definition api_shows rq (k : request_kind) sv (ls : list label) : Prop :=
  ls = [] \/ ls = [Outside] \/ exists p, caller rq k sv = inr p /\
    let see c token := [Actuate (view_of (sys_of sv)) c token (p_operator p)] in
    match k with
    | RqConfirm _ verb => exists token, ls = [Grant token (p_operator p) verb (now_mono (sys_of sv))]
    | RqControl verb token => ls = see (CmdEngine verb (p_role p)) token
    | RqAck code token => ls = see (CmdAck code) token
    | RqAts r token => exists a o, ls = see (CmdAts (ats_name r) (p_role p) a o) token
    | _ => False
    end.

Notation machine_run := (spec_run ats_client).

Lemma related_outside (s s' : Sys W) a :
  related s a -> sy_tokens s' = sy_tokens s -> exists a', machine_run a [Outside] a' /\ related s' a'.
Proof.
  intros [Hk Hg Hw] Ht. exists {| sp_grants := sp_grants a; sp_wire := sy_world s' |}. split.
  - eapply spec_cons; [apply spec_outside|constructor].
  - constructor; cbn; rewrite ?Ht; done.
Qed.

Definition refines_as rq k sv (y : Sys W) a : Prop :=
  exists ls a', machine_run a ls a' /\ related y a' /\ api_shows rq k sv ls.

Lemma refines_same rq k sv a : related (sys_of sv) a -> refines_as rq k sv (sys_of sv) a.
Proof. intros Hr. exists [], a. split_and!; [constructor|done|by left]. Qed.
Lemma refines_outside rq k sv y a :
  related (sys_of sv) a -> sy_tokens y = sy_tokens (sys_of sv) -> refines_as rq k sv y a.
Proof.
  intros Hr Ht. destruct (related_outside _ y a Hr Ht) as (a' & H1 & H2). exists [Outside], a'.
  split_and!; [done|done|by right; left].
Qed.

Lemma sys_set_sys y sv : sys_of (set_sys y sv) = y.
Proof. done. Qed.

Lemma confirm_refines rq draws verb sv a :
  related (sys_of sv) a -> refines_as rq (RqConfirm draws verb) sv (sys_of (snd (route rq (RqConfirm draws verb) sv))) a.
Proof.
  intros Hr. cbn [route]. destruct (operator_of rq sv) as [e|p] eqn:Ep; cbn [gated]; [by apply refines_same|].
  unfold on_sys, lift_control.
  destruct (issue_refines ats_client draws (p_operator p) verb _ _ Hr) as (ls & a' & Hrun & Hr' & Hls).
  destruct (issue_token draws (p_operator p) verb (sys_of sv)) as [r y]. cbn [snd] in *.
  destruct r as [e|t]; cbn [snd]; rewrite sys_set_sys; exists ls, a'; (split_and!; [done|done|]);
    (destruct Hls as [->|[tok ->]]; [by left|right; right; exists p; split; [done|by exists tok]]).
Qed.

(** A handler behind the operator gate leaves the state of its body. *)
Lemma on_sys_gated {A} (f : A -> reply) (gate : Sys W -> HttpError + Principal) (body : Principal -> Api.handler A) sv :
  sys_of (snd (on_sys f (s <-- gets id ;; with_principal (gate s) body) sv)) =
    match gate (sys_of sv) with inl _ => sys_of sv | inr p => snd (body p (sys_of sv)) end.
Proof.
  unfold on_sys. rewrite se_bind_gets. cbn [id]. destruct (gate (sys_of sv)) as [e|p]; [done|].
  cbn [with_principal]. by destruct (body p (sys_of sv)).
Qed.

Lemma snd_lift_control {S A} (m : SE S ControlError A) s : snd (lift_control m s) = snd (m s).
Proof. unfold lift_control. by destruct (m s) as [[]]. Qed.

Lemma control_refines rq verb token sv a :
  related (sys_of sv) a -> refines_as rq (RqControl verb token) sv (sys_of (snd (route rq (RqControl verb token) sv))) a.
Proof.
  intros Hr. cbn [route]. unfold control_route. rewrite on_sys_gated.
  change (operator_gate jwt_decode (secret_of sv) rq (sys_of sv)) with (operator_of rq sv).
  destruct (operator_of rq sv) as [e|p] eqn:Ep; [by apply refines_same|]. rewrite snd_lift_control.
  destruct (command_refines ats_client verb token (p_operator p) (p_role p) _ _ Hr) as (ls & a' & Hrun & Hr' & Hls).
  exists ls, a'. split_and!; [done|done|]. destruct Hls as [->| ->]; [by left|]. right; right. by exists p.
Qed.

Lemma ack_route_refines rq code token sv a :
  related (sys_of sv) a -> refines_as rq (RqAck code token) sv (sys_of (snd (route rq (RqAck code token) sv))) a.
Proof.
  intros Hr. cbn [route]. unfold ack_route. rewrite on_sys_gated.
  change (operator_gate jwt_decode (secret_of sv) rq (sys_of sv)) with (operator_of rq sv).
  destruct (operator_of rq sv) as [e|p] eqn:Ep; [by apply refines_same|].
  destruct (ack_refines ats_client code token (p_operator p) _ _ Hr) as (ls & a' & Hrun & Hr' & Hls).
  exists ls, a'. split_and!; [done|done|]. destruct Hls as [->| ->]; [by left|]. right; right. by exists p.
Qed.

(** The command a route runs, when it gets past the limiter. *)
Lemma ats_run_state client name token p assert_ override (s : Sys W) limiter :
  let s' := fst (snd (ats_run client name token p assert_ override (s, limiter))) in
  (sy_tokens s' = sy_tokens s /\ sy_world s' = sy_world s) \/
  exists c, client = Some c /\ s' = snd (ats_execute c name token (p_operator p) (p_role p) assert_ override s).
Proof.
  cbv zeta. unfold ats_run. destruct client as [c|]; [|by left].
  destruct (check _ _ limiter) as [ok limiter1]. destruct ok; cbn [negb]; [|by left]. right. exists c. split; [done|].
  rewrite <- snd_lift_control. by destruct (lift_control _ s).
Qed.

Lemma ats_route_refines rq r token sv a :
  related (sys_of sv) a -> refines_as rq (RqAts r token) sv (sys_of (snd (route rq (RqAts r token) sv))) a.
Proof.
  intros Hr. cbn [route]. unfold serve_ats, ats_endpoint. cbn [fst].
  set (client := if xc_enabled _ then Some ats_client else None).
  set (gate := match r with RouteForce _ _ => _ | _ => _ end).
  assert (gate = caller rq (RqAts r token) sv) as Hgate by (subst gate; by destruct r).
  destruct gate as [e|p] eqn:Eg; [cbn [snd]; unfold sys_of; cbn; by apply refines_same|].
  set (res := match r with RouteTest => _ | RouteInhibit _ => _ | RouteForce _ _ => _ | RouteBypass => _ end).
  assert (exists assert_ override, res = ats_run client (ats_name r) token p assert_ override (sys_of sv, sv_commands sv))
    as (assert_ & override & ->) by (subst res; destruct r; by do 2 eexists).
  pose proof (ats_run_state client (ats_name r) token p assert_ override (sys_of sv) (sv_commands sv)) as Hs.
  destruct (ats_run _ _ _ _ _ _ _) as [rr [y limiter]]. cbn [fst snd] in Hs |- *.
  change (refines_as rq (RqAts r token) sv y a).
  destruct Hs as [[Ht Hw]|(c & Hc & ->)]; [by apply refines_outside|].
  assert (c = ats_client) as -> by (subst client; destruct (xc_enabled _); [by injection Hc as ->|done]).
  destruct (ats_refines ats_client (ats_name r) token (p_operator p) (p_role p) assert_ override _ _ Hr)
    as (ls & a' & Hrun & Hr' & Hls).
  exists ls, a'. split_and!; [done|done|]. destruct Hls as [->| ->]; [by left|]. right; right. exists p.
  split; [by rewrite <- Hgate|]. by exists assert_, override.
Qed.

(** The configuration endpoints never touch the token store. *)
Lemma update_route_tokens operator b (s : App W T) :
  sy_tokens (ap_sys (snd (update_config_route yaml_load yaml_dump operator b s))) = sy_tokens (ap_sys s).
Proof.
  destruct (update_config_route yaml_load yaml_dump operator b s) as [r s'] eqn:E; apply update_route_cases in E; destruct r as [e|r]; [by subst|].
  destruct E as (_ & (d & d' & _ & _ & ->) & _). unfold with_slack_of. by destruct (sent_patch b).
Qed.

Lemma reload_tokens operator (s : App W T) :
  sy_tokens (ap_sys (snd (reload_route yaml_load exc_text operator s))) = sy_tokens (ap_sys s).
Proof.
  unfold reload_route. rewrite se_bind_gets. cbn [id]. by destruct (load_file _ _ s).
Qed.

Lemma verify_tokens operator (s : App W T) : sy_tokens (ap_sys (snd (verify_route operator s))) = sy_tokens (ap_sys s).
Proof.
  unfold verify_route. rewrite se_bind_gets. cbn [id]. by destruct (if st_mock _ then _ else _).
Qed.

Lemma on_app_sys {A} (f : A -> reply) (m : SettingsApi.handler A) sv :
  sys_of (snd (on_app f m sv)) = ap_sys (snd (m (sv_app sv))).
Proof. unfold on_app. by destruct (m (sv_app sv)). Qed.

Lemma serve_refines rq k sv a : related (sys_of sv) a -> refines_as rq k sv (sys_of (snd (serve rq k sv))) a.
Proof.
  intros Hr. unfold serve. destruct (csrf_origin_check _ _ _); [|by apply refines_same..].
  destruct k as [password|draws verb|verb token|code token|rt token|b|post| |].
  - cbn [route]. unfold serve_login. destruct (login _ _ _ _ _ _ _ _) as [r ls]. by apply refines_outside.
  - by apply confirm_refines.
  - by apply control_refines.
  - by apply ack_route_refines.
  - by apply ats_route_refines.
  - cbn [route]. destruct (admin_of rq sv); cbn [gated]; [by apply refines_same|]. rewrite on_app_sys.
    apply refines_outside; [done|apply update_route_tokens].
  - cbn [route]. destruct (admin_of rq sv); cbn [gated]; [by apply refines_same|]. by apply refines_outside.
  - cbn [route]. destruct (admin_of rq sv); cbn [gated]; [by apply refines_same|]. rewrite on_app_sys.
    apply refines_outside; [done|apply reload_tokens].
  - cbn [route]. destruct (admin_of rq sv); cbn [gated]; [by apply refines_same|]. rewrite on_app_sys.
    apply refines_outside; [done|apply verify_tokens].
Qed.

(** ** Histories *)

(** Requests, and everything else that happens to the state: polls, retention, time. *)
Inductive api_op : Type :=
| Serve (rq : Request) (k : request_kind)
| Elsewhere (f : Server W T -> Server W T).

Definition api_step sv (op : api_op) : Server W T :=
  match op with Serve rq k => snd (serve rq k sv) | Elsewhere f => f sv end.
Definition api_run (ops : list api_op) sv : Server W T := foldl api_step sv ops.
Definition api_ok (op : api_op) : Prop :=
  match op with Elsewhere f => forall sv, sy_tokens (sys_of (f sv)) = sy_tokens (sys_of sv) | Serve _ _ => True end.

Inductive api_explained : list api_op -> Server W T -> list label -> Prop :=
| aex_nil sv : api_explained [] sv []
| aex_serve rq k ops sv ls rest :
    api_shows rq k sv ls -> api_explained ops (snd (serve rq k sv)) rest ->
    api_explained (Serve rq k :: ops) sv (ls ++ rest)
| aex_elsewhere f ops sv rest :
    api_explained ops (f sv) rest -> api_explained (Elsewhere f :: ops) sv (Outside :: rest).

Lemma api_refines ops sv a :
  Forall api_ok ops -> related (sys_of sv) a ->
  exists ls a', machine_run a ls a' /\ related (sys_of (api_run ops sv)) a' /\ api_explained ops sv ls.
Proof.
  intros Hops. revert sv a. induction Hops as [|[rq k|f] ops Hop _ IH]; intros sv a Hr.
  - exists [], a. split_and!; [constructor|done|constructor].
  - destruct (serve_refines rq k sv a Hr) as (ls & b & Hrun & Hr' & Hsh).
    destruct (IH _ _ Hr') as (rest & c & Hrun' & Hr'' & Hex).
    exists (ls ++ rest), c. split_and!; [by eapply spec_run_app|done|by constructor].
  - destruct (related_outside (sys_of sv) (sys_of (f sv)) a Hr (Hop sv)) as (b & Hrun & Hr').
    destruct (IH _ _ Hr') as (rest & c & Hrun' & Hr'' & Hex).
    exists ([Outside] ++ rest), c. split_and!; [by eapply spec_run_app|done|by constructor].
Qed.

End routes.
