(* ===== verification/Commissioning.v ===== *)
(** * The commissioning script against the whole API

    The requests of deploy/scripts/acceptance_test.py that can change the state, taken to
    the routes of Routes.v; the rest of the API only reads for it.

    Theorem: a run of the script that was not asked to drive the mock leaves the wires
    and everything else outside the program as they were, also behind a filter that lets its
    requests through. *)

From S2P Require Import Prelude PyNum PyVal Registers Client Poller Database DatabaseFacts Events StateMachine Ats Control ControlFacts AtsControl RateLimit Slack Http Config SettingsApi SettingsFacts Api Interlock Routes Acceptance.

Local Open Scope Z_scope.
Local Open Scope gw_scope.

(** ** From a request on the wire to its route *)

(** A required string field of a body: pydantic takes no other value for it. *)
Definition body_str (field : string) (body : option pyval) : option string :=
  match body with
  | Some (PvDict d) => match od_get field d with Some (PvStr s) => Some s | _ => None end
  | _ => None
  end.

(** The POST routes of api/control.py and api/ats.py that take a token alone. *)
Definition TOKEN_ROUTES : list (string * (string -> request_kind)) :=
  [("/api/control/start", RqControl "start"); ("/api/control/stop", RqControl "stop");
   ("/api/control/exercise", RqControl "exercise"); ("/api/control/transfer", RqControl "transfer");
   ("/api/ats/test", RqAts RouteTest); ("/api/ats/bypass-delay", RqAts RouteBypass)]%string.

Definition query_verb (query : string) : option string :=
  if str_startswith "verb=" query then Some (String.substring 5 (String.length query) query) else None.

(** The kind of a request, when its route changes the state and its body has the fields;
    [draws] are the next values of [secrets.token_urlsafe]. *)
Definition kind_of (draws : list string) (q : sent) : option request_kind :=
  let rq := sn_request q in
  if (rq_method rq =? "POST")%string then
    match od_get (rq_path rq) TOKEN_ROUTES with
    | Some k => k <$> body_str "confirm_token" (sn_body q)
    | None => if (rq_path rq =? "/api/auth/login")%string then RqLogin <$> body_str "password" (sn_body q) else None
    end
  else if ((rq_method rq =? "GET") && (rq_path rq =? "/api/control/confirm"))%string then Some (RqConfirm draws (query_verb (sn_query q)))
  else None.

Section commissioning.
Context {W T : Type} (ats_client : ModbusClient W) `{HC : ModbusClient W} `{Clock W} {P : Pydantic} {PL : PydanticLaws P}.
Variables (yaml_load : T -> res pyval) (yaml_dump : pyval -> T) (exc_text : pyexc -> string).
Variables (jwt_decode : Z -> string -> string -> jwt_result) (checkpw : string -> string -> bool)
  (jwt_issue : Z -> string -> string -> string -> Z -> string).
(** The cross-site filter in force; the values the token generator yields next; the
    replies of the routes that only read, of refused bodies and unknown paths; and how an
    outcome is sent. *)
Variables (filter : Server W T -> Request -> csrf_decision) (draws : Server W T -> list string)
  (view : sent -> Server W T -> Reply) (render : sent -> api_error + reply -> Reply).
Implicit Types (sv : Server W T).

Notation route := (Routes.route ats_client yaml_load yaml_dump exc_text jwt_decode checkpw jwt_issue).

(** The routes behind a filter, as [serve] with the filter of main.py. *)
Definition serve_behind rq (k : request_kind) sv : (api_error + reply) * Server W T :=
  match filter sv rq with
  | CsrfForward => route rq k sv
  | CsrfBlocked message => (inl (Http (http_error 403 message)), sv)
  | CsrfFault => (inl (Uncaught (ValueError "")), sv)
  end.

Definition api_respond (q : sent) sv : Reply * Server W T :=
  match kind_of (draws sv) q with
  | Some k => let '(r, sv') := serve_behind (sn_request q) k sv in (render q r, sv')
  | None => (view q sv, sv)
  end.

(** ** A word that is no token *)

Definition no_token (word : string) sv : Prop := od_get word (sy_tokens (sys_of sv)) = None.

Lemma draw_token_in ds tokens t : draw_token ds tokens = Some t -> t ∈ ds.
Proof.
  induction ds as [|d ds IH]; [done|]. cbn. destruct (od_mem d tokens); [intros; right; auto|]. intros [= ->]. by left.
Qed.

(** Issuing adds at most one of the values drawn. *)
Lemma issue_keys ds operator verb (s : Sys W) t :
  tokens_ok (sy_tokens s) -> od_get t (sy_tokens s) = None -> t ∉ ds ->
  od_get t (sy_tokens (snd (issue_token ds operator verb s))) = None.
Proof.
  intros Hok Ht Hd. destruct (evict_expired_spec s Hok) as (s1 & E1 & Hs1 & Hok1 & Hget).
  assert (od_get t (sy_tokens s1) = None) as Ht1 by (rewrite Hget; unfold live_token; by rewrite Ht).
  unfold issue_token, se_bind at 1. rewrite E1, !se_bind_gets.
  destruct (draw_token ds (sy_tokens s1)) as [tok|] eqn:Ed; [|done]. apply draw_token_in in Ed.
  rewrite se_bind_modify. unfold audit. rewrite se_bind_modify. cbn. rewrite od_get_set. case_decide; [by subst|done].
Qed.
(** The machine of Interlock.v in the state of the program. *)
Definition grants_of (d : odict string ConfirmToken) : gmap string grant :=
  foldr (fun kv m => <[fst kv := grant_of (snd kv)]> m) ∅ d.
Lemma grants_of_lookup d t : grants_of d !! t = grant_of <$> od_get t d.
Proof.
  unfold grants_of. induction d as [|[k ct] d IH]; cbn [foldr od_get fst snd]; [by rewrite lookup_empty|]. case_decide as E.
  - subst. by rewrite lookup_insert_eq.
  - by rewrite lookup_insert_ne.
Qed.
Definition machine_of (s : Sys W) : Spec := {| sp_grants := grants_of (sy_tokens s); sp_wire := sy_world s |}.
Lemma machine_related (s : Sys W) : tokens_ok (sy_tokens s) -> related s (machine_of s).
Proof. intros Hok. split; [done| |done]. intros t ct Ht. cbn. by rewrite grants_of_lookup, Ht. Qed.

Notation machine_run := (spec_run ats_client).

(** Without a grant there is no actuation. *)
Lemma no_grant_no_write (s s' : Sys W) word v c operator ls a' :
  od_get word (sy_tokens s) = None -> machine_run (machine_of s) ls a' -> related s' a' ->
  ls = [] \/ ls = [Actuate v c word operator] -> sy_world s' = sy_world s.
Proof.
  intros Hw Hrun [_ _ Hwire] [->| ->].
  - inversion Hrun; subst. by rewrite <- Hwire.
  - inversion Hrun as [|? ? ? ? ? Hstep]; subst. inversion Hstep as [|? ? ? ? ? ? g Hp Hn Hg|]; subst.
    cbn in Hg. by rewrite grants_of_lookup, Hw in Hg.
Qed.

Definition WORDS : list string := ["none"; BAD]%string.

(** What the script keeps: no word of its is a token, and the world is [w]. *)
Definition quiet (w : W) (s : Sys W) : Prop :=
  tokens_ok (sy_tokens s) /\ (forall word, word ∈ WORDS -> od_get word (sy_tokens s) = None) /\ sy_world s = w.

Lemma quiet_takes w (s s' : Sys W) :
  quiet w s -> tokens_ok (sy_tokens s') -> (forall t ct, od_get t (sy_tokens s') = Some ct -> od_get t (sy_tokens s) = Some ct) ->
  sy_world s' = sy_world s -> quiet w s'.
Proof.
  intros (Hok & Hn & Hw) Hok' Hsub Hw'. split_and!; [done| |congruence]. intros word Hin.
  destruct (od_get word (sy_tokens s')) as [ct|] eqn:E; [|done]. apply Hsub in E. by rewrite Hn in E.
Qed.

Lemma quiet_execute w verb word operator role (s : Sys W) :
  word ∈ WORDS -> quiet w s -> quiet w (snd (execute verb word operator role s)).
Proof.
  intros Hin Hq. pose proof Hq as (Hok & Hn & _).
  destruct (command_refines ats_client verb word operator role s _ (machine_related s Hok)) as (ls & a' & Hrun & Hr & Hls).
  destruct (execute verb word operator role s) as [r s'] eqn:E. destruct (execute_takes _ _ _ _ _ _ _ Hok E) as [Hok' Hsub].
  apply (quiet_takes w s); [done|done|done|]. by eapply no_grant_no_write; [apply Hn, Hin|..].
Qed.

Lemma quiet_ats w name word operator role a o (s : Sys W) :
  word ∈ WORDS -> quiet w s -> quiet w (snd (ats_execute ats_client name word operator role a o s)).
Proof.
  intros Hin Hq. pose proof Hq as (Hok & Hn & _).
  destruct (ats_refines ats_client name word operator role a o s _ (machine_related s Hok)) as (ls & a' & Hrun & Hr & Hls).
  destruct (ats_execute ats_client name word operator role a o s) as [r s'] eqn:E.
  destruct (ats_execute_takes ats_client _ _ _ _ _ _ _ _ _ Hok E) as [Hok' Hsub].
  apply (quiet_takes w s); [done|done|done|]. by eapply no_grant_no_write; [apply Hn, Hin|..].
Qed.

Lemma quiet_serve w ds rq k sv :
  (forall word, word ∈ WORDS -> word ∉ ds) ->
  match k with
  | RqLogin _ => True
  | RqConfirm d _ => d = ds
  | RqControl _ word | RqAts _ word => word ∈ WORDS
  | _ => False
  end ->
  quiet w (sys_of sv) -> quiet w (sys_of (snd (serve_behind rq k sv))).
Proof.
  intros Hds Hk Hq. unfold serve_behind. destruct (filter _ _); [|done..].
  destruct k as [password|d verb|verb token|code token|rt token|b|post| |]; try done; cbn [Routes.route].
  - unfold serve_login. by destruct (login _ _ _ _ _ _ _ _) as [r ls].
  - subst d. destruct (operator_of jwt_decode rq sv) as [e|p]; cbn [gated]; [done|]. unfold on_sys, lift_control.
    destruct (issue_refines ats_client ds (p_operator p) verb _ _ (machine_related _ (proj1 Hq))) as (_ & a' & _ & [Hok' _ _] & _).
    destruct Hq as (Hok & Hn & Hw). pose proof (issue_spec ds (p_operator p) verb (sys_of sv) Hok) as (o & s' & E & _ & Hw' & _).
    assert (forall word, word ∈ WORDS -> od_get word (sy_tokens s') = None) as Hn'.
    { intros word Hin. pose proof (issue_keys ds (p_operator p) verb (sys_of sv) word Hok (Hn _ Hin) (Hds _ Hin)) as Hi. by rewrite E in Hi. }
    rewrite E in *. cbn [snd] in *. split_and!; [done|exact Hn'|]. by etrans; [exact Hw'|].
  - unfold control_route. rewrite on_sys_gated.
    destruct (operator_gate _ _ _ _) as [e|p]; [done|]. rewrite snd_lift_control. by apply quiet_execute.
  - unfold serve_ats, ats_endpoint. cbn [fst].
    set (client := if xc_enabled _ then Some ats_client else None).
    set (gate := match rt with RouteForce _ _ => _ | _ => _ end). destruct gate as [e|p]; [done|].
    set (res := match rt with RouteTest => _ | RouteInhibit _ => _ | RouteForce _ _ => _ | RouteBypass => _ end).
    assert (exists assert_ override, res = ats_run client (ats_name rt) token p assert_ override (sys_of sv, sv_commands sv))
      as (a & o & ->) by (subst res; destruct rt; by do 2 eexists).
    pose proof (ats_run_state client (ats_name rt) token p a o (sys_of sv) (sv_commands sv)) as Hs.
    destruct (ats_run _ _ _ _ _ _ _) as [rr [y limiter]]. cbn [fst snd] in Hs |- *. change (quiet w y).
    destruct Hs as [[Ht Hw]|(c & Hc & ->)].
    + destruct Hq as (Hok & Hn & Hww). split_and!; [by rewrite Ht|by rewrite Ht|congruence].
    + assert (c = ats_client) as -> by (subst client; destruct (xc_enabled _); [by injection Hc as ->|done]). by apply quiet_ats.
Qed.

Lemma kind_of_harmless ds q k :
  permitted false q -> kind_of ds q = Some k ->
  match k with
  | RqLogin _ => True
  | RqConfirm d _ => d = ds
  | RqControl _ word | RqAts _ word => word ∈ WORDS
  | _ => False
  end.
Proof.
  intros Hp. unfold kind_of. destruct (rq_method (sn_request q) =? "POST")%string eqn:Em.
  - destruct (od_get _ TOKEN_ROUTES) as [mk|] eqn:Er.
    + assert (is_command q = true) as Hc.
      { unfold is_command. rewrite Em. apply od_get_elem in Er. unfold TOKEN_ROUTES in Er. revert Er. generalize (rq_path (sn_request q)).
        intros path Hin. repeat (apply elem_of_cons in Hin as [[= -> _]|Hin]; [reflexivity|]). by apply elem_of_nil in Hin. }
      assert (exists d, sn_body q = Some (PvDict d) /\ d ∈ [[]; [("confirm_token", PvStr "none")]; [("confirm_token", PvStr BAD)]]%string)
        as (d & -> & Hd).
      { destruct (Hp Hc) as [Hh|[? _]]; [|done]. unfold harmless in Hh. apply list_elem_of_fmap in Hh as (d & -> & Hd). by exists d. }
      assert (forall word, body_str "confirm_token" (Some (PvDict d)) = Some word -> word ∈ WORDS) as Hword.
      { intros word. repeat (apply elem_of_cons in Hd as [->|Hd]; [cbn; try done; intros [= <-]; unfold WORDS; set_solver|]). by apply elem_of_nil in Hd. }
      destruct (body_str "confirm_token" (Some (PvDict d))) as [word|]; [|done]. intros [= <-].
      apply od_get_elem in Er. unfold TOKEN_ROUTES in Er. specialize (Hword word eq_refl).
      repeat (apply elem_of_cons in Er as [[= _ ->]|Er]; [exact Hword|]). by apply elem_of_nil in Er.
    + destruct (rq_path _ =? _)%string; [|done]. destruct (body_str _ _); [cbn; by intros [= <-]|done].
  - destruct (_ && _); [|done]. by intros [= <-].
Qed.

(** C14. A run of the acceptance script that was not asked to drive the mock controller
    leaves the wires and the rest of the world as they were, whatever the state, settings,
    passwords, roles and cross-site filter of the service it runs against; the two words it
    sends as tokens must not be tokens. *)
Theorem commissioning_leaves_wires pause args host sv :
  ar_actuate args = false ->
  tokens_ok (sy_tokens (sys_of sv)) -> (forall word, word ∈ WORDS -> no_token word sv) ->
  (forall sv word, word ∈ WORDS -> word ∉ draws sv) ->
  (forall sv, sys_of (pause sv) = sys_of sv) ->
  sy_world (sys_of (sc_service (snd (main api_respond pause args host (script_init sv))))) = sy_world (sys_of sv).
Proof.
  intros Ha Hok Hn Hd Hpause.
  assert (good false (fun sv' => quiet (sy_world (sys_of sv)) (sys_of sv')) (snd (main api_respond pause args host (script_init sv))))
    as [_ (_ & _ & Hw)]; [|exact Hw].
  apply sends_main.
  - intros q sv' Hp Hq. unfold api_respond. destruct (kind_of (draws sv') q) as [k|] eqn:Ek; [|done].
    pose proof (quiet_serve (sy_world (sys_of sv)) (draws sv') (sn_request q) k sv' (Hd sv') (kind_of_harmless _ _ _ Hp Ek) Hq) as Hs.
    by destruct (serve_behind (sn_request q) k sv') as [r sv2].
  - intros sv' Hq. by rewrite Hpause.
  - split; [constructor|]. done.
  - by rewrite Ha.
Qed.
End commissioning.
