(* ===== verification/System.v ===== *)
(** * The poll callbacks (on_poll of main.py and of services/ats.py)

    One poll of each device taken through the whole back end: the state machine or
    the ATS service, the telemetry row, the bus and Slack.  The theorems say that the
    bus tells its clients exactly what changed: replaying the messages of a poll
    gives the engine state and the alarm table the back end holds. *)

From S2P Require Import Prelude PyNum Registers Poller Database DatabaseFacts Events StateMachine StateMachineFacts Ats AtsFacts Slack.

Local Open Scope Z_scope.

(** ** State of the application that the callbacks share *)

Record Live : Type := {
  lv_sm : StateMachine;
  lv_ats : AtsService;
  lv_db : Database;
  lv_bus : EventBus;
  lv_slack : SlackNotifier;
  lv_last_push : Z
}.

Definition outbox_of (d : Database) : Outbox := {| ob_db := d; ob_emitted := [] |}.

(** What one poll hands to its callback. *)
Record poll_event : Type := {
  pe_now : Z; pe_mono : Z; pe_heap : comms_heap; pe_tier : string; pe_reading : Reading; pe_comms : nat
}.

Section system.
Context `{SetOrder}.

(** The snapshot push: prime polls, no more often than the throttle allows. *)
Definition push_due (throttle : Z) (pe : poll_event) (lv : Live) : bool :=
  (pe_tier pe =? "prime")%string && (throttle <=? rd_ts (pe_reading pe) - lv_last_push lv).

(** [on_poll] of main.py; [use_ats] is whether the companion is configured. *)
Definition on_poll (use_ats : bool) (throttle : Z) (pe : poll_event) (lv : Live) : Live :=
  let view := if use_ats then Some (ats_view (pe_heap pe) (lv_ats lv)) else None in
  let '(m, ob) := update (pe_now pe) (pe_heap pe) view (pe_reading pe) (pe_comms pe)
                    (lv_sm lv, outbox_of (lv_db lv)) in
  let db := if (pe_tier pe =? "base")%string
            then write_telemetry (rd_ts (pe_reading pe)) (rd_values (pe_reading pe))
                   (ss_engine_state (sm_snap m)) (alarm_raw (sm_snap m)) (ob_db ob)
            else ob_db ob in
  let pushed := if push_due throttle pe lv then [EvSnapshot (rd_ts (pe_reading pe))] else [] in
  {| lv_sm := m; lv_ats := lv_ats lv; lv_db := db;
     lv_bus := publish_all (pushed ++ ob_emitted ob) (lv_bus lv);
     lv_slack := foldl (fun n e => forward_to_slack (pe_now pe) e n) (lv_slack lv) (ob_emitted ob);
     lv_last_push := if push_due throttle pe lv then rd_ts (pe_reading pe) else lv_last_push lv |}.

(** [AtsService.on_poll] *)
Definition ats_on_poll (pe : poll_event) (lv : Live) : Live :=
  let '(a, ob) := ats_update (pe_now pe) (pe_mono pe) (pe_heap pe) (pe_tier pe) (pe_reading pe) (pe_comms pe)
                    (lv_ats lv) (outbox_of (lv_db lv)) in
  {| lv_sm := lv_sm lv; lv_ats := a; lv_db := ob_db ob;
     lv_bus := publish_all (ob_emitted ob) (lv_bus lv);
     lv_slack := foldl (fun n e => ats_forward_to_slack (pe_now pe) e n) (lv_slack lv) (ob_emitted ob);
     lv_last_push := lv_last_push lv |}.

(** ** A client that replays the bus *)

Record client_view : Type := { cv_engine : string; cv_alarms : gset string }.

Definition replay_one (v : client_view) (e : BusEvent) : client_view :=
  match e with
  | EvTransition _ to _ => {| cv_engine := to; cv_alarms := cv_alarms v |}
  | EvAlarm code _ _ _ => {| cv_engine := cv_engine v; cv_alarms := {[ code ]} ∪ cv_alarms v |}
  | EvAlarmCleared code _ _ => {| cv_engine := cv_engine v; cv_alarms := cv_alarms v ∖ {[ code ]} |}
  | _ => v
  end.
Definition replay (v : client_view) (es : list BusEvent) : client_view := foldl replay_one v es.

(** The row of the event log that goes with a message, by severity, type and note. *)
Definition row_view (r : EventRow) : string * string * option string := (ev_severity r, ev_type r, ev_meta r).
Definition announced (e : BusEvent) : option (string * string * option string) :=
  match e with
  | EvTransition _ _ _ => Some ("ok", "TRANSITION", None)%string
  | EvAlarm code _ severity _ => Some (severity, "ALARM"%string, Some (String.append "code " code))
  | EvAlarmCleared code _ _ => Some ("ok"%string, "ALARM"%string, Some (String.append "code " code))
  | EvComms _ to _ _ => Some (comms_severity to, "COMMS"%string, None)
  | EvLoadSource from to _ => (fun sm => (fst sm, "LOAD_SOURCE"%string, None)) <$> load_source_event from to
  | _ => None
  end.

(** What the back end holds of a client's view. *)
Definition held (st : StateMachine * Outbox) : client_view :=
  {| cv_engine := ss_engine_state (sm_snap (fst st)); cv_alarms := alarm_codes (ob_db (snd st)) |}.

(** A stage tells what it does: its messages replay to its effect, and each message
    has its row. *)
Definition told (st st' : StateMachine * Outbox) : Prop :=
  exists es rows,
    ob_emitted (snd st') = ob_emitted (snd st) ++ es /\
    db_events (ob_db (snd st')) = db_events (ob_db (snd st)) ++ rows /\
    held st' = replay (held st) es /\
    map row_view rows = omap announced es.

#[export] Instance told_preorder : PreOrder told.
Proof.
  split.
  - intros st. exists [], []. by rewrite !app_nil_r.
  - intros a b c (e1 & r1 & E1 & R1 & V1 & M1) (e2 & r2 & E2 & R2 & V2 & M2).
    exists (e1 ++ e2), (r1 ++ r2). rewrite E2, E1, R2, R1, !app_assoc, V2, V1, map_app, omap_app, M1, M2.
    split_and!; [done|done|unfold replay; by rewrite foldl_app|done].
Qed.

Lemma told_foldl {B} (g : StateMachine * Outbox -> B -> StateMachine * Outbox) l st :
  (forall st b, told st (g st b)) -> told st (foldl g st l).
Proof.
  intros Hg. revert st. induction l as [|b l IH]; intros st; [reflexivity|]. cbn.
  etransitivity; [apply Hg|apply IH].
Qed.

(** A change of what clients do not see. *)
Lemma told_silent m m' ob :
  ss_engine_state (sm_snap m') = ss_engine_state (sm_snap m) -> told (m, ob) (m', ob).
Proof. intros He. exists [], []. rewrite !app_nil_r. split_and!; try done. unfold held. cbn. by rewrite He. Qed.

(** The raise of an alarm that has no row, and the clear of one that has. *)
Lemma told_raise m m' ob now c de sev raw msg :
  ss_engine_state (sm_snap m') = ss_engine_state (sm_snap m) ->
  told (m, ob)
    (let '(raised, db1) := raise_alarm now c de sev raw (ob_db ob) in
     let ob1 := {| ob_db := db1; ob_emitted := ob_emitted ob |} in
     if raised then (m', emit (EvAlarm c de sev now)
                       (on_db (log_event now sev "ALARM" msg (Some (String.append "code " c))) ob1))
     else (m', ob1)).
Proof.
  intros He. pose proof (raise_alarm_codes now c de sev raw (ob_db ob)) as Hc.
  pose proof (raise_alarm_events now c de sev raw (ob_db ob)) as Hev.
  unfold raise_alarm in *. destruct (alarm_present c (ob_db ob)) eqn:Ep.
  - assert ({| ob_db := ob_db ob; ob_emitted := ob_emitted ob |} = ob) as -> by by destruct ob.
    by apply told_silent.
  - cbn [snd] in Hc, Hev. eexists [_], [_]. split_and!.
    + cbn. reflexivity.
    + cbn. reflexivity.
    + unfold held. cbn [replay foldl replay_one fst snd emit on_db ob_db cv_engine cv_alarms].
      rewrite log_event_codes, Hc, He. done.
    + done.
Qed.

Lemma told_clear m m' ob now c de msg :
  ss_engine_state (sm_snap m') = ss_engine_state (sm_snap m) ->
  told (m, ob)
    (let '(cleared, db1) := clear_alarm c (ob_db ob) in
     let ob1 := {| ob_db := db1; ob_emitted := ob_emitted ob |} in
     if cleared then (m', emit (EvAlarmCleared c de now)
                       (on_db (log_event now "ok" "ALARM" msg (Some (String.append "code " c))) ob1))
     else (m', ob1)).
Proof.
  intros He. pose proof (clear_alarm_codes c (ob_db ob)) as Hc. unfold clear_alarm in *. cbn [snd] in Hc.
  destruct (alarm_present c (ob_db ob)) eqn:Ep.
  - eexists [_], [_]. split_and!.
    + cbn. reflexivity.
    + cbn. reflexivity.
    + unfold held. cbn [replay foldl replay_one fst snd emit on_db ob_db cv_engine cv_alarms].
      rewrite log_event_codes, Hc, He. done.
    + done.
  - exists [], []. rewrite !app_nil_r. cbn [fst snd ob_emitted ob_db]. split_and!; try done.
    unfold held. cbn [fst snd ob_db replay foldl]. rewrite Hc, He. f_equal.
    assert (c ∉ alarm_codes (ob_db ob)) as Hn by (intros Hin; apply alarm_present_spec in Hin; congruence).
    set_solver.
Qed.

(** ** Every stage tells *)

Lemma raise_one_told now displayed ab st : told st (raise_one now displayed ab st).
Proof. destruct st as [m ob]. unfold raise_one. case_match; [reflexivity|]. by apply told_raise. Qed.

Lemma clear_one_told now raw code st : told st (clear_one now raw code st).
Proof. destruct st as [m ob]. unfold clear_one. case_match; [reflexivity|]. by apply told_clear. Qed.

Lemma numeric_raise_told now values e st : told st (numeric_raise now values e st).
Proof.
  destruct st as [m ob], e as [code [[sev reg] band]]. unfold numeric_raise.
  destruct (_ <? _); [reflexivity|]. destruct (od_mem _ _); [reflexivity|]. by apply told_raise.
Qed.

Lemma numeric_clear_told now active code st : told st (numeric_clear now active code st).
Proof. destruct st as [m ob]. unfold numeric_clear. case_match; [reflexivity|]. by apply told_clear. Qed.

Lemma step_engine_told now values st : told st (step_engine now values st).
Proof.
  destruct st as [m ob]. unfold step_engine. cbv zeta.
  destruct (_ =? ss_engine_state (sm_snap m))%string; [reflexivity|]. eexists [_], [_]. by split_and!.
Qed.

Lemma step_alarms_told now values st : told st (step_alarms now values st).
Proof.
  destruct st as [m ob]. unfold step_alarms. set (st2 := foldl _ (with_counts _ m, ob) _).
  assert (told (m, ob) st2) as H2.
  { etransitivity; [|apply told_foldl; intros; apply raise_one_told]. by apply told_silent. }
  set (cs := set_iter _). set (st3 := foldl _ st2 cs).
  assert (told (m, ob) st3) as H3 by (etransitivity; [exact H2|]; apply told_foldl; intros; apply clear_one_told).
  clearbody st3. destruct st3 as [m3 ob3]. etransitivity; [exact H3|]. by apply told_silent.
Qed.

Lemma step_numeric_told now values st : told st (step_numeric now values st).
Proof.
  destruct st as [m ob]. unfold step_numeric. destruct (rm_numeric_alarms_enabled _).
  - assert (told (m, ob) (check_numeric_ranges now values (m, ob))) as Hn.
    { unfold check_numeric_ranges. etransitivity; [|apply told_foldl; intros; apply numeric_clear_told].
      etransitivity; [|apply told_foldl; intros; apply numeric_raise_told]. by apply told_silent. }
    destruct (check_numeric_ranges now values (m, ob)) as [m1 ob1].
    etransitivity; [exact Hn|]. by apply told_silent.
  - by apply told_silent.
Qed.

Lemma step_comms_told now heap l st : told st (step_comms now heap l st).
Proof. destruct st as [m ob]. unfold step_comms. cbv zeta. case_match; [reflexivity|]. eexists [_], [_]. by split_and!. Qed.

Lemma step_load_source_told now ats values st : told st (step_load_source now ats values st).
Proof.
  destruct st as [m ob]. unfold step_load_source. cbv zeta.
  set (new := derive_load_source _ _ _ _). destruct (new =? _)%string; [reflexivity|].
  destruct (authoritative ats); [by apply told_silent|].
  destruct (load_source_event (ss_load_source (sm_snap m)) new) as [[sev msg]|] eqn:E.
  - eexists [_], [_]. split_and!; [done|done|done|]. cbn [omap list_omap map announced]. by rewrite E.
  - eexists [_], []. split_and!; [done|by rewrite app_nil_r|done|]. cbn [omap list_omap map announced]. by rewrite E.
Qed.

Lemma disagree_told now ats values st : told st (check_loadsource_disagreement now ats values st).
Proof.
  assert (forall reason st, told st (disagree_reset now reason st)) as Hreset.
  { intros reason [m ob]. unfold disagree_reset. destruct (sm_loadsource_disagree_raised m).
    - assert (told (m, ob) (emit_disagree_clear now reason (m, ob))) as Hc by by apply told_clear.
      destruct (emit_disagree_clear now reason (m, ob)) as [m1 ob1]. etransitivity; [exact Hc|]. by apply told_silent.
    - by apply told_silent. }
  destruct st as [m ob]. unfold check_loadsource_disagreement.
  repeat case_match; try apply Hreset; try reflexivity; try (by apply told_silent).
  all: etransitivity; [|by apply told_raise]; by apply told_silent.
Qed.

Lemma update_told now heap ats reading l st : told st (update now heap ats reading l st).
Proof.
  unfold update. set (values := rd_values reading).
  assert (forall st, told st (step_panel values st)) as Hp by (intros [m ob]; by apply told_silent).
  assert (forall st, told st (step_finish reading l st)) as Hf by (intros [m ob]; by apply told_silent).
  etransitivity; [apply (step_engine_told now values)|].
  etransitivity; [apply (step_alarms_told now values)|].
  etransitivity; [apply (step_numeric_told now values)|].
  etransitivity; [apply (step_comms_told now heap l)|].
  etransitivity; [apply Hp|].
  etransitivity; [apply (step_load_source_told now ats values)|].
  etransitivity; [apply (disagree_told now ats values)|]. apply Hf.
Qed.

Theorem bus_tells_state now heap ats reading l m d :
  let st' := update now heap ats reading l (m, outbox_of d) in
  let es := ob_emitted (snd st') in
  replay {| cv_engine := ss_engine_state (sm_snap m); cv_alarms := alarm_codes d |} es =
    {| cv_engine := ss_engine_state (sm_snap (fst st')); cv_alarms := alarm_codes (ob_db (snd st')) |} /\
  exists rows, db_events (ob_db (snd st')) = db_events d ++ rows /\ map row_view rows = omap announced es.
Proof.
  cbv zeta. destruct (update_told now heap ats reading l (m, outbox_of d)) as (es & rows & He & Hr & Hv & Hm).
  cbn [outbox_of snd ob_emitted ob_db app] in He, Hr. rewrite He. split; [by symmetry|by exists rows].
Qed.

(** ** Both callbacks, over any run of polls

    The clock-skew alarm is the one row the back end changes without a message, so
    views are compared without it. *)

Definition norm (v : client_view) : client_view :=
  {| cv_engine := cv_engine v; cv_alarms := cv_alarms v ∖ {[ SKEW_CODE ]} |}.

Lemma norm_eq v v' :
  norm v = norm v' <-> cv_engine v = cv_engine v' /\ cv_alarms v ∖ {[ SKEW_CODE ]} = cv_alarms v' ∖ {[ SKEW_CODE ]}.
Proof. unfold norm. split; [by intros [=]|by intros [-> ->]]. Qed.

Lemma replay_norm es v v' : norm v = norm v' -> norm (replay v es) = norm (replay v' es).
Proof.
  revert v v'. induction es as [|e es IH]; intros v v' Hv; [done|]. cbn. apply IH.
  apply norm_eq in Hv as [He Ha]. destruct e; cbn; apply norm_eq; cbn; split; try done; set_solver.
Qed.

Definition ats_told (ob ob' : Outbox) : Prop :=
  exists es, ob_emitted ob' = ob_emitted ob ++ es /\
    forall engine, norm (replay {| cv_engine := engine; cv_alarms := alarm_codes (ob_db ob) |} es) =
                   norm {| cv_engine := engine; cv_alarms := alarm_codes (ob_db ob') |}.

#[export] Instance ats_told_preorder : PreOrder ats_told.
Proof.
  split.
  - intros ob. exists []. by rewrite app_nil_r.
  - intros a b c (e1 & E1 & V1) (e2 & E2 & V2). exists (e1 ++ e2). rewrite E2, E1, app_assoc. split; [done|].
    intros engine. rewrite <- V2. unfold replay at 1. rewrite foldl_app. by apply (replay_norm e2), V1.
Qed.

Definition quiet_event (e : BusEvent) : bool :=
  match e with EvTransition _ _ _ | EvAlarm _ _ _ _ | EvAlarmCleared _ _ _ => false | _ => true end.

Lemma emit_event_told now sev ty msg meta e ob :
  quiet_event e = true -> ats_told ob (emit_event now sev ty msg meta e ob).
Proof. intros He. exists [e]. split; [done|]. intros engine. by destruct e. Qed.

Ltac ats_told_tac :=
  repeat match goal with
  | |- ats_told ?ob ?ob => reflexivity
  | |- ats_told _ (if ?b then _ else _) => destruct b
  | |- ats_told _ (match ?x with Some _ => _ | None => _ end) => destruct x
  | |- ats_told _ (let '(_, _) := ?p in _) => destruct p as [[? ?] ?]
  | |- ats_told _ (emit_event _ _ _ _ _ _ _) => by apply emit_event_told
  end.

Lemma fault_raise_told now rm ob c : ats_told ob (fault_raise now rm ob c).
Proof.
  exists [EvAlarm c (alarm_desc rm c) "warn" now]. split.
  - unfold fault_raise, emit_event. cbn. done.
  - intros engine. unfold fault_raise, emit_event. cbn [replay foldl replay_one cv_engine cv_alarms emit on_db ob_db].
    by rewrite log_event_codes, raise_alarm_codes.
Qed.
Lemma fault_clear_told now rm ob c : ats_told ob (fault_clear now rm ob c).
Proof.
  exists [EvAlarmCleared c (alarm_desc rm c) now]. split; [done|].
  intros engine. unfold fault_clear, emit_event. cbn [replay foldl replay_one cv_engine cv_alarms emit on_db ob_db].
  by rewrite log_event_codes, clear_alarm_codes.
Qed.

Lemma ats_told_foldl {B} (g : Outbox -> B -> Outbox) l ob :
  (forall ob b, ats_told ob (g ob b)) -> ats_told ob (foldl g ob l).
Proof.
  intros Hg. revert ob. induction l as [|b l IH]; intros ob; [reflexivity|]. cbn. etransitivity; [apply Hg|apply IH].
Qed.

Lemma step_skew_told now w active ob : ats_told ob (snd (step_skew now w active ob)).
Proof.
  unfold step_skew. destruct w as [w|]; [|reflexivity]. cbv zeta.
  destruct (_ && _); [|destruct (_ && _); [|reflexivity]]; exists []; cbn [snd on_db ob_emitted ob_db];
    (split; [by rewrite app_nil_r|]); intros engine; apply norm_eq; cbn [replay foldl cv_engine cv_alarms];
    (split; [done|]); rewrite ?raise_alarm_codes, ?clear_alarm_codes; unfold SKEW_CODE; set_solver.
Qed.

Lemma position_told (b : bool) now old new ob : ats_told ob (if b then ob else emit_position now old new ob).
Proof. unfold emit_position. ats_told_tac. Qed.
Lemma step_source_told now src prev new ob : ats_told ob (step_source now src prev new ob).
Proof. unfold step_source, emit_source. ats_told_tac. Qed.
Lemma step_mode_told now old new ob : ats_told ob (step_mode now old new ob).
Proof. unfold step_mode. ats_told_tac. Qed.
Lemma cmd_edge_told now mono w c lbl was nw ob : ats_told ob (cmd_edge now mono w c lbl was nw ob).
Proof. unfold cmd_edge. ats_told_tac. Qed.
Lemma step_reboot_told now p u ob : ats_told ob (step_reboot now p u ob).
Proof. unfold step_reboot. ats_told_tac. Qed.

Lemma ats_update_told now mono heap t reading l a ob :
  ats_told ob (snd (ats_update now mono heap t reading l a ob)).
Proof.
  unfold ats_update. set (v := rd_values reading). set (new := decode_snapshot _ _ _ _ _ _).
  set (ob4 := step_mode _ _ _ _). set (ob5 := step_faults _ _ _ _ _). set (ob7 := step_reboot _ _ _ _).
  assert (ats_told ob ob4) as H4.
  { subst ob4. etransitivity; [|apply step_mode_told]. do 2 (etransitivity; [|apply step_source_told]).
    apply position_told. }
  assert (ats_told ob4 ob5) as H5.
  { subst ob5. unfold step_faults. etransitivity; [|apply ats_told_foldl; intros; apply fault_clear_told].
    apply ats_told_foldl. intros. apply fault_raise_told. }
  assert (ats_told ob5 ob7) as H7.
  { subst ob7. etransitivity; [|apply step_reboot_told]. unfold check_maintained_cmd_edges. cbv zeta.
    destruct (_ =? 0); [reflexivity|]. etransitivity; apply cmd_edge_told. }
  pose proof (step_skew_told now (epoch_or_none (v !! "ats_pi_wallclock"%string)) (as_time_skew_alarm_active a) ob7) as H8.
  destruct (step_skew _ _ _ _) as [skew ob8]. cbn [snd] in H8.
  assert (ats_told ob8 (step_ats_comms now heap (at_comms (as_snap a)) l ob8)) as H9.
  { unfold step_ats_comms. cbv zeta. destruct (ch_state (comms_at heap l) =? _)%string; [reflexivity|].
    eexists [_]. by split. }
  set (ob9 := step_ats_comms _ _ _ _ _) in *.
  assert (ats_told ob9 (snd (step_icd now (fst (at_icd_version new)) (snd (at_icd_version new))
            (as_icd_version_validated a) ob9))) as H10.
  { unfold step_icd, validate_icd_version. destruct (_ && _); cbn [snd]; ats_told_tac. }
  destruct (step_icd _ _ _ _ _) as [validated ob10]. cbn [snd] in *.
  do 5 (etransitivity; [eassumption|]). exact H10.
Qed.

(** A run of polls of either device. *)
Inductive live_op : Type := GenPoll (pe : poll_event) | AtsPoll (pe : poll_event).
Definition live_step (use_ats : bool) (throttle : Z) (lv : Live) (op : live_op) : Live :=
  match op with GenPoll pe => on_poll use_ats throttle pe lv | AtsPoll pe => ats_on_poll pe lv end.
(** The view the back end would serve a client that asks for it now. *)
Definition served (lv : Live) : client_view :=
  {| cv_engine := ss_engine_state (sm_snap (lv_sm lv)); cv_alarms := alarm_codes (lv_db lv) |}.

(** The messages an unsuspended callback publishes. *)
Definition live_messages (use_ats : bool) (throttle : Z) (lv : Live) (op : live_op) : list BusEvent :=
  match op with
  | GenPoll pe =>
      let view := if use_ats then Some (ats_view (pe_heap pe) (lv_ats lv)) else None in
      (if push_due throttle pe lv then [EvSnapshot (rd_ts (pe_reading pe))] else []) ++
      ob_emitted (snd (update (pe_now pe) (pe_heap pe) view (pe_reading pe) (pe_comms pe)
                         (lv_sm lv, outbox_of (lv_db lv))))
  | AtsPoll pe =>
      ob_emitted (snd (ats_update (pe_now pe) (pe_mono pe) (pe_heap pe) (pe_tier pe) (pe_reading pe) (pe_comms pe)
                         (lv_ats lv) (outbox_of (lv_db lv))))
  end.

(** A step publishes messages that replay to its change of what is served. *)
Lemma live_step_told use_ats throttle lv op :
  lv_bus (live_step use_ats throttle lv op) = publish_all (live_messages use_ats throttle lv op) (lv_bus lv) /\
  norm (replay (served lv) (live_messages use_ats throttle lv op)) = norm (served (live_step use_ats throttle lv op)).
Proof.
  destruct op as [pe|pe]; cbn [live_step live_messages].
  - unfold on_poll. set (view := if use_ats then _ else _).
    destruct (update_told (pe_now pe) (pe_heap pe) view (pe_reading pe) (pe_comms pe) (lv_sm lv, outbox_of (lv_db lv)))
      as (es & rows & He & _ & Hv & _). cbn [outbox_of snd ob_emitted app] in He.
    destruct (update _ _ _ _ _ _) as [m ob]. cbn [snd] in *. subst es.
    split; [done|]. unfold held in Hv. cbn [fst snd outbox_of ob_db] in Hv.
    assert (forall es, replay (served lv) ((if push_due throttle pe lv then [EvSnapshot (rd_ts (pe_reading pe))] else []) ++ es)
                       = replay (served lv) es) as -> by (intros es; by destruct (push_due _ _ _)).
    unfold served at 1. rewrite <- Hv. unfold served. cbn [lv_sm lv_db].
    by destruct (pe_tier pe =? "base")%string.
  - unfold ats_on_poll.
    destruct (ats_update_told (pe_now pe) (pe_mono pe) (pe_heap pe) (pe_tier pe) (pe_reading pe) (pe_comms pe)
      (lv_ats lv) (outbox_of (lv_db lv))) as (es & He & Hv). cbn [outbox_of ob_emitted app ob_db] in He, Hv.
    destruct (ats_update _ _ _ _ _ _ _ _) as [a ob]. cbn [snd] in *. subst es.
    split; [done|]. apply Hv.
Qed.

Lemma publish_gone es b q : bus_subs b !! q = None -> bus_subs (publish_all es b) !! q = None.
Proof.
  revert b. induction es as [|e es IH]; intros b Hq; [done|]. cbn. apply IH. by rewrite publish_lookup, Hq.
Qed.

End system.
