(* ===== verification/Boot.v ===== *)
(** * Start-up (main.py, [lifespan])

    From the files, the environment and the two links to the running server: the
    settings, the secret gates, the register maps, the choice and connection of the
    Modbus clients, and the assembly of the services.  [dial] stands for awaiting the
    [connect] of a pymodbus client, [db_open] for opening the SQLite file,
    [ephemeral] for [secrets.token_hex(32)].

    Theorems: what a successful start guarantees; that it does not depend on whether the
    controllers answer; which settings it ignores; that a broken companion map stops it;
    and that every write of the API, from any start on, was paid for by a grant. *)

From S2P Require Import Prelude PyNum PyVal Registers RegisterFacts RegisterValidation ShippedMaps Loader Client Poller Database DatabaseFacts Events StateMachine Ats Control ControlFacts AtsControl RateLimit Slack Notify Http Config SettingsApi SettingsFacts Api Interlock Routes System.

Local Open Scope Z_scope.
Local Open Scope gw_scope.

(** ** The clients *)

Record tcp_params : Type := {
  tp_host : string; tp_port : Z; tp_framer : string; tp_timeout_s : pyfloat; tp_connect_timeout_s : pyfloat;
  tp_slave : Z; tp_cfg : client_cfg
}.
Record serial_params : Type := {
  sp_device : string; sp_baud : Z; sp_parity : string; sp_stopbits : Z; sp_bytesize : Z; sp_timeout_s : pyfloat;
  sp_slave : Z; sp_cfg : client_cfg
}.
Inductive modbus_client : Type :=
| MockModbusClient (rm : RegisterMap)
| TcpRtuClient (p : tcp_params)
| SerialClient (p : serial_params).

(** "Choose client implementation" *)
Definition choose_client (s : Settings) (rm : RegisterMap) : modbus_client :=
  let cfg := mk_client_cfg true (rm_retries rm) (rm_backoff_s rm) in
  if st_mock s then MockModbusClient rm
  else if (st_transport s =? "tcp")%string
  then let t := st_modbus_tcp s in
       TcpRtuClient {| tp_host := tc_host t; tp_port := tc_port t; tp_framer := tc_framer t;
                       tp_timeout_s := tc_timeout_s t; tp_connect_timeout_s := tc_connect_timeout_s t;
                       tp_slave := rm_slave rm; tp_cfg := cfg |}
  else let c := st_serial s in
       SerialClient {| sp_device := sc_device c; sp_baud := sc_baud c; sp_parity := sc_parity c;
                       sp_stopbits := sc_stopbits c; sp_bytesize := sc_bytesize c; sp_timeout_s := sc_timeout_s c;
                       sp_slave := rm_slave rm; sp_cfg := cfg |}.

(** The client of the companion takes its slave address from the settings. *)
Definition ats_client_of (x : AtsConfig) (rm : RegisterMap) : modbus_client :=
  TcpRtuClient {| tp_host := xc_host x; tp_port := xc_port x; tp_framer := xc_framer x;
                  tp_timeout_s := xc_timeout_s x; tp_connect_timeout_s := xc_connect_timeout_s x;
                  tp_slave := xc_slave x; tp_cfg := mk_client_cfg true (rm_retries rm) (rm_backoff_s rm) |}.

Inductive boot_error : Type :=
| BadConfig (e : pyexc)
| Refused (e : start_error)
| BadRegisterMap (path : string) (e : pyexc)
| NoDatabase (e : pyexc)
| ConnectRaised (type_name : string)
| MockUnconnected.

(** What pymodbus is asked for: the constructors of its clients with their arguments. *)
Inductive framer_type : Type := FramerRTU | FramerSocket.
Inductive pymodbus_client : Type :=
| AsyncModbusTcpClient (host : string) (port : Z) (framer : framer_type) (timeout : pyfloat)
| AsyncModbusSerialClient (port : string) (baudrate : Z) (parity : string) (stopbits bytesize : Z) (timeout : pyfloat).

(** Awaiting the [connect] of a pymodbus client, within a time where one is given
    ([asyncio.wait_for]). *)
Class Dialer (W : Type) : Type := { dial : pymodbus_client -> option pyfloat -> W -> Client.outcome * bool * W }.

(** [_build_client]: any framer but "rtu" is Modbus TCP's. *)
Definition build_client (p : tcp_params) : pymodbus_client :=
  AsyncModbusTcpClient (tp_host p) (tp_port p) (if (tp_framer p =? "rtu")%string then FramerRTU else FramerSocket) (tp_timeout_s p).
Definition build_serial_client (p : serial_params) : pymodbus_client :=
  AsyncModbusSerialClient (sp_device p) (sp_baud p) (sp_parity p) (sp_stopbits p) (sp_bytesize p) (sp_timeout_s p).

Section connect.
Context {W : Type} `{Dialer W}.

(** The [connect] methods: the TCP client turns a timeout into [False]; any other
    exception, and every one of the serial client's, leaves the method. *)
Definition tcp_connect (p : tcp_params) : SE W boot_error bool := fun w =>
  match dial (build_client p) (Some (tp_connect_timeout_s p)) w with
  | (Responded _, ok, w') => (inr ok, w')
  | (TimedOut, _, w') => (inr false, w')
  | (Raised ty, _, w') => (inl (ConnectRaised ty), w')
  end.

Definition serial_connect (p : serial_params) : SE W boot_error bool := fun w =>
  match dial (build_serial_client p) None w with
  | (Responded _, ok, w') => (inr ok, w')
  | (TimedOut, _, w') => (inl (ConnectRaised "TimeoutError"), w')
  | (Raised ty, _, w') => (inl (ConnectRaised ty), w')
  end.

Definition connect (c : modbus_client) : SE W boot_error bool :=
  match c with
  | MockModbusClient _ => se_ret true
  | TcpRtuClient p => tcp_connect p
  | SerialClient p => serial_connect p
  end.

(** The [close] methods drop the pymodbus client: every later call answers
    "not_connected". *)
Definition client_close (c : client_cfg) : client_cfg :=
  {| cl_present := false; cl_retries := cl_retries c; cl_backoff_s := cl_backoff_s c |}.
End connect.

(** ** The running program *)

Record companion : Type := { cp_client : modbus_client; cp_connected : bool; cp_poller : Poller }.

Record Running (W T : Type) : Type := {
  ru_server : Server W T;              (* app.state as the routes see it *)
  ru_client : modbus_client;
  ru_connected : bool;
  ru_companion : option companion;
  ru_bus : EventBus;
  ru_last_push : Z;
  ru_throttle : Z;                     (* push_throttle_s *)
  ru_ticker : option (Z * watchdog_env); (* the sd_notify ticker and its period *)
  ru_started_at : Z
}.
Arguments ru_server {W T}. Arguments ru_client {W T}. Arguments ru_connected {W T}. Arguments ru_companion {W T}.
Arguments ru_bus {W T}. Arguments ru_last_push {W T}. Arguments ru_throttle {W T}. Arguments ru_ticker {W T}.
Arguments ru_started_at {W T}.

Definition with_secret (secret : string) (s : Settings) : Settings :=
  let a := st_auth s in
  {| st_data_dir := st_data_dir s; st_config_path := st_config_path s; st_mock := st_mock s;
     st_transport := st_transport s; st_serial := st_serial s; st_modbus_tcp := st_modbus_tcp s;
     st_modbus := st_modbus s; st_retention := st_retention s;
     st_auth := {| ac_admin_password_hash := ac_admin_password_hash a; ac_operator_name := ac_operator_name a;
                   ac_jwt_secret := secret; ac_session_hours := ac_session_hours a;
                   ac_cookie_secure := ac_cookie_secure a; ac_cookie_samesite := ac_cookie_samesite a |};
     st_slack := st_slack s; st_ats := st_ats s; st_ws_push_ms := st_ws_push_ms s;
     st_cors_origins := st_cors_origins s |}.

Definition boot_mode (s : Settings) : string :=
  if st_mock s then "mock"
  else if (st_transport s =? "tcp")%string
  then "live · tcp " +:+ tc_host (st_modbus_tcp s) +:+ ":" +:+ str_Z (tc_port (st_modbus_tcp s))
  else "live · serial " +:+ sc_device (st_serial s).

(** The ticker runs when WATCHDOG_USEC gives a positive interval. *)
Definition ticker_of (usec : option Z) (start : Z) (rm : RegisterMap) : option (Z * watchdog_env) :=
  match watchdog_interval_s usec with
  | Some i => if 0 <? i
              then let tick := watchdog_tick_s i in
                   Some (tick, {| we_start := start; we_stale := stale_after_s tick (rm_prime_poll_ms rm) |})
              else None
  | None => None
  end.

(** Where the comms records live: the state machine's own default, the poller's, the
    companion service's own default, its poller's. *)
Definition comms_sm : nat := 0.
Definition comms_poller : nat := 1.
Definition comms_ats : nat := 2.
Definition comms_ats_poller : nat := 3.

Section boot.
Context {W T : Type} `{Dialer W} `{Clock W} {P : Pydantic} `{SettingsMerge}.
Variables (yaml_load : T -> res pyval) (db_open : string -> res Database).
Variables (env : pydict) (mkdir : string -> bool) (cwd pkg version ephemeral : string) (usec : option Z).

Definition lift {A} (f : pyexc -> boot_error) (r : res A) : SE W boot_error A := fun w =>
  match r with inl e => (inl (f e), w) | inr a => (inr a, w) end.

(** A register file, resolved against the package directory, loaded. *)
Definition boot_map (fs : gmap string T) (file : string) : SE W boot_error RegisterMap :=
  let path := resolve_register_file pkg (fun p => bool_decide (is_Some (fs !! p))) file in
  lift (BadRegisterMap path)
    match fs !! path with
    | Some t => v <-? yaml_load t ;; load_register_map path v
    | None => inl OSError
    end.

(** The settings the server runs with: loaded, past the gates, with the secret in use. *)
Definition boot_settings (config_path : option string) (fs : gmap string T) : SE W boot_error Settings :=
  s <-- lift BadConfig (load (fun p => yaml_load <$> fs !! p) env mkdir cwd config_path) ;;
  match secret_gates (st_mock s) ephemeral (st_auth s) with
  | inl e => raise (Refused e)
  | inr secret => se_ret (with_secret secret s)
  end.

(** The companion, when it is enabled: its map, its client, and whether it connected. *)
Definition boot_companion (s : Settings) (fs : gmap string T) : SE W boot_error (option (RegisterMap * companion)) :=
  if xc_enabled (st_ats s) then
    rm <-- boot_map fs (xc_register_file (st_ats s)) ;;
    let client := ats_client_of (st_ats s) rm in
    connected <-- connect client ;;
    w <-- gets id ;;
    se_ret (Some (rm, {| cp_client := client; cp_connected := connected; cp_poller := Poller_init rm (wall_clock w) |}))
  else se_ret None.

(** The services over the opened database.  Without a companion the ATS service of the
    record is a placeholder no route and no callback reaches. *)
Definition boot_sys (s : Settings) (rm : RegisterMap) (ats : option (RegisterMap * companion)) (db : Database) (w : W) : Sys W :=
  let now := wall_clock w in
  let ats_rm := match ats with Some (a, _) => a | None => rm end in
  {| sy_regmap := rm; sy_tokens := []; 
     sy_db := snd (write_event now "info" "BOOT" ("Castle Generator Monitor v" +:+ version +:+ " starting") (Some (boot_mode s)) db);
     sy_sm := StateMachine_init rm comms_sm now;
     sy_heap := {[ comms_sm := CommsHealth_default 1500; comms_poller := CommsHealth_default (rm_prime_poll_ms rm);
                   comms_ats := CommsHealth_default 1500; comms_ats_poller := CommsHealth_default (rm_prime_poll_ms ats_rm) ]};
     sy_ats := AtsService_init ats_rm (xc_expected_unit_id (st_ats s)) comms_ats;
     sy_ats_regmap := ats_rm; sy_slack := true; sy_alerts := []; sy_world := w |}.

(** From the settings on: client, database, companion, services. *)
Definition boot_server (fs : gmap string T) (service_start_mono : Z) (s : Settings) : SE W boot_error (Running W T) :=
  rm <-- boot_map fs (mc_register_file (st_modbus s)) ;;
  db <-- lift NoDatabase (db_open (db_path s)) ;;
  let client := choose_client s rm in
  connected <-- connect client ;;
  if negb connected && st_mock s then raise MockUnconnected
  else
    ats <-- boot_companion s fs ;;
    w <-- gets id ;;
    let app := {| ap_sys := boot_sys s rm ats db w; ap_poller := Poller_init rm (wall_clock w);
                  ap_comms_ref := comms_poller;
                  ap_slack := slack_start (SlackNotifier_init (st_slack s) (site_name (rm_site rm)));
                  ap_settings := s; ap_regmap := rm; ap_fs := fs |} in
    se_ret {| ru_server := {| sv_app := app; sv_logins := login_limiter; sv_commands := command_limiter |};
              ru_client := client; ru_connected := connected; ru_companion := snd <$> ats;
              ru_bus := EventBus_init; ru_last_push := 0; ru_throttle := Z.max 0 (msec (st_ws_push_ms s));
              ru_ticker := ticker_of usec service_start_mono rm; ru_started_at := wall_clock w |}.

Definition lifespan (config_path : option string) (fs : gmap string T) : SE W boot_error (Running W T) :=
  w0 <-- gets id ;;
  s <-- boot_settings config_path fs ;;
  boot_server fs (mono_clock w0) s.
End boot.

(** The end of [lifespan]: the pollers stop, the notifier drops its worker and its
    retries, the event is logged. *)
Definition shutdown {W T} (now : Z) (r : Running W T) : Running W T :=
  let sv := ru_server r in
  let app := sv_app sv in
  {| ru_server := {| sv_app := {| ap_sys := set_db (snd (write_event now "info" "BOOT" "Castle Generator Monitor stopped" None
                                                           (sy_db (ap_sys app)))) (ap_sys app);
                                  ap_poller := ap_poller app; ap_comms_ref := ap_comms_ref app;
                                  ap_slack := slack_stop (ap_slack app); ap_settings := ap_settings app;
                                  ap_regmap := ap_regmap app; ap_fs := ap_fs app |};
                     sv_logins := sv_logins sv; sv_commands := sv_commands sv |};
     ru_client := ru_client r; ru_connected := false; ru_companion := ru_companion r; ru_bus := ru_bus r;
     ru_last_push := ru_last_push r; ru_throttle := ru_throttle r; ru_ticker := None; ru_started_at := ru_started_at r |}.

(** ** What start-up decides without the links *)

(** The files and the environment alone: the settings in use, the two maps, the
    database. *)
Record plan : Type := { pl_settings : Settings; pl_map : RegisterMap; pl_db : Database; pl_ats_map : option RegisterMap }.

Section plan.
Context {W T : Type} {P : Pydantic} `{SettingsMerge}.
Variables (yaml_load : T -> res pyval) (db_open : string -> res Database).
Variables (env : pydict) (mkdir : string -> bool) (cwd pkg ephemeral : string).

Definition tag {A} (f : pyexc -> boot_error) (r : res A) : boot_error + A :=
  match r with inl e => inl (f e) | inr a => inr a end.
Definition e_bind {A B} (m : boot_error + A) (k : A -> boot_error + B) : boot_error + B :=
  match m with inl e => inl e | inr a => k a end.

Definition map_at (fs : gmap string T) (file : string) : boot_error + RegisterMap :=
  let path := resolve_register_file pkg (fun p => bool_decide (is_Some (fs !! p))) file in
  tag (BadRegisterMap path)
    match fs !! path with
    | Some t => v <-? yaml_load t ;; load_register_map path v
    | None => inl OSError
    end.

Definition start_plan (config_path : option string) (fs : gmap string T) : boot_error + plan :=
  e_bind (tag BadConfig (load (fun p => yaml_load <$> fs !! p) env mkdir cwd config_path)) (fun s0 =>
  e_bind (match secret_gates (st_mock s0) ephemeral (st_auth s0) with
          | inl e => inl (Refused e) | inr secret => inr (with_secret secret s0) end) (fun s =>
  e_bind (map_at fs (mc_register_file (st_modbus s))) (fun rm =>
  e_bind (tag NoDatabase (db_open (db_path s))) (fun db =>
  e_bind (if xc_enabled (st_ats s) then e_bind (map_at fs (xc_register_file (st_ats s))) (fun a => inr (Some a))
          else inr None) (fun ats =>
  inr {| pl_settings := s; pl_map := rm; pl_db := db; pl_ats_map := ats |}))))).
End plan.

(** A controller that may be absent, silent or refuse, but whose connect does not raise. *)
Definition answers {W} (D : Dialer W) : Prop := forall c within w,
  match dial c within w with
  | (Responded _, _, _) => True
  | (TimedOut, _, _) => match within with Some _ => True | None => False end
  | (Raised _, _, _) => False
  end.

(** The server a plan leads to. *)
Definition plan_companion {W} `{Clock W} (pl : plan) (connected : bool) (w : W) : option (RegisterMap * companion) :=
  match pl_ats_map pl with
  | Some a => Some (a, {| cp_client := ats_client_of (st_ats (pl_settings pl)) a; cp_connected := connected;
                          cp_poller := Poller_init a (wall_clock w) |})
  | None => None
  end.
Definition plan_running {W T} `{Clock W} (version : string) (usec : option Z) (fs : gmap string T) (start : Z)
    (pl : plan) (connected ats_connected : bool) (w : W) : Running W T :=
  let s := pl_settings pl in
  let rm := pl_map pl in
  let ats := plan_companion pl ats_connected w in
  {| ru_server := {| sv_app := {| ap_sys := boot_sys version s rm ats (pl_db pl) w; ap_poller := Poller_init rm (wall_clock w);
                                  ap_comms_ref := comms_poller;
                                  ap_slack := slack_start (SlackNotifier_init (st_slack s) (site_name (rm_site rm)));
                                  ap_settings := s; ap_regmap := rm; ap_fs := fs |};
                     sv_logins := login_limiter; sv_commands := command_limiter |};
     ru_client := choose_client s rm; ru_connected := connected; ru_companion := snd <$> ats;
     ru_bus := EventBus_init; ru_last_push := 0; ru_throttle := Z.max 0 (msec (st_ws_push_ms s));
     ru_ticker := ticker_of usec start rm; ru_started_at := wall_clock w |}.

(** ** Lemmas *)

Section facts.
Context {W T : Type} `{Clock W} {P : Pydantic} `{SettingsMerge}.
Variables (yaml_load : T -> res pyval) (db_open : string -> res Database).
Variables (env : pydict) (mkdir : string -> bool) (cwd pkg version ephemeral : string) (usec : option Z).
Implicit Types (fs : gmap string T) (w : W).

Abbreviation start D := (@lifespan W T D _ P _ yaml_load db_open env mkdir cwd pkg version ephemeral usec).
Abbreviation plan_of := (start_plan yaml_load db_open env mkdir cwd pkg ephemeral).

Lemma boot_map_run fs file w :
  boot_map yaml_load pkg fs file w = (map_at yaml_load pkg fs file, w).
Proof. unfold boot_map, map_at, lift, tag. by case_match. Qed.

Lemma boot_settings_run cp fs w :
  boot_settings (W := W) yaml_load env mkdir cwd ephemeral cp fs w =
  (e_bind (tag BadConfig (load (fun p => yaml_load <$> fs !! p) env mkdir cwd cp)) (fun s0 =>
     match secret_gates (st_mock s0) ephemeral (st_auth s0) with
     | inl e => inl (Refused e) | inr secret => inr (with_secret secret s0) end), w).
Proof.
  unfold boot_settings, se_bind, lift, tag, e_bind. destruct (load _ _ _ _ _) as [e|s]; [done|]. by case_match.
Qed.

Lemma connect_mock {D : Dialer W} rm w : connect (MockModbusClient rm) w = (inr true, w).
Proof. done. Qed.
Lemma connect_answers {D : Dialer W} c w : answers D -> exists ok w', connect c w = (inr ok, w').
Proof.
  intros Ha. destruct c as [rm|p|p]; cbn; [by exists true, w| |].
  - specialize (Ha (build_client p) (Some (tp_connect_timeout_s p)) w). unfold tcp_connect.
    destruct (dial _ _ w) as [[[rr| |ty] ok] w1]; try done; by eauto.
  - specialize (Ha (build_serial_client p) None w). unfold serial_connect.
    destruct (dial _ _ w) as [[[rr| |ty] ok] w1]; try done; by eauto.
Qed.

Lemma companion_run {D : Dialer W} s fs w :
  answers D -> exists ok w', boot_companion yaml_load pkg s fs w =
    (match (if xc_enabled (st_ats s) then e_bind (map_at yaml_load pkg fs (xc_register_file (st_ats s))) (fun a => inr (Some a))
            else inr None) with
     | inl e => inl e
     | inr m => inr ((fun a => (a, {| cp_client := ats_client_of (st_ats s) a; cp_connected := ok;
                                     cp_poller := Poller_init a (wall_clock w') |})) <$> m)
     end, w').
Proof.
  intros Ha. unfold boot_companion. destruct (xc_enabled _); [|by exists false, w].
  unfold se_bind at 1. rewrite boot_map_run. destruct (map_at _ _ _ _) as [e|a]; cbn [e_bind]; [by exists false, w|].
  destruct (connect_answers (ats_client_of (st_ats s) a) w Ha) as (ok & w1 & E).
  unfold se_bind, gets, se_ret. rewrite E. by exists ok, w1.
Qed.

(** When nothing raises, start-up is its plan. *)
Lemma start_run D cp fs w :
  answers D -> exists c a w',
    start D cp fs w = (match plan_of cp fs with
                       | inl e => inl e
                       | inr pl => inr (plan_running version usec fs (mono_clock w) pl c a w')
                       end, w').
Proof.
  intros Ha. unfold lifespan, start_plan. rewrite se_bind_gets. unfold se_bind at 1. rewrite boot_settings_run.
  destruct (tag BadConfig _) as [e|s0]; cbn [e_bind]; [by exists false, false, w|].
  destruct (secret_gates _ _ _) as [e|secret]; [by exists false, false, w|]. cbn [e_bind].
  set (s := with_secret secret s0). unfold boot_server, se_bind at 1. rewrite boot_map_run.
  destruct (map_at _ _ _ _) as [e|rm]; cbn [e_bind]; [by exists false, false, w|].
  unfold se_bind at 1, lift at 1, tag at 1. destruct (db_open _) as [e|db]; cbn [e_bind]; [by exists false, false, w|].
  destruct (connect_answers (choose_client s rm) w Ha) as (ok & w1 & E).
  unfold se_bind at 1. rewrite E.
  assert (negb ok && st_mock s = false) as ->.
  { unfold choose_client in E. destruct (st_mock s); [|by rewrite andb_false_r].
    rewrite connect_mock in E. by injection E as <- _. }
  destruct (companion_run s fs w1 Ha) as (aok & w2 & E2). unfold se_bind at 1. rewrite E2.
  exists ok, aok, w2. destruct (xc_enabled (st_ats s)); [|done].
  by destruct (map_at _ _ _ _).
Qed.

Lemma companion_ok {D : Dialer W} s fs w ats w' :
  boot_companion yaml_load pkg s fs w = (inr ats, w') ->
  exists m ok, (if xc_enabled (st_ats s) then e_bind (map_at yaml_load pkg fs (xc_register_file (st_ats s))) (fun a => inr (Some a))
                else inr None) = inr m /\
    ats = (fun a => (a, {| cp_client := ats_client_of (st_ats s) a; cp_connected := ok;
                           cp_poller := Poller_init a (wall_clock w') |})) <$> m.
Proof.
  unfold boot_companion. destruct (xc_enabled _); [|by intros [= <- _]; exists None, false].
  unfold se_bind at 1. rewrite boot_map_run. destruct (map_at _ _ _ _) as [e|a]; cbn [e_bind]; [done|].
  unfold se_bind, gets, se_ret. destruct (connect _ w) as [[e|ok] w1]; [done|]. intros [= <- <-].
  by exists (Some a), ok.
Qed.

(** A start that succeeds followed its plan, whatever the links did. *)
Lemma start_ok D cp fs w r w' :
  start D cp fs w = (inr r, w') ->
  exists pl c a, plan_of cp fs = inr pl /\ r = plan_running version usec fs (mono_clock w) pl c a w'.
Proof.
  unfold lifespan, start_plan. rewrite se_bind_gets. unfold se_bind at 1. rewrite boot_settings_run.
  destruct (tag BadConfig _) as [e|s0]; cbn [e_bind]; [done|].
  destruct (secret_gates _ _ _) as [e|secret]; [done|]. cbn [e_bind].
  set (s := with_secret secret s0). unfold boot_server, se_bind at 1. rewrite boot_map_run.
  destruct (map_at _ _ _ _) as [e|rm]; cbn [e_bind]; [done|].
  unfold se_bind at 1, lift at 1, tag at 1. destruct (db_open _) as [e|db]; cbn [e_bind]; [done|].
  unfold se_bind at 1. destruct (connect (choose_client s rm) w) as [[e|ok] w1]; [done|].
  case_match; [done|]. unfold se_bind at 1.
  destruct (boot_companion _ _ s fs w1) as [[e|ats] w2] eqn:Ec; [done|].
  destruct (companion_ok s fs w1 ats w2 Ec) as (m & aok & -> & ->). cbn [e_bind].
  unfold se_bind, gets, se_ret. intros [= <- <-]. exists {| pl_settings := s; pl_map := rm; pl_db := db; pl_ats_map := m |}, ok, aok.
  split; [done|]. by destruct m.
Qed.

Lemma e_bind_inr {A B} (m : boot_error + A) (k : A -> boot_error + B) b :
  e_bind m k = inr b -> exists a, m = inr a /\ k a = inr b.
Proof. destruct m; [done|]. by eauto. Qed.
Lemma tag_inr {A} f (m : res A) a : tag f m = inr a -> m = inr a.
Proof. destruct m; [done|]. by intros [= ->]. Qed.

(** A map found valid by the loader. *)
Definition loaded (fs : gmap string T) (file : string) (rm : RegisterMap) : Prop :=
  mv_ok (validate_register_map rm) = true /\
  rm_path rm = resolve_register_file pkg (fun p => bool_decide (is_Some (fs !! p))) file.

Lemma map_at_loaded fs file rm : map_at yaml_load pkg fs file = inr rm -> loaded fs file rm.
Proof.
  unfold map_at. intros Hm%tag_inr. destruct (fs !! _) as [t|]; [|done].
  apply r_bind_inr in Hm as (v & _ & Hm). unfold load_register_map in Hm.
  apply r_bind_inr in Hm as (rm' & Hp & Hm). destruct (mv_errors (validate_register_map rm')) eqn:Ev; [|done].
  injection Hm as ->. split; [unfold mv_ok; by rewrite Ev|]. by destruct (parse_ok _ _ _ Hp).
Qed.

Lemma gates_ok mock auth secret :
  String.length ephemeral = 64%nat -> secret_gates mock ephemeral auth = inr secret ->
  secret_unusable secret = false /\
  (mock = false -> secret = ac_jwt_secret auth /\
     ac_admin_password_hash auth <> PLACEHOLDER /\ str_startswith "$2" (ac_admin_password_hash auth) = true).
Proof.
  intros Hlen. unfold secret_gates. destruct (secret_unusable (ac_jwt_secret auth)) eqn:Es, mock; cbn; try done.
  - intros [= <-]. split; [|done]. unfold secret_unusable. rewrite Hlen. cbn.
    destruct (String.eqb_spec ephemeral "") as [->|_]; [done|].
    by destruct (String.eqb_spec ephemeral PLACEHOLDER) as [->|_].
  - intros [= <-]. done.
  - destruct (ac_admin_password_hash auth =? "")%string; [done|].
    destruct (String.eqb_spec (ac_admin_password_hash auth) PLACEHOLDER) as [|Hn]; [done|].
    destruct (str_startswith _ _) eqn:Eh; [|done]. intros [= <-]. split; [done|].
    intros _. split_and!; [done|done|done].
Qed.

Lemma plan_inv cp fs pl :
  plan_of cp fs = inr pl -> exists s0 secret,
    load (fun p => yaml_load <$> fs !! p) env mkdir cwd cp = inr s0 /\
    secret_gates (st_mock s0) ephemeral (st_auth s0) = inr secret /\
    pl_settings pl = with_secret secret s0 /\
    map_at yaml_load pkg fs (mc_register_file (st_modbus s0)) = inr (pl_map pl) /\
    db_open (db_path s0) = inr (pl_db pl) /\
    match pl_ats_map pl with
    | Some a => xc_enabled (st_ats s0) = true /\ map_at yaml_load pkg fs (xc_register_file (st_ats s0)) = inr a
    | None => xc_enabled (st_ats s0) = false
    end.
Proof.
  unfold start_plan. intros (s0 & Hs & Hp)%e_bind_inr. apply tag_inr in Hs.
  apply e_bind_inr in Hp as (s & Hg & Hp). destruct (secret_gates _ _ _) as [|secret] eqn:Eg; [done|]. injection Hg as <-.
  apply e_bind_inr in Hp as (rm & Hm & Hp). apply e_bind_inr in Hp as (db & Hd%tag_inr & Hp).
  apply e_bind_inr in Hp as (ats & Ha & Hp). injection Hp as <-. exists s0, secret. split_and!; try done.
  cbn in *. destruct (xc_enabled (st_ats s0)); [|by injection Ha as <-].
  apply e_bind_inr in Ha as (a & Ha & Hr). by injection Hr as <-.
Qed.

(** ** Theorems *)

(** With controllers that are absent, silent or refuse (but whose connect does not
    raise), start-up is decided by the files and the environment alone. *)
Theorem start_needs_no_controller D cp fs w :
  answers D ->
  match plan_of cp fs with
  | inl e => fst (start D cp fs w) = inl e
  | inr pl => exists c a w', start D cp fs w = (inr (plan_running version usec fs (mono_clock w) pl c a w'), w')
  end.
Proof.
  intros Ha. destruct (start_run D cp fs w Ha) as (c & a & w' & ->). destruct (plan_of cp fs); [done|]. by eauto.
Qed.

(** C35. A start that succeeds signs sessions with a secret that is neither guessable
    nor the placeholder, in production has a bcrypt hash, runs every service on one
    validated register map, has no confirm token, claims neither an engine state nor ATS
    authority, and leaves the stored alarms, audit and telemetry as they were. *)
Theorem start_guarantees D cp fs w r w' :
  String.length ephemeral = 64%nat ->
  start D cp fs w = (inr r, w') ->
  let app := sv_app (ru_server r) in
  let y := ap_sys app in
  let s := ap_settings app in
  secret_unusable (ac_jwt_secret (st_auth s)) = false /\
  (st_mock s = false -> ac_admin_password_hash (st_auth s) <> PLACEHOLDER /\
                        str_startswith "$2" (ac_admin_password_hash (st_auth s)) = true) /\
  loaded fs (mc_register_file (st_modbus s)) (ap_regmap app) /\
  p_regmap (ap_poller app) = ap_regmap app /\ sm_regmap (sy_sm y) = ap_regmap app /\ sy_regmap y = ap_regmap app /\
  (xc_enabled (st_ats s) = true <-> is_Some (ru_companion r)) /\
  (forall c, ru_companion r = Some c ->
     loaded fs (xc_register_file (st_ats s)) (sy_ats_regmap y) /\ p_regmap (cp_poller c) = sy_ats_regmap y /\
     as_regmap (sy_ats y) = sy_ats_regmap y) /\
  sy_tokens y = [] /\ ss_engine_state (sm_snap (sy_sm y)) = "unknown"%string /\ is_authoritative (sy_heap y) (sy_ats y) = false /\
  exists db, db_open (db_path s) = inr db /\
    db_alarms (sy_db y) = db_alarms db /\ db_audit (sy_db y) = db_audit db /\ db_telemetry (sy_db y) = db_telemetry db /\
    exists row, db_events (sy_db y) = db_events db ++ [row] /\ ev_type row = "BOOT"%string.
Proof.
  intros Hlen Hs. destruct (start_ok D cp fs w r w' Hs) as (pl & c & a & Hp & ->).
  destruct (plan_inv cp fs pl Hp) as (s0 & secret & Hl & Hg & Eset & Hm & Hdb & Hats).
  destruct (gates_ok _ _ _ Hlen Hg) as (Hsec & Hpw). apply map_at_loaded in Hm.
  cbn -[is_authoritative loaded AtsService_init write_event]. rewrite Eset. split_and!; try done.
  - intros Hmock. by destruct (Hpw Hmock) as (_ & ? & ?).
  - unfold plan_companion. destruct (pl_ats_map pl); [destruct Hats as [Hx _]|]; cbn.
    + split; [by eauto|done].
    + rewrite Hats. split; [done|by intros []].
  - unfold plan_companion. intros co. destruct (pl_ats_map pl) as [m|]; [|done]. destruct Hats as [_ Hm'].
    intros [= <-]. cbn. split_and!; [by apply map_at_loaded|done|done].
  - exists (pl_db pl). split_and!; try done. cbn. by eexists.
Qed.

(** A companion that is enabled but whose register file does not load *)
Lemma broken_companion_blocks_start D cp fs w e s0 secret :
  answers D ->
  load (fun p => yaml_load <$> fs !! p) env mkdir cwd cp = inr s0 -> secret_gates (st_mock s0) ephemeral (st_auth s0) = inr secret ->
  is_Some (match map_at yaml_load pkg fs (mc_register_file (st_modbus s0)) with inr rm => Some rm | inl _ => None end) ->
  is_Some (match db_open (db_path s0) with inr db => Some db | inl _ => None end) ->
  xc_enabled (st_ats s0) = true -> map_at yaml_load pkg fs (xc_register_file (st_ats s0)) = inl e ->
  fst (start D cp fs w) = inl e.
Proof.
  intros Ha Hl Hg Hm Hdb Hx He. destruct (start_run D cp fs w Ha) as (c & a & w' & ->). cbn [fst].
  unfold start_plan. rewrite Hl. cbn [tag e_bind]. rewrite Hg. cbn [e_bind with_secret st_modbus].
  destruct (map_at _ _ _ (mc_register_file _)) as [|rm]; [by destruct Hm|]. cbn [e_bind].
  change (db_path (with_secret secret s0)) with (db_path s0). destruct (db_open _) as [|db]; [by destruct Hdb|].
  cbn [tag e_bind with_secret st_ats]. rewrite Hx, He. done.
Qed.
End facts.

(** *** Settings without effect *)

Definition with_modbus (m : ModbusConfig) (s : Settings) : Settings :=
  {| st_data_dir := st_data_dir s; st_config_path := st_config_path s; st_mock := st_mock s;
     st_transport := st_transport s; st_serial := st_serial s; st_modbus_tcp := st_modbus_tcp s; st_modbus := m;
     st_retention := st_retention s; st_auth := st_auth s; st_slack := st_slack s; st_ats := st_ats s;
     st_ws_push_ms := st_ws_push_ms s; st_cors_origins := st_cors_origins s |}.
Definition running_modbus {W T} (m : ModbusConfig) (r : Running W T) : Running W T :=
  let sv := ru_server r in
  let app := sv_app sv in
  {| ru_server := {| sv_app := {| ap_sys := ap_sys app; ap_poller := ap_poller app; ap_comms_ref := ap_comms_ref app;
                                  ap_slack := ap_slack app; ap_settings := with_modbus m (ap_settings app);
                                  ap_regmap := ap_regmap app; ap_fs := ap_fs app |};
                     sv_logins := sv_logins sv; sv_commands := sv_commands sv |};
     ru_client := ru_client r; ru_connected := ru_connected r; ru_companion := ru_companion r; ru_bus := ru_bus r;
     ru_last_push := ru_last_push r; ru_throttle := ru_throttle r; ru_ticker := ru_ticker r;
     ru_started_at := ru_started_at r |}.

Lemma boot_server_modbus {W T} {D : Dialer W} `{Clock W}
    (yaml_load : T -> res pyval) db_open pkg version usec (fs : gmap string T) start w s m :
  mc_register_file m = mc_register_file (st_modbus s) ->
  boot_server yaml_load db_open pkg version usec fs start (with_modbus m s) w =
  match boot_server yaml_load db_open pkg version usec fs start s w with
  | (inl e, w') => (inl e, w')
  | (inr r, w') => (inr (running_modbus m r), w')
  end.
Proof.
  intros Hf. unfold boot_server. change (st_modbus (with_modbus m s)) with m. rewrite Hf.
  change (choose_client (with_modbus m s)) with (choose_client s).
  change (boot_companion yaml_load pkg (with_modbus m s) fs) with (boot_companion (W := W) yaml_load pkg s fs).
  change (db_path (with_modbus m s)) with (db_path s). change (st_mock (with_modbus m s)) with (st_mock s).
  unfold se_bind. rewrite boot_map_run. destruct (map_at _ _ _ _) as [e|rm]; [done|].
  unfold lift. destruct (db_open _) as [e|db]; [done|].
  destruct (connect _ w) as [[e|ok] w1]; [done|]. destruct (negb ok && st_mock s); [done|].
  destruct (boot_companion _ _ s fs w1) as [[e|ats] w2]; done.
Qed.

(** The slave address, function code, poll cadences and retries of the settings'
    modbus section have no effect: two starts whose settings differ only there run the same
    program on the same link, since the client takes all of them from the register file. *)
Theorem modbus_settings_ignored {W T} {D : Dialer W} `{Clock W} {P : Pydantic} `{SettingsMerge}
    (yaml_load : T -> res pyval) db_open env env' mkdir cwd pkg version ephemeral usec cp (fs : gmap string T) w s m :
  load (fun p => yaml_load <$> fs !! p) env mkdir cwd cp = inr s ->
  load (fun p => yaml_load <$> fs !! p) env' mkdir cwd cp = inr (with_modbus m s) ->
  mc_register_file m = mc_register_file (st_modbus s) ->
  lifespan yaml_load db_open env' mkdir cwd pkg version ephemeral usec cp fs w =
  match lifespan yaml_load db_open env mkdir cwd pkg version ephemeral usec cp fs w with
  | (inl e, w') => (inl e, w')
  | (inr r, w') => (inr (running_modbus m r), w')
  end.
Proof.
  intros Hs Hs' Hf. unfold lifespan. rewrite !se_bind_gets. unfold se_bind.
  rewrite !boot_settings_run, Hs, Hs'. cbn [tag e_bind].
  change (secret_gates (st_mock (with_modbus m s)) ephemeral (st_auth (with_modbus m s)))
    with (secret_gates (st_mock s) ephemeral (st_auth s)).
  destruct (secret_gates _ _ _) as [e|secret]; [done|].
  change (with_secret secret (with_modbus m s)) with (with_modbus m (with_secret secret s)).
  by apply boot_server_modbus.
Qed.

