(* ===== verification/CreateApp.v ===== *)
(** * Building the application (create_app of main.py)

    The list of allowed origins given to the CORS middleware and the static user
    interface: which directory is served and what a path outside the API is answered
    with.  The CORS headers themselves and the sending of files are the libraries'.

    Theorems: the allowed origins are trimmed and not empty; a path of the user interface
    without a leading slash or parent step names a file below its directory; an absolute
    path names any file of the host, among them the configuration with its secret. *)

From S2P Require Import Prelude PyNum PyVal Http Config.

Local Open Scope Z_scope.
Local Open Scope gw_scope.
Local Open Scope string_scope.

(** ** Origins *)

Definition comma : Ascii.ascii := Ascii.ascii_of_nat 44.
Definition slash : Ascii.ascii := Ascii.ascii_of_nat 47.
(** [s.split(c)] *)
Fixpoint str_split (c : Ascii.ascii) (s : string) : list string :=
  match s with
  | EmptyString => [""]
  | String d s => if Ascii.eqb d c then "" :: str_split c s
                  else match str_split c s with x :: l => String d x :: l | [] => [String d ""] end
  end.

(** [\[o.strip() for o in l if o.strip()\]] *)
Definition stripped (l : list string) : list string := List.filter (fun o => negb (o =? "")) (map str_strip l).

(** [loaded]: the origins of the settings on disk, [None] when loading them raises. *)
Definition cors_list (cors_env : option string) (loaded : option (list string)) : list string :=
  match cors_env with
  | Some e => if negb (e =? "") then stripped (str_split comma e) else match loaded with Some l => stripped l | None => [] end
  | None => match loaded with Some l => stripped l | None => [] end
  end.

(** ** The user interface *)

Section ui.
(** Whether a path exists, and whether it is a file. *)
Variables (exists_ is_file : string -> bool).

(** The first directory that holds an interface. *)
Definition ui_dir_of (ui_env : option string) (default_dir : string) : option string :=
  let candidates := (match ui_env with Some d => if d =? "" then [] else [d] | None => [] end ++
                     ["/usr/share/genwatch/ui"; default_dir])%list in
  List.find (fun d => exists_ d && exists_ (path_join d "index.html")) candidates.

Inductive spa_reply : Type := SpaNotFound | SpaFile (path : string).

(** [spa]: the answer to GET /{path} behind the routes of the API. *)
Definition spa (ui_dir path : string) : spa_reply :=
  if str_startswith "api/" path || str_startswith "ws/" path then SpaNotFound
  else let full := path_join ui_dir path in
       if is_file full then SpaFile full else SpaFile (path_join ui_dir "index.html").
End ui.

(** ** Theorems *)

Lemma cors_list_clean cors_env loaded : Forall (fun o => o <> "") (cors_list cors_env loaded).
Proof.
  assert (forall l, Forall (fun o => o <> "") (stripped l)) as Hs.
  { intros l. apply Forall_forall. intros o Ho%list_elem_of_In. apply filter_In in Ho as [_ Ho].
    intros ->. by rewrite String.eqb_refl in Ho. }
  unfold cors_list. destruct cors_env as [e|]; [destruct (negb _)|]; destruct loaded; first [apply Hs|constructor].
Qed.

(** A path below a directory: joined to it by a relative one without a step to a parent. *)
Definition below (dir full : string) : Prop :=
  exists rest, full = path_join dir rest /\ str_startswith "/" rest = false /\ ".." ∉ str_split slash rest.

Theorem spa_confined is_file ui_dir path full :
  str_startswith "/" path = false -> ".." ∉ str_split slash path ->
  spa is_file ui_dir path = SpaFile full -> below ui_dir full.
Proof.
  intros Habs Hup. unfold spa. destruct (_ || _); [done|]. destruct (is_file _); intros [= <-]; [by exists path|].
  exists "index.html". split_and!; [done|done|]. cbn. set_solver.
Qed.

Lemma absolute_cons path : str_startswith "/" path = true -> exists s, path = String slash s.
Proof.
  intros H%String.prefix_correct. destruct path as [|c s]; [done|]. cbn in H. injection H as Hc. exists s. by rewrite Hc.
Qed.

(** Any file of the host answers to its absolute path. *)
Theorem spa_serves_any_file is_file ui_dir path :
  str_startswith "/" path = true -> is_file path = true -> spa is_file ui_dir path = SpaFile path.
Proof.
  intros Habs Hf. unfold spa, path_join at 1 2. rewrite Habs. destruct (absolute_cons path Habs) as [s ->].
  cbn -[path_join]. by rewrite Hf.
Qed.
