(* ===== verification/Diagnostics.v ===== *)
(** * Diagnostics (__main__.py)

    The checks of [doctor], the client the diagnostic commands build, the address walk
    of [scan] with its summary, and the decoded snapshot of [panel].  The reports
    are in PanelReport.v and Cli.v; argument parsing is not modelled.

    Theorems: a scan with a positive batch ends with an entry for every address, one
    with batch 0 never ends; the range notation is exact; every live register is listed
    once; [panel] derives the state and alarms the poller would; and the verdict of
    [doctor] on the secrets against that of the start. *)

From S2P Require Import Prelude PyNum PyVal Registers RegisterFacts RegisterValidation Client Poller Http Config Boot.
From Stdlib Require Import SpecFloat.

Local Open Scope Z_scope.
Local Open Scope gw_scope.

(** ** doctor *)

(** [pw_ok] and [sec_ok] *)
Definition doctor_pw_ok (a : AuthConfig) : bool :=
  negb (ac_admin_password_hash a =? "")%string && negb (ac_admin_password_hash a =? "REPLACE_ME")%string.
Definition doctor_sec_ok (a : AuthConfig) : bool :=
  negb (ac_jwt_secret a =? "")%string && negb (ac_jwt_secret a =? "REPLACE_ME")%string.

(** What the host and the link say to the checks. *)
Record doctor_env : Type := {
  de_config : res Settings;
  de_map : Settings -> res RegisterMap;
  de_db : Settings -> res unit;
  de_link : Settings -> bool;        (* the TCP socket connects, or the serial device exists and opens *)
  de_probe : Settings -> RegisterMap -> option ModbusResult   (* [None]: connect failed or raised *)
}.

Inductive doctor_line : Type :=
| LnConfigFail | LnNoPassword | LnNoSecret | LnAuthOk | LnMapFail | LnDbFail | LnMock | LnLinkFail | LnNoResponse | LnResponse.

Definition auth_lines (a : AuthConfig) : list doctor_line :=
  if doctor_pw_ok a && doctor_sec_ok a then [LnAuthOk]
  else (if doctor_pw_ok a then [] else [LnNoPassword]) ++ (if doctor_sec_ok a then [] else [LnNoSecret]).

(** [_doctor]: the verdict lines and the exit code. *)
Definition doctor (d : doctor_env) : list doctor_line * Z :=
  match de_config d with
  | inl _ => ([LnConfigFail], 1)
  | inr s =>
      let auth := auth_lines (st_auth s) in
      let rc := if doctor_pw_ok (st_auth s) && doctor_sec_ok (st_auth s) then 0 else 1 in
      match de_map d s with
      | inl _ => (auth ++ [LnMapFail], 1)
      | inr rm =>
          let '(lines, rc) := match de_db d s with inl _ => (auth ++ [LnDbFail], 1) | inr _ => (auth, rc) end in
          if st_mock s then (lines ++ [LnMock], rc)
          else if negb (de_link d s) then (lines ++ [LnLinkFail], 1)
          else match de_probe d s rm with
               | Some r => if mr_ok r then (lines ++ [LnResponse], rc) else (lines ++ [LnNoResponse], 1)
               | None => (lines ++ [LnNoResponse], 1)
               end
      end
  end.

(** ** The client of the diagnostics *)

Definition diag_backoff : list pyfloat := [flt 25 100; flt 5 10].
(** [_build_client_from_settings] *)
Definition build_client_from_settings (s : Settings) (rm : RegisterMap) (retries : Z) : modbus_client :=
  let cfg := mk_client_cfg true retries diag_backoff in
  if st_mock s then MockModbusClient rm
  else if (st_transport s =? "tcp")%string
  then let t := st_modbus_tcp s in
       TcpRtuClient {| tp_host := tc_host t; tp_port := tc_port t; tp_framer := tc_framer t;
                       tp_timeout_s := tc_timeout_s t; tp_connect_timeout_s := tc_connect_timeout_s t;
                       tp_slave := rm_slave rm; tp_cfg := cfg |}
  else let c := st_serial s in
       SerialClient {| sp_device := sc_device c; sp_baud := sc_baud c; sp_parity := sc_parity c;
                       sp_stopbits := sc_stopbits c; sp_bytesize := sc_bytesize c; sp_timeout_s := sc_timeout_s c;
                       sp_slave := rm_slave rm; sp_cfg := cfg |}.

(** The overrides of [modbusdump] on the settings. *)
Definition dump_overrides (device : option string) (baud : option Z) (host : option string) (port : option Z)
    (s : Settings) : Settings :=
  let c := st_serial s in
  let t := st_modbus_tcp s in
  {| st_data_dir := st_data_dir s; st_config_path := st_config_path s; st_mock := st_mock s;
     st_transport := st_transport s;
     st_serial := {| sc_device := default (sc_device c) device; sc_baud := default (sc_baud c) baud; sc_parity := sc_parity c;
                     sc_stopbits := sc_stopbits c; sc_bytesize := sc_bytesize c; sc_timeout_s := sc_timeout_s c |};
     st_modbus_tcp := {| tc_host := default (tc_host t) host; tc_port := default (tc_port t) port;
                         tc_timeout_s := tc_timeout_s t; tc_connect_timeout_s := tc_connect_timeout_s t;
                         tc_framer := tc_framer t |};
     st_modbus := st_modbus s; st_retention := st_retention s; st_auth := st_auth s; st_slack := st_slack s;
     st_ats := st_ats s; st_ws_push_ms := st_ws_push_ms s; st_cors_origins := st_cors_origins s |}.

(** ** scan *)

(** A word, or the tag of an error. *)
Definition entry : Type := Z + string.

(** [m\[addr + i\] = w] for every word. *)
Fixpoint put_words {A} (addr : Z) (words : list A) (m : gmap Z A) : gmap Z A :=
  match words with [] => m | w :: ws => put_words (addr + 1) ws (<[addr := w]> m) end.

Section scan.
Context {W : Type} `{ModbusClient W}.

(** One address at a time; [rr.error or "err"]. *)
Fixpoint scan_singles (fc a : Z) (n : nat) (result : gmap Z entry) (w : W) : gmap Z entry * W :=
  match n with
  | O => (result, w)
  | S n' =>
      let '(rr, w1) := mc_read a 1 fc w in
      let e : entry := match mr_ok rr, mr_words rr with
                       | true, Some ws => inl (hd 0 ws)
                       | _, _ => inr match mr_error rr with Some e => if (e =? "")%string then "err"%string else e
                                                          | None => "err"%string end
                       end in
      scan_singles fc (a + 1) n' (<[a := e]> result) w1
  end.

(** The [while] loop of [scan_one_fc]; [None] when the fuel runs out. *)
Fixpoint scan_loop (fuel : nat) (fc batch last addr : Z) (result : gmap Z entry) (w : W) : option (gmap Z entry * W) :=
  if last <? addr then Some (result, w)
  else match fuel with
       | O => None
       | S fuel' =>
           let count := Z.min batch (last - addr + 1) in
           let '(r, w1) := mc_read addr count fc w in
           let '(result', w2) :=
             match mr_ok r, mr_words r with
             | true, Some words => (put_words addr (inl <$> words) result, w1)
             | _, _ => scan_singles fc addr (Z.to_nat count) result w1
             end in
           scan_loop fuel' fc batch last (addr + count) result' w2
       end.

(** [scan_one_fc] once connected. *)
Definition scan_one_fc (fuel : nat) (fc batch first last : Z) (w : W) : option (gmap Z entry * W) :=
  scan_loop fuel fc batch last first ∅ w.
End scan.

(** *** Summary *)

(** [live], [zeros] and [errors] over the addresses in order. *)
Definition scan_live (rows : list (Z * entry)) : list (Z * Z) :=
  omap (fun '(a, e) => match e with inl v => if v =? 0 then None else Some (a, v) | inr _ => None end) rows.
Definition scan_zeros (rows : list (Z * entry)) : list Z :=
  omap (fun '(a, e) => match e with inl v => if v =? 0 then Some a else None | inr _ => None end) rows.
Definition add_error (d : odict string (list Z)) (ae : Z * entry) : odict string (list Z) :=
  match snd ae with inl _ => d | inr tag => od_set tag (default [] (od_get tag d) ++ [fst ae]) d end.
Definition scan_errors (rows : list (Z * entry)) : odict string (list Z) := foldl add_error [] rows.

Definition printable (b : Z) : bool := (0x20 <=? b) && (b <=? 0x7E).
Definition hi_byte (v : Z) : Z := Z.land (Z.shiftr v 8) 0xFF.
Definition lo_byte (v : Z) : Z := Z.land v 0xFF.
Definition ascii_word (v : Z) : bool := printable (hi_byte v) && printable (lo_byte v).

(** The run of printable words at consecutive addresses that starts a list. *)
Fixpoint ascii_run (next : Z) (live : list (Z * Z)) : list (Z * Z) :=
  match live with
  | (a, v) :: rest => if (a =? next) && ascii_word v then (a, v) :: ascii_run (next + 1) rest else []
  | [] => []
  end.

Inductive live_row : Type :=
| RowAscii (first last : Z) (bytes : list Z)
| RowWord (addr value : Z).

(** The rows of "Non-zero registers"; the fuel is the number of registers left. *)
Fixpoint live_rows (fuel : nat) (live : list (Z * Z)) : list live_row :=
  match fuel, live with
  | S fuel', (a, v) :: rest =>
      let run := ascii_run a live in
      if (2 <=? length run)%nat
      then RowAscii a (a + Z.of_nat (length run) - 1) (concat (map (fun '(_, v) => [hi_byte v; lo_byte v]) run))
             :: live_rows fuel' (drop (length run) live)
      else RowWord a v :: live_rows fuel' rest
  | _, _ => []
  end.

(** [_compact_ranges]: the ranges, and their text. *)
Fixpoint ranges_from (start prev : Z) (addrs : list Z) : list (Z * Z) :=
  match addrs with
  | [] => [(start, prev)]
  | a :: rest => if a =? prev + 1 then ranges_from start a rest else (start, prev) :: ranges_from a a rest
  end.
Definition ranges (addrs : list Z) : list (Z * Z) :=
  match merge_sort Z.le addrs with [] => [] | a :: rest => ranges_from a a rest end.
Definition range_text (r : Z * Z) : string :=
  let '(s, p) := r in
  if s =? p then "0x" +:+ fmt_04X s else "0x" +:+ fmt_04X s +:+ "-0x" +:+ fmt_04X p.
Definition compact_ranges (addrs : list Z) : string := str_join ", " (map range_text (ranges addrs)).

(** ** panel *)

(** Words by address, and the issues met while reading. *)
Abbreviation words_t := (gmap Z Z).

Section panel.
Context {W : Type} `{ModbusClient W}.

(** The text of an optional error in an f-string. *)
Definition str_opt (o : option string) : string := default "None"%string o.

Fixpoint panel_singles (fc a : Z) (n : nat) (m : words_t) (errs : list string) (w : W) : words_t * list string * W :=
  match n with
  | O => (m, errs, w)
  | S n' =>
      let '(rr, w1) := mc_read a 1 fc w in
      match mr_ok rr, mr_words rr with
      | true, Some (x :: _) => panel_singles fc (a + 1) n' (<[a := x]> m) errs w1
      | _, _ => panel_singles fc (a + 1) n' m (errs ++ ["  0x" +:+ fmt_04X a +:+ " " +:+ str_opt (mr_error rr)]%string) w1
      end
  end.

Definition panel_batch (fc : Z) (st : words_t * list string * W) (b : Z * Z) : words_t * list string * W :=
  let '(m, errs, w) := st in
  let '(start, count) := b in
  let '(r, w1) := mc_read start count fc w in
  match mr_ok r, mr_words r with
  | true, Some (x :: xs) => (put_words start (x :: xs) m, errs, w1)
  | _, _ =>
      panel_singles fc start (Z.to_nat count) m
        (errs ++ ["batch 0x" +:+ fmt_04X start +:+ "+" +:+ str_Z count +:+ " failed (" +:+ str_opt (mr_error r) +:+
                  "); falling back to singles"]%string) w1
  end.

(** [run] of [_panel] once connected: every register of the map, in the poller's batches. *)
Definition panel_read (rm : RegisterMap) (w : W) : words_t * list string * W :=
  foldl (panel_batch (rm_read_fc rm)) (∅, [], w) (batch_reads (rm_registers rm) default_max_words).
End panel.

Definition raw_words (m : words_t) (r : RegisterDef) : list (option Z) :=
  map (fun i => m !! (r_addr r + i)) (seqZ 0 (r_words r)).
Definition panel_value (m : words_t) (r : RegisterDef) : option pynum :=
  if existsb (fun o => match o with None => true | Some _ => false end) (raw_words m r) then None
  else decode_value r (omap id (raw_words m r)).
Definition panel_decoded (rm : RegisterMap) (m : words_t) : list (RegisterDef * option pynum) :=
  map (fun r => (r, panel_value m r)) (rm_registers rm).

(** [value_map]: the decoded values cut to integers. *)
Definition value_map (d : list (RegisterDef * option pynum)) : values_t :=
  foldl (fun m '(r, v) => match v with Some x => <[r_name r := PInt (py_int x)]> m | None => m end) ∅ d.

(** The rule that fires. *)
Fixpoint fired (rules : list StateBitRule) (values : values_t) : string * option StateBitRule :=
  match rules with
  | [] => ("unknown"%string, None)
  | rule :: rest =>
      match values !! sb_register rule with
      | None => fired rest values
      | Some raw => if mask_all raw (sb_mask rule) then (sb_state rule, Some rule) else fired rest values
      end
  end.

(** [bit_meanings]: what each bit of a register means, by register and mask. *)
Abbreviation meaning_t := (gmap string (gmap Z string)).
Definition meaning (m : meaning_t) (reg : string) (mask : Z) : option string := default ∅ (m !! reg) !! mask.
Definition set_meaning (reg : string) (mask : Z) (label : string) (m : meaning_t) : meaning_t :=
  <[reg := <[mask := label]> (default ∅ (m !! reg))]> m.
Definition alarm_label (ab : AlarmBit) : string := ab_code ab +:+ " (" +:+ ab_severity ab +:+ ")".
Definition add_state_label (m : meaning_t) (rule : StateBitRule) : meaning_t :=
  let label := "state:" +:+ sb_state rule in
  set_meaning (sb_register rule) (sb_mask rule)
    match meaning m (sb_register rule) (sb_mask rule) with
    | Some existing => if (existing =? "")%string then label else existing +:+ ", " +:+ label
    | None => label
    end m.
Definition bit_meanings (rm : RegisterMap) : meaning_t :=
  foldl add_state_label
    (foldl (fun m ab => set_meaning (ab_register ab) (ab_mask ab) (alarm_label ab) m) ∅ (rm_alarm_bits rm))
    (rm_engine_state_bits rm).

(** The rows under a bit field: every set bit, high to low, with its meaning or "?". *)
Definition bit_rows (rm : RegisterMap) (name : string) (v : Z) : list (Z * string) :=
  omap (fun bit => let mask := Z.shiftl 1 bit in
                   if Z.land v mask =? 0 then None
                   else Some (mask, default "?"%string (meaning (bit_meanings rm) name mask)))
    (rev (seqZ 0 16)).

(** [_value_note]: the flag of a value that looks wrong. *)
Inductive note : Type := ReadFailed | Sentinel16 | Sentinel32 | OverPercent | HighPsi | OverRpm.

Definition value_note (r : RegisterDef) (v : option pynum) : option note :=
  let unt := str_lower (r_unit r) in
  match v with
  | None => Some ReadFailed
  | Some x =>
      if (bool_decide (r_type r = u16) || bool_decide (r_type r = s16)) && (py_int x =? 0xFFFF) then Some Sentinel16
      else if (bool_decide (r_type r = u32) || bool_decide (r_type r = s32)) && (py_int x =? 0xFFFFFFFF) then Some Sentinel32
      else if str_contains "pct" unt && py_gtb x (PInt 100) then Some OverPercent
      else if str_contains "psi" unt && py_gtb x (PInt 200) then Some HighPsi
      else if (str_lower (r_name r) =? "rpm")%string && py_gtb x (PInt 3600) then Some OverRpm
      else None
  end.

(** [_fmt_value]: two decimals unless the float is an integer to within a millionth;
    [round] of an infinity or a NaN raises. *)
Definition fmt_value (v : option pynum) : res string :=
  match v with
  | None => r_ret "—"%string
  | Some (PInt z) => r_ret (str_Z z)
  | Some (PFloat f) =>
      match f_ext f with
      | EFin q =>
          let diff := SFabs (SFsub 53 1024 f (f_of_Z (round_half_even (Qnum q) (Qden q)))) in
          r_ret (if py_ltb (PFloat diff) (PFloat (flt 1 1000000)) then fmt_fixed 0 f else fmt_fixed 2 f)
      | ENaN => inl (ValueError "cannot convert float NaN to integer")
      | _ => inl OverflowError
      end
  end.
Example fmt_value_samples :
  fmt_value (Some (PFloat (f_mul (f_of_Z 1380) (flt 1 100)))) = inr "13.80"%string /\
  fmt_value (Some (PFloat (f_mul (f_of_Z 600) (flt 1 10)))) = inr "60"%string /\ fmt_value (Some (PInt (-3))) = inr "-3"%string.
Proof. vm_compute. done. Qed.

(** [_fmt_raw] *)
Definition fmt_raw (words : list (option Z)) : string :=
  str_join " " (map (fun o => match o with None => "----"%string | Some w => fmt_04X w end) words).

(** The exit code of the reports. *)
Definition panel_rc (errs : list string) : Z :=
  if existsb (String.eqb "connect failed") errs then 2 else match errs with [] => 0 | _ => 1 end.

(** ** Lemmas: scan *)

Lemma put_words_lookup {A} addr (words : list A) m a :
  is_Some (put_words addr words m !! a) <-> addr <= a < addr + Z.of_nat (length words) \/ is_Some (m !! a).
Proof.
  revert addr m. induction words as [|w ws IH]; intros addr m; cbn [put_words length].
  { split; [by right|]. intros [?|?]; [lia|done]. }
  rewrite IH. destruct (decide (a = addr)) as [->|Hne].
  - rewrite lookup_insert_eq. split; [intros _; left; lia|]. intros _. right. by eexists.
  - rewrite lookup_insert_ne by done. split; (intros [?|?]; [left; lia|by right]).
Qed.

Section scan_facts.
Context {W : Type} `{MC : ModbusClient W} `{!ModbusClientLaws W}.

Lemma scan_singles_lookup fc a n result (w : W) :
  exists result' w', scan_singles fc a n result w = (result', w') /\
    forall x, is_Some (result' !! x) <-> a <= x < a + Z.of_nat n \/ is_Some (result !! x).
Proof.
  revert a result w. induction n as [|n IH]; intros a result w; cbn [scan_singles].
  { exists result, w. split; [done|]. intros x. split; [by right|]. intros [?|?]; [lia|done]. }
  destruct (mc_read a 1 fc w) as [rr w1]. cbv zeta.
  match goal with |- context [scan_singles fc (a + 1) n ?m w1] => destruct (IH (a + 1) m w1) as (r' & w' & -> & Hr) end.
  exists r', w'. split; [done|]. intros x. rewrite Hr. destruct (decide (x = a)) as [->|Hne].
  - rewrite lookup_insert_eq. split; [intros _; left; lia|]. intros _. right. by eexists.
  - rewrite lookup_insert_ne by done. split; (intros [?|?]; [left; lia|by right]).
Qed.

Lemma scan_loop_total fuel fc batch last addr result (w : W) :
  1 <= batch -> (Z.to_nat (last + 1 - addr) <= fuel)%nat ->
  exists result' w', scan_loop fuel fc batch last addr result w = Some (result', w') /\
    forall x, is_Some (result' !! x) <-> addr <= x <= last \/ is_Some (result !! x).
Proof.
  intros Hb. revert addr result w. induction fuel as [|fuel IH]; intros addr result w Hf; cbn [scan_loop].
  { destruct (Z.ltb_spec last addr); [|lia]. exists result, w. split; [done|]. intros x. split; [by right|].
    intros [?|?]; [lia|done]. }
  destruct (Z.ltb_spec last addr) as [|Hle].
  { exists result, w. split; [done|]. intros x. split; [by right|]. intros [?|?]; [lia|done]. }
  set (count := Z.min batch (last - addr + 1)). assert (1 <= count <= last - addr + 1) by (unfold count; lia).
  destruct (mc_read addr count fc w) as [r w1] eqn:Er.
  assert (exists result1 w2,
    match mr_ok r, mr_words r with
    | true, Some words => (put_words addr (inl <$> words) result, w1)
    | _, _ => scan_singles fc addr (Z.to_nat count) result w1
    end = (result1, w2) /\
    forall x, is_Some (result1 !! x) <-> addr <= x < addr + count \/ is_Some (result !! x)) as (result1 & w2 & -> & H1).
  { destruct (scan_singles_lookup fc addr (Z.to_nat count) result w1) as (r1 & w2 & E1 & Hr1).
    rewrite Z2Nat.id in Hr1 by lia.
    destruct (mr_ok r) eqn:Eok; [|by exists r1, w2]. destruct (mc_read_ok _ _ _ _ _ _ Er Eok) as (ws & -> & Hlen).
    eexists _, w1. split; [done|]. intros x. by rewrite put_words_lookup, length_fmap, Hlen. }
  destruct (IH (addr + count) result1 w2) as (r' & w' & -> & Hr); [lia|].
  exists r', w'. split; [done|]. intros x. rewrite Hr, H1. split; [|intros [?|?]]; [|destruct (decide (x < addr + count))|];
    naive_solver lia.
Qed.

Lemma scan_loop_stuck fuel fc batch last addr result (w : W) :
  batch <= 0 -> addr <= last -> scan_loop fuel fc batch last addr result w = None.
Proof.
  intros Hb. revert addr result w. induction fuel as [|fuel IH]; intros addr result w Hl; cbn [scan_loop];
    destruct (Z.ltb_spec last addr); try lia; [done|].
  destruct (mc_read _ _ _ _) as [r w1]. destruct (match mr_ok r, mr_words r with true, Some _ => _ | _, _ => _ end).
  apply IH. lia.
Qed.
End scan_facts.

(** ** Lemmas: the summary *)

Definition range_list (r : Z * Z) : list Z := seqZ (fst r) (snd r - fst r + 1).
(** Each range is not empty and ends at least two before the next begins. *)
Fixpoint apart (l : list (Z * Z)) : Prop :=
  match l with
  | [] => True
  | (s, p) :: l' => s <= p /\ match l' with [] => True | (s', _) :: _ => p + 1 < s' end /\ apart l'
  end.

Lemma seqZ_snoc s n : 0 <= n -> seqZ s (n + 1) = seqZ s n ++ [s + n].
Proof. intros Hn. by rewrite seqZ_app by lia. Qed.

(** Strictly increasing from [p] on. *)
Fixpoint increasing (p : Z) (l : list Z) : Prop :=
  match l with [] => True | a :: l' => p < a /\ increasing a l' end.

Lemma ranges_from_spec start prev addrs :
  start <= prev -> increasing prev addrs ->
  concat (map range_list (ranges_from start prev addrs)) = seqZ start (prev - start + 1) ++ addrs /\
  apart (ranges_from start prev addrs) /\
  match ranges_from start prev addrs with (s, _) :: _ => s = start | [] => False end.
Proof.
  revert start prev. induction addrs as [|a rest IH]; intros start prev Hsp Hi; cbn [ranges_from].
  { cbn. by rewrite !app_nil_r. }
  destruct Hi as [Ha Hi]. destruct (Z.eqb_spec a (prev + 1)) as [->|Hne].
  - destruct (IH start (prev + 1)) as (Hc & Hap & Hh); [lia|done|]. split_and!; [|done|done].
    rewrite Hc. replace (prev + 1 - start + 1) with ((prev - start + 1) + 1) by lia.
    rewrite seqZ_snoc by lia. rewrite <- app_assoc. cbn. by replace (start + (prev - start + 1)) with (prev + 1) by lia.
  - destruct (IH a a) as (Hc & Hap & Hh); [lia|done|]. cbn [map concat]. rewrite Hc.
    replace (a - a + 1) with 1 by lia. rewrite (seqZ_cons a 1) by lia. cbn. split_and!; [done|done| |done|done].
    destruct (ranges_from a a rest) as [|[s p] l]; [done|]. subst s. lia.
Qed.

Lemma sorted_increasing a l : StronglySorted Z.le (a :: l) -> NoDup (a :: l) -> increasing a l.
Proof.
  revert a. induction l as [|b l IH]; intros a Hs Hn; [done|]. apply StronglySorted_inv in Hs as [Hs Hf].
  apply NoDup_cons in Hn as [Ha Hn]. split; [|by apply IH].
  apply Forall_cons in Hf as [Hab _]. assert (a <> b) by (intros ->; apply Ha; left). lia.
Qed.

Lemma merge_sort_Z_spec (l : list Z) : NoDup l ->
  match merge_sort Z.le l with [] => True | a :: rest => increasing a rest end.
Proof.
  intros Hn. pose proof (StronglySorted_merge_sort Z.le l) as Hs.
  assert (NoDup (merge_sort Z.le l)) as Hn' by (by rewrite merge_sort_Permutation).
  destruct (merge_sort Z.le l) as [|a rest]; [done|]. by apply sorted_increasing.
Qed.

Definition row_addrs (r : live_row) : list Z :=
  match r with RowAscii first last _ => range_list (first, last) | RowWord a _ => [a] end.
Definition row_shows (live : list (Z * Z)) (r : live_row) : Prop :=
  match r with
  | RowAscii first last bytes =>
      exists run, run `sublist_of` live /\ map fst run = range_list (first, last) /\
        Forall (fun av => ascii_word (snd av) = true) run /\ bytes = concat (map (fun '(_, v) => [hi_byte v; lo_byte v]) run)
  | RowWord a v => (a, v) ∈ live
  end.

Lemma ascii_run_spec next live :
  exists rest, live = ascii_run next live ++ rest /\
    map fst (ascii_run next live) = seqZ next (Z.of_nat (length (ascii_run next live))) /\
    Forall (fun av => ascii_word (snd av) = true) (ascii_run next live).
Proof.
  revert next. induction live as [|[a v] rest IH]; intros next; cbn [ascii_run].
  { exists []. split_and!; [done|done|constructor]. }
  destruct (Z.eqb_spec a next) as [->|]; cbn [andb]; [|by exists ((a, v) :: rest); split_and!].
  destruct (ascii_word v) eqn:Ev; [|by exists ((next, v) :: rest); split_and!].
  destruct (IH (next + 1)) as (rest' & E & Hm & Hf). exists rest'. cbn [app map length fst]. split_and!.
  - by rewrite <- E.
  - rewrite Hm, Nat2Z.inj_succ, (seqZ_cons next) by lia. f_equal. f_equal; lia.
  - by constructor.
Qed.

Lemma live_rows_cover fuel live :
  (length live <= fuel)%nat ->
  concat (map row_addrs (live_rows fuel live)) = map fst live /\ Forall (row_shows live) (live_rows fuel live).
Proof.
  revert live. induction fuel as [|fuel IH]; intros [|[a v] rest] Hf; cbn [live_rows]; try done; [cbn in Hf; lia|].
  destruct (ascii_run_spec a ((a, v) :: rest)) as (tail & E & Hm & Hall). set (run := ascii_run a _) in *.
  destruct (Nat.leb_spec 2 (length run)) as [Hlen|Hlen].
  - assert (drop (length run) ((a, v) :: rest) = tail) as -> by (rewrite E at 1; apply drop_app_length).
    destruct (IH tail) as [IH1 IH2].
    { apply (f_equal length) in E. rewrite length_app in E. cbn in *. lia. }
    assert (map fst run = range_list (a, a + Z.of_nat (length run) - 1)) as Hr
      by (unfold range_list; rewrite Hm; cbn; f_equal; lia).
    cbn [map concat row_addrs]. rewrite IH1. split.
    + by rewrite <- Hr, <- map_app, <- E.
    + constructor.
      * exists run. split_and!; [|done|done|done]. rewrite E. by apply sublist_inserts_r.
      * eapply Forall_impl; [exact IH2|]. intros r Hs. rewrite E. destruct r as [f l b|x y]; cbn in *.
        -- destruct Hs as (run' & Hsub & Hrest). exists run'. split; [by apply sublist_inserts_l|done].
        -- apply elem_of_app. by right.
  - cbn in Hf. destruct (IH rest) as [IH1 IH2]; [lia|]. cbn [map concat row_addrs app fst]. rewrite IH1. split; [done|].
    constructor; [left|]. eapply Forall_impl; [exact IH2|]. intros r Hs. destruct r as [f l b|x y]; cbn in *.
    + destruct Hs as (run' & Hsub & Hrest). exists run'. split; [by apply sublist_cons|done].
    + by right.
Qed.

(** ** Lemmas: panel *)

Definition plain_map (d : list (RegisterDef * option pynum)) : values_t :=
  foldl (fun m '(r, v) => match v with Some x => <[r_name r := x]> m | None => m end) ∅ d.
Definition truncated (x : pynum) : pynum := PInt (py_int x).

Lemma value_map_truncates d : value_map d = truncated <$> plain_map d.
Proof.
  unfold value_map, plain_map.
  enough (forall m : values_t,
    foldl (fun m '(r, v) => match v with Some x => <[r_name r := PInt (py_int x)]> m | None => m end) (truncated <$> m) d =
    truncated <$> foldl (fun m '(r, v) => match v with Some x => <[r_name r := x]> m | None => m end) m d) as Hm
    by (specialize (Hm ∅); by rewrite fmap_empty in Hm).
  induction d as [|[r [x|]] d IH]; intros m; cbn [foldl]; [done| |apply IH]. by rewrite <- IH, fmap_insert.
Qed.

Lemma fired_spec rules values :
  fst (fired rules values) = first_state rules values /\
  match snd (fired rules values) with
  | Some rule => rule ∈ rules /\ sb_state rule = first_state rules values /\
                 exists raw, values !! sb_register rule = Some raw /\ mask_all raw (sb_mask rule) = true
  | None => first_state rules values = "unknown"%string
  end.
Proof.
  induction rules as [|rule rest IH]; cbn [fired first_state]; [done|].
  destruct (values !! sb_register rule) as [raw|] eqn:E; [destruct (mask_all raw (sb_mask rule)) eqn:Em|]; cbn [fst snd].
  - split_and!; [done|left|done|by exists raw].
  - destruct IH as [? IH]. split; [done|]. destruct (snd _) as [r|]; [|done]. destruct IH as (? & ? & ?). split_and!; [by right|done|done].
  - destruct IH as [? IH]. split; [done|]. destruct (snd _) as [r|]; [|done]. destruct IH as (? & ? & ?). split_and!; [by right|done|done].
Qed.

Lemma first_state_truncated rules (m : values_t) : first_state rules (truncated <$> m) = first_state rules m.
Proof.
  induction rules as [|rule rest IH]; cbn [first_state]; [done|]. rewrite lookup_fmap.
  destruct (m !! sb_register rule); cbn [fmap option_fmap option_map]; by rewrite IH.
Qed.
Lemma active_alarms_truncated rm (m : values_t) : derive_active_alarms rm (truncated <$> m) = derive_active_alarms rm m.
Proof.
  apply List.filter_ext. intros ab. unfold alarm_bit_set. rewrite lookup_fmap. by destruct (m !! ab_register ab).
Qed.

(** *** Reading *)

Section panel_facts.
Context {W : Type} `{MC : ModbusClient W} `{!ModbusClientLaws W}.
Implicit Types (st : words_t * list string * W).

Lemma panel_singles_spec fc a n m errs (w : W) :
  exists m' more w', panel_singles fc a n m errs w = (m', errs ++ more, w') /\
    (forall x, is_Some (m !! x) -> is_Some (m' !! x)) /\
    (more = [] -> forall x, a <= x < a + Z.of_nat n -> is_Some (m' !! x)).
Proof.
  revert a m errs w. induction n as [|n IH]; intros a m errs w; cbn [panel_singles].
  { exists m, [], w. rewrite app_nil_r. split_and!; [done|done|lia]. }
  destruct (mc_read a 1 fc w) as [rr w1].
  destruct (match mr_ok rr, mr_words rr with true, Some (x :: _) => Some x | _, _ => None end) as [x|] eqn:E.
  - destruct (IH (a + 1) (<[a := x]> m) errs w1) as (m' & more & w' & Hr & Hm & Hc). exists m', more, w'.
    split_and!.
    + destruct (mr_ok rr), (mr_words rr) as [[|y ys]|]; try done. by injection E as ->.
    + intros y Hy. apply Hm. destruct (decide (a = y)) as [->|]; [rewrite lookup_insert_eq; by eexists|by rewrite lookup_insert_ne].
    + intros Hmore y Hy. destruct (decide (y = a)) as [->|]; [|by apply Hc; [|lia]].
      apply Hm. rewrite lookup_insert_eq. by eexists.
  - match goal with |- context [panel_singles fc (a + 1) n m (errs ++ [?l]) w1] => set (line := l) end.
    destruct (IH (a + 1) m (errs ++ [line]) w1) as (m' & more & w' & Hr & Hm & _). exists m', (line :: more), w'. split_and!.
    + rewrite <- app_assoc in Hr. destruct (mr_ok rr), (mr_words rr) as [[|y ys]|]; try done; exact Hr.
    + exact Hm.
    + done.
Qed.

Lemma panel_batch_spec fc m errs (w : W) b :
  1 <= snd b ->
  exists m' more w', panel_batch fc (m, errs, w) b = (m', errs ++ more, w') /\
    (forall x, is_Some (m !! x) -> is_Some (m' !! x)) /\
    (more = [] -> forall x, x ∈ batch_words b -> is_Some (m' !! x)).
Proof.
  destruct b as [start count]. cbn [snd]. intros Hc. unfold panel_batch. destruct (mc_read start count fc w) as [r w1] eqn:Er.
  destruct (match mr_ok r, mr_words r with true, Some (x :: xs) => Some (x :: xs) | _, _ => None end) as [ws|] eqn:E.
  - assert (mr_ok r = true /\ mr_words r = Some ws /\ ws <> []) as (Eok & Ew & Hne).
    { destruct (mr_ok r), (mr_words r) as [[|y ys]|]; try done. by injection E as <-. }
    destruct (mc_read_ok _ _ _ _ _ _ Er Eok) as (ws' & Ew' & Hlen). assert (ws' = ws) as -> by congruence.
    exists (put_words start ws m), [], w1. rewrite app_nil_r, Eok, Ew. split_and!.
    + by destruct ws.
    + intros x Hx. apply put_words_lookup. by right.
    + intros _ x Hx. unfold batch_words in Hx. cbn [fst snd] in Hx. apply elem_of_seqZ in Hx. apply put_words_lookup. left. lia.
  - match goal with |- context [panel_singles fc start (Z.to_nat count) m (errs ++ [?l]) w1] => set (line := l) end.
    destruct (panel_singles_spec fc start (Z.to_nat count) m (errs ++ [line]) w1) as (m' & more & w' & Hr & Hm & Hs).
    exists m', (line :: more), w'. split_and!.
    + rewrite <- app_assoc in Hr. destruct (mr_ok r), (mr_words r) as [[|y ys]|]; try done; exact Hr.
    + exact Hm.
    + done.
Qed.

Lemma panel_batches_spec fc bs m errs (w : W) :
  Forall (fun b => 1 <= snd b) bs ->
  exists m' more w', foldl (panel_batch fc) (m, errs, w) bs = (m', errs ++ more, w') /\
    (forall x, is_Some (m !! x) -> is_Some (m' !! x)) /\
    (more = [] -> forall b x, b ∈ bs -> x ∈ batch_words b -> is_Some (m' !! x)).
Proof.
  intros Hbs. revert m errs w. induction Hbs as [|b bs Hb Hbs IH]; intros m errs w; cbn [foldl].
  { exists m, [], w. rewrite app_nil_r. split_and!; [done|done|]. intros _ b x Hb. by apply elem_of_nil in Hb. }
  destruct (panel_batch_spec fc m errs w b Hb) as (m1 & more1 & w1 & -> & Hm1 & Hs1).
  destruct (IH m1 (errs ++ more1) w1) as (m2 & more2 & w2 & -> & Hm2 & Hs2).
  exists m2, (more1 ++ more2), w2. rewrite app_assoc. split_and!; [done|naive_solver|].
  intros [-> ->]%app_eq_nil b' x [->|Hb']%elem_of_cons Hx; [by apply Hm2, Hs1|by eapply Hs2].
Qed.

Lemma panel_value_some m r :
  (forall x, x ∈ words_of r -> is_Some (m !! x)) -> is_Some (panel_value m r).
Proof.
  intros Hm. unfold panel_value, raw_words, words_of in *. 
  assert (forall l : list Z, (forall i, i ∈ l -> is_Some (m !! (r_addr r + i))) ->
    existsb (fun o : option Z => match o with None => true | Some _ => false end) (map (fun i => m !! (r_addr r + i)) l) = false /\
    length (omap id (map (fun i => m !! (r_addr r + i)) l)) = length l) as Hl.
  { induction l as [|i l IH]; [done|]. intros Hl. destruct IH as [IH1 IH2]; [intros j Hj; apply Hl; by right|].
    destruct (Hl i) as [x Hx]; [left|]. cbn. rewrite Hx. cbn. by rewrite IH1, IH2. }
  destruct (Hl (seqZ 0 (r_words r))) as [-> Hlen].
  { intros i Hi%elem_of_seqZ. apply Hm, elem_of_seqZ. lia. }
  unfold decode_value. assert (is_Some (decode_raw (r_type r) (omap id (map (fun i => m !! (r_addr r + i)) (seqZ 0 (r_words r))))))
    as [v ->].
  { apply decode_raw_is_Some. rewrite Hlen, length_seqZ. pose proof (r_words_pos r). unfold r_words in *. lia. }
  case_match; by eexists.
Qed.
End panel_facts.

(** *** Meanings *)

Lemma append_assoc (a b c : string) : (a +:+ b) +:+ c = a +:+ (b +:+ c).
Proof. induction a as [|x a IH]; [done|]. exact (f_equal (String x) IH). Qed.
Lemma append_empty (a : string) : a +:+ "" = a.
Proof. induction a as [|x a IH]; [done|]. exact (f_equal (String x) IH). Qed.

Lemma meaning_set reg mask label m reg' mask' :
  meaning (set_meaning reg mask label m) reg' mask' =
  if decide ((reg', mask') = (reg, mask)) then Some label else meaning m reg' mask'.
Proof.
  unfold meaning, set_meaning. destruct (decide (reg = reg')) as [->|Hr].
  - rewrite lookup_insert_eq. cbn [default from_option id]. destruct (decide (mask = mask')) as [->|Hm].
    + rewrite lookup_insert_eq. by rewrite decide_True.
    + rewrite lookup_insert_ne by done. rewrite decide_False by congruence. done.
  - rewrite lookup_insert_ne by done. by rewrite decide_False by congruence.
Qed.

Definition bit_key (ab : AlarmBit) : string * Z := (ab_register ab, ab_mask ab).

Lemma alarm_meaning l m ab :
  NoDup (bit_key <$> l) -> ab ∈ l ->
  meaning (foldl (fun m ab => set_meaning (ab_register ab) (ab_mask ab) (alarm_label ab) m) m l) (ab_register ab) (ab_mask ab) =
    Some (alarm_label ab).
Proof.
  revert m. induction l as [|x l IH]; intros m Hn Hin; [by apply elem_of_nil in Hin|].
  cbn in Hn. apply NoDup_cons in Hn as [Hx Hn]. cbn [foldl]. apply elem_of_cons in Hin as [->|Hin]; [|by apply IH].
  assert (forall l m, bit_key x ∉ bit_key <$> l ->
    meaning (foldl (fun m ab => set_meaning (ab_register ab) (ab_mask ab) (alarm_label ab) m) m l) (ab_register x) (ab_mask x) =
    meaning m (ab_register x) (ab_mask x)) as Hskip.
  { clear. induction l as [|y l IH]; intros m Hni; [done|]. cbn in Hni. apply not_elem_of_cons in Hni as [Hy Hni]. cbn [foldl].
    rewrite IH by done. rewrite meaning_set, decide_False; [done|]. exact Hy. }
  rewrite Hskip by done. by rewrite meaning_set, decide_True.
Qed.

Lemma state_label_keeps rules m reg mask pre :
  pre <> ""%string -> (exists suf, meaning m reg mask = Some (pre +:+ suf)) ->
  exists suf, meaning (foldl add_state_label m rules) reg mask = Some (pre +:+ suf).
Proof.
  intros Hpre. revert m. induction rules as [|rule rules IH]; intros m Hm; [done|]. cbn [foldl]. apply IH.
  destruct Hm as [suf Hm]. unfold add_state_label. rewrite meaning_set. case_decide as E; [|by exists suf].
  injection E as -> ->. rewrite Hm. destruct (String.eqb_spec (pre +:+ suf) "") as [Ee|_]; [by destruct pre|].
  eexists. by rewrite append_assoc.
Qed.

Lemma bit_meanings_alarm rm ab :
  NoDup (bit_key <$> rm_alarm_bits rm) -> ab ∈ rm_alarm_bits rm ->
  exists suf, meaning (bit_meanings rm) (ab_register ab) (ab_mask ab) = Some (alarm_label ab +:+ suf).
Proof.
  intros Hn Hin. apply state_label_keeps.
  - unfold alarm_label. by destruct (ab_code ab).
  - exists ""%string. rewrite (alarm_meaning _ _ _ Hn Hin). by rewrite append_empty.
Qed.

Lemma bit_row_present rm name v bit label :
  0 <= bit < 16 -> Z.land v (Z.shiftl 1 bit) <> 0 -> meaning (bit_meanings rm) name (Z.shiftl 1 bit) = Some label ->
  (Z.shiftl 1 bit, label) ∈ bit_rows rm name v.
Proof.
  intros Hb Hv Hm. unfold bit_rows. apply list_elem_of_omap. exists bit. split.
  - apply list_elem_of_In, in_rev. rewrite rev_involutive. apply list_elem_of_In, elem_of_seqZ. lia.
  - cbv zeta. rewrite (proj2 (Z.eqb_neq _ _) Hv), Hm. done.
Qed.

(** ** Theorems *)

(** A scan *)
Theorem scan_complete {W} {MC : ModbusClient W} {L : ModbusClientLaws W} fc batch first last (w : W) :
  1 <= batch ->
  exists result w', scan_one_fc (Z.to_nat (last + 1 - first)) fc batch first last w = Some (result, w') /\
    forall a, is_Some (result !! a) <-> first <= a <= last.
Proof.
  intros Hb. unfold scan_one_fc.
  destruct (scan_loop_total (Z.to_nat (last + 1 - first)) fc batch last first ∅ w Hb) as (r & w' & -> & Hr); [lia|].
  exists r, w'. split; [done|]. intros a. rewrite Hr, lookup_empty. split; [intros [?|[? [=]]]; done|by left].
Qed.

(** A batch of zero words, which the option allows, keeps the scan at its first
    address: no number of steps ends it. *)
Theorem scan_batch_zero_hangs {W} {MC : ModbusClient W} fuel fc batch first last (w : W) :
  batch <= 0 -> first <= last -> scan_one_fc fuel fc batch first last w = None.
Proof. apply scan_loop_stuck. Qed.

(** The summary of a scan *)
Theorem scan_summary_exact (addrs : list Z) (live : list (Z * Z)) :
  NoDup addrs ->
  concat (map range_list (ranges addrs)) = merge_sort Z.le addrs /\ apart (ranges addrs) /\
  concat (map row_addrs (live_rows (length live) live)) = map fst live /\
  Forall (row_shows live) (live_rows (length live) live).
Proof.
  intros Hn. pose proof (merge_sort_Z_spec addrs Hn) as Hs. unfold ranges.
  destruct (live_rows_cover (length live) live) as [H1 H2]; [done|].
  destruct (merge_sort Z.le addrs) as [|a rest]; [by split_and!|].
  destruct (ranges_from_spec a a rest) as (Hc & Ha & _); [lia|done|]. split_and!; [|done|done|done].
  rewrite Hc. replace (a - a + 1) with 1 by lia. by rewrite (seqZ_cons a 1) by lia.
Qed.

(** The panel report *)
Theorem panel_agrees rm d :
  let v := plain_map d in
  fst (fired (rm_engine_state_bits rm) (value_map d)) = derive_engine_state rm v /\
  derive_active_alarms rm (value_map d) = derive_active_alarms rm v /\
  match snd (fired (rm_engine_state_bits rm) (value_map d)) with
  | Some rule => rule ∈ rm_engine_state_bits rm /\ sb_state rule = derive_engine_state rm v /\
                 exists raw, v !! sb_register rule = Some raw /\ mask_all raw (sb_mask rule) = true
  | None => derive_engine_state rm v = "unknown"%string
  end /\
  (NoDup (bit_key <$> rm_alarm_bits rm) -> forall ab bit,
     ab ∈ derive_active_alarms rm v -> ab_mask ab = Z.shiftl 1 bit -> 0 <= bit < 16 ->
     exists x suf, v !! ab_register ab = Some x /\
       (ab_mask ab, alarm_label ab +:+ suf) ∈ bit_rows rm (ab_register ab) (Z.land (py_int x) 0xFFFF)).
Proof.
  cbv zeta. rewrite value_map_truncates. destruct (fired_spec (rm_engine_state_bits rm) (truncated <$> plain_map d)) as [H1 H2].
  unfold derive_engine_state. rewrite <- (first_state_truncated _ (plain_map d)). split_and!.
  - exact H1.
  - apply active_alarms_truncated.
  - destruct (snd _) as [rule|]; [|done]. destruct H2 as (Hin & Hs & raw & Hr & Hm). split_and!; [done|done|].
    rewrite lookup_fmap in Hr. destruct (plain_map d !! sb_register rule) as [x|]; [|done]. injection Hr as <-. by exists x.
  - intros Hn ab bit Hact Hmask Hb. apply elem_of_active_alarms in Hact as [Hin Hset]. unfold alarm_bit_set in Hset.
    destruct (plain_map d !! ab_register ab) as [x|] eqn:Ex; [|done]. destruct (bit_meanings_alarm rm ab Hn Hin) as [suf Hm].
    exists x, suf. split; [done|]. rewrite Hmask in *. apply bit_row_present; [done| |done].
    unfold mask_any in Hset. apply negb_true_iff, Z.eqb_neq in Hset.
    rewrite <- Z.land_assoc, (Z.land_comm 0xFFFF). intros E. apply Hset. rewrite <- E. f_equal.
    symmetry. change 0xFFFF with (Z.ones 16). rewrite Z.land_ones by lia. apply Z.mod_small.
    rewrite Z.shiftl_1_l. split; [apply Z.pow_nonneg; lia|apply Z.pow_lt_mono_r; lia].
Qed.

(** An exit code of 0 *)
Theorem panel_complete {W} {MC : ModbusClient W} {L : ModbusClientLaws W} rm (w : W) m errs w' :
  panel_read rm w = (m, errs, w') -> panel_rc errs = 0 ->
  Forall (fun rv => is_Some (snd rv)) (panel_decoded rm m).
Proof.
  unfold panel_read, panel_rc. intros Hr Hrc. destruct errs as [|e errs]; [|by destruct (existsb _ _)].
  destruct (batch_reads_cover default_max_words ltac:(done) (rm_registers rm)) as (Hcov & Hsize & _).
  destruct (panel_batches_spec (rm_read_fc rm) (batch_reads (rm_registers rm) default_max_words) ∅ [] w) as (m' & more & w2 & E & _ & Hall).
  { eapply Forall_impl; [exact Hsize|]. intros b [Hb _]. exact Hb. }
  rewrite E in Hr. injection Hr as -> Emore ->. cbn in Emore. apply Forall_forall. intros [r v] Hin.
  unfold panel_decoded in Hin. apply list_elem_of_fmap in Hin as (r' & [= <- ->] & Hin). cbn [snd].
  apply panel_value_some. intros x Hx. destruct (Hcov r Hin) as (b & Hb & Hrb). apply (Hall Emore b x Hb).
  unfold batch_words. apply elem_of_seqZ. unfold words_of in Hx. apply elem_of_seqZ in Hx. destruct Hrb. lia.
Qed.

(** The two signed sentinels [_value_note] names cannot occur: unscaled signed values
    never reach them. *)
Lemma signed_sentinel_missed r ws v :
  r_type r = s16 \/ r_type r = s32 -> scale_is_one (r_scale r) = true -> decode_value r ws = Some v ->
  value_note r (Some v) <> Some Sentinel16 /\ value_note r (Some v) <> Some Sentinel32.
Proof.
  intros Ht Hs Hd. unfold decode_value in Hd. rewrite Hs in Hd.
  destruct (decode_raw (r_type r) ws) as [z|] eqn:Ez; [|done]. injection Hd as <-.
  pose proof (decode_raw_bounds _ _ _ Ez) as Hb. unfold value_note. cbn [py_int].
  destruct Ht as [Ht|Ht]; rewrite Ht in *; cbn in Hb.
  - rewrite (proj2 (Z.eqb_neq z 0xFFFF)) by lia. cbn. repeat case_match; done.
  - rewrite (proj2 (Z.eqb_neq z 0xFFFFFFFF)) by lia. cbn. repeat case_match; done.
Qed.

(** [doctor] *)
Theorem doctor_weaker_than_start (a : AuthConfig) ephemeral secret :
  secret_gates false ephemeral a = inr secret -> auth_lines a = [LnAuthOk].
Proof.
  unfold secret_gates, auth_lines, doctor_pw_ok, doctor_sec_ok, secret_unusable, PLACEHOLDER. cbn [negb andb].
  destruct (ac_jwt_secret a =? "")%string, (ac_jwt_secret a =? "REPLACE_ME")%string, (String.length (ac_jwt_secret a) <? 32)%nat; cbn; try done.
  destruct (ac_admin_password_hash a =? "")%string, (ac_admin_password_hash a =? "REPLACE_ME")%string; cbn; done.
Qed.

(** A secret the start refuses, and of which [doctor] says that it is configured. *)
Lemma doctor_accepts_unstartable :
  let a := {| ac_admin_password_hash := "hunter2"; ac_operator_name := "admin"; ac_jwt_secret := "short"; ac_session_hours := 8;
              ac_cookie_secure := None; ac_cookie_samesite := "strict" |}%string in
  auth_lines a = [LnAuthOk] /\ secret_gates false "" a = inl NoSecret.
Proof. done. Qed.

(** The diagnostics talk to the controller the service talks to. *)
Lemma diagnostics_same_target s rm retries :
  match build_client_from_settings s rm retries, choose_client s rm with
  | MockModbusClient a, MockModbusClient b => a = b
  | TcpRtuClient a, TcpRtuClient b =>
      tp_host a = tp_host b /\ tp_port a = tp_port b /\ tp_framer a = tp_framer b /\ tp_slave a = tp_slave b
  | SerialClient a, SerialClient b =>
      sp_device a = sp_device b /\ sp_baud a = sp_baud b /\ sp_parity a = sp_parity b /\ sp_slave a = sp_slave b
  | _, _ => False
  end.
Proof. unfold build_client_from_settings, choose_client. destruct (st_mock s); [done|]. by destruct (st_transport s =? "tcp")%string. Qed.

(** [doctor] ends with 0 exactly when nothing it can see is wrong. *)
Theorem doctor_verdict d :
  snd (doctor d) = 0 <->
  exists s rm, de_config d = inr s /\ auth_lines (st_auth s) = [LnAuthOk] /\ de_map d s = inr rm /\ de_db d s = inr tt /\
    (st_mock s = false -> de_link d s = true /\ exists r, de_probe d s rm = Some r /\ mr_ok r = true).
Proof.
  unfold doctor, auth_lines. destruct (de_config d) as [e|s]; [split; [done|by intros (? & ? & ? & _)]|].
  destruct (doctor_pw_ok (st_auth s) && doctor_sec_ok (st_auth s)) eqn:Ea.
  2: { split.
       - intros Hrc. exfalso. revert Hrc. cbn. repeat (case_match; cbn; simplify_eq; try done).
       - intros (s' & rm & [= <-] & Hl & _). rewrite Ea in Hl. apply andb_false_iff in Ea as [E|E]; rewrite E in Hl; [done|].
         by destruct (doctor_pw_ok _). }
  destruct (de_map d s) as [e|rm] eqn:Em; [split; [done|intros (s' & rm & [= <-] & _ & H & _); congruence]|].
  destruct (de_db d s) as [e|[]] eqn:Ed.
  { split; [intros Hrc; exfalso; revert Hrc; cbn; repeat (case_match; cbn; simplify_eq; try done)|].
    intros (s' & rm' & [= <-] & _ & _ & H & _). congruence. }
  split.
  - intros Hrc. exists s, rm. rewrite Ea. split_and!; try done. intros Hmock. rewrite Hmock in Hrc.
    destruct (de_link d s); [|done]. split; [done|]. destruct (de_probe d s rm) as [r|]; [|done]. exists r. split; [done|].
    cbn in Hrc. by destruct (mr_ok r).
  - intros (s' & rm' & [= <-] & _ & Hm & _ & Hl). rewrite Em in Hm. injection Hm as <-.
    destruct (st_mock s); [done|]. destruct (Hl eq_refl) as (-> & r & -> & Hr). cbn. by rewrite Hr.
Qed.
