(* ===== verification/PanelReport.v ===== *)
(** * The reports of [genwatch panel] (__main__.py)

    What the decoded snapshot of Diagnostics.v is printed as: the text report, the JSON
    document and the computed parts of the printable sheet (its fixed frame is not
    modelled).  Times and versions come in as text.

    Theorems: the text report lists every register once, under one heading per group; a
    bit field that could not be read is printed as one without a bit set; text of the
    register map cannot add markup to the sheet, and comes out of it as it went in. *)

From S2P Require Import Prelude PyNum PyVal Registers RegisterFacts RegisterValidation Loader Client Poller Http Config Boot Diagnostics.

Local Open Scope Z_scope.
Local Open Scope gw_scope.
Local Open Scope string_scope.

(** ** Layout *)

(** Characters of a UTF-8 string: the bytes that do not continue one. *)
Fixpoint str_width (s : string) : nat :=
  match s with
  | EmptyString => 0
  | String c s => (if ((128 <=? code_of c) && (code_of c <? 192))%Z then 0 else 1) + str_width s
  end.
Definition spaces (n : nat) : string := String.concat "" (repeat " " n).
(** [f"{s:<n}"] and [f"{s:>n}"] *)
Definition ljust (n : nat) (s : string) : string := s +:+ spaces (n - str_width s).
Definition rjust (n : nat) (s : string) : string := spaces (n - str_width s) +:+ s.
Definition hex4 (n : Z) : string := "0x" +:+ fmt_04X n.

Definition link_text (s : Settings) : string :=
  if st_transport s =? "tcp" then "tcp " +:+ tc_host (st_modbus_tcp s) +:+ ":" +:+ str_Z (tc_port (st_modbus_tcp s))
  else "serial " +:+ sc_device (st_serial s) +:+ " " +:+ str_Z (sc_baud (st_serial s)).

Section report.
Variables (rm : RegisterMap) (st : Settings) (words : gmap Z Z) (errs : list string).
(** [f"{elapsed_ms:.0f}"], [round(elapsed_ms, 1)], the capture time and the version. *)
Variables (elapsed : string) (elapsed_1 : pynum) (timestamp version : string).

Definition shown : Type := RegisterDef * option pynum.
Definition decoded : list shown := panel_decoded rm words.
Definition fired_state : string := fst (fired (rm_engine_state_bits rm) (value_map decoded)).
Definition fired_rule : option StateBitRule := snd (fired (rm_engine_state_bits rm) (value_map decoded)).
Definition active : list AlarmBit := derive_active_alarms rm (value_map decoded).

(** [int(value) & 0xFFFF] *)
Definition low16 (v : pynum) : Z := Z.land (py_int v) 0xFFFF.

(** ** The text report *)

Definition note_text (r : RegisterDef) (v : option pynum) : string :=
  let value := match v with Some x => py_str x | None => "" end in
  match value_note r v with
  | None => ""
  | Some ReadFailed => "  ← read failed"
  | Some Sentinel16 => "  ← 0xFFFF sentinel (likely unconfigured on this panel)"
  | Some Sentinel32 => "  ← 0xFFFFFFFF sentinel (likely unconfigured)"
  | Some OverPercent => "  ← " +:+ value +:+ " > 100% (scale or register-meaning mismatch?)"
  | Some HighPsi => "  ← " +:+ value +:+ " psi unusually high"
  | Some OverRpm => "  ← " +:+ value +:+ " rpm above redline for a genset"
  end.

Definition bit_line (row : Z * string) : string :=
  "     " +:+ (if snd row =? "?" then " ?" else "  ") +:+ "  " +:+ hex4 (fst row) +:+ "  " +:+ snd row.

(** The lines of a register. *)
Definition register_lines (rv : shown) : res (list string) :=
  let '(r, v) := rv in
  let raw := fmt_raw (raw_words words r) in
  if bool_decide (r_type r = bitfld) then
    let n := match v with Some x => low16 x | None => 0%Z end in
    r_ret (("  " +:+ ljust 22 (r_name r) +:+ " " +:+ hex4 n +:+ "                raw=" +:+ raw) ::
           (if (n =? 0)%Z then ["                           (no bits set)"] else map bit_line (bit_rows rm (r_name r) n)))
  else
    val <-? fmt_value v ;;
    r_ret ["  " +:+ ljust 22 (r_name r) +:+ " " +:+ rjust 14 val +:+ "  " +:+ ljust 6 (r_unit r) +:+ " raw=" +:+ raw +:+ note_text r v].

(** [groups.setdefault(group, \[\]).append(d)] *)
Definition group_of (rv : shown) : string := if r_group (fst rv) =? "" then "Other" else r_group (fst rv).
Definition add_to_group (groups : odict string (list shown)) (rv : shown) : odict string (list shown) :=
  od_set (group_of rv) (default [] (od_get (group_of rv) groups) ++ [rv])%list groups.
Definition groups : odict string (list shown) := foldl add_to_group [] decoded.

Definition group_lines (g : string * list shown) : res (list string) :=
  rows <-? r_map register_lines (snd g) ;; r_ret ((fst g :: concat rows) ++ [""])%list.

Definition alarm_line (ab : AlarmBit) : string :=
  "  - " +:+ ljust 5 (str_upper (ab_severity ab)) +:+ "  " +:+ ljust 28 (ab_code ab) +:+ "  " +:+ ab_desc ab.

Definition state_lines : list string :=
  match fired_rule with
  | Some rule => ["Engine state: " +:+ str_upper fired_state;
                  "  (matched: " +:+ sb_register rule +:+ " bit " +:+ hex4 (sb_mask rule) +:+ " set)"]
  | None => ["Engine state: " +:+ str_upper fired_state +:+ "  (no rule matched)"]
  end.

Definition checklist : list string :=
  ["Cross-check against the H-100 LCD:"; "  1. Does the panel show the same engine state as above?";
   "  2. Does the panel show the same active warnings/alarms?";
   "     If a warning is listed here but absent on the panel, the bit";
   "     mapping in registers/h100.yaml is wrong for your revision.";
   "  3. Spot-check rpm, oil pressure, coolant temp, battery V, fuel %.";
   "     Values flagged with ← are structurally suspicious (sentinel,"; "     out-of-range, etc.) and worth confirming."; ""].

Definition text_report : res (list string) :=
  body <-? r_map group_lines groups ;;
  r_ret ((["== Castle Generator Monitor — panel (" +:+ str_Z (Z.of_nat (length decoded)) +:+ " registers in " +:+ elapsed +:+ " ms) ==";
           "  Link:    " +:+ link_text st +:+ "  slave=" +:+ str_Z (rm_slave rm); "  Map:     " +:+ rm_path rm] ++
          match errs with
          | [] => []
          | _ => ["  WARN:    " +:+ str_Z (Z.of_nat (length errs)) +:+ " read issue(s); some values may be missing"]
          end ++ [""] ++ state_lines ++ [""] ++ concat body ++
          ("Active alarms (from alarm_bits map)" :: match active with [] => ["  none"] | _ => map alarm_line active end) ++
          [""] ++ checklist)%list).

(** ** The JSON document *)

Definition json_register (rv : shown) : pyval :=
  let '(r, v) := rv in
  PvDict [("name", PvStr (r_name r)); ("addr", PvStr (hex4 (r_addr r))); ("type", PvStr (type_name (r_type r)));
          ("value", match v with Some x => PvNum x | None => PvNone end); ("unit", PvStr (r_unit r));
          ("raw_hex", PvList (map (fun o => match o with None => PvNone | Some w => PvStr (hex4 w) end) (raw_words words r)))].

Definition json_report : pyval :=
  PvDict
    [("transport", PvStr (st_transport st)); ("slave", num (rm_slave rm)); ("engine_state", PvStr fired_state);
     ("engine_state_via", match fired_rule with
                          | Some rule => PvDict [("register", PvStr (sb_register rule)); ("mask", PvStr (hex4 (sb_mask rule)))]
                          | None => PvNone
                          end);
     ("registers", PvList (map json_register decoded));
     ("active_alarms", PvList (map (fun ab => PvDict [("code", PvStr (ab_code ab)); ("desc", PvStr (ab_desc ab));
                                                      ("severity", PvStr (ab_severity ab))]) active));
     ("errors", PvList (map PvStr errs)); ("elapsed_ms", PvNum elapsed_1)].

(** ** The computed parts of the printable sheet

    Templates are written with a back quote where the source has a double one. *)

Definition tpl (s : string) : string := str_map (fun c => if (code_of c =? 96)%Z then dquote else c) s.

(** [html.escape] of a character. *)
Definition escape_char (c : Ascii.ascii) : string :=
  let n := code_of c in
  if (n =? 38)%Z then "&amp;" else if (n =? 60)%Z then "&lt;" else if (n =? 62)%Z then "&gt;"
  else if (n =? 34)%Z then "&quot;" else if (n =? 39)%Z then "&#x27;" else String c "".
Fixpoint html_escape (s : string) : string :=
  match s with EmptyString => "" | String c s => escape_char c +:+ html_escape s end.

Definition warning_row (ab : AlarmBit) : string :=
  tpl "
        <tr class=`warn`>
          <td><strong>" +:+ html_escape (ab_code ab) +:+ tpl "</strong><br><span class=`desc`>" +:+ html_escape (ab_desc ab) +:+
  tpl "</span></td>
          <td class=`mono`>" +:+ html_escape (ab_register ab) +:+ " " +:+ hex4 (ab_mask ab) +:+ tpl "</td>
          <td class=`chk`>☐ Yes &nbsp;&nbsp; ☐ No</td>
          <td class=`write`></td>
        </tr>".
Definition no_warnings : string := tpl "
        <tr><td colspan=`4` style=`text-align:center; color:#666;`>
          GenWatch reports no active warnings. Confirm the panel agrees:
          ☐ Panel also shows no warnings &nbsp;&nbsp;&nbsp;
          ☐ Panel shows warnings (write here): _______________________
        </td></tr>".
Definition warning_rows : string := match active with [] => no_warnings | _ => String.concat "" (map warning_row active) end.

(** [by_name.get(name)]: of registers of one name the last. *)
Definition by_name (name : string) : option shown := last (List.filter (fun rv => r_name (fst rv) =? name) decoded).
Definition get_val (name : string) : res string :=
  match by_name name with Some (_, Some v) => fmt_value (Some v) | _ => r_ret "—" end.
Definition get_unit (name : string) : string := match by_name name with Some (r, _) => r_unit r | None => "" end.

Definition numeric_targets : list (string * string) :=
  [("battery_volts", "Battery voltage"); ("run_hours", "Run hours (lifetime)"); ("coolant_temp", "Coolant temperature");
   ("oil_temp", "Oil temperature"); ("fuel_level_pct", "Fuel level")].
Definition numeric_row (target : string * string) : res string :=
  val <-? get_val (fst target) ;;
  r_ret (tpl "
        <tr>
          <td>" +:+ html_escape (snd target) +:+ tpl "</td>
          <td class=`mono num`>" +:+ html_escape val +:+ " " +:+ html_escape (get_unit (fst target)) +:+ tpl "</td>
          <td class=`write`></td>
          <td class=`chk`>☐ Match &nbsp; ☐ Off</td>
        </tr>").
Definition numeric_rows : res string := rows <-? r_map numeric_row numeric_targets ;; r_ret (String.concat "" rows).

(** The value of a register of the diagnostic table; [{x / 10:.1f}] of a number. *)
Definition value_of_name (name : string) : option pynum := match by_name name with Some (_, v) => v | None => None end.
Definition tenth (v : pynum) : string := fmt_fixed 1 (f_div (py_float v) (f_of_Z 10)).

Definition diag_rows : list string :=
  (match value_of_name "coolant_level" with
   | Some v => [tpl "
        <tr>
          <td>Coolant level<br><span class=`desc`>GenWatch reads " +:+ py_str v +:+ tpl " (impossible if % — likely scale issue)</span></td>
          <td class=`write`></td>
          <td class=`note`>If panel shows ~" +:+ tenth v +:+ tpl " → set <span class=`mono`>scale: 0.1</span><br>If different → register may not mean coolant level</td>
        </tr>"]
   | None => []
   end ++
   match value_of_name "quiettest_status" with
   | Some v => [tpl "
        <tr>
          <td>Quiet-test status<br><span class=`desc`>GenWatch reads " +:+ py_str v +:+ tpl " (0xFFFF = `unconfigured` sentinel)</span></td>
          <td class=`write`>Has a quiet-test ever been run? ☐ Yes ☐ No / unknown</td>
          <td class=`note`>If `no`, the 0xFFFF is expected; will populate on first quiet-test</td>
        </tr>"]
   | None => []
   end ++
   match value_of_name "engine_status_code" with
   | Some v => [tpl "
        <tr>
          <td>Engine status code<br><span class=`desc`>GenWatch reads " +:+ py_str v +:+ tpl "</span></td>
          <td class=`write`>Panel home screen status text / code:</td>
          <td class=`note`>Tells us whether 0x0132 is the actual status enum on your panel</td>
        </tr>"]
   | None => []
   end ++
   match value_of_name "key_switch_state" with
   | Some v => [tpl "
        <tr>
          <td>Key switch position<br><span class=`desc`>GenWatch raw " +:+ hex4 (low16 v) +:+ tpl "</span></td>
          <td class=`write`>Physical key position:&nbsp;&nbsp;☐ OFF &nbsp;☐ AUTO &nbsp;☐ MANUAL</td>
          <td class=`note`>Lets us label the bits set in key_switch_state</td>
        </tr>"]
   | None => []
   end)%list.
Definition diag_table : string :=
  match diag_rows with [] => "<tr><td colspan='3'>No diagnostic values flagged.</td></tr>" | rows => String.concat "" rows end.

(** Set bits without a meaning, high to low. *)
Definition unknown_bits (r : RegisterDef) (v : pynum) : list Z :=
  List.filter (fun b => Z.testbit (low16 v) b && bool_decide (meaning (bit_meanings rm) (r_name r) (Z.shiftl 1 b) = None)) (rev (seqZ 0 16)).
Definition unknown_item (rv : shown) : option string :=
  match rv with
  | (r, Some v) =>
      if negb (bool_decide (r_type r = bitfld)) then None
      else match unknown_bits r v with
           | [] => None
           | bits => Some ("<li><span class='mono'>" +:+ html_escape (r_name r) +:+ "</span>: " +:+
                           str_join ", " (map (fun b => hex4 (Z.shiftl 1 b)) bits) +:+ "</li>")
           end
  | (_, None) => None
  end.
Definition unknown_html : string :=
  match omap unknown_item decoded with
  | [] => "<li>None — every set bit has a known meaning. Nice.</li>"
  | items => String.concat "" items
  end.

Definition state_class : string :=
  if fired_state =? "alarm" then "state-alarm"
  else if existsb (String.eqb fired_state) ["running"; "cranking"; "exercising"; "cooling"] then "state-running" else "state-stopped".
Definition fired_rule_text : string :=
  match fired_rule with Some rule => sb_register rule +:+ " bit " +:+ hex4 (sb_mask rule) +:+ " set" | None => "no rule matched" end.

(** The head of the sheet. *)
Definition sheet_meta : string :=
  tpl "
  Site: <strong>" +:+ html_escape (site_name (rm_site rm)) +:+ "</strong> (" +:+ html_escape (site_id (rm_site rm)) +:+
  tpl ") &nbsp;·&nbsp;
  Link: <span class=`mono`>" +:+ html_escape (link_text st) +:+ tpl "</span> &nbsp;·&nbsp;
  Slave " +:+ str_Z (rm_slave rm) +:+ " &nbsp;·&nbsp;
  Captured: " +:+ timestamp +:+ "<br>
  Castle Generator Monitor v" +:+ version +:+ " &nbsp;·&nbsp;
  " +:+ str_Z (Z.of_nat (length decoded)) +:+ " registers polled in " +:+ elapsed +:+ " ms
  " +:+ match errs with
        | [] => ""
        | _ => tpl "<br><strong style=`color:#a00;`>⚠ " +:+ str_Z (Z.of_nat (length errs)) +:+ " read warnings</strong>"
        end +:+ "
".
Definition sheet_state : string :=
  tpl "<p>Engine state at capture: <span class=`state " +:+ state_class +:+ tpl "`>" +:+ html_escape (str_upper fired_state) +:+ tpl "</span>
&nbsp;<span class=`desc`>(matched: " +:+ html_escape fired_rule_text +:+ ")</span></p>".
End report.

(** ** Escaped text *)

(** The characters that open or close a tag or an attribute, and their number. *)
Definition is_markup (c : Ascii.ascii) : bool :=
  let n := code_of c in ((n =? 60) || (n =? 62) || (n =? 34) || (n =? 39))%Z.
Fixpoint markup (s : string) : nat :=
  match s with EmptyString => 0 | String c s => (if is_markup c then 1 else 0) + markup s end.

Lemma append_cons c a b : String c a +:+ b = String c (a +:+ b).
Proof. done. Qed.

Lemma append_empty_l a : "" +:+ a = a.
Proof. done. Qed.

Lemma markup_app a b : markup (a +:+ b) = (markup a + markup b)%nat.
Proof. induction a as [|c a IH]; [done|]. rewrite append_cons. cbn [markup]. rewrite IH. lia. Qed.

Lemma escape_char_cases c :
  (exists e, escape_char c = String (Ascii.ascii_of_nat 38) e /\ markup e = 0%nat) \/
  (escape_char c = String c "" /\ is_markup c = false /\ code_of c <> 38%Z).
Proof.
  unfold escape_char, is_markup.
  destruct (Z.eqb_spec (code_of c) 38); [left; by eexists|].
  destruct (Z.eqb_spec (code_of c) 60); [left; by eexists|].
  destruct (Z.eqb_spec (code_of c) 62); [left; by eexists|].
  destruct (Z.eqb_spec (code_of c) 34); [left; by eexists|].
  destruct (Z.eqb_spec (code_of c) 39); [left; by eexists|]. by right.
Qed.

Lemma escape_inert s : markup (html_escape s) = 0%nat.
Proof.
  induction s as [|c s IH]; [done|]. cbn [html_escape]. rewrite markup_app, IH.
  destruct (escape_char_cases c) as [(e & -> & He)|(-> & Hc & _)]; cbn; [by rewrite He|by rewrite Hc].
Qed.

Lemma code_inj a b : code_of a = code_of b -> a = b.
Proof.
  unfold code_of. intros E%Nat2Z.inj. by rewrite <- (Ascii.ascii_nat_embedding a), E, Ascii.ascii_nat_embedding.
Qed.

(** What the escape of a character can be read back from. *)
Lemma escape_char_prefix c d x y : escape_char c +:+ x = escape_char d +:+ y -> c = d /\ x = y.
Proof.
  unfold escape_char.
  destruct (Z.eqb_spec (code_of c) 38), (Z.eqb_spec (code_of c) 60), (Z.eqb_spec (code_of c) 62),
    (Z.eqb_spec (code_of c) 34), (Z.eqb_spec (code_of c) 39); try congruence;
  destruct (Z.eqb_spec (code_of d) 38), (Z.eqb_spec (code_of d) 60), (Z.eqb_spec (code_of d) 62),
    (Z.eqb_spec (code_of d) 34), (Z.eqb_spec (code_of d) 39); try congruence; rewrite ?append_cons, ?append_empty_l; intros E;
  injection E as; first [discriminate|subst; done|split; [apply code_inj; congruence|congruence]].
Qed.

Lemma escape_char_nonempty c x : escape_char c +:+ x <> "".
Proof. destruct (escape_char_cases c) as [(e & -> & _)|(-> & _)]; done. Qed.

Lemma escape_injective s : forall t, html_escape s = html_escape t -> s = t.
Proof.
  induction s as [|c s IH]; intros [|d t]; cbn [html_escape]; [done| | |].
  - intros E. symmetry in E. by apply escape_char_nonempty in E.
  - intros E. by apply escape_char_nonempty in E.
  - intros E%escape_char_prefix. destruct E as [-> E]. f_equal. by apply IH.
Qed.

Lemma markup_hex_digit n : 0 <= n < 16 -> is_markup (hex_digit n) = false.
Proof.
  intros Hn. assert (n ∈ seqZ 0 16) as Hin by (apply elem_of_seqZ; lia).
  clear Hn. revert n Hin. apply Forall_forall. by repeat constructor.
Qed.
Lemma markup_hex_digits fuel n acc : markup (hex_digits fuel n acc) = markup acc.
Proof.
  revert n acc. induction fuel as [|f IH]; intros n acc; [done|]. cbn [hex_digits].
  pose proof (Z.mod_pos_bound n 16 ltac:(lia)) as Hm. destruct (n / 16 =? 0)%Z; [|rewrite IH]; cbn [markup];
    by rewrite markup_hex_digit.
Qed.
Lemma markup_concat l : markup (String.concat "" l) = foldr (fun s n => (markup s + n)%nat) 0%nat l.
Proof.
  induction l as [|s l IH]; [done|]. destruct l as [|t l].
  - cbn. lia.
  - change (String.concat "" (s :: t :: l)) with (s +:+ "" +:+ String.concat "" (t :: l)).
    rewrite !markup_app, IH. done.
Qed.
Lemma markup_zeros n : markup (String.concat "" (repeat "0" n)) = 0%nat.
Proof. rewrite markup_concat. by induction n. Qed.
Lemma markup_hex4 n : markup (hex4 n) = 0%nat.
Proof.
  unfold hex4, fmt_04X. rewrite !markup_app, markup_hex_digits, markup_zeros. by destruct (n <? 0)%Z.
Qed.
Lemma markup_join l : Forall (fun s => markup s = 0%nat) l -> markup (str_join ", " l) = 0%nat.
Proof.
  unfold str_join. induction 1 as [|s l Hs Hl IH]; [done|]. destruct l as [|t l]; [done|].
  change (String.concat ", " (s :: t :: l)) with (s +:+ ", " +:+ String.concat ", " (t :: l)).
  by rewrite !markup_app, Hs, IH.
Qed.

(** ** Theorems *)

(** Text of the register map adds no tag and no attribute to the rows of the sheet: their
    markup is that of the template, whatever the names, codes, descriptions, registers
    and units; and escaped text is read back without loss. *)
Theorem sheet_text_inert :
  (forall ab, markup (warning_row ab) = 40%nat) /\
  (forall rm words target row, numeric_row rm words target = inr row -> markup row = 26%nat) /\
  (forall rm rv item, unknown_item rm rv = Some item -> markup item = 10%nat) /\
  (forall rm words, markup (sheet_state rm words) = 16%nat) /\
  (forall s t, html_escape s = html_escape t -> s = t).
Proof.
  split_and!.
  - intros ab. unfold warning_row. by rewrite !markup_app, !escape_inert, markup_hex4.
  - intros rm words target row. unfold numeric_row. destruct (get_val rm words (fst target)) as [e|v]; [done|]. intros [= <-].
    by rewrite !markup_app, !escape_inert.
  - intros rm [r [v|]] item; [|done]. cbn [unknown_item]. destruct (negb _); [done|]. destruct (unknown_bits rm r v) as [|b bits]; [done|].
    assert (markup (str_join ", " (map (fun b => hex4 (Z.shiftl 1 b)) (b :: bits))) = 0%nat) as Hj
      by (apply markup_join, Forall_fmap, Forall_forall; intros x _; apply markup_hex4).
    revert Hj. generalize (str_join ", " (map (fun b => hex4 (Z.shiftl 1 b)) (b :: bits))). intros j Hj [= <-].
    by rewrite !markup_app, !escape_inert, Hj.
  - intros rm words. unfold sheet_state, state_class. rewrite !markup_app, !escape_inert.
    destruct (fired_state rm words =? "alarm"); [done|]. by destruct (existsb _ _).
  - exact escape_injective.
Qed.

(** The report holds every register of the map once, under the heading of its group and
    in the order of the map. *)
Theorem report_groups rm words :
  NoDup (od_keys (groups rm words)) /\
  (forall g rows, od_get g (groups rm words) = Some rows ->
     rows = List.filter (fun rv => group_of rv =? g) (decoded rm words) /\ rows <> []) /\
  (forall rv, rv ∈ decoded rm words -> od_mem (group_of rv) (groups rm words) = true).
Proof.
  unfold groups. set (P := fun (l : list shown) (gs : odict string (list shown)) =>
    NoDup (od_keys gs) /\
    (forall g, od_get g gs = match List.filter (fun rv => group_of rv =? g) l with [] => None | rows => Some rows end)).
  assert (forall l done_ gs, P done_ gs -> P (done_ ++ l)%list (foldl add_to_group gs l)) as Hfold.
  { induction l as [|rv l IH]; intros done_ gs [Hk Hg]; [by rewrite app_nil_r|]. cbn [foldl].
    replace (done_ ++ rv :: l)%list with ((done_ ++ [rv]) ++ l)%list by by rewrite <- app_assoc. apply IH. split.
    - by apply od_keys_set_NoDup.
    - intros g. unfold add_to_group. rewrite od_get_set, List.filter_app. cbn [List.filter]. case_decide as E.
      + subst g. rewrite String.eqb_refl, Hg.
        by destruct (List.filter (fun rv0 => group_of rv0 =? group_of rv) done_).
      + rewrite (proj2 (String.eqb_neq _ _)) by done. by rewrite app_nil_r, Hg. }
  destruct (Hfold (decoded rm words) [] [] ltac:(split; [constructor|done])) as [Hk Hg]. cbn [app] in Hg.
  split_and!; [exact Hk| |].
  - intros g rows. rewrite Hg. by destruct (List.filter _ _); [|intros [= <-]].
  - intros rv Hrv. unfold od_mem. rewrite Hg. destruct (List.filter _ _) eqn:E; [|done].
    assert (In rv []) as []. rewrite <- E. apply filter_In. split; [by apply list_elem_of_In|apply String.eqb_refl].
Qed.

(** A bit field that could not be read is printed as 0x0000 with no bits set: only the
    dashes of its raw words tell it from one that read zero. *)
Lemma failed_bitfield_printed_as_zero rm words r :
  r_type r = bitfld ->
  exists raw, register_lines rm words (r, None) = inr ["  " +:+ ljust 22 (r_name r) +:+ " 0x0000                raw=" +:+ raw;
                                                       "                           (no bits set)"] /\
    register_lines rm words (r, Some (PInt 0)) = register_lines rm words (r, None).
Proof. intros Ht. exists (fmt_raw (raw_words words r)). unfold register_lines. by rewrite bool_decide_true. Qed.
