(* ===== verification/Cli.v ===== *)
(** * The command line (__main__.py)

    The dispatch of [main] with the commands it runs itself, and what [modbusdump] and
    [scan] print of their reads.  The sub-commands with an argument parser of their own
    are parameters of the dispatch; uvicorn's run is a value it returns.

    Theorems: the hash printed for a password that was typed twice lets exactly that
    password in (in the bytes bcrypt reads); an empty password is refused at the prompt
    but hashed from the command line, and nothing then logs in; the printed dump holds
    every word with its address. *)

From S2P Require Import Prelude PyNum PyVal Registers Client Poller Http Auth Config Boot Diagnostics PanelReport.

Local Open Scope Z_scope.
Local Open Scope gw_scope.
Local Open Scope string_scope.

Inductive output : Type := Out (line : string) | Err (line : string).

(** The arguments of [uvicorn.run] that the environment decides. *)
Record ServeCall : Type := { sv_host : string; sv_port : Z; sv_log_level : string; sv_trusted_proxies : string }.
Record Outcome : Type := { oc_output : list output; oc_serve : option ServeCall; oc_rc : Z }.
Definition printed (l : list output) (rc : Z) : Outcome := {| oc_output := l; oc_serve := None; oc_rc := rc |}.

Definition ARGV_WARNING : string :=
  "warning: passing the password on the command line exposes it via shell history and `ps aux`. Run `genwatch hash` with no argument to be prompted instead.".
Definition NO_TTY : string :=
  "error: `genwatch hash` with no argument requires an interactive terminal. For non-interactive use, pass the password as an argument (less secure — see the warning that prints in that mode).".

Section cli.
Context `{Bcrypt}.
(** The salt drawn, whether stdin is a terminal, what is typed ([None] when the prompt is
    interrupted), [secrets.token_hex(32)], the version and the usage text. *)
Variables (salt : nat) (isatty : bool) (typed : option (string * string)) (token version usage : string).
Variables (env : odict string string) (subcommand : string -> list string -> res Outcome).

Definition environ (name dflt : string) : string := default dflt (od_get name env).

Definition cmd_serve : res Outcome :=
  match int_of_str 10 (environ "GENWATCH_PORT" "8000") with
  | None => inl (ValueError ("invalid literal for int() with base 10: " +:+ repr_str (environ "GENWATCH_PORT" "8000")))
  | Some port =>
      r_ret {| oc_output := [];
               oc_serve := Some {| sv_host := environ "GENWATCH_HOST" "0.0.0.0"; sv_port := port;
                                   sv_log_level := str_lower (environ "GENWATCH_LOG_LEVEL" "info");
                                   sv_trusted_proxies := environ "GENWATCH_TRUSTED_PROXIES" "127.0.0.1" |};
               oc_rc := 0 |}
  end.

Definition cmd_hash (args : list string) : Outcome :=
  match args with
  | plain :: _ => printed [Err ARGV_WARNING; Out (hash_password plain salt)] 0
  | [] =>
      if negb isatty then printed [Err NO_TTY] 2
      else match typed with
           | None => printed [Err (chr 10 +:+ "aborted")] 130
           | Some (pw1, pw2) =>
               if negb (pw1 =? pw2) then printed [Err "error: passwords do not match"] 1
               else if pw1 =? "" then printed [Err "error: password cannot be empty"] 1
               else printed [Out (hash_password pw1 salt)] 0
           end
  end.

Definition main (args : list string) : res Outcome :=
  let cmd := match args with cmd :: _ => cmd | [] => "serve" end in
  if cmd =? "serve" then cmd_serve
  else if cmd =? "hash" then r_ret (cmd_hash (tl args))
  else if cmd =? "gensecret" then r_ret (printed [Out token] 0)
  else if cmd =? "version" then r_ret (printed [Out version] 0)
  else if existsb (String.eqb cmd) ["modbusdump"; "scan"; "panel"; "doctor"] then subcommand cmd (tl args)
  else r_ret (printed [Err usage] 2).
End cli.

(** ** modbusdump *)

(** The lines of the words read. *)
Fixpoint dump_lines (addr : Z) (words : list Z) : list string :=
  match words with
  | [] => []
  | w :: ws => (hex4 addr +:+ "  " +:+ rjust 5 (str_Z w) +:+ "  " +:+ hex4 w) :: dump_lines (addr + 1) ws
  end.

(** [run] of [_modbusdump]; [connected] is what [connect] returned, [ms] the formatted time. *)
Definition dump_run {W} `{ModbusClient W} (connected : bool) (addr count fc : Z) (ms : ModbusResult -> string) (w : W) : Outcome * W :=
  if negb connected then (printed [Err "connect failed"] 2, w)
  else let '(r, w) := mc_read addr count fc w in
       (if negb (mr_ok r) then printed [Err ("read failed: " +:+ str_opt (mr_error r))] 2
        else printed (map Out (("# read addr=" +:+ hex4 addr +:+ " count=" +:+ str_Z count +:+ " fc=" +:+ str_Z fc +:+ " in " +:+ ms r +:+ "ms")
                               :: dump_lines addr (default [] (mr_words r)))) 0, w).

(** ** The summary of scan *)

Definition bytes_text (bytes : list Z) : string :=
  fold_right (fun b s => String (Ascii.ascii_of_nat (Z.to_nat b)) s) "" bytes.
Definition live_line (r : live_row) : string :=
  match r with
  | RowAscii first last bytes => "    " +:+ hex4 first +:+ "-" +:+ hex4 last +:+ "  ASCII '" +:+ rstrip (bytes_text bytes) +:+ "'"
  | RowWord addr v => "    " +:+ hex4 addr +:+ "  " +:+ rjust 6 (str_Z v) +:+ "  " +:+ hex4 v
  end.

Definition newline : string := chr 10.
(** The lines of one function code: its registers in the order of their addresses. *)
Definition scan_lines (fc : Z) (rows : list (Z * entry)) : list string :=
  match rows with
  | [] => [newline +:+ "fc=" +:+ str_Z fc +:+ ": no data"]
  | _ =>
      let live := scan_live rows in
      let zeros := scan_zeros rows in
      let errors := scan_errors rows in
      let count {A} (l : list A) := str_Z (Z.of_nat (length l)) in
      ((newline +:+ "fc=" +:+ str_Z fc +:+ ": " +:+ count live +:+ " non-zero, " +:+ count zeros +:+ " zero, " +:+
        count (concat (od_values errors)) +:+ " error") ::
       match live with [] => [] | _ => (newline +:+ "  Non-zero registers:") :: map live_line (live_rows (length live) live) end ++
       match zeros with [] => [] | _ => [newline +:+ "  Zero registers (" +:+ count zeros +:+ "): " +:+ compact_ranges zeros] end ++
       map (fun te => newline +:+ "  " +:+ fst te +:+ " (" +:+ count (snd te) +:+ "): " +:+ compact_ranges (snd te)) errors)%list
  end.

(** ** Theorems *)

(** The hash a typed password prints is the one line of the run, and lets in exactly the
    passwords that agree with it in the bytes bcrypt reads. *)
Theorem typed_hash_admits {B : Bcrypt} {L : BcryptLaws B} salt plain plain' token version usage env sub :
  plain <> "" -> nul_free plain = true -> nul_free plain' = true ->
  exists hash, main salt true (Some (plain, plain)) token version usage env sub ["hash"] = inr (printed [Out hash] 0) /\
    (verify_password checkpw plain' hash = true <-> plain' <> "" /\ bcrypt_bytes plain' = bcrypt_bytes plain).
Proof.
  intros Hne Hn Hn'. exists (hash_password plain salt). split; [|by apply password_roundtrip].
  unfold main, cmd_hash. cbn. by rewrite String.eqb_refl, (proj2 (String.eqb_neq _ _) Hne).
Qed.

(** The empty password: refused at the prompt, hashed from the command line, and the hash
    then admits nobody. *)
Theorem empty_password {B : Bcrypt} {L : BcryptLaws B} salt token version usage env sub plain' :
  main salt true (Some ("", "")) token version usage env sub ["hash"] = inr (printed [Err "error: password cannot be empty"] 1) /\
  main salt true None token version usage env sub ["hash"; ""] = inr (printed [Err ARGV_WARNING; Out (hash_password "" salt)] 0) /\
  (nul_free plain' = true -> verify_password checkpw plain' (hash_password "" salt) = false).
Proof.
  split_and!; [done|done|]. intros Hn. apply not_true_iff_false. rewrite password_roundtrip by done.
  intros [Hne E]. by destruct plain'.
Qed.

(** A dump that ends with 0 has printed every word read, each with its address. *)
Lemma dump_lines_lookup addr words i w :
  words !! i = Some w ->
  dump_lines addr words !! i = Some (hex4 (addr + Z.of_nat i) +:+ "  " +:+ rjust 5 (str_Z w) +:+ "  " +:+ hex4 w).
Proof.
  revert addr i. induction words as [|w0 ws IH]; intros addr [|i]; [done|done|intros [= ->]; by rewrite Z.add_0_r|].
  cbn [lookup list_lookup dump_lines]. intros Hi. etrans; [exact (IH (addr + 1) i Hi)|]. do 3 f_equal. lia.
Qed.

Theorem dump_complete {W} {MC : ModbusClient W} {L : ModbusClientLaws W} connected addr count fc ms (w w' : W) o :
  dump_run connected addr count fc ms w = (o, w') -> oc_rc o = 0 ->
  exists words head, Z.of_nat (length words) = count /\ oc_output o = map Out (head :: dump_lines addr words).
Proof.
  unfold dump_run. destruct connected; cbn [negb]; [|by intros [= <- _]].
  destruct (mc_read addr count fc w) as [r w1] eqn:Er. destruct (mr_ok r) eqn:Eok; cbn [negb]; [|by intros [= <- _]].
  intros [= <- _] _. destruct (mc_read_ok addr count fc w r w1 Er Eok) as (words & Hw & Hl).
  eexists words, _. split; [done|]. by rewrite Hw.
Qed.
