(* ===== verification/Schedule.v ===== *)
(** * Polls that overlap

    The base and prime loops of the poller are two tasks.  The callback of a base
    poll waits for its telemetry row to be written by a worker thread between the
    update of the state machine and the publication of its messages; every other
    stretch of the callbacks runs without suspension.  A step relation gives the
    schedules this leaves open; the theorems say when clients stay in sync and what
    they are told when a prime poll overtakes a base poll. *)

From S2P Require Import Prelude PyNum Registers Poller Database DatabaseFacts Events StateMachine StateMachineFacts Ats AtsFacts Slack System.

Local Open Scope Z_scope.

Section schedule.
Context `{SetOrder}.
Variables (use_ats : bool) (throttle : Z).

(** ** The three stretches of a base poll's callback *)

(** Up to the wait: the update, its messages kept by the suspended task. *)
Definition base_begin (pe : poll_event) (lv : Live) : Live * list BusEvent :=
  let view := if use_ats then Some (ats_view (pe_heap pe) (lv_ats lv)) else None in
  let '(m, ob) := update (pe_now pe) (pe_heap pe) view (pe_reading pe) (pe_comms pe)
                    (lv_sm lv, outbox_of (lv_db lv)) in
  ({| lv_sm := m; lv_ats := lv_ats lv; lv_db := ob_db ob; lv_bus := lv_bus lv;
      lv_slack := lv_slack lv; lv_last_push := lv_last_push lv |}, ob_emitted ob).

(** The worker thread: the row carries the state the machine shows by then. *)
Definition base_write (pe : poll_event) (lv : Live) : Live :=
  {| lv_sm := lv_sm lv; lv_ats := lv_ats lv;
     lv_db := write_telemetry (rd_ts (pe_reading pe)) (rd_values (pe_reading pe))
                (ss_engine_state (sm_snap (lv_sm lv))) (alarm_raw (sm_snap (lv_sm lv))) (lv_db lv);
     lv_bus := lv_bus lv; lv_slack := lv_slack lv; lv_last_push := lv_last_push lv |}.

(** After the wait: the messages go out. *)
Definition base_end (pe : poll_event) (es : list BusEvent) (lv : Live) : Live :=
  {| lv_sm := lv_sm lv; lv_ats := lv_ats lv; lv_db := lv_db lv; lv_bus := publish_all es (lv_bus lv);
     lv_slack := foldl (fun n e => forward_to_slack (pe_now pe) e n) (lv_slack lv) es;
     lv_last_push := lv_last_push lv |}.

(** Without interference the three are the callback. *)
Lemma on_poll_base pe lv :
  pe_tier pe = "base"%string ->
  on_poll use_ats throttle pe lv =
    let '(lv1, es) := base_begin pe lv in base_end pe es (base_write pe lv1).
Proof.
  intros Ht. unfold on_poll, base_begin, push_due. rewrite Ht. cbn [String.eqb Ascii.eqb Bool.eqb andb].
  by destruct (update _ _ _ _ _ _).
Qed.

(** ** Schedules *)

Record pending : Type := { pd_event : poll_event; pd_emitted : list BusEvent; pd_written : bool }.
Record Sched : Type := { sd_live : Live; sd_pending : option pending }.

(** A callback that is not suspended: a prime poll's or the companion's. *)
Definition unsuspended (op : live_op) : bool :=
  match op with GenPoll pe => negb (pe_tier pe =? "base")%string | AtsPoll _ => true end.

(** [allowed] restricts what may run while a base poll waits; the program does not. *)
Inductive sched (allowed : pending -> Live -> live_op -> Prop) : Sched -> Sched -> Prop :=
| sched_whole op lv pd :
    unsuspended op = true -> (forall p, pd = Some p -> allowed p lv op) ->
    sched allowed {| sd_live := lv; sd_pending := pd |}
                  {| sd_live := live_step use_ats throttle lv op; sd_pending := pd |}
| sched_begin pe lv :
    pe_tier pe = "base"%string ->
    sched allowed {| sd_live := lv; sd_pending := None |}
      {| sd_live := fst (base_begin pe lv);
         sd_pending := Some {| pd_event := pe; pd_emitted := snd (base_begin pe lv); pd_written := false |} |}
| sched_write pe es lv :
    sched allowed
      {| sd_live := lv; sd_pending := Some {| pd_event := pe; pd_emitted := es; pd_written := false |} |}
      {| sd_live := base_write pe lv; sd_pending := Some {| pd_event := pe; pd_emitted := es; pd_written := true |} |}
| sched_end pe es lv :
    sched allowed
      {| sd_live := lv; sd_pending := Some {| pd_event := pe; pd_emitted := es; pd_written := true |} |}
      {| sd_live := base_end pe es lv; sd_pending := None |}.

Definition anything : pending -> Live -> live_op -> Prop := fun _ _ _ => True.

(** ** What messages are about *)

(** The part of a client's view that a message changes: the engine, or a code. *)
Inductive topic : Type := TEngine | TCode (code : string).
#[export] Instance topic_eq_dec : EqDecision topic.
Proof. solve_decision. Defined.

Definition topic_of (e : BusEvent) : option topic :=
  match e with
  | EvTransition _ _ _ => Some TEngine
  | EvAlarm code _ _ _ | EvAlarmCleared code _ _ => Some (TCode code)
  | _ => None
  end.
Definition topics (es : list BusEvent) : list topic := omap topic_of es.
Definition independent (es es' : list BusEvent) : Prop := Forall (fun t => t ∉ topics es') (topics es).
#[export] Instance independent_dec es es' : Decision (independent es es').
Proof. unfold independent. apply _. Defined.

(** Nothing overtakes a waiting base poll on a topic it has messages about. *)
Definition calm : pending -> Live -> live_op -> Prop :=
  fun p lv op => independent (pd_emitted p) (live_messages use_ats throttle lv op).

Lemma replay_one_swap v e e' :
  (forall t, topic_of e = Some t -> topic_of e' <> Some t) ->
  replay_one (replay_one v e) e' = replay_one (replay_one v e') e.
Proof.
  intros Ht. destruct e, e'; cbn in *; try done; try (by destruct (Ht _ eq_refl)); f_equal.
  all: apply set_eq; intros c; try (assert (code <> code0) by (intros ->; by destruct (Ht _ eq_refl))).
  all: rewrite ?elem_of_union, ?elem_of_difference, ?elem_of_union, ?elem_of_singleton.
  all: destruct (decide (c = code)), (decide (c = code0)); subst; naive_solver.
Qed.

Lemma topics_cons e es t : t ∈ topics (e :: es) <-> topic_of e = Some t \/ t ∈ topics es.
Proof. unfold topics. cbn. destruct (topic_of e); rewrite ?elem_of_cons; naive_solver. Qed.

Lemma replay_one_past e es v :
  (forall t, topic_of e = Some t -> t ∉ topics es) ->
  replay (replay_one v e) es = replay_one (replay v es) e.
Proof.
  revert v. induction es as [|e' es IH]; intros v Hi; [done|]. cbn. rewrite replay_one_swap.
  - apply IH. intros t Ht Hin. apply (Hi t Ht), topics_cons. by right.
  - intros t Ht Ht'. apply (Hi t Ht), topics_cons. by left.
Qed.

Lemma replay_swap v es es' : independent es es' -> replay (replay v es) es' = replay (replay v es') es.
Proof.
  unfold independent. rewrite Forall_forall. revert v. induction es as [|e es IH]; intros v Hi; [done|].
  cbn [replay foldl]. fold (replay (replay_one v e) es) (replay (replay_one (replay v es') e) es). rewrite IH.
  - f_equal. apply replay_one_past. intros t Ht. apply Hi, topics_cons. by left.
  - intros t Ht. apply Hi, topics_cons. by right.
Qed.

Lemma replay_app v es es' : replay v (es ++ es') = replay (replay v es) es'.
Proof. unfold replay. by rewrite foldl_app. Qed.
(** ** Clients under a schedule *)

Definition pending_messages (s : Sched) : list BusEvent :=
  match sd_pending s with Some p => pd_emitted p | None => [] end.

(** A client that started from view [v] and holds the messages [l] will, with the
    messages a waiting base poll still owes it, see what the back end serves. *)
Record in_sync (q : nat) (v : client_view) (l : list BusEvent) (s : Sched) : Prop := {
  sy_bus : bus_ok (lv_bus (sd_live s));
  sy_queue : bus_subs (lv_bus (sd_live s)) !! q = Some l;
  sy_view : norm (replay v (l ++ pending_messages s)) = norm (served (sd_live s))
}.

Lemma base_begin_told pe lv :
  let '(lv1, es) := base_begin pe lv in
  lv_bus lv1 = lv_bus lv /\ served lv1 = replay (served lv) es.
Proof.
  unfold base_begin. set (view := if use_ats then _ else _).
  destruct (update_told (pe_now pe) (pe_heap pe) view (pe_reading pe) (pe_comms pe) (lv_sm lv, outbox_of (lv_db lv)))
    as (es & rows & He & _ & Hv & _). cbn [outbox_of snd ob_emitted app] in He.
  destruct (update _ _ _ _ _ _) as [m ob]. cbn [snd] in He. subst es. by split.
Qed.

Lemma publish_sync es b q l :
  bus_ok b -> bus_subs b !! q = Some l ->
  bus_subs (publish_all es b) !! q = None \/
  bus_ok (publish_all es b) /\ bus_subs (publish_all es b) !! q = Some (l ++ es).
Proof.
  intros Hb Hq. destruct (publish_all_delivery es b q l Hb Hq) as [Hok ->]. case_decide; tauto.
Qed.

Lemma sched_step_sync q v l s s' :
  sched calm s s' -> in_sync q v l s ->
  bus_subs (lv_bus (sd_live s')) !! q = None \/ exists new, in_sync q v (l ++ new) s'.
Proof.
  intros Hs [Hb Hq Hv]. destruct Hs as [op lv pd Hop Hcalm|pe lv Ht|pe es lv|pe es lv]; cbn [sd_live] in *.
  - destruct (live_step_told use_ats throttle lv op) as (Hbus & Hes). rewrite Hbus.
    set (es' := live_messages use_ats throttle lv op) in *.
    destruct (publish_sync es' _ q l Hb Hq) as [Hg|[Hb' Hq']]; [by left|right].
    exists es'. constructor; cbn [sd_live]; [by rewrite Hbus|by rewrite Hbus|].
    rewrite <- Hes, <- (replay_norm es' _ _ Hv), !replay_app. f_equal.
    unfold pending_messages. cbn [sd_pending]. destruct pd as [p|]; [|done].
    symmetry. apply replay_swap. by apply (Hcalm p).
  - pose proof (base_begin_told pe lv) as Hbb. destruct (base_begin pe lv) as [lv1 es]. destruct Hbb as [Hbus Hsv].
    right. exists []. rewrite app_nil_r. constructor; cbn; rewrite ?Hbus; [done|done|].
    rewrite Hsv, replay_app. apply replay_norm. by rewrite <- Hv, app_nil_r.
  - right. exists []. rewrite app_nil_r. by constructor.
  - cbn [base_end lv_bus].
    destruct (publish_sync es _ q l Hb Hq) as [Hg|[Hb' Hq']]; [by left|right].
    exists es. constructor; [done|done|]. unfold pending_messages. cbn [sd_pending]. rewrite app_nil_r. done.
Qed.

Lemma sched_gone allowed q s s' :
  sched allowed s s' -> bus_subs (lv_bus (sd_live s)) !! q = None -> bus_subs (lv_bus (sd_live s')) !! q = None.
Proof.
  intros Hs Hq. destruct Hs as [op lv pd Hop Hcalm|pe lv Ht|pe es lv|pe es lv]; cbn [sd_live] in *.
  - destruct (live_step_told use_ats throttle lv op) as (-> & _). by apply publish_gone.
  - pose proof (base_begin_told pe lv) as Hbb. destruct (base_begin pe lv) as [lv1 es]. cbn. by rewrite (proj1 Hbb).
  - done.
  - by apply publish_gone.
Qed.

(** C13. Over any schedule of polls of both devices in which nothing overtakes a waiting
    base poll on a topic it has messages about, a bus client that started in sync is either
    dropped or holds messages that, replayed, give the engine state and the alarm table the
    back end serves (the clock-skew row apart). *)
Theorem clients_stay_in_sync q v l s s' :
  rtc (sched calm) s s' -> in_sync q v l s ->
  bus_subs (lv_bus (sd_live s')) !! q = None \/ exists new, in_sync q v (l ++ new) s'.
Proof.
  intros Hs. revert l. induction Hs as [s|s1 s2 s3 H12 H23 IH]; intros l Hl.
  - right. exists []. by rewrite app_nil_r.
  - destruct (sched_step_sync q v l s1 s2 H12 Hl) as [Hg|[new Hn]].
    + left. clear -H23 Hg H. induction H23; [done|]. eauto using sched_gone.
    + destruct (IH _ Hn) as [?|[new' Hn']]; [by left|right]. exists (new ++ new'). by rewrite app_assoc.
Qed.

(** ** A base poll that is overtaken *)

(** Replaying from any view, the engine is that of the last transition message. *)
Lemma replay_engine es v v' :
  cv_engine (replay v es) <> cv_engine v -> cv_engine (replay v' es) = cv_engine (replay v es).
Proof.
  induction es as [|e es IH] using rev_ind; [done|]. rewrite !replay_app. cbn [replay foldl].
  destruct e; cbn [replay_one cv_engine]; auto.
Qed.

(** When a prime poll's callback overtakes a base poll that waits for its telemetry
    row, the base poll's transition is published last: clients replay to the state it saw,
    not to the one the back end serves, and no message is left to correct them. *)
Theorem overtaken_transition pe pe' lv q l v :
  bus_ok (lv_bus lv) -> bus_subs (lv_bus lv) !! q = Some l ->
  pe_tier pe = "base"%string -> pe_tier pe' <> "base"%string ->
  let '(lv1, es) := base_begin pe lv in
  let lv2 := on_poll use_ats throttle pe' lv1 in
  let lv' := base_end pe es (base_write pe lv2) in
  rtc (sched anything) {| sd_live := lv; sd_pending := None |} {| sd_live := lv'; sd_pending := None |} /\
  (cv_engine (served lv1) <> cv_engine (served lv) ->
   forall l', bus_subs (lv_bus lv') !! q = Some l' ->
   cv_engine (replay v l') = cv_engine (served lv1) /\ cv_engine (served lv') = cv_engine (served lv2)).
Proof.
  intros Hb Hq Ht Ht'. pose proof (base_begin_told pe lv) as Hbb.
  pose proof (sched_begin anything pe lv Ht) as Hs1.
  destruct (base_begin pe lv) as [lv1 es]. destruct Hbb as [Hbus Hsv]. cbn [fst snd] in Hs1. cbv zeta.
  set (lv2 := on_poll use_ats throttle pe' lv1). split.
  - eapply rtc_l; [exact Hs1|]. eapply rtc_l.
    { apply (sched_whole anything (GenPoll pe')); [|done]. cbn. by apply negb_true_iff, String.eqb_neq. }
    eapply rtc_l; [apply sched_write|]. eapply rtc_l; [apply sched_end|]. reflexivity.
  - intros Hne l' Hl'. split; [|done]. cbn [base_end base_write lv_bus] in Hl'.
    destruct (live_step_told use_ats throttle lv1 (GenPoll pe')) as (Hbus2 & _). cbn [live_step] in Hbus2.
    fold lv2 in Hbus2. rewrite Hbus2, Hbus in Hl'.
    destruct (publish_sync (live_messages use_ats throttle lv1 (GenPoll pe')) _ q l Hb Hq) as [Hg|[Hb2 Hq2]].
    { rewrite (publish_gone es _ q Hg) in Hl'. done. }
    destruct (publish_sync es _ q _ Hb2 Hq2) as [Hg|[_ Hq3]]; [by rewrite Hg in Hl'|].
    rewrite Hq3 in Hl'. injection Hl' as <-. rewrite replay_app, Hsv. apply replay_engine. by rewrite <- Hsv.
Qed.
End schedule.
