(* ===== verification/Bench.v ===== *)
(** * A bench plant

    A scripted Modbus link and a whole application state built by the modelled
    code itself: both shipped maps loaded, both companions polled once, a confirm
    token issued.  The concrete inputs at which the theorems are instantiated. *)

From S2P Require Import Prelude PyNum Registers RegisterFacts ShippedMaps Client Poller Database Events StateMachine Ats Control ControlFacts AtsControl.

Local Open Scope Z_scope.

#[export] Existing Instance elements_order.

(** Decidable facts on concrete data. *)
Ltac decide_now := match goal with |- ?P => refine (bool_decide_eq_true_1 P _) end; vm_compute; reflexivity.

(** ** The scripted link *)

Record bench : Type := {
  b_mono : Z;
  b_wall : Z;
  b_script : list outcome;
  b_sent : list request
}.

Definition bench_transact (rq : request) (w : bench) : outcome * bench :=
  let '(o, rest) := match b_script w with o :: rest => (o, rest) | [] => (TimedOut, []) end in
  (o, {| b_mono := b_mono w + msec 20; b_wall := b_wall w + msec 20; b_script := rest;
         b_sent := b_sent w ++ [rq] |}).

#[export] Instance bench_link : Link bench :=
  {| perf_counter := b_mono; transact := bench_transact; is_connected := fun _ => true;
     reconnect := fun w => (Responded PduNone, true, w);
     sleep := fun _ w => {| b_mono := b_mono w + msec 250; b_wall := b_wall w + msec 250;
                            b_script := b_script w; b_sent := b_sent w |} |}.

#[export] Instance bench_clock : Clock bench := {| wall_clock := b_wall; mono_clock := b_mono |}.

Definition bench_cfg : client_cfg := mk_client_cfg true 2 [].
#[export] Instance bench_client : ModbusClient bench := TcpRtuModbusClient bench_cfg.
Definition bench_ats_client : ModbusClient bench := SerialModbusClient bench_cfg.

(** One thousand seconds after boot; the wire accepts whatever comes. *)
Definition ack : outcome := Responded (PduRegs None).
Definition bench0 (script : list outcome) : bench :=
  {| b_mono := sec 1000; b_wall := sec 1700000000; b_script := script; b_sent := [] |}.

(** ** The application *)

Definition bench_heap : comms_heap :=
  {[ 0%nat := CommsHealth_default 1500; 1%nat := CommsHealth_default 1500 ]}.
Definition empty_db : Database :=
  {| db_telemetry := []; db_telemetry_1m := []; db_telemetry_1h := []; db_events := [];
     db_next_event := 1; db_alarms := []; db_audit := []; db_next_audit := 1; db_kv := [] |}.
Definition empty_outbox : Outbox := {| ob_db := empty_db; ob_emitted := [] |}.

(** A reading with every listed register taken at [mono]. *)
Definition bench_reading (ts mono : Z) (l : list (string * Z)) : Reading :=
  {| rd_values := list_to_map ((fun '(k, v) => (k, PInt v)) <$> l); rd_ts := ts;
     rd_value_ages := list_to_map ((fun kv => (fst kv, mono)) <$> l) |}.

(** The H-100 at rest: stopped, key switch in AUTO. *)
Definition idle_words : list (string * Z) :=
  [("output_status_1", 256); ("output_status_7", 0); ("input_status_1", 32768)]%string.
Definition bench_sm : StateMachine * Outbox :=
  update (sec 1700000000) bench_heap None (bench_reading (sec 1700000000) (sec 1000) idle_words) 0
    (StateMachine_init h100_map 0 (sec 1700000000), empty_outbox).

(** The companion on utility, ICD v1.0, no fault. *)
Definition ats_words : list (string * Z) :=
  [("position", 0); ("normal_available", 1); ("emergency_available", 0); ("ats_mode", 0);
   ("fault_summary", 0); ("ats_pi_uptime_s", 100); ("icd_version_major", 1); ("icd_version_minor", 0);
   ("ats_pi_unit_id", 23)]%string.
Definition bench_ats : AtsService * Outbox :=
  ats_update (sec 1700000000) (sec 1000) bench_heap "base"
    (bench_reading (sec 1700000000) (sec 1000) ats_words) 1 (AtsService_init ats_pi_map (Some 23) 1)
    (snd bench_sm).

Definition plant0 : Sys bench :=
  {| sy_regmap := h100_map; sy_tokens := []; sy_db := ob_db (snd bench_ats); sy_sm := fst bench_sm;
     sy_heap := bench_heap; sy_ats := fst bench_ats; sy_ats_regmap := ats_pi_map; sy_slack := true;
     sy_alerts := []; sy_world := bench0 [ack] |}.

(** A token for [start] and one for [force_transfer], both of operator olga. *)
Definition plant : Sys bench :=
  snd (issue_token ["T1"; "T2"]%string "olga" (Some "start"%string)
    (snd (issue_token ["T1"]%string "olga" (Some "inhibit"%string) plant0))).

Example plant_state :
  (ss_engine_state (sm_snap (sy_sm plant)), ss_panel_mode (sm_snap (sy_sm plant)),
   is_authoritative (sy_heap plant) (sy_ats plant), od_keys (sy_tokens plant)) =
  ("stopped", "auto", true, ["T1"; "T2"])%string.
Proof. vm_compute. reflexivity. Qed.

(** [start] goes out as the H-100's two start words, [inhibit] as coil register 0x101. *)
Example plant_start :
  let '(r, s) := execute "start" "T2" "olga" "operator" plant in
  (match r with inr _ => true | inl _ => false end, b_sent (sy_world s), od_keys (sy_tokens s)) =
  (true, [WriteMany 0x19C (default [] (write_values <$> od_get "remote_start"%string (rm_controls h100_map)))], ["T1"%string]).
Proof. vm_compute. reflexivity. Qed.
