(* ===== verification/Witnesses.v ===== *)
(** * Concrete instances of the theorems

    Each lemma applies a theorem of the development at a concrete input, where
    its hypotheses are evaluated; the plant is that of Bench.v. *)

From S2P Require Import Prelude PyNum Registers RegisterFacts RegisterValidation ShippedMaps Client Poller PollerFacts Database DatabaseFacts Events StateMachine StateMachineFacts AlarmFacts LoadFacts Ats AtsFacts Control ControlFacts AtsControl RateLimit Slack Notify Http Api System Schedule Bench.

Local Open Scope Z_scope.

(** ** Control *)

Definition start_control : ControlDef := default (snd (ctl "" 0 6 [] "")) (od_get "remote_start"%string h100_controls).
Definition token_of (t : string) : ConfirmToken :=
  default {| ct_token := ""; ct_operator := ""; ct_issued_at := 0; ct_expires_at := 0;
             ct_expires_monotonic := 0; ct_verb := None |} (od_get t (sy_tokens plant)).

Lemma plant_gates : gates plant "start" "T2" "olga" "operator" start_control (token_of "T2").
Proof.
  constructor.
  - decide_now.
  - exists "remote_start"%string. split; vm_compute; reflexivity.
  - vm_compute. reflexivity.
  - apply stale_nil_fresh. vm_compute. reflexivity.
  - vm_compute. reflexivity.
  - decide_now.
  - split; [vm_compute; reflexivity|]. split; [vm_compute; reflexivity|].
    intros cv v Hc [= <-]. vm_compute in Hc. by injection Hc as <-.
Qed.

Lemma execute_wire_gated_witness :
  tokens_ok (sy_tokens plant) /\
  exists r s', execute "start" "T2" "olga" "operator" plant = (inr r, s') /\
    b_sent (sy_world s') = [WriteMany 412 [128; 0; 0]] /\ od_get "T2"%string (sy_tokens s') = None.
Proof.
  assert (tokens_ok (sy_tokens plant)) as H by decide_now. split; [exact H|].
  pose proof (execute_wire_gated plant "start" "T2" "olga" "operator" H) as Hw.
  destruct (execute "start" "T2" "olga" "operator" plant) as [r s'] eqn:E.
  assert (b_sent (sy_world s') = [WriteMany 412 [128; 0; 0]]) as Hs
    by (change s' with (snd (r, s')); rewrite <- E; vm_compute; reflexivity).
  destruct Hw as [[Hw _]|(c & ct & _ & _ & Htok & _)]; [rewrite Hw in Hs; vm_compute in Hs; discriminate|].
  destruct r as [e|x]; [change (inl e) with (fst (@inl ControlError command_result e, s')) in E|].
  - exfalso. apply (f_equal fst) in E. vm_compute in E. discriminate.
  - exists x, s'. split; [reflexivity|]. split; [exact Hs|exact Htok].
Defined.

Lemma execute_complete_witness :
  tokens_ok (sy_tokens plant) /\ gates plant "start" "T2" "olga" "operator" start_control (token_of "T2") /\
  fst (execute "start" "T2" "olga" "operator" plant) =
    inr ("start", c_name start_control, c_addr start_control, write_values start_control)%string.
Proof.
  assert (tokens_ok (sy_tokens plant)) as H by decide_now. split; [exact H|]. split; [exact plant_gates|].
  pose proof (execute_complete plant "start" "T2" "olga" "operator" start_control (token_of "T2") H plant_gates) as Hc.
  destruct (execute "start" "T2" "olga" "operator" plant) as [r s']. destruct Hc as (_ & Hok & _).
  cbn [fst]. apply Hok. vm_compute. reflexivity.
Defined.

Lemma execute_audited_witness :
  tokens_ok (sy_tokens plant) /\
  exists rows row, db_audit (sy_db (snd (execute "start" "T2" "olga" "viewer" plant))) =
    db_audit (sy_db plant) ++ rows ++ [row] /\ au_operator row = "olga"%string.
Proof.
  assert (tokens_ok (sy_tokens plant)) as H by decide_now. split; [exact H|].
  pose proof (execute_audited plant "start" "T2" "olga" "viewer" H) as Ha.
  destruct (execute "start" "T2" "olga" "viewer" plant) as [r s'] eqn:E. cbn [snd].
  destruct Ha as [_ [[Hv _]|(rows & row & Hr & Ho & _)]]; [vm_compute in Hv; discriminate|].
  exists rows, row. split; [exact Hr|exact Ho].
Defined.

Definition token_history : list (token_op (W := bench)) :=
  [TIssue ["A"]%string "olga" (Some "start"%string); TConsume "A" "olga" (Some "start"%string);
   TConsume "A" "olga" (Some "start"%string)].

Lemma token_single_use_witness :
  sy_tokens plant0 = [] /\ length (fst (token_run token_history plant0)) = 2%nat /\
  forall op v ct m, Spent "A" op v ct m ∈ fst (token_run token_history plant0) -> ct_operator ct = op.
Proof.
  assert (sy_tokens plant0 = []) as H by reflexivity. split; [exact H|]. split; [vm_compute; reflexivity|].
  intros op v ct m Hin. destruct (token_single_use token_history plant0 "A" H) as [_ Hs].
  destruct (Hs op v ct m Hin) as (_ & Ho & _). exact Ho.
Defined.

Lemma ats_assert_gated_witness :
  sy_world (snd (ats_execute bench_ats_client "inhibit" "T1" "olga" "operator" true false plant)) <> sy_world plant /\
  is_authoritative (sy_heap plant) (sy_ats plant) = true.
Proof.
  assert (tokens_ok (sy_tokens plant)) as H by decide_now.
  assert (asserts "inhibit" true) as Ha
    by (eexists; split; [vm_compute; reflexivity|vm_compute; reflexivity]).
  assert (sy_world (snd (ats_execute bench_ats_client "inhibit" "T1" "olga" "operator" true false plant)) <> sy_world plant)
    as Hw by (intros Hc; apply (f_equal (fun w => length (b_sent w))) in Hc; vm_compute in Hc; discriminate).
  split; [exact Hw|].
  destruct (ats_assert_gated bench_ats_client plant "inhibit" "T1" "olga" "operator" true false H Ha Hw) as [Hx _].
  exact Hx.
Defined.

Definition inhibit_release : ControlDef :=
  default (snd (ctl "" 0 6 [] "")) (od_get "ats_inhibit_release"%string ats_pi_controls).

Lemma ats_release_unblocked_witness :
  tokens_ok (sy_tokens plant) /\
  fst (ats_execute bench_ats_client "inhibit" "T1" "olga" "operator" false false plant) =
    inr ("inhibit", c_name inhibit_release, c_addr inhibit_release, write_values inhibit_release)%string.
Proof.
  assert (tokens_ok (sy_tokens plant)) as H by decide_now. split; [exact H|].
  assert (exists sp, od_get "inhibit"%string ATS_COMMAND_SPECS = Some sp /\ sp_kind sp = Maintained /\
    role_satisfies "operator" (sp_role sp) = true /\ sp_release_control sp = Some "ats_inhibit_release"%string)
    as (sp & Hsp & Hk & Hr & Hc) by (eexists; split; [vm_compute; reflexivity|]; split; [|split]; vm_compute; reflexivity).
  assert (ats_comms_state plant <> "lost"%string) as Hl by (vm_compute; discriminate).
  assert (od_get "ats_inhibit_release"%string (rm_controls (sy_ats_regmap plant)) = Some inhibit_release) as Hctl
    by (vm_compute; reflexivity).
  assert (spendable plant "T1" "olga" (Some "inhibit"%string) (token_of "T1")) as Hs.
  { split; [vm_compute; reflexivity|]. split; [vm_compute; reflexivity|].
    intros cv v Hcv [= <-]. vm_compute in Hcv. by injection Hcv as <-. }
  pose proof (ats_release_unblocked bench_ats_client plant "inhibit" "T1" "olga" "operator" false sp
    "ats_inhibit_release" inhibit_release (token_of "T1") H Hsp Hk Hr Hl Hc Hctl Hs) as Hx.
  destruct (ats_execute _ _ _ _ _ _ _ _) as [r s'].
  destruct (control_write bench_ats_client inhibit_release (sy_world plant)) as [res w'] eqn:Ew.
  destruct Hx as [_ Hok]. cbn [fst]. apply Hok.
  apply (f_equal (fun p => mr_ok (fst p))) in Ew. cbn [fst] in Ew. rewrite <- Ew. vm_compute. reflexivity.
Defined.

(** ** The state machine *)

Definition fresh_machine : StateMachine := StateMachine_init h100_map 0 (sec 1700000000).
Definition overcrank : AlarmBit := alarm_bit "output_status_1" 16 "OVERCRANK" "Overcrank" "alarm" [] 1.
Definition poll_of (words : list (string * Z)) (ats : option AtsView) : poll_input :=
  {| pi_now := sec 1700000000; pi_heap := bench_heap; pi_ats := ats;
     pi_reading := bench_reading (sec 1700000000) (sec 1000) words; pi_comms := 0 |}.
Definition overcrank_poll : poll_input := poll_of [("output_status_1", 16 + 256)]%string None.

Lemma overcrank_ok :
  sm_alarm_poll_counts fresh_machine = ∅ /\ numeric_keys_ok fresh_machine /\
  NoDup (map ab_code (rm_alarm_bits (sm_regmap fresh_machine))) /\
  overcrank ∈ rm_alarm_bits (sm_regmap fresh_machine) /\
  ~ is_numeric (ab_code overcrank) /\ ab_code overcrank <> LOADSOURCE_DISAGREE_ALARM_CODE.
Proof.
  split; [reflexivity|]. split; [constructor|]. split; [decide_now|].
  split; [apply (list_elem_of_lookup_2 _ 3); reflexivity|].
  split; [intros [n Hn]; vm_compute in Hn; discriminate|vm_compute; discriminate].
Qed.

Lemma alarm_debounce_witness :
  "OVERCRANK"%string ∈ ss_active_alarms (sm_snap (fst (run_updates (fresh_machine, empty_outbox) ([] ++ [overcrank_poll])))).
Proof.
  destruct overcrank_ok as (H1 & H2 & H3 & H4 & H5 & H6).
  apply (alarm_debounce [] overcrank_poll fresh_machine empty_outbox overcrank H1 H2 H3 H4 H5 H6).
  split; [vm_compute; reflexivity|]. split; [vm_compute; discriminate|]. decide_now.
Defined.

Lemma alarm_rows_exact_witness :
  exists ab, ab_code ab = "OVERCRANK"%string /\
  alarm_rows_of "OVERCRANK" (ob_db (snd (update (sec 1700000000) bench_heap None
    (pi_reading overcrank_poll) 0 (fresh_machine, empty_outbox)))) =
  [{| al_code := "OVERCRANK"; al_desc := ab_desc ab; al_severity := ab_severity ab;
      al_raised_at := sec 1700000000; al_raw := ab_mask ab |}].
Proof.
  destruct overcrank_ok as (_ & H2 & _ & _ & H5 & H6).
  destruct (alarm_rows_exact (sec 1700000000) bench_heap None (pi_reading overcrank_poll) 0 fresh_machine
    empty_outbox "OVERCRANK" H2 H5 H6) as (_ & Hup & _).
  destruct Hup as (_ & _ & Hnew); [split; decide_now|].
  destruct (Hnew eq_refl) as (ab & _ & Hc & _ & Hrow). exists ab. exact (conj Hc Hrow).
Defined.

(** The companion says utility while the generator carries load: three polls raise
    the alarm. *)
Definition disagreeing : option AtsView :=
  Some {| av_authoritative := true; av_position := "utility"; av_normal_available := Some true |}.
Definition disagree_poll : poll_input :=
  poll_of [("output_status_1", 8192); ("output_status_7", 0); ("avg_current", 100); ("total_kw", 50)]%string
    disagreeing.

Lemma disagreement_debounce_witness :
  LOADSOURCE_DISAGREE_ALARM_CODE ∈ ss_active_alarms (sm_snap (fst
    (run_updates (fresh_machine, empty_outbox) ([disagree_poll; disagree_poll] ++ [disagree_poll])))).
Proof.
  assert (disagree_state fresh_machine = (0, false)) as H by reflexivity.
  destruct (disagreement_debounce [disagree_poll; disagree_poll] disagree_poll fresh_machine empty_outbox H)
    as (_ & _ & Hx).
  apply Hx. vm_compute. discriminate.
Defined.

Lemma comms_transitions_missed_witness :
  let lost := CommsHealth_default 1500 in
  let i heap := {| pi_now := sec 1700000000; pi_heap := heap; pi_ats := None;
                   pi_reading := pi_reading overcrank_poll; pi_comms := 1%nat |} in
  let degraded := {| ch_state := "lost"; ch_success_pct := 0; ch_last_good_at := None;
     ch_last_attempt_at := None; ch_rate_ms := 1500; ch_p95_latency_ms := 0;
     ch_consecutive_failures := 5; ch_consecutive_successes := 0; ch_last_prime_good_monotonic := None |} in
  rows_of "COMMS" (snd (run_updates (fresh_machine, empty_outbox)
     [i bench_heap; i (<[1%nat := degraded]> bench_heap)])) =
  rows_of "COMMS" (snd (update_input (fresh_machine, empty_outbox) (i bench_heap))).
Proof.
  cbv zeta. apply (comms_transitions_missed [_] _ fresh_machine empty_outbox 1). repeat constructor.
Defined.

Lemma engine_starts_counted_witness :
  count_engine_starts (log_event 0 "ok" "TRANSITION" (transition_message "stopped" "cranking") None empty_db) = 1.
Proof.
  assert ("stopped"%string ∈ engine_states) as H1 by decide_now.
  assert ("cranking"%string ∈ engine_states) as H2 by decide_now.
  destruct (engine_starts_counted 0 "stopped" "cranking" empty_db H1 H2) as [Hc _]. exact Hc.
Defined.

(** ** Registers and the Modbus clients *)

Lemma decode_raw_roundtrip_witness :
  fst (type_range s32) <= -2 <= snd (type_range s32) /\ decode_raw s32 (encode_raw s32 (-2)) = Some (-2).
Proof.
  assert (fst (type_range s32) <= -2 <= snd (type_range s32)) as H by (vm_compute; split; discriminate).
  split; [exact H|]. exact (decode_raw_roundtrip s32 (-2) H).
Defined.

Lemma batch_reads_spec_witness :
  Forall (fun b => 1 <= snd b <= default_max_words) (batch_reads h100_registers default_max_words).
Proof.
  assert (2 <= default_max_words) as H by (vm_compute; discriminate).
  destruct (batch_reads_spec default_max_words H h100_registers) as (_ & Hs & _). exact Hs.
Defined.

Lemma validate_register_map_iff_witness : Forall nonempty_name (rm_registers h100_map) /\ map_ok h100_map.
Proof.
  assert (Forall nonempty_name (rm_registers h100_map)) as H by (repeat constructor; discriminate).
  split; [exact H|]. apply (proj2 (validate_register_map_iff h100_map) H). vm_compute. reflexivity.
Defined.

(** A short read, then the words. *)
Definition flaky : bench := bench0 [Responded (PduRegs (Some [7])); Responded (PduRegs (Some [1; 2]))].

Lemma client_read_spec_witness :
  exists errs res, read_run bench_cfg (ensure_connected bench_cfg) 0x80 2 3 (attempts bench_cfg) 0 flaky errs res
    (snd (client_read bench_cfg (ensure_connected bench_cfg) 0x80 2 3 flaky)).
Proof.
  assert (cl_present bench_cfg = true) as H1 by reflexivity.
  assert (0 <= cl_retries bench_cfg) as H2 by (vm_compute; discriminate).
  destruct (client_read_spec bench_cfg (ensure_connected bench_cfg) 0x80 2 3 flaky _ _ H1 H2
              (surjective_pairing _)) as (errs & res & Hr & _).
  exists errs, res. exact Hr.
Defined.

Lemma client_write_spec_witness :
  exists words, coerce_write_args None (Some [128; 0; 0]) 16 = (words, None) /\
    mr_words (fst (client_write bench_cfg (ensure_connected bench_cfg) 412 None 16 (Some [128; 0; 0]) (bench0 [ack]))) =
      Some words.
Proof.
  assert (mr_ok (fst (client_write bench_cfg (ensure_connected bench_cfg) 412 None 16 (Some [128; 0; 0]) (bench0 [ack]))) = true)
    as H by (vm_compute; reflexivity).
  destruct (client_write_spec _ _ _ _ _ _ _ _ _ (surjective_pairing _) H) as (words & _ & _ & _ & Hc & Hw & _).
  exists words. split; [exact Hc|exact Hw].
Defined.

(** ** The poller *)

Definition bench_poller : Poller := Poller_init h100_map 0.
(** Every prime batch of the panel answered in full. *)
Definition panel_answers : list outcome :=
  map (fun b => Responded (PduRegs (Some (repeat 0 (Z.to_nat (snd b)))))) (tier_batches "prime" bench_poller).
Definition decoded_in (results : list batch_result) (n : string) : bool :=
  existsb (fun r => (r_name r =? n)%string && (r_tier r =? "prime")%string &&
                    match fresh_decode results r with Some _ => true | None => false end) (rm_registers h100_map).

(** A poll that reads everything stamps the heartbeat. *)
Lemma poll_tier_spec_witness :
  ch_last_prime_good_monotonic (p_health (snd (fst (poll_tier "prime" bench_poller (bench0 panel_answers))))) =
  Some (mono_clock (snd (poll_tier "prime" bench_poller (bench0 panel_answers)))).
Proof.
  assert (Forall (fun b => 0 <= snd b) (tier_batches "prime" bench_poller)) as H by decide_now.
  assert (fst (fst (poll_tier "prime" bench_poller (bench0 panel_answers))) = true) as Hb by (vm_compute; reflexivity).
  destruct (poll_tier "prime" bench_poller (bench0 panel_answers)) as [[b p'] w'] eqn:E. cbn [fst] in Hb. subst b.
  destruct (poll_tier_spec "prime" bench_poller (bench0 panel_answers) p' w' H E)
    as (ss & results & beat & Hres & _ & _ & _ & _ & Hh & Hbeat).
  assert (NoDup (map r_name (rm_registers (p_regmap bench_poller)))) as H1 by decide_now.
  assert (0 < rm_prime_poll_ms (p_regmap bench_poller)) as H2 by reflexivity.
  assert (forall n a, rd_value_ages (p_reading bench_poller) !! n = Some a -> a < mono_clock w') as H3 by done.
  assert (beat = true) as Hbt.
  { apply (Hbeat H1 H2 H3). split; [reflexivity|]. split; [discriminate|]. intros rule Hin.
    assert (Forall (fun rule => decoded_in results (sb_register rule) = true) (rm_engine_state_bits h100_map)) as Hall
      by (rewrite Hres; repeat constructor).
    rewrite Forall_forall in Hall. specialize (Hall rule Hin). unfold decoded_in in Hall.
    apply existsb_exists in Hall as (rg & Hrg & Hd). apply andb_prop in Hd as [Hd Hv]. apply andb_prop in Hd as [Hn Ht].
    exists rg. split; [by apply list_elem_of_In|]. apply String.eqb_eq in Hn, Ht. split; [exact Hn|]. split; [exact Ht|].
    destruct (fresh_decode results rg) as [v|]; [by exists v|discriminate]. }
  cbn [fst snd]. rewrite Hh, Hbt. reflexivity.
Defined.

Definition mode_word : RegisterDef := reg "engine_status_code" 306 u16 "prime" "State" "enum" f_one None None.

(** A value a thousand seconds old goes when its batch fails. *)
Lemma decode_and_evict_spec_witness :
  let va := decode_and_evict h100_map "prime" [] (sec 1000)
              (bench_reading 0 0 [("engine_status_code", 3)]%string) in
  let n := r_name mode_word in
  (fst va !! n, snd va !! n) = (None, None).
Proof.
  assert (NoDup (map r_name (rm_registers h100_map))) as H1 by decide_now.
  assert (0 < stale_threshold h100_map "prime") as H2 by (vm_compute; reflexivity).
  assert (mode_word ∈ rm_registers h100_map) as H3 by (apply (list_elem_of_lookup_2 _ 32); reflexivity).
  etransitivity; [exact (decode_and_evict_spec h100_map "prime" [] (sec 1000)
    (bench_reading 0 0 [("engine_status_code", 3)]%string) mode_word H1 H2 H3)|].
  vm_compute. reflexivity.
Defined.

Definition good_sample (t : Z) : sample := {| s_ok := true; s_elapsed := msec 20; s_wall := t; s_mono := t |}.

Lemma recovery_witness :
  ch_state (p_health (foldl record_sample bench_poller (repeat (good_sample 1) 4 ++ [good_sample 1]))) = "healthy"%string.
Proof.
  assert (health_inv bench_poller) as H1 by apply health_inv_init.
  assert (Forall (fun s => s_ok s = true) (repeat (good_sample 1) 4 ++ [good_sample 1])) as H2 by (repeat constructor).
  assert (HEALTHY_RECOVERY_STREAK <= Z.of_nat (length (repeat (good_sample 1) 4 ++ [good_sample 1]))) as H3
    by (vm_compute; discriminate).
  destruct (recovery (repeat (good_sample 1) 4) (good_sample 1) bench_poller H1 H2 H3) as [Hr _].
  apply Hr. vm_compute. reflexivity.
Defined.

(** Six good samples, then a prime loop that is silent for a minute. *)
Definition silent_poller : Poller :=
  let p := foldl record_sample bench_poller (repeat (good_sample 1) 60) in
  with_health (stamp_heartbeat (sec 1) (p_health p)) p.

Lemma watchdog_lost_undone_by_one_success_witness :
  exists mono m2, ch_state (p_health (watchdog_tick mono m2 silent_poller)) = "lost"%string /\
  ch_state (p_health (record_sample (watchdog_tick mono m2 silent_poller) (good_sample 1))) = "healthy"%string.
Proof.
  exists (sec 100), (sec 100).
  assert (950 <= success_pct_of (deque_push RESULTS_MAXLEN true (p_results silent_poller))) as H
    by (vm_compute; discriminate).
  assert (ch_state (p_health (watchdog_tick (sec 100) (sec 100) silent_poller)) = "lost"%string) as Hl
    by (vm_compute; reflexivity).
  split; [exact Hl|].
  exact (watchdog_lost_undone_by_one_success silent_poller (sec 100) (sec 100) (good_sample 1) eq_refl H Hl).
Defined.

(** ** Storage, limiter, bus, Slack *)

Lemma prune_chunked_exact_witness :
  prune_chunked (prune_fuel [1; 5; 2; 9; 3]) (fun x => x <? 4) 2 0 [1; 5; 2; 9; 3] = Some ([5; 9], 3).
Proof.
  assert (0 < 2) as H by reflexivity.
  exact (prune_chunked_exact (fun x => x <? 4) 2 [1; 5; 2; 9; 3] H).
Defined.

Lemma aggregate_1m_complete_witness :
  (m_samples <$> minute_at 60 (db_telemetry_1m (aggregate_rollup_1m 0 (sec 120) partial_minute_db))) = Some 3.
Proof.
  assert (Forall (fun r => 0 <= tl_ts r) (db_telemetry partial_minute_db)) as H1 by decide_now.
  assert (0 <= 1 * sec 60) as H2 by (vm_compute; discriminate).
  assert ((1 + 1) * sec 60 <= sec 120) as H3 by (vm_compute; discriminate).
  transitivity (m_samples <$> minute_at (1 * 60) (db_telemetry_1m (aggregate_rollup_1m 0 (sec 120) partial_minute_db)));
    [reflexivity|].
  rewrite (aggregate_1m_complete 0 (sec 120) partial_minute_db 1 H1 H2 H3). vm_compute. reflexivity.
Defined.

Lemma read_telemetry_bounded_witness :
  exists pts, read_telemetry "kw" 0 (sec 200) 1 partial_minute_db = inr pts /\ Z.of_nat (length pts) < 2 * 1.
Proof.
  assert (0 < 1) as H by reflexivity.
  destruct (read_telemetry "kw" 0 (sec 200) 1 partial_minute_db) as [e|pts] eqn:E.
  - exfalso. apply (f_equal (fun x => match x with inl _ => true | inr _ => false end)) in E.
    vm_compute in E. discriminate.
  - exists pts. split; [reflexivity|].
    destruct (read_telemetry_bounded "kw" 0 (sec 200) 1 partial_minute_db pts H E) as [Hl _]. exact Hl.
Defined.

(** Five logins at once pass, the sixth does not; 180 s later one more does. *)
Lemma limiter_bound_witness :
  allowed "10.0.0.7" [0; 0; 0; 0; 0; 0; sec 180] login_limiter = 6 /\
  (inject_Z (allowed "10.0.0.7" [0; 0; 0; 0; 0; 0; sec 180]%Z login_limiter) <= 5 + (1 # 180) * seconds (sec 180 - 0)%Z)%Q.
Proof.
  split; [vm_compute; reflexivity|].
  assert (1 <= 5)%Q as H1 by (vm_compute; discriminate).
  assert (0 <= 1 # 180)%Q as H2 by (vm_compute; discriminate).
  assert (rl_buckets login_limiter !! "10.0.0.7"%string = None) as H3 by reflexivity.
  assert (ordered 0 [0; 0; 0; 0; 0; sec 180]) as H4 by (cbn; unfold sec; lia).
  destruct (limiter_bound 5 (1 # 180) H1 H2 "10.0.0.7" 0 [0; 0; 0; 0; 0; sec 180] login_limiter eq_refl eq_refl H3 H4)
    as [Hb _]. exact Hb.
Defined.

Definition bench_slack : SlackNotifier :=
  SlackNotifier_init {| sl_enabled := true; sl_bot_token := "xoxb"; sl_channel := "#ops"; sl_site_label := "";
    sl_alert_on_alarm := true; sl_alert_on_warning := true; sl_alert_on_alarm_cleared := true;
    sl_alert_on_state_change := true; sl_alert_on_command := true; sl_alert_on_comms_lost := true;
    sl_alert_on_load_source_change := true |} "SITE-23".

Lemma alarm_alert_dedupe_witness :
  exists msg, last (sn_queue (alert_alarm (sec 1) "OVERCRANK" "Overcrank" "alarm" bench_slack)) = Some msg /\
    pm_enqueued_at msg = sec 1.
Proof.
  assert ((length (sn_queue bench_slack) <= MAX_QUEUE)%nat) as H1 by (cbn; lia).
  assert (is_enabled (sn_cfg bench_slack) = true) as H2 by reflexivity.
  destruct (alarm_alert_dedupe (sec 1) "OVERCRANK" "Overcrank" "alarm" bench_slack H1 H2 eq_refl eq_refl) as [Hm _].
  exact Hm.
Defined.

(** ** The companion *)

(** A poll of the base tier with the bits of the first two faults up. *)
Definition faulty_words : list (string * Z) :=
  [("position", 0); ("fault_summary", 3); ("icd_version_major", 1); ("ats_pi_unit_id", 23)]%string.
Definition faulty_poll : ats_input :=
  {| ai_now := sec 1700000000; ai_mono := sec 1000; ai_heap := bench_heap; ai_tier := "base";
     ai_reading := bench_reading (sec 1700000000) (sec 1000) faulty_words; ai_comms := 1 |}.
Definition first_fault : string := default ""%string (ab_code <$> head (rm_alarm_bits ats_pi_map)).

Lemma ats_alarm_rows_witness :
  first_fault ∈ alarm_codes (ob_db (snd (run_ats (AtsService_init ats_pi_map (Some 23) 1, empty_outbox) ([] ++ [faulty_poll])))).
Proof.
  assert (first_fault <> SKEW_CODE) as H by decide_now.
  apply (ats_alarm_rows ats_pi_map (Some 23) 1 empty_outbox [] faulty_poll first_fault H).
  left. decide_now.
Defined.

(** The companion on utility has the last word over a generator that seems to carry load. *)
Lemma load_source_follows_ats_witness :
  ss_load_source (sm_snap (fst (update (sec 1700000000) bench_heap (Some (ats_view bench_heap (fst bench_ats)))
    (pi_reading disagree_poll) 0 (fresh_machine, empty_outbox)))) = "utility"%string.
Proof.
  assert (is_authoritative bench_heap (fst bench_ats) = true) as H1 by (vm_compute; reflexivity).
  assert (at_position (as_snap (fst bench_ats)) <> "unknown"%string) as H2 by decide_now.
  destruct (load_source_follows_ats (sec 1700000000) bench_heap (fst bench_ats) (pi_reading disagree_poll) 0
    fresh_machine empty_outbox H1 H2) as [Hx _].
  etransitivity; [exact Hx|]. vm_compute. reflexivity.
Defined.

(** ** Sessions, acknowledgements, clients *)

(** WatchdogSec of 30 s, a prime poll every 1.5 s, and a link that freezes at 1000 s:
    the ping at 1045 s is withheld. *)
Definition frozen_ticks : list tick :=
  (fun t => {| tk_now := sec t; tk_running := true; tk_last_good := Some (sec 1000) |}) <$> [1007; 1014; 1021; 1045].

Lemma watchdog_liveness_witness :
  let env := {| we_start := 0; we_stale := stale_after_s (watchdog_tick_s (sec 15)) 1500 |} in
  Forall (fun p => p <= sec 1000 + we_stale env) (pings (watchdog_loop env false frozen_ticks)).
Proof.
  assert (0 < 1500) as H1 by reflexivity.
  assert (watchdog_interval_s (Some 30000000) = Some (sec 15)) as H2 by reflexivity.
  destruct (watchdog_liveness 30000000 1500 0 frozen_ticks H1 (sec 15) H2) as (_ & Hf & _).
  apply (Hf (sec 1000)).
  - repeat constructor; intros g [= <-]; reflexivity.
  - repeat constructor; by eexists.
Defined.

Definition browser (origin : string) : Request :=
  {| rq_method := "POST"; rq_path := "/api/auth/login"; rq_headers := [("host", "gw:8080"); ("origin", origin)]%string;
     rq_cookies := []; rq_client := Some "10.0.0.7"%string; rq_scheme := "http" |}.
Definition bench_auth : AuthConfig :=
  {| ac_admin_password_hash := "$2b$12$hash"; ac_operator_name := "olga"; ac_jwt_secret := "s"; ac_session_hours := 12;
     ac_cookie_secure := None; ac_cookie_samesite := "strict" |}.
(** A comparison that accepts one password, and a signer that names the operator. *)
Definition bench_checkpw (plain hashed : string) : bool := (plain =? "right")%string.
Definition bench_issue (now : Z) (secret operator role : string) (hours : Z) : string := operator.
Definition try (pw : string) (t : Z) : attempt :=
  {| at_now := sec t; at_mono := sec t; at_rq := browser "http://gw:8080"; at_password := pw |}.
Definition guess : Z -> attempt := try "wrong".
Definition bench_login : LoginState := {| ls_db := empty_db; ls_limiter := login_limiter |}.

(** After two wrong passwords, two more guesses, the right password, and seven guesses
    within the minute: the last two are not compared. *)
Lemma login_guesses_bounded_witness :
  let atts := guess 21 :: try "right" 22 :: (guess <$> [23; 24; 25; 26; 27; 28; 29]) in
  let s := snd (login_run bench_checkpw bench_issue bench_auth [guess 0; guess 10] bench_login) in
  let rs := fst (login_run bench_checkpw bench_issue bench_auth (guess 20 :: atts) s) in
  count_in (wrong_guess bench_checkpw bench_auth "10.0.0.7") (guess 20 :: atts) rs = 7 /\
  count_in (logged_in "10.0.0.7") (guess 20 :: atts) rs = 1 /\
  (inject_Z (count_in (wrong_guess bench_checkpw bench_auth "10.0.0.7") (guess 20 :: atts) rs) <=
     5 + 5 * inject_Z (count_in (logged_in "10.0.0.7") (guess 20 :: atts) rs) +
     (1 # 180) * seconds (List.last (map at_mono atts) (at_mono (guess 20)) - at_mono (guess 20))%Z)%Q.
Proof.
  cbv zeta. split; [vm_compute; reflexivity|]. split; [vm_compute; reflexivity|].
  refine (login_guesses_bounded bench_checkpw bench_issue bench_auth "10.0.0.7" [guess 0; guess 10] (guess 20) _ bench_login 0 eq_refl _ _).
  - discriminate.
  - cbn. unfold sec. lia.
Defined.

(** The plant with a latched alarm and a token to acknowledge it. *)
Definition ack_plant : Sys bench :=
  snd (issue_token ["T3"]%string "olga" (Some "ack"%string)
    (set_db (snd (raise_alarm 0 "OVERCRANK" "Overcrank" "alarm" 16 (sy_db plant))) plant)).

Lemma ack_alarm_outcome_witness :
  fst (ack_alarm "OVERCRANK" "T3" "olga" ack_plant) = inr true /\
  "OVERCRANK"%string ∉ alarm_codes (sy_db (snd (ack_alarm "OVERCRANK" "T3" "olga" ack_plant))).
Proof.
  assert (tokens_ok (sy_tokens ack_plant)) as H by decide_now.
  assert (fst (ack_alarm "OVERCRANK" "T3" "olga" ack_plant) = inr true) as Hr by (vm_compute; reflexivity).
  split; [exact Hr|].
  pose proof (ack_alarm_outcome ack_plant "OVERCRANK" "T3" "olga" _ _ H (surjective_pairing _)) as Ho.
  rewrite Hr in Ho. inversion Ho.
  match goal with Hc : acked _ _ _ |- _ => destruct Hc as [Hc _]; rewrite Hc end.
  generalize (alarm_codes (sy_db ack_plant)). intros X HX. apply elem_of_difference in HX as [_ HX].
  by apply HX, elem_of_singleton.
Defined.

(** A machine that polls, one client that has read everything. *)
Definition bench_live : Live :=
  {| lv_sm := fst bench_sm; lv_ats := fst bench_ats; lv_db := ob_db (snd bench_ats);
     lv_bus := {| bus_next := 1; bus_subs := {[ 0%nat := [] ]} |}; lv_slack := bench_slack; lv_last_push := 0 |}.
Definition engine_poll (tier : string) (words : list (string * Z)) : poll_event :=
  {| pe_now := sec 1700000001; pe_mono := sec 1001; pe_heap := bench_heap; pe_tier := tier;
     pe_reading := bench_reading (sec 1700000001) (sec 1001) words; pe_comms := 0 |}.
(** Running in the status word, and before that cranking. *)
Definition cranking_words : list (string * Z) := [("output_status_7", 4096); ("output_status_1", 0)]%string.
Definition running_words : list (string * Z) := [("output_status_7", 0); ("output_status_1", 8192)]%string.

Lemma bench_bus_ok : bus_ok (lv_bus bench_live).
Proof.
  split; intros q.
  - intros l Hl. cbn in Hl. apply lookup_singleton_Some in Hl as [_ <-]. cbn. unfold BUS_QUEUE_MAX. lia.
  - intros Hq. apply lookup_singleton_None. cbn in Hq. lia.
Qed.

Definition cranking_poll : poll_event := engine_poll "base" cranking_words.
Definition running_poll : poll_event := engine_poll "prime" running_words.

(** A cranking base poll overtaken by a prime poll that finds the engine running: the
    client ends on cranking. *)
Lemma overtaken_transition_witness :
  let lv' := let '(lv1, es) := base_begin true cranking_poll bench_live in
             base_end cranking_poll es (base_write cranking_poll (on_poll true 0 running_poll lv1)) in
  cv_engine (served lv') = "running"%string /\
  forall l, bus_subs (lv_bus lv') !! 0%nat = Some l -> cv_engine (replay (served bench_live) l) = "cranking"%string.
Proof.
  assert (bus_subs (lv_bus bench_live) !! 0%nat = Some []) as Hq by reflexivity.
  assert (pe_tier cranking_poll = "base"%string) as H1 by reflexivity.
  assert (pe_tier running_poll <> "base"%string) as H2 by discriminate.
  pose proof (overtaken_transition true 0 cranking_poll running_poll bench_live 0%nat [] (served bench_live)
    bench_bus_ok Hq H1 H2) as Ho.
  assert (cv_engine (served (fst (base_begin true cranking_poll bench_live))) = "cranking"%string) as Hc
    by (vm_compute; reflexivity).
  assert (cv_engine (served (on_poll true 0 running_poll (fst (base_begin true cranking_poll bench_live)))) =
          "running"%string) as Hr by (vm_compute; reflexivity).
  destruct (base_begin true cranking_poll bench_live) as [lv1 es]. cbn [fst] in Hc, Hr. cbv zeta in Ho |- *.
  destruct Ho as [_ Ho]. rewrite Hc in Ho. split; [exact Hr|].
  intros l Hl. refine (proj1 (Ho _ l Hl)). vm_compute. discriminate.
Defined.

(** The same two polls one after the other keep the client in sync. *)
Lemma clients_stay_in_sync_witness :
  let s := {| sd_live := bench_live; sd_pending := None |} in
  let s' := {| sd_live := live_step true 0 bench_live (GenPoll running_poll); sd_pending := None |} in
  exists new, in_sync 0%nat (served bench_live) new s'.
Proof.
  cbv zeta.
  assert (in_sync 0%nat (served bench_live) [] {| sd_live := bench_live; sd_pending := None |}) as H1
    by (constructor; [exact bench_bus_ok|reflexivity|reflexivity]).
  assert (rtc (sched true 0 (calm true 0)) {| sd_live := bench_live; sd_pending := None |}
            {| sd_live := live_step true 0 bench_live (GenPoll running_poll); sd_pending := None |}) as H2
    by (apply rtc_once, sched_whole; [reflexivity|discriminate]).
  destruct (clients_stay_in_sync true 0 0%nat (served bench_live) [] _ _ H2 H1) as [Hg|[new Hn]].
  - exfalso. apply (f_equal (fun o : option (list BusEvent) => match o with Some _ => true | None => false end)) in Hg.
    vm_compute in Hg. discriminate.
  - exists new. exact Hn.
Defined.
