(* ===== verification/PlantWitnesses.v ===== *)
(** * Concrete instances: the interlock, the loader, the live socket *)

From S2P Require Import Prelude PyNum PyVal Registers RegisterFacts RegisterValidation ShippedMaps Loader ShippedFiles Client Poller Database Events StateMachine Ats Control ControlFacts AtsControl RateLimit Http LiveSocket Api Interlock Bench.

Local Open Scope Z_scope.

Definition browser (origin : string) : Request :=
  {| rq_method := "GET"; rq_path := "/ws/live"; rq_headers := [("host", "gw:8080"); ("origin", origin)]%string;
     rq_cookies := []; rq_client := Some "10.0.0.7"%string; rq_scheme := "http" |}.

(** ** The interlock *)

(** A granted start, and a second command with the spent token. *)
Definition plant_history : list (plant_op (W := bench)) :=
  [OpIssue ["T1"]%string "olga" (Some "start"%string); OpCommand "start" "T1" "olga" "operator";
   OpCommand "start" "T1" "olga" "operator"].

Lemma plant_history_ok : Forall op_ok plant_history.
Proof. repeat constructor. Qed.

Lemma plant_refines_interlock_witness :
  b_sent (sy_world (plant_run bench_ats_client plant_history plant0)) = [WriteMany 412 [128; 0; 0]] /\
  exists ls a, spec_run bench_ats_client {| sp_grants := ∅; sp_wire := sy_world plant0 |} ls a /\
  b_sent (sp_wire a) = [WriteMany 412 [128; 0; 0]].
Proof.
  assert (sy_tokens plant0 = []) as H by reflexivity.
  assert (b_sent (sy_world (plant_run bench_ats_client plant_history plant0)) = [WriteMany 412 [128; 0; 0]]) as Hs
    by (vm_compute; reflexivity).
  split; [exact Hs|].
  destruct (plant_refines_interlock bench_ats_client plant_history plant0 plant_history_ok H) as (ls & a & Hr & _ & Hrel).
  exists ls, a. split; [exact Hr|]. rewrite (rl_wire _ _ Hrel). exact Hs.
Defined.

Lemma writes_authorised_witness :
  exists ls a, spec_run bench_ats_client {| sp_grants := ∅; sp_wire := sy_world plant0 |} ls a /\
  sp_wire a = sy_world (plant_run bench_ats_client plant_history plant0) /\
  forall pre l post, ls = pre ++ l :: post -> authorised pre l.
Proof.
  assert (sy_tokens plant0 = []) as H by reflexivity.
  destruct (writes_authorised bench_ats_client plant_history plant0 plant_history_ok H) as (ls & a & H1 & _ & H2 & H3).
  exists ls, a. split; [exact H1|]. split; [exact H2|exact H3].
Defined.

(** ** The loader *)

Lemma ats_map_canonical : canonical ats_pi_map.
Proof.
  constructor; decide_now.
Qed.

Lemma load_dump_roundtrip_witness :
  canonical ats_pi_map /\ map_ok ats_pi_map /\ Forall nonempty_name (rm_registers ats_pi_map) /\
  load_register_map (rm_path ats_pi_map) (dump ats_pi_map) = inr ats_pi_map.
Proof.
  assert (Forall nonempty_name (rm_registers ats_pi_map)) as Hn
    by (repeat (apply Forall_cons_2; [vm_compute; discriminate|]); apply Forall_nil_2).
  assert (map_ok ats_pi_map) as Hm by (apply (validate_ok_iff _ Hn); vm_compute; reflexivity).
  split; [exact ats_map_canonical|]. split; [exact Hm|]. split; [exact Hn|].
  exact (load_dump_roundtrip ats_pi_map ats_map_canonical Hm Hn).
Defined.

Lemma load_only_valid_witness :
  load_register_map "registers/ats_pi.yaml" ats_pi_yaml = inr ats_pi_map /\
  mv_ok (validate_register_map ats_pi_map) = true.
Proof.
  assert (load_register_map "registers/ats_pi.yaml" ats_pi_yaml = inr ats_pi_map) as H by (vm_compute; reflexivity).
  split; [exact H|]. destruct (load_only_valid _ _ _ H) as (_ & Hv & _). exact Hv.
Defined.

(** ** The live socket *)

(** A decoder whose tokens all expire at 1000 s. *)
Definition bench_decode (now : Z) (token secret : string) : jwt_result :=
  if now <? sec 1000 then JwtOk {| cl_sub := Some "olga"%string; cl_role := Some "admin"%string; cl_exp := sec 1000 |}
  else JwtExpired.
Definition bench_socket (subscribed : bool) : Socket :=
  {| so_open := true; so_subscribed := subscribed; so_waiting := []; so_last_revalidated := sec 980; so_sent := [] |}.
Definition news (n : nat) : list socket_op := repeat (Publish (EvSnapshot 0)) n.
Definition turn_at (t : Z) : socket_op := Turn (sec t) (sec t) "s".

(** One message more than the queue holds. *)
Lemma socket_stream_witness :
  let s' := socket_run bench_decode (browser "http://gw:8080") (Some "t"%string) (bench_socket true) (news 65) in
  so_subscribed s' = false /\
  forall more, length (received_or_waiting (socket_run bench_decode (browser "http://gw:8080") (Some "t"%string) s' more)) = 64%nat.
Proof.
  cbv zeta. assert (so_subscribed (bench_socket true) = true) as H by reflexivity.
  pose proof (socket_stream bench_decode (browser "http://gw:8080") (Some "t"%string) (bench_socket true) (news 65) H) as Hs.
  cbv zeta in Hs. set (s' := socket_run _ _ _ _ (news 65)) in *.
  assert (so_subscribed s' = false) as E by (vm_compute; reflexivity). rewrite E in Hs.
  split; [exact E|]. intros more. destruct Hs as (_ & _ & _ & _ & Hm). rewrite (Hm more). vm_compute. reflexivity.
Defined.

Lemma dropped_client_starves_witness :
  let s' := socket_run bench_decode (browser "http://gw:8080") (Some "t"%string) (bench_socket false)
              [Publish (EvSnapshot 0); turn_at 990; Publish (EvSnapshot 0); turn_at 999] in
  so_open s' = true /\ events_sent s' = [].
Proof.
  cbv zeta.
  assert (Forall (silent bench_decode (browser "http://gw:8080") (Some "t"%string))
            [Publish (EvSnapshot 0); turn_at 990; Publish (EvSnapshot 0); turn_at 999]) as H by (repeat constructor).
  destruct (dropped_client_starves bench_decode (browser "http://gw:8080") (Some "t"%string) (bench_socket false) _
    eq_refl eq_refl eq_refl H) as (Ho & He & _).
  split; [exact Ho|exact He].
Defined.

(** A session that dies at 1000 s, twenty seconds after its last check: the loop
    still sends at 1020 s and 1039 s, and closes at 1059 s. *)
Lemma dead_session_bounded_witness :
  let ops := [turn_at 1000; Publish (EvSnapshot 0); turn_at 1020; turn_at 1039; turn_at 1059; turn_at 1079] in
  Forall (fun tf => fst tf <= sec 1080)
    (so_sent (socket_run bench_decode (browser "http://gw:8080") (Some "t"%string) (bench_socket true) ops)).
Proof.
  cbv zeta.
  set (ops := [turn_at 1000; Publish (EvSnapshot 0); turn_at 1020; turn_at 1039; turn_at 1059; turn_at 1079]).
  assert (0 <= 0) as H1 by reflexivity.
  assert (fresh_session (sec 1000) (sec 980) (bench_socket true)) as H2
    by (constructor; intros _; cbn; unfold REVALIDATE_EVERY_S, sec; lia).
  assert (paced 0 (sec 980) ops) as H3 by (cbn; unfold KEEPALIVE_S, sec; lia).
  assert (Forall (dead_from bench_decode (sec 1000) (browser "http://gw:8080") (Some "t"%string)) ops) as H4
    by (repeat constructor; intros _; vm_compute; reflexivity).
  destruct (dead_session_bounded bench_decode 0 (sec 1000) (sec 980) (browser "http://gw:8080") (Some "t"%string)
    (bench_socket true) ops H1 H2 H3 H4) as (new & E & Hn).
  rewrite E. cbn [bench_socket so_sent app]. exact Hn.
Defined.
