(* ===== verification/AppWitnesses.v ===== *)
(** * Concrete instances: configuration, status, the whole API *)

From S2P Require Import Prelude PyNum PyVal Registers RegisterFacts RegisterValidation ShippedMaps Loader ShippedFiles Client Poller Database DatabaseFacts Events StateMachine Ats Control ControlFacts AtsControl RateLimit Slack Http Config SettingsApi SettingsFacts Status Api Interlock Routes Bench.

Local Open Scope Z_scope.
Local Open Scope string_scope.

(** ** A pydantic that takes values of the field's own type only *)

Definition strict_lit {A} `{EqDecision A} (get : pyval -> option A) (l : list A) (v : pyval) : option A :=
  match get v with Some a => if bool_decide (a ∈ l) then Some a else None | None => None end.
Definition strict_int (v : pyval) : option Z := match v with PvNum (PInt z) => Some z | _ => None end.
Definition strict_str (v : pyval) : option string := match v with PvStr s => Some s | _ => None end.
#[export] Instance strict_pydantic : Pydantic :=
  {| pyd_int := strict_int; pyd_str := strict_str;
     pyd_float v := match v with PvNum (PFloat f) => Some f | _ => None end;
     pyd_bool v := match v with PvBool b => Some b | _ => None end;
     pyd_lit_int := strict_lit strict_int; pyd_lit_str := strict_lit strict_str |}.

Lemma strict_lit_id {A} `{EqDecision A} (get : pyval -> option A) l v a :
  get v = Some a -> a ∈ l -> strict_lit get l v = Some a.
Proof. intros Hg Ha. unfold strict_lit. by rewrite Hg, bool_decide_true. Qed.
Lemma strict_lit_in {A} `{EqDecision A} (get : pyval -> option A) l v a : strict_lit get l v = Some a -> a ∈ l.
Proof. unfold strict_lit. destruct (get v); [|done]. case_bool_decide; [by intros [= <-]|done]. Qed.

#[export] Instance strict_pydantic_laws : PydanticLaws strict_pydantic.
Proof.
  split; try done.
  - intros l z. by apply strict_lit_id.
  - intros l s. by apply strict_lit_id.
  - intros l v z. apply strict_lit_in.
  - intros l v s. apply strict_lit_in.
Qed.

(** ** A deep merge *)

Fixpoint merge (old : option pyval) (v : pyval) {struct v} : pyval :=
  match v with
  | PvDict hi =>
      match old with
      | Some (PvDict lo) =>
          PvDict ((fix deep (hi : pydict) : pydict :=
                     match hi with
                     | [] => lo
                     | (k, x) :: hi' => od_set k (merge (od_get k lo) x) (deep hi')
                     end) hi)
      | _ => v
      end
  | _ => v
  end.
Definition merge_deep (lo hi : pydict) : pydict :=
  match merge (Some (PvDict lo)) (PvDict hi) with PvDict d => d | _ => [] end.

#[export] Program Instance bench_merge : SettingsMerge := {| deep_update := merge_deep |}.
Next Obligation.
  intros lo hi k. induction hi as [|[k' x] hi IH]; [cbn; by destruct (od_get k lo) as [[]|]|].
  change (merge_deep lo ((k', x) :: hi)) with (od_set k' (merge (od_get k' lo) x) (merge_deep lo hi)).
  rewrite od_get_set. cbn [od_get]. case_decide as Ek; [subst k'|exact IH].
  destruct (od_get k lo) as [[]|]; by destruct x.
Qed.

(** ** The application *)

Definition bench_config : pydict :=
  [("transport", PvStr "tcp"); ("modbus", PvDict [("slave", num 100)]);
   ("auth", PvDict [("jwt_secret", PvStr "s"); ("admin_password_hash", PvStr "$2b$12$hash")]);
   ("slack", PvDict [("enabled", PvBool true); ("bot_token", PvStr "xoxb-1"); ("channel", PvStr "#alerts")]);
   ("ats", PvDict [("enabled", PvBool true)])].
Definition config_file : string := "/etc/genwatch/config.yaml".
(** The value of a computation that succeeds. *)
Definition value_of {A : Type} (r : res A) : (match r return Type with inr _ => A | inl _ => unit end) :=
  match r with inr a => a | inl _ => tt end.
Definition bench_settings : Settings := value_of (build_settings config_file [] bench_config).

(** Files hold their trees. *)
Definition tree_load (t : pyval) : res pyval := inr t.
Definition tree_dump (t : pyval) : pyval := t.
Lemma tree_roundtrip v : tree_load (tree_dump v) = inr v.
Proof. reflexivity. Qed.

Definition bench_app : App bench pyval :=
  {| ap_sys := plant0; ap_poller := Poller_init h100_map (sec 1700000000); ap_comms_ref := 0;
     ap_slack := SlackNotifier_init (st_slack bench_settings) "Site"; ap_settings := bench_settings;
     ap_regmap := h100_map;
     ap_fs := {[ config_file := PvDict bench_config; rm_path h100_map := h100_yaml ]} |}.

(** A text for every exception. *)
Definition py_repr_exc (e : pyexc) : string := match e with ValueError msg => msg | _ => "" end.

(** Decides flatness of the sections of a concrete tree. *)
Lemma flat_dict k (d x : pydict) :
  od_get k d = Some (PvDict x) -> Forall (fun kv => scalar (snd kv) = true) x -> section_flat k d.
Proof.
  intros Hk Hx v Hv. rewrite Hk in Hv. injection Hv as <-. exists x. split; [reflexivity|].
  intros f w Hw. apply od_get_elem in Hw. by apply (proj1 (Forall_forall _ _) Hx (f, w)).
Qed.
Lemma flat_none k (d : pydict) : od_get k d = None -> section_flat k d.
Proof. intros Hk v Hv. congruence. Qed.

Ltac flat := first [apply flat_none; vm_compute; reflexivity
                   | eapply flat_dict; [vm_compute; reflexivity|repeat constructor]].

Lemma bench_flat : sections_flat bench_config.
Proof.
  intros k Hk. unfold SECTIONS in Hk. repeat (apply elem_of_cons in Hk as [->|Hk]; [flat|]). by apply elem_of_nil in Hk.
Qed.
Lemma env_flat d : sections_flat [("auth", PvDict [("jwt_secret", PvStr d)])].
Proof.
  intros k Hk. unfold SECTIONS in Hk.
  repeat (apply elem_of_cons in Hk as [->|Hk]; [first [by apply flat_none|eapply flat_dict; [reflexivity|repeat constructor]]|]).
  by apply elem_of_nil in Hk.
Qed.

(** The environment's secret wins, the file's password hash stays. *)
Lemma settings_layers_witness :
  exists s, build_settings config_file [("auth", PvDict [("jwt_secret", PvStr "env")])] bench_config = inr s /\
    auth_config [("jwt_secret", PvStr "env"); ("jwt_secret", PvStr "s"); ("admin_password_hash", PvStr "$2b$12$hash")]
      = Some (st_auth s).
Proof.
  destruct (build_settings config_file [("auth", PvDict [("jwt_secret", PvStr "env")])] bench_config) as [e|s] eqn:E;
    [vm_compute in E; discriminate|].
  exists s. split; [reflexivity|].
  destruct (settings_layers config_file _ bench_config s E (env_flat "env") bench_flat) as (_ & _ & _ & _ & _ & Ha & _).
  exact Ha.
Defined.

Lemma load_well_formed_witness :
  exists s, load (fun p => if p =? config_file then Some (inr (PvDict bench_config)) else None) [] (fun _ => true) "/" None = inr s /\
    settings_ok s.
Proof.
  destruct (load (fun p => if p =? config_file then Some (inr (PvDict bench_config)) else None) [] (fun _ => true) "/" None)
    as [e|s] eqn:E; [vm_compute in E; discriminate|].
  exists s. split; [reflexivity|]. destruct (load_well_formed _ _ _ _ _ _ E) as [H _]. exact H.
Defined.

(** ** Configuration changes *)

Definition slack_change (token : string) : ConfigUpdate :=
  {| cu_transport := Some "serial"; cu_serial := Some [("baud", num 19200)]; cu_modbus_tcp := None; cu_modbus := None;
     cu_retention := None;
     cu_slack := Some {| su_enabled := None; su_bot_token := Some token; su_channel := Some "#ops"; su_site_label := None;
       su_alert_on_alarm := None; su_alert_on_warning := None; su_alert_on_alarm_cleared := None;
       su_alert_on_state_change := Some true; su_alert_on_command := None; su_alert_on_comms_lost := None;
       su_alert_on_load_source_change := None |};
     cu_ws_push_ms := None |}.
Definition put (b : ConfigUpdate) (s : App bench pyval) : (api_error + update_reply) * App bench pyval :=
  update_config_route tree_load tree_dump "olga" b s.

Lemma slack_change_unique t : patches_unique (slack_change t).
Proof.
  intros sec. unfold patch_of. repeat case_match; try apply NoDup_nil_2; try apply NoDup_singleton.
  apply slack_patch_keys.
Qed.

Lemma update_config_merges_witness :
  patches_unique (slack_change "xoxb-2") /\
  exists disk', read_disk tree_load config_file (snd (put (slack_change "xoxb-2") bench_app)) = inr disk' /\
    value_at "slack" "channel" disk' = Some (PvStr "#ops") /\ value_at "slack" "enabled" disk' = Some (PvBool true).
Proof.
  split; [apply slack_change_unique|].
  pose proof (update_config_merges tree_load tree_dump tree_roundtrip "olga" (slack_change "xoxb-2") bench_app) as Hm.
  unfold put. destruct (update_config_route _ _ "olga" (slack_change "xoxb-2") bench_app) as [r s'] eqn:E.
  specialize (Hm r s' (slack_change_unique _) eq_refl). cbv zeta in Hm. destruct r as [e|reply].
  - exfalso. apply (f_equal fst) in E. vm_compute in E. discriminate.
  - destruct Hm as (disk & disk' & Hd & Hd' & Hv & _). exists disk'. split; [exact Hd'|].
    assert (disk = PvDict bench_config) as -> by (vm_compute in Hd; injection Hd as <-; vm_compute; reflexivity).
    split; (etransitivity; [apply Hv; discriminate|vm_compute; reflexivity]).
Defined.

(** The token and channel a request set are those the next start reads. *)
Definition changed_app : App bench pyval := snd (put (slack_change "xoxb-2") bench_app).
Definition changed_config : pydict :=
  match read_disk tree_load config_file changed_app with inr (PvDict d) => d | _ => [] end.
Definition changed_settings : Settings := value_of (build_settings config_file [] changed_config).
Definition changed_reply : update_reply :=
  {| ur_config_path := config_file; ur_restart_required := true; ur_slack_updated := true |}.

Lemma bench_read : read_disk tree_load config_file bench_app = inr (PvDict bench_config).
Proof. vm_compute. reflexivity. Qed.
Lemma put_changed : put (slack_change "xoxb-2") bench_app = (inr changed_reply, changed_app).
Proof.
  apply injective_projections; [vm_compute; reflexivity|reflexivity].
Qed.

Lemma slack_survives_restart_witness :
  st_slack changed_settings = st_slack (ap_settings changed_app) /\ sl_bot_token (st_slack changed_settings) = "xoxb-2".
Proof.
  split; [|vm_compute; reflexivity].
  assert (od_get "slack" ([] : pydict) = None) as H1 by reflexivity.
  assert (slack_flat tree_load bench_app) as H2.
  { intros d Hd. change (st_config_path (ap_settings bench_app)) with config_file in Hd. rewrite bench_read in Hd.
    injection Hd as <-. apply bench_flat. unfold SECTIONS. set_solver. }
  assert (starts_with tree_load [] bench_app bench_settings) as H3
    by (exists bench_config; split; [exact bench_read|vm_compute; reflexivity]).
  assert (starts_with tree_load [] changed_app changed_settings) as H4
    by (exists changed_config; split; vm_compute; reflexivity).
  pose proof put_changed as H5. unfold put in H5.
  destruct (slack_survives_restart tree_load tree_dump tree_roundtrip "olga" (slack_change "xoxb-2") bench_app
    changed_reply changed_app [] bench_settings changed_settings H1 H2 H3 eq_refl H5 H4) as [H _]. exact H.
Defined.

Lemma update_accepts_unbootable_witness :
  exists reply s' d', put (slave_update 0) bench_app = (inr reply, s') /\
    read_disk tree_load config_file s' = inr (PvDict d') /\ build_settings config_file [] d' = inl ValidationError.
Proof.
  assert (config_file <> "") as H1 by discriminate.
  assert (section_flat "modbus" bench_config) as H2 by (apply bench_flat; unfold SECTIONS; set_solver).
  assert (~ (1 <= 0 <= 247)%Z) as H3 by lia.
  exact (update_accepts_unbootable tree_load tree_dump tree_roundtrip "olga" bench_app [] bench_config 0 H1 bench_read H2 eq_refl H3).
Defined.

(** Two tokens, one audit trail. *)
Lemma secrets_hidden_witness :
  ap_sys changed_app = ap_sys (snd (put (slack_change "xoxb-3") bench_app)).
Proof.
  assert (put (slack_change "xoxb-3") bench_app = (inr changed_reply, snd (put (slack_change "xoxb-3") bench_app))) as E
    by (apply injective_projections; [vm_compute; reflexivity|reflexivity]).
  assert (redact_update (slack_change "xoxb-2") = redact_update (slack_change "xoxb-3")) as Hb by (vm_compute; reflexivity).
  pose proof (secrets_hidden tree_load tree_dump "olga" (slack_change "xoxb-2") (slack_change "xoxb-3") bench_app bench_app
    changed_reply changed_reply changed_app (snd (put (slack_change "xoxb-3") bench_app)) eq_refl Hb eq_refl) as Hs.
  pose proof put_changed as E2. unfold put in E, E2.
  destruct (Hs E2 E) as (_ & _ & H & _).
  exact H.
Defined.

Lemma reload_everywhere_or_nowhere_witness :
  exists s', reload_route tree_load py_repr_exc "olga" bench_app = (inr (length (rm_registers h100_map), length (rm_controls h100_map)), s') /\
    Forall (eq h100_map) (maps_in_use s').
Proof.
  destruct (reload_route tree_load py_repr_exc "olga" bench_app) as [r s'] eqn:E.
  assert (r = inr (length (rm_registers h100_map), length (rm_controls h100_map))) as ->
    by (apply (f_equal fst) in E; cbn [fst] in E; rewrite <- E; vm_compute; reflexivity).
  exists s'. split; [reflexivity|].
  destruct (reload_everywhere_or_nowhere tree_load py_repr_exc "olga" bench_app _ _ E)
    as (_ & _ & _ & _ & _ & _ & _ & rm & Hl & Hf & _).
  assert (load_file tree_load (rm_path (ap_regmap bench_app)) bench_app = inr h100_map) as Hm by (vm_compute; reflexivity).
  rewrite Hm in Hl. injection Hl as <-. exact Hf.
Defined.

(** ** Queries *)

Lemma telemetry_query_total_witness :
  telemetry_query (sec 100) "state" None None 2000 empty_db <> inl (ReadFailed UnknownMetric) /\ (0 < 2000)%Z.
Proof.
  assert (0 < 2000)%Z as H by reflexivity. split; [|exact H].
  pose proof (telemetry_query_total (sec 100) "state" None None 2000 empty_db H) as Ht.
  intros E. rewrite E in Ht. exact Ht.
Defined.

(** ** The API *)

(** A decoder that knows one session: the admin olga. *)
Definition one_session (now : Z) (token secret : string) : jwt_result :=
  if token =? "olga-session" then JwtOk {| cl_sub := Some "olga"; cl_role := Some "admin"; cl_exp := sec 2000000000 |}
  else JwtInvalid "no such session".
Definition from_ui (path : string) (session : string) : Request :=
  {| rq_method := "POST"; rq_path := path; rq_headers := [("host", "gw:8080"); ("origin", "http://gw:8080")];
     rq_cookies := [("genwatch_session", session)]; rq_client := Some "10.0.0.7"; rq_scheme := "http" |}.
Definition bench_server : Server bench pyval :=
  {| sv_app := bench_app; sv_logins := login_limiter; sv_commands := command_limiter |}.

(** A token, a start with it, the same again, and a stranger's attempt. *)
Definition api_history : list (api_op (W := bench) (T := pyval)) :=
  [Serve (from_ui "/api/control/confirm" "olga-session") (RqConfirm ["T1"] (Some "start"));
   Serve (from_ui "/api/control/start" "olga-session") (RqControl "start" "T1");
   Serve (from_ui "/api/control/start" "olga-session") (RqControl "start" "T1");
   Serve (from_ui "/api/control/start" "stranger") (RqControl "start" "T1")].

