(* ===== verification/BootWitnesses.v ===== *)
(** * Concrete instances: start-up and the mock controller *)

From S2P Require Import Prelude PyNum PyVal Registers RegisterFacts RegisterValidation ShippedMaps Loader ShippedFiles Client Poller Database DatabaseFacts Events StateMachine Ats Control ControlFacts AtsControl Mock MockFacts RateLimit Slack Notify Http Config SettingsApi SettingsFacts Api Interlock Routes System Boot Bench Witnesses AppWitnesses.

Local Open Scope Z_scope.
Local Open Scope string_scope.

(** ** A host with both register files and no controller that answers *)

#[export] Instance dead_links : Dialer bench := {| dial := fun _ within w =>
  (match within with Some _ => TimedOut | None => Responded PduNone end, false, w) |}.
Lemma dead_links_answer : answers dead_links.
Proof. intros c within w. by destruct within. Qed.

Definition boot_config : pydict :=
  [("transport", PvStr "tcp"); ("modbus", PvDict [("slave", num 100)]);
   ("auth", PvDict [("jwt_secret", PvStr "0123456789abcdef0123456789abcdef0123456789abcdef0123456789abcdef");
                    ("admin_password_hash", PvStr "$2b$12$hash")]);
   ("ats", PvDict [("enabled", PvBool true)])].
Definition boot_files : gmap string pyval :=
  {[ config_file := PvDict boot_config; "/opt/genwatch/registers/h100.yaml" := h100_yaml;
     "/opt/genwatch/registers/ats_pi.yaml" := ats_pi_yaml ]}.
Definition token_hex : string := "fedcba9876543210fedcba9876543210fedcba9876543210fedcba9876543210".
(** SLAVE=7 in the environment of the second start. *)
Definition slave_env : pydict := [("modbus", PvDict [("slave", num 7)])].

Definition bench_start (env : pydict) : (boot_error + Running bench pyval) * bench :=
  lifespan tree_load (fun _ => inr empty_db) env (fun _ => true) "/" "/opt/genwatch" "0.1.0" token_hex (Some 30000000)
    None boot_files (bench0 [ack]).
Definition booted (r : boot_error + Running bench pyval) : bool := match r with inr _ => true | inl _ => false end.

Lemma bench_started env : booted (fst (bench_start env)) = true -> exists r w, bench_start env = (inr r, w).
Proof. destruct (bench_start env) as [[e|r] w]; [done|]. intros _. by eexists _, _. Qed.

(** ** Instances *)

Lemma start_needs_no_controller_witness :
  answers dead_links /\ exists r w, bench_start [] = (inr r, w) /\ ru_connected r = false /\ ru_client r = choose_client (ap_settings (sv_app (ru_server r))) (ap_regmap (sv_app (ru_server r))).
Proof.
  split; [exact dead_links_answer|].
  assert (match start_plan tree_load (fun _ => inr empty_db) [] (fun _ => true) "/" "/opt/genwatch" token_hex None boot_files
          with inr _ => true | inl _ => false end = true) as Hp by (vm_compute; reflexivity).
  assert (match fst (bench_start []) with inr r => ru_connected r | inl _ => true end = false) as Hc by (vm_compute; reflexivity).
  pose proof (start_needs_no_controller tree_load (fun _ => inr empty_db) [] (fun _ => true) "/" "/opt/genwatch" "0.1.0" token_hex
    (Some 30000000) dead_links None boot_files (bench0 [ack]) dead_links_answer) as H.
  destruct (start_plan _ _ _ _ _ _ _ _ _) as [e|pl]; [discriminate Hp|].
  destruct H as (c & a & w & H). unfold bench_start in *. rewrite H in *. eexists _, w. split; [reflexivity|].
  split; [exact Hc|reflexivity].
Defined.

Lemma start_guarantees_witness :
  exists r w, bench_start [] = (inr r, w) /\ sy_tokens (ap_sys (sv_app (ru_server r))) = [] /\
    secret_unusable (ac_jwt_secret (st_auth (ap_settings (sv_app (ru_server r))))) = false.
Proof.
  assert (booted (fst (bench_start [])) = true) as Hb by (vm_compute; reflexivity).
  destruct (bench_started [] Hb) as (r & w & H). exists r, w. split; [exact H|].
  assert (String.length token_hex = 64%nat) as Hlen by reflexivity.
  destruct (start_guarantees tree_load (fun _ => inr empty_db) [] (fun _ => true) "/" "/opt/genwatch" "0.1.0" token_hex
    (Some 30000000) dead_links None boot_files (bench0 [ack]) r w Hlen H) as (H1 & _ & _ & _ & _ & _ & _ & _ & H2 & _).
  split; [exact H2|exact H1].
Defined.

Definition boot_load (env : pydict) : res Settings :=
  load (fun p => tree_load <$> boot_files !! p) env (fun _ => true) "/" None.
Definition boot_loaded : Settings := value_of (boot_load []).
Definition slave_seven : ModbusConfig :=
  {| mc_slave := 7; mc_read_fc := 3; mc_prime_poll_ms := 1500; mc_base_poll_ms := 15000; mc_retries := 2;
     mc_register_file := "registers/h100.yaml" |}.

Lemma modbus_settings_ignored_witness :
  exists r r', fst (bench_start []) = inr r /\ fst (bench_start slave_env) = inr r' /\
    mc_slave (st_modbus (ap_settings (sv_app (ru_server r')))) = 7 /\ ru_client r' = ru_client r.
Proof.
  assert (boot_load [] = inr boot_loaded) as H1 by (vm_compute; reflexivity).
  assert (boot_load slave_env = inr (with_modbus slave_seven boot_loaded)) as H2 by (vm_compute; reflexivity).
  assert (mc_register_file slave_seven = mc_register_file (st_modbus boot_loaded)) as H3 by (vm_compute; reflexivity).
  assert (booted (fst (bench_start [])) = true) as Hb by (vm_compute; reflexivity).
  pose proof (modbus_settings_ignored tree_load (fun _ => inr empty_db) [] slave_env (fun _ => true) "/" "/opt/genwatch" "0.1.0"
    token_hex (Some 30000000) None boot_files (bench0 [ack]) boot_loaded slave_seven H1 H2 H3) as H.
  destruct (bench_started [] Hb) as (r & w & E). exists r, (running_modbus slave_seven r).
  unfold bench_start in *. rewrite E in *. cbn [fst]. rewrite H. split; [reflexivity|]. split; [reflexivity|]. split; reflexivity.
Defined.


(** ** The mock controller in the place of the bench *)

#[export] Instance still_env : MockEnv :=
  {| mock_sin := fun _ => f_of_Z 0; pause := fun now => now + msec 10;
     epoch := b_wall (sy_world plant) - b_mono (sy_world plant) |}.
Definition mock_world : MockWorld :=
  {| mw_slave := mk_with_connected true (MockSlave_init h100_map 0); mw_now := b_mono (sy_world plant) |}.
Definition mock_plant : Sys MockWorld :=
  {| sy_regmap := sy_regmap plant; sy_tokens := sy_tokens plant; sy_db := sy_db plant; sy_sm := sy_sm plant;
     sy_heap := sy_heap plant; sy_ats := sy_ats plant; sy_ats_regmap := sy_ats_regmap plant; sy_slack := sy_slack plant;
     sy_alerts := sy_alerts plant; sy_world := mock_world |}.

Lemma mock_gates : gates mock_plant "start" "T2" "olga" "operator" start_control (token_of "T2").
Proof.
  constructor.
  - decide_now.
  - exists "remote_start". split; vm_compute; reflexivity.
  - vm_compute. reflexivity.
  - apply stale_nil_fresh. vm_compute. reflexivity.
  - vm_compute. reflexivity.
  - decide_now.
  - split; [vm_compute; reflexivity|]. split; [vm_compute; reflexivity|].
    intros cv v Hc [= <-]. vm_compute in Hc. by injection Hc as <-.
Qed.

Lemma mock_is_what_it_shows_witness :
  derive_engine_state h100_map (decoded (MockSlave_init h100_map 0) (sec 60)) = "stopped".
Proof.
  assert (mk_state (MockSlave_init h100_map 0) ∈ MOCK_STATES) as H by decide_now.
  exact (proj1 (mock_is_what_it_shows (MockSlave_init h100_map 0) (sec 60) eq_refl H)).
Defined.

(** Started at second 1000 of the clock and read at 1020 and 1030, the engine runs. *)
Lemma mock_obeys_witness :
  derive_engine_state h100_map
    (decoded (reads [b_mono (sy_world plant) + sec 20; b_mono (sy_world plant) + sec 30]
                (mw_slave (sy_world (snd (execute "start" "T2" "olga" "operator" mock_plant))))) (sec 1040)) = "running".
Proof.
  assert (tokens_ok (sy_tokens mock_plant)) as H1 by decide_now.
  assert (0 <= mw_now (sy_world mock_plant) <= pause (mw_now (sy_world mock_plant))) as H2 by (split; vm_compute; discriminate).
  assert (mock_ok (mw_now (sy_world mock_plant)) (mw_slave (sy_world mock_plant))) as H3.
  { constructor; [decide_now|vm_compute; discriminate|discriminate|discriminate]. }
  assert (ordered (pause (mw_now (sy_world mock_plant)))
            ([] ++ (b_mono (sy_world plant) + sec 20) :: [] ++ (b_mono (sy_world plant) + sec 30) :: [])%list) as H4
    by (repeat split; vm_compute; discriminate).
  assert (pause (mw_now (sy_world mock_plant)) + sec 12 < b_mono (sy_world plant) + sec 20) as H5 by (vm_compute; reflexivity).
  assert (b_mono (sy_world plant) + sec 20 + sec 6 < b_mono (sy_world plant) + sec 30) as H6 by (vm_compute; reflexivity).
  pose proof (mock_obeys mock_plant "start" "T2" "olga" "operator" start_control (token_of "T2") [] _ [] _ []
    H1 mock_gates eq_refl H2 H3 eq_refl eq_refl eq_refl H4 H5 H6) as H.
  destruct (execute "start" "T2" "olga" "operator" mock_plant) as [r s']. destruct H as (_ & _ & H). exact (H (sec 1040)).
Defined.
