(* ===== verification/AuthWitnesses.v ===== *)
(** * Concrete instances: sessions

    Libraries that keep the laws of Auth.v: a token that spells its payload and key in
    binary digits, a hash that spells the password. *)

From S2P Require Import Prelude Database RateLimit Http Auth Bench Witnesses.
From Stdlib Require Import Ascii.

Local Open Scope Z_scope.
Local Open Scope string_scope.

Fixpoint digits (p : positive) : string :=
  match p with xH => "" | xO p => String "0"%char (digits p) | xI p => String "1"%char (digits p) end.
Fixpoint undigits (s : string) : positive :=
  match s with
  | EmptyString => xH
  | String c s => if Ascii.eqb c "1"%char then xI (undigits s) else xO (undigits s)
  end.
Lemma undigits_digits p : undigits (digits p) = p.
Proof. induction p as [p IH|p IH|]; [exact (f_equal xI IH)|exact (f_equal xO IH)|reflexivity]. Qed.
Lemma digits_ascii p : is_ascii (digits p) = true.
Proof. by induction p. Qed.

Definition spelled : Type := string * string * Z * Z * string.
#[export] Instance plain_jwt : Jwt :=
  {| jwt_encode := fun p secret => String "J"%char (digits (encode ((pl_sub p, pl_role p, pl_iat p, pl_exp p, secret) : spelled)));
     jwt_decode := fun now token secret =>
       match token with
       | String _ rest =>
           match (decode (undigits rest) : option spelled) with
           | Some (sub, role, iat, exp, key) =>
               if negb (key =? secret) then JwtInvalid "Signature verification failed"
               else if (now <? sec iat)%Z then JwtInvalid "The token is not yet valid (iat)"
               else if (sec exp <=? now)%Z then JwtExpired
               else JwtOk {| cl_sub := Some sub; cl_role := Some role; cl_exp := exp |}
           | None => JwtInvalid "Not enough segments"
           end
       | EmptyString => JwtInvalid "Not enough segments"
       end |}.
#[export] Instance plain_jwt_laws : JwtLaws plain_jwt.
Proof.
  split; [| |done]; intros now p secret _ Hi He; cbn [jwt_decode jwt_encode plain_jwt];
    rewrite undigits_digits, decode_encode, String.eqb_refl; cbn [negb];
    rewrite (proj2 (Z.ltb_ge _ _) Hi).
  - by rewrite (proj2 (Z.leb_gt _ _) He).
  - by rewrite (proj2 (Z.leb_le _ _) He).
Qed.

#[export] Instance plain_bcrypt : Bcrypt :=
  {| hashpw := fun raw salt => String "$"%char (digits (encode raw)); gensalt := fun _ => "";
     checkpw := fun raw hashed => match hashed with
                                  | String _ rest => bool_decide (decode (undigits rest) = Some raw)
                                  | EmptyString => false
                                  end |}.
#[export] Instance plain_bcrypt_laws : BcryptLaws plain_bcrypt.
Proof.
  split; [intros raw raw' salt _ _|intros raw salt; apply digits_ascii|done].
  cbn [hashpw checkpw gensalt plain_bcrypt]. rewrite undigits_digits, decode_encode, bool_decide_eq_true. naive_solver.
Qed.

Lemma password_roundtrip_witness :
  verify_password checkpw "correct horse" (hash_password "correct horse" 0) = true /\
  verify_password checkpw "battery staple" (hash_password "correct horse" 0) = false.
Proof.
  split; [apply password_roundtrip; [reflexivity|reflexivity|split; [discriminate|reflexivity]]|].
  apply not_true_iff_false. rewrite password_roundtrip by reflexivity. intros [_ H]. discriminate H.
Defined.

(** A login at second 100 of the epoch, and the session an hour later and a day later. *)
Definition session_auth : AuthConfig :=
  {| ac_admin_password_hash := hash_password "right" 0; ac_operator_name := "olga"; ac_jwt_secret := "key";
     ac_session_hours := 12; ac_cookie_secure := None; ac_cookie_samesite := "strict" |}.
Definition session_login : (HttpError + Cookie) * LoginState :=
  login checkpw signer (sec 100) 0 session_auth (browser "http://gw:8080") "right" bench_login.
Definition session_cookie : Cookie :=
  match fst session_login with
  | inr c => c
  | inl _ => {| ck_value := ""; ck_max_age := 0; ck_httponly := false; ck_samesite := ""; ck_secure := false; ck_path := "" |}
  end.
Definition session_request : Request :=
  {| rq_method := "GET"; rq_path := "/api/status"; rq_headers := []; rq_cookies := [("genwatch_session", ck_value session_cookie)];
     rq_client := None; rq_scheme := "http" |}.

Lemma session_roundtrip_witness :
  require_admin jwt_decode (sec 3700) "key" session_request = inr {| p_operator := "olga"; p_role := "admin" |} /\
  require_operator jwt_decode (sec 86500) "key" session_request = inl (http_error 401 "token expired").
Proof.
  assert (session_login = (inr session_cookie, snd session_login)) as H1 by (vm_compute; reflexivity).
  assert (ac_jwt_secret session_auth <> "") as H2 by discriminate.
  assert (sec 100 <= sec 3700) as H3 by (vm_compute; discriminate).
  assert (sec 100 <= sec 86500) as H4 by (vm_compute; discriminate).
  assert (od_get "genwatch_session" (rq_cookies session_request) = Some (ck_value session_cookie)) as H5 by reflexivity.
  destruct (session_roundtrip checkpw (sec 100) 0 session_auth (browser "http://gw:8080") "right" bench_login session_cookie
    (snd session_login) (sec 3700) session_request H1 H2 H3 H5) as (Hlive & _ & _).
  destruct (session_roundtrip checkpw (sec 100) 0 session_auth (browser "http://gw:8080") "right" bench_login session_cookie
    (snd session_login) (sec 86500) session_request H1 H2 H4 H5) as (_ & Hdead & _).
  split; [apply Hlive; vm_compute; reflexivity|apply Hdead; vm_compute; discriminate].
Defined.
