(* ===== verification/RetentionWitnesses.v ===== *)
(** * Concrete instances: a run of the retention service

    Thirteen ticks with samples in four minutes; the window of the last one starts
    inside the first of them. *)

From S2P Require Import Prelude PyNum Registers Poller Database DatabaseFacts Retention Hourly.

Local Open Scope Z_scope.

Definition ret_cfg : RetentionConfig :=
  {| raw_days := 7; rollup_1m_days := 90; rollup_1h_days := 730; events_days := 30; audit_days := 0 |}.
Definition no_rows : Database :=
  {| db_telemetry := []; db_telemetry_1m := []; db_telemetry_1h := []; db_events := []; db_next_event := 1;
     db_alarms := []; db_audit := []; db_next_audit := 1; db_kv := [] |}.
Definition rows_at (s : Z) : RetEvent := EvWrite (sec s) ∅ "running" 0.
Definition whole_tick : list RetEvent := replicate 7 EvOp.
(** A start half a minute after the hour's tenth minute began, three samples in that
    minute, one in each of the next. *)
Definition first_minutes : list RetEvent :=
  [EvPass (sec 5); rows_at 605; EvPass (sec 25); EvStart] ++ whole_tick ++
  [EvPass (sec 5); rows_at 633; EvPass (sec 20); rows_at 655; EvPass (sec 60); rows_at 700; EvPass (sec 60); rows_at 760].
Definition next_tick : list RetEvent := [EvPass (sec 300); EvWake] ++ whole_tick.
Definition catch_up : list RetEvent := [EvPass (sec 155); EvWake] ++ whole_tick.
Definition ret_hour (n : nat) : list RetEvent := first_minutes ++ catch_up ++ concat (replicate n next_tick).
Definition ret_state (n : nat) : Retention :=
  default (ret_init (sec 600) no_rows) (ret_run ret_cfg (ret_hour n) (ret_init (sec 600) no_rows)).

(** After the second tick the tenth minute holds its three samples; the window of the
    thirteenth starts at 630 s and leaves the two after that. *)
Lemma minute_cut :
  rs_ticks (ret_state 11) !! 12%nat = Some (sec 4230) /\ cuts 10 (sec 4230) = true /\
  m_samples <$> minute_at 600 (db_telemetry_1m (rs_db (ret_state 0))) = Some 3 /\
  m_samples <$> minute_at 600 (db_telemetry_1m (rs_db (ret_state 10))) = Some 3 /\
  m_samples <$> minute_at 600 (db_telemetry_1m (rs_db (ret_state 11))) = Some 2.
Proof. by vm_compute. Qed.

Lemma rollup_history_witness :
  exists c, let kept := List.filter (fun r => c <=? tl_ts r) (group_rows minute_key 10 (rs_written (ret_state 11))) in
    minute_at 600 (db_telemetry_1m (rs_db (ret_state 11))) = match kept with [] => None | _ => Some (minute_row kept 10) end /\
    length kept <> 0%nat.
Proof.
  assert (1 <= raw_days ret_cfg) as H1 by (vm_compute; discriminate).
  assert (sec 60 <= sec 600) as H2 by (vm_compute; discriminate).
  assert (Forall (fun r => 0 <= tl_ts r < sec 600) (db_telemetry no_rows)) as H3 by constructor.
  assert (Forall (fun r => m_ts r * sec 1 < sec 600) (db_telemetry_1m no_rows)) as H4 by constructor.
  assert (ret_run ret_cfg (ret_hour 11) (ret_init (sec 600) no_rows) = Some (ret_state 11)) as H5 by (vm_compute; reflexivity).
  assert (prompt ret_cfg (ret_hour 11) (ret_init (sec 600) no_rows) = true) as H6 by (vm_compute; reflexivity).
  assert (sec 600 <= 10 * sec 60) as H7 by (vm_compute; discriminate).
  assert ((10 + 1) * sec 60 <= rs_front (ret_state 11)) as H8 by (vm_compute; discriminate).
  assert (Z.quot (last_tick (sec 600) (ret_state 11) - days (rollup_1m_days ret_cfg)) (sec 1) <= 10 * 60) as H9 by (vm_compute; discriminate).
  destruct (rollup_history ret_cfg (ret_hour 11) (sec 600) no_rows (ret_state 11) 10 H1 H2 H3 H4 H5 H6 H7 H8 H9)
    as (c & Hrow & Hne & _).
  exists c. split; [exact Hrow|]. intros E. apply length_zero_iff_nil in E. specialize (Hne E). vm_compute in Hne. discriminate Hne.
Defined.

(** *** An hour of load

    A service that starts at the second hour and samples every minute: 60 kW for 55 minutes,
    then none; its ticks fall on multiples of five minutes. *)
Definition load_at (s kw : Z) : RetEvent := EvWrite (sec s) {["total_kw" := PInt kw]} "running" 0.
Definition five_minutes (j : Z) : list RetEvent :=
  concat (map (fun i => [EvPass (sec 60); load_at (3600 + 300 * j + 60 * i) (if j <? 11 then 60 else 0)]) (seqZ 0 5)) ++
  [EvWake] ++ whole_tick.
Definition load_start : list RetEvent := EvStart :: whole_tick.
Definition load_state (j : Z) : Retention :=
  default (ret_init (sec 3600) no_rows)
    (ret_run ret_cfg (load_start ++ concat (map five_minutes (seqZ 0 j))) (ret_init (sec 3600) no_rows)).
Definition hour_energy (j : Z) : option Q := (fun r => Qred (h_kwh r)) <$> hour_at 3600 (db_telemetry_1h (rs_db (load_state j))).

(** Two hours after its beginning the hour has its 55 kWh; the window of the tick 25
    minutes later leaves 30 of them, the last window with any minute none. *)
Lemma hour_lost :
  hour_energy 24 = Some 55%Q /\ hour_energy 29 = Some 30%Q /\ hour_energy 36 = Some 0%Q /\
  h_samples <$> hour_at 3600 (db_telemetry_1h (rs_db (load_state 36))) = Some 5.
Proof. by vm_compute. Qed.

(** A start two minutes before the third hour ends, on an hour of minutes already there. *)
Definition hour_of_minutes : Database :=
  db_with_1m (map (fun i => {| m_ts := 60 * i; m_avg := ∅; m_min := ∅; m_max := ∅; m_samples := 4 |}) (seqZ 0 60)) no_rows.
Definition late_state : Retention :=
  default (ret_init (sec 10680) hour_of_minutes) (ret_run ret_cfg (EvStart :: whole_tick) (ret_init (sec 10680) hour_of_minutes)).

Lemma hour_row_is_its_tail_witness :
  exists c, c ∈ rs_hourly late_state /\ sec 10680 <= c /\
    hour_at 0 (db_telemetry_1h (rs_db late_state)) =
      Some (hour_row (hour_tail 0 (c - sec (2 * 3600)) (db_telemetry_1m (rs_db late_state))) 0) /\
    h_samples <$> hour_at 0 (db_telemetry_1h (rs_db late_state)) = Some 8.
Proof.
  assert (ret_run ret_cfg (EvStart :: whole_tick) (ret_init (sec 10680) hour_of_minutes) = Some late_state) as H1 by (vm_compute; reflexivity).
  assert (kept_at ret_cfg 0 (last_tick (sec 10680) late_state)) as H2 by (vm_compute; split; [|intros _]; discriminate).
  assert (sec 10680 ∈ rs_hourly late_state) as H3 by (vm_compute; left).
  assert ((0 + 2) * sec 3600 <= sec 10680) as H4 by (vm_compute; discriminate).
  assert (hour_tail 0 (sec 10680 - sec (2 * 3600)) (db_telemetry_1m (rs_db late_state)) <> []) as H5 by (vm_compute; discriminate).
  destruct (hour_row_is_its_tail ret_cfg (EvStart :: whole_tick) (sec 10680) hour_of_minutes late_state 0 (sec 10680)
    H1 ltac:(lia) H2 H3 H4 H5) as (c & Hc & Hle & _ & Hrow & _).
  exists c. split; [exact Hc|]. split; [exact Hle|]. split; [exact Hrow|vm_compute; reflexivity].
Defined.
