(* ===== verification/ScriptWitnesses.v ===== *)
(** * Concrete instances: the commissioning script

    The script against the plant of Bench.v, once behind a filter that lets requests
    without an Origin pass, as the comment above the filter of main.py has it, and once
    behind the filter of the code. *)

From S2P Require Import Prelude PyNum PyVal Registers ShippedMaps Client Poller Database Events StateMachine Ats Control ControlFacts AtsControl RateLimit Slack Http Config SettingsApi Api Interlock Routes Acceptance Commissioning Bench Witnesses AppWitnesses.

Local Open Scope Z_scope.
Local Open Scope string_scope.

Definition lenient_filter (sv : Server bench pyval) (rq : Request) : csrf_decision :=
  if negb (truthy (header "origin" rq)) && negb (truthy (header "referer" rq)) then CsrfForward
  else csrf_origin_check (Some (st_cors_origins (ap_settings (sv_app sv)))) [] rq.
Definition code_filter (sv : Server bench pyval) (rq : Request) : csrf_decision :=
  csrf_origin_check (Some (st_cors_origins (ap_settings (sv_app sv)))) [] rq.

Definition plain_reply (code : Z) (v : pyval) : Reply :=
  {| rp_code := Some code; rp_body := BodyJson v; rp_cookie := None |}.
Definition bench_view (q : sent) (sv : Server bench pyval) : Reply :=
  let rq := sn_request q in
  if rq_path rq =? "/api/health" then plain_reply 200 (PvDict [("ok", PvBool true); ("mock", PvBool false)])
  else if negb (rq_method rq =? "GET") then plain_reply 422 (PvDict [])
  else match od_get "genwatch_session" (rq_cookies rq) with
       | Some _ => plain_reply 200 (PvDict [("state", PvStr "stopped")])
       | None => plain_reply 401 (PvDict [])
       end.
Definition bench_render (q : sent) (r : api_error + reply) : Reply :=
  match r with
  | inl (Http e) => plain_reply (he_status e) (PvDict [("detail", PvDict [("code", PvStr (he_code e))])])
  | inl (Uncaught _) => plain_reply 500 (PvDict [])
  | inr (RpCookie c) => {| rp_code := Some 200; rp_body := BodyJson (PvDict []); rp_cookie := Some ("genwatch_session", c) |}
  | inr (RpToken (Some t)) => plain_reply 200 (PvDict [("token", PvStr (ct_token t))])
  | inr _ => plain_reply 200 (PvDict [])
  end.

Definition bench_args : Args :=
  {| ar_base_url := "http://127.0.0.1:8000"; ar_password := Some "right"; ar_expected_unit_id := 23; ar_expect_mock := Some false;
     ar_actuate := false; ar_local_checks := true |}.
Definition bench_host : Host :=
  {| ho_env_password := None; ho_prompt := ""; ho_nonce := "0011aabb"; ho_client := Some "127.0.0.1";
     ho_systemctl := fun _ _ => CtlMissing; ho_watchdog := true; ho_rounds := 15 |}.

Definition commission (filter : Server bench pyval -> Request -> csrf_decision) : (pyexc + Z) * Script (Server bench pyval) :=
  main (api_respond bench_ats_client tree_load tree_dump py_repr_exc one_session (fun plain _ => plain =? "right")
          (fun _ _ _ _ _ => "olga-session") filter (fun _ => ["T1"; "T2"]) bench_view bench_render)
    (fun sv => sv) bench_args bench_host (script_init bench_server).

(** With the lenient filter the run ends well and a token was issued; behind the code's
    it ends at the login. *)
Lemma commission_outcomes :
  fst (commission lenient_filter) = inr 0 /\
  od_keys (sy_tokens (sys_of (sc_service (snd (commission lenient_filter))))) = ["T1"] /\
  fst (commission code_filter) = inr 1 /\
  map rw_name (List.filter (fun r => bool_decide (rw_status r = FAIL)) (sc_rows (snd (commission code_filter)))) =
    ["unauthenticated POST /api/control/start refused"; "unauthenticated POST /api/ats/test refused";
     "wrong password refused"; "admin login"].
Proof. vm_compute. split_and!; reflexivity. Qed.

Lemma commissioning_leaves_wires_witness :
  sy_world (sys_of (sc_service (snd (commission lenient_filter)))) = sy_world (sys_of bench_server).
Proof.
  assert (ar_actuate bench_args = false) as H1 by reflexivity.
  assert (tokens_ok (sy_tokens (sys_of bench_server))) as H2 by constructor.
  assert (forall word, word ∈ WORDS -> no_token word bench_server) as H3 by (intros word _; reflexivity).
  assert (forall (sv : Server bench pyval) word, word ∈ WORDS -> word ∉ ["T1"; "T2"]) as H4.
  { intros _ word Hw. unfold WORDS, BAD in Hw. set_solver. }
  assert (forall sv : Server bench pyval, sys_of sv = sys_of sv) as H5 by reflexivity.
  exact (commissioning_leaves_wires bench_ats_client tree_load tree_dump py_repr_exc one_session (fun plain _ => plain =? "right")
    (fun _ _ _ _ _ => "olga-session") lenient_filter (fun _ => ["T1"; "T2"]) bench_view bench_render
    (fun sv => sv) bench_args bench_host bench_server H1 H2 H3 H4 H5).
Defined.
